(* ===== verification/_CoqProject ===== *)
-Q . S2P
Prelude.v
GoStd.v
GoText.v
GoTime.v
Observation.v
Collector.v
CollectorProps.v
TfMeta.v
TfMetaProps.v
Pkt.v
PktProps.v
Responder.v
ResponderSpec.v
Wire.v
Demo.v
ResponderProps.v
Sniffer.v
SnifferProps.v
Client.v
System.v
EndToEnd.v
TcpDialog.v
Runs.v
Attach.v
Watch.v
WatchProps.v
GoJson.v
GoJsonProps.v
JsonCodec.v
ObsJson.v
Ovs.v
OvsProps.v
Emit.v
EmitProps.v
Pipeline.v
TimeParse.v
Otlp.v
Metrics.v
VxlanWatch.v
VxlanProps.v
AgentMain.v
AgentMainProps.v
Bpf.v
BpfSpec.v
BpfProps.v
BpfAgree.v
Journey.v
Network.v
GoFlag.v
CommandLine.v
WireBytes.v
Tap.v
JsonTyped.v
CollectorHttp.v
