(* ===== verification/Prelude.v ===== *)
(** * Verification of traceflow

    traceflow traces the path of marked probe packets through a data centre
    network.  A client (client/) sends probes that carry DSCP 62 and a 30-byte
    control block with a run id; agents (agent/) observe them with an eBPF program
    on every hop, and the agent of the destination VM answers in its place; a
    collector (collector/) gathers the observations of a run into a path.  This
    library models the Go code of these programs, and the eBPF program, as
    executable definitions and proves what makes them correct.

    ** Parts of the program and files of the library

    - Prelude: machine integers as [Z] with their wrap-around ([u8] .. [u64],
      [i64]), byte strings, big- and little-endian encoding, the monad [go] of
      computations that may panic (every index and slice expression of the source
      is written with its bounds check), the state monad [st], and the tactics and
      lemmas all files share.
    - GoStd, GoText, GoTime: what the program uses of Go's standard library as
      executable definitions, with test vectors: SHA-256 and HMAC, FNV-1a, net.IP
      (To4, To16, String), net.ParseIP, net.ParseMAC, RFC3339Nano, UUID text.
    - TfMeta, TfMetaProps (internal/tfmeta): the control block: Marshal, Sign,
      Signed, Verify, Unmarshal; round trip, exact outcomes, authentication.
    - Pkt, PktProps (internal/pkt): the packet builders, written as the source
      writes into its buffers; each [*_layout] lemma gives the bytes as a
      concatenation of fields.  The checksum loop is the one's-complement sum, and
      every header and segment built verifies at the receiver.
    - Responder (agent/responder.go): parsers, the gate, sanitize, the replies for
      ICMP, UDP and TCP over IPv4 and IPv6, VXLAN re-encapsulation, the receive
      loop.  [responder] has the fields that do not change, [rstate] what a run
      changes: the TCP flows, the counters, and the frames handed to the socket.
    - ResponderSpec: the same as pure functions ([frame_reply], [ip_reply],
      [tcp_reply], the connection machine [conn_step]) and the equations that the
      code computes them; Wire: parsing what the builders emit; Demo: a concrete
      agent; ResponderProps: no panic, only authenticated probes are answered, the
      echo keeps the identity, answers are inert and not longer than requests,
      the TCP side refines the connection machine, VXLAN answers mirror the
      tunnel.
    - Sniffer, SnifferProps (client/sniffer.go): decoding of captured frames, and
      its agreement with the responder's own parsers.
    - Client (client/main.go): the commands icmp, udp, htcp, tcp and vxlan over the
      class [Host] of what the client asks of its machine; a run is a function of
      the host that ends in a log of reports, a fatal exit or a panic.
    - System: a client host and an agent on one segment, as an instance of
      [Host]; EndToEnd, TcpDialog, Runs: whole runs, in which the client's probe
      is answered by the agent and recognised by the client, and two runs that do
      not do what the user expects.
    - Observation (internal/observation): the kernel's record and the record that
      is shipped; Collector, CollectorProps (collector/main.go): the store behind
      its mutex as a transition system over requests, with its bounds, eviction
      and sorting.
    - Attach (agent/attach.go): attaching programs with TCX, clsact or XDP over a
      kernel that may refuse any step; all or nothing.  Watch, WatchProps
      (agent/watch.go, local addresses of agent/main.go): the manager of VM taps
      as a transition system over discovered ports: which taps are attached, which
      addresses are intercepted, which programs are in the kernel.
    - GoJson, GoJsonProps: encoding/json as an executable reader and printer of
      JSON values (escapes, UTF-8, numbers, depth limit), with the round trip;
      JsonCodec: what a struct with tags is written as and read from; ObsJson: the
      JSON of an observation, written by agents and read by the collector.
    - Ovs, OvsProps (internal/ovs): what ovs-vsctl and ovn-nbctl print is read into
      ports and addresses; with Watch, a scan follows the tables of OVS.
    - Emit, EmitProps (agent/emit.go, readLoop of agent/main.go): printing, the
      bounded queue, the shipping goroutine as steps, the cache of logical
      switches, and the loop that feeds them from the ring buffer.
    - Pipeline: any number of agents and a collector, between them a network that
      may lose posts; what /path answers is what agents saw and posted.
    - TimeParse: time.Parse of RFC3339 on the texts time.Format writes; Otlp
      (agent/otlp.go): the span of an observation; Metrics (agent/metrics.go): the
      page for Prometheus, and a scraper that reads it back.
    - VxlanWatch, VxlanProps (agent/vxlanwatch.go): the VXLAN devices followed
      through netlink messages.
    - GoFlag: package flag (flag sets, the syntax of arguments, Boolean, integer,
      string and duration values with strconv's and time's parsers), with the
      grammar of the command lines it reads and the proof that it reads exactly
      those.  CommandLine: the flags of client/main.go, agent/main.go and
      collector/main.go, main from os.Args on, and the ticker of the tap watcher.
    - AgentMain, AgentMainProps (agent/main.go): the checks of the options,
      [run] with its deferred calls, and the goroutines of the agent as a
      transition system: what is left of it when it has returned.
    - Bpf (bpf/traceflow.c, traceflow.h): the eBPF program at its TC hooks and at
      XDP.  A load is a read of the packet's bytes that panics outside of it, so
      that the bounds checks matter; [maps] are its eBPF maps, [handle] runs in
      [st maps] and its helpers (the clock, whether the ring buffer has room, the
      key of the tunnel) are arguments.  BpfSpec: what it computes, as pure
      functions that share their parts with ResponderSpec, and the equations.
      BpfProps: no load outside the packet, one record and one count for a marked
      probe, records that the agent decodes, what is recorded of a client's
      probe, XDP and TC ingress agree.  BpfAgree: with the maps that the agent
      writes, the program drops a probe exactly when the responder answers it,
      for the probes of a client with the key; the packets for which the two
      disagree; every probe dropped on a watched tap is answered.
    - Journey: one probe through several hosts, from the eBPF programs over the
      loops of the agents and the posts to the path at the collector.
    - Network: the whole system as a transition system: hosts with an eBPF program
      and an agent, and the collector.  It refines the system of Pipeline; every
      entry of a path stands for a packet that a program recorded, and nothing is
      missing once everything has arrived.
    - JsonTyped: what the JSON decoder stores is well typed, whatever bytes it is
      given.  CollectorHttp: the collector's handlers behind their paths and the
      texts of /path and /paths, which read back as what the store holds.
    - WireBytes: everything the client puts on the wire is a list of bytes.  Tap: the
      segment of System with the eBPF program at the ingress hook of the VM's tap,
      again as an instance of [Host]: what the client reports, what the VM gets and
      what is recorded, for every choice of --response and --deliver.

    ** How code becomes definitions

    A Go function is a definition with the same name and the same control flow;
    early returns are nested conditionals.  A function that can panic returns in
    [go]; one that changes the responder's fields is in [st rstate].  A byte slice
    is a list of [Z]; a nil slice is the empty list.  A Go map is a [gmap].  Loops
    are structural recursion; three have a bound: the carry fold of the checksum
    (two folds are enough for a 32-bit sum, which is proved), the VLAN loop (two
    tags, as in the source), and the receive loop of the client, which takes fuel;
    the theorems about runs state how much fuel is enough (the number of queued
    frames plus two or three) and give the result of the run, so none of them is
    true of a run that does not end.

    ** What is a parameter

    Sockets: which sends succeed and what is received.  The host of the client.
    unix.ParseSocketControlMessage, net.InterfaceByIndex.  The helpers of the
    kernel that the eBPF program calls (its clock, room in the ring buffer).  Which calls of the
    kernel, of the eBPF maps and of a responder's socket fail.  What the commands
    of OVS and OVN print, or that they fail; the links and messages of netlink;
    which posts arrive.  uuid.Parse, of which the law is used that it reads what
    UUID.String writes; unicode.IsPrint; the general parser behind the fast path
    of time.Parse.  Theorems hold for all of them.  CollectorProps takes the JSON
    decoder of the collector as a parameter; Pipeline uses the one of ObsJson.

    In AgentMain an operation under a mutex is one step, a goroutine ends only at
    the points where its code looks at its stop channel, and a theorem that takes
    the watchers to be quiet says so in its hypotheses.

    ** What is not modelled

    The HTTP servers around the handlers (net/http, with the decoding of a query and
    the redirect of paths that are not clean), the usage texts, what the OpenTelemetry SDK
    does with a span, the text of log messages, and agent/gen.go, which only holds
    a directive for the generator of the Go side of the eBPF program.  Of a packet
    buffer the eBPF program sees one linear piece; the verifier of the kernel is
    not modelled, but BpfProps proves what it asks for, that every load is inside
    the packet.

    ** What could come next

    The lookups of logical switches and ports by their keys; TCP dialogs and probes
    in a tunnel in the system of Tap; the interval of the tap watcher as time that
    passes, where now a scan can happen at any step. *)
From Stdlib Require Export ZArith Lia ZifyBool ZifyNat.
From stdpp Require Export base tactics list numbers.

Local Open Scope Z_scope.

(** * Machine integers

    A Go value of type uintN is a [Z]; the operations that can leave the range
    of the type are followed by the wrap-around of the type. *)

Definition u8 (z : Z) : Z := z mod 256.
Definition u16 (z : Z) : Z := z mod 65536.
Definition u32 (z : Z) : Z := z mod 4294967296.
Definition u64 (z : Z) : Z := z mod 18446744073709551616.

(** Conversion of a uint64 to int64: two's complement. *)
Definition i64 (z : Z) : Z :=
  let w := u64 z in if w <? 9223372036854775808 then w else w - 18446744073709551616.

Arguments u8 : simpl never.
Arguments u16 : simpl never.
Arguments u32 : simpl never.
Arguments u64 : simpl never.
Arguments i64 : simpl never.

Lemma u8_range z : 0 <= u8 z < 256.
Proof. by apply Z.mod_pos_bound. Qed.
Lemma u16_range z : 0 <= u16 z < 65536.
Proof. by apply Z.mod_pos_bound. Qed.
Lemma u32_range z : 0 <= u32 z < 4294967296.
Proof. by apply Z.mod_pos_bound. Qed.
Lemma u64_range z : 0 <= u64 z < 18446744073709551616.
Proof. by apply Z.mod_pos_bound. Qed.

Lemma u8_small z : 0 <= z < 256 -> u8 z = z.
Proof. apply Z.mod_small. Qed.
Lemma u16_small z : 0 <= z < 65536 -> u16 z = z.
Proof. apply Z.mod_small. Qed.
Lemma u32_small z : 0 <= z < 4294967296 -> u32 z = z.
Proof. apply Z.mod_small. Qed.
Lemma u64_small z : 0 <= z < 18446744073709551616 -> u64 z = z.
Proof. apply Z.mod_small. Qed.

Lemma u64_add_idemp a b : u64 (u64 a + b) = u64 (a + b).
Proof. apply Z.add_mod_idemp_l. lia. Qed.

Lemma i64_small z : -9223372036854775808 <= z < 9223372036854775808 -> i64 z = z.
Proof.
  intros H. unfold i64, u64. destruct (Z.ltb_spec (z mod 18446744073709551616) 9223372036854775808);
    Z.to_euclidean_division_equations; lia.
Qed.

(** Bit tests of the form [x & m != 0] for a one-bit mask. *)
Definition has_bit (x m : Z) : bool := negb (Z.land x m =? 0).

(** * Byte strings *)

Abbreviation bytes := (list Z).

Definition is_byte (b : Z) : Prop := 0 <= b < 256.
Definition bytes_ok (l : bytes) : Prop := Forall is_byte l.

#[export] Instance is_byte_dec b : Decision (is_byte b).
Proof. unfold is_byte. apply _. Defined.
#[export] Instance bytes_ok_dec l : Decision (bytes_ok l).
Proof. unfold bytes_ok. apply _. Defined.

(** A decidable property of closed terms is checked by evaluation. *)
Ltac compute_decide := refine (bool_decide_unpack _ _); vm_compute; exact I.

(** Big-endian encoding of the [n] low bytes of [v], and decoding, with the
    shifts of encoding/binary. *)
Fixpoint be_encode (n : nat) (v : Z) : bytes :=
  match n with
  | O => []
  | S n' => u8 (Z.shiftr v (8 * Z.of_nat n')) :: be_encode n' v
  end.

Definition be_step (acc b : Z) : Z := Z.lor (Z.shiftl acc 8) b.
Definition be_decode (l : bytes) : Z := foldl be_step 0 l.

(** Little-endian: the same bytes in reverse order. *)
Definition le_encode (n : nat) (v : Z) : bytes := rev (be_encode n v).
Definition le_decode (l : bytes) : Z := be_decode (rev l).

Lemma u8_byte z : is_byte (u8 z).
Proof. apply u8_range. Qed.

Lemma length_be_encode n v : length (be_encode n v) = n.
Proof. induction n; simpl; congruence. Qed.

Lemma length_le_encode n v : length (le_encode n v) = n.
Proof. unfold le_encode. by rewrite length_rev, length_be_encode. Qed.

Lemma be_encode_ok n v : bytes_ok (be_encode n v).
Proof. induction n; simpl; constructor; [apply u8_byte | done]. Qed.

Lemma bytes_ok_app l k : bytes_ok (l ++ k) <-> bytes_ok l /\ bytes_ok k.
Proof. apply Forall_app. Qed.

Lemma bytes_ok_snoc l b : bytes_ok (l ++ [b]) <-> bytes_ok l /\ is_byte b.
Proof. rewrite bytes_ok_app. unfold bytes_ok. by rewrite Forall_singleton. Qed.

Lemma bytes_ok_cons b l : bytes_ok (b :: l) <-> is_byte b /\ bytes_ok l.
Proof. apply Forall_cons_iff. Qed.

Lemma bytes_ok_rev l : bytes_ok (rev l) <-> bytes_ok l.
Proof. unfold bytes_ok. rewrite rev_alt. apply Forall_reverse. Qed.

Lemma le_encode_ok n v : bytes_ok (le_encode n v).
Proof. apply bytes_ok_rev, be_encode_ok. Qed.

Lemma bytes_ok_take n l : bytes_ok l -> bytes_ok (take n l).
Proof. apply Forall_take. Qed.

Lemma bytes_ok_drop n l : bytes_ok l -> bytes_ok (drop n l).
Proof. apply Forall_drop. Qed.

Lemma bytes_ok_zeros n : bytes_ok (replicate n 0).
Proof. apply Forall_replicate. unfold is_byte. lia. Qed.

(** Joining a shifted accumulator and a byte with [|] adds them. *)
Lemma lor_shiftl_byte a b : 0 <= a -> is_byte b -> Z.lor (Z.shiftl a 8) b = a * 256 + b.
Proof.
  intros Ha [Hb1 Hb2].
  rewrite <- Z.add_lor_land, (Z.shiftl_mul_pow2 a 8) by lia.
  change (2 ^ 8) with 256.
  enough (Z.land (a * 256) b = 0) as -> by lia.
  apply Z.bits_inj'. intros n Hn. rewrite Z.land_spec, Z.bits_0.
  change 256 with (2 ^ 8). rewrite Z.mul_pow2_bits by lia.
  destruct (Z.ltb_spec n 8) as [Hlt | Hge].
  - rewrite (Z.testbit_neg_r a) by lia. done.
  - replace (Z.testbit b n) with false; [apply andb_false_r |].
    symmetry. destruct (Z.eq_dec b 0) as [-> | Hnz]; [apply Z.bits_0 |].
    apply Z.bits_above_log2; [lia |].
    assert (Z.log2 b < 8) by (apply Z.log2_lt_pow2; lia). lia.
Qed.

Lemma be_decode_snoc l b : be_decode (l ++ [b]) = be_step (be_decode l) b.
Proof. unfold be_decode. by rewrite foldl_app. Qed.

Lemma be_decode_bound l :
  bytes_ok l -> 0 <= be_decode l < 256 ^ Z.of_nat (length l).
Proof.
  induction l as [|b l IH] using rev_ind; [cbn; lia |].
  intros [Hl Hb]%bytes_ok_snoc. specialize (IH Hl).
  rewrite be_decode_snoc. unfold be_step. rewrite lor_shiftl_byte by (done || lia).
  rewrite length_app, Nat2Z.inj_add. cbn [length]. rewrite Z.pow_add_r by lia.
  unfold is_byte in Hb. change (256 ^ Z.of_nat 1) with 256. lia.
Qed.

Lemma be_decode_snoc_add l b :
  bytes_ok l -> is_byte b -> be_decode (l ++ [b]) = be_decode l * 256 + b.
Proof.
  intros Hl Hb. rewrite be_decode_snoc. apply lor_shiftl_byte; [|done].
  apply be_decode_bound in Hl. lia.
Qed.

Lemma be_encode_snoc n v : be_encode (S n) v = be_encode n (Z.shiftr v 8) ++ [u8 v].
Proof.
  induction n as [|n IH]; [cbn [be_encode app]; by rewrite Z.shiftr_0_r |].
  change (be_encode (S (S n)) v) with
    (u8 (Z.shiftr v (8 * Z.of_nat (S n))) :: be_encode (S n) v).
  rewrite IH. cbn [be_encode app]. do 2 f_equal.
  rewrite Z.shiftr_shiftr by lia. f_equal. lia.
Qed.

(** Decoding what was encoded gives the value modulo the width. *)
Lemma be_decode_encode n v : be_decode (be_encode n v) = v mod 256 ^ Z.of_nat n.
Proof.
  revert v. induction n as [|n IH]; intros v; [by rewrite Z.mod_1_r |].
  rewrite be_encode_snoc, be_decode_snoc_add by (apply be_encode_ok || apply u8_byte).
  rewrite IH, Z.shiftr_div_pow2 by lia. change (2 ^ 8) with 256. unfold u8.
  rewrite Nat2Z.inj_succ, Z.pow_succ_r by lia.
  rewrite Z.rem_mul_r by lia. lia.
Qed.

(** Encoding what was decoded gives the bytes back. *)
Lemma be_encode_decode l : bytes_ok l -> be_encode (length l) (be_decode l) = l.
Proof.
  induction l as [|b l IH] using rev_ind; [done |].
  intros [Hl Hb]%bytes_ok_snoc.
  rewrite length_app, Nat.add_comm. cbn [length Nat.add].
  rewrite be_encode_snoc, be_decode_snoc_add by done.
  unfold is_byte in Hb. rewrite Z.shiftr_div_pow2 by lia. change (2 ^ 8) with 256.
  rewrite Z.div_add_l, (Z.div_small b), Z.add_0_r by lia.
  rewrite (IH Hl). unfold u8. by rewrite Z.add_comm, Z_mod_plus_full, Z.mod_small by lia.
Qed.

Lemma le_decode_encode n v : le_decode (le_encode n v) = v mod 256 ^ Z.of_nat n.
Proof. unfold le_decode, le_encode. by rewrite rev_involutive, be_decode_encode. Qed.

Lemma le_encode_decode l : bytes_ok l -> le_encode (length l) (le_decode l) = l.
Proof.
  intros Hl. unfold le_decode, le_encode. rewrite <- length_rev.
  rewrite be_encode_decode by by apply bytes_ok_rev. apply rev_involutive.
Qed.

Lemma le_decode_bound l :
  bytes_ok l -> 0 <= le_decode l < 256 ^ Z.of_nat (length l).
Proof.
  intros Hl. unfold le_decode. rewrite <- length_rev.
  apply be_decode_bound. by apply bytes_ok_rev.
Qed.

(** * The Go panic monad

    A Go computation that indexes or slices returns a value or stops with a
    run-time panic. *)

Inductive go (A : Type) : Type :=
| Ret (a : A)
| Panic.
Arguments Ret {A} a.
Arguments Panic {A}.

#[export] Instance go_ret : MRet go := @Ret.
#[export] Instance go_bind : MBind go := fun A B f m =>
  match m with Ret a => f a | Panic => Panic end.

(** Computations that also thread a mutable state of type [S]. *)
Definition st (S A : Type) : Type := S -> go (A * S).

#[export] Instance st_ret S : MRet (st S) := fun A a s => Ret (a, s).
#[export] Instance st_bind S : MBind (st S) := fun A B f m s =>
  match m s with Ret (a, s') => f a s' | Panic => Panic end.

Definition lift {S A} (m : go A) : st S A := fun s =>
  match m with Ret a => Ret (a, s) | Panic => Panic end.
Definition getS {S} : st S S := fun s => Ret (s, s).
Definition modS {S} (f : S -> S) : st S unit := fun s => Ret (tt, f s).

(** ** Slices of bytes

    [slice b i j] is [b[i:j]] and [slice_from b i] is [b[i:]].  Go compares the
    upper bound of a slice expression with the capacity, which is at least the
    length: an expression that does not panic here does not panic in Go. *)

Definition index (b : bytes) (i : nat) : go Z :=
  match b !! i with Some x => Ret x | None => Panic end.

Definition slice (b : bytes) (i j : nat) : go bytes :=
  if ((i <=? j) && (j <=? length b))%nat then Ret (take (j - i) (drop i b)) else Panic.

Definition slice_from (b : bytes) (i : nat) : go bytes :=
  if (i <=? length b)%nat then Ret (drop i b) else Panic.

(** binary.BigEndian.UintN(b) and binary.LittleEndian.UintN(b). *)
Definition get_be (n : nat) (b : bytes) : go Z :=
  if (n <=? length b)%nat then Ret (be_decode (take n b)) else Panic.

Definition get_le (n : nat) (b : bytes) : go Z :=
  if (n <=? length b)%nat then Ret (le_decode (take n b)) else Panic.

(** ** Writes into a buffer *)

Definition make (n : nat) : bytes := replicate n 0.

Definition write (b : bytes) (i : nat) (w : bytes) : bytes :=
  take i b ++ w ++ drop (i + length w) b.

(** [b[i] = v]. *)
Definition set_at (b : bytes) (i : nat) (v : Z) : go bytes :=
  if (i <? length b)%nat then Ret (<[i := v]> b) else Panic.

(** [copy(b[i:j], src)]: as many bytes as both sides have. *)
Definition copy_at (b : bytes) (i j : nat) (src : bytes) : go bytes :=
  if ((i <=? j) && (j <=? length b))%nat
  then Ret (write b i (take (j - i) src)) else Panic.

(** [copy(b[i:], src)]. *)
Definition copy_from (b : bytes) (i : nat) (src : bytes) : go bytes :=
  copy_at b i (length b) src.

(** binary.BigEndian.PutUintN(b[i:j], v) and binary.LittleEndian.PutUintN. *)
Definition put_be (n : nat) (b : bytes) (i j : nat) (v : Z) : go bytes :=
  if ((i <=? j) && (j <=? length b) && (n <=? j - i))%nat
  then Ret (write b i (be_encode n v)) else Panic.

Definition put_le (n : nat) (b : bytes) (i j : nat) (v : Z) : go bytes :=
  if ((i <=? j) && (j <=? length b) && (n <=? j - i))%nat
  then Ret (write b i (le_encode n v)) else Panic.

Arguments make : simpl never.

(** * Reasoning about panics: weakest preconditions *)

Definition go_wp {A} (m : go A) (Q : A -> Prop) : Prop :=
  match m with Ret a => Q a | Panic => False end.

(** A computation that does not panic. *)
Definition safe {A} (m : go A) : Prop := go_wp m (fun _ => True).

Lemma go_wp_ret {A} (a : A) Q : Q a -> go_wp (mret a) Q.
Proof. done. Qed.

Lemma go_wp_bind {A B} (m : go A) (f : A -> go B) Q :
  go_wp m (fun a => go_wp (f a) Q) -> go_wp (m ≫= f) Q.
Proof. by destruct m. Qed.

Lemma go_wp_mono {A} (m : go A) (Q R : A -> Prop) :
  go_wp m Q -> (forall a, Q a -> R a) -> go_wp m R.
Proof. destruct m; cbn; auto. Qed.

Lemma go_wp_eq {A} (m : go A) Q : go_wp m Q <-> exists a, m = Ret a /\ Q a.
Proof.
  destruct m as [a|]; split; [eauto | by intros (? & [= ->] & ?) | done | by intros (? & ? & ?)].
Qed.

Lemma safe_eq {A} (m : go A) : safe m <-> exists a, m = Ret a.
Proof. unfold safe. rewrite go_wp_eq. split; [intros (a & ? & _) | intros [a ?]]; eauto. Qed.

Lemma safe_not_panic {A} (m : go A) : safe m <-> m ≠ Panic.
Proof. by destruct m. Qed.

Lemma index_wp b i Q :
  (i < length b)%nat -> (forall x, b !! i = Some x -> Q x) -> go_wp (index b i) Q.
Proof.
  intros Hi HQ. unfold index. destruct (lookup_lt_is_Some_2 b i Hi) as [x Hx].
  rewrite Hx. by apply HQ.
Qed.

Lemma slice_wp b i j Q :
  (i <= j <= length b)%nat ->
  (forall s, s = take (j - i) (drop i b) -> length s = (j - i)%nat -> Q s) ->
  go_wp (slice b i j) Q.
Proof.
  intros Hij HQ. unfold slice.
  replace ((i <=? j) && (j <=? length b))%nat with true by lia.
  apply HQ; [done |]. rewrite length_take, length_drop. lia.
Qed.

Lemma slice_from_wp b i Q :
  (i <= length b)%nat ->
  (forall s, s = drop i b -> length s = (length b - i)%nat -> Q s) ->
  go_wp (slice_from b i) Q.
Proof.
  intros Hi HQ. unfold slice_from. replace (i <=? length b)%nat with true by lia.
  apply HQ; [done |]. by rewrite length_drop.
Qed.

Lemma get_be_wp n b Q :
  (n <= length b)%nat -> Q (be_decode (take n b)) -> go_wp (get_be n b) Q.
Proof. intros Hn HQ. unfold get_be. by replace (n <=? length b)%nat with true by lia. Qed.

Lemma get_le_wp n b Q :
  (n <= length b)%nat -> Q (le_decode (take n b)) -> go_wp (get_le n b) Q.
Proof. intros Hn HQ. unfold get_le. by replace (n <=? length b)%nat with true by lia. Qed.

(** One step through a Go computation: enter a bind, discharge the bound of an
    access by [lia], or split on a condition. *)
Ltac go_step :=
  lazymatch goal with
  | |- safe _ => unfold safe
  | |- go_wp (_ ≫= _) _ => apply go_wp_bind
  | |- go_wp (mret _) _ => apply go_wp_ret
  | |- go_wp (Ret _) _ => apply go_wp_ret
  | |- go_wp (index _ _) _ => apply index_wp; [lia | intros ? ?]
  | |- go_wp (slice _ _ _) _ => apply slice_wp; [lia | intros ? ? ?]
  | |- go_wp (slice_from _ _) _ => apply slice_from_wp; [lia | intros ? ? ?]
  | |- go_wp (get_be _ _) _ => apply get_be_wp; [lia |]
  | |- go_wp (get_le _ _) _ => apply get_le_wp; [lia |]
  | |- go_wp (if ?c then _ else _) _ => destruct c eqn:?
  | |- go_wp (match ?c with (_, _) => _ end) _ => destruct c eqn:?
  | |- go_wp (match ?c with None => _ | Some _ => _ end) _ => destruct c eqn:?
  | |- go_wp (match ?c with inl _ => _ | inr _ => _ end) _ => destruct c eqn:?
  end.

(** * Buffers seen as a header followed by the rest *)

Section header.
Context (h r : bytes).

Lemma index_app i : (i < length h)%nat -> index (h ++ r) i = index h i.
Proof. intros Hi. unfold index. by rewrite lookup_app_l. Qed.

Lemma slice_app i j : (j <= length h)%nat -> slice (h ++ r) i j = slice h i j.
Proof.
  intros Hj. unfold slice. rewrite length_app.
  replace (j <=? length h + length r)%nat with true by lia.
  replace (j <=? length h)%nat with true by lia.
  destruct (Nat.leb_spec i j); [|done]. cbn [andb]. f_equal.
  rewrite drop_app_le, take_app_le; [done | rewrite length_drop; lia | lia].
Qed.

Lemma write_app i w :
  (i + length w <= length h)%nat -> write (h ++ r) i w = write h i w ++ r.
Proof.
  intros Hi. unfold write. rewrite take_app_le, drop_app_le by lia.
  by rewrite <- !app_assoc.
Qed.

Lemma length_write i w :
  (i + length w <= length h)%nat -> length (write h i w) = length h.
Proof. intros Hi. unfold write. rewrite !length_app, length_take, length_drop. lia. Qed.

Lemma set_at_app i v :
  (i < length h)%nat -> set_at (h ++ r) i v = Ret (<[i := v]> h ++ r).
Proof.
  intros Hi. unfold set_at. rewrite length_app.
  replace (i <? length h + length r)%nat with true by lia.
  by rewrite insert_app_l.
Qed.

Lemma copy_at_app i j src :
  (i <= j <= length h)%nat ->
  copy_at (h ++ r) i j src = Ret (write h i (take (j - i) src) ++ r).
Proof.
  intros Hi. unfold copy_at. rewrite length_app.
  replace ((i <=? j) && (j <=? length h + length r))%nat with true by lia.
  rewrite write_app; [done |]. rewrite length_take. lia.
Qed.

Lemma put_be_app n i j v :
  (i <= j <= length h)%nat -> (n <= j - i)%nat ->
  put_be n (h ++ r) i j v = Ret (write h i (be_encode n v) ++ r).
Proof.
  intros Hi Hn. unfold put_be. rewrite length_app.
  replace ((i <=? j) && (j <=? length h + length r) && (n <=? j - i))%nat
    with true by lia.
  rewrite write_app; [done |]. rewrite length_be_encode. lia.
Qed.

Lemma copy_from_app src :
  length src = length r -> copy_from (h ++ r) (length h) src = Ret (h ++ src).
Proof.
  intros Hl. unfold copy_from, copy_at. rewrite length_app.
  replace ((length h <=? length h + length r)
           && (length h + length r <=? length h + length r))%nat with true by lia.
  unfold write. rewrite take_app_length, (take_ge src) by lia.
  rewrite drop_ge by (rewrite length_app; lia). by rewrite app_nil_r.
Qed.
End header.

Lemma make_app n m : make (n + m) = make n ++ make m.
Proof. unfold make. by rewrite replicate_add. Qed.

Lemma length_make n : length (make n) = n.
Proof. apply length_replicate. Qed.

(** Turn a list of known concrete length into an explicit list of variables. *)
Ltac explode l H :=
  repeat (destruct l as [|? l]; [discriminate H |]);
  destruct l as [|? l]; [clear H | discriminate H].

(** A filter that keeps nothing, and one that keeps everything. *)
Lemma filter_none {A} (P : A -> Prop) `{!forall x, Decision (P x)} (l : list A) :
  (forall x, x ∈ l -> ~ P x) -> filter P l = [].
Proof.
  induction l as [|x l IH]; intros Hl; [done |].
  rewrite filter_cons_False by (apply Hl; by left). apply IH. intros y Hy. apply Hl. by right.
Qed.

Lemma filter_every {A} (P : A -> Prop) `{!forall x, Decision (P x)} (l : list A) :
  Forall P l -> filter P l = l.
Proof. induction 1; [done |]. rewrite filter_cons_True by done. by f_equal. Qed.

(** Induction on the length of a list. *)
Lemma length_ind {A} (P : list A -> Prop) :
  (forall l, (forall k, (length k < length l)%nat -> P k) -> P l) -> forall l, P l.
Proof.
  intros H l. remember (length l) as n eqn:E. revert l E.
  induction n as [n IH] using lt_wf_ind. intros l ->. apply H. intros k Hk. by eapply IH.
Qed.

(** Solve [lia] goals over division and modulus by constants. *)
Ltac mlia := Z.to_euclidean_division_equations; lia.

(** * Equations of the state monad *)

Section state_monad.
Context {S A B : Type}.

Lemma lift_bind (m : go A) (f : A -> st S B) s : (lift m ≫= f) s = m ≫= (fun a => f a s).
Proof. by destruct m. Qed.

Lemma lift_ret_bind (a : A) (f : A -> st S B) s : (lift (Ret a) ≫= f) s = f a s.
Proof. done. Qed.

Lemma st_ret_bind (a : A) (f : A -> st S B) s : (mret a ≫= f) s = f a s.
Proof. done. Qed.

Lemma st_bind_ret (m : st S A) (f : A -> st S B) s a s' :
  m s = Ret (a, s') -> (m ≫= f) s = f a s'.
Proof. intros H. unfold mbind, st_bind. by rewrite H. Qed.

Lemma st_wp_bind (m : st S A) (f : A -> st S B) s Q :
  go_wp (m s) (fun x => go_wp (f (fst x) (snd x)) Q) -> go_wp ((m ≫= f) s) Q.
Proof. unfold mbind, st_bind. by destruct (m s) as [[a s']|]. Qed.
End state_monad.

Lemma getS_bind {S B} (f : S -> st S B) s : (getS ≫= f) s = f s s.
Proof. done. Qed.

Lemma modS_bind {S B} (g : S -> S) (f : unit -> st S B) s : (modS g ≫= f) s = f tt (g s).
Proof. done. Qed.

(** Accesses known to be in range. *)
Lemma slice_ok b i j : (i <= j <= length b)%nat -> slice b i j = Ret (take (j - i) (drop i b)).
Proof. intros H. unfold slice. by replace ((i <=? j) && (j <=? length b))%nat with true by lia. Qed.

Lemma slice_from_ok b i : (i <= length b)%nat -> slice_from b i = Ret (drop i b).
Proof. intros H. unfold slice_from. by replace (i <=? length b)%nat with true by lia. Qed.

Lemma get_be_ok n b : length b = n -> get_be n b = Ret (be_decode b).
Proof. intros <-. unfold get_be. by rewrite Nat.leb_refl, firstn_all. Qed.

Lemma get_le_ok n b : length b = n -> get_le n b = Ret (le_decode b).
Proof. intros <-. unfold get_le. by rewrite Nat.leb_refl, firstn_all. Qed.

Lemma index_ok b i : (i < length b)%nat -> index b i = Ret (nth i b 0).
Proof.
  intros H. unfold index. destruct (lookup_lt_is_Some_2 b i H) as [x Hx].
  rewrite Hx. f_equal. symmetry. by apply nth_lookup_Some.
Qed.

(** [binary.BigEndian.UintN(b[i:j])] in range. *)
Definition be_field (b : bytes) (i n : nat) : Z := be_decode (take n (drop i b)).

Lemma be_field_ok {B} b i n (f : Z -> go B) :
  (i + n <= length b)%nat ->
  (w ← slice b i (i + n); v ← get_be n w; f v) = f (be_field b i n).
Proof.
  intros H. rewrite slice_ok by lia. cbn [mbind go_bind].
  replace (i + n - i)%nat with n by lia.
  rewrite get_be_ok; [done |]. rewrite length_take, length_drop. lia.
Qed.

Section state_access.
Context {S B : Type} (s : S).

Lemma st_be_field b i j n (f : Z -> st S B) :
  j = (i + n)%nat -> (i + n <= length b)%nat ->
  (w ← lift (slice b i j); v ← lift (get_be n w); f v) s = f (be_field b i n) s.
Proof.
  intros -> H. rewrite slice_ok, lift_ret_bind, get_be_ok, lift_ret_bind by
    (rewrite ?length_take, ?length_drop; lia).
  unfold be_field. by replace (i + n - i)%nat with n by lia.
Qed.

Lemma st_index b i (f : Z -> st S B) :
  (i < length b)%nat -> (v ← lift (index b i); f v) s = f (nth i b 0) s.
Proof. intros H. by rewrite index_ok, lift_ret_bind. Qed.

Lemma st_slice_from b i (f : bytes -> st S B) :
  (i <= length b)%nat -> (v ← lift (slice_from b i); f v) s = f (drop i b) s.
Proof. intros H. by rewrite slice_from_ok, lift_ret_bind. Qed.
End state_access.
