(* ===== verification/GoStd.v ===== *)
(** The parts of the Go standard library the program calls: crypto/sha256 and
    crypto/hmac (the authenticator of tfmeta), hash/fnv (the initial sequence
    number of the responder), and the address functions of net.  They are
    written out as executable functions; the examples at the end of each module
    check them against published test vectors. *)
From stdpp Require Import strings pretty.
From S2P Require Import Prelude.

Local Open Scope Z_scope.

(** * crypto/sha256 (FIPS 180-4) and crypto/hmac (RFC 2104) *)

Module Sha256.

Definition K : list Z :=
  [1116352408; 1899447441; 3049323471; 3921009573; 961987163; 1508970993;
   2453635748; 2870763221; 3624381080; 310598401; 607225278; 1426881987;
   1925078388; 2162078206; 2614888103; 3248222580; 3835390401; 4022224774;
   264347078; 604807628; 770255983; 1249150122; 1555081692; 1996064986;
   2554220882; 2821834349; 2952996808; 3210313671; 3336571891; 3584528711;
   113926993; 338241895; 666307205; 773529912; 1294757372; 1396182291;
   1695183700; 1986661051; 2177026350; 2456956037; 2730485921; 2820302411;
   3259730800; 3345764771; 3516065817; 3600352804; 4094571909; 275423344;
   430227734; 506948616; 659060556; 883997877; 958139571; 1322822218;
   1537002063; 1747873779; 1955562222; 2024104815; 2227730452; 2361852424;
   2428436474; 2756734187; 3204031479; 3329325298].

(** The eight working variables. *)
Record regs := Regs { ra : Z; rb : Z; rc : Z; rd : Z; re : Z; rf : Z; rg : Z; rh : Z }.

Definition H0 : regs :=
  Regs 1779033703 3144134277 1013904242 2773480762 1359893119 2600822924 528734635 1541459225.

Definition not32 (x : Z) : Z := Z.lxor x 4294967295.
Definition rotr (n x : Z) : Z := Z.lor (Z.shiftr x n) (u32 (Z.shiftl x (32 - n))).

Definition Ch (x y z : Z) : Z := Z.lxor (Z.land x y) (Z.land (not32 x) z).
Definition Maj (x y z : Z) : Z :=
  Z.lxor (Z.lxor (Z.land x y) (Z.land x z)) (Z.land y z).
Definition S0 (x : Z) : Z := Z.lxor (Z.lxor (rotr 2 x) (rotr 13 x)) (rotr 22 x).
Definition S1 (x : Z) : Z := Z.lxor (Z.lxor (rotr 6 x) (rotr 11 x)) (rotr 25 x).
Definition s0 (x : Z) : Z := Z.lxor (Z.lxor (rotr 7 x) (rotr 18 x)) (Z.shiftr x 3).
Definition s1 (x : Z) : Z := Z.lxor (Z.lxor (rotr 17 x) (rotr 19 x)) (Z.shiftr x 10).

(** The message schedule, newest word first. *)
Fixpoint schedule (n : nat) (w : list Z) : list Z :=
  match n with
  | O => w
  | S n' =>
      schedule n'
        (u32 (s1 (nth 1 w 0) + nth 6 w 0 + s0 (nth 14 w 0) + nth 15 w 0) :: w)
  end.

Fixpoint words (b : bytes) : list Z :=
  match b with
  | w0 :: w1 :: w2 :: w3 :: r => be_decode [w0; w1; w2; w3] :: words r
  | _ => []
  end.

Definition round (v : regs) (kw : Z * Z) : regs :=
  let '(Regs a b c d e f g h) := v in
  let t1 := h + S1 e + Ch e f g + fst kw + snd kw in
  let t2 := S0 a + Maj a b c in
  Regs (u32 (t1 + t2)) a b c (u32 (d + t1)) e f g.

Definition block (v : regs) (m : bytes) : regs :=
  let w := rev (schedule 48 (rev (words m))) in
  let '(Regs a b c d e f g h) := foldl round v (zip K w) in
  Regs (u32 (ra v + a)) (u32 (rb v + b)) (u32 (rc v + c)) (u32 (rd v + d))
       (u32 (re v + e)) (u32 (rf v + f)) (u32 (rg v + g)) (u32 (rh v + h)).

(** 0x80, zeros up to 56 modulo 64, then the length in bits. *)
Definition pad (m : bytes) : bytes :=
  let l := Z.of_nat (length m) in
  m ++ [128] ++ replicate (Z.to_nat ((55 - l) mod 64)) 0 ++ be_encode 8 (8 * l).

Fixpoint blocks (n : nat) (v : regs) (m : bytes) : regs :=
  match n with
  | O => v
  | S n' => blocks n' (block v (take 64 m)) (drop 64 m)
  end.

Definition sum256 (m : bytes) : bytes :=
  let p := pad m in
  let '(Regs a b c d e f g h) := blocks (length p / 64) H0 p in
  concat (map (be_encode 4) [a; b; c; d; e; f; g; h]).

Definition xor_pad (k : bytes) (x : Z) : bytes := map (Z.lxor x) k.

(** hmac.New(sha256.New, key); Write(msg); Sum(nil). *)
Definition hmac (key msg : bytes) : bytes :=
  let k := if (64 <? length key)%nat then sum256 key else key in
  let k := k ++ replicate (64 - length k) 0 in
  sum256 (xor_pad k 92 ++ sum256 (xor_pad k 54 ++ msg)).

Lemma length_sum256 m : length (sum256 m) = 32%nat.
Proof. unfold sum256. by destruct (blocks _ _ _). Qed.

Lemma sum256_ok m : bytes_ok (sum256 m).
Proof.
  unfold sum256. destruct (blocks _ _ _). cbn [map concat].
  rewrite !bytes_ok_app. repeat split; try apply be_encode_ok. constructor.
Qed.

Lemma length_hmac key msg : length (hmac key msg) = 32%nat.
Proof. apply length_sum256. Qed.

Lemma hmac_ok key msg : bytes_ok (hmac key msg).
Proof. apply sum256_ok. Qed.

(** FIPS 180-4, "abc". *)
Example sum256_abc :
  be_decode (sum256 [97; 98; 99]) =
  0xba7816bf8f01cfea414140de5dae2223b00361a396177a9cb410ff61f20015ad.
Proof. vm_compute. reflexivity. Qed.

(** RFC 4231, test case 2: key "Jefe", data "what do ya want for nothing?". *)
Example hmac_rfc4231_2 :
  be_decode
    (hmac [74; 101; 102; 101]
       [119; 104; 97; 116; 32; 100; 111; 32; 121; 97; 32; 119; 97; 110; 116; 32;
        102; 111; 114; 32; 110; 111; 116; 104; 105; 110; 103; 63]) =
  0x5bdcc146bf60754e6a042426089575c75a003f089d2739839dec58b964ec3843.
Proof. vm_compute. reflexivity. Qed.

Arguments sum256 : simpl never.
Arguments hmac : simpl never.

End Sha256.

(** * hash/fnv: New32a *)

Module Fnv.

Definition step (h b : Z) : Z := u32 (Z.lxor h b * 16777619).

(** [h.Write(b)] continues from the current hash. *)
Definition write32a (h : Z) (b : bytes) : Z := foldl step h b.

Definition offset32 : Z := 2166136261.

(** FNV-1a of "foobar". *)
Example fnv_foobar : write32a offset32 [102; 111; 111; 98; 97; 114] = 0xbf9cf968.
Proof. reflexivity. Qed.

End Fnv.

(** * net.IP

    A net.IP is a byte slice; the nil slice is the empty list. *)

Module Net.

Definition v4InV6Prefix : bytes := [0; 0; 0; 0; 0; 0; 0; 0; 0; 0; 255; 255].

Definition To4 (ip : bytes) : bytes :=
  if (length ip =? 4)%nat then ip
  else if (length ip =? 16)%nat && bool_decide (take 12 ip = v4InV6Prefix)
  then drop 12 ip else [].

Definition To16 (ip : bytes) : bytes :=
  if (length ip =? 4)%nat then v4InV6Prefix ++ ip
  else if (length ip =? 16)%nat then ip else [].

Lemma length_To4 ip : length (To4 ip) = 0%nat \/ length (To4 ip) = 4%nat.
Proof.
  unfold To4. destruct (Nat.eqb_spec (length ip) 4); [by right |].
  destruct (_ && _) eqn:E; [right | by left]. rewrite length_drop. lia.
Qed.

Lemma length_To16 ip : length (To16 ip) = 0%nat \/ length (To16 ip) = 16%nat.
Proof.
  unfold To16. destruct (Nat.eqb_spec (length ip) 4) as [E|]; [right; cbn; lia |].
  destruct (Nat.eqb_spec (length ip) 16); [by right | by left].
Qed.

Lemma To4_ok ip : bytes_ok ip -> bytes_ok (To4 ip).
Proof.
  intros H. unfold To4. repeat case_match; try done; [by apply bytes_ok_drop | constructor].
Qed.

Lemma To16_ok ip : bytes_ok ip -> bytes_ok (To16 ip).
Proof.
  intros H. unfold To16. repeat case_match; try done; [|constructor].
  apply bytes_ok_app. split; [|done]. repeat constructor; unfold is_byte; lia.
Qed.

Lemma To4_4 ip : length ip = 4%nat -> To4 ip = ip.
Proof. intros H. unfold To4. by rewrite H. Qed.

Lemma To16_4 ip : length ip = 4%nat -> To16 ip = v4InV6Prefix ++ ip.
Proof. intros H. unfold To16. by rewrite H. Qed.

Lemma To16_16 ip : length ip = 16%nat -> To16 ip = ip.
Proof. intros H. unfold To16. by rewrite H. Qed.

(** The IPv4-mapped form is recognised again. *)
Lemma To4_To16 ip : To4 (To16 ip) = To4 ip.
Proof.
  unfold To16. destruct (Nat.eqb_spec (length ip) 4) as [E|E].
  - rewrite (To4_4 ip) by done. unfold To4. rewrite length_app, E.
    cbn [v4InV6Prefix length Nat.add Nat.eqb andb].
    change (take 12 (v4InV6Prefix ++ ip)) with v4InV6Prefix.
    rewrite bool_decide_true by done. done.
  - destruct (Nat.eqb_spec (length ip) 16) as [E'|E']; [done |].
    unfold To4. cbn. by rewrite (proj2 (Nat.eqb_neq _ _) E), (proj2 (Nat.eqb_neq _ _) E').
Qed.

(** ** net.IP.String *)

Local Open Scope string_scope.
Local Open Scope Z_scope.

Definition hexdigit (d : Z) : string :=
  match d with
  | 0 => "0" | 1 => "1" | 2 => "2" | 3 => "3" | 4 => "4" | 5 => "5" | 6 => "6"
  | 7 => "7" | 8 => "8" | 9 => "9" | 10 => "a" | 11 => "b" | 12 => "c" | 13 => "d"
  | 14 => "e" | _ => "f"
  end.

(** Lower-case hexadecimal without leading zeros (appendHex, 16 bits). *)
Definition hex16 (v : Z) : string :=
  (if 4096 <=? v then hexdigit (Z.shiftr v 12 mod 16) else "") +:+
  (if 256 <=? v then hexdigit (Z.shiftr v 8 mod 16) else "") +:+
  (if 16 <=? v then hexdigit (Z.shiftr v 4 mod 16) else "") +:+
  hexdigit (v mod 16).

Definition hexbyte (v : Z) : string :=
  hexdigit (Z.shiftr v 4 mod 16) +:+ hexdigit (v mod 16).

Definition dotted (ip : bytes) : string :=
  match ip with
  | [a; b; c; d] => pretty a +:+ "." +:+ pretty b +:+ "." +:+ pretty c +:+ "." +:+ pretty d
  | _ => ""
  end.

Fixpoint groups (b : bytes) : list Z :=
  match b with
  | x :: y :: r => be_decode [x; y] :: groups r
  | _ => []
  end.

(** Length of the run of zeros at the head. *)
Fixpoint zrun (l : list Z) : nat :=
  match l with
  | 0 :: r => S (zrun r)
  | _ => O
  end.

(** The first longest run of at least two zero groups: (start, end), or
    (255, 255) when there is none. *)
Fixpoint longest (i : nat) (l : list Z) (best : nat * nat) : nat * nat :=
  match l with
  | [] => best
  | _ :: r =>
      let n := zrun l in
      longest (S i) r
        (if ((2 <=? n) && (snd best - fst best <? n))%nat then (i, (i + n)%nat) else best)
  end.

(** The groups from index [i] on, when [skip] more groups belong to the
    elided run; [zs], [ze] delimit the run. *)
Fixpoint render6 (zs ze i : nat) (l : list Z) : string :=
  match l with
  | [] => ""
  | v :: r =>
      if (i =? zs)%nat then "::" +:+ render6 zs ze (S i) r
      else if ((zs <? i) && (i <? ze))%nat then render6 zs ze (S i) r
      else (if ((0 <? i) && negb (i =? ze))%nat then ":" else "") +:+ hex16 v
             +:+ render6 zs ze (S i) r
  end.

Definition string6 (ip : bytes) : string :=
  let g := groups ip in
  let '(zs, ze) := longest 0 g (255%nat, 255%nat) in
  render6 zs ze 0 g.

Definition String (ip : bytes) : string :=
  if (length ip =? 0)%nat then "<nil>"
  else if negb (length ip =? 4)%nat && negb (length ip =? 16)%nat
  then "?" +:+ foldr (fun b s => hexbyte b +:+ s) "" ip
  else if (length (To4 ip) =? 4)%nat then dotted (To4 ip)
  else string6 ip.

Example string_v4 : String [10; 0; 0; 1] = "10.0.0.1".
Proof. reflexivity. Qed.
Example string_v4mapped : String (To16 [192; 168; 1; 1]) = "192.168.1.1".
Proof. reflexivity. Qed.
Example string_v6 :
  String [32; 1; 13; 184; 0; 0; 0; 0; 0; 0; 0; 0; 0; 0; 0; 1] = "2001:db8::1".
Proof. reflexivity. Qed.
Example string_v6_mid :
  String [0; 0; 0; 0; 0; 1; 0; 0; 0; 0; 0; 0; 0; 2; 0; 0] = "0:0:1::2:0".
Proof. reflexivity. Qed.
Example string_v6_any : String (replicate 16 0) = "::".
Proof. reflexivity. Qed.
Example string_nil : String [] = "<nil>".
Proof. reflexivity. Qed.

End Net.
