(* ===== verification/GoText.v ===== *)
(** The text parsers of Go's standard library the program calls: net.ParseIP,
    net.ParseMAC, strings.Split, strings.TrimSpace (on ASCII text).  A Go string is read as the
    list of its character codes. *)
From stdpp Require Export strings pretty.
From S2P Require Import Prelude GoStd.

Local Open Scope Z_scope.

(** The bytes of a string. *)
Definition codes (s : string) : bytes :=
  map (fun a => Z.of_N (Ascii.N_of_ascii a)) (String.list_ascii_of_string s).

Definition of_codes (l : bytes) : string :=
  String.string_of_list_ascii (map (fun z => Ascii.ascii_of_N (Z.to_N z)) l).

Definition is_digit (c : Z) : bool := (48 <=? c) && (c <=? 57).

(** The value of a hexadecimal digit. *)
Definition hexval (c : Z) : option Z :=
  if is_digit c then Some (c - 48)
  else if (97 <=? c) && (c <=? 102) then Some (c - 87)
  else if (65 <=? c) && (c <=? 70) then Some (c - 55)
  else None.

Lemma hexval_bound c v : hexval c = Some v -> 0 <= v < 16.
Proof. unfold hexval, is_digit. intros H. repeat case_match; simplify_eq; lia. Qed.

(** ** netip.ParseAddr *)

(** parseIPv4Fields: the loop over the characters, with the fields read so far,
    the value and the number of digits of the current one. *)
Fixpoint ipv4_fields (l : bytes) (fields : bytes) (val : Z) (digits : nat) : option bytes :=
  match l with
  | [] => if (length fields =? 3)%nat && negb (digits =? 0)%nat
          then Some (fields ++ [val]) else None
  | c :: r =>
      if is_digit c then
        if (digits =? 1)%nat && (val =? 0) then None
        else let val := val * 10 + (c - 48) in
             if 255 <? val then None else ipv4_fields r fields val (S digits)
      else if c =? 46 then
        if (digits =? 0)%nat || (length fields =? 3)%nat then None
        else ipv4_fields r (fields ++ [val]) 0 0
      else None
  end.

Definition ipv4_text (l : bytes) : option bytes := ipv4_fields l [] 0 0.

(** The hexadecimal digits at the head: (value, number of digits, rest), or
    [None] for a group of more than four digits. *)
Fixpoint hex_group (l : bytes) (acc : Z) (n : nat) : option (Z * nat * bytes) :=
  match l with
  | [] => Some (acc, n, [])
  | c :: r =>
      match hexval c with
      | None => Some (acc, n, l)
      | Some d => if (3 <? n)%nat then None else hex_group r (acc * 16 + d) (S n)
      end
  end.

(** The end of ipv6_text: expand the ellipsis. *)
Definition ipv6_finish (ip : bytes) (ell : option nat) (rest : bytes) : option bytes :=
  match rest with
  | _ :: _ => None
  | [] =>
      if (length ip <? 16)%nat then
        match ell with
        | None => None
        | Some e => Some (take e ip ++ make (16 - length ip) ++ drop e ip)
        end
      else match ell with None => Some ip | Some _ => None end
  end.

(** The loop of ipv6_text on the rest [l] of the text, with the bytes read so far
    and the position of the ellipsis; [n] bounds the number of groups (8). *)
Fixpoint ipv6_groups (n : nat) (l ip : bytes) (ell : option nat) : option bytes :=
  match n with
  | O => ipv6_finish ip ell l
  | S n' =>
      match hex_group l 0 0 with
      | None => None
      | Some (_, O, _) => None
      | Some (acc, _, 46 :: _) =>
          (* an IPv4 address at the end *)
          if (match ell with None => negb (length ip =? 12)%nat | Some _ => false end)
             || (16 <? length ip + 4)%nat
          then None
          else match ipv4_text l with
               | None => None
               | Some a => ipv6_finish (ip ++ a) ell []
               end
      | Some (acc, _, rest) =>
          let ip := ip ++ be_encode 2 acc in
          match rest with
          | [] => ipv6_finish ip ell []
          | 58 :: [] => None
          | 58 :: 58 :: rest' =>
              match ell with
              | Some _ => None
              | None =>
                  match rest' with
                  | [] => ipv6_finish ip (Some (length ip)) []
                  | _ => ipv6_groups n' rest' ip (Some (length ip))
                  end
              end
          | 58 :: rest' => ipv6_groups n' rest' ip ell
          | _ => None
          end
      end
  end.

Definition ipv6_text (l : bytes) : option bytes :=
  match l with
  | 58 :: 58 :: [] => Some (make 16)
  | 58 :: 58 :: r => ipv6_groups 8 r [] (Some 0%nat)
  | _ => ipv6_groups 8 l [] None
  end.

(** The first of '.', ':' and '%' decides the family; an address with a zone is
    not accepted by net.ParseIP. *)
Fixpoint addr_kind (l : bytes) : option bool :=
  match l with
  | [] => None
  | 46 :: _ => Some false
  | 58 :: _ => Some true
  | 37 :: _ => None
  | _ :: r => addr_kind r
  end.

(** net.ParseIP: the 16-byte form, or nil. *)
Definition ParseIP (s : string) : bytes :=
  let l := codes s in
  match addr_kind l with
  | None => []
  | Some false => match ipv4_text l with Some a => Net.To16 a | None => [] end
  | Some true =>
      if bool_decide (37 ∈ l) then [] else default [] (ipv6_text l)
  end.

Example parse_v4 : ParseIP "10.0.0.1" = Net.To16 [10; 0; 0; 1].
Proof. reflexivity. Qed.
Example parse_v6 : ParseIP "fd00::12:3" = [253; 0; 0; 0; 0; 0; 0; 0; 0; 0; 0; 0; 0; 0x12; 0; 3].
Proof. reflexivity. Qed.
Example parse_v6_any : ParseIP "::" = make 16.
Proof. reflexivity. Qed.
Example parse_v6_tail : ParseIP "1:2::" = [0; 1; 0; 2] ++ make 12.
Proof. reflexivity. Qed.
Example parse_v6_mapped : ParseIP "::ffff:10.1.2.3" = Net.To16 [10; 1; 2; 3].
Proof. reflexivity. Qed.
Example parse_v6_full :
  Net.String (ParseIP "2001:db8:1:2:3:4:5:6") = "2001:db8:1:2:3:4:5:6"%string.
Proof. reflexivity. Qed.
Example parse_bad :
  map ParseIP ["10.0.0"; "10.0.0.256"; "01.2.3.4"; "1::2::3"; "fe80::1%eth0"; "12345::";
               "1:2:3:4:5:6:7:8:9"; "1:2:3:4:5:6:7::8"; "hello"; ""]%string
  = [[]; []; []; []; []; []; []; []; []; []].
Proof. vm_compute. reflexivity. Qed.

(** ** net.ParseMAC *)

(** Pairs of hexadecimal digits separated by [sep] (xtoi2). *)
Fixpoint mac_pairs (sep : Z) (l : bytes) : option bytes :=
  match l with
  | a :: b :: r =>
      match hexval a, hexval b with
      | Some x, Some y =>
          match r with
          | [] => Some [x * 16 + y]
          | c :: r' => if c =? sep then cons (x * 16 + y) <$> mac_pairs sep r' else None
          end
      | _, _ => None
      end
  | _ => None
  end.

(** Groups of four digits separated by dots. *)
Fixpoint mac_quads (l : bytes) : option bytes :=
  match l with
  | a :: b :: c :: d :: r =>
      match hexval a, hexval b, hexval c, hexval d with
      | Some w, Some x, Some y, Some z =>
          let g := [w * 16 + x; y * 16 + z] in
          match r with
          | [] => Some g
          | 46 :: r' => app g <$> mac_quads r'
          | _ => None
          end
      | _, _, _, _ => None
      end
  | _ => None
  end.

Definition ParseMAC (s : string) : option bytes :=
  let l := codes s in
  let n := if (nth 2 l 0 =? 58) || (nth 2 l 0 =? 45) then mac_pairs (nth 2 l 0) l
           else if nth 4 l 0 =? 46 then mac_quads l else None in
  match n with
  | Some hw =>
      if (length hw =? 6)%nat || (length hw =? 8)%nat || (length hw =? 20)%nat
      then Some hw else None
  | None => None
  end.

Example parse_mac : ParseMAC "02:00:5e:10:00:fF" = Some [2; 0; 94; 16; 0; 255].
Proof. reflexivity. Qed.
Example parse_mac_quads : ParseMAC "0200.5e10.00ff" = Some [2; 0; 94; 16; 0; 255].
Proof. reflexivity. Qed.
Example parse_mac_bad : ParseMAC "02:00:5e:10:00" = None /\ ParseMAC "02:00:5e:10:00:0" = None.
Proof. done. Qed.

(** ** strings.Split and strings.TrimSpace *)

(** The pieces of [l] between the occurrences of the byte [sep]. *)
Fixpoint split_on (sep : Z) (l : bytes) : list bytes :=
  match l with
  | [] => [[]]
  | c :: r =>
      if c =? sep then [] :: split_on sep r
      else match split_on sep r with
           | [] => [[c]]
           | w :: ws => (c :: w) :: ws
           end
  end.

Definition is_space (c : Z) : bool := (c =? 32) || ((9 <=? c) && (c <=? 13)).

Fixpoint trim_left (l : bytes) : bytes :=
  match l with
  | c :: r => if is_space c then trim_left r else l
  | [] => []
  end.

(** TrimSpace on ASCII text. *)
Definition trim_space (l : bytes) : bytes := rev (trim_left (rev (trim_left l))).

Example split_trim :
  map trim_space (split_on 44 (codes "a, b c ,,"))
  = [codes "a"; codes "b c"; []; []].
Proof. reflexivity. Qed.
