(* ===== verification/GoTime.v ===== *)
(** The part of Go's time package the program uses: an instant with the offset of
    its zone, and its rendering in the format RFC3339Nano; and the rendering of a
    UUID (github.com/google/uuid follows RFC 4122). *)
From stdpp Require Export strings pretty.
From S2P Require Import Prelude GoStd GoText.

Local Open Scope Z_scope.

(** Nanoseconds since 1970-01-01T00:00:00Z, and the zone's offset in seconds east
    of UTC. *)
Record time := mkTime { UnixNano : Z; zone : Z }.

(** [n] decimal digits. *)
Fixpoint decimals (n : nat) (v : Z) : bytes :=
  match n with
  | O => []
  | S n' => decimals n' (v / 10) ++ [48 + v mod 10]
  end.

(** The civil date of a day counted from 1970-01-01: (year, month, day). *)
Definition civil (days : Z) : Z * Z * Z :=
  let z := days + 719468 in
  let era := z / 146097 in
  let doe := z mod 146097 in
  let yoe := (doe - doe / 1460 + doe / 36524 - doe / 146096) / 365 in
  let doy := doe - (365 * yoe + yoe / 4 - yoe / 100) in
  let mp := (5 * doy + 2) / 153 in
  let d := doy - (153 * mp + 2) / 5 + 1 in
  let m := if mp <? 10 then mp + 3 else mp - 9 in
  (yoe + era * 400 + (if m <=? 2 then 1 else 0), m, d).

(** The fraction of a second without its trailing zeros. *)
Fixpoint trim_zeros (l : bytes) : bytes :=
  match l with
  | 48 :: r => trim_zeros r
  | _ => l
  end.

Definition fraction (ns : Z) : bytes :=
  if ns =? 0 then [] else 46 :: rev (trim_zeros (rev (decimals 9 ns))).

Definition zone_suffix (off : Z) : bytes :=
  if off =? 0 then [90]
  else let m := Z.abs off / 60 in
       (if off <? 0 then 45 else 43) :: decimals 2 (m / 60) ++ [58] ++ decimals 2 (m mod 60).

(** [t.Format(time.RFC3339Nano)] for years 0 to 9999. *)
Definition FormatRFC3339Nano (t : time) : string :=
  let secs := UnixNano t / 1000000000 + zone t in
  let sod := secs mod 86400 in
  let '(y, m, d) := civil (secs / 86400) in
  of_codes (decimals 4 y ++ [45] ++ decimals 2 m ++ [45] ++ decimals 2 d ++ [84]
    ++ decimals 2 (sod / 3600) ++ [58] ++ decimals 2 (sod / 60 mod 60) ++ [58]
    ++ decimals 2 (sod mod 60) ++ fraction (UnixNano t mod 1000000000)
    ++ zone_suffix (zone t)).

Example format_epoch : FormatRFC3339Nano (mkTime 0 0) = "1970-01-01T00:00:00Z"%string.
Proof. reflexivity. Qed.
Example format_nanos :
  FormatRFC3339Nano (mkTime 1700000000123456789 0) = "2023-11-14T22:13:20.123456789Z"%string.
Proof. reflexivity. Qed.
Example format_leap_zone :
  FormatRFC3339Nano (mkTime 1709164799500000000 (-12600)) = "2024-02-28T20:29:59.5-03:30"%string.
Proof. reflexivity. Qed.

(** ** uuid.UUID.String *)

Definition hex (d : Z) : Z := if d <? 10 then 48 + d else 87 + d.

Definition hexpair (b : Z) : bytes := [hex (b / 16); hex (b mod 16)].

(** xxxxxxxx-xxxx-xxxx-xxxx-xxxxxxxxxxxx *)
Definition uuid_codes (id : bytes) : bytes :=
  mjoin (map hexpair (take 4 id)) ++ [45] ++ mjoin (map hexpair (take 2 (drop 4 id))) ++ [45]
    ++ mjoin (map hexpair (take 2 (drop 6 id))) ++ [45]
    ++ mjoin (map hexpair (take 2 (drop 8 id))) ++ [45] ++ mjoin (map hexpair (drop 10 id)).

Definition uuid_String (id : bytes) : string := of_codes (uuid_codes id).

Example uuid_example :
  uuid_String (seqZ 1 16) = "01020304-0506-0708-090a-0b0c0d0e0f10"%string.
Proof. reflexivity. Qed.

(** Different UUIDs are rendered differently. *)
Lemma codes_of_codes l : bytes_ok l -> codes (of_codes l) = l.
Proof.
  intros Hl. unfold codes, of_codes. rewrite String.list_ascii_of_string_of_list_ascii, map_map.
  induction Hl as [|b l Hb _ IH]; [done |]. cbn [map]. rewrite IH. f_equal.
  unfold is_byte in Hb. rewrite Ascii.N_ascii_embedding by lia. lia.
Qed.

Lemma hex_inj a b : 0 <= a < 16 -> 0 <= b < 16 -> hex a = hex b -> a = b.
Proof. unfold hex. intros. destruct (Z.ltb_spec a 10), (Z.ltb_spec b 10); lia. Qed.

Lemma hexpair_inj a b : is_byte a -> is_byte b -> hexpair a = hexpair b -> a = b.
Proof.
  unfold is_byte, hexpair. intros Ha Hb [= H1 H2]. apply hex_inj in H1, H2; mlia.
Qed.

Lemma hexpair_ok b : is_byte b -> bytes_ok (hexpair b).
Proof.
  unfold is_byte. intros Hb.
  assert (forall d, 0 <= d < 16 -> is_byte (hex d)) as H
    by (intros d Hd; unfold is_byte, hex; destruct (Z.ltb_spec d 10); lia).
  apply bytes_ok_cons. split; [apply H; mlia |]. apply bytes_ok_cons.
  split; [apply H; mlia | constructor].
Qed.

Lemma uuid_codes_ok id : bytes_ok id -> length id = 16%nat -> bytes_ok (uuid_codes id).
Proof.
  intros Hb Hl. explode id Hl. unfold bytes_ok in Hb. rewrite !Forall_cons_iff in Hb.
  destruct_and!. unfold uuid_codes. cbn [take drop map mjoin list_join app].
  repeat first [apply bytes_ok_app; split | apply hexpair_ok; assumption
               | apply bytes_ok_cons; split; [unfold is_byte; lia |]
               | constructor].
Qed.

Lemma uuid_String_inj a b :
  bytes_ok a -> length a = 16%nat -> bytes_ok b -> length b = 16%nat ->
  uuid_String a = uuid_String b -> a = b.
Proof.
  intros Ha La Hb Lb H. apply (f_equal codes) in H. unfold uuid_String in H.
  rewrite !codes_of_codes in H by by apply uuid_codes_ok.
  explode a La. explode b Lb. unfold bytes_ok in Ha, Hb. rewrite !Forall_cons_iff in Ha, Hb.
  destruct_and!. cbn -[Z.div Z.modulo hex] in H. injection H. intros.
  repeat match goal with
  | H1 : hex (?x / 16) = hex (?y / 16), H2 : hex (?x mod 16) = hex (?y mod 16) |- _ =>
      assert (x = y) by (apply hexpair_inj; [assumption | assumption | unfold hexpair; congruence]);
      clear H1 H2
  end.
  by subst.
Qed.
