(* ===== verification/Observation.v ===== *)
(** internal/observation: the 88-byte record of the eBPF program, and the record
    the agent prints and ships. *)
From stdpp Require Export gmap strings pretty.
From S2P Require Import Prelude GoStd GoText GoTime.

Local Open Scope string_scope.
Local Open Scope Z_scope.

(** ** The raw record *)

Record Raw := mkRaw {
  MetaTimestamp : Z;     (* uint64 *)
  CaptureNS : Z;         (* uint64 *)
  RawID : bytes;         (* [16]byte *)
  RawSrcIP : bytes;      (* [16]byte *)
  RawDstIP : bytes;      (* [16]byte *)
  VNI : Z;               (* uint32 *)
  IfIndex : Z;           (* uint32 *)
  RawSrcPort : Z;        (* uint16 *)
  RawDstPort : Z;        (* uint16 *)
  VLANID : Z;            (* uint16 *)
  IPVersion : Z;         (* uint8 and below *)
  Hop : Z;
  Direction : Z;
  Action : Z;
  Protocol : Z;
  RawTCPFlags : Z;
  RawIfaceType : Z
}.

Definition RawSize : nat := 88.

(** The reads of binary.Read into the struct: fixed-size fields from the front of
    a buffer that is long enough. *)
Definition rd (n : nat) (b : bytes) : Z * bytes := (le_decode (take n b), drop n b).

(** binary.Read fails with io.EOF or io.ErrUnexpectedEOF on a short record. *)
Definition Parse (record : bytes) : option Raw :=
  if (length record <? RawSize)%nat then None
  else
    let b := record in
    let '(ts, b) := rd 8 b in
    let '(cap, b) := rd 8 b in
    let '(id, b) := (take 16 b, drop 16 b) in
    let '(src, b) := (take 16 b, drop 16 b) in
    let '(dst, b) := (take 16 b, drop 16 b) in
    let '(vni, b) := rd 4 b in
    let '(ifi, b) := rd 4 b in
    let '(sp, b) := rd 2 b in
    let '(dp, b) := rd 2 b in
    let '(vlan, b) := rd 2 b in
    let '(ver, b) := rd 1 b in
    let '(hop, b) := rd 1 b in
    let '(dir, b) := rd 1 b in
    let '(act, b) := rd 1 b in
    let '(proto, b) := rd 1 b in
    let '(fl, b) := rd 1 b in
    let '(ity, _) := rd 1 b in
    Some (mkRaw ts cap id src dst vni ifi sp dp vlan ver hop dir act proto fl ity).

(** ** The enriched record *)

Record Observation := mkObs {
  ID : string;
  NodeID : string;
  o_Hop : Z;
  o_Direction : string;
  o_VNI : Z;
  o_VLAN : Z;
  o_Action : string;
  o_Protocol : string;
  o_IPVersion : Z;
  o_IfIndex : Z;
  Iface : string;
  LogicalSwitch : string;
  AZ : string;
  SrcIP : string;
  DstIP : string;
  SrcPort : Z;
  DstPort : Z;
  TCPFlags : string;
  IfaceType : string;
  Timestamp : string;
  o_CaptureNS : Z;
  LatencyNS : Z;         (* int64 *)
  ClockSkew : bool
}.

Definition protoICMP : Z := 1.
Definition protoTCP : Z := 6.
Definition protoUDP : Z := 17.
Definition protoICMPv6 : Z := 58.

Definition isICMP (p : Z) : bool := (p =? protoICMP) || (p =? protoICMPv6).

Definition directionString (d : Z) : string := if d =? 1 then "EGRESS" else "INGRESS".

Definition actionString (a : Z) : string := if a =? 1 then "INTERCEPTED" else "FORWARDED".

Definition protocolString (p : Z) : string :=
  if p =? protoICMP then "ICMP"
  else if p =? protoICMPv6 then "ICMPv6"
  else if p =? protoTCP then "TCP"
  else if p =? protoUDP then "UDP"
  else "PROTO(" +:+ pretty p +:+ ")".

Definition ifaceString (t : Z) : string := if t =? 1 then "VXLAN" else "REGULAR".

Definition ipString (version : Z) (b : bytes) : string :=
  if version =? 6 then Net.String b else Net.String (take 4 b).

Definition flag_names : list (Z * string) :=
  [(0x01, "FIN"); (0x02, "SYN"); (0x04, "RST"); (0x08, "PSH"); (0x10, "ACK"); (0x20, "URG")].

(** strings.Join(set, "|"). *)
Fixpoint join (sep : string) (l : list string) : string :=
  match l with
  | [] => ""
  | [x] => x
  | x :: r => x +:+ sep +:+ join sep r
  end.

Definition tcpFlagsString (f : Z) : string :=
  join "|" (map snd (filter (fun n => is_true (has_bit f (fst n))) flag_names)).

(** The cache of interface names; [ifByIndex] is net.InterfaceByIndex. *)
Definition ifName (ifByIndex : Z -> option string) (idx : Z) (cache : gmap Z string)
  : string * gmap Z string :=
  if idx =? 0 then ("", cache)
  else match cache !! idx with
       | Some n => (n, cache)
       | None =>
           let name := default "" (ifByIndex idx) in
           (name, <[idx := name]> cache)
       end.

(** (LatencyNS, ClockSkew). *)
Definition latency (metaTimestamp now : Z) : Z * bool :=
  if metaTimestamp =? 0 then (0, false)
  else
    let lat := i64 (now - i64 metaTimestamp) in
    if lat <? 0 then (0, true) else (lat, false).

Definition Enrich (ifByIndex : Z -> option string) (r : Raw) (nodeID : string) (now : time)
  (cache : gmap Z string) : Observation * gmap Z string :=
  let '(iface, cache') := ifName ifByIndex (IfIndex r) cache in
  let '(lat, skew) := latency (MetaTimestamp r) (UnixNano now) in
  let ports := negb (isICMP (Protocol r)) in
  (mkObs (uuid_String (RawID r)) nodeID (Hop r) (directionString (Direction r)) (VNI r) (VLANID r)
     (actionString (Action r)) (protocolString (Protocol r)) (IPVersion r) (IfIndex r) iface "" ""
     (ipString (IPVersion r) (RawSrcIP r)) (ipString (IPVersion r) (RawDstIP r))
     (if ports then RawSrcPort r else 0) (if ports then RawDstPort r else 0)
     (if Protocol r =? protoTCP then tcpFlagsString (RawTCPFlags r) else "")
     (ifaceString (RawIfaceType r)) (FormatRFC3339Nano now) (CaptureNS r) lat skew, cache').

(** ** Properties *)

(** The record as the eBPF program lays it out (struct observation). *)
Definition raw_bytes (r : Raw) : bytes :=
  le_encode 8 (MetaTimestamp r) ++ le_encode 8 (CaptureNS r) ++ RawID r ++ RawSrcIP r
    ++ RawDstIP r ++ le_encode 4 (VNI r) ++ le_encode 4 (IfIndex r) ++ le_encode 2 (RawSrcPort r)
    ++ le_encode 2 (RawDstPort r) ++ le_encode 2 (VLANID r) ++ le_encode 1 (IPVersion r)
    ++ le_encode 1 (Hop r) ++ le_encode 1 (Direction r) ++ le_encode 1 (Action r)
    ++ le_encode 1 (Protocol r) ++ le_encode 1 (RawTCPFlags r) ++ le_encode 1 (RawIfaceType r)
    ++ [0; 0; 0].

Definition fits (n : nat) (z : Z) : Prop := 0 <= z < 256 ^ Z.of_nat n.

(** What the Go types of the fields guarantee. *)
Definition Raw_ok (r : Raw) : Prop :=
  (length (RawID r) = 16%nat /\ length (RawSrcIP r) = 16%nat /\ length (RawDstIP r) = 16%nat)
  /\ (fits 8 (MetaTimestamp r) /\ fits 8 (CaptureNS r))
  /\ (fits 4 (VNI r) /\ fits 4 (IfIndex r))
  /\ (fits 2 (RawSrcPort r) /\ fits 2 (RawDstPort r) /\ fits 2 (VLANID r))
  /\ (fits 1 (IPVersion r) /\ fits 1 (Hop r) /\ fits 1 (Direction r) /\ fits 1 (Action r))
  /\ (fits 1 (Protocol r) /\ fits 1 (RawTCPFlags r) /\ fits 1 (RawIfaceType r)).

Lemma rd_app n v b : fits n v -> rd n (le_encode n v ++ b) = (v, b).
Proof.
  intros Hv. unfold rd. rewrite take_app_length', drop_app_length' by (symmetry; apply length_le_encode).
  by rewrite le_decode_encode, Z.mod_small.
Qed.

Lemma Parse_short record : (length record < RawSize)%nat -> Parse record = None.
Proof. intros H. unfold Parse. by replace (length record <? RawSize)%nat with true by lia. Qed.

Lemma length_raw_bytes r :
  length (RawID r) = 16%nat -> length (RawSrcIP r) = 16%nat -> length (RawDstIP r) = 16%nat ->
  length (raw_bytes r) = RawSize.
Proof.
  intros H1 H2 H3. unfold raw_bytes. rewrite !length_app, !length_le_encode, H1, H2, H3. done.
Qed.

(** The agent decodes a ring-buffer record to the fields the kernel program
    stored: a record of 88 bytes in the C layout, followed by anything, gives
    back every field, and a record shorter than 88 bytes is an error. *)
Theorem Parse_record r rest :
  Raw_ok r ->
  Parse (raw_bytes r ++ rest) = Some r
  /\ forall record, (length record < RawSize)%nat -> Parse record = None.
Proof.
  intros ((H1 & H2 & H3) & (? & ?) & (? & ?) & (? & ? & ?) & (? & ? & ? & ?) & (? & ? & ?)).
  split; [|apply Parse_short]. unfold Parse.
  rewrite length_app, length_raw_bytes by done.
  replace (RawSize + length rest <? RawSize)%nat with false by lia.
  unfold raw_bytes. rewrite <- !app_assoc.
  do 2 (rewrite rd_app by done).
  do 3 (rewrite take_app_length', drop_app_length' by done).
  do 12 (rewrite rd_app by done). by destruct r.
Qed.

Lemma Parse_record_witness :
  let r := mkRaw 1700000000000000000 42 (seqZ 1 16) (seqZ 0 16) (seqZ 2 16) 5001 7 40000 80 100
             4 3 0 1 6 2 0 in
  Parse (raw_bytes r ++ [9; 9]) = Some r
  /\ forall record, (length record < RawSize)%nat -> Parse record = None.
Proof.
  apply (Parse_record (mkRaw 1700000000000000000 42 (seqZ 1 16) (seqZ 0 16) (seqZ 2 16) 5001 7 40000
    80 100 4 3 0 1 6 2 0) [9; 9]).
  split; [done |]. unfold fits. cbn. lia.
Defined.

(** The latency is never negative, and it is 0 whenever the clocks disagree.
    For clock values of this era (below 2^63 ns) it is the difference of the
    clocks cut at 0, and the skew flag is set exactly when the sender's clock is
    ahead; a control block without a timestamp gives 0 without the flag. *)
Theorem latency_clamped ifByIndex r nodeID now cache :
  let o := fst (Enrich ifByIndex r nodeID now cache) in
  0 <= LatencyNS o /\ (ClockSkew o = true -> LatencyNS o = 0)
  /\ (0 <= MetaTimestamp r < 2 ^ 63 -> 0 <= UnixNano now < 2 ^ 63 ->
      LatencyNS o = (if MetaTimestamp r =? 0 then 0
                     else Z.max 0 (UnixNano now - MetaTimestamp r))
      /\ ClockSkew o = negb (MetaTimestamp r =? 0) && (UnixNano now <? MetaTimestamp r)).
Proof.
  unfold Enrich. destruct (ifName _ _ _) as [n c'].
  destruct (latency (MetaTimestamp r) (UnixNano now)) as [lat skew] eqn:E. cbn.
  unfold latency in E. destruct (Z.eqb_spec (MetaTimestamp r) 0) as [Hz|Hz].
  { injection E as <- <-. cbn. split_and!; [lia | done |]. intros _ _. done. }
  destruct (Z.ltb_spec (i64 (UnixNano now - i64 (MetaTimestamp r))) 0) as [Hl|Hl];
    injection E as <- <-; (split_and!; [lia | done |]); intros Ht Hn;
    rewrite (i64_small (MetaTimestamp r)) in Hl by lia; rewrite ?(i64_small (MetaTimestamp r)) by lia;
    rewrite i64_small in Hl by lia; rewrite ?i64_small by lia; cbn [negb andb]; lia.
Qed.
