(* ===== verification/Collector.v ===== *)
(** collector/main.go: the store of observations by run id, with its bounds and
    its eviction, and the HTTP handlers in front of it.  Each operation of the
    store holds its mutex from start to end, so an execution of the collector is
    a sequence of operations. *)
From stdpp Require Export gmap strings sorting.
From S2P Require Import Prelude GoStd GoText GoTime Observation.

Local Open Scope Z_scope.

Definition maxObsPerRun : Z := 4096.

Record store := mkStore {
  runs : gmap string (list Observation);
  order : list string;       (* insertion order of ids *)
  cap : Z                    (* int *)
}.

Definition newStore (capRuns : Z) : store := mkStore ∅ [] capRuns.

(** [s.runs[id]]: nil for an unknown id. *)
Definition run (s : store) (id : string) : list Observation := default [] (runs s !! id).

(** The loop [for len(s.order) > s.cap]; [s.order[0]] panics on an empty order. *)
Fixpoint evict (cap : Z) (order : list string) (runs : gmap string (list Observation))
  : go (list string * gmap string (list Observation)) :=
  if cap <? Z.of_nat (length order) then
    match order with
    | [] => Panic
    | old :: rest => evict cap rest (delete old runs)
    end
  else mret (order, runs).

Definition add (o : Observation) (s : store) : go store :=
  s ← (match runs s !! ID o with
       | Some _ => mret s
       | None =>
           '(ord, rs) ← evict (cap s) (order s ++ [ID o]) (runs s);
           mret (mkStore rs ord (cap s))
       end);
  if maxObsPerRun <=? Z.of_nat (length (run s (ID o))) then mret s
  else mret (mkStore (<[ID o := run s (ID o) ++ [o]]> (runs s)) (order s) (cap s)).

(** Go compares strings byte by byte. *)
Fixpoint bytes_lt (a b : bytes) : bool :=
  match a, b with
  | _, [] => false
  | [], _ :: _ => true
  | x :: a', y :: b' => if x <? y then true else if y <? x then false else bytes_lt a' b'
  end.

Definition string_lt (a b : string) : bool := bytes_lt (codes a) (codes b).

(** The comparison given to sort.SliceStable. *)
Definition less (a b : Observation) : bool :=
  if negb (o_Hop a =? o_Hop b) then o_Hop a <? o_Hop b
  else string_lt (Timestamp a) (Timestamp b).

(** A stable sort: each element is inserted behind those it is not less than. *)
Fixpoint insert_obs (x : Observation) (l : list Observation) : list Observation :=
  match l with
  | [] => [x]
  | y :: r => if less x y then x :: y :: r else y :: insert_obs x r
  end.

Definition sortStable (l : list Observation) : list Observation :=
  foldl (fun acc x => insert_obs x acc) [] l.

Definition path (s : store) (id : string) : list Observation := sortStable (run s id).

Record runSummary := mkSummary { sum_id : string; sum_count : Z }.

Definition ids (s : store) : list runSummary :=
  map (fun id => mkSummary id (Z.of_nat (length (run s id)))) (order s).

(** ** The HTTP handlers *)

Inductive request :=
| Healthz
| GetPaths
| GetPath (id : string)
| Root (method : string) (body : bytes).

Inductive response :=
| RespOK                               (* 200, "ok" *)
| RespIds (l : list runSummary)        (* 200, JSON *)
| RespPath (l : list Observation)      (* 200, JSON *)
| RespError (status : Z)
| RespNoContent.                       (* 204 *)

Section server.
(** The JSON decoder on a request body. *)
Context (decode : bytes -> option Observation).

Definition serve (q : request) (s : store) : go (response * store) :=
  match q with
  | Healthz => mret (RespOK, s)
  | GetPaths => mret (RespIds (ids s), s)
  | GetPath id =>
      if bool_decide (id = ""%string) then mret (RespError 400, s)
      else mret (RespPath (path s id), s)
  | Root method body =>
      if negb (bool_decide (method = "POST"%string)) then mret (RespError 405, s)
      else match decode body with
           | None => mret (RespError 400, s)
           | Some o =>
               if bool_decide (ID o = ""%string) then mret (RespError 400, s)
               else
                 s' ← add o s;
                 mret (RespNoContent, s')
           end
  end.

(** The collector as a transition system: requests in any order. *)
Inductive step : store -> store -> Prop :=
| step_serve q s r s' : serve q s = Ret (r, s') -> step s s'.

Inductive reachable (capRuns : Z) : store -> Prop :=
| reach_start : reachable capRuns (newStore capRuns)
| reach_step s s' : reachable capRuns s -> step s s' -> reachable capRuns s'.
End server.
