(* ===== verification/CollectorProps.v ===== *)
(** Properties of the collector: the store keeps its invariant under every
    sequence of requests, its memory is bounded, eviction is first in first out,
    and a path is the stable sort of the run's observations. *)
From S2P Require Import Prelude GoStd GoText GoTime Observation Collector.

Local Open Scope Z_scope.

(** ** The invariant *)

Definition run_ok (id : string) (l : list Observation) : Prop :=
  l ≠ [] /\ Z.of_nat (length l) <= maxObsPerRun /\ Forall (fun o => ID o = id) l.

Record store_ok (s : store) : Prop := {
  ok_nodup : NoDup (order s);
  ok_dom : forall id, is_Some (runs s !! id) <-> id ∈ order s;
  ok_size : Z.of_nat (length (order s)) <= cap s;
  ok_runs : forall id l, runs s !! id = Some l -> run_ok id l
}.

Lemma newStore_ok c : 0 <= c -> store_ok (newStore c).
Proof.
  intros Hc. constructor; cbn.
  - constructor.
  - intros id. rewrite lookup_empty, elem_of_nil. split; [by intros [? ?] | done].
  - lia.
  - intros id l. by rewrite lookup_empty.
Qed.

(** ** Eviction and insertion *)

Lemma evict_none c ord rs : Z.of_nat (length ord) <= c -> evict c ord rs = Ret (ord, rs).
Proof. intros H. destruct ord; cbn [evict]; by replace (c <? _) with false by lia. Qed.

Lemma evict_one c old rest rs :
  Z.of_nat (length rest) = c -> evict c (old :: rest) rs = Ret (rest, delete old rs).
Proof.
  intros H. cbn [evict length]. replace (c <? Z.of_nat (S (length rest))) with true by lia.
  apply evict_none. lia.
Qed.

(** Room for a new id: the oldest id goes when the store is full. *)
Definition make_room (s : store) : store :=
  if cap s <=? Z.of_nat (length (order s)) then
    mkStore (match order s with [] => runs s | old :: _ => delete old (runs s) end)
      (tail (order s)) (cap s)
  else s.

(** The whole of [add], without the loop. *)
Definition added (o : Observation) (s : store) : store :=
  match runs s !! ID o with
  | Some l =>
      if maxObsPerRun <=? Z.of_nat (length l) then s
      else mkStore (<[ID o := l ++ [o]]> (runs s)) (order s) (cap s)
  | None =>
      let s' := make_room s in
      mkStore (<[ID o := [o]]> (runs s')) (order s' ++ [ID o]) (cap s)
  end.

Lemma add_added o s : store_ok s -> 1 <= cap s -> add o s = Ret (added o s).
Proof.
  intros Hok Hc. unfold add, added, run. destruct (runs s !! ID o) as [l|] eqn:E.
  { cbn [mbind go_bind mret go_ret]. rewrite E. by destruct (maxObsPerRun <=? _). }
  assert (ID o ∉ order s) as Hn.
  { rewrite <- (ok_dom _ Hok). rewrite E. by intros [? ?]. }
  pose proof (ok_size _ Hok) as Hs. unfold make_room.
  destruct (Z.leb_spec (cap s) (Z.of_nat (length (order s)))) as [Hfull|Hroom].
  - destruct (order s) as [|old rest] eqn:Eo; [cbn in Hfull; lia |].
    cbn [app]. rewrite evict_one by (rewrite length_app; cbn in *; lia).
    cbn [mbind go_bind mret go_ret runs order cap tail].
    rewrite lookup_delete_ne by set_solver. rewrite E. cbn. done.
  - rewrite evict_none by (rewrite length_app; cbn; lia).
    cbn [mbind go_bind mret go_ret runs order cap]. rewrite E. cbn. done.
Qed.

Lemma make_room_ok s :
  store_ok s -> 1 <= cap s ->
  store_ok (make_room s) /\ Z.of_nat (length (order (make_room s))) < cap s
  /\ cap (make_room s) = cap s.
Proof.
  intros Hok Hc. pose proof Hok as [Hnd Hdom Hsz Hruns]. unfold make_room.
  destruct (Z.leb_spec (cap s) (Z.of_nat (length (order s)))); [|split_and!; [done | lia | done]].
  destruct (order s) as [|old rest] eqn:Eo; [cbn in *; lia |].
  apply NoDup_cons in Hnd as [Hold Hnd]. cbn [tail length] in *.
  split_and!; [|cbn; lia | done]. constructor; cbn [runs order cap].
  - done.
  - intros id. destruct (decide (id = old)) as [->|Hne].
    + rewrite lookup_delete_eq. split; [by intros [? ?] | done].
    + rewrite lookup_delete_ne, Hdom, elem_of_cons by done. naive_solver.
  - lia.
  - intros id l [_ Hl]%lookup_delete_Some. by apply Hruns.
Qed.

Lemma added_ok o s : store_ok s -> 1 <= cap s -> store_ok (added o s) /\ cap (added o s) = cap s.
Proof.
  intros Hok Hc. unfold added. destruct (runs s !! ID o) as [l|] eqn:E.
  - destruct (Z.leb_spec maxObsPerRun (Z.of_nat (length l))) as [|Hl]; [done |].
    split; [|done]. pose proof Hok as [Hnd Hdom Hsz Hruns].
    constructor; cbn [runs order cap]; [done | | done |].
    + intros id. rewrite <- Hdom. destruct (decide (ID o = id)) as [<-|Hne].
      * by rewrite lookup_insert_eq, E.
      * by rewrite lookup_insert_ne.
    + intros id l'. rewrite lookup_insert_Some. intros [[<- <-]|[_ Hl']]; [|by apply Hruns].
      destruct (Hruns _ _ E) as (_ & _ & Hall). split_and!.
      * by destruct l.
      * rewrite length_app. cbn. lia.
      * apply Forall_app. split; [done | by constructor].
  - destruct (make_room_ok s Hok Hc) as ([Hnd Hdom Hsz Hruns] & Hroom & Hcap). split; [|done].
    assert (runs (make_room s) !! ID o = None) as E'.
    { unfold make_room. destruct (cap s <=? _); [|done]. cbn [runs].
      destruct (order s); [done |]. rewrite lookup_delete_None. by right. }
    constructor; cbn [runs order cap].
    + apply NoDup_app. split_and!; [done | | apply NoDup_singleton].
      intros id Hid ->%list_elem_of_singleton. apply Hdom in Hid. rewrite E' in Hid.
      by destruct Hid.
    + intros id. rewrite elem_of_app, list_elem_of_singleton, <- Hdom.
      destruct (decide (ID o = id)) as [<-|Hne].
      * rewrite lookup_insert_eq. split; [by right | by eexists].
      * rewrite lookup_insert_ne by done. naive_solver.
    + rewrite length_app. cbn. lia.
    + intros id l'. rewrite lookup_insert_Some. intros [[<- <-]|[_ Hl']]; [|by apply Hruns].
      split_and!; [done | unfold maxObsPerRun; cbn; lia | by constructor].
Qed.

(** ** Reachable stores *)

Lemma serve_returns decode q s :
  store_ok s -> 1 <= cap s ->
  exists r s', serve decode q s = Ret (r, s') /\ store_ok s' /\ cap s' = cap s.
Proof.
  intros Hok Hc.
  destruct q as [| |id|method body]; cbn [serve]; [by eexists _, _..| |].
  - destruct (bool_decide _); by eexists _, _.
  - destruct (bool_decide _); cbn [negb]; [|by eexists _, _].
    destruct (decode body) as [o|]; [|by eexists _, _].
    destruct (bool_decide _); [by eexists _, _ |]. rewrite add_added by done.
    eexists _, _. split; [reflexivity |]. by apply added_ok.
Qed.

Lemma reachable_ok decode c s : 1 <= c -> reachable decode c s -> store_ok s /\ cap s = c.
Proof.
  intros Hc. induction 1 as [|s s' _ [Hok Hcap] Hstep].
  - split; [apply newStore_ok; lia | done].
  - destruct Hstep as [q s r s' Hq].
    destruct (serve_returns decode q s Hok ltac:(lia)) as (r1 & s1 & Hq1 & Hok1 & Hcap1).
    rewrite Hq in Hq1. injection Hq1 as <- <-. split; [done | congruence].
Qed.

Lemma sum_run_bound (s : store) (l : list string) :
  store_ok s -> Z.of_nat (length (mjoin (map (run s) l))) <= maxObsPerRun * Z.of_nat (length l).
Proof.
  intros Hok. induction l as [|id l IH]; [cbn; lia |].
  change (mjoin (map (run s) (id :: l))) with (run s id ++ mjoin (map (run s) l)).
  rewrite length_app. cbn [length].
  assert (Z.of_nat (length (run s id)) <= maxObsPerRun) as Hr.
  { unfold run. destruct (runs s !! id) as [r|] eqn:E; [|cbn; unfold maxObsPerRun; lia].
    apply (ok_runs _ Hok) in E as (_ & ? & _). done. }
  lia.
Qed.

(** C8: The collector's memory is bounded.  With --max-runs N, N at least 1,
    whatever requests arrive in whatever order, the store holds at most N run
    ids, each once, the map has an entry exactly for the listed ids, every run
    has between 1 and 4096 observations that all carry its id, and so at most
    4096 * N observations are kept. *)
Theorem collector_bounded decode c s :
  1 <= c -> reachable decode c s ->
  NoDup (order s) /\ Z.of_nat (length (order s)) <= c
  /\ (forall id, is_Some (runs s !! id) <-> id ∈ order s)
  /\ (forall id l, runs s !! id = Some l ->
        l ≠ [] /\ Z.of_nat (length l) <= maxObsPerRun /\ Forall (fun o => ID o = id) l)
  /\ Z.of_nat (length (mjoin (map (run s) (order s)))) <= maxObsPerRun * c.
Proof.
  intros Hc Hr. destruct (reachable_ok _ _ _ Hc Hr) as [Hok Hcap].
  pose proof (sum_run_bound s (order s) Hok) as Hsum.
  destruct Hok as [Hnd Hdom Hsz Hruns]. split_and!; [done | lia | done | exact Hruns |].
  unfold maxObsPerRun in *. lia.
Qed.

(** Every request is answered: in a reachable store (--max-runs at least 1) no
    handler panics; GET requests and rejected posts leave the store as it is, and
    a post of a valid observation is stored. *)
Theorem every_request_is_answered decode c s q :
  1 <= c -> reachable decode c s ->
  exists r s', serve decode q s = Ret (r, s')
    /\ (r ≠ RespNoContent -> s' = s)
    /\ (r = RespNoContent ->
        exists o body, q = Root "POST" body /\ decode body = Some o /\ add o s = Ret s').
Proof.
  intros Hc Hr. destruct (reachable_ok _ _ _ Hc Hr) as [Hok Hcap].
  destruct q as [| |id|method body]; cbn [serve]; [by eexists _, _..| |].
  - destruct (bool_decide _); by eexists _, _.
  - destruct (bool_decide_reflect (method = "POST"%string)) as [->|]; cbn [negb]; [|by eexists _, _].
    destruct (decode body) as [o|] eqn:Ed; [|by eexists _, _].
    destruct (bool_decide _); [by eexists _, _ |]. rewrite add_added by (done || lia).
    eexists _, _. split; [reflexivity |]. split; [done |]. intros _. exists o, body.
    by rewrite add_added by (done || lia).
Qed.

(** ** The comparison of a path *)

Lemma bytes_lt_irrefl a : bytes_lt a a = false.
Proof. induction a as [|x a IH]; [done |]. cbn. by rewrite Z.ltb_irrefl. Qed.

Lemma bytes_lt_asym a b : bytes_lt a b = true -> bytes_lt b a = false.
Proof.
  revert b. induction a as [|x a IH]; intros [|y b]; cbn; try done.
  destruct (Z.ltb_spec x y), (Z.ltb_spec y x); try done; try lia. apply IH.
Qed.

(** "Not greater" is transitive. *)
Lemma bytes_lt_negtrans a b c :
  bytes_lt b a = false -> bytes_lt c b = false -> bytes_lt c a = false.
Proof.
  revert b c. induction a as [|x a IH]; intros [|y b] [|z c]; cbn; try done.
  destruct (Z.ltb_spec y x), (Z.ltb_spec x y), (Z.ltb_spec z y), (Z.ltb_spec y z),
    (Z.ltb_spec z x), (Z.ltb_spec x z); try done; try lia. apply IH.
Qed.

Lemma less_irrefl a : less a a = false.
Proof. unfold less. rewrite Z.eqb_refl. apply bytes_lt_irrefl. Qed.

Lemma less_asym a b : less a b = true -> less b a = false.
Proof.
  unfold less. rewrite (Z.eqb_sym (o_Hop b)). destruct (Z.eqb_spec (o_Hop a) (o_Hop b)); cbn [negb].
  - apply bytes_lt_asym.
  - intros H. lia.
Qed.

Lemma less_negtrans a b c : less b a = false -> less c b = false -> less c a = false.
Proof.
  unfold less. destruct (Z.eqb_spec (o_Hop b) (o_Hop a)), (Z.eqb_spec (o_Hop c) (o_Hop b)),
    (Z.eqb_spec (o_Hop c) (o_Hop a)); cbn [negb]; try lia. apply bytes_lt_negtrans.
Qed.

(** ** Sorting *)

(** [a] does not come after [b]. *)
Definition before (a b : Observation) : Prop := less b a = false.

(** What the sort looks at. *)
Definition sort_key (o : Observation) : Z * string := (o_Hop o, Timestamp o).

Lemma less_key a b c : sort_key a = sort_key b -> less c a = less c b.
Proof. unfold sort_key, less. by intros [= -> ->]. Qed.

Lemma insert_perm x l : insert_obs x l ≡ₚ x :: l.
Proof.
  induction l as [|y l IH]; [done |]. cbn. destruct (less x y); [done |].
  rewrite IH. constructor.
Qed.

Lemma insert_sorted x l :
  StronglySorted before l -> StronglySorted before (insert_obs x l).
Proof.
  induction 1 as [|y l Hs IH Hall]; cbn; [repeat constructor |].
  destruct (less x y) eqn:E.
  - constructor; [by constructor |]. apply less_asym in E. constructor; [done |].
    eapply Forall_impl; [done |]. intros z Hz. by eapply less_negtrans.
  - constructor; [done |]. rewrite insert_perm. by constructor.
Qed.

(** An inserted element goes behind those with its key, and the rest keeps its
    order. *)
Lemma insert_stable x l k :
  StronglySorted before l ->
  filter (fun o => sort_key o = k) (insert_obs x l)
  = filter (fun o => sort_key o = k) (l ++ [x]).
Proof.
  rewrite filter_app. induction 1 as [|y l Hs IH Hall]; [done |].
  cbn [insert_obs]. destruct (less x y) eqn:E.
  - rewrite (filter_cons _ x). destruct (decide (sort_key x = k)) as [Hk|Hk].
    + assert (filter (fun o => sort_key o = k) (y :: l) = []) as ->.
      { apply filter_none. intros z Hz Hzk.
        assert (less x z = true) as Hxz.
        { destruct (less x z) eqn:Exz; [done |]. apply elem_of_cons in Hz as [->|Hz]; [congruence |].
          eapply Forall_forall in Hall; [|done]. by rewrite (less_negtrans y z x) in E. }
        rewrite <- (less_key x z), less_irrefl in Hxz by congruence. done. }
      rewrite filter_cons. by destruct (decide (sort_key x = k)).
    + rewrite (filter_cons _ x []). destruct (decide (sort_key x = k)); [done |].
      by rewrite app_nil_r.
  - rewrite !(filter_cons _ y). rewrite IH. by destruct (decide (sort_key y = k)).
Qed.

Lemma sort_from acc l :
  StronglySorted before acc ->
  let s := foldl (fun acc x => insert_obs x acc) acc l in
  s ≡ₚ acc ++ l /\ StronglySorted before s
  /\ forall k, filter (fun o => sort_key o = k) s = filter (fun o => sort_key o = k) (acc ++ l).
Proof.
  revert acc. induction l as [|x l IH]; intros acc Hacc; cbn [foldl].
  - rewrite app_nil_r. done.
  - destruct (IH (insert_obs x acc) (insert_sorted x acc Hacc)) as (Hp & Hs & Hf). split_and!.
    + rewrite Hp, insert_perm. by rewrite <- Permutation_middle.
    + done.
    + intros k. rewrite Hf, !filter_app, insert_stable by done.
      rewrite filter_app, (filter_cons _ x l), (filter_cons _ x []), <- app_assoc.
      by destruct (decide _).
Qed.

(** ** Properties of the operations *)


(** What add does to a well-formed store.  A known id keeps its place and gets
    the observation appended unless it has 4096 already; a new id goes to the end
    of the order, and when the store is full the id at its front, the one that
    was inserted first, is forgotten, however recently it was used; all other
    runs stay as they are. *)
Theorem add_evicts_oldest o s :
  store_ok s -> 1 <= cap s ->
  exists s', add o s = Ret s' /\ cap s' = cap s
    /\ match runs s !! ID o with
       | Some l =>
           order s' = order s
           /\ runs s' !! ID o
              = Some (if maxObsPerRun <=? Z.of_nat (length l) then l else l ++ [o])
           /\ forall id, id ≠ ID o -> runs s' !! id = runs s !! id
       | None =>
           let full := cap s <=? Z.of_nat (length (order s)) in
           order s' = (if full then tail (order s) else order s) ++ [ID o]
           /\ runs s' !! ID o = Some [o]
           /\ forall id, id ≠ ID o ->
                runs s' !! id
                = (if full && bool_decide (head (order s) = Some id) then None
                   else runs s !! id)
       end.
Proof.
  intros Hok Hc. exists (added o s). rewrite add_added by done. split; [done |].
  split; [by apply added_ok |]. unfold added.
  destruct (runs s !! ID o) as [l|] eqn:E.
  - destruct (maxObsPerRun <=? _); [done |]. cbn [order runs].
    rewrite lookup_insert_eq. split_and!; [done | done |].
    intros id Hne. by rewrite lookup_insert_ne.
  - cbn [order runs]. rewrite lookup_insert_eq. unfold make_room.
    destruct (Z.leb_spec (cap s) (Z.of_nat (length (order s)))); cbn [order runs andb];
      (split_and!; [done | done |]); intros id Hne; rewrite lookup_insert_ne by done; [|done].
    destruct (order s) as [|old rest]; cbn [head]; [done |].
    destruct (decide (old = id)) as [->|Hold].
    + by rewrite lookup_delete_eq, bool_decide_true.
    + rewrite lookup_delete_ne, bool_decide_false by congruence. done.
Qed.

(** ** Observations for the instances below *)

Definition demo_obs (id : string) (hop ts : Z) : Observation :=
  mkObs id "node" hop "INGRESS" 0 0 "FORWARDED" "ICMP" 4 2 "eth0" "" "" "10.0.0.9" "10.0.0.2" 0 0 ""
    "REGULAR" (FormatRFC3339Nano (mkTime ts 0)) 0 0 false.

Definition demo_store : store :=
  mkStore (<["b"%string := [demo_obs "b" 2 0]]> (<["a"%string := [demo_obs "a" 1 0]]> ∅))
    ["a"; "b"]%string 2.

Lemma demo_store_ok : store_ok demo_store.
Proof.
  constructor; cbn [runs order cap demo_store].
  - apply NoDup_cons. split; [set_solver | apply NoDup_singleton].
  - intros id. rewrite lookup_insert_is_Some, lookup_insert_is_Some, lookup_empty.
    split; [|set_solver]. intros [<-|[_ [<-|[_ [? ?]]]]]; set_solver.
  - cbn. lia.
  - intros id l. rewrite !lookup_insert_Some, lookup_empty.
    intros [[<- <-]|[_ [[<- <-]|[_ ?]]]]; [| |done];
      (split_and!; [done | unfold maxObsPerRun; cbn; lia | by constructor]).
Qed.

Lemma add_evicts_oldest_witness :
  exists s', add (demo_obs "c" 1 5) demo_store = Ret s' /\ cap s' = 2
    /\ order s' = ["b"; "c"]%string
    /\ runs s' !! "c"%string = Some [demo_obs "c" 1 5]
    /\ forall id, id ≠ "c"%string ->
         runs s' !! id = (if true && bool_decide (Some "a"%string = Some id) then None
                          else runs demo_store !! id).
Proof.
  apply (add_evicts_oldest (demo_obs "c" 1 5) demo_store); [apply demo_store_ok | cbn; lia].
Defined.

Lemma collector_bounded_witness :
  NoDup (order (newStore 3)) /\ Z.of_nat (length (order (newStore 3))) <= 3
  /\ (forall id, is_Some (runs (newStore 3) !! id) <-> id ∈ order (newStore 3))
  /\ (forall id l, runs (newStore 3) !! id = Some l ->
        l ≠ [] /\ Z.of_nat (length l) <= maxObsPerRun /\ Forall (fun o => ID o = id) l)
  /\ Z.of_nat (length (mjoin (map (run (newStore 3)) (order (newStore 3))))) <= maxObsPerRun * 3.
Proof.
  apply (collector_bounded (fun _ => Some (demo_obs "a" 1 0)) 3 (newStore 3)); [lia |].
  constructor.
Defined.

Lemma every_request_is_answered_witness :
  exists r s', serve (fun _ => Some (demo_obs "a" 1 0)) (Root "POST" []) (newStore 3) = Ret (r, s')
    /\ (r ≠ RespNoContent -> s' = newStore 3)
    /\ (r = RespNoContent ->
        exists o body, Root "POST" [] = Root "POST" body
          /\ Some (demo_obs "a" 1 0) = Some o /\ add o (newStore 3) = Ret s').
Proof.
  apply (every_request_is_answered (fun _ => Some (demo_obs "a" 1 0)) 3 (newStore 3)
           (Root "POST" [])); [lia | constructor].
Defined.

(** ** What the bounds do not cover *)

Lemma add_cap_zero o s :
  cap s = 0 -> order s = [] -> runs s !! ID o = None ->
  add o s = Ret (mkStore (<[ID o := [o]]> (delete (ID o) (runs s))) [] 0).
Proof.
  intros Hc Ho Hr. unfold add. rewrite Hr, Ho, Hc. cbn [app evict length].
  change (0 <? Z.of_nat 1) with true. cbn [evict length]. change (0 <? Z.of_nat 0) with false.
  cbn [mbind go_bind mret go_ret]. unfold run. cbn [runs]. rewrite lookup_delete_eq. done.
Qed.

(** With --max-runs 0 nothing is ever evicted or listed: adding any number of
    observations with different ids keeps them all in the map, without bound,
    while the list of runs stays empty. *)
Theorem max_runs_zero_keeps_all obs :
  NoDup (map ID obs) ->
  exists s, foldl (fun m o => s ← m; add o s) (mret (newStore 0)) obs = Ret s
    /\ ids s = [] /\ size (runs s) = length obs.
Proof.
  intros Hnd.
  enough (exists s, foldl (fun m o => s ← m; add o s) (mret (newStore 0)) obs = Ret s
    /\ order s = [] /\ cap s = 0 /\ size (runs s) = length obs
    /\ forall id, is_Some (runs s !! id) -> id ∈ map ID obs) as (s & Hs & Ho & _ & Hz & _).
  { exists s. unfold ids. by rewrite Ho. }
  induction obs as [|o obs IH] using rev_ind.
  { exists (newStore 0). split_and!; try done. cbn. intros id. rewrite lookup_empty.
    by intros [? ?]. }
  rewrite map_app in *. apply NoDup_app in Hnd as (Hnd & Hdisj & _).
  destruct (IH Hnd) as (s & Hs & Ho & Hc & Hz & Hdom).
  assert (runs s !! ID o = None) as Hnone.
  { destruct (runs s !! ID o) eqn:E; [|done]. destruct (Hdisj (ID o)); [|set_solver].
    apply Hdom. by rewrite E. }
  rewrite foldl_app. cbn [foldl]. rewrite Hs. cbn [mbind go_bind].
  rewrite add_cap_zero by done. eexists. split; [reflexivity |]. cbn [order cap runs].
  rewrite delete_id, map_size_insert_None, length_app, Hz by done. split_and!; [done | done | cbn; lia |].
  intros id. rewrite lookup_insert_is_Some, elem_of_app. intros [<-|[_ Hi]]; [set_solver | auto].
Qed.

Lemma max_runs_zero_keeps_all_witness :
  exists s, foldl (fun m o => s ← m; add o s) (mret (newStore 0))
              [demo_obs "a" 1 0; demo_obs "b" 1 0] = Ret s
    /\ ids s = [] /\ size (runs s) = 2%nat.
Proof.
  apply (max_runs_zero_keeps_all [demo_obs "a" 1 0; demo_obs "b" 1 0]).
  compute_decide.
Defined.

(** The timestamps of a path are compared as text, not as times: of two
    observations of the same hop taken half a second apart in the same UTC
    second, the path lists the later one first, because RFC3339Nano drops the
    fraction .000000000 and the text continues with Z, which sorts behind the
    dot. *)
Theorem path_not_chronological :
  let first := demo_obs "a" 1 1700000000000000000 in
  let second := demo_obs "a" 1 1700000000500000000 in
  path (mkStore (<["a"%string := [first; second]]> ∅) ["a"%string] 10) "a" = [second; first].
Proof. vm_compute. reflexivity. Qed.
