(* ===== verification/TfMeta.v ===== *)
(** internal/tfmeta: the constants of the wire format and the 30-byte control
    block (traceflow_meta), with its optional HMAC-SHA256 authenticator. *)
From S2P Require Import Prelude GoStd.

Local Open Scope Z_scope.

Definition DSCP : Z := 62.
Definition ToS : Z := 0xF8.
Definition Magic : Z := 0x54464C4F.
Definition TTLMax : Z := 255.
Definition VXLANPort : Z := 4789.
Definition MetaSize : nat := 30.
Definition AuthSize : nat := 32.
Definition SignedSize : nat := MetaSize + AuthSize.

Definition IfaceRegular : Z := 0.
Definition IfaceVXLAN : Z := 1.
Definition IfaceAuto : Z := 2.

(** ** The control block *)

Record Meta := mkMeta {
  ID : bytes;            (* [16]byte *)
  Deliver : bool;
  NeedResponse : bool;
  Timestamp : Z          (* uint64 *)
}.

(** What the Go types of the fields guarantee. *)
Definition Meta_ok (m : Meta) : Prop :=
  length (ID m) = 16%nat /\ bytes_ok (ID m) /\ 0 <= Timestamp m < 2 ^ 64.

(** The errors of Unmarshal. *)
Inductive meta_error : Type :=
| TooShort (n : nat)     (* payload too short for traceflow_meta: n < 30 *)
| BadMagic.              (* bad magic: not a traceflow packet *)

Definition MagicBytes : go bytes :=
  let b := make 4 in
  put_be 4 b 0 4 Magic.

Definition Marshal (m : Meta) : go bytes :=
  let buf := make MetaSize in
  buf ← put_be 4 buf 0 4 Magic;
  buf ← copy_at buf 4 20 (ID m);
  buf ← (if Deliver m then set_at buf 20 1 else mret buf);
  buf ← (if NeedResponse m then set_at buf 21 1 else mret buf);
  put_le 8 buf 22 30 (Timestamp m).

Definition Sign (core key : bytes) : bytes := Sha256.hmac key core.

Definition Signed (m : Meta) (key : bytes) : go bytes :=
  core ← Marshal m;
  if (length key =? 0)%nat then mret core
  else mret (core ++ Sign core key).

Definition Verify (payload key : bytes) : go bool :=
  if (length key =? 0)%nat then mret true
  else if (length payload <? SignedSize)%nat then mret false
  else
    core ← slice payload 0 MetaSize;
    mac ← slice payload MetaSize SignedSize;
    mret (bool_decide (Sign core key = mac)).

Definition Unmarshal (b : bytes) : go (meta_error + Meta) :=
  if (length b <? MetaSize)%nat then mret (inl (TooShort (length b)))
  else
    w ← slice b 0 4;
    magic ← get_be 4 w;
    if negb (magic =? Magic) then mret (inl BadMagic)
    else
      id ← slice b 4 20;
      d ← index b 20;
      n ← index b 21;
      tw ← slice b 22 30;
      ts ← get_le 8 tw;
      mret (inr (mkMeta id (d =? 1) (n =? 1) ts)).

(** ** The layout of the block *)

Definition b2z (b : bool) : Z := if b then 1 else 0.

(** The block as a concatenation of its fields. *)
Definition core_bytes (m : Meta) : bytes :=
  be_encode 4 Magic ++ ID m ++ [b2z (Deliver m); b2z (NeedResponse m)]
    ++ le_encode 8 (Timestamp m).

Lemma Marshal_layout m : length (ID m) = 16%nat -> Marshal m = Ret (core_bytes m).
Proof.
  destruct m as [id d n ts]. cbn [ID]. intros H. explode id H.
  destruct d, n; reflexivity.
Qed.

Lemma length_core_bytes m : length (ID m) = 16%nat -> length (core_bytes m) = MetaSize.
Proof. intros H. unfold core_bytes. rewrite !length_app, H, length_le_encode. done. Qed.

Lemma core_bytes_ok m : Meta_ok m -> bytes_ok (core_bytes m).
Proof.
  intros (_ & Hid & _). unfold core_bytes. rewrite !bytes_ok_app.
  split_and!; [apply be_encode_ok | done | | apply le_encode_ok].
  destruct (Deliver m), (NeedResponse m); repeat constructor; done.
Qed.

(** Unmarshal does not panic, and its three outcomes. *)
Lemma Unmarshal_short b :
  (length b < MetaSize)%nat -> Unmarshal b = Ret (inl (TooShort (length b))).
Proof. intros H. unfold Unmarshal. by replace (length b <? MetaSize)%nat with true by lia. Qed.

(** The block [Unmarshal] reads from at least 30 bytes with the right magic. *)
Definition decoded (b : bytes) : Meta :=
  mkMeta (take 16 (drop 4 b))
    (nth 20 b 0 =? 1) (nth 21 b 0 =? 1) (le_decode (take 8 (drop 22 b))).

Lemma Unmarshal_long b :
  (MetaSize <= length b)%nat ->
  Unmarshal b =
    Ret (if be_decode (take 4 b) =? Magic then inr (decoded b) else inl BadMagic).
Proof.
  intros H. unfold MetaSize in H.
  do 30 (destruct b as [|? b]; [cbn in H; lia |]). clear H.
  cbn -[be_decode Z.eqb]. unfold get_be, get_le. cbn -[be_decode le_decode Z.eqb].
  by destruct (_ =? Magic).
Qed.

Lemma Unmarshal_safe b : safe (Unmarshal b).
Proof.
  apply safe_eq. destruct (Nat.lt_ge_cases (length b) MetaSize).
  - by rewrite Unmarshal_short; eauto.
  - by rewrite Unmarshal_long; eauto.
Qed.

(** Reading back what [Marshal] wrote, whatever follows it. *)
Lemma Unmarshal_core m rest :
  Meta_ok m -> Unmarshal (core_bytes m ++ rest) = Ret (inr m).
Proof.
  intros (Hid & Hok & Hts).
  rewrite Unmarshal_long by (rewrite length_app, length_core_bytes by done; lia).
  destruct m as [id d n ts]. cbn [ID Timestamp] in *. explode id Hid.
  change (be_decode (take 4 _) =? Magic) with true. cbn [andb]. do 2 f_equal.
  unfold decoded. f_equal; try by destruct d, n.
  change (take 8 _) with (le_encode 8 ts).
  rewrite le_decode_encode. apply Z.mod_small. exact Hts.
Qed.

(** ** Authentication *)

Lemma Verify_nokey p : Verify p [] = Ret true.
Proof. done. Qed.

Lemma Verify_long p key :
  key ≠ [] -> (SignedSize <= length p)%nat ->
  Verify p key =
    Ret (bool_decide (Sign (take MetaSize p) key = take AuthSize (drop MetaSize p))).
Proof.
  intros Hk Hl. unfold Verify.
  replace (length key =? 0)%nat with false by (destruct key; [done | cbn; lia]).
  unfold SignedSize, MetaSize, AuthSize in *.
  replace (length p <? _)%nat with false by lia.
  unfold slice. replace (_ && _)%nat with true by lia. cbn [mbind go_bind].
  by replace (_ && _)%nat with true by lia.
Qed.

Lemma Verify_short p key :
  key ≠ [] -> (length p < SignedSize)%nat -> Verify p key = Ret false.
Proof.
  intros Hk Hl. unfold Verify.
  replace (length key =? 0)%nat with false by (destruct key; [done | cbn; lia]).
  by replace (length p <? SignedSize)%nat with true by lia.
Qed.

Lemma Verify_safe p key : safe (Verify p key).
Proof.
  apply safe_eq. destruct (decide (key = [])) as [-> | Hk]; [by eexists |].
  destruct (Nat.lt_ge_cases (length p) SignedSize);
    [rewrite Verify_short by done | rewrite Verify_long by done]; eauto.
Qed.

(** The payload a client sends. *)
Definition signed_bytes (m : Meta) (key : bytes) : bytes :=
  core_bytes m ++ (if (length key =? 0)%nat then [] else Sign (core_bytes m) key).

Lemma Signed_layout m key :
  length (ID m) = 16%nat -> Signed m key = Ret (signed_bytes m key).
Proof.
  intros H. unfold Signed, signed_bytes. rewrite Marshal_layout by done. cbn.
  destruct (length key =? 0)%nat; [by rewrite app_nil_r | done].
Qed.

Lemma Verify_signed_app m key rest :
  length (ID m) = 16%nat -> Verify (signed_bytes m key ++ rest) key = Ret true.
Proof.
  intros H. destruct (decide (key = [])) as [-> | Hk]; [done |].
  unfold signed_bytes.
  replace (length key =? 0)%nat with false by (destruct key; [done | cbn; lia]).
  pose proof (length_core_bytes m H) as Hc.
  assert (length (Sign (core_bytes m) key) = AuthSize) as Hs by apply Sha256.length_hmac.
  rewrite Verify_long; [| done | rewrite !length_app, Hc, Hs; unfold SignedSize; lia].
  rewrite <- app_assoc, (take_app_length' _ _ _ (eq_sym Hc)), (drop_app_length' _ _ _ (eq_sym Hc)).
  rewrite (take_app_length' _ _ _ (eq_sym Hs)). by rewrite bool_decide_true.
Qed.
