(* ===== verification/TfMetaProps.v ===== *)
(** Properties of the control block of internal/tfmeta: encoding and decoding are
    inverse to each other, decoding has exactly three outcomes, and the
    authenticator is accepted exactly when it is the HMAC of the block. *)
From S2P Require Import Prelude GoStd TfMeta.

Local Open Scope Z_scope.

Lemma length_signed_bytes m key :
  length (ID m) = 16%nat ->
  length (signed_bytes m key) = (if (length key =? 0)%nat then MetaSize else SignedSize).
Proof.
  intros H. unfold signed_bytes. rewrite length_app, length_core_bytes by done.
  destruct (length key =? 0)%nat; [apply Nat.add_0_r |]. unfold Sign. by rewrite Sha256.length_hmac.
Qed.

(** Splitting a block of 30 bytes into its fields. *)
Lemma meta_split b :
  (MetaSize <= length b)%nat ->
  take MetaSize b = take 4 b ++ take 16 (drop 4 b) ++ [nth 20 b 0; nth 21 b 0]
                      ++ take 8 (drop 22 b).
Proof.
  intros H. unfold MetaSize in *. do 30 (destruct b as [|? b]; [cbn in H; lia |]). done.
Qed.

Lemma b2z_eqb x : x = 0 \/ x = 1 -> b2z (x =? 1) = x.
Proof. by intros [-> | ->]. Qed.

Lemma magic_bytes w :
  bytes_ok w -> length w = 4%nat -> be_decode w = Magic -> be_encode 4 Magic = w.
Proof. intros Hw Hl <-. rewrite <- Hl. by apply be_encode_decode. Qed.

(** A block whose two flag bytes are 0 or 1 is the encoding of what is decoded
    from it. *)
Lemma core_bytes_decoded b :
  bytes_ok b -> (MetaSize <= length b)%nat -> be_decode (take 4 b) = Magic ->
  nth 20 b 0 = 0 \/ nth 20 b 0 = 1 -> nth 21 b 0 = 0 \/ nth 21 b 0 = 1 ->
  core_bytes (decoded b) = take MetaSize b.
Proof.
  intros Hb Hl Hm Hd Hn. rewrite meta_split by done.
  unfold core_bytes, decoded. cbn [ID Deliver NeedResponse Timestamp].
  rewrite !b2z_eqb by done. unfold MetaSize in Hl.
  rewrite (magic_bytes (take 4 b)); [| by apply bytes_ok_take | rewrite length_take; lia | done].
  do 3 f_equal.
  pose proof (le_encode_decode (take 8 (drop 22 b)) ltac:(auto using bytes_ok_take, bytes_ok_drop))
    as He.
  rewrite length_take, length_drop, Nat.min_l in He by lia. by rewrite He.
Qed.

Lemma decoded_ok b : bytes_ok b -> (MetaSize <= length b)%nat -> Meta_ok (decoded b).
Proof.
  intros Hb Hl. unfold MetaSize in Hl. unfold Meta_ok, decoded. cbn [ID Timestamp]. split_and!.
  - rewrite length_take, length_drop. lia.
  - by apply bytes_ok_take, bytes_ok_drop.
  - pose proof (le_decode_bound (take 8 (drop 22 b))
                  ltac:(auto using bytes_ok_take, bytes_ok_drop)) as [H _]. exact H.
  - pose proof (le_decode_bound (take 8 (drop 22 b))
                  ltac:(auto using bytes_ok_take, bytes_ok_drop)) as [_ H].
    rewrite length_take, length_drop, Nat.min_l in H by lia. exact H.
Qed.

(** C30: The payload a client signs is read back unchanged: Signed returns 30 bytes
    (62 with a key), and Unmarshal of these bytes followed by anything gives the
    same block, which Verify accepts under the same key. *)
Theorem signed_roundtrip m key rest :
  Meta_ok m ->
  exists b, Signed m key = Ret b
    /\ length b = (if (length key =? 0)%nat then MetaSize else SignedSize)
    /\ Unmarshal (b ++ rest) = Ret (inr m)
    /\ Verify (b ++ rest) key = Ret true.
Proof.
  intros Hm. pose proof (proj1 Hm) as Hid. exists (signed_bytes m key). split_and!.
  - by apply Signed_layout.
  - by apply length_signed_bytes.
  - unfold signed_bytes. rewrite <- app_assoc. by apply Unmarshal_core.
  - by apply Verify_signed_app.
Qed.

Lemma signed_roundtrip_witness :
  exists b, Signed (mkMeta (seqZ 1 16) true false 1700000000123456789) [107; 101; 121] = Ret b
    /\ length b = 62%nat
    /\ Unmarshal (b ++ [84; 70]) = Ret (inr (mkMeta (seqZ 1 16) true false 1700000000123456789))
    /\ Verify (b ++ [84; 70]) [107; 101; 121] = Ret true.
Proof.
  apply (signed_roundtrip (mkMeta (seqZ 1 16) true false 1700000000123456789) [107; 101; 121]
           [84; 70]).
  split_and!; [reflexivity | | cbn; lia | cbn; lia].
  compute_decide.
Defined.



(** Verify always returns.  Without a key it accepts everything; with a key it
    accepts a payload exactly when it has at least 62 bytes and bytes 30..62 are
    the HMAC-SHA256 of bytes 0..30, whatever follows. *)
Theorem Verify_exact payload key :
  exists ok, Verify payload key = Ret ok
    /\ (ok = true <-> key = [] \/
          ((SignedSize <= length payload)%nat
           /\ take AuthSize (drop MetaSize payload)
              = Sha256.hmac key (take MetaSize payload))).
Proof.
  destruct (decide (key = [])) as [-> | Hk]; [by exists true; split; [|split; [left |]] |].
  destruct (Nat.lt_ge_cases (length payload) SignedSize) as [Hl | Hl].
  - exists false. rewrite Verify_short by done. split; [done |]. split; [done |].
    intros [? | [? _]]; [done | lia].
  - rewrite Verify_long by done. eexists. split; [done |]. rewrite bool_decide_eq_true.
    split; [intros H; right; done | intros [? | [_ ?]]; done].
Qed.
