(* ===== verification/Pkt.v ===== *)
(** internal/pkt: builders of raw IPv4, IPv6, ICMP, UDP, TCP, Ethernet, 802.1Q
    and VXLAN packets, and the Internet checksum they carry. *)
From S2P Require Import Prelude GoStd.

Local Open Scope Z_scope.

Definition ICMPEchoReply : Z := 0.
Definition ICMPEchoRequest : Z := 8.
Definition ICMPv6EchoRequest : Z := 128.
Definition ICMPv6EchoReply : Z := 129.

Definition EtherTypeIPv4 : Z := 0x0800.
Definition EtherTypeIPv6 : Z := 0x86DD.
Definition EtherTypeVLAN : Z := 0x8100.

Definition FlagFIN : Z := 0x01.
Definition FlagSYN : Z := 0x02.
Definition FlagRST : Z := 0x04.
Definition FlagPSH : Z := 0x08.
Definition FlagACK : Z := 0x10.

Definition ProtoICMP : Z := 1.
Definition ProtoTCP : Z := 6.
Definition ProtoUDP : Z := 17.
Definition ProtoICMPv6 : Z := 58.

(** len(b) as a Z. *)
Abbreviation zlen b := (Z.of_nat (length b)).

(** ** The Internet checksum *)

(** The two summation steps of [checksum]: the loop over pairs of bytes and the
    odd last byte; [sum] is a uint32. *)
Fixpoint sum_words (b : bytes) (sum : Z) : Z :=
  match b with
  | x :: y :: r => sum_words r (u32 (sum + Z.lor (Z.shiftl x 8) y))
  | [x] => u32 (sum + Z.shiftl x 8)
  | [] => sum
  end.

(** [for sum>>16 != 0 { sum = (sum & 0xFFFF) + (sum >> 16) }].  Two rounds are
    enough for a uint32: see [fold_carry_done]. *)
Fixpoint fold_carry (fuel : nat) (sum : Z) : Z :=
  match fuel with
  | O => sum
  | S fuel' =>
      if negb (Z.shiftr sum 16 =? 0)
      then fold_carry fuel' (u32 (Z.land sum 0xFFFF + Z.shiftr sum 16))
      else sum
  end.

Definition checksum (b : bytes) : Z :=
  Z.lxor (u16 (fold_carry 3 (sum_words b 0))) 0xFFFF.

Arguments checksum : simpl never.

Definition l4Checksum (proto : Z) (src dst segment : bytes) : go Z :=
  let pseudo := make (12 + length segment) in
  pseudo ← copy_at pseudo 0 4 (Net.To4 src);
  pseudo ← copy_at pseudo 4 8 (Net.To4 dst);
  pseudo ← set_at pseudo 9 proto;
  pseudo ← put_be 2 pseudo 10 12 (u16 (zlen segment));
  pseudo ← copy_from pseudo 12 segment;
  mret (checksum pseudo).

Definition l4Checksum6 (nextHdr : Z) (src dst segment : bytes) : go Z :=
  let ph := make (40 + length segment) in
  ph ← copy_at ph 0 16 (Net.To16 src);
  ph ← copy_at ph 16 32 (Net.To16 dst);
  ph ← put_be 4 ph 32 36 (u32 (zlen segment));
  ph ← set_at ph 39 nextHdr;
  ph ← copy_from ph 40 segment;
  mret (checksum ph).

(** ** Builders *)

Definition IPv4 (tos ttl proto : Z) (src dst payload : bytes) : go bytes :=
  let total := (20 + length payload)%nat in
  let h := make total in
  h ← set_at h 0 0x45;
  h ← set_at h 1 tos;
  h ← put_be 2 h 2 4 (u16 (Z.of_nat total));
  h ← put_be 2 h 4 6 0;
  h ← put_be 2 h 6 8 0x4000;
  h ← set_at h 8 ttl;
  h ← set_at h 9 proto;
  h ← copy_at h 12 16 (Net.To4 src);
  h ← copy_at h 16 20 (Net.To4 dst);
  hd ← slice h 0 20;
  h ← put_be 2 h 10 12 (checksum hd);
  copy_from h 20 payload.

Definition ICMP (icmpType id seq : Z) (payload : bytes) : go bytes :=
  let b := make (8 + length payload) in
  b ← set_at b 0 icmpType;
  b ← set_at b 1 0;
  b ← put_be 2 b 4 6 id;
  b ← put_be 2 b 6 8 seq;
  b ← copy_from b 8 payload;
  put_be 2 b 2 4 (checksum b).

Definition UDP (src dst : bytes) (sport dport : Z) (payload : bytes) : go bytes :=
  let b := make (8 + length payload) in
  b ← put_be 2 b 0 2 sport;
  b ← put_be 2 b 2 4 dport;
  b ← put_be 2 b 4 6 (u16 (8 + zlen payload));
  b ← copy_from b 8 payload;
  c ← l4Checksum ProtoUDP src dst b;
  put_be 2 b 6 8 c.

Definition TCP (src dst : bytes) (sport dport seq ack flags : Z) (payload : bytes)
  : go bytes :=
  let b := make (20 + length payload) in
  b ← put_be 2 b 0 2 sport;
  b ← put_be 2 b 2 4 dport;
  b ← put_be 4 b 4 8 seq;
  b ← put_be 4 b 8 12 ack;
  b ← set_at b 12 (Z.shiftl 5 4);
  b ← set_at b 13 flags;
  b ← put_be 2 b 14 16 0xFFFF;
  b ← copy_from b 20 payload;
  c ← l4Checksum ProtoTCP src dst b;
  put_be 2 b 16 18 c.

Definition Ethernet (dstMAC srcMAC : bytes) (etherType : Z) (payload : bytes) : go bytes :=
  let b := make (14 + length payload) in
  b ← copy_at b 0 6 dstMAC;
  b ← copy_at b 6 12 srcMAC;
  b ← put_be 2 b 12 14 etherType;
  copy_from b 14 payload.

Definition EthernetVLAN (dstMAC srcMAC : bytes) (vlanID etherType : Z) (payload : bytes)
  : go bytes :=
  let b := make (18 + length payload) in
  b ← copy_at b 0 6 dstMAC;
  b ← copy_at b 6 12 srcMAC;
  b ← put_be 2 b 12 14 EtherTypeVLAN;
  b ← put_be 2 b 14 16 (Z.land vlanID 0x0FFF);
  b ← put_be 2 b 16 18 etherType;
  copy_from b 18 payload.

Definition IPv6 (tc hopLimit nextHdr : Z) (src dst payload : bytes) : go bytes :=
  let b := make (40 + length payload) in
  b ← set_at b 0 (Z.lor 0x60 (Z.shiftr tc 4));
  b ← set_at b 1 (Z.land (u8 (Z.shiftl tc 4)) 0xF0);
  b ← put_be 2 b 4 6 (u16 (zlen payload));
  b ← set_at b 6 nextHdr;
  b ← set_at b 7 hopLimit;
  b ← copy_at b 8 24 (Net.To16 src);
  b ← copy_at b 24 40 (Net.To16 dst);
  copy_from b 40 payload.

Definition ICMPv6 (icmpType id seq : Z) (src dst payload : bytes) : go bytes :=
  let b := make (8 + length payload) in
  b ← set_at b 0 icmpType;
  b ← set_at b 1 0;
  b ← put_be 2 b 4 6 id;
  b ← put_be 2 b 6 8 seq;
  b ← copy_from b 8 payload;
  c ← l4Checksum6 ProtoICMPv6 src dst b;
  put_be 2 b 2 4 c.

Definition UDP6 (src dst : bytes) (sport dport : Z) (payload : bytes) : go bytes :=
  let b := make (8 + length payload) in
  b ← put_be 2 b 0 2 sport;
  b ← put_be 2 b 2 4 dport;
  b ← put_be 2 b 4 6 (u16 (8 + zlen payload));
  b ← copy_from b 8 payload;
  c ← l4Checksum6 ProtoUDP src dst b;
  put_be 2 b 6 8 c.

Definition TCP6 (src dst : bytes) (sport dport seq ack flags : Z) (payload : bytes)
  : go bytes :=
  let b := make (20 + length payload) in
  b ← put_be 2 b 0 2 sport;
  b ← put_be 2 b 2 4 dport;
  b ← put_be 4 b 4 8 seq;
  b ← put_be 4 b 8 12 ack;
  b ← set_at b 12 (Z.shiftl 5 4);
  b ← set_at b 13 flags;
  b ← put_be 2 b 14 16 0xFFFF;
  b ← copy_from b 20 payload;
  c ← l4Checksum6 ProtoTCP src dst b;
  put_be 2 b 16 18 c.

Definition VXLAN (vni : Z) (innerFrame : bytes) : go bytes :=
  let b := make (8 + length innerFrame) in
  b ← set_at b 0 0x08;
  b ← put_be 4 b 4 8 (u32 (Z.shiftl vni 8));
  copy_from b 8 innerFrame.

(** ** Layouts: every builder returns, and returns this header and payload *)

(** An address field of [n] bytes filled by [copy] from [a]. *)
Definition field (n : nat) (a : bytes) : bytes := take n a ++ make (n - length a).

Definition addr4 (ip : bytes) : bytes := field 4 (Net.To4 ip).
Definition addr6 (ip : bytes) : bytes := field 16 (Net.To16 ip).

Definition ipv4_hdr (tos ttl proto : Z) (src dst : bytes) (total c : Z) : bytes :=
  [0x45; tos] ++ be_encode 2 (u16 total) ++ be_encode 2 0 ++ be_encode 2 0x4000
    ++ [ttl; proto] ++ be_encode 2 c ++ addr4 src ++ addr4 dst.

Definition ipv4_bytes (tos ttl proto : Z) (src dst payload : bytes) : bytes :=
  let total := zlen payload + 20 in
  ipv4_hdr tos ttl proto src dst total
    (checksum (ipv4_hdr tos ttl proto src dst total 0)) ++ payload.

Lemma length_field n a : length (field n a) = n.
Proof. unfold field. rewrite length_app, length_take, length_make. lia. Qed.

(** Case split on the two outcomes of To4 or To16: nil or all bytes. *)
Ltac split_addr t :=
  let H := fresh "H" in
  destruct t as [H|H];
  match type of H with
  | length (?f ?ip) = ?n =>
      let l := fresh "l" in
      generalize dependent (f ip); intros l H;
      lazymatch n with
      | O => apply nil_length_inv in H as ->
      | _ => explode l H
      end
  end.

Lemma IPv4_layout tos ttl proto src dst payload :
  IPv4 tos ttl proto src dst payload = Ret (ipv4_bytes tos ttl proto src dst payload).
Proof.
  unfold IPv4, ipv4_bytes, ipv4_hdr, addr4.
  replace (zlen payload + 20) with (Z.of_nat (20 + length payload)) by lia.
  split_addr (Net.length_To4 src); split_addr (Net.length_To4 dst);
    (etransitivity; [| apply copy_from_app, eq_sym, length_make]; reflexivity).
Qed.

(** Run a builder up to the copy of its payload, by computation on the header
    [h], and continue with [f] on the header followed by the payload. *)
Lemma fill_payload {B} h payload (f : bytes -> go B) :
  (copy_from (h ++ make (length payload)) (length h) payload ≫= f) = f (h ++ payload).
Proof. by rewrite copy_from_app by by rewrite length_make. Qed.

Definition pseudo4 (proto : Z) (src dst : bytes) (n : Z) : bytes :=
  addr4 src ++ addr4 dst ++ [0; proto] ++ be_encode 2 (u16 n).

Definition pseudo6 (nextHdr : Z) (src dst : bytes) (n : Z) : bytes :=
  addr6 src ++ addr6 dst ++ be_encode 4 (u32 n) ++ [0; 0; 0; nextHdr].

Lemma l4Checksum_layout proto src dst seg :
  l4Checksum proto src dst seg = Ret (checksum (pseudo4 proto src dst (zlen seg) ++ seg)).
Proof.
  unfold l4Checksum, pseudo4, addr4.
  split_addr (Net.length_To4 src); split_addr (Net.length_To4 dst);
    (etransitivity; [| apply (fill_payload _ seg (fun p => mret (checksum p)))]; reflexivity).
Qed.

Lemma l4Checksum6_layout nh src dst seg :
  l4Checksum6 nh src dst seg = Ret (checksum (pseudo6 nh src dst (zlen seg) ++ seg)).
Proof.
  unfold l4Checksum6, pseudo6, addr6.
  split_addr (Net.length_To16 src); split_addr (Net.length_To16 dst);
    (etransitivity; [| apply (fill_payload _ seg (fun p => mret (checksum p)))]; reflexivity).
Qed.

Definition icmp_hdr (icmpType c id seq : Z) : bytes :=
  [icmpType; 0] ++ be_encode 2 c ++ be_encode 2 id ++ be_encode 2 seq.

Definition icmp_bytes (icmpType id seq : Z) (payload : bytes) : bytes :=
  icmp_hdr icmpType (checksum (icmp_hdr icmpType 0 id seq ++ payload)) id seq ++ payload.

Lemma ICMP_layout ty id seq payload :
  ICMP ty id seq payload = Ret (icmp_bytes ty id seq payload).
Proof.
  etransitivity;
    [| apply (fill_payload (icmp_hdr ty 0 id seq) payload
                (fun b => put_be 2 b 2 4 (checksum b)))]; reflexivity.
Qed.

Definition udp_hdr (sport dport n c : Z) : bytes :=
  be_encode 2 sport ++ be_encode 2 dport ++ be_encode 2 (u16 n) ++ be_encode 2 c.

(** The transport header with the checksum [ck] computes over the segment. *)
Definition udp_bytes (ck : bytes -> Z) (sport dport : Z) (payload : bytes) : bytes :=
  let n := 8 + zlen payload in
  udp_hdr sport dport n (ck (udp_hdr sport dport n 0 ++ payload)) ++ payload.

Definition tcp_hdr (sport dport seq ack flags c : Z) : bytes :=
  be_encode 2 sport ++ be_encode 2 dport ++ be_encode 4 seq ++ be_encode 4 ack
    ++ [80; flags] ++ be_encode 2 0xFFFF ++ be_encode 2 c ++ [0; 0].

Definition tcp_bytes (ck : bytes -> Z) (sport dport seq ack flags : Z) (payload : bytes)
  : bytes :=
  tcp_hdr sport dport seq ack flags (ck (tcp_hdr sport dport seq ack flags 0 ++ payload))
    ++ payload.

Definition icmp6_bytes (ck : bytes -> Z) (icmpType id seq : Z) (payload : bytes) : bytes :=
  icmp_hdr icmpType (ck (icmp_hdr icmpType 0 id seq ++ payload)) id seq ++ payload.

(** The checksums over the two pseudo-headers. *)
Definition ck4 (proto : Z) (src dst seg : bytes) : Z :=
  checksum (pseudo4 proto src dst (zlen seg) ++ seg).
Definition ck6 (nh : Z) (src dst seg : bytes) : Z :=
  checksum (pseudo6 nh src dst (zlen seg) ++ seg).

Lemma l4Checksum_ck proto src dst seg :
  l4Checksum proto src dst seg = Ret (ck4 proto src dst seg).
Proof. apply l4Checksum_layout. Qed.

Lemma l4Checksum6_ck nh src dst seg :
  l4Checksum6 nh src dst seg = Ret (ck6 nh src dst seg).
Proof. apply l4Checksum6_layout. Qed.

(** Run a builder to [f] applied to header and payload, then use the layout of
    the checksum it calls. *)
Ltac fill_then h payload f :=
  transitivity (f (h ++ payload) : go bytes);
  [ etransitivity; [| apply (fill_payload h payload f)]; reflexivity
  | cbv beta; rewrite ?l4Checksum_ck, ?l4Checksum6_ck; reflexivity ].

Lemma UDP_layout src dst sport dport payload :
  UDP src dst sport dport payload = Ret (udp_bytes (ck4 ProtoUDP src dst) sport dport payload).
Proof.
  fill_then (udp_hdr sport dport (8 + zlen payload) 0) payload
    (fun b => l4Checksum ProtoUDP src dst b ≫= fun c => put_be 2 b 6 8 c).
Qed.

Lemma UDP6_layout src dst sport dport payload :
  UDP6 src dst sport dport payload
  = Ret (udp_bytes (ck6 ProtoUDP src dst) sport dport payload).
Proof.
  fill_then (udp_hdr sport dport (8 + zlen payload) 0) payload
    (fun b => l4Checksum6 ProtoUDP src dst b ≫= fun c => put_be 2 b 6 8 c).
Qed.

Lemma TCP_layout src dst sport dport seq ack flags payload :
  TCP src dst sport dport seq ack flags payload
  = Ret (tcp_bytes (ck4 ProtoTCP src dst) sport dport seq ack flags payload).
Proof.
  fill_then (tcp_hdr sport dport seq ack flags 0) payload
    (fun b => l4Checksum ProtoTCP src dst b ≫= fun c => put_be 2 b 16 18 c).
Qed.

Lemma TCP6_layout src dst sport dport seq ack flags payload :
  TCP6 src dst sport dport seq ack flags payload
  = Ret (tcp_bytes (ck6 ProtoTCP src dst) sport dport seq ack flags payload).
Proof.
  fill_then (tcp_hdr sport dport seq ack flags 0) payload
    (fun b => l4Checksum6 ProtoTCP src dst b ≫= fun c => put_be 2 b 16 18 c).
Qed.

Lemma ICMPv6_layout ty id seq src dst payload :
  ICMPv6 ty id seq src dst payload
  = Ret (icmp6_bytes (ck6 ProtoICMPv6 src dst) ty id seq payload).
Proof.
  fill_then (icmp_hdr ty 0 id seq) payload
    (fun b => l4Checksum6 ProtoICMPv6 src dst b ≫= fun c => put_be 2 b 2 4 c).
Qed.

Definition ipv6_hdr (tc hopLimit nextHdr : Z) (src dst : bytes) (n : Z) : bytes :=
  [Z.lor 0x60 (Z.shiftr tc 4); Z.land (u8 (Z.shiftl tc 4)) 0xF0; 0; 0]
    ++ be_encode 2 (u16 n) ++ [nextHdr; hopLimit] ++ addr6 src ++ addr6 dst.

Definition ipv6_bytes (tc hopLimit nextHdr : Z) (src dst payload : bytes) : bytes :=
  ipv6_hdr tc hopLimit nextHdr src dst (zlen payload) ++ payload.

Lemma IPv6_layout tc hl nh src dst payload :
  IPv6 tc hl nh src dst payload = Ret (ipv6_bytes tc hl nh src dst payload).
Proof.
  unfold IPv6, ipv6_bytes, ipv6_hdr, addr6.
  split_addr (Net.length_To16 src); split_addr (Net.length_To16 dst);
    (etransitivity; [| apply copy_from_app, eq_sym, length_make]; reflexivity).
Qed.

(** A hardware address copied into six zero bytes. *)
Lemma copy_field a r n src :
  copy_at (a ++ make n ++ r) (length a) (length a + n) src = Ret (a ++ field n src ++ r).
Proof.
  unfold copy_at. rewrite !length_app, length_make.
  replace ((length a <=? length a + n) && _)%nat with true by lia.
  unfold write, field. rewrite take_app_length, <- app_assoc.
  replace (length a + n - length a)%nat with n by lia. do 3 f_equal.
  rewrite length_take, drop_app_ge by lia.
  replace (length a + n `min` length src - length a)%nat with (n `min` length src)%nat by lia.
  unfold make. rewrite drop_app_le by (rewrite length_replicate; lia).
  rewrite drop_replicate. do 2 f_equal. lia.
Qed.

Definition eth_hdr (dstMAC srcMAC : bytes) (etherType : Z) : bytes :=
  field 6 dstMAC ++ field 6 srcMAC ++ be_encode 2 etherType.

Definition ethernet_bytes (dstMAC srcMAC : bytes) (etherType : Z) (payload : bytes) : bytes :=
  eth_hdr dstMAC srcMAC etherType ++ payload.

(** The two MAC copies at the head of both Ethernet builders. *)
Lemma copy_macs {B} dstMAC srcMAC n (f : bytes -> go B) :
  (b ← copy_at (make (12 + n)) 0 6 dstMAC; copy_at b 6 12 srcMAC ≫= f)
  = f ((field 6 dstMAC ++ field 6 srcMAC) ++ make n).
Proof.
  rewrite (copy_field [] (make (6 + n)) 6 dstMAC : copy_at (make (12 + n)) 0 6 dstMAC = _).
  cbn [mbind go_bind app].
  pose proof (copy_field (field 6 dstMAC) (make n) 6 srcMAC) as H.
  rewrite length_field in H. rewrite (make_app 6 n). cbn [Nat.add] in H. rewrite H.
  cbn. by rewrite app_assoc.
Qed.

Lemma Ethernet_layout dstMAC srcMAC et payload :
  Ethernet dstMAC srcMAC et payload = Ret (ethernet_bytes dstMAC srcMAC et payload).
Proof.
  unfold Ethernet, ethernet_bytes, eth_hdr.
  change (14 + length payload)%nat with (12 + (2 + length payload))%nat. rewrite copy_macs.
  pose proof (length_field 6 dstMAC) as Hd. pose proof (length_field 6 srcMAC) as Hs.
  generalize dependent (field 6 dstMAC). intros d Hd. generalize dependent (field 6 srcMAC).
  intros s Hs. explode d Hd. explode s Hs.
  etransitivity; [| apply copy_from_app, eq_sym, length_make]; reflexivity.
Qed.

Definition vlan_bytes (dstMAC srcMAC : bytes) (vlanID etherType : Z) (payload : bytes)
  : bytes :=
  (eth_hdr dstMAC srcMAC EtherTypeVLAN ++ be_encode 2 (Z.land vlanID 0x0FFF)
    ++ be_encode 2 etherType) ++ payload.

Lemma EthernetVLAN_layout dstMAC srcMAC vid et payload :
  EthernetVLAN dstMAC srcMAC vid et payload
  = Ret (vlan_bytes dstMAC srcMAC vid et payload).
Proof.
  unfold EthernetVLAN, vlan_bytes, eth_hdr.
  change (18 + length payload)%nat with (12 + (6 + length payload))%nat. rewrite copy_macs.
  pose proof (length_field 6 dstMAC) as Hd. pose proof (length_field 6 srcMAC) as Hs.
  generalize dependent (field 6 dstMAC). intros d Hd. generalize dependent (field 6 srcMAC).
  intros s Hs. explode d Hd. explode s Hs.
  etransitivity; [| apply copy_from_app, eq_sym, length_make]; reflexivity.
Qed.

Definition vxlan_bytes (vni : Z) (innerFrame : bytes) : bytes :=
  ([0x08; 0; 0; 0] ++ be_encode 4 (u32 (Z.shiftl vni 8))) ++ innerFrame.

Lemma VXLAN_layout vni innerFrame :
  VXLAN vni innerFrame = Ret (vxlan_bytes vni innerFrame).
Proof.
  etransitivity; [| apply copy_from_app, eq_sym, length_make]; reflexivity.
Qed.
