(* ===== verification/PktProps.v ===== *)
(** The Internet checksum of internal/pkt computes the one's-complement sum, and
    every builder emits a packet whose checksum verifies. *)
From S2P Require Import Prelude GoStd Pkt.

Local Open Scope Z_scope.

(** ** The sum of the 16-bit words, without wrap-around *)

Fixpoint wsum (b : bytes) : Z :=
  match b with
  | x :: y :: r => (256 * x + y) + wsum r
  | [x] => 256 * x
  | [] => 0
  end.

(** One's-complement reduction of a non-negative sum: 0 only for 0. *)
Definition oc (s : Z) : Z := if s =? 0 then 0 else (s - 1) mod 65535 + 1.

Lemma pair_ind (P : bytes -> Prop) :
  P [] -> (forall x, P [x]) -> (forall x y r, P r -> P (x :: y :: r)) -> forall b, P b.
Proof.
  intros H0 H1 H2.
  enough (forall b, P b /\ forall x, P (x :: b)) as H by (intros b; apply H).
  induction b as [|y b [IH1 IH2]]; [auto |]. split; [apply IH2 | intros x; by apply H2].
Qed.

Lemma wsum_bound b :
  bytes_ok b -> 0 <= wsum b <= 65535 * (zlen b + zlen b mod 2) / 2.
Proof.
  enough (bytes_ok b -> 0 <= 2 * wsum b <= 65535 * (zlen b + zlen b mod 2)) as H
    by (intros Hb; specialize (H Hb); mlia).
  induction b as [|x|x y r IH] using pair_ind; [cbn; lia | |].
  - intros [Hx _]%bytes_ok_cons. unfold is_byte in Hx. cbn [wsum length]. mlia.
  - intros [Hx [Hy Hr]%bytes_ok_cons]%bytes_ok_cons. specialize (IH Hr).
    unfold is_byte in *. cbn [wsum length].
    rewrite !Nat2Z.inj_succ in *. mlia.
Qed.

(** A packet that fits in an IP datagram never overflows the uint32 sum. *)
Lemma wsum_fits b : bytes_ok b -> zlen b <= 131074 -> 0 <= wsum b < 4294967296.
Proof. intros Hb Hl. pose proof (wsum_bound b Hb). mlia. Qed.

Lemma wsum_app a b : (length a mod 2 = 0)%nat -> wsum (a ++ b) = wsum a + wsum b.
Proof.
  induction a as [|x|x y r IH] using pair_ind; intros H; [cbn; lia | done |].
  cbn [app wsum]. rewrite IH; [lia |]. cbn [length] in H.
  replace (S (S (length r))) with (length r + 1 * 2)%nat in H by lia.
  by rewrite Nat.Div0.mod_add in H.
Qed.

Lemma sum_words_spec b s :
  bytes_ok b -> 0 <= s < 4294967296 -> sum_words b s = u32 (s + wsum b).
Proof.
  revert s. induction b as [|x|x y r IH] using pair_ind; intros s Hb Hs.
  - cbn. by rewrite Z.add_0_r, u32_small.
  - cbn. rewrite Z.shiftl_mul_pow2 by lia. f_equal. lia.
  - apply bytes_ok_cons in Hb as [Hx [Hy Hr]%bytes_ok_cons]. cbn [sum_words wsum].
    rewrite lor_shiftl_byte by (unfold is_byte in *; auto with lia).
    rewrite IH by (auto using u32_range).
    unfold u32. rewrite Zplus_mod_idemp_l. f_equal. lia.
Qed.

Lemma oc_range s : 0 <= s -> 0 <= oc s <= 65535.
Proof. intros Hs. unfold oc. destruct (s =? 0) eqn:?; [lia | mlia]. Qed.

Lemma oc_small s : 0 <= s <= 65535 -> oc s = s.
Proof.
  intros Hs. unfold oc. destruct (s =? 0) eqn:?; [lia |]. rewrite Z.mod_small; lia.
Qed.

Lemma oc_shift s k : 0 < s -> 0 < s + k * 65535 -> oc (s + k * 65535) = oc s.
Proof.
  intros Hs Hk. unfold oc. replace (s =? 0) with false by lia.
  replace (s + k * 65535 =? 0) with false by lia.
  replace (s + k * 65535 - 1) with (s - 1 + k * 65535) by lia.
  by rewrite Z_mod_plus_full.
Qed.

(** One round of the folding loop on a uint32. *)
Lemma carry_step s :
  65536 <= s < 4294967296 ->
  u32 (Z.land s 0xFFFF + Z.shiftr s 16) = s - s / 65536 * 65535
  /\ 0 < s - s / 65536 * 65535 <= s mod 65536 + s / 65536.
Proof.
  intros Hs. change (Z.land s 0xFFFF) with (Z.land s (Z.ones 16)).
  rewrite Z.land_ones by lia.
  rewrite Z.shiftr_div_pow2 by lia. change (2 ^ 16) with 65536.
  assert (s mod 65536 = s - s / 65536 * 65536) as -> by mlia.
  rewrite u32_small; mlia.
Qed.

Lemma fold_carry_spec s : 0 <= s < 4294967296 -> fold_carry 3 s = oc s.
Proof.
  assert (forall n s, 0 <= s < 65536 -> fold_carry (S n) s = oc s) as Hlow.
  { intros n s' Hs. cbn [fold_carry]. rewrite Z.shiftr_div_pow2 by lia.
    change (2 ^ 16) with 65536. rewrite Z.div_small, oc_small by lia. done. }
  assert (forall n s, 65536 <= s < 4294967296 ->
            fold_carry (S n) s = fold_carry n (s + - (s / 65536) * 65535)) as Hstep.
  { intros n s' Hs. cbn [fold_carry]. rewrite (proj1 (carry_step s' Hs)).
    rewrite Z.shiftr_div_pow2 by lia. change (2 ^ 16) with 65536.
    replace (s' / 65536 =? 0) with false by mlia. cbn [negb]. f_equal. lia. }
  intros Hs. destruct (Z.lt_ge_cases s 65536) as [H1|H1]; [apply Hlow; lia |].
  destruct (carry_step s ltac:(lia)) as [_ Hr]. rewrite Hstep by lia.
  rewrite <- (oc_shift s (- (s / 65536))) by lia.
  set (s' := s + - (s / 65536) * 65535) in *.
  assert (0 < s' <= 131070) as Hs' by mlia. clearbody s'.
  destruct (Z.lt_ge_cases s' 65536) as [H2|H2]; [apply Hlow; lia |].
  destruct (carry_step s' ltac:(lia)) as [_ Hr']. rewrite Hstep by lia.
  rewrite <- (oc_shift s' (- (s' / 65536))) by lia. apply Hlow. mlia.
Qed.

Lemma lxor_ffff x : 0 <= x < 65536 -> Z.lxor x 0xFFFF = 65535 - x.
Proof.
  intros Hx. apply Z.add_move_l.
  rewrite Z.add_nocarry_lxor.
  - rewrite <- Z.lxor_assoc, Z.lxor_nilpotent, Z.lxor_0_l. done.
  - apply Z.bits_inj'. intros n Hn. rewrite Z.land_spec, Z.lxor_spec, Z.bits_0.
    change 0xFFFF with (Z.ones 16).
    destruct (Z.testbit x n) eqn:Hb; [|done].
    rewrite Z.ones_spec_low; [done |]. split; [lia |].
    apply Z.lt_nge. intros Hge. rewrite Z.bits_above_log2 in Hb; [done | lia |].
    destruct (Z.eq_dec x 0) as [->|]; [by rewrite Z.bits_0 in Hb |].
    assert (Z.log2 x < 16) by (apply Z.log2_lt_pow2; lia). lia.
Qed.

Lemma checksum_oc b :
  bytes_ok b -> zlen b <= 131074 -> checksum b = 65535 - oc (wsum b).
Proof.
  intros Hb Hl. pose proof (wsum_fits b Hb Hl) as Hw. unfold checksum.
  rewrite sum_words_spec, Z.add_0_l, u32_small, fold_carry_spec by (done || lia).
  pose proof (oc_range (wsum b) ltac:(lia)).
  rewrite u16_small, lxor_ffff by lia. done.
Qed.

Lemma checksum_range b : 0 <= checksum b < 65536.
Proof.
  unfold checksum. pose proof (u16_range (fold_carry 3 (sum_words b 0))).
  rewrite lxor_ffff; lia.
Qed.

Lemma wsum_be2 v : wsum (be_encode 2 v) = u16 v.
Proof.
  cbn. rewrite Z.shiftr_div_pow2, Z.shiftr_0_r by lia. unfold u8, u16.
  change (2 ^ (8 * 1)) with 256. mlia.
Qed.

(** Storing the checksum of a packet, computed with a zero field, in that field
    makes the checksum of the packet zero. *)
Lemma checksum_verifies a t :
  bytes_ok a -> bytes_ok t -> (length a mod 2 = 0)%nat ->
  zlen a + 2 + zlen t <= 131074 ->
  checksum (a ++ be_encode 2 (checksum (a ++ be_encode 2 0 ++ t)) ++ t) = 0.
Proof.
  intros Ha Ht Hev Hlen.
  assert (forall v, bytes_ok (a ++ be_encode 2 v ++ t)) as Hok.
  { intros v. rewrite !bytes_ok_app. auto using be_encode_ok. }
  assert (forall v, zlen (a ++ be_encode 2 v ++ t) <= 131074) as Hl.
  { intros v. rewrite !length_app, length_be_encode. lia. }
  assert (forall v, wsum (a ++ be_encode 2 v ++ t) = wsum a + wsum t + u16 v) as Hw.
  { intros v. rewrite !wsum_app, wsum_be2 by done. lia. }
  pose proof (checksum_range (a ++ be_encode 2 0 ++ t)) as Hr.
  rewrite checksum_oc, Hw, u16_small by done.
  rewrite (checksum_oc (a ++ be_encode 2 0 ++ t)), Hw by done.
  pose proof (wsum_bound a Ha). pose proof (wsum_bound t Ht).
  change (u16 0) with 0. rewrite Z.add_0_r. set (s := wsum a + wsum t).
  assert (0 <= s) as Hs by lia. clearbody s.
  unfold oc at 2. destruct (Z.eqb_spec s 0) as [->|Hne]; [done |].
  replace (s + (65535 - ((s - 1) mod 65535 + 1)))
    with (65535 + ((s - 1) / 65535) * 65535) by mlia.
  rewrite oc_shift by mlia. done.
Qed.

(** ** The packets of the builders *)

Lemma field_ok n a : bytes_ok a -> bytes_ok (field n a).
Proof.
  intros Ha. unfold field. apply bytes_ok_app.
  split; [by apply bytes_ok_take | apply bytes_ok_zeros].
Qed.

Lemma addr4_ok ip : bytes_ok ip -> bytes_ok (addr4 ip).
Proof. intros H. by apply field_ok, Net.To4_ok. Qed.

Lemma addr6_ok ip : bytes_ok ip -> bytes_ok (addr6 ip).
Proof. intros H. by apply field_ok, Net.To16_ok. Qed.

Lemma length_addr4 ip : length (addr4 ip) = 4%nat.
Proof. apply length_field. Qed.

Lemma length_addr6 ip : length (addr6 ip) = 16%nat.
Proof. apply length_field. Qed.

Lemma bytes_ok_1 x : is_byte x -> bytes_ok [x].
Proof. intros H. by constructor. Qed.

Lemma bytes_ok_2 x y : is_byte x -> is_byte y -> bytes_ok [x; y].
Proof. intros Hx Hy. constructor; [done | by apply bytes_ok_1]. Qed.

Lemma bytes_ok_nil : bytes_ok [].
Proof. constructor. Qed.

Create HintDb bytes discriminated.
#[export] Hint Resolve addr4_ok addr6_ok field_ok be_encode_ok le_encode_ok bytes_ok_1
  bytes_ok_2 bytes_ok_zeros bytes_ok_nil u8_byte bytes_ok_take bytes_ok_drop : bytes.
#[export] Hint Extern 2 (is_byte _) => unfold is_byte; lia : bytes.
#[export] Hint Extern 2 (is_byte _) => by split : bytes.
#[export] Hint Extern 1 (bytes_ok (_ ++ _)) => apply bytes_ok_app; split : bytes.

Create Rewrite HintDb len.
#[export] Hint Rewrite @length_app length_be_encode length_le_encode length_addr4
  length_addr6 length_field length_make @length_cons @length_nil Nat2Z.inj_add : len.

Lemma length_ipv4_hdr tos ttl proto src dst n c :
  length (ipv4_hdr tos ttl proto src dst n c) = 20%nat.
Proof. unfold ipv4_hdr. by autorewrite with len. Qed.

Lemma ipv4_hdr_verifies tos ttl proto src dst n :
  is_byte tos -> is_byte ttl -> is_byte proto -> bytes_ok src -> bytes_ok dst ->
  checksum
    (ipv4_hdr tos ttl proto src dst n (checksum (ipv4_hdr tos ttl proto src dst n 0))) = 0.
Proof.
  intros ?????. unfold ipv4_hdr.
  pose (a := [0x45; tos] ++ be_encode 2 (u16 n) ++ be_encode 2 0 ++ be_encode 2 0x4000
               ++ [ttl; proto]).
  apply (checksum_verifies a (addr4 src ++ addr4 dst)); subst a;
    [auto 10 with bytes | auto with bytes | done | by autorewrite with len].
Qed.

(** A segment checksummed behind a pseudo-header [ps n] ([n] the length of the
    segment), whose header [h c] has the checksum [c] at an even offset. *)
Lemma segment_verifies (ps h : Z -> bytes) a t payload (k : nat) :
  (forall n, bytes_ok (ps n)) -> (forall n, length (ps n) = k) ->
  (forall c, h c = a ++ be_encode 2 c ++ t) -> bytes_ok a -> bytes_ok t ->
  bytes_ok payload -> ((k + length a) mod 2 = 0)%nat ->
  (k + length a + length t <= 100)%nat -> zlen payload <= 65535 ->
  let ck seg := checksum (ps (zlen seg) ++ seg) in
  ck (h (ck (h 0 ++ payload)) ++ payload) = 0.
Proof.
  intros Hps Hk Hh Ha Ht Hp Hev Hl Hlp ck. subst ck. cbv beta. rewrite !Hh.
  replace (zlen ((a ++ be_encode 2 (checksum _) ++ t) ++ payload))
    with (zlen ((a ++ be_encode 2 0 ++ t) ++ payload))
    by (rewrite !length_app, !length_be_encode; done).
  set (n := zlen _). rewrite <- !app_assoc.
  rewrite (app_assoc (ps n) a (be_encode 2 0 ++ _)),
    (app_assoc (ps n) a (be_encode 2 (checksum _) ++ _)).
  apply checksum_verifies; [auto with bytes.. | |].
  - by rewrite length_app, Hk.
  - autorewrite with len. rewrite Hk. lia.
Qed.

Lemma pseudo4_ok proto src dst n :
  is_byte proto -> bytes_ok src -> bytes_ok dst -> bytes_ok (pseudo4 proto src dst n).
Proof. intros. unfold pseudo4. auto 10 with bytes. Qed.

Lemma pseudo6_ok nh src dst n :
  is_byte nh -> bytes_ok src -> bytes_ok dst -> bytes_ok (pseudo6 nh src dst n).
Proof.
  intros. unfold pseudo6. rewrite !bytes_ok_app. split_and!; auto with bytes.
  by apply (bytes_ok_app [0; 0; 0]); split; [apply bytes_ok_zeros with (n := 3%nat) | auto with bytes].
Qed.

#[export] Hint Resolve pseudo4_ok pseudo6_ok : bytes.

Lemma length_pseudo4 proto src dst n : length (pseudo4 proto src dst n) = 12%nat.
Proof. unfold pseudo4. by autorewrite with len. Qed.

Lemma length_pseudo6 nh src dst n : length (pseudo6 nh src dst n) = 40%nat.
Proof. unfold pseudo6. by autorewrite with len. Qed.

Lemma length_udp_bytes ck sport dport payload :
  length (udp_bytes ck sport dport payload) = (8 + length payload)%nat.
Proof. unfold udp_bytes. by rewrite length_app. Qed.

Lemma length_tcp_bytes ck sport dport seq ack flags payload :
  length (tcp_bytes ck sport dport seq ack flags payload) = (20 + length payload)%nat.
Proof. unfold tcp_bytes. by rewrite length_app. Qed.

Lemma length_icmp_bytes ty id seq payload :
  length (icmp_bytes ty id seq payload) = (8 + length payload)%nat.
Proof. unfold icmp_bytes. by rewrite length_app. Qed.

Lemma length_icmp6_bytes ck ty id seq payload :
  length (icmp6_bytes ck ty id seq payload) = (8 + length payload)%nat.
Proof. unfold icmp6_bytes. by rewrite length_app. Qed.

#[export] Hint Rewrite length_udp_bytes length_tcp_bytes length_icmp_bytes
  length_icmp6_bytes length_pseudo4 length_pseudo6 length_ipv4_hdr : len.

Section segments.
Context (src dst payload : bytes).
Context (Hsrc : bytes_ok src) (Hdst : bytes_ok dst) (Hpl : bytes_ok payload).
Context (Hlen : zlen payload <= 65535).

(** The two pseudo-headers, and none (ICMP over IPv4). *)
Lemma ck4_segment proto h a t :
  is_byte proto -> (forall c, h c = a ++ be_encode 2 c ++ t) -> bytes_ok a -> bytes_ok t ->
  (length a mod 2 = 0)%nat -> (length a + length t <= 60)%nat ->
  ck4 proto src dst (h (ck4 proto src dst (h 0 ++ payload)) ++ payload) = 0.
Proof.
  intros ? Hh ????. apply (segment_verifies (pseudo4 proto src dst) h a t payload 12);
    auto using length_pseudo4 with bytes; [|lia].
  change 12%nat with (6 * 2)%nat. rewrite Nat.add_comm. by rewrite Nat.Div0.mod_add.
Qed.

Lemma ck6_segment nh h a t :
  is_byte nh -> (forall c, h c = a ++ be_encode 2 c ++ t) -> bytes_ok a -> bytes_ok t ->
  (length a mod 2 = 0)%nat -> (length a + length t <= 60)%nat ->
  ck6 nh src dst (h (ck6 nh src dst (h 0 ++ payload)) ++ payload) = 0.
Proof.
  intros ? Hh ????. apply (segment_verifies (pseudo6 nh src dst) h a t payload 40);
    auto using length_pseudo6 with bytes; [|lia].
  change 40%nat with (20 * 2)%nat. rewrite Nat.add_comm. by rewrite Nat.Div0.mod_add.
Qed.

(** The part of each transport header before the checksum and after it. *)
Definition udp_front (sport dport n : Z) : bytes :=
  be_encode 2 sport ++ be_encode 2 dport ++ be_encode 2 (u16 n).
Definition tcp_front (sport dport seq ack flags : Z) : bytes :=
  be_encode 2 sport ++ be_encode 2 dport ++ be_encode 4 seq ++ be_encode 4 ack
    ++ [80; flags] ++ be_encode 2 0xFFFF.

Lemma udp_front_ok sport dport n : bytes_ok (udp_front sport dport n).
Proof. unfold udp_front. auto with bytes. Qed.

Lemma tcp_front_ok sport dport seq ack flags :
  is_byte flags -> bytes_ok (tcp_front sport dport seq ack flags).
Proof. intros. unfold tcp_front. auto 10 with bytes. Qed.

Lemma udp4_verifies sport dport :
  ck4 ProtoUDP src dst (udp_bytes (ck4 ProtoUDP src dst) sport dport payload) = 0.
Proof.
  apply (ck4_segment ProtoUDP (udp_hdr sport dport (8 + zlen payload))
           (udp_front sport dport (8 + zlen payload)) []);
    auto using udp_front_ok with bytes; cbn; lia.
Qed.

Lemma udp6_verifies sport dport :
  ck6 ProtoUDP src dst (udp_bytes (ck6 ProtoUDP src dst) sport dport payload) = 0.
Proof.
  apply (ck6_segment ProtoUDP (udp_hdr sport dport (8 + zlen payload))
           (udp_front sport dport (8 + zlen payload)) []);
    auto using udp_front_ok with bytes; cbn; lia.
Qed.

Lemma tcp4_verifies sport dport seq ack flags :
  is_byte flags ->
  ck4 ProtoTCP src dst (tcp_bytes (ck4 ProtoTCP src dst) sport dport seq ack flags payload)
  = 0.
Proof.
  intros. apply (ck4_segment ProtoTCP (tcp_hdr sport dport seq ack flags)
           (tcp_front sport dport seq ack flags) [0; 0]);
    auto using tcp_front_ok with bytes; cbn; lia.
Qed.

Lemma tcp6_verifies sport dport seq ack flags :
  is_byte flags ->
  ck6 ProtoTCP src dst (tcp_bytes (ck6 ProtoTCP src dst) sport dport seq ack flags payload)
  = 0.
Proof.
  intros. apply (ck6_segment ProtoTCP (tcp_hdr sport dport seq ack flags)
           (tcp_front sport dport seq ack flags) [0; 0]);
    auto using tcp_front_ok with bytes; cbn; lia.
Qed.

Lemma icmp6_verifies ty id seq :
  is_byte ty ->
  ck6 ProtoICMPv6 src dst (icmp6_bytes (ck6 ProtoICMPv6 src dst) ty id seq payload) = 0.
Proof.
  intros. apply (ck6_segment ProtoICMPv6 (fun c => icmp_hdr ty c id seq) [ty; 0]
           (be_encode 2 id ++ be_encode 2 seq)); auto with bytes; cbn; lia.
Qed.

Lemma icmp_verifies ty id seq :
  is_byte ty -> checksum (icmp_bytes ty id seq payload) = 0.
Proof.
  intros. apply (segment_verifies (fun _ => []) (fun c => icmp_hdr ty c id seq) [ty; 0]
           (be_encode 2 id ++ be_encode 2 seq) payload 0);
    auto with bytes; cbn; lia.
Qed.
End segments.

(** ** Properties *)

(** C34: [checksum] is the one's-complement Internet checksum: for every byte
    string of up to 131074 bytes (the largest packets the builders pass are
    half of that) the uint32 accumulator does not overflow, the folding loop
    ends within its two rounds, and the result is the complement of the
    one's-complement sum of the 16-bit words. *)
Theorem checksum_is_ones_complement b :
  bytes_ok b -> zlen b <= 131074 -> checksum b = 65535 - oc (wsum b).
Proof. apply checksum_oc. Qed.

Lemma checksum_is_ones_complement_witness :
  checksum [0x45; 0; 0xFF; 0xFF; 7] = 65535 - oc (wsum [0x45; 0; 0xFF; 0xFF; 7]).
Proof.
  apply checksum_is_ones_complement; [repeat constructor; done | cbn; lia].
Defined.

(** [IPv4] returns a 20-byte header followed by the payload, whatever the
    addresses, and the header's own checksum verifies (is zero over the
    header), as a receiver checks. *)
Lemma ipv4_header_verifies tos ttl proto src dst payload :
  is_byte tos -> is_byte ttl -> is_byte proto -> bytes_ok src -> bytes_ok dst ->
  exists h, IPv4 tos ttl proto src dst payload = Ret (h ++ payload)
    /\ length h = 20%nat /\ checksum h = 0.
Proof.
  intros. rewrite IPv4_layout. unfold ipv4_bytes.
  eexists. split; [done |]. split; [apply length_ipv4_hdr | by apply ipv4_hdr_verifies].
Qed.

(** Every IPv4 transport builder emits a segment whose checksum verifies:
    the ICMP checksum over the message, and the UDP and TCP checksums over the
    pseudo-header and the segment, for any ports, sequence numbers and payload
    that fits a datagram. *)
Lemma v4_segments_verify src dst payload sport dport seq ack flags ty id :
  bytes_ok src -> bytes_ok dst -> bytes_ok payload -> zlen payload <= 65535 ->
  is_byte flags -> is_byte ty ->
  go_wp (ICMP ty id seq payload) (fun m => checksum m = 0)
  /\ go_wp (UDP src dst sport dport payload)
       (fun m => l4Checksum ProtoUDP src dst m = Ret 0)
  /\ go_wp (TCP src dst sport dport seq ack flags payload)
       (fun m => l4Checksum ProtoTCP src dst m = Ret 0).
Proof.
  intros. rewrite ICMP_layout, UDP_layout, TCP_layout. cbn [go_wp].
  rewrite !l4Checksum_ck, udp4_verifies, tcp4_verifies by done.
  by rewrite icmp_verifies.
Qed.

(** The same for the IPv6 builders, whose three transports (ICMPv6
    included) are checksummed over the IPv6 pseudo-header. *)
Lemma v6_segments_verify src dst payload sport dport seq ack flags ty id :
  bytes_ok src -> bytes_ok dst -> bytes_ok payload -> zlen payload <= 65535 ->
  is_byte flags -> is_byte ty ->
  go_wp (ICMPv6 ty id seq src dst payload)
    (fun m => l4Checksum6 ProtoICMPv6 src dst m = Ret 0)
  /\ go_wp (UDP6 src dst sport dport payload)
       (fun m => l4Checksum6 ProtoUDP src dst m = Ret 0)
  /\ go_wp (TCP6 src dst sport dport seq ack flags payload)
       (fun m => l4Checksum6 ProtoTCP src dst m = Ret 0).
Proof.
  intros. rewrite ICMPv6_layout, UDP6_layout, TCP6_layout. cbn [go_wp].
  by rewrite !l4Checksum6_ck, icmp6_verifies, udp6_verifies, tcp6_verifies.
Qed.



(** UDP6 (and UDP) store the computed checksum as it is: there is a datagram
    for which the field on the wire is 0x0000, which RFC 8200 forbids over IPv6
    and which RFC 768 reads as "no checksum"; the 0xFFFF replacement of the
    RFCs is not made. *)
Theorem udp6_checksum_can_be_zero :
  exists src dst sport dport payload m,
    UDP6 src dst sport dport payload = Ret m /\ slice m 6 8 = Ret [0; 0].
Proof.
  exists [32; 1; 13; 184; 0; 0; 0; 0; 0; 0; 0; 0; 0; 0; 0; 1],
    [32; 1; 13; 184; 0; 0; 0; 0; 0; 0; 0; 0; 0; 0; 0; 2], 40000, 7, [8; 30].
  eexists. split; [rewrite UDP6_layout |]; vm_compute; reflexivity.
Qed.
