(* ===== verification/Responder.v ===== *)
(** agent/responder.go: the AF_PACKET responder of an agent.  Parsers of the
    captured frame, the gate that decides whether to answer, the reply builders
    for ICMP, UDP and TCP over IPv4 and IPv6, the per-connection TCP state, and
    the re-encapsulation of replies to VXLAN frames. *)
From stdpp Require Export gmap strings pretty.
From S2P Require Import Prelude GoStd TfMeta Pkt.

Local Open Scope string_scope.
Local Open Scope Z_scope.

(** ** Tiny parsers *)

Record l2info := mkL2 {
  l2_dst : bytes; l2_src : bytes; etherType : Z; vlan : Z; l3 : bytes
}.

(** The VLAN loop of parseL2 at offset [off] with at most [n] tags left. *)
Fixpoint vlan_loop (n : nat) (frame : bytes) (et : Z) (off : nat) (vl : Z)
  : go (option (Z * nat * Z)) :=
  match n with
  | O => mret (Some (et, off, vl))
  | S n' =>
      if (et =? EtherTypeVLAN) || (et =? 0x88A8) then
        if (length frame <? off + 4)%nat then mret None
        else
          vl ← (if vl =? 0 then
                  w ← slice frame off (off + 2);
                  tci ← get_be 2 w;
                  mret (Z.land tci 0x0FFF)
                else mret vl);
          w ← slice frame (off + 2) (off + 4);
          et ← get_be 2 w;
          vlan_loop n' frame et (off + 4) vl
      else mret (Some (et, off, vl))
  end.

Definition parseL2 (frame : bytes) : go (option l2info) :=
  if (length frame <? 14)%nat then mret None
  else
    dst ← slice frame 0 6;
    src ← slice frame 6 12;
    w ← slice frame 12 14;
    et ← get_be 2 w;
    r ← vlan_loop 2 frame et 14 0;
    match r with
    | None => mret None
    | Some (et, off, vl) =>
        rest ← slice_from frame off;
        mret (Some (mkL2 dst src et vl rest))
    end.

Definition frameL2 (dstMAC srcMAC : bytes) (vl et : Z) (payload : bytes) : go bytes :=
  if negb (vl =? 0) then EthernetVLAN dstMAC srcMAC vl et payload
  else Ethernet dstMAC srcMAC et payload.

Record ipInfo := mkIp { tos : Z; proto : Z; ip_src : bytes; ip_dst : bytes }.

Definition parseIPv4 (l3 : bytes) : go (option (ipInfo * bytes)) :=
  if (length l3 <? 20)%nat then mret None
  else
    b0 ← index l3 0;
    let ihl := (Z.to_nat (Z.land b0 0x0F) * 4)%nat in
    if (ihl <? 20)%nat || (length l3 <? ihl)%nat then mret None
    else
      t ← index l3 1;
      p ← index l3 9;
      src ← slice l3 12 16;
      dst ← slice l3 16 20;
      rest ← slice_from l3 ihl;
      mret (Some (mkIp t p src dst, rest)).

Record ip6Info := mkIp6 { tos6 : Z; nextHdr : Z; ip6_src : bytes; ip6_dst : bytes }.

Definition parseIPv6 (l3 : bytes) : go (option (ip6Info * bytes)) :=
  if (length l3 <? 40)%nat then mret None
  else
    b0 ← index l3 0;
    b1 ← index l3 1;
    let tc := Z.lor (u8 (Z.shiftl (Z.land b0 0x0F) 4)) (Z.shiftr b1 4) in
    nh ← index l3 6;
    src ← slice l3 8 24;
    dst ← slice l3 24 40;
    rest ← slice_from l3 40;
    mret (Some (mkIp6 tc nh src dst, rest)).

(** (src, dst, l4) of an IPv4 or IPv6 packet that carries UDP. *)
Definition outerUDP (et : Z) (l3 : bytes) : go (option (bytes * bytes * bytes)) :=
  if et =? EtherTypeIPv4 then
    r ← parseIPv4 l3;
    match r with
    | None => mret None
    | Some (ip, rest) =>
        if negb (proto ip =? ProtoUDP) then mret None
        else mret (Some (ip_src ip, ip_dst ip, rest))
    end
  else if et =? EtherTypeIPv6 then
    r ← parseIPv6 l3;
    match r with
    | None => mret None
    | Some (ip, rest) =>
        if negb (nextHdr ip =? ProtoUDP) then mret None
        else mret (Some (ip6_src ip, ip6_dst ip, rest))
    end
  else mret None.

Definition isVXLANFrame (frame : bytes) : go bool :=
  r ← parseL2 frame;
  match r with
  | None => mret false
  | Some l2 =>
      u ← outerUDP (etherType l2) (l3 l2);
      match u with
      | None => mret false
      | Some (_, _, l4) =>
          if (8 <=? length l4)%nat then
            w ← slice l4 2 4;
            p ← get_be 2 w;
            mret (p =? VXLANPort)
          else mret false
      end
  end.

Definition orVlan (inline aux : Z) : Z := if negb (inline =? 0) then inline else aux.

(** struct tpacket_auxdata; NativeEndian is little-endian on x86-64. *)
Definition vlanFromAuxData (d : bytes) : go (Z * bool) :=
  if (length d <? 20)%nat then mret (0, false)
  else
    w ← slice d 0 4;
    status ← get_le 4 w;
    if Z.land status 0x10 =? 0 then mret (0, false)
    else
      w ← slice d 16 18;
      tci ← get_le 2 w;
      mret (Z.land tci 0x0FFF, true).

(** ** Connection identity *)

Definition flowKey (src dst : bytes) (sport dport : Z) : string :=
  Net.String src +:+ ":" +:+ pretty sport +:+ ">" +:+ Net.String dst +:+ ":" +:+ pretty dport.

Definition serverISN (src dst : bytes) (sport dport : Z) : Z :=
  let h := Fnv.offset32 in
  let h := Fnv.write32a h (Net.To16 src) in
  let h := Fnv.write32a h (Net.To16 dst) in
  Fnv.write32a h (be_encode 2 sport ++ be_encode 2 dport).

Definition key16 (ip : bytes) : go bytes := copy_at (make 16) 0 16 (Net.To16 ip).

(** ** The responder *)

(** The fields of the responder that do not change after newResponder. *)
Record responder := mkResponder {
  ifType : Z;
  localIPs : gmap bytes bool;
  tcpRespond : bool;
  hmacKey : bytes
}.

(** What a run of the responder changes: the TCP flows (serverNext of each
    4-tuple), the two counters of mtr it increments, and the frames handed to
    the socket, oldest first. *)
Record rstate := mkState {
  flows : gmap string Z;
  authFailures : Z;
  repliesSent : Z;
  wire : list bytes
}.

Definition set_flows (f : gmap string Z) (s : rstate) : rstate :=
  mkState f (authFailures s) (repliesSent s) (wire s).
Definition count_auth (s : rstate) : rstate :=
  mkState (flows s) (u64 (authFailures s + 1)) (repliesSent s) (wire s).
Definition sent (frame : bytes) (s : rstate) : rstate :=
  mkState (flows s) (authFailures s) (u64 (repliesSent s + 1)) (wire s ++ [frame]).

Fixpoint local_set (ips : list bytes) (set : gmap bytes bool) : go (gmap bytes bool) :=
  match ips with
  | [] => mret set
  | ip :: r => k ← key16 ip; local_set r (<[k := true]> set)
  end.

(** newResponder once the socket is open and bound. *)
Definition newResponder (ifType : Z) (ips : list bytes) (tcpRespond : bool) (hmacKey : bytes)
  : go (responder * rstate) :=
  set ← local_set ips ∅;
  mret (mkResponder ifType set tcpRespond hmacKey, mkState ∅ 0 0 []).

Section handler.
(** Whether the AF_PACKET socket accepts a frame (unix.Sendto). *)
Context (sendto : bytes -> bool).
Context (r : responder).

Definition authOK (payload : bytes) : st rstate bool :=
  if (length (hmacKey r) =? 0)%nat then mret true
  else
    ok ← lift (Verify payload (hmacKey r));
    if ok : bool then mret true
    else _ ← modS count_auth; mret false.

Definition isLocal (ip : bytes) : go bool :=
  k ← key16 ip;
  mret (default false (localIPs r !! k)).

Definition send (frame : bytes) : st rstate unit :=
  _ ← lift (slice frame 0 6);
  if sendto frame then modS (sent frame) else mret tt.

Definition sanitize (p : bytes) : go bytes :=
  let out := make (length p) in
  out ← copy_from out 0 p;
  out ← (if (MetaSize <=? length out)%nat then
           out ← set_at out 20 0; set_at out 21 0
         else mret out);
  if (0 <? length (hmacKey r))%nat && (SignedSize <=? length out)%nat then
    core ← slice out 0 MetaSize;
    copy_at out MetaSize SignedSize (Sign core (hmacKey r))
  else mret out.

(** The gate shared by the three transports:
    [err != nil || !meta.NeedResponse || meta.Deliver || !r.authOK(payload)],
    negated.  authOK is called only when the first three are false. *)
Definition wantsReply (payload : bytes) : st rstate bool :=
  u ← lift (Unmarshal payload);
  match u with
  | inl _ => mret false
  | inr meta =>
      if negb (NeedResponse meta) || Deliver meta then mret false
      else authOK payload
  end.

(** The closure mk of buildTCPReply. *)
Definition mkTCP (v6 : bool) (src dst : bytes) (sport dport seq ack fl : Z)
  (payload : bytes) : go bytes :=
  if v6 then
    seg ← TCP6 dst src dport sport seq ack fl payload;
    IPv6 ToS TTLMax ProtoTCP dst src seg
  else
    seg ← TCP dst src dport sport seq ack fl payload;
    IPv4 ToS TTLMax ProtoTCP dst src seg.

(** case SYN without ACK. *)
Definition tcpSYN (v6 : bool) (src dst : bytes) (sport dport clientSeq : Z) (data : bytes)
  : st rstate (option bytes) :=
  let key := flowKey src dst sport dport in
  let isn := serverISN src dst sport dport in
  _ ← modS (fun s => if (4096 <? Z.of_nat (size (flows s))) then set_flows ∅ s else s);
  echo ← lift (sanitize data);
  _ ← modS (fun s =>
        set_flows (<[key := u32 (u32 (isn + 1) + u32 (zlen echo))]> (flows s)) s);
  p ← lift (mkTCP v6 src dst sport dport isn (u32 (clientSeq + 1))
              (Z.lor FlagSYN FlagACK) echo);
  mret (Some p).

(** case FIN. *)
Definition tcpFIN (v6 : bool) (src dst : bytes) (sport dport clientSeq : Z) (data : bytes)
  : st rstate (option bytes) :=
  let key := flowKey src dst sport dport in
  s ← getS;
  let seq := match flows s !! key with
             | Some next => next
             | None => u32 (serverISN src dst sport dport + 1)
             end in
  _ ← modS (fun s => set_flows (delete key (flows s)) s);
  echo ← lift (sanitize data);
  p ← lift (mkTCP v6 src dst sport dport seq
              (u32 (u32 (clientSeq + u32 (zlen data)) + 1))
              (Z.lor FlagFIN FlagACK) echo);
  mret (Some p).

(** case PSH with data. *)
Definition tcpPSH (v6 : bool) (src dst : bytes) (sport dport clientSeq : Z) (data : bytes)
  : st rstate (option bytes) :=
  let key := flowKey src dst sport dport in
  s ← getS;
  let next := match flows s !! key with
              | Some next => next
              | None => u32 (serverISN src dst sport dport + 1)
              end in
  echo ← lift (sanitize data);
  seg ← lift (mkTCP v6 src dst sport dport next (u32 (clientSeq + u32 (zlen data)))
                (Z.lor FlagPSH FlagACK) echo);
  _ ← modS (fun s => set_flows (<[key := u32 (next + u32 (zlen echo))]> (flows s)) s);
  mret (Some seg).

Definition buildTCPReply (src dst tcp : bytes) (v6 : bool) : st rstate (option bytes) :=
  if negb (tcpRespond r) || (length tcp <? 20)%nat then mret None
  else
    w ← lift (slice tcp 0 2); sport ← lift (get_be 2 w);
    w ← lift (slice tcp 2 4); dport ← lift (get_be 2 w);
    w ← lift (slice tcp 4 8); clientSeq ← lift (get_be 4 w);
    b12 ← lift (index tcp 12);
    let doff := (Z.to_nat (Z.shiftr b12 4) * 4)%nat in
    if (doff <? 20)%nat || (length tcp <? doff)%nat then mret None
    else
      flags ← lift (index tcp 13);
      data ← lift (slice_from tcp doff);
      let key := flowKey src dst sport dport in
      if has_bit flags FlagRST then
        _ ← modS (fun s => set_flows (delete key (flows s)) s);
        mret None
      else
        ok ← wantsReply data;
        if negb ok then mret None
        else if has_bit flags FlagSYN && negb (has_bit flags FlagACK) then
          tcpSYN v6 src dst sport dport clientSeq data
        else if has_bit flags FlagFIN then
          tcpFIN v6 src dst sport dport clientSeq data
        else if has_bit flags FlagPSH && (0 <? length data)%nat then
          tcpPSH v6 src dst sport dport clientSeq data
        else mret None.

Definition buildReplyL4 (src dst : bytes) (pr : Z) (l4 : bytes) (v6 : bool)
  : st rstate (option bytes) :=
  if (pr =? ProtoICMP) || (pr =? ProtoICMPv6) then
    if (length l4 <? 8)%nat then mret None
    else
      payload ← lift (slice_from l4 8);
      ok ← wantsReply payload;
      if negb ok then mret None
      else
        w ← lift (slice l4 4 6); id ← lift (get_be 2 w);
        w ← lift (slice l4 6 8); seq ← lift (get_be 2 w);
        echo ← lift (sanitize payload);
        if v6 then
          icmp ← lift (ICMPv6 ICMPv6EchoReply id seq dst src echo);
          p ← lift (IPv6 ToS TTLMax ProtoICMPv6 dst src icmp);
          mret (Some p)
        else
          icmp ← lift (ICMP ICMPEchoReply id seq echo);
          p ← lift (IPv4 ToS TTLMax ProtoICMP dst src icmp);
          mret (Some p)
  else if pr =? ProtoUDP then
    if (length l4 <? 8)%nat then mret None
    else
      payload ← lift (slice_from l4 8);
      ok ← wantsReply payload;
      if negb ok then mret None
      else
        w ← lift (slice l4 0 2); sport ← lift (get_be 2 w);
        w ← lift (slice l4 2 4); dport ← lift (get_be 2 w);
        echo ← lift (sanitize payload);
        if v6 then
          udp ← lift (UDP6 dst src dport sport echo);
          p ← lift (IPv6 ToS TTLMax ProtoUDP dst src udp);
          mret (Some p)
        else
          udp ← lift (UDP dst src dport sport echo);
          p ← lift (IPv4 ToS TTLMax ProtoUDP dst src udp);
          mret (Some p)
  else if pr =? ProtoTCP then buildTCPReply src dst l4 v6
  else mret None.

Definition buildReply (et : Z) (l3 : bytes) : st rstate (option bytes) :=
  info ← lift
    (if et =? EtherTypeIPv4 then
       r ← parseIPv4 l3;
       mret (match r with
             | Some (ip, rest) =>
                 if negb (Z.land (tos ip) 0xFC =? ToS) then None
                 else Some (ip_src ip, ip_dst ip, proto ip, rest, false)
             | None => None
             end)
     else if et =? EtherTypeIPv6 then
       r ← parseIPv6 l3;
       mret (match r with
             | Some (ip, rest) =>
                 if negb (Z.land (tos6 ip) 0xFC =? ToS) then None
                 else Some (ip6_src ip, ip6_dst ip, nextHdr ip, rest, true)
             | None => None
             end)
     else mret None);
  match info with
  | None => mret None
  | Some (src, dst, pr, l4, v6) =>
      loc ← lift (isLocal dst);
      if negb loc then mret None else buildReplyL4 src dst pr l4 v6
  end.

Definition handleRegular (frame : bytes) (auxVlan : Z) : st rstate unit :=
  o ← lift (parseL2 frame);
  match o with
  | None => mret tt
  | Some l2 =>
      reply ← buildReply (etherType l2) (l3 l2);
      match reply with
      | None => mret tt
      | Some p =>
          f ← lift (frameL2 (l2_src l2) (l2_dst l2) (orVlan (vlan l2) auxVlan)
                      (etherType l2) p);
          send f
      end
  end.

Definition handleVXLAN (frame : bytes) (auxVlan : Z) : st rstate unit :=
  o ← lift (parseL2 frame);
  match o with
  | None => mret tt
  | Some oL2 =>
      u ← lift (outerUDP (etherType oL2) (l3 oL2));
      match u with
      | None => mret tt
      | Some (osrc, odst, ol4) =>
          if (length ol4 <? 8)%nat then mret tt
          else
            w ← lift (slice ol4 2 4); dport ← lift (get_be 2 w);
            if negb (dport =? VXLANPort) then mret tt
            else
              vxl ← lift (slice_from ol4 8);
              if (length vxl <? 8)%nat then mret tt
              else
                fl ← lift (index vxl 0);
                if negb (has_bit fl 0x08) then mret tt
                else
                  w ← lift (slice vxl 4 8); vw ← lift (get_be 4 w);
                  let vni := Z.shiftr vw 8 in
                  inner ← lift (slice_from vxl 8);
                  i ← lift (parseL2 inner);
                  match i with
                  | None => mret tt
                  | Some iL2 =>
                      reply ← buildReply (etherType iL2) (l3 iL2);
                      match reply with
                      | None => mret tt
                      | Some innerReply =>
                          innerEth ← lift (frameL2 (l2_src iL2) (l2_dst iL2) (vlan iL2)
                                             (etherType iL2) innerReply);
                          vxlan ← lift (VXLAN vni innerEth);
                          outerIP ← lift
                            (if etherType oL2 =? EtherTypeIPv6 then
                               udp ← UDP6 odst osrc VXLANPort VXLANPort vxlan;
                               IPv6 0 TTLMax ProtoUDP odst osrc udp
                             else
                               udp ← UDP odst osrc VXLANPort VXLANPort vxlan;
                               IPv4 0 TTLMax ProtoUDP odst osrc udp);
                          f ← lift (frameL2 (l2_src oL2) (l2_dst oL2)
                                      (orVlan (vlan oL2) auxVlan) (etherType oL2) outerIP);
                          send f
                      end
                  end
      end
  end.

Definition handle (frame : bytes) (auxVlan : Z) : st rstate unit :=
  if ifType r =? IfaceVXLAN then handleVXLAN frame auxVlan
  else if ifType r =? IfaceRegular then handleRegular frame auxVlan
  else
    v ← lift (isVXLANFrame frame);
    if v : bool then handleVXLAN frame auxVlan else handleRegular frame auxVlan.

(** ** The receive loop *)

(** A control message of the socket: level, type, data. *)
Record scm := mkScm { scm_level : Z; scm_type : Z; scm_data : bytes }.

Definition SOL_PACKET : Z := 263.
Definition PACKET_AUXDATA : Z := 8.

(** unix.ParseSocketControlMessage. *)
Context (parseSCM : bytes -> option (list scm)).

Fixpoint aux_scan (scms : list scm) : go Z :=
  match scms with
  | [] => mret 0
  | m :: rest =>
      if negb (scm_level m =? SOL_PACKET) || negb (scm_type m =? PACKET_AUXDATA)
      then aux_scan rest
      else
        '(v, ok) ← vlanFromAuxData (scm_data m);
        if ok : bool then mret v else aux_scan rest
  end.

Definition auxVLAN (oob : bytes) : go Z :=
  match parseSCM oob with
  | None => mret 0
  | Some scms => aux_scan scms
  end.

(** One result of unix.Recvmsg. *)
Inductive recv :=
| RecvClosed                          (* EBADF or EINTR *)
| RecvError                           (* any other error: back off, continue *)
| RecvFrame (frame oob : bytes).

(** Loop over the results of the successive Recvmsg calls. *)
Fixpoint Loop (evs : list recv) : st rstate unit :=
  match evs with
  | [] => mret tt
  | RecvClosed :: _ => mret tt
  | RecvError :: rest => Loop rest
  | RecvFrame frame oob :: rest =>
      v ← lift (auxVLAN oob);
      _ ← handle frame v;
      Loop rest
  end.
End handler.
