(* ===== verification/ResponderSpec.v ===== *)
(** What the responder computes, as pure functions, and the proof that the code
    of agent/responder.go computes it: every call returns (no index or slice
    expression is out of range on any frame), with this result and this change
    of state. *)
From S2P Require Import Prelude GoStd TfMeta Pkt PktProps Responder.

Local Open Scope Z_scope.

(** ** The gate *)

(** The payload is a control block that asks this agent for an answer. *)
Definition probe_wants (p : bytes) : bool :=
  (MetaSize <=? length p)%nat && (be_decode (take 4 p) =? Magic)
    && (nth 21 p 0 =? 1) && negb (nth 20 p 0 =? 1).

(** The payload carries a valid authenticator, or no key is configured. *)
Definition authentic (key p : bytes) : bool :=
  (length key =? 0)%nat
  || ((SignedSize <=? length p)%nat
      && bool_decide (Sign (take MetaSize p) key = take AuthSize (drop MetaSize p))).

Definition accepts (r : responder) (p : bytes) : bool :=
  probe_wants p && authentic (hmacKey r) p.

(** The state after the gate: a probe that asks for an answer without a valid
    authenticator is counted. *)
Definition gated (r : responder) (p : bytes) (s : rstate) : rstate :=
  if probe_wants p && negb (authentic (hmacKey r) p) then count_auth s else s.

Lemma authOK_spec r p s :
  authOK r p s =
    Ret (authentic (hmacKey r) p,
         if authentic (hmacKey r) p then s else count_auth s).
Proof.
  unfold authOK, authentic. destruct (Nat.eqb_spec (length (hmacKey r)) 0) as [|Hk]; [done |].
  rewrite lift_bind. assert (hmacKey r ≠ []) as Hne by (intros E; by rewrite E in Hk).
  destruct (Nat.leb_spec SignedSize (length p)) as [Hl|Hl]; cbn [orb andb].
  - rewrite Verify_long by done. by destruct (bool_decide _).
  - by rewrite Verify_short by done.
Qed.

Lemma wantsReply_spec r p s : wantsReply r p s = Ret (accepts r p, gated r p s).
Proof.
  unfold wantsReply, accepts, gated, probe_wants. rewrite lift_bind.
  destruct (Nat.leb_spec MetaSize (length p)) as [Hl|Hl]; cbn [andb].
  - rewrite Unmarshal_long by done. cbn [mbind go_bind].
    destruct (_ =? Magic); cbn [andb]; [|done].
    cbn [decoded NeedResponse Deliver]. destruct (nth 21 p 0 =? 1); cbn [andb orb negb]; [|done].
    destruct (nth 20 p 0 =? 1); cbn [andb negb]; [done |].
    rewrite authOK_spec. by destruct (authentic _ _).
  - by rewrite Unmarshal_short by done.
Qed.

(** ** The echoed payload *)

Definition cleared (p : bytes) : bytes :=
  if (MetaSize <=? length p)%nat then <[21%nat := 0]> (<[20%nat := 0]> p) else p.

Definition sanitized (key p : bytes) : bytes :=
  let out := cleared p in
  if (0 <? length key)%nat && (SignedSize <=? length out)%nat
  then write out MetaSize (Sign (take MetaSize out) key) else out.

Lemma length_cleared p : length (cleared p) = length p.
Proof. unfold cleared. destruct (_ <=? _)%nat; [by rewrite !length_insert | done]. Qed.

Lemma sanitize_spec r p : sanitize r p = Ret (sanitized (hmacKey r) p).
Proof.
  unfold sanitize.
  assert (copy_from (make (length p)) 0 p = Ret p) as ->
    by apply (copy_from_app [] (make (length p))), eq_sym, length_make.
  cbn [mbind go_bind].
  assert ((if (MetaSize <=? length p)%nat
           then out ← set_at p 20 0; set_at out 21 0 else mret p) = Ret (cleared p)) as ->.
  { unfold cleared, set_at, MetaSize. destruct (Nat.leb_spec 30 (length p)); [|done].
    replace (20 <? length p)%nat with true by lia. cbn [mbind go_bind].
    rewrite length_insert. by replace (21 <? length p)%nat with true by lia. }
  cbn [mbind go_bind]. unfold sanitized.
  destruct (_ && _) eqn:E; [|done]. apply andb_true_iff in E as [_ E].
  unfold SignedSize, MetaSize, AuthSize in *.
  rewrite slice_ok by lia. cbn [mbind go_bind].
  unfold copy_at. replace ((30 <=? 30 + 32) && _)%nat with true by lia.
  replace (take (30 + 32 - 30) _) with (Sign (take (30 - 0) (drop 0 (cleared p))) (hmacKey r));
    [done |].
  symmetry. apply take_ge. unfold Sign. by rewrite Sha256.length_hmac.
Qed.

Lemma length_sanitized key p : length (sanitized key p) = length p.
Proof.
  unfold sanitized. destruct (_ && _) eqn:E; [|by apply length_cleared].
  rewrite length_write; [apply length_cleared |].
  unfold Sign. rewrite Sha256.length_hmac. unfold SignedSize, MetaSize, AuthSize in *. lia.
Qed.

(** ** The parsers *)

Fixpoint vlan_tags (n : nat) (frame : bytes) (et : Z) (off : nat) (vl : Z)
  : option (Z * nat * Z) :=
  match n with
  | O => Some (et, off, vl)
  | S n' =>
      if (et =? EtherTypeVLAN) || (et =? 0x88A8) then
        if (length frame <? off + 4)%nat then None
        else vlan_tags n' frame (be_field frame (off + 2) 2) (off + 4)
               (if vl =? 0 then Z.land (be_field frame off 2) 0x0FFF else vl)
      else Some (et, off, vl)
  end.

Lemma vlan_loop_spec n frame et off vl :
  vlan_loop n frame et off vl = Ret (vlan_tags n frame et off vl).
Proof.
  revert et off vl. induction n as [|n IH]; intros et off vl; [done |].
  cbn [vlan_loop vlan_tags]. destruct (_ || _); [|done].
  destruct (Nat.ltb_spec (length frame) (off + 4)); [done |].
  assert ((if vl =? 0 then w ← slice frame off (off + 2); tci ← get_be 2 w;
             mret (Z.land tci 4095) else mret vl)
          = Ret (if vl =? 0 then Z.land (be_field frame off 2) 4095 else vl)) as ->
    by (destruct (vl =? 0); [by rewrite be_field_ok by lia | done]).
  cbn [mbind go_bind]. replace (off + 4)%nat with (off + 2 + 2)%nat by lia.
  rewrite be_field_ok by lia. apply IH.
Qed.

Lemma vlan_tags_off n frame et off vl et' off' vl' :
  vlan_tags n frame et off vl = Some (et', off', vl') -> (off <= length frame)%nat ->
  (off <= off' <= length frame)%nat.
Proof.
  revert et off vl. induction n as [|n IH]; intros et off vl; cbn [vlan_tags].
  - intros [= -> -> ->]. lia.
  - destruct (_ || _); [|intros [= -> -> ->]; lia].
    destruct (Nat.ltb_spec (length frame) (off + 4)); [done |].
    intros Ht%IH _; lia.
Qed.

Definition l2_of (frame : bytes) : option l2info :=
  if (length frame <? 14)%nat then None
  else match vlan_tags 2 frame (be_field frame 12 2) 14 0 with
       | None => None
       | Some (et, off, vl) =>
           Some (mkL2 (take 6 frame) (take 6 (drop 6 frame)) et vl (drop off frame))
       end.

Lemma parseL2_spec frame : parseL2 frame = Ret (l2_of frame).
Proof.
  unfold parseL2, l2_of. destruct (Nat.ltb_spec (length frame) 14); [done |].
  rewrite (slice_ok _ 0 6), (slice_ok _ 6 12) by lia. cbn [mbind go_bind].
  change 14%nat with (12 + 2)%nat at 1. rewrite be_field_ok by lia.
  rewrite vlan_loop_spec. cbn [mbind go_bind].
  destruct (vlan_tags _ _ _ _ _) as [[[et off] vl]|] eqn:E; [|done].
  apply vlan_tags_off in E; [|lia]. by rewrite slice_from_ok by lia.
Qed.

Definition ihl_of (l3 : bytes) : nat := (Z.to_nat (Z.land (nth 0 l3 0%Z) 0x0F) * 4)%nat.

Definition ip4_of (l3 : bytes) : option (ipInfo * bytes) :=
  if (length l3 <? 20)%nat then None
  else if (ihl_of l3 <? 20)%nat || (length l3 <? ihl_of l3)%nat then None
  else Some (mkIp (nth 1 l3 0) (nth 9 l3 0) (take 4 (drop 12 l3)) (take 4 (drop 16 l3)),
             drop (ihl_of l3) l3).

Lemma parseIPv4_spec l3 : parseIPv4 l3 = Ret (ip4_of l3).
Proof.
  unfold parseIPv4, ip4_of. destruct (Nat.ltb_spec (length l3) 20); [done |].
  rewrite !index_ok by lia. cbn [mbind go_bind]. fold (ihl_of l3).
  destruct (_ || _) eqn:E; [done |]. apply orb_false_iff in E as [? ?].
  rewrite (slice_ok _ 12 16), (slice_ok _ 16 20), slice_from_ok by lia. done.
Qed.

Definition tc_of (l3 : bytes) : Z :=
  Z.lor (u8 (Z.shiftl (Z.land (nth 0 l3 0) 0x0F) 4)) (Z.shiftr (nth 1 l3 0) 4).

Definition ip6_of (l3 : bytes) : option (ip6Info * bytes) :=
  if (length l3 <? 40)%nat then None
  else Some (mkIp6 (tc_of l3) (nth 6 l3 0) (take 16 (drop 8 l3)) (take 16 (drop 24 l3)),
             drop 40 l3).

Lemma parseIPv6_spec l3 : parseIPv6 l3 = Ret (ip6_of l3).
Proof.
  unfold parseIPv6, ip6_of. destruct (Nat.ltb_spec (length l3) 40); [done |].
  rewrite !index_ok by lia. cbn [mbind go_bind].
  rewrite (slice_ok _ 8 24), (slice_ok _ 24 40), slice_from_ok by lia. done.
Qed.

(** The outer addresses and the UDP datagram of an IP packet. *)
Definition udp_of (et : Z) (l3 : bytes) : option (bytes * bytes * bytes) :=
  if et =? EtherTypeIPv4 then
    match ip4_of l3 with
    | Some (ip, rest) =>
        if proto ip =? ProtoUDP then Some (ip_src ip, ip_dst ip, rest) else None
    | None => None
    end
  else if et =? EtherTypeIPv6 then
    match ip6_of l3 with
    | Some (ip, rest) =>
        if nextHdr ip =? ProtoUDP then Some (ip6_src ip, ip6_dst ip, rest) else None
    | None => None
    end
  else None.

Lemma outerUDP_spec et l3 : outerUDP et l3 = Ret (udp_of et l3).
Proof.
  unfold outerUDP, udp_of. rewrite parseIPv4_spec, parseIPv6_spec. cbn [mbind go_bind].
  repeat case_match; naive_solver.
Qed.

(** The level-1 filter on an IP packet: (src, dst, protocol, l4, is IPv6) of a
    packet with DSCP 62. *)
Definition marked_of (et : Z) (l3 : bytes) : option (bytes * bytes * Z * bytes * bool) :=
  if et =? EtherTypeIPv4 then
    match ip4_of l3 with
    | Some (ip, rest) =>
        if Z.land (tos ip) 0xFC =? ToS
        then Some (ip_src ip, ip_dst ip, proto ip, rest, false) else None
    | None => None
    end
  else if et =? EtherTypeIPv6 then
    match ip6_of l3 with
    | Some (ip, rest) =>
        if Z.land (tos6 ip) 0xFC =? ToS
        then Some (ip6_src ip, ip6_dst ip, nextHdr ip, rest, true) else None
    | None => None
    end
  else None.

(** The destination is one of the agent's local VM addresses. *)
Definition local (r : responder) (ip : bytes) : bool :=
  default false (localIPs r !! addr6 ip).

Lemma key16_spec ip : key16 ip = Ret (addr6 ip).
Proof.
  unfold key16, addr6. pose proof (copy_field [] [] 16 (Net.To16 ip)) as H.
  rewrite !app_nil_r in H. exact H.
Qed.

Lemma isLocal_spec r ip : isLocal r ip = Ret (local r ip).
Proof. unfold isLocal. by rewrite key16_spec. Qed.

(** ** Replies *)

(** A marked IP packet, and the transport checksum of its family. *)
Definition ip_bytes (v6 : bool) (pr : Z) (src dst seg : bytes) : bytes :=
  if v6 then ipv6_bytes ToS TTLMax pr src dst seg else ipv4_bytes ToS TTLMax pr src dst seg.

Definition ckv (v6 : bool) (pr : Z) (src dst : bytes) : bytes -> Z :=
  if v6 then ck6 pr src dst else ck4 pr src dst.

Definition icmpv_bytes (v6 : bool) (src dst : bytes) (id seq : Z) (payload : bytes) : bytes :=
  if v6 then icmp6_bytes (ck6 ProtoICMPv6 src dst) ICMPv6EchoReply id seq payload
  else icmp_bytes ICMPEchoReply id seq payload.

Definition icmp_proto (v6 : bool) : Z := if v6 then ProtoICMPv6 else ProtoICMP.

Lemma mkTCP_spec v6 src dst sport dport seq ack fl payload :
  mkTCP v6 src dst sport dport seq ack fl payload =
    Ret (ip_bytes v6 ProtoTCP dst src
           (tcp_bytes (ckv v6 ProtoTCP dst src) dport sport seq ack fl payload)).
Proof.
  unfold mkTCP, ip_bytes, ckv. destruct v6.
  - rewrite TCP6_layout. cbn [mbind go_bind]. by rewrite IPv6_layout.
  - rewrite TCP_layout. cbn [mbind go_bind]. by rewrite IPv4_layout.
Qed.

(** ** The TCP connection machine

    The state of one connection is the next sequence number the server sends,
    or nothing. *)

Inductive tcp_kind := KSyn | KFin | KPsh | KOther.

#[export] Instance tcp_kind_eq_dec : EqDecision tcp_kind.
Proof. solve_decision. Defined.

Definition tcp_class (flags : Z) (n : nat) : tcp_kind :=
  if has_bit flags FlagSYN && negb (has_bit flags FlagACK) then KSyn
  else if has_bit flags FlagFIN then KFin
  else if has_bit flags FlagPSH && (0 <? n)%nat then KPsh
  else KOther.

(** (sequence number, acknowledgement, flags) of the answer to a segment of
    [n] bytes with sequence number [cseq], and the new state. *)
Definition conn_step (isn : Z) (k : tcp_kind) (cseq n : Z) (c : option Z)
  : option (Z * Z * Z) * option Z :=
  let next := default (u32 (isn + 1)) c in
  match k with
  | KSyn => (Some (isn, u32 (cseq + 1), Z.lor FlagSYN FlagACK), Some (u32 (isn + 1 + n)))
  | KFin => (Some (next, u32 (cseq + n + 1), Z.lor FlagFIN FlagACK), None)
  | KPsh => (Some (next, u32 (cseq + n), Z.lor FlagPSH FlagACK), Some (u32 (next + n)))
  | KOther => (None, c)
  end.

(** The segment the responder looks at: (sport, dport, seq, flags, data). *)
Definition doff_of (tcp : bytes) : nat := (Z.to_nat (Z.shiftr (nth 12 tcp 0%Z) 4) * 4)%nat.

Definition tcp_parts (tcp : bytes) : option (Z * Z * Z * Z * bytes) :=
  if (length tcp <? 20)%nat || (doff_of tcp <? 20)%nat || (length tcp <? doff_of tcp)%nat
  then None
  else Some (be_field tcp 0 2, be_field tcp 2 2, be_field tcp 4 4, nth 13 tcp 0,
             drop (doff_of tcp) tcp).

Definition put_conn (key : string) (c : option Z) (m : gmap string Z) : gmap string Z :=
  match c with Some n => <[key := n]> m | None => delete key m end.

(** The table a SYN starts from: emptied when it holds more than 4096 flows. *)
Definition capped (k : tcp_kind) (m : gmap string Z) : gmap string Z :=
  match k with
  | KSyn => if (4096 <? Z.of_nat (size m)) then ∅ else m
  | _ => m
  end.

Definition tcp_reply (r : responder) (src dst tcp : bytes) (v6 : bool) (s : rstate)
  : option bytes * rstate :=
  if negb (tcpRespond r) then (None, s)
  else match tcp_parts tcp with
  | None => (None, s)
  | Some (sport, dport, cseq, flags, data) =>
      let key := flowKey src dst sport dport in
      if has_bit flags FlagRST then (None, set_flows (delete key (flows s)) s)
      else if negb (accepts r data) then (None, gated r data s)
      else
        let echo := sanitized (hmacKey r) data in
        let k := tcp_class flags (length data) in
        let '(out, c) := conn_step (serverISN src dst sport dport) k cseq (zlen data)
                           (flows s !! key) in
        ((fun '(seq, ack, fl) =>
            ip_bytes v6 ProtoTCP dst src
              (tcp_bytes (ckv v6 ProtoTCP dst src) dport sport seq ack fl echo)) <$> out,
         set_flows (put_conn key c (capped k (flows s))) s)
  end.

Lemma set_flows_id s : set_flows (flows s) s = s.
Proof. by destruct s. Qed.

Lemma put_conn_id key (m : gmap string Z) : put_conn key (m !! key) m = m.
Proof.
  unfold put_conn. destruct (m !! key) eqn:E; [by apply insert_id | by apply delete_id].
Qed.

Lemma gated_accepts r p s : accepts r p = true -> gated r p s = s.
Proof.
  unfold accepts, gated. intros [-> ->]%andb_true_iff. done.
Qed.

Lemma u32_add_l a b : u32 (u32 a + b) = u32 (a + b).
Proof. unfold u32. apply Zplus_mod_idemp_l. Qed.

Lemma u32_add_r a b : u32 (a + u32 b) = u32 (a + b).
Proof. unfold u32. apply Zplus_mod_idemp_r. Qed.

Lemma tcpSYN_spec r v6 src dst sport dport cseq data s :
  tcpSYN r v6 src dst sport dport cseq data s =
    Ret (Some (ip_bytes v6 ProtoTCP dst src
                 (tcp_bytes (ckv v6 ProtoTCP dst src) dport sport
                    (serverISN src dst sport dport) (u32 (cseq + 1)) (Z.lor FlagSYN FlagACK)
                    (sanitized (hmacKey r) data))),
         set_flows (<[flowKey src dst sport dport :=
                       u32 (serverISN src dst sport dport + 1 + zlen data)]>
                      (capped KSyn (flows s))) s).
Proof.
  unfold tcpSYN. rewrite modS_bind, sanitize_spec, lift_ret_bind, modS_bind.
  rewrite mkTCP_spec, lift_ret_bind, length_sanitized, u32_add_l, u32_add_r.
  cbn [capped]. by destruct (4096 <? _).
Qed.

Lemma tcpFIN_spec r v6 src dst sport dport cseq data s :
  tcpFIN r v6 src dst sport dport cseq data s =
    Ret (Some (ip_bytes v6 ProtoTCP dst src
                 (tcp_bytes (ckv v6 ProtoTCP dst src) dport sport
                    (default (u32 (serverISN src dst sport dport + 1))
                       (flows s !! flowKey src dst sport dport))
                    (u32 (cseq + zlen data + 1)) (Z.lor FlagFIN FlagACK)
                    (sanitized (hmacKey r) data))),
         set_flows (delete (flowKey src dst sport dport) (flows s)) s).
Proof.
  unfold tcpFIN. rewrite getS_bind, modS_bind, sanitize_spec, lift_ret_bind.
  rewrite mkTCP_spec, lift_ret_bind, u32_add_l.
  replace (u32 (cseq + u32 (zlen data) + 1)) with (u32 (cseq + zlen data + 1)); [done |].
  rewrite <- (u32_add_l (cseq + u32 _)), u32_add_r. by rewrite u32_add_l.
Qed.

Lemma tcpPSH_spec r v6 src dst sport dport cseq data s :
  let next := default (u32 (serverISN src dst sport dport + 1))
                (flows s !! flowKey src dst sport dport) in
  tcpPSH r v6 src dst sport dport cseq data s =
    Ret (Some (ip_bytes v6 ProtoTCP dst src
                 (tcp_bytes (ckv v6 ProtoTCP dst src) dport sport next
                    (u32 (cseq + zlen data)) (Z.lor FlagPSH FlagACK)
                    (sanitized (hmacKey r) data))),
         set_flows (<[flowKey src dst sport dport := u32 (next + zlen data)]> (flows s)) s).
Proof.
  unfold tcpPSH. rewrite getS_bind, sanitize_spec, lift_ret_bind, mkTCP_spec, lift_ret_bind.
  by rewrite modS_bind, length_sanitized, !u32_add_r.
Qed.

Lemma buildTCPReply_spec r src dst tcp v6 s :
  buildTCPReply r src dst tcp v6 s = Ret (tcp_reply r src dst tcp v6 s).
Proof.
  unfold buildTCPReply, tcp_reply, tcp_parts. destruct (tcpRespond r); cbn [negb orb]; [|done].
  destruct (Nat.ltb_spec (length tcp) 20) as [|Hl]; cbn [orb]; [done |].
  rewrite (st_be_field _ _ 0 2 2), (st_be_field _ _ 2 4 2), (st_be_field _ _ 4 8 4) by lia.
  rewrite st_index by lia. fold (doff_of tcp).
  destruct (_ || _) eqn:E; [done |]. apply orb_false_iff in E as [? ?].
  rewrite st_index, st_slice_from by lia.
  set (sport := be_field tcp 0 2). set (dport := be_field tcp 2 2).
  set (data := drop _ tcp). set (flags := nth 13 tcp 0).
  destruct (has_bit flags FlagRST); [done |].
  rewrite (st_bind_ret _ _ _ _ _ (wantsReply_spec r data s)).
  destruct (accepts r data) eqn:Ha; [|done]. rewrite (gated_accepts _ _ _ Ha).
  cbn [negb]. unfold tcp_class. destruct (has_bit flags FlagSYN && _).
  { by rewrite tcpSYN_spec. }
  destruct (has_bit flags FlagFIN); [by rewrite tcpFIN_spec |].
  destruct (has_bit flags FlagPSH && _); [by rewrite tcpPSH_spec |].
  cbn [conn_step capped]. by rewrite put_conn_id, set_flows_id.
Qed.

(** ** The reply to a marked packet *)

(** The payload of the transport segment, where the control block starts. *)
Definition payload_of (pr : Z) (l4 : bytes) : option bytes :=
  if (pr =? ProtoICMP) || (pr =? ProtoICMPv6) || (pr =? ProtoUDP) then
    if (length l4 <? 8)%nat then None else Some (drop 8 l4)
  else if pr =? ProtoTCP then
    (fun '(_, _, _, _, data) => data) <$> tcp_parts l4
  else None.

Definition l4_reply (r : responder) (src dst : bytes) (pr : Z) (l4 : bytes) (v6 : bool)
  (s : rstate) : option bytes * rstate :=
  if (pr =? ProtoICMP) || (pr =? ProtoICMPv6) || (pr =? ProtoUDP) then
    if (length l4 <? 8)%nat then (None, s)
    else
      let p := drop 8 l4 in
      let echo := sanitized (hmacKey r) p in
      if negb (accepts r p) then (None, gated r p s)
      else if pr =? ProtoUDP then
        (Some (ip_bytes v6 ProtoUDP dst src
                 (udp_bytes (ckv v6 ProtoUDP dst src) (be_field l4 2 2) (be_field l4 0 2) echo)),
         s)
      else
        (Some (ip_bytes v6 (icmp_proto v6) dst src
                 (icmpv_bytes v6 dst src (be_field l4 4 2) (be_field l4 6 2) echo)), s)
  else if pr =? ProtoTCP then tcp_reply r src dst l4 v6 s
  else (None, s).

Lemma buildReplyL4_spec r src dst pr l4 v6 s :
  buildReplyL4 r src dst pr l4 v6 s = Ret (l4_reply r src dst pr l4 v6 s).
Proof.
  unfold buildReplyL4, l4_reply.
  destruct (_ || _) eqn:Ei; cbn [orb].
  - assert ((pr =? ProtoUDP) = false) as Eu by (unfold ProtoUDP, ProtoICMP, ProtoICMPv6 in *; lia).
    destruct (Nat.ltb_spec (length l4) 8); [done |]. rewrite st_slice_from by done.
    rewrite (st_bind_ret _ _ _ _ _ (wantsReply_spec r (drop 8 l4) s)).
    destruct (accepts _ _) eqn:Ha; [|done]. rewrite (gated_accepts _ _ _ Ha), Eu. cbn [negb].
    rewrite (st_be_field _ _ 4 6 2), (st_be_field _ _ 6 8 2) by lia.
    rewrite sanitize_spec, lift_ret_bind. unfold ip_bytes, icmpv_bytes, icmp_proto.
    destruct v6.
    + by rewrite ICMPv6_layout, lift_ret_bind, IPv6_layout.
    + by rewrite ICMP_layout, lift_ret_bind, IPv4_layout.
  - destruct (pr =? ProtoUDP) eqn:Eu; [|destruct (pr =? ProtoTCP); [apply buildTCPReply_spec | done]].
    destruct (Nat.ltb_spec (length l4) 8); [done |]. rewrite st_slice_from by done.
    rewrite (st_bind_ret _ _ _ _ _ (wantsReply_spec r (drop 8 l4) s)).
    destruct (accepts _ _) eqn:Ha; [|done]. rewrite (gated_accepts _ _ _ Ha). cbn [negb].
    rewrite (st_be_field _ _ 0 2 2), (st_be_field _ _ 2 4 2) by lia.
    rewrite sanitize_spec, lift_ret_bind. unfold ip_bytes, ckv. destruct v6.
    + by rewrite UDP6_layout, lift_ret_bind, IPv6_layout.
    + by rewrite UDP_layout, lift_ret_bind, IPv4_layout.
Qed.

Definition ip_reply (r : responder) (et : Z) (l3 : bytes) (s : rstate)
  : option bytes * rstate :=
  match marked_of et l3 with
  | None => (None, s)
  | Some (src, dst, pr, l4, v6) =>
      if local r dst then l4_reply r src dst pr l4 v6 s else (None, s)
  end.

Lemma buildReply_spec r et l3 s : buildReply r et l3 s = Ret (ip_reply r et l3 s).
Proof.
  unfold buildReply, ip_reply. rewrite lift_bind.
  rewrite parseIPv4_spec, parseIPv6_spec. cbn [mbind go_bind].
  transitivity
    (match marked_of et l3 with
     | None => Ret (None, s)
     | Some (src, dst, pr, l4, v6) =>
         (loc ← lift (isLocal r dst);
          if negb loc then mret None else buildReplyL4 r src dst pr l4 v6) s
     end : go (option bytes * rstate)).
  { unfold marked_of. destruct (et =? EtherTypeIPv4); [|destruct (et =? EtherTypeIPv6)];
      [destruct (ip4_of l3) as [[ip rest]|] | destruct (ip6_of l3) as [[ip rest]|] |]; try done;
      by destruct (_ =? ToS). }
  destruct (marked_of et l3) as [[[[[src dst] pr] l4] v6]|]; [|done].
  rewrite isLocal_spec, lift_ret_bind. destruct (local r dst); [|done].
  apply buildReplyL4_spec.
Qed.

(** ** Frames *)

Definition frame_bytes (dst src : bytes) (vl et : Z) (p : bytes) : bytes :=
  if vl =? 0 then ethernet_bytes dst src et p else vlan_bytes dst src vl et p.

Lemma frameL2_spec dst src vl et p : frameL2 dst src vl et p = Ret (frame_bytes dst src vl et p).
Proof.
  unfold frameL2, frame_bytes. destruct (vl =? 0).
  - apply Ethernet_layout.
  - apply EthernetVLAN_layout.
Qed.

Lemma length_eth_hdr dst src et : length (eth_hdr dst src et) = 14%nat.
Proof. unfold eth_hdr. by autorewrite with len. Qed.

Lemma length_frame_bytes dst src vl et p :
  length (frame_bytes dst src vl et p) = (14 + (if (vl =? 0)%Z then 0 else 4) + length p)%nat.
Proof.
  unfold frame_bytes, ethernet_bytes, vlan_bytes.
  destruct (vl =? 0); rewrite !length_app, length_eth_hdr; done.
Qed.

(** What the socket does with a frame. *)
Definition transmit (sendto : bytes -> bool) (f : bytes) (s : rstate) : rstate :=
  if sendto f then sent f s else s.

Definition transmit_opt (sendto : bytes -> bool) (o : option bytes) (s : rstate) : rstate :=
  match o with Some f => transmit sendto f s | None => s end.

Lemma send_spec sendto f s :
  (6 <= length f)%nat -> send sendto f s = Ret (tt, transmit sendto f s).
Proof.
  intros H. unfold send, transmit. rewrite slice_ok, lift_ret_bind by lia.
  by destruct (sendto f).
Qed.

(** The frame that answers a plain frame. *)
Definition regular_reply (r : responder) (frame : bytes) (aux : Z) (s : rstate)
  : option bytes * rstate :=
  match l2_of frame with
  | None => (None, s)
  | Some l2 =>
      let '(o, s') := ip_reply r (etherType l2) (l3 l2) s in
      (frame_bytes (l2_src l2) (l2_dst l2) (orVlan (vlan l2) aux) (etherType l2) <$> o, s')
  end.

Lemma handleRegular_spec sendto r frame aux s :
  handleRegular sendto r frame aux s =
    let '(o, s') := regular_reply r frame aux s in Ret (tt, transmit_opt sendto o s').
Proof.
  unfold handleRegular, regular_reply. rewrite parseL2_spec, lift_ret_bind.
  destruct (l2_of frame) as [l2|]; [|done].
  destruct (ip_reply r (etherType l2) (l3 l2) s) as [o s'] eqn:E.
  rewrite (st_bind_ret _ _ s o s' (eq_trans (buildReply_spec _ _ _ _) (f_equal Ret E))).
  destruct o as [p|]; [|done]. cbn [fmap option_fmap option_map transmit_opt].
  rewrite frameL2_spec, lift_ret_bind. apply send_spec. rewrite length_frame_bytes. lia.
Qed.

(** The layers of a VXLAN frame: outer Ethernet, outer addresses, VNI, inner
    Ethernet frame. *)
Definition vxlan_of (frame : bytes) : option (l2info * bytes * bytes * Z * bytes) :=
  match l2_of frame with
  | None => None
  | Some oL2 =>
      match udp_of (etherType oL2) (l3 oL2) with
      | None => None
      | Some (osrc, odst, ol4) =>
          if (length ol4 <? 8)%nat || negb (be_field ol4 2 2 =? VXLANPort)
             || (length (drop 8 ol4) <? 8)%nat
             || negb (has_bit (nth 0 (drop 8 ol4) 0) 0x08)
          then None
          else Some (oL2, osrc, odst, Z.shiftr (be_field (drop 8 ol4) 4 4) 8,
                     drop 8 (drop 8 ol4))
      end
  end.

(** UDP to the VXLAN port inside an IP packet, between the two VTEPs. *)
Definition underlay_bytes (v6 : bool) (sport : Z) (src dst : bytes) (payload : bytes) : bytes :=
  let udp := udp_bytes (ckv v6 ProtoUDP src dst) sport VXLANPort payload in
  if v6 then ipv6_bytes 0 TTLMax ProtoUDP src dst udp
  else ipv4_bytes 0 TTLMax ProtoUDP src dst udp.

(** The frame that answers a VXLAN frame. *)
Definition vxlan_reply (r : responder) (frame : bytes) (aux : Z) (s : rstate)
  : option bytes * rstate :=
  match vxlan_of frame with
  | None => (None, s)
  | Some (oL2, osrc, odst, vni, inner) =>
      match l2_of inner with
      | None => (None, s)
      | Some iL2 =>
          let '(o, s') := ip_reply r (etherType iL2) (l3 iL2) s in
          ((fun p =>
              frame_bytes (l2_src oL2) (l2_dst oL2) (orVlan (vlan oL2) aux) (etherType oL2)
                (underlay_bytes (etherType oL2 =? EtherTypeIPv6) VXLANPort odst osrc
                   (vxlan_bytes vni
                      (frame_bytes (l2_src iL2) (l2_dst iL2) (vlan iL2) (etherType iL2) p))))
             <$> o, s')
      end
  end.

Lemma underlay_spec (v6 : bool) sport src dst payload :
  (if v6 then udp ← UDP6 src dst sport VXLANPort payload; IPv6 0 TTLMax ProtoUDP src dst udp
   else udp ← UDP src dst sport VXLANPort payload; IPv4 0 TTLMax ProtoUDP src dst udp)
  = Ret (underlay_bytes v6 sport src dst payload).
Proof.
  unfold underlay_bytes, ckv. destruct v6.
  - rewrite UDP6_layout. cbn [mbind go_bind]. by rewrite IPv6_layout.
  - rewrite UDP_layout. cbn [mbind go_bind]. by rewrite IPv4_layout.
Qed.

Lemma handleVXLAN_spec sendto r frame aux s :
  handleVXLAN sendto r frame aux s =
    let '(o, s') := vxlan_reply r frame aux s in Ret (tt, transmit_opt sendto o s').
Proof.
  unfold handleVXLAN, vxlan_reply, vxlan_of. rewrite parseL2_spec, lift_ret_bind.
  destruct (l2_of frame) as [oL2|]; [|done]. rewrite outerUDP_spec, lift_ret_bind.
  destruct (udp_of _ _) as [[[osrc odst] ol4]|]; [|done].
  destruct (Nat.ltb_spec (length ol4) 8); cbn [orb]; [done |].
  rewrite (st_be_field _ _ 2 4 2) by lia.
  destruct (be_field ol4 2 2 =? VXLANPort); cbn [negb orb]; [|done].
  rewrite st_slice_from by lia. set (vxl := drop 8 ol4).
  destruct (Nat.ltb_spec (length vxl) 8); cbn [orb]; [done |]. rewrite st_index by lia.
  destruct (has_bit (nth 0 vxl 0) 8); cbn [negb]; [|done].
  rewrite (st_be_field _ _ 4 8 4), st_slice_from, parseL2_spec, lift_ret_bind by lia.
  destruct (l2_of (drop 8 vxl)) as [iL2|]; [|done].
  destruct (ip_reply r (etherType iL2) (l3 iL2) s) as [o s'] eqn:E.
  rewrite (st_bind_ret _ _ s o s' (eq_trans (buildReply_spec _ _ _ _) (f_equal Ret E))).
  destruct o as [p|]; [|done]. cbn [fmap option_fmap option_map transmit_opt].
  rewrite frameL2_spec, lift_ret_bind, VXLAN_layout, lift_ret_bind.
  rewrite underlay_spec, lift_ret_bind, frameL2_spec, lift_ret_bind.
  apply send_spec. rewrite length_frame_bytes. lia.
Qed.

(** AUTO mode: VXLAN when the frame is UDP to port 4789. *)
Definition looks_vxlan (frame : bytes) : bool :=
  match l2_of frame with
  | None => false
  | Some l2 =>
      match udp_of (etherType l2) (l3 l2) with
      | None => false
      | Some (_, _, l4) => (8 <=? length l4)%nat && (be_field l4 2 2 =? VXLANPort)
      end
  end.

Lemma isVXLANFrame_spec frame : isVXLANFrame frame = Ret (looks_vxlan frame).
Proof.
  unfold isVXLANFrame, looks_vxlan. rewrite parseL2_spec. cbn [mbind go_bind].
  destruct (l2_of frame) as [l2|]; [|done]. rewrite outerUDP_spec. cbn [mbind go_bind].
  destruct (udp_of _ _) as [[[? ?] l4]|]; [|done].
  destruct (Nat.leb_spec 8 (length l4)); cbn [andb]; [|done].
  by rewrite (be_field_ok l4 2 2 (fun p => mret (p =? VXLANPort))) by lia.
Qed.

Definition uses_vxlan (r : responder) (frame : bytes) : bool :=
  (ifType r =? IfaceVXLAN) || (negb (ifType r =? IfaceRegular) && looks_vxlan frame).

(** The answer to a captured frame, and the state after it. *)
Definition frame_reply (r : responder) (frame : bytes) (aux : Z) (s : rstate)
  : option bytes * rstate :=
  if uses_vxlan r frame then vxlan_reply r frame aux s else regular_reply r frame aux s.

Lemma handle_spec sendto r frame aux s :
  handle sendto r frame aux s =
    let '(o, s') := frame_reply r frame aux s in Ret (tt, transmit_opt sendto o s').
Proof.
  unfold handle, frame_reply, uses_vxlan.
  destruct (ifType r =? IfaceVXLAN); cbn [orb]; [apply handleVXLAN_spec |].
  destruct (ifType r =? IfaceRegular); cbn [negb andb]; [apply handleRegular_spec |].
  rewrite isVXLANFrame_spec, lift_ret_bind.
  destruct (looks_vxlan frame); [apply handleVXLAN_spec | apply handleRegular_spec].
Qed.
