(* ===== verification/Wire.v ===== *)
(** Parsing what the builders emit: the responder's parsers, as characterised in
    ResponderSpec, recover the fields given to internal/pkt. *)
From S2P Require Import Prelude GoStd TfMeta Pkt PktProps Responder ResponderSpec.

Local Open Scope Z_scope.

(** Replace a byte string of known length by its bytes. *)
Ltac explode_term t n :=
  let H := fresh "H" in let l := fresh "l" in
  assert (length t = n) as H by (autorewrite with len; reflexivity);
  generalize dependent t; intros l H; explode l H.

Lemma be_decode_2 v : be_decode (be_encode 2 v) = u16 v.
Proof. by rewrite be_decode_encode. Qed.

Lemma be_decode_4 v : be_decode (be_encode 4 v) = u32 v.
Proof. by rewrite be_decode_encode. Qed.

Lemma field_id n a : length a = n -> field n a = a.
Proof.
  intros <-. unfold field. rewrite firstn_all, Nat.sub_diag. apply app_nil_r.
Qed.

(** ** IP headers *)

Lemma ip4_of_bytes tos ttl pr src dst p :
  ip4_of (ipv4_bytes tos ttl pr src dst p) = Some (mkIp tos pr (addr4 src) (addr4 dst), p).
Proof.
  unfold ipv4_bytes, ipv4_hdr. set (c := checksum _). clearbody c.
  explode_term (addr4 src) 4%nat. explode_term (addr4 dst) 4%nat. reflexivity.
Qed.

(** The two nibbles of the traffic class are put together again. *)
Lemma tc_roundtrip tc :
  is_byte tc ->
  Z.lor (u8 (Z.shiftl (Z.land (Z.lor 0x60 (Z.shiftr tc 4)) 0x0F) 4))
    (Z.shiftr (Z.land (u8 (Z.shiftl tc 4)) 0xF0) 4) = tc.
Proof.
  intros Htc.
  assert (forallb (fun tc =>
            Z.lor (u8 (Z.shiftl (Z.land (Z.lor 0x60 (Z.shiftr tc 4)) 0x0F) 4))
              (Z.shiftr (Z.land (u8 (Z.shiftl tc 4)) 0xF0) 4) =? tc) (seqZ 0 256) = true) as H
    by (vm_compute; reflexivity).
  rewrite forallb_forall in H. apply Z.eqb_eq, H.
  apply list_elem_of_In, elem_of_seqZ. unfold is_byte in Htc. lia.
Qed.

Lemma ip6_of_bytes tc hl nh src dst p :
  is_byte tc ->
  ip6_of (ipv6_bytes tc hl nh src dst p) = Some (mkIp6 tc nh (addr6 src) (addr6 dst), p).
Proof.
  intros Htc. rewrite <- (tc_roundtrip tc Htc) at 2. unfold ipv6_bytes, ipv6_hdr.
  explode_term (addr6 src) 16%nat. explode_term (addr6 dst) 16%nat. reflexivity.
Qed.

(** The EtherType of the family. *)
Definition et_of (v6 : bool) : Z := if v6 then EtherTypeIPv6 else EtherTypeIPv4.

Definition addr (v6 : bool) (ip : bytes) : bytes := if v6 then addr6 ip else addr4 ip.

Lemma marked_of_bytes v6 pr src dst seg :
  marked_of (et_of v6) (ip_bytes v6 pr src dst seg)
  = Some (addr v6 src, addr v6 dst, pr, seg, v6).
Proof.
  unfold marked_of, ip_bytes, et_of, addr. destruct v6.
  - change (EtherTypeIPv6 =? EtherTypeIPv4) with false. cbn [Z.eqb].
    rewrite ip6_of_bytes by by split. reflexivity.
  - rewrite ip4_of_bytes. reflexivity.
Qed.

Lemma marked_of_family et l3 src dst pr l4 v6 :
  marked_of et l3 = Some (src, dst, pr, l4, v6) -> et = et_of v6.
Proof.
  unfold marked_of, et_of.
  destruct (Z.eqb_spec et EtherTypeIPv4); [|destruct (Z.eqb_spec et EtherTypeIPv6); [|done]];
    repeat case_match; naive_solver.
Qed.

(** The transport segment is a suffix of the packet, after the IP header. *)
Lemma marked_of_length et l3 src dst pr l4 v6 :
  marked_of et l3 = Some (src, dst, pr, l4, v6) ->
  (length l4 + (if v6 then 40 else 20) <= length l3)%nat.
Proof.
  unfold marked_of. destruct (et =? EtherTypeIPv4); [|destruct (et =? EtherTypeIPv6); [|done]].
  - unfold ip4_of. destruct (Nat.ltb_spec (length l3) 20); [done |].
    destruct (_ || _) eqn:E; [done |]. apply orb_false_iff in E as [? ?].
    destruct (_ =? ToS); [|done]. intros [= <- <- <- <- <-]. rewrite length_drop. lia.
  - unfold ip6_of. destruct (Nat.ltb_spec (length l3) 40); [done |].
    destruct (_ =? ToS); [|done]. intros [= <- <- <- <- <-]. rewrite length_drop. lia.
Qed.

Lemma length_ip_bytes v6 pr src dst seg :
  length (ip_bytes v6 pr src dst seg) = ((if v6 then 40 else 20) + length seg)%nat.
Proof.
  unfold ip_bytes, ipv6_bytes, ipv4_bytes, ipv6_hdr. destruct v6; by autorewrite with len.
Qed.

(** ** Transport headers *)

Lemma payload_of_udp ck sport dport p :
  payload_of ProtoUDP (udp_bytes ck sport dport p) = Some p.
Proof. reflexivity. Qed.

Lemma payload_of_icmp v6 src dst id seq p :
  payload_of (icmp_proto v6) (icmpv_bytes v6 src dst id seq p) = Some p.
Proof. by destruct v6. Qed.

Lemma tcp_parts_bytes ck sport dport seq ack fl p :
  tcp_parts (tcp_bytes ck sport dport seq ack fl p)
  = Some (u16 sport, u16 dport, u32 seq, fl, p).
Proof.
  unfold tcp_bytes. set (c := ck _). clearbody c.
  rewrite <- (be_decode_2 sport), <- (be_decode_2 dport), <- (be_decode_4 seq). reflexivity.
Qed.

(** ** Ethernet *)

Lemma l2_of_frame dst src vl v6 p :
  0 <= vl < 4096 ->
  l2_of (frame_bytes dst src vl (et_of v6) p)
  = Some (mkL2 (field 6 dst) (field 6 src) (et_of v6) vl p).
Proof.
  intros Hv. unfold frame_bytes. destruct (Z.eqb_spec vl 0) as [->|Hne].
  - unfold ethernet_bytes, eth_hdr. explode_term (field 6 dst) 6%nat.
    explode_term (field 6 src) 6%nat. by destruct v6.
  - assert (Z.land vl 0x0FFF = vl) as Hl.
    { change 0x0FFF with (Z.ones 12). rewrite Z.land_ones by lia. by apply Z.mod_small. }
    unfold vlan_bytes, eth_hdr. rewrite Hl. explode_term (field 6 dst) 6%nat.
    explode_term (field 6 src) 6%nat.
    assert (be_decode (be_encode 2 vl) = vl) as He
      by (rewrite be_decode_2; apply u16_small; lia).
    transitivity (Some (mkL2 [z; z0; z1; z2; z3; z4] [z5; z6; z7; z8; z9; z10] (et_of v6)
                          (Z.land (be_decode (be_encode 2 vl)) 0x0FFF) p)).
    + by destruct v6.
    + by rewrite He, Hl.
Qed.

Lemma l2_of_length frame l2 :
  l2_of frame = Some l2 ->
  length (l2_src l2) = 6%nat /\ length (l2_dst l2) = 6%nat
  /\ (length (l3 l2) + 14 <= length frame)%nat.
Proof.
  unfold l2_of. destruct (Nat.ltb_spec (length frame) 14); [done |].
  destruct (vlan_tags _ _ _ _ _) as [[[et off] vl]|] eqn:E; [|done].
  intros [= <-]. cbn. apply vlan_tags_off in E; [|lia].
  rewrite !length_take, !length_drop. lia.
Qed.

(** ** VXLAN *)

Lemma udp_of_underlay v6 sport src dst p :
  udp_of (et_of v6) (underlay_bytes v6 sport src dst p)
  = Some (addr v6 src, addr v6 dst,
          udp_bytes (ckv v6 ProtoUDP src dst) sport VXLANPort p).
Proof.
  unfold udp_of, underlay_bytes, et_of, addr. destruct v6.
  - change (EtherTypeIPv6 =? EtherTypeIPv4) with false.
    change (EtherTypeIPv6 =? EtherTypeIPv6) with true.
    rewrite ip6_of_bytes by by split. reflexivity.
  - rewrite ip4_of_bytes. reflexivity.
Qed.

Lemma vni_roundtrip vni :
  0 <= vni < 16777216 -> Z.shiftr (be_decode (be_encode 4 (u32 (Z.shiftl vni 8)))) 8 = vni.
Proof.
  intros Hv. rewrite be_decode_4, Z.shiftl_mul_pow2 by lia.
  change (2 ^ 8) with 256. rewrite !u32_small by (rewrite ?u32_small; lia).
  rewrite Z.shiftr_div_pow2 by lia. change (2 ^ 8) with 256. by rewrite Z.div_mul by lia.
Qed.

Lemma vxlan_of_bytes dst src vl v6 sport osrc odst vni inner :
  0 <= vl < 4096 -> 0 <= vni < 16777216 ->
  vxlan_of (frame_bytes dst src vl (et_of v6)
              (underlay_bytes v6 sport osrc odst (vxlan_bytes vni inner)))
  = Some (mkL2 (field 6 dst) (field 6 src) (et_of v6) vl
            (underlay_bytes v6 sport osrc odst (vxlan_bytes vni inner)),
          addr v6 osrc, addr v6 odst, vni, inner).
Proof.
  intros Hl Hv. unfold vxlan_of. rewrite l2_of_frame by done. cbn [etherType l3].
  rewrite udp_of_underlay. unfold udp_bytes. set (c := ckv _ _ _ _ _). clearbody c.
  transitivity (Some (mkL2 (field 6 dst) (field 6 src) (et_of v6) vl
                        (underlay_bytes v6 sport osrc odst (vxlan_bytes vni inner)),
                      addr v6 osrc, addr v6 odst,
                      Z.shiftr (be_decode (be_encode 4 (u32 (Z.shiftl vni 8)))) 8, inner)).
  - reflexivity.
  - by rewrite vni_roundtrip.
Qed.

Lemma looks_vxlan_bytes dst src vl v6 sport osrc odst vni inner :
  0 <= vl < 4096 ->
  looks_vxlan (frame_bytes dst src vl (et_of v6)
                 (underlay_bytes v6 sport osrc odst (vxlan_bytes vni inner))) = true.
Proof.
  intros Hl. unfold looks_vxlan. rewrite l2_of_frame by done. cbn [etherType l3].
  by rewrite udp_of_underlay.
Qed.

(** ** Ranges of parsed fields *)

Lemma be_field_bound b i n :
  bytes_ok b -> (i + n <= length b)%nat -> 0 <= be_field b i n < 256 ^ Z.of_nat n.
Proof.
  intros Hb Hl. unfold be_field.
  pose proof (be_decode_bound (take n (drop i b)) (bytes_ok_take _ _ (bytes_ok_drop _ _ Hb))) as H.
  rewrite length_take, length_drop, Nat.min_l in H by lia. exact H.
Qed.

Lemma land_fff x : 0 <= Z.land x 0x0FFF < 4096.
Proof. change 0x0FFF with (Z.ones 12). rewrite Z.land_ones by lia. by apply Z.mod_pos_bound. Qed.

Lemma vlan_tags_vid n frame et off vl et' off' vl' :
  vlan_tags n frame et off vl = Some (et', off', vl') -> 0 <= vl < 4096 -> 0 <= vl' < 4096.
Proof.
  revert et off vl. induction n as [|n IH]; intros et off vl; cbn [vlan_tags].
  - by intros [= -> -> ->].
  - destruct (_ || _); [|by intros [= -> -> ->]].
    destruct (_ <? _)%nat; [done |]. intros Ht Hv. eapply IH; [exact Ht |].
    destruct (vl =? 0); [apply land_fff | done].
Qed.

Lemma l2_of_vid frame l2 : l2_of frame = Some l2 -> 0 <= vlan l2 < 4096.
Proof.
  unfold l2_of. destruct (_ <? _)%nat; [done |].
  destruct (vlan_tags _ _ _ _ _) as [[[et off] vl]|] eqn:E; [|done].
  intros [= <-]. cbn. by eapply vlan_tags_vid.
Qed.

Lemma l2_of_l3 frame l2 : l2_of frame = Some l2 -> exists off, l3 l2 = drop off frame.
Proof.
  unfold l2_of. destruct (_ <? _)%nat; [done |].
  destruct (vlan_tags _ _ _ _ _) as [[[et off] vl]|] eqn:E; [|done].
  intros [= <-]. by exists off.
Qed.

(** The outer addresses have the size of the family, and the datagram is a
    suffix of the packet. *)
Lemma udp_of_inv et l3 src dst l4 :
  udp_of et l3 = Some (src, dst, l4) ->
  exists v6 off, et = et_of v6 /\ addr v6 src = src /\ addr v6 dst = dst /\ l4 = drop off l3.
Proof.
  unfold udp_of, et_of, addr. destruct (Z.eqb_spec et EtherTypeIPv4) as [->|];
    [|destruct (Z.eqb_spec et EtherTypeIPv6) as [->|]; [|done]].
  - unfold ip4_of. destruct (Nat.ltb_spec (length l3) 20); [done |].
    destruct (_ || _); [done |]. destruct (_ =? ProtoUDP); [|done]. intros [= <- <- <-].
    exists false. eexists. unfold addr4.
    rewrite !Net.To4_4, !field_id by (rewrite length_take, length_drop; lia). done.
  - unfold ip6_of. destruct (Nat.ltb_spec (length l3) 40); [done |].
    destruct (_ =? ProtoUDP); [|done]. intros [= <- <- <-].
    exists true. eexists. unfold addr6.
    rewrite !Net.To16_16, !field_id by (rewrite length_take, length_drop; lia). done.
Qed.

Lemma vxlan_of_inv frame oL2 osrc odst vni inner :
  bytes_ok frame -> vxlan_of frame = Some (oL2, osrc, odst, vni, inner) ->
  l2_of frame = Some oL2 /\ 0 <= vni < 16777216
  /\ exists v6, etherType oL2 = et_of v6 /\ addr v6 osrc = osrc /\ addr v6 odst = odst.
Proof.
  intros Hf. unfold vxlan_of. destruct (l2_of frame) as [l2|] eqn:E; [|done].
  destruct (udp_of _ _) as [[[src dst] l4]|] eqn:Eu; [|done].
  destruct (_ || _) eqn:Eg; [done |]. rewrite !orb_false_iff in Eg.
  destruct Eg as [[[_ _] Hl] _]. intros [= <- <- <- <- <-]. split; [done |].
  apply udp_of_inv in Eu as (v6 & off & Het & Hs & Hd & ->). split; [|by exists v6].
  apply l2_of_l3 in E as [off' E]. rewrite E in *.
  pose proof (be_field_bound (drop 8 (drop off (drop off' frame))) 4 4
                ltac:(auto using bytes_ok_drop) ltac:(lia)) as Hb.
  change (256 ^ Z.of_nat 4) with 4294967296 in Hb. rewrite Z.shiftr_div_pow2 by lia.
  change (2 ^ 8) with 256. mlia.
Qed.
