(* ===== verification/Demo.v ===== *)
(** A concrete agent, key and probes, on which the theorems about the responder
    are instantiated. *)
From S2P Require Import Prelude GoStd TfMeta Pkt Responder ResponderSpec Wire.

Local Open Scope Z_scope.

Definition demo_key : bytes := [115; 51; 99; 114; 51; 116].
Definition demo_vm : bytes := [10; 0; 0; 2].
Definition demo_client : bytes := [10; 0; 0; 9].
Definition demo_mac1 : bytes := [2; 0; 0; 0; 0; 1].
Definition demo_mac2 : bytes := [2; 0; 0; 0; 0; 2].

(** An agent on a host with one local VM, answering TCP too. *)
Definition demo_agent : responder :=
  mkResponder IfaceAuto (<[Net.To16 demo_vm := true]> ∅) true demo_key.

Definition demo_start : rstate := mkState ∅ 0 0 [].

Definition demo_meta : Meta := mkMeta (seqZ 1 16) false true 1700000000123456789.

(** The signed payload that asks for an answer. *)
Definition demo_pay : bytes := Eval vm_compute in signed_bytes demo_meta demo_key.

(** An ICMP echo request for the VM, and the same in a VXLAN tunnel. *)
Definition demo_icmp_l3 : bytes := Eval vm_compute in
  ip_bytes false ProtoICMP demo_client demo_vm (icmp_bytes ICMPEchoRequest 0x1234 1 demo_pay).

Definition demo_icmp : bytes := Eval vm_compute in
  frame_bytes demo_mac2 demo_mac1 0 EtherTypeIPv4 demo_icmp_l3.

Definition demo_vxlan : bytes := Eval vm_compute in
  frame_bytes demo_mac1 demo_mac2 7 EtherTypeIPv4
    (underlay_bytes false VXLANPort [172; 16; 0; 1] [172; 16; 0; 2] (vxlan_bytes 5001 demo_icmp)).

(** TCP segments of one client connection. *)
Definition demo_seg (fl cseq : Z) : bytes :=
  tcp_bytes (ckv false ProtoTCP demo_client demo_vm) 40000 80 cseq 0 fl demo_pay.

Definition demo_syn : bytes := Eval vm_compute in demo_seg FlagSYN 0x2000.
Definition demo_psh : bytes := Eval vm_compute in demo_seg (Z.lor FlagPSH FlagACK) 0x2001.

Definition sock_ok (frame : bytes) : bool := true.

(** The state after a computation that returns. *)
Definition after {A} (m : go (A * rstate)) : rstate :=
  match m with Ret (_, s) => s | Panic => demo_start end.

Definition demo_icmp_after : rstate :=
  Eval vm_compute in after (handle sock_ok demo_agent demo_icmp 0 demo_start).
Definition demo_vxlan_after : rstate :=
  Eval vm_compute in after (handleVXLAN sock_ok demo_agent demo_vxlan 0 demo_start).
Definition demo_reply_l3 : bytes :=
  Eval vm_compute in
    match buildReply demo_agent EtherTypeIPv4 demo_icmp_l3 demo_start with
    | Ret (Some p, _) => p
    | _ => []
    end.
Definition demo_vxlan_reply : bytes := Eval vm_compute in default [] (last (wire demo_vxlan_after)).
