(* ===== verification/ResponderProps.v ===== *)
(** Properties of the responder: it never panics, it answers only authenticated
    probes for local addresses, its answers are inert and no longer than the
    request, and its TCP answers follow the connection machine. *)
From S2P Require Import Prelude GoStd TfMeta Pkt PktProps Responder ResponderSpec Wire Demo.

Local Open Scope Z_scope.

(** ** The echoed payload *)

Lemma nth_default_lookup (l : bytes) i : nth i l 0 = default 0 (l !! i).
Proof. revert i. induction l; intros [|i]; cbn; auto. Qed.

Lemma sanitized_lookup key p i :
  (i < MetaSize)%nat -> sanitized key p !! i = cleared p !! i.
Proof.
  intros Hi. unfold sanitized. destruct (_ && _) eqn:E; [|done].
  apply andb_true_iff in E as [_ E]. unfold write. rewrite lookup_app_l.
  - by apply lookup_take_lt.
  - rewrite length_take. unfold SignedSize, MetaSize, AuthSize in *. lia.
Qed.

Lemma sanitized_nth21 key p : (MetaSize <= length p)%nat -> nth 21 (sanitized key p) 0 = 0.
Proof.
  intros Hl. rewrite nth_default_lookup, sanitized_lookup by (unfold MetaSize; lia).
  unfold cleared. replace (MetaSize <=? length p)%nat with true by lia.
  rewrite list_lookup_insert_eq; [done |]. rewrite length_insert. unfold MetaSize in Hl. lia.
Qed.

Lemma probe_wants_length p : probe_wants p = true -> (MetaSize <= length p)%nat.
Proof. unfold probe_wants. rewrite !andb_true_iff. lia. Qed.

Lemma accepts_length r p : accepts r p = true -> (MetaSize <= length p)%nat.
Proof. unfold accepts. intros [H _]%andb_true_iff. by apply probe_wants_length. Qed.

Lemma sanitized_inert key p :
  (MetaSize <= length p)%nat -> probe_wants (sanitized key p) = false.
Proof.
  intros H. unfold probe_wants. rewrite sanitized_nth21 by done.
  change (0 =? 1) with false. by rewrite andb_false_r.
Qed.

Lemma Unmarshal_inr p m :
  Unmarshal p = Ret (inr m) ->
  (MetaSize <= length p)%nat /\ be_decode (take 4 p) = Magic /\ m = decoded p.
Proof.
  destruct (Nat.lt_ge_cases (length p) MetaSize) as [Hl|Hl].
  - by rewrite Unmarshal_short.
  - rewrite Unmarshal_long by done.
    destruct (Z.eqb_spec (be_decode (take 4 p)) Magic); [|done]. by intros [= <-].
Qed.

(** Within the block, only the two flag bytes change. *)
Lemma sanitized_core key p :
  (MetaSize <= length p)%nat ->
  take MetaSize (sanitized key p) = <[21%nat := 0]> (<[20%nat := 0]> (take MetaSize p)).
Proof.
  intros Hl. apply list_eq. intros i. rewrite lookup_take. case_decide as Hi.
  - rewrite sanitized_lookup by done. unfold cleared.
    replace (MetaSize <=? length p)%nat with true by lia. unfold MetaSize in *.
    destruct (decide (i = 21%nat)) as [->|H21].
    { rewrite !list_lookup_insert_eq; [done | rewrite !length_insert, ?length_take; lia..]. }
    rewrite !(list_lookup_insert_ne _ 21) by done. destruct (decide (i = 20%nat)) as [->|H20].
    { rewrite !list_lookup_insert_eq; [done | rewrite ?length_take; lia..]. }
    rewrite !(list_lookup_insert_ne _ 20) by done. by rewrite lookup_take_lt.
  - symmetry. apply lookup_ge_None. rewrite !length_insert, length_take. lia.
Qed.

(** The block read from a payload depends on its first 30 bytes. *)
Lemma decoded_take p : (MetaSize <= length p)%nat -> decoded p = decoded (take MetaSize p).
Proof.
  intros H. unfold MetaSize in *. do 30 (destruct p as [|? p]; [cbn in H; lia |]). done.
Qed.

Lemma Unmarshal_sanitized key p :
  (MetaSize <= length p)%nat -> be_decode (take 4 p) = Magic ->
  Unmarshal (sanitized key p)
  = Ret (inr (mkMeta (ID (decoded p)) false false (Timestamp (decoded p)))).
Proof.
  intros Hl Hm. rewrite Unmarshal_long by by rewrite length_sanitized.
  pose proof (sanitized_core key p Hl) as Hc.
  assert (take 4 (sanitized key p) = take 4 (take MetaSize (sanitized key p))) as ->
    by (rewrite take_take; f_equal; unfold MetaSize; lia).
  rewrite decoded_take, Hc by by rewrite length_sanitized. clear Hc. unfold MetaSize in *.
  do 30 (destruct p as [|? p]; [cbn in Hl; lia |]). cbn in Hm |- *. by rewrite Hm.
Qed.

Lemma sanitized_tail key p : drop SignedSize (sanitized key p) = drop SignedSize p.
Proof.
  assert (drop SignedSize (cleared p) = drop SignedSize p) as Hc.
  { unfold cleared. destruct (_ <=? _)%nat; [|done].
    by rewrite !drop_insert_lt by (unfold SignedSize, MetaSize; lia). }
  unfold sanitized. destruct (_ && _) eqn:E; [|done]. apply andb_true_iff in E as [_ E].
  rewrite <- Hc. unfold write, SignedSize, Sign in *.
  rewrite app_assoc, drop_app_length'; rewrite ?length_app, ?length_take, Sha256.length_hmac;
    unfold MetaSize, AuthSize in *; [done | lia].
Qed.

Lemma Verify_sanitized key p :
  (SignedSize <= length p)%nat -> Verify (sanitized key p) key = Ret true.
Proof.
  intros Hl. destruct (decide (key = [])) as [->|Hk]; [done |].
  rewrite Verify_long by by rewrite ?length_sanitized. do 2 f_equal. apply bool_decide_true.
  unfold sanitized. replace (0 <? length key)%nat with true by (by destruct key).
  replace (_ <=? length (cleared p))%nat with true by (rewrite length_cleared; lia).
  cbn [andb]. pose proof (length_cleared p) as Hc. set (out := cleared p) in *. clearbody out.
  assert (length (take MetaSize out) = MetaSize) as Ht
    by (rewrite length_take; unfold SignedSize, MetaSize in *; lia).
  assert (length (Sign (take MetaSize out) key) = AuthSize) as Hs by apply Sha256.length_hmac.
  unfold write. rewrite (take_app_length' (take MetaSize out)), drop_app_length' by done.
  by rewrite take_app_length' by done.
Qed.

(** ** Inversion of a reply *)

(** A segment that no responder answers and that changes no state. *)
Definition inert (pr : Z) (seg : bytes) : Prop :=
  forall r src dst v6 s, l4_reply r src dst pr seg v6 s = (None, s).

Lemma gated_inert r p s : probe_wants p = false -> gated r p s = s.
Proof. unfold gated. by intros ->. Qed.

Lemma accepts_inert r p : probe_wants p = false -> accepts r p = false.
Proof. unfold accepts. by intros ->. Qed.

Lemma datagram_inert pr h p :
  (pr =? ProtoICMP) || (pr =? ProtoICMPv6) || (pr =? ProtoUDP) = true ->
  length h = 8%nat -> probe_wants p = false -> inert pr (h ++ p).
Proof.
  intros Hpr Hh Hp r src dst v6 s. unfold l4_reply. rewrite Hpr. cbv zeta.
  replace (length (h ++ p) <? 8)%nat with false by (rewrite length_app; lia).
  rewrite drop_app_length' by done. by rewrite accepts_inert, gated_inert.
Qed.

Lemma l4_reply_tcp r src dst l4 v6 s :
  l4_reply r src dst ProtoTCP l4 v6 s = tcp_reply r src dst l4 v6 s.
Proof. reflexivity. Qed.

Lemma tcp_inert ck sport dport seq ack fl p :
  has_bit fl FlagRST = false -> probe_wants p = false ->
  inert ProtoTCP (tcp_bytes ck sport dport seq ack fl p).
Proof.
  intros Hr Hp r src dst v6 s. rewrite l4_reply_tcp. unfold tcp_reply.
  destruct (tcpRespond r); [|done].
  rewrite tcp_parts_bytes, Hr. by rewrite accepts_inert, gated_inert.
Qed.

(** What an answer to a transport segment is: the request was accepted, and the
    answer is a packet of the same family back to the sender, which carries the
    sanitized payload, is inert, and is not longer than the request. *)
Definition answers (r : responder) (src dst : bytes) (pr : Z) (l4 : bytes) (v6 : bool)
  (p : bytes) : Prop :=
  exists pay pr' seg,
    payload_of pr l4 = Some pay /\ accepts r pay = true
    /\ p = ip_bytes v6 pr' dst src seg
    /\ payload_of pr' seg = Some (sanitized (hmacKey r) pay)
    /\ inert pr' seg /\ (length seg <= length l4)%nat.

Lemma tcp_parts_data tcp sport dport cseq flags data :
  tcp_parts tcp = Some (sport, dport, cseq, flags, data) ->
  (20 + length data <= length tcp)%nat.
Proof.
  unfold tcp_parts. destruct (_ || _) eqn:E; [done |].
  rewrite !orb_false_iff in E. destruct E as [[? ?] ?].
  intros [= <- <- <- <- <-]. rewrite length_drop. lia.
Qed.

Lemma conn_step_flags isn k cseq n c seq ack fl c' :
  conn_step isn k cseq n c = (Some (seq, ack, fl), c') -> has_bit fl FlagRST = false.
Proof. destruct k; cbn; by intros [= <- <- <- <-]. Qed.

Lemma payload_of_tcp ck sport dport seq ack fl p :
  payload_of ProtoTCP (tcp_bytes ck sport dport seq ack fl p) = Some p.
Proof.
  unfold payload_of. change (_ || _) with false. cbn [Z.eqb].
  change (ProtoTCP =? ProtoTCP) with true. cbn [fmap]. by rewrite tcp_parts_bytes.
Qed.

Lemma tcp_reply_answers r src dst tcp v6 s p s' :
  tcp_reply r src dst tcp v6 s = (Some p, s') -> answers r src dst ProtoTCP tcp v6 p.
Proof.
  unfold tcp_reply. destruct (tcpRespond r); [cbn [negb] | done].
  destruct (tcp_parts tcp) as [[[[[sport dport] cseq] flags] data]|] eqn:Ep; [|done].
  destruct (has_bit flags FlagRST); [done |].
  destruct (accepts r data) eqn:Ha; [|done]. cbn [negb].
  destruct (conn_step _ _ _ _ _) as [[[[seq ack] fl]|] c] eqn:Es; [|done].
  intros [= <- _]. apply conn_step_flags in Es. pose proof (accepts_length _ _ Ha) as Hl.
  exists data, ProtoTCP. eexists. split_and!.
  - unfold payload_of. change (_ || _) with false. change (ProtoTCP =? ProtoTCP) with true.
    by rewrite Ep.
  - done.
  - reflexivity.
  - apply payload_of_tcp.
  - by apply tcp_inert, sanitized_inert.
  - rewrite length_tcp_bytes, length_sanitized. by eapply tcp_parts_data.
Qed.

Lemma l4_reply_answers r src dst pr l4 v6 s p s' :
  l4_reply r src dst pr l4 v6 s = (Some p, s') -> answers r src dst pr l4 v6 p.
Proof.
  unfold l4_reply. destruct (_ || _) eqn:Ed;
    [|destruct (Z.eqb_spec pr ProtoTCP) as [->|]; [apply tcp_reply_answers | done]].
  destruct (Nat.ltb_spec (length l4) 8); [done |].
  destruct (accepts r (drop 8 l4)) eqn:Ha; [|done]. cbn [negb].
  pose proof (accepts_length _ _ Ha) as Hl.
  assert (payload_of pr l4 = Some (drop 8 l4)) as Hp.
  { unfold payload_of. rewrite Ed. by replace (length l4 <? 8)%nat with false by lia. }
  pose proof (sanitized_inert (hmacKey r) _ Hl) as Hi.
  destruct (pr =? ProtoUDP) eqn:Eu; intros [= <- _];
    exists (drop 8 l4); eexists _, _; (split_and!; [done | done | reflexivity | | |]).
  - apply payload_of_udp.
  - by apply datagram_inert.
  - rewrite length_udp_bytes, length_sanitized, length_drop. lia.
  - apply payload_of_icmp.
  - destruct v6; by apply datagram_inert.
  - unfold icmpv_bytes. destruct v6; autorewrite with len;
      rewrite length_sanitized, length_drop; lia.
Qed.

Lemma ip_reply_answers r et l3 s p s' :
  ip_reply r et l3 s = (Some p, s') ->
  exists src dst pr l4 v6,
    marked_of et l3 = Some (src, dst, pr, l4, v6) /\ local r dst = true
    /\ answers r src dst pr l4 v6 p.
Proof.
  unfold ip_reply. destruct (marked_of et l3) as [[[[[src dst] pr] l4] v6]|] eqn:Em; [|done].
  destruct (local r dst) eqn:Hloc; [|done]. intros H%l4_reply_answers. eauto 10.
Qed.

(** Building a reply sends nothing: only the flows and the failure counter move. *)
Lemma ip_reply_wire r et l3 s o s' :
  ip_reply r et l3 s = (o, s') -> wire s' = wire s /\ repliesSent s' = repliesSent s.
Proof.
  unfold ip_reply, l4_reply, tcp_reply, gated. intros H.
  repeat (case_match; simplify_eq/=; try done).
Qed.

(** ** The packet the responder looks at in a frame *)

Definition examined (r : responder) (frame : bytes) : option (Z * bytes) :=
  if uses_vxlan r frame then
    match vxlan_of frame with
    | Some (_, _, _, _, inner) => (fun l2 => (etherType l2, l3 l2)) <$> l2_of inner
    | None => None
    end
  else (fun l2 => (etherType l2, l3 l2)) <$> l2_of frame.

Lemma frame_reply_examined r frame aux s o s' :
  frame_reply r frame aux s = (o, s') ->
  (o = None /\ s' = s)
  \/ (exists et l3 p, examined r frame = Some (et, l3)
        /\ ip_reply r et l3 s = (p, s') /\ (o = None <-> p = None)).
Proof.
  unfold frame_reply, vxlan_reply, regular_reply, examined.
  destruct (uses_vxlan r frame).
  - destruct (vxlan_of frame) as [[[[[oL2 osrc] odst] vni] inner]|];
      [|intros [= <- <-]; by left].
    destruct (l2_of inner) as [iL2|]; [|intros [= <- <-]; by left].
    destruct (ip_reply r (etherType iL2) (l3 iL2) s) as [p s1] eqn:E.
    intros [= <- <-]. right. exists (etherType iL2), (l3 iL2), p. by destruct p.
  - destruct (l2_of frame) as [l2|]; [|intros [= <- <-]; by left].
    destruct (ip_reply r (etherType l2) (l3 l2) s) as [p s1] eqn:E.
    intros [= <- <-]. right. exists (etherType l2), (l3 l2), p. by destruct p.
Qed.

Lemma frame_reply_wire r frame aux s o s' :
  frame_reply r frame aux s = (o, s') -> wire s' = wire s /\ repliesSent s' = repliesSent s.
Proof.
  intros [[_ ->]|(et & l3 & p & _ & H & _)]%frame_reply_examined; [done |].
  by eapply ip_reply_wire.
Qed.

(** ** No panic *)

Lemma vlanFromAuxData_safe d : safe (vlanFromAuxData d).
Proof.
  unfold vlanFromAuxData. repeat first [done | go_step].
Qed.

Lemma auxVLAN_safe parseSCM oob : safe (auxVLAN parseSCM oob).
Proof.
  unfold auxVLAN. destruct (parseSCM oob) as [scms|]; [|done].
  induction scms as [|m rest IH]; [done |]. cbn [aux_scan]. destruct (_ || _); [done |].
  destruct (proj1 (safe_eq _) (vlanFromAuxData_safe (scm_data m))) as [[v ok] ->].
  cbn [mbind go_bind]. by destruct ok.
Qed.

Lemma Loop_returns sendto r parseSCM evs s :
  exists s', Loop sendto r parseSCM evs s = Ret (tt, s').
Proof.
  revert s. induction evs as [|[| |frame oob] evs IH]; intros s; [by exists s.. | apply IH |].
  cbn [Loop]. destruct (proj1 (safe_eq _) (auxVLAN_safe parseSCM oob)) as [v ->].
  rewrite lift_ret_bind. destruct (frame_reply r frame v s) as [o s'] eqn:E.
  erewrite st_bind_ret; [apply IH |]. rewrite handle_spec, E. reflexivity.
Qed.

(** ** The TCP session *)

(** buildTCPReply over the successive segments of one client. *)
Fixpoint tcp_session (r : responder) (src dst : bytes) (v6 : bool) (segs : list bytes)
  : st rstate (list (option bytes)) :=
  match segs with
  | [] => mret []
  | seg :: rest =>
      o ← buildTCPReply r src dst seg v6;
      os ← tcp_session r src dst v6 rest;
      mret (o :: os)
  end.

Section tcp_dialog.
Context (r : responder) (src dst : bytes) (v6 : bool) (sport dport : Z).
Context (Hr : tcpRespond r = true).
Context (Hsport : 0 <= sport < 65536) (Hdport : 0 <= dport < 65536).

(** The client's segment and the server's answer on this connection. *)
Definition client_seg (ack fl cseq : Z) (data : bytes) : bytes :=
  tcp_bytes (ckv v6 ProtoTCP src dst) sport dport cseq ack fl data.

Definition server_pkt (seq ack fl : Z) (data : bytes) : bytes :=
  ip_bytes v6 ProtoTCP dst src
    (tcp_bytes (ckv v6 ProtoTCP dst src) dport sport seq ack fl
       (sanitized (hmacKey r) data)).

(** The answers to data segments when the stream has advanced by [off] bytes
    past the SYN. *)
Fixpoint stream_replies (off : Z) (l : list (Z * bytes)) : list (option bytes) :=
  match l with
  | [] => []
  | (cseq, d) :: rest =>
      Some (server_pkt (u32 (serverISN src dst sport dport + 1 + off))
              (u32 (cseq + zlen d)) (Z.lor FlagPSH FlagACK) d)
        :: stream_replies (off + zlen d) rest
  end.

Lemma buildTCPReply_client ack fl cseq data s :
  has_bit fl FlagRST = false -> accepts r data = true -> 0 <= cseq < 4294967296 ->
  let '(out, c) := conn_step (serverISN src dst sport dport) (tcp_class fl (length data))
                     cseq (zlen data) (flows s !! flowKey src dst sport dport) in
  buildTCPReply r src dst (client_seg ack fl cseq data) v6 s
  = Ret ((fun '(seq, ack, fl) => server_pkt seq ack fl data) <$> out,
         set_flows (put_conn (flowKey src dst sport dport) c
                      (capped (tcp_class fl (length data)) (flows s))) s).
Proof.
  intros Hf Ha Hc. rewrite buildTCPReply_spec. unfold tcp_reply, client_seg.
  rewrite Hr, tcp_parts_bytes, !u16_small, u32_small by done. cbn [negb].
  rewrite Hf, Ha. cbn [negb]. by destruct (conn_step _ _ _ _ _).
Qed.

Lemma tcp_stream ack l off s :
  Forall (fun '(cseq, d) => accepts r d = true /\ 0 <= cseq < 4294967296) l ->
  flows s !! flowKey src dst sport dport
    = Some (u32 (serverISN src dst sport dport + 1 + off)) ->
  exists s',
    tcp_session r src dst v6
      (map (fun '(cseq, d) => client_seg ack (Z.lor FlagPSH FlagACK) cseq d) l) s
    = Ret (stream_replies off l, s').
Proof.
  intros Hl. revert off s. induction Hl as [|[cseq d] l [Ha Hc] _ IH]; intros off s Hs.
  { by exists s. }
  pose proof (buildTCPReply_client ack (Z.lor FlagPSH FlagACK) cseq d s eq_refl Ha Hc) as H.
  assert (tcp_class (Z.lor FlagPSH FlagACK) (length d) = KPsh) as Hk.
  { apply accepts_length in Ha. unfold MetaSize in Ha. by destruct d; [cbn in Ha; lia |]. }
  rewrite Hk, Hs in H. cbn [conn_step default id capped fmap option_fmap option_map] in H.
  cbn [map tcp_session stream_replies]. rewrite (st_bind_ret _ _ _ _ _ H).
  edestruct (IH (off + zlen d)) as [s' Hs'].
  2: { rewrite (st_bind_ret _ _ _ _ _ Hs'). by eexists. }
  cbn [flows set_flows put_conn]. rewrite lookup_insert_eq, u32_add_l.
  do 2 f_equal. lia.
Qed.
End tcp_dialog.

(** ** Properties *)

(** C1: The responder never panics: whatever frames, control messages and errors
    the socket delivers, and in whatever state, Loop runs to its end without an
    out-of-range index or slice expression. *)
Theorem responder_never_panics sendto r parseSCM evs s :
  exists s', Loop sendto r parseSCM evs s = Ret (tt, s').
Proof. apply Loop_returns. Qed.

(** C2: A frame leaves the responder only as the answer to a genuine probe.  When
    handling a captured frame puts anything on the wire, the IP packet it looks
    at (the inner one for VXLAN) has DSCP 62, is addressed to a local VM, and
    carries a control block with the magic, need_response = 1 and deliver not 1,
    with a valid HMAC if a key is configured; exactly one frame is sent and the
    reply counter moves by one. *)
Theorem frames_sent_only_for_authenticated_probes sendto r frame aux s s' :
  handle sendto r frame aux s = Ret (tt, s') -> wire s' ≠ wire s ->
  exists et l3 src dst pr l4 v6 pay f,
    examined r frame = Some (et, l3)
    /\ marked_of et l3 = Some (src, dst, pr, l4, v6) /\ local r dst = true
    /\ payload_of pr l4 = Some pay
    /\ probe_wants pay = true /\ authentic (hmacKey r) pay = true
    /\ wire s' = wire s ++ [f] /\ repliesSent s' = u64 (repliesSent s + 1).
Proof.
  rewrite handle_spec. destruct (frame_reply r frame aux s) as [o s1] eqn:E.
  intros [= <-] Hw. destruct (frame_reply_wire _ _ _ _ _ _ E) as [Hw1 Hr1].
  destruct o as [f|]; [|by destruct Hw]. cbn [transmit_opt] in *.
  unfold transmit in *. destruct (sendto f); [|by destruct Hw].
  apply frame_reply_examined in E as [[? _]|(et & l3 & p & Hex & Hip & Hp)]; [done |].
  destruct p as [p|]; [|by discriminate (proj2 Hp eq_refl)].
  apply ip_reply_answers in Hip as (src & dst & pr & l4 & v6 & Hm & Hloc & pay & ? & ? & Hf
    & Ha & _).
  apply andb_true_iff in Ha as [Ha1 Ha2].
  exists et, l3, src, dst, pr, l4, v6, pay, f. split_and!; try done; cbn; congruence.
Qed.

Lemma frames_sent_only_for_authenticated_probes_witness :
  exists et l3 src dst pr l4 v6 pay f,
    examined demo_agent demo_icmp = Some (et, l3)
    /\ marked_of et l3 = Some (src, dst, pr, l4, v6) /\ local demo_agent dst = true
    /\ payload_of pr l4 = Some pay
    /\ probe_wants pay = true /\ authentic demo_key pay = true
    /\ wire demo_icmp_after = [] ++ [f] /\ repliesSent demo_icmp_after = u64 (0 + 1).
Proof.
  apply (frames_sent_only_for_authenticated_probes sock_ok demo_agent demo_icmp 0 demo_start
           demo_icmp_after); [vm_compute; reflexivity | done].
Defined.

(** C5: The echoed payload keeps the identity of the probe and is still
    authentic: sanitize returns a payload of the same length with the same run
    id, the same timestamp and the same bytes after the block, with deliver and
    need_response cleared; under the agent's key it verifies whenever it has room
    for the authenticator. *)
Theorem sanitize_keeps_identity r p m :
  Unmarshal p = Ret (inr m) ->
  exists q, sanitize r p = Ret q /\ length q = length p
    /\ Unmarshal q = Ret (inr (mkMeta (ID m) false false (Timestamp m)))
    /\ drop SignedSize q = drop SignedSize p
    /\ ((SignedSize <= length p)%nat -> Verify q (hmacKey r) = Ret true).
Proof.
  intros Hm. destruct (Unmarshal_inr _ _ Hm) as (Hl & Hmg & ->).
  exists (sanitized (hmacKey r) p). rewrite sanitize_spec, length_sanitized. do 2 (split; [done |]).
  split; [by apply Unmarshal_sanitized |]. split; [by apply sanitized_tail |].
  apply Verify_sanitized.
Qed.

Lemma sanitize_keeps_identity_witness :
  exists q, sanitize demo_agent demo_pay = Ret q /\ length q = length demo_pay
    /\ Unmarshal q = Ret (inr (mkMeta (seqZ 1 16) false false 1700000000123456789))
    /\ drop SignedSize q = drop SignedSize demo_pay
    /\ ((SignedSize <= length demo_pay)%nat -> Verify q demo_key = Ret true).
Proof.
  apply (sanitize_keeps_identity demo_agent demo_pay demo_meta). vm_compute. reflexivity.
Defined.

(** C6: Answers are inert: a packet built by buildReply, sent back through any
    responder (any key, any local addresses, any TCP state), is not answered
    and changes nothing.  Two agents never bounce a probe between them. *)
Theorem replies_are_inert r et l3 s p s1 :
  buildReply r et l3 s = Ret (Some p, s1) ->
  forall r' s', buildReply r' et p s' = Ret (None, s').
Proof.
  rewrite buildReply_spec. intros [= H] r' s'. rewrite buildReply_spec. f_equal.
  apply ip_reply_answers in H as (src & dst & pr & l4 & v6 & Hm & _ & pay & pr' & seg & _ & _
    & -> & _ & Hi & _).
  rewrite (marked_of_family _ _ _ _ _ _ _ Hm). unfold ip_reply. rewrite marked_of_bytes.
  destruct (local r' _); [apply Hi | done].
Qed.

Lemma replies_are_inert_witness :
  buildReply demo_agent EtherTypeIPv4 demo_reply_l3 demo_start = Ret (None, demo_start).
Proof.
  apply (replies_are_inert demo_agent EtherTypeIPv4 demo_icmp_l3 demo_start demo_reply_l3
           demo_start); vm_compute; reflexivity.
Defined.

(** No amplification: an answer is never longer than the IP packet it
    answers. *)
Theorem reply_not_longer r et l3 s p s1 :
  buildReply r et l3 s = Ret (Some p, s1) -> (length p <= length l3)%nat.
Proof.
  rewrite buildReply_spec. intros [= H].
  apply ip_reply_answers in H as (src & dst & pr & l4 & v6 & Hm & _ & pay & pr' & seg & _ & _
    & -> & _ & _ & Hl).
  apply marked_of_length in Hm. rewrite length_ip_bytes. destruct v6; lia.
Qed.

Lemma reply_not_longer_witness : (length demo_reply_l3 <= length demo_icmp_l3)%nat.
Proof.
  apply (reply_not_longer demo_agent EtherTypeIPv4 demo_icmp_l3 demo_start demo_reply_l3
           demo_start); vm_compute; reflexivity.
Defined.

(** C7: TCP answers follow the connection machine [conn_step], a specification of
    one connection on its own: for an accepted segment without RST the answer
    has the sequence number, acknowledgement and flags of the machine, the
    connection's entry becomes the machine's new state, every other connection
    keeps its entry unless a SYN found more than 4096 flows and emptied the
    table, and nothing else of the state changes. *)
Theorem tcp_refines_connection r src dst tcp v6 s sport dport cseq flags data :
  tcpRespond r = true -> tcp_parts tcp = Some (sport, dport, cseq, flags, data) ->
  has_bit flags FlagRST = false -> accepts r data = true ->
  let key := flowKey src dst sport dport in
  let k := tcp_class flags (length data) in
  let '(out, c) := conn_step (serverISN src dst sport dport) k cseq (zlen data)
                     (flows s !! key) in
  exists fl',
    buildTCPReply r src dst tcp v6 s
    = Ret ((fun '(seq, ack, fl) => server_pkt r src dst v6 sport dport seq ack fl data) <$> out,
           set_flows fl' s)
    /\ fl' !! key = c
    /\ forall key', key' ≠ key ->
         fl' !! key' = (if bool_decide (k = KSyn) && (4096 <? Z.of_nat (size (flows s)))
                        then None else flows s !! key').
Proof.
  intros Hr Hp Hf Ha key k. destruct (conn_step _ _ _ _ _) as [out c] eqn:E.
  rewrite buildTCPReply_spec. unfold tcp_reply. rewrite Hr, Hp, Hf, Ha. cbn [negb].
  fold key k. rewrite E. eexists. split; [done |]. split.
  - destruct c; cbn [put_conn]; [apply lookup_insert_eq | apply lookup_delete_eq].
  - intros key' Hne. transitivity (capped k (flows s) !! key').
    + destruct c; cbn [put_conn]; [by rewrite lookup_insert_ne | by rewrite lookup_delete_ne].
    + by destruct k; cbn [capped]; [destruct (4096 <? _) | ..].
Qed.

Lemma tcp_refines_connection_witness :
  exists fl',
    buildTCPReply demo_agent demo_client demo_vm demo_syn false demo_start
    = Ret (Some (server_pkt demo_agent demo_client demo_vm false 40000 80
                   (serverISN demo_client demo_vm 40000 80) (u32 (0x2000 + 1))
                   (Z.lor FlagSYN FlagACK) demo_pay), set_flows fl' demo_start)
    /\ fl' !! flowKey demo_client demo_vm 40000 80
       = Some (u32 (serverISN demo_client demo_vm 40000 80 + 1 + zlen demo_pay))
    /\ forall key', key' ≠ flowKey demo_client demo_vm 40000 80 ->
         fl' !! key' = (if bool_decide (KSyn = KSyn) && (4096 <? Z.of_nat (size (flows demo_start)))
                        then None else flows demo_start !! key').
Proof.
  apply (tcp_refines_connection demo_agent demo_client demo_vm demo_syn false demo_start
           40000 80 0x2000 FlagSYN demo_pay); vm_compute; reflexivity.
Defined.

(** The answers of one connection form a contiguous byte stream.  After a SYN
    that carries d0, the data segments d1, d2, ... get answers whose sequence
    numbers start right after the SYN and its echoed payload and advance by the
    length of each echoed payload (modulo 2^32), each acknowledging exactly the
    bytes of its request. *)
Theorem tcp_stream_contiguous r src dst v6 sport dport ack0 ack cseq0 d0 l s :
  tcpRespond r = true -> 0 <= sport < 65536 -> 0 <= dport < 65536 ->
  0 <= cseq0 < 4294967296 -> accepts r d0 = true ->
  Forall (fun '(cseq, d) => accepts r d = true /\ 0 <= cseq < 4294967296) l ->
  exists s',
    tcp_session r src dst v6
      (client_seg src dst v6 sport dport ack0 FlagSYN cseq0 d0
         :: map (fun '(cseq, d) =>
                   client_seg src dst v6 sport dport ack (Z.lor FlagPSH FlagACK) cseq d) l) s
    = Ret (Some (server_pkt r src dst v6 sport dport (serverISN src dst sport dport)
                   (u32 (cseq0 + 1)) (Z.lor FlagSYN FlagACK) d0)
             :: stream_replies r src dst v6 sport dport (zlen d0) l, s').
Proof.
  intros Hr Hs Hd Hc Ha Hl. cbn [tcp_session].
  pose proof (buildTCPReply_client r src dst v6 sport dport Hr Hs Hd ack0 FlagSYN cseq0 d0 s
                eq_refl Ha Hc) as H.
  change (tcp_class FlagSYN (length d0)) with KSyn in H.
  cbn [conn_step fmap option_fmap option_map] in H.
  rewrite (st_bind_ret _ _ _ _ _ H).
  edestruct (tcp_stream r src dst v6 sport dport Hr Hs Hd ack l (zlen d0)) as [s' Hs'];
    [done | | rewrite (st_bind_ret _ _ _ _ _ Hs'); by eexists].
  cbn [flows set_flows put_conn]. apply lookup_insert_eq.
Qed.

Lemma tcp_stream_contiguous_witness :
  exists s',
    tcp_session demo_agent demo_client demo_vm false
      (client_seg demo_client demo_vm false 40000 80 0 FlagSYN 0x2000 demo_pay
         :: map (fun '(cseq, d) =>
                   client_seg demo_client demo_vm false 40000 80 9 (Z.lor FlagPSH FlagACK) cseq d)
              [(0x2001, demo_pay ++ [80; 73]); (0x2041, demo_pay)]) demo_start
    = Ret (Some (server_pkt demo_agent demo_client demo_vm false 40000 80
                   (serverISN demo_client demo_vm 40000 80)
                   (u32 (0x2000 + 1)) (Z.lor FlagSYN FlagACK) demo_pay)
             :: stream_replies demo_agent demo_client demo_vm false 40000 80 (zlen demo_pay)
                  [(0x2001, demo_pay ++ [80; 73]); (0x2041, demo_pay)], s').
Proof.
  apply (tcp_stream_contiguous demo_agent demo_client demo_vm false 40000 80 0 9 0x2000 demo_pay
           [(0x2001, demo_pay ++ [80; 73]); (0x2041, demo_pay)] demo_start);
    [reflexivity | lia | lia | lia | vm_compute; reflexivity |].
  repeat constructor; vm_compute; done.
Defined.

(** C36: The cap on the flow table acts on SYN only.  An answered SYN leaves at
    most 4097 flows, whatever the size before; but an answered data segment
    (PSH, no SYN) of an unknown 4-tuple adds a flow whatever the size, so the
    table has no bound. *)
Theorem flow_table_capped_on_syn_only r src dst tcp v6 s sport dport cseq flags data :
  tcpRespond r = true -> tcp_parts tcp = Some (sport, dport, cseq, flags, data) ->
  has_bit flags FlagRST = false -> accepts r data = true ->
  exists o s', buildTCPReply r src dst tcp v6 s = Ret (o, s')
    /\ (tcp_class flags (length data) = KSyn -> Z.of_nat (size (flows s')) <= 4097)
    /\ (tcp_class flags (length data) = KPsh ->
        flows s !! flowKey src dst sport dport = None ->
        size (flows s') = S (size (flows s))).
Proof.
  intros Hr Hp Hf Ha. rewrite buildTCPReply_spec. unfold tcp_reply.
  rewrite Hr, Hp, Hf, Ha. cbn [negb].
  destruct (conn_step _ _ _ _ _) as [out c] eqn:E. eexists _, _. split; [done |].
  split; intros Hk; rewrite Hk in *; cbn in E; injection E as <- <-; cbn [flows set_flows put_conn].
  - rewrite map_size_insert. cbn [capped].
    destruct (Z.ltb_spec 4096 (Z.of_nat (size (flows s)))).
    + rewrite lookup_empty, map_size_empty. lia.
    + destruct (flows s !! _); cbn; lia.
  - intros Hn. cbn [capped]. by apply map_size_insert_None.
Qed.

Lemma flow_table_capped_on_syn_only_witness :
  exists o s', buildTCPReply demo_agent demo_client demo_vm demo_psh false demo_start = Ret (o, s')
    /\ (KPsh = KSyn -> Z.of_nat (size (flows s')) <= 4097)
    /\ (KPsh = KPsh -> flows demo_start !! flowKey demo_client demo_vm 40000 80 = None ->
        size (flows s') = S (size (flows demo_start))).
Proof.
  apply (flow_table_capped_on_syn_only demo_agent demo_client demo_vm demo_psh false demo_start
           40000 80 0x2001 (Z.lor FlagPSH FlagACK) demo_pay); vm_compute; reflexivity.
Defined.

(** ** Mirrored encapsulation *)

Lemma orVlan_range a b : 0 <= a < 4096 -> 0 <= b < 4096 -> 0 <= orVlan a b < 4096.
Proof. intros. unfold orVlan. by destruct (negb _). Qed.

Lemma vxlan_reply_mirror r frame aux s f s' :
  bytes_ok frame -> 0 <= aux < 4096 -> vxlan_reply r frame aux s = (Some f, s') ->
  exists oL2 osrc odst vni inner iL2 p,
    vxlan_of frame = Some (oL2, osrc, odst, vni, inner) /\ l2_of inner = Some iL2
    /\ ip_reply r (etherType iL2) (l3 iL2) s = (Some p, s')
    /\ exists oL3 inner',
         vxlan_of f = Some (mkL2 (l2_src oL2) (l2_dst oL2) (etherType oL2)
                              (orVlan (vlan oL2) aux) oL3, odst, osrc, vni, inner')
         /\ l2_of inner' = Some (mkL2 (l2_src iL2) (l2_dst iL2) (etherType iL2) (vlan iL2) p).
Proof.
  intros Hf Haux. unfold vxlan_reply.
  destruct (vxlan_of frame) as [[[[[oL2 osrc] odst] vni] inner]|] eqn:Ev; [|done].
  destruct (l2_of inner) as [iL2|] eqn:Ei; [|done].
  destruct (ip_reply r (etherType iL2) (l3 iL2) s) as [[p|] s1] eqn:Ep; [|done].
  intros [= <- <-]. exists oL2, osrc, odst, vni, inner, iL2, p. do 3 (split; [done |]).
  apply vxlan_of_inv in Ev as (Eo & Hv & v6 & Het & Hs & Hd); [|done].
  pose proof (l2_of_vid _ _ Eo) as Hvo. pose proof (l2_of_vid _ _ Ei) as Hvi.
  destruct (l2_of_length _ _ Eo) as (? & ? & _). destruct (l2_of_length _ _ Ei) as (? & ? & _).
  apply ip_reply_answers in Ep as (src & dst & pr & l4 & v6' & Hm & _).
  rewrite (marked_of_family _ _ _ _ _ _ _ Hm), Het.
  replace (et_of v6 =? EtherTypeIPv6) with v6 by by destruct v6.
  eexists _, _. rewrite vxlan_of_bytes by auto using orVlan_range.
  rewrite !field_id by done. rewrite Hs, Hd. split; [done |].
  rewrite l2_of_frame by done. by rewrite !field_id by done.
Qed.

(** The answer to a VXLAN frame is encapsulated back along the same tunnel:
    its outer and inner MAC addresses and its outer IP addresses are those of
    the request swapped, the VNI and the inner VLAN tag are the same, the outer
    VLAN is the one of the request (from the frame or from the socket's
    auxiliary data), and the inner packet is the answer buildReply gives. *)
Theorem vxlan_reply_mirrors_tunnel sendto r frame aux s s' f :
  bytes_ok frame -> 0 <= aux < 4096 ->
  handleVXLAN sendto r frame aux s = Ret (tt, s') -> wire s' = wire s ++ [f] ->
  exists oL2 osrc odst vni inner iL2 p s1,
    vxlan_of frame = Some (oL2, osrc, odst, vni, inner) /\ l2_of inner = Some iL2
    /\ buildReply r (etherType iL2) (l3 iL2) s = Ret (Some p, s1)
    /\ exists oL3 inner',
         vxlan_of f = Some (mkL2 (l2_src oL2) (l2_dst oL2) (etherType oL2)
                              (orVlan (vlan oL2) aux) oL3, odst, osrc, vni, inner')
         /\ l2_of inner' = Some (mkL2 (l2_src iL2) (l2_dst iL2) (etherType iL2) (vlan iL2) p).
Proof.
  intros Hf Haux. rewrite handleVXLAN_spec.
  destruct (vxlan_reply r frame aux s) as [o s1] eqn:E. intros [= <-] Hw.
  assert (wire s1 = wire s) as Hw1.
  { unfold vxlan_reply in E. repeat (case_match; simplify_eq/=; try done).
    by eapply ip_reply_wire. }
  destruct o as [f'|]; cbn [transmit_opt] in Hw;
    [unfold transmit in Hw; destruct (sendto f'); cbn in Hw |];
    rewrite Hw1 in Hw; try by apply (f_equal length) in Hw; rewrite length_app in Hw; cbn in Hw; lia.
  apply app_inv_head in Hw. injection Hw as ->.
  apply vxlan_reply_mirror in E as (oL2 & osrc & odst & vni & inner & iL2 & p & ? & ? & Hp & ?);
    [|done..].
  exists oL2, osrc, odst, vni, inner, iL2, p, s1. rewrite buildReply_spec, Hp. done.
Qed.

Lemma vxlan_reply_mirrors_tunnel_witness :
  exists oL2 osrc odst vni inner iL2 p s1,
    vxlan_of demo_vxlan = Some (oL2, osrc, odst, vni, inner) /\ l2_of inner = Some iL2
    /\ buildReply demo_agent (etherType iL2) (l3 iL2) demo_start = Ret (Some p, s1)
    /\ exists oL3 inner',
         vxlan_of demo_vxlan_reply = Some (mkL2 (l2_src oL2) (l2_dst oL2) (etherType oL2)
                              (orVlan (vlan oL2) 0) oL3, odst, osrc, vni, inner')
         /\ l2_of inner' = Some (mkL2 (l2_src iL2) (l2_dst iL2) (etherType iL2) (vlan iL2) p).
Proof.
  apply (vxlan_reply_mirrors_tunnel sock_ok demo_agent demo_vxlan 0 demo_start demo_vxlan_after
           demo_vxlan_reply); [compute_decide | lia | vm_compute; reflexivity ..].
Defined.
