(* ===== verification/Sniffer.v ===== *)
(** client/sniffer.go: the client's AF_PACKET sniffer.  It decodes one captured
    frame (VLAN tags, VXLAN, IPv4 or IPv6, the transport header) down to the
    control block.  The socket is not here: [next] belongs to the client's
    network interface in Client. *)
From S2P Require Import Prelude GoStd TfMeta Pkt.
From stdpp Require Import strings.

Local Open Scope Z_scope.

(** A decoded marked packet. *)
Record capture := mkCapture {
  c_proto : Z;
  icmpType : Z;
  srcPort : Z;
  dstPort : Z;
  tcpFlags : Z;
  tcpSeq : Z;
  c_vni : Z;
  c_srcIP : string;
  c_payload : bytes;
  c_meta : Meta
}.

(** The zero values of [capture] and of [tfmeta.Meta]. *)
Definition meta0 : Meta := mkMeta (make 16) false false 0.
Definition capture0 : capture := mkCapture 0 0 0 0 0 0 0 ""%string [] meta0.

Definition set_vni (v : Z) (c : capture) : capture :=
  mkCapture (c_proto c) (icmpType c) (srcPort c) (dstPort c) (tcpFlags c) (tcpSeq c) v
    (c_srcIP c) (c_payload c) (c_meta c).
Definition set_ip (src : string) (pr : Z) (c : capture) : capture :=
  mkCapture pr (icmpType c) (srcPort c) (dstPort c) (tcpFlags c) (tcpSeq c) (c_vni c)
    src (c_payload c) (c_meta c).
Definition set_icmp (t : Z) (c : capture) : capture :=
  mkCapture (c_proto c) t (srcPort c) (dstPort c) (tcpFlags c) (tcpSeq c) (c_vni c)
    (c_srcIP c) (c_payload c) (c_meta c).
Definition set_ports (sp dp : Z) (c : capture) : capture :=
  mkCapture (c_proto c) (icmpType c) sp dp (tcpFlags c) (tcpSeq c) (c_vni c)
    (c_srcIP c) (c_payload c) (c_meta c).
Definition set_tcp (seq fl : Z) (c : capture) : capture :=
  mkCapture (c_proto c) (icmpType c) (srcPort c) (dstPort c) fl seq (c_vni c)
    (c_srcIP c) (c_payload c) (c_meta c).
Definition set_meta (m : Meta) (p : bytes) (c : capture) : capture :=
  mkCapture (c_proto c) (icmpType c) (srcPort c) (dstPort c) (tcpFlags c) (tcpSeq c) (c_vni c)
    (c_srcIP c) p m.

(** ** Tiny parsers (client-local copies) *)

Record ipHdr := mkIpHdr { h_tos : Z; h_proto : Z; h_src : bytes; h_dst : bytes }.
Record ip6Hdr := mkIp6Hdr { h6_tos : Z; h6_nextHdr : Z; h6_src : bytes }.

(** The VLAN loop of stripL2 with at most [n] tags left. *)
Fixpoint strip_loop (n : nat) (frame : bytes) (et : Z) (off : nat) (vlan : Z)
  : go (option (Z * nat * Z)) :=
  match n with
  | O => mret (Some (et, off, vlan))
  | S n' =>
      if (et =? EtherTypeVLAN) || (et =? 0x88A8) then
        if (length frame <? off + 4)%nat then mret None
        else
          vlan ← (if vlan =? 0 then
                    w ← slice frame off (off + 2);
                    tci ← get_be 2 w;
                    mret (Z.land tci 0x0FFF)
                  else mret vlan);
          w ← slice frame (off + 2) (off + 4);
          et ← get_be 2 w;
          strip_loop n' frame et (off + 4) vlan
      else mret (Some (et, off, vlan))
  end.

(** (l3, EtherType, VID). *)
Definition stripL2 (frame : bytes) : go (option (bytes * Z * Z)) :=
  if (length frame <? 14)%nat then mret None
  else
    w ← slice frame 12 14;
    et ← get_be 2 w;
    r ← strip_loop 2 frame et 14 0;
    match r with
    | None => mret None
    | Some (et, off, vlan) =>
        rest ← slice_from frame off;
        mret (Some (rest, et, vlan))
    end.

Definition ipv4 (l3 : bytes) : go (option (ipHdr * bytes)) :=
  if (length l3 <? 20)%nat then mret None
  else
    b0 ← index l3 0;
    let ihl := (Z.to_nat (Z.land b0 0x0F) * 4)%nat in
    if (ihl <? 20)%nat || (length l3 <? ihl)%nat then mret None
    else
      t ← index l3 1;
      p ← index l3 9;
      src ← slice l3 12 16;
      dst ← slice l3 16 20;
      rest ← slice_from l3 ihl;
      mret (Some (mkIpHdr t p src dst, rest)).

Definition ipv6 (l3 : bytes) : go (option (ip6Hdr * bytes)) :=
  if (length l3 <? 40)%nat then mret None
  else
    b0 ← index l3 0;
    b1 ← index l3 1;
    let tc := Z.lor (u8 (Z.shiftl (Z.land b0 0x0F) 4)) (Z.shiftr b1 4) in
    nh ← index l3 6;
    src ← slice l3 8 24;
    rest ← slice_from l3 40;
    mret (Some (mkIp6Hdr tc nh src, rest)).

(** The L4 bytes when the outer header carries UDP. *)
Definition snifferOuterUDP (et : Z) (l3 : bytes) : go (option bytes) :=
  if et =? EtherTypeIPv4 then
    r ← ipv4 l3;
    mret (match r with
          | Some (ip, l4) => if h_proto ip =? ProtoUDP then Some l4 else None
          | None => None
          end)
  else if et =? EtherTypeIPv6 then
    r ← ipv6 l3;
    mret (match r with
          | Some (ip, l4) => if h6_nextHdr ip =? ProtoUDP then Some l4 else None
          | None => None
          end)
  else mret None.

(** ** Decoding a frame *)

(** The transport fields of [c], and the payload after L4. *)
Definition l4Fields (c : capture) (pr : Z) (l4 : bytes) : go (capture * option bytes) :=
  if (pr =? ProtoICMP) || (pr =? ProtoICMPv6) then
    if (length l4 <? 8)%nat then mret (c, None)
    else
      t ← index l4 0;
      rest ← slice_from l4 8;
      mret (set_icmp t c, Some rest)
  else if pr =? ProtoUDP then
    if (length l4 <? 8)%nat then mret (c, None)
    else
      w ← slice l4 0 2; sp ← get_be 2 w;
      w ← slice l4 2 4; dp ← get_be 2 w;
      rest ← slice_from l4 8;
      mret (set_ports sp dp c, Some rest)
  else if pr =? ProtoTCP then
    if (length l4 <? 20)%nat then mret (c, None)
    else
      w ← slice l4 0 2; sp ← get_be 2 w;
      w ← slice l4 2 4; dp ← get_be 2 w;
      w ← slice l4 4 8; seq ← get_be 4 w;
      fl ← index l4 13;
      let c := set_tcp seq fl (set_ports sp dp c) in
      b12 ← index l4 12;
      let doff := (Z.to_nat (Z.shiftr b12 4) * 4)%nat in
      if (doff <? 20)%nat || (length l4 <? doff)%nat then mret (c, None)
      else
        rest ← slice_from l4 doff;
        mret (c, Some rest)
  else mret (c, None).

(** parseMarked after the VXLAN peek: the IP packet [l3] of type [et]. *)
Definition parseL3 (c : capture) (et : Z) (l3 : bytes) : go (capture * bool) :=
  info ←
    (if et =? EtherTypeIPv4 then
       r ← ipv4 l3;
       mret (match r with
             | Some (ip, rest) =>
                 if negb (Z.land (h_tos ip) 0xFC =? ToS) then None
                 else Some (Net.String (h_src ip), h_proto ip, rest)
             | None => None
             end)
     else if et =? EtherTypeIPv6 then
       r ← ipv6 l3;
       mret (match r with
             | Some (ip, rest) =>
                 if negb (Z.land (h6_tos ip) 0xFC =? ToS) then None
                 else Some (Net.String (h6_src ip), h6_nextHdr ip, rest)
             | None => None
             end)
     else mret None);
  match info with
  | None => mret (c, false)
  | Some (src, pr, l4) =>
      '(c, payload) ← l4Fields (set_ip src pr c) pr l4;
      match payload with
      | None => mret (c, false)
      | Some payload =>
          u ← Unmarshal payload;
          match u with
          | inl _ => mret (c, false)
          | inr meta => mret (set_meta meta payload c, true)
          end
      end
  end.

(** The VXLAN peek: outer UDP to port 4789. *)
Definition peekVXLAN (et : Z) (l3 : bytes) : go (option bytes) :=
  u ← snifferOuterUDP et l3;
  match u with
  | None => mret None
  | Some ol4 =>
      if (8 <=? length ol4)%nat then
        w ← slice ol4 2 4;
        p ← get_be 2 w;
        mret (if p =? VXLANPort then Some ol4 else None)
      else mret None
  end.

Definition parseMarked (frame : bytes) : go (capture * bool) :=
  let c := capture0 in
  s ← stripL2 frame;
  match s with
  | None => mret (c, false)
  | Some (l3, et, _) =>
      peek ← peekVXLAN et l3;
      match peek with
      | None => parseL3 c et l3
      | Some ol4 =>
          vxl ← slice_from ol4 8;
          if (length vxl <? 8)%nat then mret (c, false)
          else
            fl ← index vxl 0;
            if negb (has_bit fl 0x08) then mret (c, false)
            else
              w ← slice vxl 4 8; vw ← get_be 4 w;
              let c := set_vni (Z.shiftr vw 8) c in
              rest ← slice_from vxl 8;
              i ← stripL2 rest;
              match i with
              | None => mret (c, false)
              | Some (inner, iet, _) => parseL3 c iet inner
              end
      end
  end.
