(* ===== verification/SnifferProps.v ===== *)
(** What the sniffer computes, as pure functions, and its agreement with the
    responder: both look at the same packet of a frame, and the sniffer decodes
    it exactly when the responder would find a control block in it. *)
From S2P Require Import Prelude GoStd TfMeta Pkt PktProps Responder ResponderSpec Wire.
From S2P Require Import Demo ResponderProps Sniffer.

Local Open Scope Z_scope.

(** ** The parsers agree with those of the responder *)

Lemma strip_loop_spec n frame et off vl :
  strip_loop n frame et off vl = Ret (vlan_tags n frame et off vl).
Proof.
  rewrite <- vlan_loop_spec. revert et off vl.
  induction n as [|n IH]; intros et off vl; [done |]. cbn [strip_loop vlan_loop].
  destruct (_ || _); [|done]. destruct (_ <? _)%nat; [done |].
  destruct (if vl =? 0 then _ else _) as [vl'|]; [|done]. cbn [mbind go_bind].
  destruct (slice _ _ _) as [w|]; [|done]. cbn [mbind go_bind].
  destruct (get_be _ _) as [et'|]; [|done]. apply IH.
Qed.

Lemma stripL2_spec frame :
  stripL2 frame = Ret ((fun l2 => (l3 l2, etherType l2, vlan l2)) <$> l2_of frame).
Proof.
  unfold stripL2, l2_of. destruct (Nat.ltb_spec (length frame) 14); [done |].
  change 14%nat with (12 + 2)%nat at 1. rewrite be_field_ok by lia.
  rewrite strip_loop_spec. cbn [mbind go_bind].
  destruct (vlan_tags _ _ _ _ _) as [[[et off] vl]|] eqn:E; [|done].
  apply vlan_tags_off in E; [|lia]. by rewrite slice_from_ok by lia.
Qed.

Lemma ipv4_spec l3 :
  ipv4 l3 = Ret ((fun '(ip, rest) =>
                    (mkIpHdr (tos ip) (proto ip) (ip_src ip) (ip_dst ip), rest)) <$> ip4_of l3).
Proof.
  unfold ipv4, ip4_of. destruct (Nat.ltb_spec (length l3) 20); [done |].
  rewrite !index_ok by lia. cbn [mbind go_bind]. fold (ihl_of l3).
  destruct (_ || _) eqn:E; [done |]. apply orb_false_iff in E as [? ?].
  rewrite (slice_ok _ 12 16), (slice_ok _ 16 20), slice_from_ok by lia. done.
Qed.

Lemma ipv6_spec l3 :
  ipv6 l3 = Ret ((fun '(ip, rest) =>
                    (mkIp6Hdr (tos6 ip) (nextHdr ip) (ip6_src ip), rest)) <$> ip6_of l3).
Proof.
  unfold ipv6, ip6_of. destruct (Nat.ltb_spec (length l3) 40); [done |].
  rewrite !index_ok by lia. cbn [mbind go_bind].
  rewrite (slice_ok _ 8 24), slice_from_ok by lia. done.
Qed.

Lemma snifferOuterUDP_spec et l3 : snifferOuterUDP et l3 = Ret (snd <$> udp_of et l3).
Proof.
  unfold snifferOuterUDP, udp_of. rewrite ipv4_spec, ipv6_spec. cbn [mbind go_bind].
  destruct (et =? EtherTypeIPv4); [|destruct (et =? EtherTypeIPv6); [|done]].
  - destruct (ip4_of l3) as [[ip rest]|]; [|done]. cbn. by destruct (_ =? ProtoUDP).
  - destruct (ip6_of l3) as [[ip rest]|]; [|done]. cbn. by destruct (_ =? ProtoUDP).
Qed.

(** ** The decoded packet *)

(** The transport fields [l4Fields] reads when it succeeds. *)
Definition l4_capture (c : capture) (pr : Z) (l4 : bytes) : capture :=
  if (pr =? ProtoICMP) || (pr =? ProtoICMPv6) then set_icmp (nth 0 l4 0) c
  else if pr =? ProtoUDP then set_ports (be_field l4 0 2) (be_field l4 2 2) c
  else set_tcp (be_field l4 4 4) (nth 13 l4 0)
         (set_ports (be_field l4 0 2) (be_field l4 2 2) c).

Lemma l4Fields_spec c pr l4 :
  exists c', l4Fields c pr l4 = Ret (c', payload_of pr l4)
    /\ (payload_of pr l4 ≠ None -> c' = l4_capture c pr l4).
Proof.
  unfold l4Fields, payload_of, l4_capture.
  destruct (_ || _) eqn:Ei; cbn [orb].
  - destruct (Nat.ltb_spec (length l4) 8); [by eexists |].
    rewrite index_ok, slice_from_ok by lia. by eexists.
  - destruct (pr =? ProtoUDP).
    + destruct (Nat.ltb_spec (length l4) 8); [by eexists |].
      rewrite (be_field_ok l4 0 2), (be_field_ok l4 2 2), slice_from_ok by lia. by eexists.
    + destruct (pr =? ProtoTCP); [|by eexists]. unfold tcp_parts.
      destruct (Nat.ltb_spec (length l4) 20); [by eexists |]. cbn [orb].
      rewrite (be_field_ok l4 0 2), (be_field_ok l4 2 2), (be_field_ok l4 4 4) by lia.
      rewrite !index_ok by lia. cbn [mbind go_bind]. fold (doff_of l4).
      destruct (Nat.ltb_spec (doff_of l4) 20); [by eexists |].
      destruct (Nat.ltb_spec (length l4) (doff_of l4)); [by eexists |].
      cbn [orb]. rewrite slice_from_ok by lia. by eexists.
Qed.

(** What is captured from a marked IP packet seen under VNI [v]. *)
Definition packet_capture (v et : Z) (l3 : bytes) : option capture :=
  match marked_of et l3 with
  | None => None
  | Some (src, _, pr, l4, _) =>
      match payload_of pr l4 with
      | None => None
      | Some p =>
          if (MetaSize <=? length p)%nat && (be_decode (take 4 p) =? Magic)
          then Some (set_meta (decoded p) p
                       (l4_capture (set_ip (Net.String src) pr (set_vni v capture0)) pr l4))
          else None
      end
  end.

(** parseMarked and the flag it returns. *)
Definition captures (m : go (capture * bool)) (o : option capture) : Prop :=
  exists c b, m = Ret (c, b) /\ match o with Some c' => b = true /\ c = c' | None => b = false end.

Lemma parseL3_spec v et l3 :
  captures (parseL3 (set_vni v capture0) et l3) (packet_capture v et l3).
Proof.
  unfold parseL3, packet_capture. rewrite ipv4_spec, ipv6_spec.
  set (k := fun info : option (string * Z * bytes) => match info with
    | None => mret (set_vni v capture0, false) | Some (src, pr, l4) => _ end).
  assert (captures (k ((fun '(src, _, pr, l4, _) => (Net.String src, pr, l4)) <$> marked_of et l3))
            (packet_capture v et l3)) as H.
  { unfold packet_capture. destruct (marked_of et l3) as [[[[[src dst] pr] l4] v6]|];
      [|by eexists _, _]. cbn [fmap option_fmap option_map k].
    destruct (l4Fields_spec (set_ip (Net.String src) pr (set_vni v capture0)) pr l4)
      as (c' & -> & Hc). cbn [mbind go_bind].
    destruct (payload_of pr l4) as [p|]; [|by eexists _, _]. rewrite Hc by done.
    destruct (Nat.leb_spec MetaSize (length p)); cbn [andb].
    - rewrite Unmarshal_long by done. cbn [mbind go_bind].
      destruct (_ =? Magic); by eexists _, _.
    - rewrite Unmarshal_short by done. by eexists _, _. }
  unfold packet_capture, marked_of in *.
  destruct (et =? EtherTypeIPv4); [|destruct (et =? EtherTypeIPv6); [|exact H]].
  - destruct (ip4_of l3) as [[ip rest]|]; [|exact H]. cbn in H |- *.
    destruct (_ =? ToS); exact H.
  - destruct (ip6_of l3) as [[ip rest]|]; [|exact H]. cbn in H |- *.
    destruct (_ =? ToS); exact H.
Qed.

(** What is captured from a frame. *)
Definition sniff_of (frame : bytes) : option capture :=
  if looks_vxlan frame then
    match vxlan_of frame with
    | None => None
    | Some (_, _, _, v, inner) =>
        match l2_of inner with
        | None => None
        | Some iL2 => packet_capture v (etherType iL2) (l3 iL2)
        end
    end
  else
    match l2_of frame with
    | None => None
    | Some l2 => packet_capture 0 (etherType l2) (l3 l2)
    end.

Lemma peekVXLAN_spec et l3 :
  peekVXLAN et l3 =
    Ret (match udp_of et l3 with
         | Some (_, _, l4) =>
             if (8 <=? length l4)%nat && (be_field l4 2 2 =? VXLANPort) then Some l4 else None
         | None => None
         end).
Proof.
  unfold peekVXLAN. rewrite snifferOuterUDP_spec. cbn [mbind go_bind].
  destruct (udp_of et l3) as [[[src dst] l4]|]; [|done]. cbn [fmap option_fmap option_map snd].
  destruct (Nat.leb_spec 8 (length l4)); [|done]. cbn [andb].
  by rewrite (be_field_ok l4 2 2) by lia.
Qed.

Lemma parseMarked_spec frame : captures (parseMarked frame) (sniff_of frame).
Proof.
  unfold parseMarked, sniff_of, looks_vxlan, vxlan_of. rewrite stripL2_spec. cbn [mbind go_bind].
  destruct (l2_of frame) as [l2|]; [|by eexists _, _]. cbn [fmap option_fmap option_map].
  rewrite peekVXLAN_spec. cbn [mbind go_bind].
  destruct (udp_of _ _) as [[[src dst] l4]|]; [|apply (parseL3_spec 0)].
  destruct (Nat.leb_spec 8 (length l4)); cbn [andb]; [|apply (parseL3_spec 0)].
  destruct (be_field l4 2 2 =? VXLANPort); [|apply (parseL3_spec 0)].
  replace (length l4 <? 8)%nat with false by lia. cbn [negb orb].
  rewrite slice_from_ok by lia. cbn [mbind go_bind]. set (vxl := drop 8 l4).
  destruct (Nat.ltb_spec (length vxl) 8); cbn [orb]; [by eexists _, _ |].
  rewrite index_ok by lia. cbn [mbind go_bind].
  destruct (has_bit (nth 0 vxl 0) 8); cbn [negb]; [|by eexists _, _].
  rewrite (be_field_ok vxl 4 4), slice_from_ok by lia. cbn [mbind go_bind].
  rewrite stripL2_spec. cbn [mbind go_bind].
  destruct (l2_of (drop 8 vxl)) as [iL2|]; [|by eexists _, _]. apply parseL3_spec.
Qed.

(** The VNI a frame is seen under: that of its VXLAN header, or 0. *)
Definition frame_vni (frame : bytes) : Z :=
  if looks_vxlan frame then
    match vxlan_of frame with Some (_, _, _, v, _) => v | None => 0 end
  else 0.

Lemma sniff_of_examined r frame :
  ifType r = IfaceAuto ->
  sniff_of frame = match examined r frame with
                   | Some (et, l3) => packet_capture (frame_vni frame) et l3
                   | None => None
                   end.
Proof.
  intros Hr. unfold sniff_of, examined, uses_vxlan, frame_vni. rewrite Hr.
  change ((IfaceAuto =? IfaceVXLAN) || _) with (looks_vxlan frame).
  destruct (looks_vxlan frame).
  - destruct (vxlan_of frame) as [[[[[? ?] ?] ?] inner]|]; [|done]. by destruct (l2_of inner).
  - by destruct (l2_of frame).
Qed.

(** ** Properties *)


