(* ===== verification/Client.v ===== *)
(** client/main.go and the socket side of client/sniffer.go: the probe generator.
    It builds a marked probe (ICMP, UDP, TCP dialog or VXLAN), sends it, and
    waits for the answer that carries the same run id.

    What the client asks of the machine it runs on (clock, UUIDs, routing,
    interfaces, sockets, the OVS lookup) is the class [Host]; the program is
    written against it. *)
From stdpp Require Export strings pretty.
From S2P Require Import Prelude GoStd GoText TfMeta Pkt Sniffer.

Local Open Scope string_scope.
Local Open Scope Z_scope.

(** ** Command line *)

Record flags := mkFlags {
  f_src : string; f_dst : string;
  f_innerSrc : string; f_innerDst : string;
  f_sport : Z; f_dport : Z; f_vni : Z;
  f_vlan : Z;
  f_iface : string;
  f_dstMAC : string; f_srcMAC : string;
  f_asVM : bool;
  f_hmacKey : string;
  f_response : bool; f_deliver : bool;
  f_timeout : Z           (* nanoseconds *)
}.

Definition newFlags : flags :=
  mkFlags "" "" "" "" 40000 0 0 0 "" "" "" false "" false false 2000000000.

(** [f.src], [f.srcMAC] and [f.dport] are assigned after parsing. *)
Definition set_src (s m : string) (f : flags) : flags :=
  mkFlags s (f_dst f) (f_innerSrc f) (f_innerDst f) (f_sport f) (f_dport f) (f_vni f) (f_vlan f)
    (f_iface f) (f_dstMAC f) m (f_asVM f) (f_hmacKey f) (f_response f) (f_deliver f) (f_timeout f).
Definition set_dport (p : Z) (f : flags) : flags :=
  mkFlags (f_src f) (f_dst f) (f_innerSrc f) (f_innerDst f) (f_sport f) p (f_vni f) (f_vlan f)
    (f_iface f) (f_dstMAC f) (f_srcMAC f) (f_asVM f) (f_hmacKey f) (f_response f) (f_deliver f)
    (f_timeout f).

(** ** The host *)

(** The part of ovs.Port the client reads. *)
Record vmPort := mkVmPort { port_MAC : string; port_IPs : list bytes }.

Class Host (W : Type) := {
  (** time.Now in nanoseconds. *)
  host_now : W -> Z * W;
  (** uuid.New. *)
  host_uuid : W -> bytes * W;
  (** The local address of net.Dial(udp, dst:9), or an error. *)
  host_dial : bytes -> W -> option bytes * W;
  (** The hardware address of net.InterfaceByName, or an error. *)
  host_iface : string -> W -> option bytes * W;
  (** ovs.LookupPort. *)
  host_port : string -> W -> option vmPort * W;
  (** Opening and binding the sniffer's socket. *)
  host_sniff : W -> bool * W;
  (** Sending a frame on an interface; sending an IPv4 packet to an address. *)
  host_sendL2 : string -> bytes -> W -> bool * W;
  host_sendIP : bytes -> bytes -> W -> bool * W;
  (** Recvfrom with SO_RCVTIMEO set to so many microseconds: a frame or an
      error (the timeout included). *)
  host_recv : Z -> W -> option bytes * W
}.

(** How the program can stop. *)
Inductive result (A : Type) :=
| Done (a : A)
| Fatal              (* log.Fatal, usage: the process exits *)
| Crash              (* a run-time panic *)
| OutOfFuel.         (* more iterations of recvMatch than the fuel allows *)
Arguments Done {A} a.
Arguments Fatal {A}.
Arguments Crash {A}.
Arguments OutOfFuel {A}.

(** What the client reports on its log. *)
Inductive report :=
| SentProbe (id : bytes)
| GotReply (what : string) (from : string)
| NoReply (what : string)
| SentSYN (id : bytes)
| NoSynAck
| GotSynAck (seq : Z)
| HandshakeComplete
| SentData (n : Z)
| GotDataReply (n : Z)
| SessionClosed.

(** The client threads the host and its log through the calls. *)
Definition cli (W A : Type) : Type := W * list report -> result (A * (W * list report)).

#[export] Instance cli_ret W : MRet (cli W) := fun A a s => Done (a, s).
#[export] Instance cli_bind W : MBind (cli W) := fun A B f m s =>
  match m s with
  | Done (a, s') => f a s'
  | Fatal => Fatal
  | Crash => Crash
  | OutOfFuel => OutOfFuel
  end.

Section client.
Context {W : Type} `{Host W}.

Definition ask {A} (op : W -> A * W) : cli W A := fun '(w, l) =>
  let '(a, w') := op w in Done (a, (w', l)).
Definition say (r : report) : cli W unit := fun '(w, l) => Done (tt, (w, (l ++ [r])%list)).
Definition fatal {A} : cli W A := fun _ => Fatal.
(** A call that may panic. *)
Definition call {A} (m : go A) : cli W A := fun s =>
  match m with Ret a => Done (a, s) | Panic => Crash end.

(** ** Meta helpers *)

Definition payload (f : flags) (m : Meta) : go bytes := Signed m (codes (f_hmacKey f)).

Definition newMeta (f : flags) : cli W (Meta * bytes) :=
  id ← ask host_uuid;
  t ← ask host_now;
  mret (mkMeta id (f_deliver f) (f_response f) (u64 t), id).

Definition mustIP (s : string) : cli W bytes :=
  let ip := ParseIP s in
  if (length ip =? 0)%nat then fatal else mret ip.

Definition srcIP (f : flags) (dst : bytes) : cli W bytes :=
  if negb (bool_decide (f_src f = "")) then mret (ParseIP (f_src f))
  else
    c ← ask (host_dial dst);
    match c with
    | None => fatal
    | Some ip => mret ip
    end.

Definition isV6 (ip : bytes) : bool := (length (Net.To4 ip) =? 0)%nat.

(** ** Packets *)

Definition icmpL3 (src dst : bytes) (id seq : Z) (pay : bytes) : go (bytes * bool) :=
  if isV6 dst then
    ic ← ICMPv6 ICMPv6EchoRequest id seq src dst pay;
    p ← IPv6 ToS TTLMax ProtoICMPv6 src dst ic;
    mret (p, true)
  else
    ic ← ICMP ICMPEchoRequest id seq pay;
    p ← IPv4 ToS TTLMax ProtoICMP src dst ic;
    mret (p, false).

Definition udpL3 (src dst : bytes) (sport dport : Z) (pay : bytes) : go (bytes * bool) :=
  if isV6 dst then
    u ← UDP6 src dst sport dport pay;
    p ← IPv6 ToS TTLMax ProtoUDP src dst u;
    mret (p, true)
  else
    u ← UDP src dst sport dport pay;
    p ← IPv4 ToS TTLMax ProtoUDP src dst u;
    mret (p, false).

(** The closure send of runTCP, up to emit. *)
Definition tcpL3 (v6 : bool) (src dst : bytes) (sp dp seq ack fl : Z) (pay : bytes) : go bytes :=
  if v6 then
    seg ← TCP6 src dst sp dp seq ack fl pay;
    IPv6 ToS TTLMax ProtoTCP src dst seg
  else
    seg ← TCP src dst sp dp seq ack fl pay;
    IPv4 ToS TTLMax ProtoTCP src dst seg.

(** The packet of runVXLAN. *)
Definition vxlanL3 (outerSrc outerDst innerSrc innerDst : bytes) (sport vni : Z) (pay : bytes)
  : go (bytes * bool) :=
  '(innerIP, innerV6) ← icmpL3 innerSrc innerDst 0x1234 1 pay;
  let innerEt := if innerV6 : bool then EtherTypeIPv6 else EtherTypeIPv4 in
  let dummyMAC := [0x02; 0; 0; 0; 0; 0x01] in
  innerEth ← Ethernet dummyMAC dummyMAC innerEt innerIP;
  vxlan ← VXLAN vni innerEth;
  let outerV6 := isV6 outerDst in
  outerL3 ← (if outerV6 then
               udp ← UDP6 outerSrc outerDst sport VXLANPort vxlan;
               IPv6 0 TTLMax ProtoUDP outerSrc outerDst udp
             else
               udp ← UDP outerSrc outerDst sport VXLANPort vxlan;
               IPv4 0 TTLMax ProtoUDP outerSrc outerDst udp);
  mret (outerL3, outerV6).

(** ** Sending *)

Definition sendL2 (f : flags) (l3 : bytes) (v6 : bool) : cli W unit :=
  if bool_decide (f_iface f = "") || bool_decide (f_dstMAC f = "") then fatal
  else
    ifi ← ask (host_iface (f_iface f));
    match ifi with
    | None => fatal
    | Some hw =>
        match ParseMAC (f_dstMAC f) with
        | None => fatal
        | Some dmac =>
            smac ← (if negb (bool_decide (f_srcMAC f = "")) then
                      match ParseMAC (f_srcMAC f) with
                      | Some m => mret m
                      | None => fatal
                      end
                    else mret hw);
            let et := if v6 then EtherTypeIPv6 else EtherTypeIPv4 in
            frame ← call (if 0 <? f_vlan f then EthernetVLAN dmac smac (u16 (f_vlan f)) et l3
                          else Ethernet dmac smac et l3);
            ok ← ask (host_sendL2 (f_iface f) frame);
            if ok : bool then mret tt else fatal
        end
    end.

Definition sendIP (dst ipPacket : bytes) : cli W unit :=
  ok ← ask (host_sendIP (Net.To4 dst) ipPacket);
  if ok : bool then mret tt else fatal.

Definition emit (f : flags) (dst l3 : bytes) (v6 : bool) : cli W unit :=
  if v6 || (0 <? f_vlan f) || negb (bool_decide (f_iface f = "")) then sendL2 f l3 v6
  else sendIP dst l3.

(** ** Receiving *)

Definition startSniffer : cli W unit :=
  ok ← ask host_sniff;
  if ok : bool then mret tt else fatal.

(** unix.NsecToTimeval, as a number of microseconds. *)
Definition timeval (ns : Z) : Z := ns / 1000.

Definition next (deadline : Z) : cli W (capture * bool) :=
  t ← ask host_now;
  let remaining := deadline - t in
  if remaining <=? 0 then mret (capture0, false)
  else
    r ← ask (host_recv (timeval remaining));
    match r with
    | None => mret (capture0, false)
    | Some frame => call (parseMarked frame)
    end.

(** The loop of recvMatch. *)
Fixpoint recv_loop (fuel : nat) (deadline : Z) (id : bytes) (mtch : capture -> bool)
  : cli W (capture * bool) :=
  match fuel with
  | O => fun _ => OutOfFuel
  | S n =>
      t ← ask host_now;
      if t <? deadline then
        '(c, ok) ← next deadline;
        if negb ok then recv_loop n deadline id mtch
        else if negb (bool_decide (ID (c_meta c) = id)) then recv_loop n deadline id mtch
        else if mtch c then mret (c, true)
        else recv_loop n deadline id mtch
      else mret (capture0, false)
  end.

Definition recvMatch (fuel : nat) (f : flags) (id : bytes) (mtch : capture -> bool)
  : cli W (capture * bool) :=
  t ← ask host_now;
  recv_loop fuel (t + f_timeout f) id mtch.

Definition waitReply (fuel : nat) (f : flags) (id : bytes) (mtch : capture -> bool)
  (what : string) : cli W unit :=
  '(c, ok) ← recvMatch fuel f id mtch;
  if ok : bool then
    _ ← ask host_now;
    say (GotReply what (c_srcIP c))
  else say (NoReply what).

Definition isEchoReply (c : capture) : bool :=
  ((c_proto c =? ProtoICMP) && (icmpType c =? ICMPEchoReply))
  || ((c_proto c =? ProtoICMPv6) && (icmpType c =? ICMPv6EchoReply)).

(** ** The commands *)

Definition runICMP (fuel : nat) (f : flags) : cli W unit :=
  dst ← mustIP (f_dst f);
  src ← srcIP f dst;
  '(meta, id) ← newMeta f;
  _ ← startSniffer;
  pay ← call (payload f meta);
  '(l3, v6) ← call (icmpL3 src dst 0x1234 1 pay);
  _ ← emit f dst l3 v6;
  _ ← say (SentProbe id);
  if f_response f then waitReply fuel f id isEchoReply "ICMP echo reply" else mret tt.

Definition udpReply (sport : Z) (c : capture) : bool :=
  (c_proto c =? ProtoUDP) && (dstPort c =? sport).

Definition runUDP (fuel : nat) (f : flags) : cli W unit :=
  let f := if f_dport f =? 0 then set_dport 7 f else f in
  dst ← mustIP (f_dst f);
  src ← srcIP f dst;
  '(meta, id) ← newMeta f;
  _ ← startSniffer;
  pay ← call (payload f meta);
  '(l3, v6) ← call (udpL3 src dst (u16 (f_sport f)) (u16 (f_dport f)) pay);
  _ ← emit f dst l3 v6;
  _ ← say (SentProbe id);
  if f_response f then waitReply fuel f id (udpReply (u16 (f_sport f))) "UDP reply"
  else mret tt.

Definition clientISN : Z := 0x2000.

(** The segment of the dialog that recvMatch waits for. *)
Definition tcpReply (sp fl : Z) (c : capture) : bool :=
  (c_proto c =? ProtoTCP) && (dstPort c =? sp) && has_bit (tcpFlags c) fl.

Definition synAck (sp : Z) (c : capture) : bool :=
  tcpReply sp FlagSYN c && has_bit (tcpFlags c) FlagACK.

Definition ping : bytes := codes "TRACEFLOW-PING".

Definition runTCP (fuel : nat) (f : flags) (withData : bool) : cli W unit :=
  let f := if f_dport f =? 0 then set_dport 80 f else f in
  dst ← mustIP (f_dst f);
  src ← srcIP f dst;
  let sp := u16 (f_sport f) in
  let dp := u16 (f_dport f) in
  _ ← startSniffer;
  '(meta, id) ← newMeta f;
  let v6 := isV6 dst in
  let send := fun seq ack fl pay =>
    l3 ← call (tcpL3 v6 src dst sp dp seq ack fl pay);
    emit f dst l3 v6 in
  pay ← call (payload f meta);
  _ ← send clientISN 0 FlagSYN pay;
  _ ← say (SentSYN id);
  '(c, ok) ← recvMatch fuel f id (synAck sp);
  if negb ok then say NoSynAck
  else
    let serverISN := tcpSeq c in
    _ ← say (GotSynAck serverISN);
    pay ← call (payload f meta);
    _ ← send (clientISN + 1) (u32 (serverISN + 1)) FlagACK pay;
    _ ← say HandshakeComplete;
    if negb withData then mret tt
    else
      pay ← call (payload f meta);
      let data := (pay ++ ping)%list in
      _ ← send (clientISN + 1) (u32 (serverISN + 1)) (Z.lor FlagPSH FlagACK) data;
      _ ← say (SentData (Z.of_nat (length data)));
      '(dr, ok) ← recvMatch fuel f id (tcpReply sp FlagPSH);
      _ ← (if ok : bool then say (GotDataReply (Z.of_nat (length (c_payload dr)))) else mret tt);
      pay ← call (payload f meta);
      _ ← send (u32 (clientISN + 1 + u32 (Z.of_nat (length data)))) (u32 (serverISN + 1))
            (Z.lor FlagFIN FlagACK) pay;
      '(_, ok) ← recvMatch fuel f id (tcpReply sp FlagFIN);
      if ok : bool then say SessionClosed else mret tt.

Definition vxlanReply (vni : Z) (c : capture) : bool :=
  (c_vni c =? vni) && isEchoReply c.

Definition runVXLAN (fuel : nat) (f : flags) : cli W unit :=
  if bool_decide (f_innerSrc f = "") || bool_decide (f_innerDst f = "") || (f_vni f =? 0)
  then fatal
  else
    outerDst ← mustIP (f_dst f);
    outerSrc ← srcIP f outerDst;
    innerSrc ← mustIP (f_innerSrc f);
    innerDst ← mustIP (f_innerDst f);
    '(meta, id) ← newMeta f;
    _ ← startSniffer;
    pay ← call (payload f meta);
    '(l3, v6) ← call (vxlanL3 outerSrc outerDst innerSrc innerDst (u16 (f_sport f))
                        (u32 (f_vni f)) pay);
    _ ← emit f outerDst l3 v6;
    _ ← say (SentProbe id);
    if f_response f
    then waitReply fuel f id (vxlanReply (u32 (f_vni f))) "VXLAN ICMP echo reply"
    else mret tt.

(** The first address of the wanted family. *)
Fixpoint pick_ip (wantV6 : bool) (ips : list bytes) : string :=
  match ips with
  | [] => ""
  | ip :: r => if eqb (isV6 ip) wantV6 then Net.String ip else pick_ip wantV6 r
  end.

Definition applyAsVM (f : flags) : cli W flags :=
  if negb (f_asVM f) then mret f
  else if bool_decide (f_iface f = "") then fatal
  else
    p ← ask (host_port (f_iface f));
    match p with
    | None => fatal
    | Some port =>
        let f := if bool_decide (f_srcMAC f = "") then set_src (f_src f) (port_MAC port) f else f in
        f ← (if bool_decide (f_src f = "") then
               dst ← mustIP (f_dst f);
               mret (set_src (pick_ip (isV6 dst) (port_IPs port)) (f_srcMAC f) f)
             else mret f);
        if bool_decide (f_src f = "") || bool_decide (f_srcMAC f = "") then fatal else mret f
    end.

(** main, after the flag package has filled [f]. *)
Definition main (fuel : nat) (cmd : string) (f : flags) : cli W unit :=
  if bool_decide (f_dst f = "") then fatal
  else
    f ← applyAsVM f;
    if bool_decide (cmd = "icmp") then runICMP fuel f
    else if bool_decide (cmd = "udp") then runUDP fuel f
    else if bool_decide (cmd = "htcp") then runTCP fuel f false
    else if bool_decide (cmd = "tcp") then runTCP fuel f true
    else if bool_decide (cmd = "vxlan") then runVXLAN fuel f
    else fatal.

End client.
