(* ===== verification/System.v ===== *)
(** A closed system: a client host and one agent on the same segment.  Every
    frame the client puts on the wire is seen by its own sniffer (AF_PACKET
    captures outgoing frames too) and by the agent's responder, whose answers
    the sniffer sees next.  The system is an instance of the client's [Host]. *)
From S2P Require Import Prelude GoStd GoText TfMeta TfMetaProps Pkt PktProps Responder.
From S2P Require Import ResponderSpec Wire Demo ResponderProps Sniffer SnifferProps Client.

Local Open Scope Z_scope.

(** What does not change: the agent, the client's addresses, the next hop of the
    kernel's route, the UUID of the run, and the time to receive one frame. *)
Record segment := mkSegment {
  sg_agent : responder;
  sg_local : bytes;        (* the address the kernel picks for the client *)
  sg_hw : bytes;           (* the client's interface *)
  sg_gw : bytes;           (* the next hop *)
  sg_uuid : bytes;
  sg_lat : Z
}.

Record world := mkWorld {
  clock : Z;
  agent : rstate;
  queue : list bytes       (* frames the sniffer has not read yet *)
}.

Section system.
Context (sg : segment).

(** A frame on the segment. *)
Definition inject (frame : bytes) (w : world) : world :=
  match handle sock_ok (sg_agent sg) frame 0 (agent w) with
  | Ret (_, s) =>
      mkWorld (clock w) s (queue w ++ frame :: drop (length (wire (agent w))) (wire s))
  | Panic => w
  end.

Definition pop (timeout : Z) (w : world) : option bytes * world :=
  match queue w with
  | [] => (None, mkWorld (clock w + (timeout + 1) * 1000) (agent w) [])
  | f :: q => (Some f, mkWorld (clock w + sg_lat sg) (agent w) q)
  end.

#[export] Instance segment_host : Host world := {|
  host_now w := (clock w, w);
  host_uuid w := (sg_uuid sg, w);
  host_dial _ w := (Some (sg_local sg), w);
  host_iface _ w := (Some (sg_hw sg), w);
  host_port _ w := (None, w);
  host_sniff w := (true, w);
  host_sendL2 _ frame w := (true, inject frame w);
  host_sendIP _ pkt w :=
    (true, inject (frame_bytes (sg_gw sg) (sg_hw sg) 0 EtherTypeIPv4 pkt) w);
  host_recv := pop
|}.

(** The world after the agent's answer to a frame. *)
Lemma inject_spec frame w :
  inject frame w =
    let '(o, s) := frame_reply (sg_agent sg) frame 0 (agent w) in
    mkWorld (clock w) (transmit_opt sock_ok o s)
      (queue w ++ frame :: match o with Some f => [f] | None => [] end).
Proof.
  unfold inject. rewrite handle_spec.
  destruct (frame_reply _ _ _ _) as [o s] eqn:E.
  destruct (frame_reply_wire _ _ _ _ _ _ E) as [Hw _].
  do 3 f_equal. destruct o as [f|]; cbn; rewrite Hw.
  - by rewrite drop_app_length' by done.
  - by rewrite drop_ge by lia.
Qed.

(** ** Waiting for an answer *)

(** The frame decodes to a packet of the run that satisfies [mtch]. *)
Definition hit (id : bytes) (mtch : capture -> bool) (frame : bytes) : bool :=
  match sniff_of frame with
  | Some c => bool_decide (ID (c_meta c) = id) && mtch c
  | None => false
  end.

Lemma cli_bind_done {A B} (m : cli world A) (f : A -> cli world B) s a s' :
  m s = Done (a, s') -> (m ≫= f) s = f a s'.
Proof. intros E. unfold mbind, cli_bind. by rewrite E. Qed.

Lemma ask_bind {A B} (op : world -> A * world) (f : A -> cli world B) w l :
  (ask op ≫= f) (w, l) = f (fst (op w)) (snd (op w), l).
Proof. unfold mbind, cli_bind, ask. by destruct (op w). Qed.

Lemma call_bind {A B} (m : go A) (a : A) (f : A -> cli world B) s :
  m = Ret a -> (call m ≫= f) s = f a s.
Proof. by intros ->. Qed.

Lemma say_bind {B} (rp : report) (f : unit -> cli world B) w l :
  (say rp ≫= f) (w, l) = f tt (w, l ++ [rp]).
Proof. done. Qed.

Lemma next_queue deadline w fr q l :
  queue w = fr :: q -> clock w < deadline ->
  exists c ok, captures (Ret (c, ok)) (sniff_of fr)
    /\ next deadline (w, l)
       = Done ((c, ok), (mkWorld (clock w + sg_lat sg) (agent w) q, l)).
Proof.
  intros Hq Ht. destruct (parseMarked_spec fr) as (c & ok & Hp & Hc).
  exists c, ok. split; [by eexists _, _ |]. unfold next. rewrite ask_bind. cbn.
  replace (deadline - clock w <=? 0) with false by lia.
  rewrite ask_bind. cbn. unfold pop. rewrite Hq. cbn. unfold call. by rewrite Hp.
Qed.

(** recvMatch skips the frames that are not for it and returns the first hit. *)
Lemma recv_loop_hit n deadline id mtch q1 fr q2 c w l :
  Forall (fun f => hit id mtch f = false) q1 -> hit id mtch fr = true ->
  sniff_of fr = Some c -> queue w = q1 ++ fr :: q2 -> 0 <= sg_lat sg ->
  clock w + sg_lat sg * zlen q1 < deadline ->
  recv_loop (S (length q1) + n) deadline id mtch (w, l)
  = Done ((c, true), (mkWorld (clock w + sg_lat sg * (zlen q1 + 1)) (agent w) q2, l)).
Proof.
  intros Hq1 Hfr Hs. revert w. induction Hq1 as [|f q1 Hf _ IH]; intros w Hq Hlat Ht.
  - cbn [length Nat.add recv_loop]. rewrite ask_bind. cbn in Ht |- *.
    replace (clock w <? deadline) with true by lia.
    destruct (next_queue deadline w fr q2 l Hq ltac:(lia)) as (c' & ok & (? & ? & [= <- <-] & Hc) & Hn).
    rewrite Hs in Hc. destruct Hc as [-> ->].
    rewrite (cli_bind_done _ _ _ _ _ Hn). cbn [negb].
    unfold hit in Hfr. rewrite Hs in Hfr. apply andb_true_iff in Hfr as [-> ->].
    cbn [negb]. by replace (sg_lat sg * (Z.of_nat 0 + 1)) with (sg_lat sg) by lia.
  - rewrite length_cons in Ht |- *.
    change (S (S (length q1)) + n)%nat with (S (S (length q1) + n)).
    remember (S (length q1) + n)%nat as k. cbn [recv_loop]. subst k.
    rewrite ask_bind. cbn [host_now segment_host fst snd].
    replace (clock w <? deadline) with true by lia.
    destruct (next_queue deadline w f (q1 ++ fr :: q2) l Hq ltac:(lia))
      as (c' & ok & (? & ? & [= <- <-] & Hc) & Hn).
    rewrite (cli_bind_done _ _ _ _ _ Hn).
    assert (forall A (x y : A),
      (if negb ok then x else if negb (bool_decide (ID (c_meta c') = id)) then x
       else if mtch c' then y else x) = x) as Hskip.
    { intros A x y. unfold hit in Hf. destruct (sniff_of f) as [cf|]; [|by rewrite Hc].
      destruct Hc as [-> ->]. destruct (bool_decide _); [|done]. cbn in Hf |- *. by rewrite Hf. }
    rewrite Hskip. rewrite (IH (mkWorld (clock w + sg_lat sg) (agent w) (q1 ++ fr :: q2)));
      cbn [clock agent queue]; [|done|done|lia].
    by replace (clock w + sg_lat sg + sg_lat sg * (zlen q1 + 1))
      with (clock w + sg_lat sg * (Z.of_nat (S (length q1)) + 1)) by lia.
Qed.

Lemma recvMatch_hit n f id mtch q1 fr q2 c w l :
  Forall (fun f => hit id mtch f = false) q1 -> hit id mtch fr = true ->
  sniff_of fr = Some c -> queue w = q1 ++ fr :: q2 -> 0 <= sg_lat sg ->
  sg_lat sg * zlen q1 < f_timeout f ->
  recvMatch (S (length q1) + n) f id mtch (w, l)
  = Done ((c, true), (mkWorld (clock w + sg_lat sg * (zlen q1 + 1)) (agent w) q2, l)).
Proof.
  intros Hq1 Hfr Hs Hq Hlat Ht. unfold recvMatch. rewrite ask_bind.
  cbn [host_now segment_host fst snd]. eapply recv_loop_hit; try done. lia.
Qed.

(** ** Sending *)

(** Whether the client frames the packet itself, and whether it can. *)
Definition via_l2 (f : flags) (v6 : bool) : bool :=
  v6 || (0 <? f_vlan f) || negb (bool_decide (f_iface f = ""%string)).
Definition l2_missing (f : flags) : bool :=
  bool_decide (f_iface f = ""%string) || bool_decide (f_dstMAC f = ""%string).

(** The frame that carries the packet of the client, as its flags ask. *)
Definition out_frame (f : flags) (v6 : bool) (l3 : bytes) : option bytes :=
  if via_l2 f v6 then
    if l2_missing f then None
    else
      match ParseMAC (f_dstMAC f),
            (if bool_decide (f_srcMAC f = ""%string) then Some (sg_hw sg)
             else ParseMAC (f_srcMAC f)) with
      | Some dmac, Some smac =>
          Some (if 0 <? f_vlan f then vlan_bytes dmac smac (u16 (f_vlan f)) (et_of v6) l3
                else ethernet_bytes dmac smac (et_of v6) l3)
      | _, _ => None
      end
  else Some (frame_bytes (sg_gw sg) (sg_hw sg) 0 EtherTypeIPv4 l3).

Lemma emit_out f dst l3 v6 w l :
  emit f dst l3 v6 (w, l)
  = match out_frame f v6 l3 with
    | Some frame => Done (tt, (inject frame w, l))
    | None => Fatal
    end.
Proof.
  unfold emit, out_frame. fold (via_l2 f v6). destruct (via_l2 f v6); [|done].
  unfold sendL2. fold (l2_missing f). destruct (l2_missing f); [done |]. rewrite ask_bind. cbn [host_iface segment_host fst snd].
  destruct (ParseMAC (f_dstMAC f)) as [dmac|]; [|done].
  destruct (bool_decide (f_srcMAC f = ""%string)); cbn [negb];
    [|destruct (ParseMAC (f_srcMAC f)) as [smac|]; [|done]];
    destruct (0 <? f_vlan f);
    rewrite (cli_bind_done _ _ (w, l) _ (w, l) eq_refl);
    rewrite ?EthernetVLAN_layout, ?Ethernet_layout; destruct v6; done.
Qed.

End system.
