(* ===== verification/EndToEnd.v ===== *)
(** The client and the agent together: a probe of the client for a local VM is
    answered by the responder, and the client recognises the answer. *)
From S2P Require Import Prelude GoStd GoText TfMeta TfMetaProps Pkt PktProps Responder.
From S2P Require Import ResponderSpec Wire Demo ResponderProps Sniffer SnifferProps.
From S2P Require Import Client System.

Local Open Scope Z_scope.

(** ** Frames with a marked packet *)

Lemma udp_of_marked v6 pr src dst seg :
  udp_of (et_of v6) (ip_bytes v6 pr src dst seg)
  = if pr =? ProtoUDP then Some (addr v6 src, addr v6 dst, seg) else None.
Proof.
  unfold udp_of, ip_bytes, et_of, addr. destruct v6.
  - change (EtherTypeIPv6 =? EtherTypeIPv4) with false. change (EtherTypeIPv6 =? EtherTypeIPv6) with true.
    by rewrite ip6_of_bytes by by split.
  - by rewrite ip4_of_bytes.
Qed.

(** A marked packet is taken for a tunnel when it is UDP to port 4789. *)
Definition tunnel_port (pr : Z) (seg : bytes) : bool :=
  (pr =? ProtoUDP) && (8 <=? length seg)%nat && (be_field seg 2 2 =? VXLANPort).

Section marked_frame.
Context (dm sm : bytes) (vl : Z) (v6 : bool) (pr : Z) (src dst seg : bytes).
Context (Hvl : 0 <= vl < 4096).
Context (Hport : tunnel_port pr seg = false).

Definition marked_frame : bytes := frame_bytes dm sm vl (et_of v6) (ip_bytes v6 pr src dst seg).

Lemma looks_vxlan_marked : looks_vxlan marked_frame = false.
Proof.
  unfold looks_vxlan, marked_frame. rewrite l2_of_frame by done. cbn [etherType l3].
  rewrite udp_of_marked. unfold tunnel_port in Hport.
  destruct (pr =? ProtoUDP); [exact Hport | done].
Qed.

(** The sniffer decodes it when it carries a control block. *)
Lemma sniff_marked p m :
  payload_of pr seg = Some p -> Unmarshal p = Ret (inr m) ->
  sniff_of marked_frame
  = Some (set_meta m p (l4_capture (set_ip (Net.String (addr v6 src)) pr capture0) pr seg)).
Proof.
  intros Hp Hm. apply Unmarshal_inr in Hm as (Hl & Hmg & ->).
  unfold sniff_of. rewrite looks_vxlan_marked. unfold marked_frame.
  rewrite l2_of_frame by done. cbn [etherType l3]. unfold packet_capture.
  rewrite marked_of_bytes, Hp, Hmg, Z.eqb_refl.
  by replace (MetaSize <=? length p)%nat with true by lia.
Qed.

(** The agent answers with the swapped frame around the answer to the packet. *)
Lemma frame_reply_marked r s o s' :
  ifType r ≠ IfaceVXLAN -> local r (addr v6 dst) = true ->
  l4_reply r (addr v6 src) (addr v6 dst) pr seg v6 s = (o, s') ->
  frame_reply r marked_frame 0 s
  = (frame_bytes (field 6 sm) (field 6 dm) vl (et_of v6) <$> o, s').
Proof.
  intros Hr Hloc Hl4. unfold frame_reply, uses_vxlan. rewrite looks_vxlan_marked, andb_false_r.
  rewrite (proj2 (Z.eqb_neq _ _) Hr). cbn [orb]. unfold regular_reply, marked_frame.
  rewrite l2_of_frame by done. cbn [etherType l3 l2_src l2_dst vlan].
  unfold ip_reply. rewrite marked_of_bytes, Hloc, Hl4.
  unfold orVlan. by destruct (Z.eqb_spec vl 0) as [->|].
Qed.
End marked_frame.

Lemma et_of_v4 : EtherTypeIPv4 = et_of false.
Proof. done. Qed.

(** The client's frame, with a valid VLAN id. *)
Lemma out_frame_marked sg f v6 l3 fr :
  0 <= f_vlan f < 4096 -> out_frame sg f v6 l3 = Some fr ->
  exists dm sm, fr = frame_bytes dm sm (f_vlan f) (et_of v6) l3
    /\ forall l3', out_frame sg f v6 l3' = Some (frame_bytes dm sm (f_vlan f) (et_of v6) l3').
Proof.
  intros Hv. unfold out_frame, frame_bytes.
  destruct (via_l2 f v6) eqn:E.
  - destruct (l2_missing f); [done |].
    destruct (ParseMAC (f_dstMAC f)) as [dm|]; [|done].
    destruct (if bool_decide (f_srcMAC f = _) then _ else _) as [sm|]; [|done].
    intros [= <-]. exists dm, sm. rewrite u16_small by lia.
    destruct (Z.ltb_spec 0 (f_vlan f)).
    + by replace (f_vlan f =? 0) with false by lia.
    + by replace (f_vlan f =? 0) with true by lia.
  - intros [= <-]. exists (sg_gw sg), (sg_hw sg). unfold via_l2 in E.
    rewrite !orb_false_iff in E. destruct E as [[-> E] _]. by replace (f_vlan f =? 0) with true by lia.
Qed.

(** ** The client's payload *)

(** The agent has no key, or the key of the client. *)
Definition same_key (r : responder) (key : bytes) : Prop := hmacKey r = [] \/ hmacKey r = key.

Lemma nth_core_flags m rest :
  length (ID m) = 16%nat ->
  nth 20 (core_bytes m ++ rest) 0 = b2z (Deliver m)
  /\ nth 21 (core_bytes m ++ rest) 0 = b2z (NeedResponse m)
  /\ be_decode (take 4 (core_bytes m ++ rest)) = Magic.
Proof.
  destruct m as [id d n ts]. cbn [ID]. intros H. explode id H. done.
Qed.

Lemma accepts_signed r m key rest :
  length (ID m) = 16%nat -> NeedResponse m = true -> Deliver m = false ->
  same_key r key -> accepts r (signed_bytes m key ++ rest) = true.
Proof.
  intros Hid Hn Hd Hk. unfold accepts. apply andb_true_iff. split.
  - unfold probe_wants, signed_bytes. rewrite <- app_assoc.
    destruct (nth_core_flags m ((if (length key =? 0)%nat then [] else Sign (core_bytes m) key)
      ++ rest) Hid) as (-> & -> & ->).
    rewrite Hn, Hd, Z.eqb_refl. rewrite !length_app, length_core_bytes by done.
    by replace (MetaSize <=? _)%nat with true by lia.
  - pose proof (authOK_spec r (signed_bytes m key ++ rest) (mkState ∅ 0 0 [])) as H.
    unfold authOK in H. destruct Hk as [Hk|Hk].
    + unfold authentic. by rewrite Hk.
    + rewrite Hk in H |- *. destruct (length key =? 0)%nat eqn:E; [by injection H |].
      rewrite Verify_signed_app, lift_ret_bind in H by done. by injection H.
Qed.

Lemma Unmarshal_signed m key rest :
  Meta_ok m -> Unmarshal (signed_bytes m key ++ rest) = Ret (inr m).
Proof. intros H. unfold signed_bytes. rewrite <- app_assoc. by apply Unmarshal_core. Qed.

(** The echo of the client's payload decodes to the same run. *)
Lemma Unmarshal_echo r p m :
  Unmarshal p = Ret (inr m) ->
  Unmarshal (sanitized (hmacKey r) p) = Ret (inr (mkMeta (ID m) false false (Timestamp m))).
Proof. intros (Hl & Hm & ->)%Unmarshal_inr. by apply Unmarshal_sanitized. Qed.

(** ** A run of the client against the agent *)

(** The address the client sends from. *)
Definition client_src (sg : segment) (f : flags) : bytes :=
  if bool_decide (f_src f = ""%string) then sg_local sg else ParseIP (f_src f).

(** The control block of the run. *)
Definition run_meta (sg : segment) (w : world) : Meta :=
  mkMeta (sg_uuid sg) false true (u64 (clock w)).

(** The flags name a destination and a way to send to it. *)
Record sendable (sg : segment) (f : flags) (dst : bytes) : Prop := {
  sd_dst : ParseIP (f_dst f) = dst;
  sd_dst_ok : dst ≠ [];
  sd_vlan : 0 <= f_vlan f < 4096;
  sd_send : out_frame sg f (isV6 dst) [] ≠ None;
  sd_uuid : length (sg_uuid sg) = 16%nat /\ bytes_ok (sg_uuid sg);
  sd_lat : 0 <= sg_lat sg
}.

(** Moreover the run asks for an answer, its destination is a VM of the agent, and
    both sides have the same key (or the agent has none). *)
Record ready (sg : segment) (f : flags) (dst : bytes) : Prop := {
  rd_sendable : sendable sg f dst;
  rd_response : f_response f = true;
  rd_deliver : f_deliver f = false;
  rd_local : local (sg_agent sg) (addr (isV6 dst) dst) = true;
  rd_type : ifType (sg_agent sg) ≠ IfaceVXLAN;
  rd_key : same_key (sg_agent sg) (codes (f_hmacKey f))
}.

Lemma mustIP_ret {W} s ip (st : W * list report) :
  ParseIP s = ip -> ip ≠ [] -> @mustIP W s st = Done (ip, st).
Proof. intros <- Hn. unfold mustIP. by destruct (ParseIP s). Qed.

Lemma addr_idem v6 ip : addr v6 (addr v6 ip) = addr v6 ip.
Proof.
  destruct v6; unfold addr, addr4, addr6.
  - rewrite Net.To16_16, field_id; [done |..]; by rewrite !length_field.
  - rewrite Net.To4_4, field_id; [done |..]; by rewrite !length_field.
Qed.

(** ** Sending *)

Section sending.
Context (sg : segment) (f : flags) (dst : bytes).
Context (Hsd : sendable sg f dst).

Lemma meta_any_ok d n t : Meta_ok (mkMeta (sg_uuid sg) d n (u64 t)).
Proof.
  destruct (sd_uuid _ _ _ Hsd). split_and!; [done | done | apply u64_range | apply u64_range].
Qed.

Lemma run_meta_ok w : Meta_ok (run_meta sg w).
Proof. apply meta_any_ok. Qed.

Lemma srcIP_ret (s : world * list report) :
  srcIP (H := segment_host sg) f dst s = Done (client_src sg f, s).
Proof.
  unfold srcIP, client_src. destruct s as [w l]. by destruct (bool_decide _).
Qed.

Lemma newMeta_any w l :
  newMeta (H := segment_host sg) f (w, l)
  = Done ((mkMeta (sg_uuid sg) (f_deliver f) (f_response f) (u64 (clock w)), sg_uuid sg), (w, l)).
Proof. unfold newMeta. by rewrite !ask_bind. Qed.

Lemma payload_any m :
  ID m = sg_uuid sg -> payload f m = Ret (signed_bytes m (codes (f_hmacKey f))).
Proof. intros Hid. apply Signed_layout. rewrite Hid. apply (sd_uuid _ _ _ Hsd). Qed.

(** The frames of the run all travel between the same two MAC addresses. *)
Lemma run_frames :
  exists dm sm, forall l3, out_frame sg f (isV6 dst) l3
    = Some (frame_bytes dm sm (f_vlan f) (et_of (isV6 dst)) l3).
Proof.
  destruct (out_frame sg f (isV6 dst) []) as [fr|] eqn:E; [|by destruct (sd_send _ _ _ Hsd)].
  apply out_frame_marked in E as (dm & sm & _ & H); [|apply (sd_vlan _ _ _ Hsd)]. eauto.
Qed.
End sending.

Section probe.
Context (sg : segment) (f : flags) (dst : bytes).
Context (Hrd : ready sg f dst).

Abbreviation Hsd := (rd_sendable _ _ _ Hrd).

Lemma newMeta_ret w l :
  newMeta (H := segment_host sg) f (w, l) = Done ((run_meta sg w, sg_uuid sg), (w, l)).
Proof. rewrite newMeta_any. by rewrite (rd_response _ _ _ Hrd), (rd_deliver _ _ _ Hrd). Qed.

Lemma payload_ret w :
  payload f (run_meta sg w) = Ret (signed_bytes (run_meta sg w) (codes (f_hmacKey f))).
Proof. by apply (payload_any sg f dst Hsd). Qed.

(** The agent accepts the payload of the run, whatever follows it. *)
Lemma run_payload_app w rest :
  let pay := signed_bytes (run_meta sg w) (codes (f_hmacKey f)) ++ rest in
  Unmarshal pay = Ret (inr (run_meta sg w)) /\ accepts (sg_agent sg) pay = true.
Proof.
  split; [apply Unmarshal_signed, (run_meta_ok sg f dst Hsd) |].
  apply accepts_signed; [apply (sd_uuid _ _ _ Hsd) | done | done | apply (rd_key _ _ _ Hrd)].
Qed.

Lemma run_payload w :
  let pay := signed_bytes (run_meta sg w) (codes (f_hmacKey f)) in
  Unmarshal pay = Ret (inr (run_meta sg w)) /\ accepts (sg_agent sg) pay = true.
Proof. pose proof (run_payload_app w []) as H. by rewrite app_nil_r in H. Qed.

(** Emitting a packet to which the agent's answer is [o]: the answer travels in
    the swapped frame. *)
Definition answer_frame (dm sm p : bytes) : bytes :=
  frame_bytes (field 6 sm) (field 6 dm) (f_vlan f) (et_of (isV6 dst)) p.

Lemma emit_reply pr src seg o s' w l :
  tunnel_port pr seg = false ->
  l4_reply (sg_agent sg) (addr (isV6 dst) src) (addr (isV6 dst) dst) pr seg (isV6 dst) (agent w)
  = (o, s') ->
  exists dm sm,
    emit (H := segment_host sg) f dst (ip_bytes (isV6 dst) pr src dst seg) (isV6 dst) (w, l)
    = Done (tt, (mkWorld (clock w) (transmit_opt sock_ok (answer_frame dm sm <$> o) s')
                   (queue w ++ marked_frame dm sm (f_vlan f) (isV6 dst) pr src dst seg
                      :: match o with Some p => [answer_frame dm sm p] | None => [] end), l)).
Proof.
  intros Hp Hl4. destruct (run_frames sg f dst Hsd) as (dm & sm & Hf). exists dm, sm.
  rewrite emit_out, Hf, inject_spec. fold (marked_frame dm sm (f_vlan f) (isV6 dst) pr src dst seg).
  erewrite frame_reply_marked; try done; [by destruct o | apply (sd_vlan _ _ _ Hsd)
    | apply (rd_type _ _ _ Hrd) | apply (rd_local _ _ _ Hrd)].
Qed.

Lemma waitReply_hit n mtch what q1 fr q2 c w l :
  Forall (fun f => hit (sg_uuid sg) mtch f = false) q1 -> hit (sg_uuid sg) mtch fr = true ->
  sniff_of fr = Some c -> queue w = q1 ++ fr :: q2 -> sg_lat sg * zlen q1 < f_timeout f ->
  waitReply (H := segment_host sg) (S (length q1) + n) f (sg_uuid sg) mtch what (w, l)
  = Done (tt, (mkWorld (clock w + sg_lat sg * (zlen q1 + 1)) (agent w) q2,
               l ++ [GotReply what (c_srcIP c)])).
Proof.
  intros Hq1 Hfr Hs Hq Ht. unfold waitReply.
  rewrite (cli_bind_done _ _ _ _ _ (recvMatch_hit sg n f _ _ _ _ _ _ w l Hq1 Hfr Hs Hq
    (sd_lat _ _ _ Hsd) Ht)).
  by rewrite ask_bind.
Qed.

(** The capture of a marked packet sent to the client by the VM. *)
Definition seen (pr : Z) (src seg p : bytes) (m : Meta) : capture :=
  set_meta m p (l4_capture (set_ip (Net.String (addr (isV6 dst) src)) pr capture0) pr seg).

Lemma seen_src pr src seg p m :
  c_srcIP (seen pr src seg p m) = Net.String (addr (isV6 dst) src).
Proof.
  unfold seen, l4_capture. destruct ((pr =? ProtoICMP) || _); [done |].
  by destruct (pr =? ProtoUDP).
Qed.

Lemma seen_meta pr src seg p m : c_meta (seen pr src seg p m) = m.
Proof. done. Qed.

(** Sending a datagram that the agent answers, and waiting for the answer: the
    client skips what is in its queue and its own datagram. *)
Lemma probe_answered n pr src seg pr' seg' p p' m m' mtch what w l :
  tunnel_port pr seg = false -> tunnel_port pr' seg' = false ->
  l4_reply (sg_agent sg) (addr (isV6 dst) src) (addr (isV6 dst) dst) pr seg (isV6 dst) (agent w)
  = (Some (ip_bytes (isV6 dst) pr' (addr (isV6 dst) dst) (addr (isV6 dst) src) seg'), agent w) ->
  payload_of pr seg = Some p -> Unmarshal p = Ret (inr m) ->
  payload_of pr' seg' = Some p' -> Unmarshal p' = Ret (inr m') -> ID m' = sg_uuid sg ->
  mtch (seen pr src seg p m) = false -> mtch (seen pr' (addr (isV6 dst) dst) seg' p' m') = true ->
  Forall (fun f => hit (sg_uuid sg) mtch f = false) (queue w) ->
  sg_lat sg * (zlen (queue w) + 1) < f_timeout f ->
  exists reply,
    (_ ← emit (H := segment_host sg) f dst (ip_bytes (isV6 dst) pr src dst seg) (isV6 dst);
     _ ← say (SentProbe (sg_uuid sg));
     waitReply (H := segment_host sg) (length (queue w) + 2 + n) f (sg_uuid sg) mtch what) (w, l)
    = Done (tt, (mkWorld (clock w + sg_lat sg * (zlen (queue w) + 2)) (sent reply (agent w)) [],
                 l ++ [SentProbe (sg_uuid sg);
                       GotReply what (Net.String (addr (isV6 dst) dst))])).
Proof.
  intros Ht Ht' Hl4 Hp Hm Hp' Hm' Hid Hown Hrep Hq Htime.
  destruct (emit_reply pr src seg _ _ w l Ht Hl4) as (dm & sm & He).
  eexists. rewrite (cli_bind_done _ _ _ _ _ He), say_bind.
  pose proof (sniff_marked dm sm (f_vlan f) (isV6 dst) pr src dst seg (sd_vlan _ _ _ Hsd) Ht p m
    Hp Hm) as Hs.
  pose proof (sniff_marked (field 6 sm) (field 6 dm) (f_vlan f) (isV6 dst) pr'
    (addr (isV6 dst) dst) (addr (isV6 dst) src) seg' (sd_vlan _ _ _ Hsd) Ht' p' m' Hp' Hm') as Hs'.
  fold (seen pr src seg p m) in Hs. fold (seen pr' (addr (isV6 dst) dst) seg' p' m') in Hs'.
  set (own := marked_frame dm sm _ _ _ _ _ _) in *. unfold marked_frame in Hs'.
  fold (answer_frame dm sm (ip_bytes (isV6 dst) pr' (addr (isV6 dst) dst) (addr (isV6 dst) src)
    seg')) in Hs'.
  set (rep := answer_frame _ _ _) in *.
  replace (length (queue w) + 2 + n)%nat with (S (length (queue w ++ [own])) + n)%nat
    by (rewrite length_app; cbn; lia).
  assert (zlen (queue w ++ [own]) = zlen (queue w) + 1) as Hlen
    by (rewrite length_app; cbn [length]; lia).
  rewrite (waitReply_hit n mtch what (queue w ++ [own]) rep []
             (seen pr' (addr (isV6 dst) dst) seg' p' m')).
  - cbn [clock agent]. rewrite Hlen, <- app_assoc. cbn [app].
    replace (zlen (queue w) + 1 + 1) with (zlen (queue w) + 2) by lia.
    by rewrite seen_src, addr_idem.
  - apply Forall_app. split; [done |]. apply Forall_singleton. unfold hit. rewrite Hs, Hown.
    apply andb_false_r.
  - unfold hit. rewrite Hs', Hrep. rewrite seen_meta, Hid.
    by rewrite bool_decide_true.
  - exact Hs'.
  - cbn [queue]. by rewrite <- app_assoc.
  - rewrite Hlen. exact Htime.
Qed.
End probe.

(** ** ICMP *)

Definition icmp_req (v6 : bool) (src dst pay : bytes) : bytes :=
  if v6 then icmp6_bytes (ck6 ProtoICMPv6 src dst) ICMPv6EchoRequest 0x1234 1 pay
  else icmp_bytes ICMPEchoRequest 0x1234 1 pay.

Lemma icmpL3_ret src dst pay :
  icmpL3 src dst 0x1234 1 pay
  = Ret (ip_bytes (isV6 dst) (icmp_proto (isV6 dst)) src dst (icmp_req (isV6 dst) src dst pay),
         isV6 dst).
Proof.
  unfold icmpL3, ip_bytes, icmp_proto, icmp_req. destruct (isV6 dst).
  - rewrite ICMPv6_layout. cbn [mbind go_bind]. by rewrite IPv6_layout.
  - rewrite ICMP_layout. cbn [mbind go_bind]. by rewrite IPv4_layout.
Qed.

Lemma icmp_req_reply r v6 src dst s d pay st :
  accepts r pay = true ->
  l4_reply r s d (icmp_proto v6) (icmp_req v6 src dst pay) v6 st
  = (Some (ip_bytes v6 (icmp_proto v6) d s
             (icmpv_bytes v6 d s 0x1234 1 (sanitized (hmacKey r) pay))), st).
Proof.
  intros Ha. unfold l4_reply, icmp_req. destruct v6.
  - change (_ || _) with true. unfold icmp6_bytes. set (c := ck6 _ _ _ _). clearbody c.
    change (drop 8 (icmp_hdr _ c _ _ ++ pay)) with pay. rewrite Ha. reflexivity.
  - change (_ || _) with true. unfold icmp_bytes. set (c := checksum _). clearbody c.
    change (drop 8 (icmp_hdr _ c _ _ ++ pay)) with pay. rewrite Ha. reflexivity.
Qed.

Lemma payload_of_icmp_req v6 src dst pay :
  payload_of (icmp_proto v6) (icmp_req v6 src dst pay) = Some pay.
Proof. by destruct v6. Qed.

Lemma icmp_not_tunnel v6 seg : tunnel_port (icmp_proto v6) seg = false.
Proof. by destruct v6. Qed.

Lemma startSniffer_ret sg (s : world * list report) :
  startSniffer (H := segment_host sg) s = Done (tt, s).
Proof. by destruct s. Qed.

(** What a run needs of the traffic already in its queue: none of it is taken for
    the answer, and there is time to skip it. *)
Definition patient (sg : segment) (f : flags) (w : world) (mtch : capture -> bool) (own : Z)
  : Prop :=
  Forall (fun fr => hit (sg_uuid sg) mtch fr = false) (queue w)
  /\ sg_lat sg * (zlen (queue w) + own) < f_timeout f.

(** C4: An ICMP or ICMPv6 probe for a VM of the agent is answered, and the client
    recognises the answer: whatever unrelated traffic its sniffer has to skip
    first (its own request included), the run ends with the report of an echo
    reply from the VM's address; the agent has sent exactly one frame, counted
    it, and nothing else of its state changed.  The fuel is the number of queued
    frames plus two. *)
Theorem icmp_probe_is_answered sg f dst w l n :
  ready sg f dst -> patient sg f w isEchoReply 1 ->
  exists reply,
    runICMP (H := segment_host sg) (length (queue w) + 2 + n) f (w, l)
    = Done (tt, (mkWorld (clock w + sg_lat sg * (zlen (queue w) + 2)) (sent reply (agent w)) [],
                 l ++ [SentProbe (sg_uuid sg);
                       GotReply "ICMP echo reply" (Net.String (addr (isV6 dst) dst))])).
Proof.
  intros Hrd [Hq Ht]. unfold runICMP.
  rewrite (cli_bind_done _ _ _ _ _ (mustIP_ret _ _ _ (sd_dst _ _ _ (rd_sendable _ _ _ Hrd)) (sd_dst_ok _ _ _ (rd_sendable _ _ _ Hrd)))).
  rewrite (cli_bind_done _ _ _ _ _ (srcIP_ret sg f dst (w, l))).
  rewrite (cli_bind_done _ _ _ _ _ (newMeta_ret sg f dst Hrd w l)).
  rewrite (cli_bind_done _ _ _ _ _ (startSniffer_ret sg (w, l))).
  rewrite (call_bind _ _ _ _ (payload_ret sg f dst Hrd w)).
  rewrite (call_bind _ _ _ _ (icmpL3_ret _ _ _)), (rd_response _ _ _ Hrd).
  destruct (run_payload sg f dst Hrd w) as [Hm Ha].
  set (pay := signed_bytes _ _) in *.
  eapply (probe_answered sg f dst Hrd n _ _ _ _ _ pay (sanitized (hmacKey (sg_agent sg)) pay)
            (run_meta sg w) (mkMeta (sg_uuid sg) false false (u64 (clock w)))).
  - apply icmp_not_tunnel.
  - apply icmp_not_tunnel.
  - by apply icmp_req_reply.
  - apply payload_of_icmp_req.
  - done.
  - apply payload_of_icmp.
  - by apply (Unmarshal_echo (sg_agent sg)) in Hm.
  - done.
  - by unfold isEchoReply, seen, icmp_req, icmp_proto; destruct (isV6 dst).
  - by unfold isEchoReply, seen, icmpv_bytes, icmp_proto; destruct (isV6 dst).
  - done.
  - done.
Qed.

(** ** UDP *)

Definition dport_or (d : Z) (f : flags) : flags := if f_dport f =? 0 then set_dport d f else f.

Lemma udpL3_ret src dst sp dp pay :
  udpL3 src dst sp dp pay
  = Ret (ip_bytes (isV6 dst) ProtoUDP src dst
           (udp_bytes (ckv (isV6 dst) ProtoUDP src dst) sp dp pay), isV6 dst).
Proof.
  unfold udpL3, ip_bytes, ckv. destruct (isV6 dst).
  - rewrite UDP6_layout. cbn [mbind go_bind]. by rewrite IPv6_layout.
  - rewrite UDP_layout. cbn [mbind go_bind]. by rewrite IPv4_layout.
Qed.

Lemma udp_ports ck sp dp pay :
  be_field (udp_bytes ck sp dp pay) 0 2 = u16 sp /\ be_field (udp_bytes ck sp dp pay) 2 2 = u16 dp.
Proof.
  unfold udp_bytes. set (c := ck _). clearbody c.
  by rewrite <- (be_decode_2 sp), <- (be_decode_2 dp).
Qed.

Lemma udp_req_reply r v6 ck s d sp dp pay st :
  accepts r pay = true ->
  l4_reply r s d ProtoUDP (udp_bytes ck sp dp pay) v6 st
  = (Some (ip_bytes v6 ProtoUDP d s
             (udp_bytes (ckv v6 ProtoUDP d s) (u16 dp) (u16 sp) (sanitized (hmacKey r) pay))), st).
Proof.
  intros Ha. unfold l4_reply. change (_ || _) with true. cbv zeta.
  destruct (udp_ports ck sp dp pay) as [-> ->].
  change (drop 8 (udp_bytes ck sp dp pay)) with pay. by rewrite Ha.
Qed.

Lemma udp_not_tunnel ck sp dp pay :
  u16 dp ≠ VXLANPort -> tunnel_port ProtoUDP (udp_bytes ck sp dp pay) = false.
Proof.
  intros H. unfold tunnel_port. destruct (udp_ports ck sp dp pay) as [_ ->].
  apply andb_false_iff. right. by apply Z.eqb_neq.
Qed.

Lemma u16_idem z : u16 (u16 z) = u16 z.
Proof. apply u16_small, u16_range. Qed.

(** These do not depend on the ports. *)
Lemma sendable_dport sg f dst d : sendable sg f dst -> sendable sg (dport_or d f) dst.
Proof. intros [? ? ? ? ? ?]. unfold dport_or. destruct (_ =? 0); by constructor. Qed.

Lemma ready_dport sg f dst d : ready sg f dst -> ready sg (dport_or d f) dst.
Proof.
  intros [? ? ? ? ? ?]. pose proof (sendable_dport sg f dst d ltac:(done)) as Hs.
  unfold dport_or in *. destruct (_ =? 0); by constructor.
Qed.

(** A UDP probe for a VM of the agent is answered, and the client recognises
    the answer, when the source and destination ports differ and neither is the
    VXLAN port 4789. *)
Theorem udp_probe_is_answered sg f dst w l n :
  ready sg f dst -> patient sg f w (udpReply (u16 (f_sport f))) 1 ->
  u16 (f_sport f) ≠ u16 (f_dport (dport_or 7 f)) ->
  u16 (f_sport f) ≠ VXLANPort -> u16 (f_dport (dport_or 7 f)) ≠ VXLANPort ->
  exists reply,
    runUDP (H := segment_host sg) (length (queue w) + 2 + n) f (w, l)
    = Done (tt, (mkWorld (clock w + sg_lat sg * (zlen (queue w) + 2)) (sent reply (agent w)) [],
                 l ++ [SentProbe (sg_uuid sg);
                       GotReply "UDP reply" (Net.String (addr (isV6 dst) dst))])).
Proof.
  intros Hrd [Hq Ht] Hne Hs Hd. apply (ready_dport _ _ _ 7) in Hrd.
  unfold runUDP. fold (dport_or 7 f).
  assert (f_sport (dport_or 7 f) = f_sport f /\ f_timeout (dport_or 7 f) = f_timeout f) as [Es Et]
    by (unfold dport_or; by destruct (_ =? 0)).
  rewrite <- Es in Hq, Hne, Hs. rewrite <- Et in Ht. clear Es Et.
  revert Hrd Hq Ht Hne Hs Hd. generalize (dport_or 7 f). clear f.
  intros f Hrd Hq Ht Hne Hs Hd.
  rewrite (cli_bind_done _ _ _ _ _ (mustIP_ret _ _ _ (sd_dst _ _ _ (rd_sendable _ _ _ Hrd)) (sd_dst_ok _ _ _ (rd_sendable _ _ _ Hrd)))).
  rewrite (cli_bind_done _ _ _ _ _ (srcIP_ret sg f dst (w, l))).
  rewrite (cli_bind_done _ _ _ _ _ (newMeta_ret sg f dst Hrd w l)).
  rewrite (cli_bind_done _ _ _ _ _ (startSniffer_ret sg (w, l))).
  rewrite (call_bind _ _ _ _ (payload_ret sg f dst Hrd w)).
  rewrite (call_bind _ _ _ _ (udpL3_ret _ _ _ _ _)), (rd_response _ _ _ Hrd).
  destruct (run_payload sg f dst Hrd w) as [Hm Ha].
  set (pay := signed_bytes _ _) in *.
  eapply (probe_answered sg f dst Hrd n _ _ _ _ _ pay (sanitized (hmacKey (sg_agent sg)) pay)
            (run_meta sg w) (mkMeta (sg_uuid sg) false false (u64 (clock w)))).
  3: by apply udp_req_reply.
  - apply udp_not_tunnel. by rewrite u16_idem.
  - apply udp_not_tunnel. by rewrite !u16_idem.
  - apply payload_of_udp.
  - done.
  - apply payload_of_udp.
  - by apply (Unmarshal_echo (sg_agent sg)) in Hm.
  - done.
  - apply andb_false_iff. right. apply Z.eqb_neq. cbn -[be_field udp_bytes u16].
    rewrite (proj2 (udp_ports _ _ _ _)), u16_idem. congruence.
  - apply andb_true_iff. split; [done |]. apply Z.eqb_eq. cbn -[be_field udp_bytes u16].
    by rewrite (proj2 (udp_ports _ _ _ _)), !u16_idem.
  - done.
  - done.
Qed.
