(* ===== verification/TcpDialog.v ===== *)
(** The TCP dialog of the client (htcp and tcp commands) against the agent:
    SYN, SYN/ACK, ACK, data, echoed data, FIN, FIN/ACK. *)
From S2P Require Import Prelude GoStd GoText TfMeta TfMetaProps Pkt PktProps Responder.
From S2P Require Import ResponderSpec Wire Demo ResponderProps Sniffer SnifferProps.
From S2P Require Import Client System EndToEnd.

Local Open Scope Z_scope.

Lemma tcpL3_ret v6 src dst sp dp seq ack fl pay :
  tcpL3 v6 src dst sp dp seq ack fl pay
  = Ret (ip_bytes v6 ProtoTCP src dst
           (tcp_bytes (ckv v6 ProtoTCP src dst) sp dp seq ack fl pay)).
Proof.
  unfold tcpL3, ip_bytes, ckv. destruct v6.
  - rewrite TCP6_layout. cbn [mbind go_bind]. by rewrite IPv6_layout.
  - rewrite TCP_layout. cbn [mbind go_bind]. by rewrite IPv4_layout.
Qed.

Lemma tcp_not_tunnel seg : tunnel_port ProtoTCP seg = false.
Proof. done. Qed.

(** What the sniffer reads of a TCP segment. *)
Lemma tcp_capture c ck sp dp seq ack fl pay :
  l4_capture c ProtoTCP (tcp_bytes ck sp dp seq ack fl pay)
  = set_tcp (u32 seq) fl (set_ports (u16 sp) (u16 dp) c).
Proof.
  unfold tcp_bytes. set (k := ck _). clearbody k.
  by rewrite <- (be_decode_2 sp), <- (be_decode_2 dp), <- (be_decode_4 seq).
Qed.

Section dialog.
Context (sg : segment) (f : flags) (dst : bytes).
Context (Hrd : ready sg f dst) (Htcp : tcpRespond (sg_agent sg) = true).
Context (sp dp : Z) (Hsp : 0 <= sp < 65536) (Hdp : 0 <= dp < 65536).

(** The connection as the agent identifies it. *)
Definition conn_src : bytes := addr (isV6 dst) (client_src sg f).
Definition conn_dst : bytes := addr (isV6 dst) dst.
Definition conn_key : string := flowKey conn_src conn_dst sp dp.
Definition conn_isn : Z := serverISN conn_src conn_dst sp dp.

Definition tcp_send (seq ack fl : Z) (data : bytes) : cli world unit :=
  l3 ← call (tcpL3 (isV6 dst) (client_src sg f) dst sp dp seq ack fl data);
  emit (H := segment_host sg) f dst l3 (isV6 dst).

(** The agent's state after an accepted segment. *)
Definition agent_after (k : tcp_kind) (c : option Z) (s : rstate) : rstate :=
  set_flows (put_conn conn_key c (capped k (flows s))) s.

(** What the client reads in an answer with sequence number [sq] and flags [fl]
    that echoes [n] bytes. *)
Definition reads (sq fl : Z) (n : nat) (frame : bytes) (c : capture) : Prop :=
  sniff_of frame = Some c /\ c_proto c = ProtoTCP /\ dstPort c = sp /\ tcpFlags c = fl
  /\ tcpSeq c = u32 sq /\ length (c_payload c) = n /\ ID (c_meta c) = sg_uuid sg.

(** The client's own segment, as its sniffer sees it. *)
Definition own_segment (frame : bytes) : Prop :=
  exists c, sniff_of frame = Some c /\ dstPort c = dp.

Lemma tcp_segment_reply ck seq ack fl data v6 s :
  has_bit fl FlagRST = false -> accepts (sg_agent sg) data = true -> 0 <= seq < 4294967296 ->
  l4_reply (sg_agent sg) conn_src conn_dst ProtoTCP (tcp_bytes ck sp dp seq ack fl data) v6 s
  = let '(out, c) := conn_step conn_isn (tcp_class fl (length data)) seq (zlen data)
                       (flows s !! conn_key) in
    ((fun '(sq, ak, fl') => ip_bytes v6 ProtoTCP conn_dst conn_src
        (tcp_bytes (ckv v6 ProtoTCP conn_dst conn_src) dp sp sq ak fl'
           (sanitized (hmacKey (sg_agent sg)) data))) <$> out,
     agent_after (tcp_class fl (length data)) c s).
Proof.
  intros Hf Ha Hs. rewrite l4_reply_tcp. unfold tcp_reply.
  rewrite Htcp, tcp_parts_bytes, !u16_small, u32_small, Hf, Ha by done. cbn [negb].
  unfold conn_isn, conn_key, agent_after. by destruct (conn_step _ _ _ _ _).
Qed.

(** Sending a segment to which the connection machine answers [sq], [ak], [fl']. *)
Lemma tcp_send_answered seq ack fl data m sq ak fl' c w l :
  has_bit fl FlagRST = false -> 0 <= seq < 4294967296 ->
  accepts (sg_agent sg) data = true -> Unmarshal data = Ret (inr m) -> ID m = sg_uuid sg ->
  conn_step conn_isn (tcp_class fl (length data)) seq (zlen data) (flows (agent w) !! conn_key)
  = (Some (sq, ak, fl'), c) ->
  exists own rep cap,
    tcp_send seq ack fl data (w, l)
    = Done (tt, (mkWorld (clock w)
                   (sent rep (agent_after (tcp_class fl (length data)) c (agent w)))
                   (queue w ++ [own; rep]), l))
    /\ own_segment own /\ reads sq fl' (length data) rep cap.
Proof.
  intros Hf Hs Ha Hm Hid Hstep. unfold tcp_send.
  rewrite (call_bind _ _ _ _ (tcpL3_ret _ _ _ _ _ _ _ _ _)).
  pose proof (tcp_segment_reply (ckv (isV6 dst) ProtoTCP (client_src sg f) dst) seq ack fl data
    (isV6 dst) (agent w) Hf Ha Hs) as Hl4.
  rewrite Hstep in Hl4.
  destruct (emit_reply sg f dst Hrd ProtoTCP (client_src sg f) _ _ _ w l
    (tcp_not_tunnel _) Hl4) as (dm & sm & ->).
  eexists _, _, _. split; [reflexivity |]. split.
  - unfold own_segment.
    rewrite (sniff_marked dm sm (f_vlan f) (isV6 dst) ProtoTCP _ dst _ (sd_vlan _ _ _ (rd_sendable _ _ _ Hrd))
      (tcp_not_tunnel _) data m (payload_of_tcp _ _ _ _ _ _ _) Hm), tcp_capture.
    eexists. split; [reflexivity |]. cbn. by apply u16_small.
  - unfold reads, answer_frame.
    pose proof (sniff_marked (field 6 sm) (field 6 dm) (f_vlan f) (isV6 dst) ProtoTCP conn_dst
      conn_src (tcp_bytes (ckv (isV6 dst) ProtoTCP conn_dst conn_src) dp sp sq ak fl'
        (sanitized (hmacKey (sg_agent sg)) data)) (sd_vlan _ _ _ (rd_sendable _ _ _ Hrd))
      (tcp_not_tunnel _) (sanitized (hmacKey (sg_agent sg)) data)
      (mkMeta (ID m) false false (Timestamp m)) (payload_of_tcp _ _ _ _ _ _ _)
      (Unmarshal_echo _ _ _ Hm)) as Hs'.
    unfold marked_frame in Hs'. rewrite Hs', tcp_capture.
    split_and!; [reflexivity | done | cbn; by apply u16_small | done | done | | done].
    cbn. apply length_sanitized.
Qed.

(** A bare ACK is not answered and changes nothing. *)
Lemma tcp_send_ack seq ack data m w l :
  0 <= seq < 4294967296 -> accepts (sg_agent sg) data = true -> Unmarshal data = Ret (inr m) ->
  exists own,
    tcp_send seq ack FlagACK data (w, l)
    = Done (tt, (mkWorld (clock w) (agent w) (queue w ++ [own]), l))
    /\ own_segment own.
Proof.
  intros Hs Ha Hm. unfold tcp_send.
  rewrite (call_bind _ _ _ _ (tcpL3_ret _ _ _ _ _ _ _ _ _)).
  pose proof (tcp_segment_reply (ckv (isV6 dst) ProtoTCP (client_src sg f) dst) seq ack FlagACK
    data (isV6 dst) (agent w) eq_refl Ha Hs) as Hl4.
  change (tcp_class FlagACK (length data)) with KOther in Hl4.
  cbn [conn_step fmap option_fmap option_map] in Hl4. unfold agent_after in Hl4.
  cbn [capped] in Hl4. rewrite put_conn_id, set_flows_id in Hl4.
  destruct (emit_reply sg f dst Hrd ProtoTCP (client_src sg f) _ _ _ w l
    (tcp_not_tunnel _) Hl4) as (dm & sm & ->).
  eexists. split; [reflexivity |]. unfold own_segment.
  rewrite (sniff_marked dm sm (f_vlan f) (isV6 dst) ProtoTCP _ dst _ (sd_vlan _ _ _ (rd_sendable _ _ _ Hrd))
    (tcp_not_tunnel _) data m (payload_of_tcp _ _ _ _ _ _ _) Hm), tcp_capture.
  eexists. split; [reflexivity |]. cbn. by apply u16_small.
Qed.

Context (Hne : sp ≠ dp).

(** The client does not take its own segments for answers. *)
Lemma own_no_hit id want own : own_segment own -> hit id (tcpReply sp want) own = false.
Proof.
  intros (c & Hc & Hd). unfold hit, tcpReply. rewrite Hc, Hd.
  rewrite (proj2 (Z.eqb_neq dp sp)) by done. by rewrite andb_false_r, andb_false_l, andb_false_r.
Qed.

Lemma own_no_synack id own : own_segment own -> hit id (synAck sp) own = false.
Proof.
  intros (c & Hc & Hd). unfold hit, synAck, tcpReply. rewrite Hc, Hd.
  rewrite (proj2 (Z.eqb_neq dp sp)) by done. by rewrite andb_false_r, !andb_false_l, andb_false_r.
Qed.

Lemma reads_hit sq fl n frame c want :
  reads sq fl n frame c -> has_bit fl want = true ->
  hit (sg_uuid sg) (tcpReply sp want) frame = true.
Proof.
  intros (Hs & Hp & Hd & Hf & _ & _ & Hid) Hw. unfold hit, tcpReply.
  rewrite Hs, Hp, Hd, Hf, Hid, Hw, !Z.eqb_refl. by rewrite bool_decide_true.
Qed.

Lemma reads_synack sq fl n frame c :
  reads sq fl n frame c -> has_bit fl FlagSYN = true -> has_bit fl FlagACK = true ->
  hit (sg_uuid sg) (synAck sp) frame = true.
Proof.
  intros Hr Hs Ha. apply (reads_hit _ _ _ _ _ FlagSYN) in Hr as Hh; [|done]. unfold hit, synAck in *.
  destruct Hr as (Hsn & _ & _ & Hf & _). rewrite Hsn in *. rewrite Hf, Ha.
  by rewrite andb_true_r.
Qed.

(** Waiting for an answer behind the client's own segments. *)
Lemma recv_answer n want q1 rep sq fl k cap w l :
  Forall own_segment q1 -> reads sq fl k rep cap -> has_bit fl want = true ->
  queue w = q1 ++ [rep] -> sg_lat sg * zlen q1 < f_timeout f ->
  recvMatch (H := segment_host sg) (S (length q1) + n) f (sg_uuid sg) (tcpReply sp want) (w, l)
  = Done ((cap, true), (mkWorld (clock w + sg_lat sg * (zlen q1 + 1)) (agent w) [], l)).
Proof.
  intros Hq1 Hr Hw Hq Ht. eapply recvMatch_hit; [| | |done | apply (sd_lat _ _ _ (rd_sendable _ _ _ Hrd)) | done].
  - eapply Forall_impl; [done |]. intros x Hx. by apply own_no_hit.
  - by eapply reads_hit.
  - by destruct Hr.
Qed.

(** The flows after the whole dialog. *)
Lemma flows_closed c1 c2 s r1 r2 r3 :
  sent r3 (agent_after KFin None (sent r2 (agent_after KPsh (Some c2)
    (sent r1 (agent_after KSyn (Some c1) s)))))
  = mkState (delete conn_key (capped KSyn (flows s))) (authFailures s)
      (u64 (repliesSent s + 3)) (wire s ++ [r1; r2; r3]).
Proof.
  unfold sent, agent_after, set_flows. cbn [flows authFailures repliesSent wire capped put_conn].
  rewrite delete_insert_eq, delete_insert_eq, <- !app_assoc. cbn [app]. f_equal.
  rewrite u64_add_idemp, <- Z.add_assoc, u64_add_idemp. f_equal. lia.
Qed.
End dialog.

(** ** The dialog *)

Section run.
Context (sg : segment) (f : flags) (dst : bytes).
Context (Hrd : ready sg f dst) (Htcp : tcpRespond (sg_agent sg) = true).
Context (Hne : u16 (f_sport f) ≠ u16 (f_dport f)).

(** The ports of the run. *)
Abbreviation sp := (u16 (f_sport f)).
Abbreviation dp := (u16 (f_dport f)).
Abbreviation key := (conn_key sg f dst sp dp).
Abbreviation isn := (conn_isn sg f dst sp dp).
Abbreviation send := (tcp_send sg f dst sp dp).

(** SYN, SYN/ACK and ACK: the agent has the connection, and the client's ACK is
    the only frame left in its queue. *)
Lemma handshake pay m n w l (K : Z -> cli world unit) :
  payload f m = Ret pay ->
  accepts (sg_agent sg) pay = true -> Unmarshal pay = Ret (inr m) -> ID m = sg_uuid sg ->
  patient sg f w (synAck sp) 1 ->
  exists r1 own,
    (_ ← send clientISN 0 FlagSYN pay;
     _ ← say (SentSYN (sg_uuid sg));
     '(c, ok) ← recvMatch (H := segment_host sg) (length (queue w) + 2 + n) f (sg_uuid sg)
                  (synAck sp);
     if negb ok then say NoSynAck
     else
       _ ← say (GotSynAck (tcpSeq c));
       pay ← call (payload f m);
       _ ← send (clientISN + 1) (u32 (tcpSeq c + 1)) FlagACK pay;
       _ ← say HandshakeComplete;
       K (tcpSeq c)) (w, l)
    = K (u32 isn)
        (mkWorld (clock w + sg_lat sg * (zlen (queue w) + 2))
           (sent r1 (agent_after sg f dst sp dp KSyn (Some (u32 (isn + 1 + zlen pay)))
                       (agent w))) [own],
         l ++ [SentSYN (sg_uuid sg); GotSynAck (u32 isn); HandshakeComplete])
    /\ own_segment dp own.
Proof.
  intros Hpay Ha Hm Hid [Hq Ht]. pose proof (u16_range (f_sport f)). pose proof (u16_range (f_dport f)).
  destruct (tcp_send_answered sg f dst Hrd Htcp sp dp ltac:(done) ltac:(done) clientISN 0 FlagSYN
    pay m isn (u32 (clientISN + 1)) (Z.lor FlagSYN FlagACK) (Some (u32 (isn + 1 + zlen pay))) w l
    eq_refl ltac:(done) Ha Hm Hid eq_refl) as (own0 & r1 & cap & Hsend & Hown0 & Hr).
  change (tcp_class FlagSYN (length pay)) with KSyn in Hsend.
  rewrite (cli_bind_done _ _ _ _ _ Hsend), say_bind.
  set (w1 := mkWorld _ _ _). assert (queue w1 = (queue w ++ [own0]) ++ [r1]) as Hq1
    by (cbn; by rewrite <- app_assoc).
  assert (zlen (queue w ++ [own0]) = zlen (queue w) + 1) as Hlen
    by (rewrite length_app; cbn [length]; lia).
  assert (recvMatch (H := segment_host sg) (length (queue w) + 2 + n) f (sg_uuid sg) (synAck sp)
            (w1, l ++ [SentSYN (sg_uuid sg)])
          = Done ((cap, true), (mkWorld (clock w + sg_lat sg * (zlen (queue w) + 2)) (agent w1) [],
                                l ++ [SentSYN (sg_uuid sg)]))) as Hrecv.
  { replace (length (queue w) + 2 + n)%nat with (S (length (queue w ++ [own0])) + n)%nat
      by (rewrite length_app; cbn; lia).
    rewrite (recvMatch_hit sg n f (sg_uuid sg) (synAck sp) (queue w ++ [own0]) r1 [] cap);
      [| | | | exact Hq1 | apply (sd_lat _ _ _ (rd_sendable _ _ _ Hrd)) | by rewrite Hlen].
    - rewrite Hlen. cbn [clock w1].
      by replace (zlen (queue w) + 1 + 1) with (zlen (queue w) + 2) by lia.
    - apply Forall_app. split; [done |]. by apply Forall_singleton, (own_no_synack sp dp).
    - by eapply reads_synack.
    - by destruct Hr. }
  rewrite (cli_bind_done _ _ _ _ _ Hrecv). cbn [negb].
  rewrite say_bind, (call_bind _ _ _ _ Hpay).
  set (w2 := mkWorld _ _ []).
  destruct (tcp_send_ack sg f dst Hrd Htcp sp dp ltac:(done) ltac:(done) (clientISN + 1)
    (u32 (tcpSeq cap + 1)) pay m w2 ((l ++ [SentSYN (sg_uuid sg)]) ++ [GotSynAck (tcpSeq cap)])
    ltac:(done) Ha Hm) as (own & Hack & Hown).
  rewrite (cli_bind_done _ _ _ _ _ Hack), say_bind.
  exists r1, own. destruct Hr as (_ & _ & _ & _ & Hseq & _).
  rewrite Hseq, <- !app_assoc. done.
Qed.

(** Data, its echo, FIN and FIN/ACK, on a connection the agent has. *)
Lemma data_and_fin pay data m n next ack w l own :
  payload f m = Ret pay ->
  accepts (sg_agent sg) pay = true -> Unmarshal pay = Ret (inr m) ->
  accepts (sg_agent sg) data = true -> Unmarshal data = Ret (inr m) -> ID m = sg_uuid sg ->
  queue w = [own] -> own_segment dp own -> flows (agent w) !! key = Some next ->
  sg_lat sg * 2 < f_timeout f ->
  exists r2 r3 c2,
    (_ ← send (clientISN + 1) ack (Z.lor FlagPSH FlagACK) data;
     _ ← say (SentData (zlen data));
     '(dr, ok) ← recvMatch (H := segment_host sg) (3 + n) f (sg_uuid sg) (tcpReply sp FlagPSH);
     _ ← (if ok : bool then say (GotDataReply (zlen (c_payload dr))) else mret tt);
     pay ← call (payload f m);
     _ ← send (u32 (clientISN + 1 + u32 (zlen data))) ack (Z.lor FlagFIN FlagACK) pay;
     '(_, ok) ← recvMatch (H := segment_host sg) (3 + n) f (sg_uuid sg) (tcpReply sp FlagFIN);
     if ok : bool then say SessionClosed else mret tt) (w, l)
    = Done (tt, (mkWorld (clock w + sg_lat sg * 5)
                   (sent r3 (agent_after sg f dst sp dp KFin None
                      (sent r2 (agent_after sg f dst sp dp KPsh (Some c2) (agent w))))) [],
                 l ++ [SentData (zlen data); GotDataReply (zlen data); SessionClosed])).
Proof.
  intros Hpay Ha Hm Had Hmd Hid Hq Hown Hfl Ht.
  pose proof (u16_range (f_sport f)) as Hsp. pose proof (u16_range (f_dport f)) as Hdp.
  pose proof (sd_lat _ _ _ (rd_sendable _ _ _ Hrd)) as Hlat.
  assert (tcp_class (Z.lor FlagPSH FlagACK) (length data) = KPsh) as Hk.
  { apply accepts_length in Had. unfold MetaSize in Had. by destruct data; [cbn in Had; lia |]. }
  destruct (tcp_send_answered sg f dst Hrd Htcp sp dp Hsp Hdp (clientISN + 1) ack
    (Z.lor FlagPSH FlagACK) data m next (u32 (clientISN + 1 + zlen data)) (Z.lor FlagPSH FlagACK)
    (Some (u32 (next + zlen data))) w l eq_refl ltac:(done) Had Hmd Hid
    ltac:(by rewrite Hk, Hfl)) as (own2 & r2 & cap2 & Hsend & Hown2 & Hr2).
  rewrite Hk, Hq in Hsend. rewrite (cli_bind_done _ _ _ _ _ Hsend), say_bind.
  set (w1 := mkWorld _ _ ([own] ++ [own2; r2])).
  rewrite (cli_bind_done _ _ _ _ _ (recv_answer sg f dst Hrd sp dp Hne n FlagPSH [own; own2] r2
    _ _ _ cap2 w1 (l ++ [SentData (zlen data)]) ltac:(repeat constructor; done) Hr2 eq_refl eq_refl
    ltac:(cbn; lia))), say_bind, (call_bind _ _ _ _ Hpay).
  set (w2 := mkWorld _ _ []). set (l2 := _ ++ [GotDataReply _]).
  assert (flows (agent w2) !! key = Some (u32 (next + zlen data))) as Hfl2
    by apply (lookup_insert_eq (flows (agent w))).
  destruct (tcp_send_answered sg f dst Hrd Htcp sp dp Hsp Hdp (u32 (clientISN + 1 + u32 (zlen data)))
    ack (Z.lor FlagFIN FlagACK) pay m (u32 (next + zlen data)) _ (Z.lor FlagFIN FlagACK) None w2 l2
    eq_refl ltac:(apply u32_range) Ha Hm Hid
    ltac:(rewrite Hfl2; reflexivity)) as (own3 & r3 & cap3 & Hfin & Hown3 & Hr3).
  rewrite (cli_bind_done _ _ _ _ _ Hfin). set (w3 := mkWorld _ _ (queue w2 ++ _)).
  rewrite (cli_bind_done _ _ _ _ _ (recv_answer sg f dst Hrd sp dp Hne (1 + n) FlagFIN [own3] r3
    _ _ _ cap3 w3 l2 ltac:(repeat constructor; done) Hr3 eq_refl eq_refl ltac:(cbn; lia))).
  destruct Hr2 as (_ & _ & _ & _ & _ & Hlen & _).
  exists r2, r3, (u32 (next + zlen data)). unfold say, l2. rewrite Hlen, <- !app_assoc.
  cbn [clock w1 w2 w3 length app].
  by replace (clock w + sg_lat sg * (Z.of_nat 2 + 1) + sg_lat sg * (Z.of_nat 1 + 1))
    with (clock w + sg_lat sg * 5) by lia.
Qed.
End run.

(** runTCP from the completed handshake on. *)
Definition after_handshake (sg : segment) (f : flags) (dst : bytes) (fuel : nat) (m : Meta)
  (withData : bool) (serverISN : Z) : cli world unit :=
  if negb withData then mret tt
  else
    let sp := u16 (f_sport f) in
    let send := tcp_send sg f dst sp (u16 (f_dport f)) in
    pay ← call (payload f m);
    let data := pay ++ ping in
    _ ← send (clientISN + 1) (u32 (serverISN + 1)) (Z.lor FlagPSH FlagACK) data;
    _ ← say (SentData (zlen data));
    '(dr, ok) ← recvMatch (H := segment_host sg) fuel f (sg_uuid sg) (tcpReply sp FlagPSH);
    _ ← (if ok : bool then say (GotDataReply (zlen (c_payload dr))) else mret tt);
    pay ← call (payload f m);
    _ ← send (u32 (clientISN + 1 + u32 (zlen data))) (u32 (serverISN + 1))
          (Z.lor FlagFIN FlagACK) pay;
    '(_, ok) ← recvMatch (H := segment_host sg) fuel f (sg_uuid sg) (tcpReply sp FlagFIN);
    if ok : bool then say SessionClosed else mret tt.

(** The frames the agent has sent and the connection it has closed. *)
Definition dialog_end (sg : segment) (f : flags) (dst : bytes) (s : rstate) (rs : list bytes)
  : rstate :=
  mkState (delete (conn_key sg f dst (u16 (f_sport f)) (u16 (f_dport f))) (capped KSyn (flows s)))
    (authFailures s) (u64 (repliesSent s + 3)) (wire s ++ rs).

(** C3: The full TCP dialog completes.  Against an agent that answers TCP, with
    source and destination ports that differ, the tcp command reports the
    SYN/ACK with the agent's initial sequence number, the handshake, the echo of
    exactly the bytes it sent, and the closed session; the agent sends three
    frames and forgets the connection.  The fuel is the number of queued frames
    plus three. *)
Theorem tcp_dialog_completes sg f dst w l n :
  let g := dport_or 80 f in
  let data := signed_bytes (run_meta sg w) (codes (f_hmacKey f)) ++ ping in
  ready sg f dst -> tcpRespond (sg_agent sg) = true -> u16 (f_sport f) ≠ u16 (f_dport g) ->
  patient sg f w (synAck (u16 (f_sport f))) 2 ->
  exists r1 r2 r3,
    runTCP (H := segment_host sg) (length (queue w) + 3 + n) f true (w, l)
    = Done (tt, (mkWorld (clock w + sg_lat sg * (zlen (queue w) + 7))
                   (dialog_end sg g dst (agent w) [r1; r2; r3]) [],
                 l ++ [SentSYN (sg_uuid sg);
                       GotSynAck (u32 (conn_isn sg g dst (u16 (f_sport f)) (u16 (f_dport g))));
                       HandshakeComplete; SentData (zlen data); GotDataReply (zlen data);
                       SessionClosed])).
Proof.
  cbv zeta. intros Hrd Htcp Hne [Hq Ht]. apply (ready_dport _ _ _ 80) in Hrd.
  unfold runTCP. fold (dport_or 80 f).
  assert (f_sport (dport_or 80 f) = f_sport f /\ f_timeout (dport_or 80 f) = f_timeout f
          /\ f_hmacKey (dport_or 80 f) = f_hmacKey f) as (Es & Et & Ek)
    by (unfold dport_or; by destruct (_ =? 0)).
  rewrite <- Ek. rewrite <- Es in Hq, Hne |- *. rewrite <- Et in Ht. clear Es Et Ek.
  revert Hrd Hq Ht Hne. generalize (dport_or 80 f). clear f.
  intros f Hrd Hq Ht Hne. pose proof (sd_lat _ _ _ (rd_sendable _ _ _ Hrd)) as Hlat.
  rewrite (cli_bind_done _ _ _ _ _ (mustIP_ret _ _ _ (sd_dst _ _ _ (rd_sendable _ _ _ Hrd)) (sd_dst_ok _ _ _ (rd_sendable _ _ _ Hrd)))).
  rewrite (cli_bind_done _ _ _ _ _ (srcIP_ret sg f dst (w, l))).
  rewrite (cli_bind_done _ _ _ _ _ (startSniffer_ret sg (w, l))).
  rewrite (cli_bind_done _ _ _ _ _ (newMeta_ret sg f dst Hrd w l)).
  pose proof (payload_ret sg f dst Hrd w) as Hpay. rewrite (call_bind _ _ _ _ Hpay).
  destruct (run_payload sg f dst Hrd w) as [Hm Ha].
  destruct (run_payload_app sg f dst Hrd w ping) as [Hmd Had].
  set (pay := signed_bytes _ _) in *.
  replace (length (queue w) + 3 + n)%nat with (length (queue w) + 2 + (1 + n))%nat by lia.
  destruct (handshake sg f dst Hrd Htcp Hne pay (run_meta sg w) (1 + n) w l
    (after_handshake sg f dst (length (queue w) + 2 + (1 + n)) (run_meta sg w) true))
    as (r1 & own & Hh & Ho); [done | done | done | done | split; [done | lia] |].
  set (w2 := mkWorld _ _ [own]) in Hh. set (l2 := l ++ _) in Hh.
  destruct (data_and_fin sg f dst Hrd Htcp Hne pay (pay ++ ping) (run_meta sg w)
    (length (queue w) + n)
    (u32 (conn_isn sg f dst (u16 (f_sport f)) (u16 (f_dport f)) + 1 + zlen pay))
    (u32 (u32 (conn_isn sg f dst (u16 (f_sport f)) (u16 (f_dport f))) + 1)) w2 l2 own Hpay Ha Hm
    Had Hmd eq_refl eq_refl Ho (lookup_insert_eq (capped KSyn (flows (agent w))) _ _)
    ltac:(lia)) as (r2 & r3 & c2 & Hd).
  exists r1, r2, r3. etransitivity; [exact Hh |]. unfold after_handshake. cbn [negb].
  rewrite (call_bind _ _ _ _ Hpay).
  replace (length (queue w) + 2 + (1 + n))%nat with (3 + (length (queue w) + n))%nat by lia.
  etransitivity; [exact Hd |]. cbn [w2 clock agent]. rewrite flows_closed by (apply u16_range || done). unfold l2, dialog_end.
  rewrite <- !app_assoc.
  by replace (clock w + sg_lat sg * (zlen (queue w) + 2) + sg_lat sg * 5)
    with (clock w + sg_lat sg * (zlen (queue w) + 7)) by lia.
Qed.
