(* ===== verification/Runs.v ===== *)
(** More runs of the client against the agent: a probe inside a VXLAN tunnel, and
    two runs that do not end as the user expects. *)
From S2P Require Import Prelude GoStd GoText TfMeta TfMetaProps Pkt PktProps Responder.
From S2P Require Import ResponderSpec Wire Demo ResponderProps Sniffer SnifferProps.
From S2P Require Import Client System EndToEnd TcpDialog.

Local Open Scope Z_scope.

(** ** VXLAN *)

Section tunnel_frame.
Context (dm sm : bytes) (vl : Z) (v6 : bool) (sport : Z) (osrc odst : bytes) (vni : Z).
Context (idm ism : bytes) (ivl : Z) (iv6 : bool) (pr : Z) (src dst seg : bytes).
Context (Hvl : 0 <= vl < 4096) (Hivl : 0 <= ivl < 4096) (Hvni : 0 <= vni < 16777216).

(** A marked packet in an Ethernet frame in a VXLAN tunnel. *)
Definition tunnel_frame : bytes :=
  frame_bytes dm sm vl (et_of v6)
    (underlay_bytes v6 sport osrc odst
       (vxlan_bytes vni (frame_bytes idm ism ivl (et_of iv6) (ip_bytes iv6 pr src dst seg)))).

Lemma sniff_tunnel p m :
  payload_of pr seg = Some p -> Unmarshal p = Ret (inr m) ->
  sniff_of tunnel_frame
  = Some (set_meta m p (l4_capture (set_ip (Net.String (addr iv6 src)) pr (set_vni vni capture0))
                          pr seg)).
Proof.
  intros Hp Hm. apply Unmarshal_inr in Hm as (Hl & Hmg & ->).
  unfold sniff_of, tunnel_frame. rewrite looks_vxlan_bytes, vxlan_of_bytes, l2_of_frame by done.
  cbn [etherType l3]. unfold packet_capture. rewrite marked_of_bytes, Hp, Hmg, Z.eqb_refl.
  by replace (MetaSize <=? length p)%nat with true by lia.
Qed.
End tunnel_frame.

Lemma tunnel_reply dm sm vl v6 sport osrc odst vni idm ism ivl iv6 pr src dst seg r s o s' :
  0 <= vl < 4096 -> 0 <= ivl < 4096 -> 0 <= vni < 16777216 ->
  ifType r ≠ IfaceRegular -> local r (addr iv6 dst) = true ->
  l4_reply r (addr iv6 src) (addr iv6 dst) pr seg iv6 s = (Some (ip_bytes iv6 pr (addr iv6 dst)
    (addr iv6 src) o), s') ->
  frame_reply r (tunnel_frame dm sm vl v6 sport osrc odst vni idm ism ivl iv6 pr src dst seg) 0 s
  = (Some (tunnel_frame (field 6 sm) (field 6 dm) vl v6 VXLANPort (addr v6 odst) (addr v6 osrc) vni
             (field 6 ism) (field 6 idm) ivl iv6 pr (addr iv6 dst) (addr iv6 src) o), s').
Proof.
  intros Hvl Hivl Hvni Hr Hloc Hl4. unfold frame_reply, uses_vxlan, tunnel_frame at 1.
  rewrite looks_vxlan_bytes, (proj2 (Z.eqb_neq _ _) Hr), orb_true_r by done.
  unfold vxlan_reply, tunnel_frame at 1. rewrite vxlan_of_bytes, l2_of_frame by done.
  cbn [etherType l3 l2_src l2_dst vlan]. unfold ip_reply. rewrite marked_of_bytes, Hloc, Hl4.
  cbn [fmap option_fmap option_map]. replace (et_of v6 =? EtherTypeIPv6) with v6 by by destruct v6.
  replace (orVlan vl 0) with vl; [done |]. unfold orVlan. by destruct (Z.eqb_spec vl 0) as [->|].
Qed.

Definition dummy_mac : bytes := [2; 0; 0; 0; 0; 1].

Lemma vxlanL3_ret osrc odst isrc idst sport vni pay :
  vxlanL3 osrc odst isrc idst sport vni pay
  = Ret (underlay_bytes (isV6 odst) sport osrc odst
           (vxlan_bytes vni (frame_bytes dummy_mac dummy_mac 0 (et_of (isV6 idst))
              (ip_bytes (isV6 idst) (icmp_proto (isV6 idst)) isrc idst
                 (icmp_req (isV6 idst) isrc idst pay)))), isV6 odst).
Proof.
  unfold vxlanL3. rewrite icmpL3_ret. cbn [mbind go_bind]. rewrite Ethernet_layout.
  cbn [mbind go_bind]. rewrite VXLAN_layout. cbn [mbind go_bind]. rewrite underlay_spec.
  cbn [mbind go_bind]. unfold frame_bytes, et_of. cbn [Z.eqb]. by destruct (isV6 idst).
Qed.

(** The run asks for an answer of a VM behind the tunnel. *)
Record tunnel_ready (sg : segment) (f : flags) (odst isrc idst : bytes) : Prop := {
  tr_sendable : sendable sg f odst;
  tr_response : f_response f = true;
  tr_deliver : f_deliver f = false;
  tr_isrc : ParseIP (f_innerSrc f) = isrc;
  tr_isrc_ok : isrc ≠ [];
  tr_idst : ParseIP (f_innerDst f) = idst;
  tr_idst_ok : idst ≠ [];
  tr_vni : 0 < f_vni f < 16777216;
  tr_local : local (sg_agent sg) (addr (isV6 idst) idst) = true;
  tr_type : ifType (sg_agent sg) ≠ IfaceRegular;
  tr_key : same_key (sg_agent sg) (codes (f_hmacKey f))
}.

Lemma tunnel_flags sg f odst isrc idst :
  tunnel_ready sg f odst isrc idst ->
  bool_decide (f_innerSrc f = ""%string) || bool_decide (f_innerDst f = ""%string)
    || (f_vni f =? 0) = false.
Proof.
  intros H. rewrite !bool_decide_false; cbn [orb].
  - pose proof (tr_vni _ _ _ _ _ H). lia.
  - intros E. apply (tr_idst_ok _ _ _ _ _ H). rewrite <- (tr_idst _ _ _ _ _ H), E. reflexivity.
  - intros E. apply (tr_isrc_ok _ _ _ _ _ H). rewrite <- (tr_isrc _ _ _ _ _ H), E. reflexivity.
Qed.

(** Sending a frame that the agent answers with [rep], and waiting for it. *)
Lemma exchange sg f dst l3 own rep s' cap mtch what n w l :
  sendable sg f dst -> out_frame sg f (isV6 dst) l3 = Some own ->
  frame_reply (sg_agent sg) own 0 (agent w) = (Some rep, s') ->
  hit (sg_uuid sg) mtch own = false -> hit (sg_uuid sg) mtch rep = true ->
  sniff_of rep = Some cap -> patient sg f w mtch 1 ->
  (_ ← emit (H := segment_host sg) f dst l3 (isV6 dst);
   _ ← say (SentProbe (sg_uuid sg));
   waitReply (H := segment_host sg) (length (queue w) + 2 + n) f (sg_uuid sg) mtch what) (w, l)
  = Done (tt, (mkWorld (clock w + sg_lat sg * (zlen (queue w) + 2)) (sent rep s') [],
               l ++ [SentProbe (sg_uuid sg); GotReply what (c_srcIP cap)])).
Proof.
  intros Hsd Ho Hf Hown Hrep Hs [Hq Ht].
  assert (zlen (queue w ++ [own]) = zlen (queue w) + 1) as Hlen
    by (rewrite length_app; cbn [length]; lia).
  pose proof (emit_out sg f dst l3 (isV6 dst) w l) as He. rewrite Ho, inject_spec, Hf in He.
  rewrite (cli_bind_done _ _ _ _ _ He), say_bind. unfold waitReply. set (w1 := mkWorld _ _ _).
  replace (length (queue w) + 2 + n)%nat with (S (length (queue w ++ [own])) + n)%nat
    by (rewrite length_app; cbn; lia).
  rewrite (cli_bind_done _ _ _ _ _ (recvMatch_hit sg n f (sg_uuid sg) mtch (queue w ++ [own]) rep []
    cap w1 (l ++ [SentProbe (sg_uuid sg)]) ltac:(apply Forall_app; split; [done |];
      by apply Forall_singleton) Hrep Hs ltac:(cbn; by rewrite <- app_assoc)
    (sd_lat _ _ _ Hsd) ltac:(by rewrite Hlen))).
  rewrite ask_bind. unfold say. rewrite Hlen, <- app_assoc. cbn [w1 clock agent app].
  by replace (zlen (queue w) + 1 + 1) with (zlen (queue w) + 2) by lia.
Qed.

(** The request does not match, the answer does. *)
Lemma tunnel_no_hit id fr vni v6 name src dst pay m :
  sniff_of fr = Some (set_meta m pay (l4_capture (set_ip name (icmp_proto v6) (set_vni vni capture0))
                                        (icmp_proto v6) (icmp_req v6 src dst pay))) ->
  hit id (vxlanReply vni) fr = false.
Proof.
  intros Hs. unfold hit, vxlanReply, isEchoReply. rewrite Hs. destruct v6; cbn;
    by rewrite !andb_false_r.
Qed.

Lemma tunnel_hit fr vni v6 name src dst i q pay m :
  sniff_of fr = Some (set_meta m pay (l4_capture (set_ip name (icmp_proto v6) (set_vni vni capture0))
                                        (icmp_proto v6) (icmpv_bytes v6 src dst i q pay))) ->
  hit (ID m) (vxlanReply vni) fr = true.
Proof.
  intros Hs. unfold hit, vxlanReply, isEchoReply. rewrite Hs. destruct v6; cbn;
    by rewrite bool_decide_true, Z.eqb_refl.
Qed.

(** C31: A probe inside a VXLAN tunnel is answered through the tunnel, and the
    client recognises the answer by its VNI: the run reports an echo reply from
    the inner address.  Outer and inner packets may each be IPv4 or IPv6, and the
    agent's interface may be of type VXLAN or AUTO. *)
Theorem vxlan_probe_is_answered sg f odst isrc idst w l n :
  tunnel_ready sg f odst isrc idst -> patient sg f w (vxlanReply (u32 (f_vni f))) 1 ->
  exists reply,
    runVXLAN (H := segment_host sg) (length (queue w) + 2 + n) f (w, l)
    = Done (tt, (mkWorld (clock w + sg_lat sg * (zlen (queue w) + 2)) (sent reply (agent w)) [],
                 l ++ [SentProbe (sg_uuid sg);
                       GotReply "VXLAN ICMP echo reply" (Net.String (addr (isV6 idst) idst))])).
Proof.
  intros Htr Hp. pose proof (tr_sendable _ _ _ _ _ Htr) as Hsd. unfold runVXLAN.
  rewrite (tunnel_flags _ _ _ _ _ Htr).
  rewrite (cli_bind_done _ _ _ _ _ (mustIP_ret _ _ _ (sd_dst _ _ _ Hsd) (sd_dst_ok _ _ _ Hsd))).
  rewrite (cli_bind_done _ _ _ _ _ (srcIP_ret sg f odst (w, l))).
  rewrite (cli_bind_done _ _ _ _ _
    (mustIP_ret _ _ _ (tr_isrc _ _ _ _ _ Htr) (tr_isrc_ok _ _ _ _ _ Htr))).
  rewrite (cli_bind_done _ _ _ _ _
    (mustIP_ret _ _ _ (tr_idst _ _ _ _ _ Htr) (tr_idst_ok _ _ _ _ _ Htr))).
  rewrite (cli_bind_done _ _ _ _ _ (newMeta_any sg f w l)).
  rewrite (tr_response _ _ _ _ _ Htr), (tr_deliver _ _ _ _ _ Htr). fold (run_meta sg w).
  rewrite (cli_bind_done _ _ _ _ _ (startSniffer_ret sg (w, l))).
  rewrite (call_bind _ _ _ _ (payload_any sg f odst Hsd (run_meta sg w) eq_refl)).
  rewrite (call_bind _ _ _ _ (vxlanL3_ret _ _ _ _ _ _ _)).
  pose proof (Unmarshal_signed (run_meta sg w) (codes (f_hmacKey f)) []
    (run_meta_ok sg f odst Hsd w)) as Hm.
  pose proof (accepts_signed (sg_agent sg) (run_meta sg w) (codes (f_hmacKey f)) []
    (proj1 (sd_uuid _ _ _ Hsd)) eq_refl eq_refl (tr_key _ _ _ _ _ Htr)) as Ha.
  rewrite app_nil_r in Hm, Ha. set (pay := signed_bytes _ _) in *.
  pose proof (tr_vni _ _ _ _ _ Htr) as Hv. rewrite (u32_small (f_vni f)) in Hp |- * by lia.
  destruct (run_frames sg f odst Hsd) as (dm & sm & Hf). set (l3 := underlay_bytes _ _ _ _ _).
  pose proof (tunnel_reply dm sm (f_vlan f) (isV6 odst) (u16 (f_sport f)) (client_src sg f) odst
    (f_vni f) dummy_mac dummy_mac 0 (isV6 idst) (icmp_proto (isV6 idst)) isrc idst
    (icmp_req (isV6 idst) isrc idst pay) (sg_agent sg) (agent w) _ _ (sd_vlan _ _ _ Hsd)
    ltac:(lia) ltac:(lia) (tr_type _ _ _ _ _ Htr) (tr_local _ _ _ _ _ Htr)
    (icmp_req_reply _ _ _ _ _ _ _ _ Ha)) as Hr.
  pose proof (sniff_tunnel dm sm (f_vlan f) (isV6 odst) (u16 (f_sport f)) (client_src sg f) odst
    (f_vni f) dummy_mac dummy_mac 0 (isV6 idst) (icmp_proto (isV6 idst)) isrc idst
    (icmp_req (isV6 idst) isrc idst pay) (sd_vlan _ _ _ Hsd) ltac:(lia) ltac:(lia) pay (run_meta sg w) (payload_of_icmp_req _ _ _ _) Hm)
    as Hown.
  pose proof (sniff_tunnel (field 6 sm) (field 6 dm) (f_vlan f) (isV6 odst) VXLANPort
    (addr (isV6 odst) odst) (addr (isV6 odst) (client_src sg f)) (f_vni f) (field 6 dummy_mac)
    (field 6 dummy_mac) 0 (isV6 idst) (icmp_proto (isV6 idst)) (addr (isV6 idst) idst)
    (addr (isV6 idst) isrc)
    (icmpv_bytes (isV6 idst) (addr (isV6 idst) idst) (addr (isV6 idst) isrc) 0x1234 1
       (sanitized (hmacKey (sg_agent sg)) pay)) (sd_vlan _ _ _ Hsd) ltac:(lia) ltac:(lia) _ _
    (payload_of_icmp _ _ _ _ _ _) (Unmarshal_echo (sg_agent sg) _ _ Hm)) as Hrep.
  eexists. rewrite (exchange sg f odst l3 _ _ _ _ _ _ n w l Hsd (Hf l3) Hr
    (tunnel_no_hit _ _ _ _ _ _ _ _ _ Hown) (tunnel_hit _ _ _ _ _ _ _ _ _ _ Hrep) Hrep Hp).
  do 5 f_equal. rewrite addr_idem. by destruct (isV6 idst).
Qed.

(** ** A UDP run that takes its own probe for the answer *)

(** With equal source and destination ports, the client takes its own UDP
    datagram, which its sniffer captures too, for the answer: whatever the agent
    is (it need not answer at all), the run reports a UDP reply from the client's
    own address. *)
Theorem udp_same_port_matches_itself sg f dst w l n :
  sendable sg f dst -> f_response f = true ->
  u16 (f_dport (dport_or 7 f)) = u16 (f_sport f) -> u16 (f_sport f) ≠ VXLANPort ->
  patient sg f w (udpReply (u16 (f_sport f))) 0 ->
  exists w',
    runUDP (H := segment_host sg) (S (length (queue w)) + n) f (w, l)
    = Done (tt, (w', l ++ [SentProbe (sg_uuid sg);
                           GotReply "UDP reply"
                             (Net.String (addr (isV6 dst) (client_src sg f)))])).
Proof.
  intros Hsd Hre Heq Hport [Hq Ht]. unfold runUDP. fold (dport_or 7 f).
  apply (sendable_dport _ _ _ 7) in Hsd.
  assert (f_sport (dport_or 7 f) = f_sport f /\ f_timeout (dport_or 7 f) = f_timeout f
          /\ f_response (dport_or 7 f) = f_response f
          /\ client_src sg (dport_or 7 f) = client_src sg f) as (Es & Et & Er & Ec)
    by (unfold dport_or; by destruct (_ =? 0)).
  rewrite <- Es in Hq, Heq, Hport. rewrite <- Et in Ht. rewrite <- Er in Hre. rewrite <- Ec.
  clear Es Et Er Ec. revert Hsd Hre Heq Hport Hq Ht. generalize (dport_or 7 f). clear f.
  intros f Hsd Hre Heq Hport Hq Ht.
  rewrite (cli_bind_done _ _ _ _ _ (mustIP_ret _ _ _ (sd_dst _ _ _ Hsd) (sd_dst_ok _ _ _ Hsd))).
  rewrite (cli_bind_done _ _ _ _ _ (srcIP_ret sg f dst (w, l))).
  rewrite (cli_bind_done _ _ _ _ _ (newMeta_any sg f w l)).
  rewrite (cli_bind_done _ _ _ _ _ (startSniffer_ret sg (w, l))). set (m := mkMeta _ _ _ _).
  rewrite (call_bind _ _ _ _ (payload_any sg f dst Hsd m eq_refl)).
  rewrite (call_bind _ _ _ _ (udpL3_ret _ _ _ _ _)), Hre, Heq.
  pose proof (Unmarshal_signed m (codes (f_hmacKey f)) [] (meta_any_ok sg f dst Hsd _ _ _)) as Hm. rewrite app_nil_r in Hm.
  set (seg := udp_bytes _ _ _ _).
  destruct (run_frames sg f dst Hsd) as (dm & sm & Hf).
  pose proof (sniff_marked dm sm (f_vlan f) (isV6 dst) ProtoUDP (client_src sg f) dst seg
    (sd_vlan _ _ _ Hsd) ltac:(apply udp_not_tunnel; by rewrite u16_idem) _ m
    (payload_of_udp _ _ _ _) Hm) as Hs. unfold marked_frame in Hs.
  set (l3 := ip_bytes _ _ _ _ _) in *.
  set (own := frame_bytes _ _ _ _ _) in Hs.
  assert (hit (sg_uuid sg) (udpReply (u16 (f_sport f))) own = true) as Hh.
  { unfold hit. rewrite Hs. apply andb_true_iff. split; [by apply bool_decide_true |].
    apply andb_true_iff. split; [done |]. apply Z.eqb_eq.
    change (be_field seg 2 2 = u16 (f_sport f)). unfold seg.
    by rewrite (proj2 (udp_ports _ _ _ _)), u16_idem. }
  pose proof (emit_out sg f dst l3 (isV6 dst) w l) as He. rewrite Hf, inject_spec in He.
  destruct (frame_reply _ _ _ _) as [o s']. rewrite (cli_bind_done _ _ _ _ _ He), say_bind.
  unfold waitReply. set (w1 := mkWorld _ _ _).
  rewrite (cli_bind_done _ _ _ _ _ (recvMatch_hit sg n f (sg_uuid sg) (udpReply (u16 (f_sport f)))
    (queue w) own _ _ w1 _ Hq
    Hh Hs eq_refl
    (sd_lat _ _ _ Hsd) ltac:(lia))).
  rewrite ask_bind. unfold say. rewrite <- app_assoc. by eexists.
Qed.

(** ** A TCP run without --response *)

(** A TCP segment whose control block does not ask for an answer is not answered
    by any agent. *)
Lemma frame_reply_silent r dm sm vl v6 src dst ck sp dp seq ack fl p s :
  0 <= vl < 4096 -> has_bit fl FlagRST = false -> probe_wants p = false ->
  frame_reply r (marked_frame dm sm vl v6 ProtoTCP src dst
                   (tcp_bytes ck sp dp seq ack fl p)) 0 s = (None, s).
Proof.
  intros Hvl Hf Hp. unfold frame_reply, uses_vxlan. rewrite looks_vxlan_marked by done.
  rewrite andb_false_r, orb_false_r. unfold marked_frame. destruct (ifType r =? IfaceVXLAN).
  - unfold vxlan_reply, vxlan_of. rewrite l2_of_frame by done. cbn [etherType l3].
    by rewrite udp_of_marked.
  - unfold regular_reply. rewrite l2_of_frame by done. cbn [etherType l3]. unfold ip_reply.
    rewrite marked_of_bytes. destruct (local r _); [|done].
    by rewrite (tcp_inert ck sp dp seq ack fl p Hf Hp).
Qed.

Lemma silent_signed m key rest :
  length (ID m) = 16%nat -> NeedResponse m = false ->
  probe_wants (signed_bytes m key ++ rest) = false.
Proof.
  intros Hid Hn. unfold probe_wants, signed_bytes. rewrite <- app_assoc.
  destruct (nth_core_flags m ((if (length key =? 0)%nat then [] else Sign (core_bytes m) key)
    ++ rest) Hid) as (_ & -> & _). rewrite Hn. by rewrite !andb_false_r.
Qed.

Lemma next_empty sg deadline w l :
  queue w = [] -> clock w < deadline ->
  next (H := segment_host sg) deadline (w, l)
  = Done ((capture0, false),
          (mkWorld (clock w + (timeval (deadline - clock w) + 1) * 1000) (agent w) [], l)).
Proof.
  intros Hq Ht. unfold next. rewrite ask_bind. cbn [host_now segment_host fst snd].
  replace (deadline - clock w <=? 0) with false by lia.
  rewrite ask_bind. cbn [host_recv segment_host]. unfold pop. by rewrite Hq.
Qed.

(** Waiting behind one frame that does not match, and nothing else: the deadline
    passes. *)
Lemma recvMatch_timeout sg f id mtch own w l n :
  queue w = [own] -> hit id mtch own = false -> 0 <= sg_lat sg -> 0 < f_timeout f ->
  exists w', recvMatch (H := segment_host sg) (3 + n) f id mtch (w, l)
             = Done ((capture0, false), (w', l)) /\ agent w' = agent w.
Proof.
  intros Hq Hh Hlat Ht. unfold recvMatch. rewrite ask_bind. cbn [host_now segment_host fst snd].
  set (dl := clock w + f_timeout f). cbn [Nat.add recv_loop].
  rewrite ask_bind. cbn [host_now segment_host fst snd].
  replace (clock w <? dl) with true by lia.
  destruct (next_queue sg dl w own [] l Hq ltac:(lia)) as (c & ok & (? & ? & [= <- <-] & Hc) & Hn).
  rewrite (cli_bind_done _ _ _ _ _ Hn).
  assert (forall A (x y : A), (if negb ok then x else if negb (bool_decide (ID (c_meta c) = id))
    then x else if mtch c then y else x) = x) as Hskip.
  { intros A x y. unfold hit in Hh. destruct (sniff_of own) as [co|]; [|by rewrite Hc].
    destruct Hc as [-> ->]. destruct (bool_decide _); [|done]. cbn in Hh |- *. by rewrite Hh. }
  rewrite Hskip. clear Hskip Hn Hc. set (w1 := mkWorld _ _ []).
  rewrite ask_bind. cbn [host_now segment_host fst snd].
  destruct (Z.ltb_spec (clock w1) dl) as [H1|H1]; [|by exists w1].
  rewrite (cli_bind_done _ _ _ _ _ (next_empty sg dl w1 l eq_refl H1)). cbn [negb].
  rewrite ask_bind. cbn [host_now segment_host fst snd]. set (w2 := mkWorld _ _ []).
  destruct (Z.ltb_spec (clock w2) dl) as [H2|H2]; [|by exists w2].
  exfalso. unfold w2, timeval in H2. cbn [clock] in H2.
  assert (dl - clock w1 < ((dl - clock w1) / 1000 + 1) * 1000) by mlia.
  cbn [clock w1] in *. lia.
Qed.

(** Without --response the TCP commands never get past the SYN: the control
    block does not ask for an answer, so no agent answers, and htcp and tcp end
    with no SYN/ACK, whatever the agent. *)
Theorem tcp_without_response_no_synack sg f dst w l n withData :
  sendable sg f dst -> f_response f = false -> queue w = [] -> 0 < f_timeout f ->
  exists w',
    runTCP (H := segment_host sg) (3 + n) f withData (w, l)
    = Done (tt, (w', l ++ [SentSYN (sg_uuid sg); NoSynAck])) /\ agent w' = agent w.
Proof.
  intros Hsd Hre Hq Ht. unfold runTCP. fold (dport_or 80 f).
  apply (sendable_dport _ _ _ 80) in Hsd.
  assert (f_timeout (dport_or 80 f) = f_timeout f /\ f_response (dport_or 80 f) = f_response f)
    as [Et Er] by (unfold dport_or; by destruct (_ =? 0)).
  rewrite <- Et in Ht. rewrite <- Er in Hre. clear Et Er.
  revert Hsd Hre Ht. generalize (dport_or 80 f). clear f. intros f Hsd Hre Ht.
  rewrite (cli_bind_done _ _ _ _ _ (mustIP_ret _ _ _ (sd_dst _ _ _ Hsd) (sd_dst_ok _ _ _ Hsd))).
  rewrite (cli_bind_done _ _ _ _ _ (srcIP_ret sg f dst (w, l))).
  rewrite (cli_bind_done _ _ _ _ _ (startSniffer_ret sg (w, l))).
  rewrite (cli_bind_done _ _ _ _ _ (newMeta_any sg f w l)). set (m := mkMeta _ _ _ _).
  rewrite (call_bind _ _ _ _ (payload_any sg f dst Hsd m eq_refl)).
  pose proof (silent_signed m (codes (f_hmacKey f)) [] (proj1 (sd_uuid _ _ _ Hsd)) Hre) as Hp.
  pose proof (Unmarshal_signed m (codes (f_hmacKey f)) [] (meta_any_ok sg f dst Hsd _ _ _)) as Hm.
  rewrite app_nil_r in Hp, Hm. set (pay := signed_bytes _ _) in *.
  destruct (run_frames sg f dst Hsd) as (dm & sm & Hf).
  set (seg := tcp_bytes (ckv (isV6 dst) ProtoTCP (client_src sg f) dst) (u16 (f_sport f))
                (u16 (f_dport f)) clientISN 0 FlagSYN pay).
  pose proof (emit_out sg f dst (ip_bytes (isV6 dst) ProtoTCP (client_src sg f) dst seg)
    (isV6 dst) w l) as He. rewrite Hf, inject_spec in He.
  pose proof (frame_reply_silent (sg_agent sg) dm sm (f_vlan f) (isV6 dst) (client_src sg f) dst
    (ckv (isV6 dst) ProtoTCP (client_src sg f) dst) (u16 (f_sport f)) (u16 (f_dport f)) clientISN 0
    FlagSYN pay (agent w) (sd_vlan _ _ _ Hsd) eq_refl Hp) as Hr.
  fold seg in Hr. unfold marked_frame in Hr. rewrite Hr, Hq in He. cbn [transmit_opt app] in He.
  set (own := frame_bytes _ _ _ _ _) in He. set (w1 := mkWorld _ _ _) in He.
  assert (hit (sg_uuid sg) (synAck (u16 (f_sport f))) own = false) as Hh.
  { unfold hit. pose proof (sniff_marked dm sm (f_vlan f) (isV6 dst) ProtoTCP (client_src sg f) dst
      seg (sd_vlan _ _ _ Hsd) (tcp_not_tunnel seg) pay m (payload_of_tcp _ _ _ _ _ _ _) Hm)
      as Hs.
    unfold marked_frame in Hs. fold own in Hs. rewrite Hs.
    apply andb_false_iff. right. apply andb_false_iff. right. unfold seg. by rewrite tcp_capture. }
  destruct (recvMatch_timeout sg f (sg_uuid sg) (synAck (u16 (f_sport f))) own w1
    (l ++ [SentSYN (sg_uuid sg)]) n eq_refl Hh (sd_lat _ _ _ Hsd) Ht) as (w' & Hrecv & Ha).
  exists w'. split; [|done].
  assert (tcp_send sg f dst (u16 (f_sport f)) (u16 (f_dport f)) clientISN 0 FlagSYN pay (w, l)
          = Done (tt, (w1, l))) as Hsend
    by (unfold tcp_send; by rewrite (call_bind _ _ _ _ (tcpL3_ret _ _ _ _ _ _ _ _ _))).
  unfold tcp_send in Hsend. rewrite (cli_bind_done _ _ _ _ _ Hsend), say_bind.
  rewrite (cli_bind_done _ _ _ _ _ Hrecv). cbn [negb]. unfold say. by rewrite <- app_assoc.
Qed.

(** ** Concrete runs *)

Definition demo_flags (dst : string) (dport : Z) (response : bool) : flags :=
  mkFlags "" dst "10.0.0.9" "10.0.0.2" 40000 dport 5001 0 "" "" "" false "s3cr3t" response false
    2000000000.

Definition demo_segment : segment :=
  mkSegment demo_agent demo_client demo_mac1 demo_mac2 (seqZ 1 16) 1000.

Definition demo_world : world := mkWorld 1700000000123456789 demo_start [].

Lemma demo_sendable dst ip dport response :
  ParseIP dst = ip -> ip ≠ [] -> isV6 ip = false ->
  sendable demo_segment (demo_flags dst dport response) ip.
Proof.
  intros Hd Hn H4. constructor; [done | done | cbn; lia | by rewrite H4 | | cbn; lia].
  split; [done | compute_decide].
Qed.

Lemma demo_ready dport : ready demo_segment (demo_flags "10.0.0.2" dport true) (Net.To16 demo_vm).
Proof.
  constructor; [by apply demo_sendable | done | done | vm_compute; reflexivity | done | by right].
Qed.

Lemma demo_patient dst dport mtch k : k <= 2 -> patient demo_segment (demo_flags dst dport true)
  demo_world mtch k.
Proof. intros Hk. split; [constructor | cbn; lia]. Qed.

Lemma icmp_probe_is_answered_witness :
  exists reply,
    runICMP (H := segment_host demo_segment) (length (queue demo_world) + 2 + 0)
      (demo_flags "10.0.0.2" 0 true) (demo_world, [])
    = Done (tt, (mkWorld (1700000000123456789 + 1000 * (0 + 2)) (sent reply demo_start) [],
                 [SentProbe (seqZ 1 16); GotReply "ICMP echo reply" "10.0.0.2"])).
Proof.
  apply (icmp_probe_is_answered demo_segment (demo_flags "10.0.0.2" 0 true) (Net.To16 demo_vm)
           demo_world [] 0); [apply demo_ready | apply demo_patient; lia].
Defined.

Lemma udp_probe_is_answered_witness :
  exists reply,
    runUDP (H := segment_host demo_segment) (length (queue demo_world) + 2 + 0)
      (demo_flags "10.0.0.2" 53 true) (demo_world, [])
    = Done (tt, (mkWorld (1700000000123456789 + 1000 * (0 + 2)) (sent reply demo_start) [],
                 [SentProbe (seqZ 1 16); GotReply "UDP reply" "10.0.0.2"])).
Proof.
  apply (udp_probe_is_answered demo_segment (demo_flags "10.0.0.2" 53 true) (Net.To16 demo_vm)
           demo_world [] 0); [apply demo_ready | apply demo_patient; lia | done | done | done].
Defined.

Lemma vxlan_probe_is_answered_witness :
  exists reply,
    runVXLAN (H := segment_host demo_segment) (length (queue demo_world) + 2 + 0)
      (demo_flags "172.16.0.2" 0 true) (demo_world, [])
    = Done (tt, (mkWorld (1700000000123456789 + 1000 * (0 + 2)) (sent reply demo_start) [],
                 [SentProbe (seqZ 1 16); GotReply "VXLAN ICMP echo reply" "10.0.0.2"])).
Proof.
  apply (vxlan_probe_is_answered demo_segment (demo_flags "172.16.0.2" 0 true)
           (Net.To16 [172; 16; 0; 2]) (Net.To16 demo_client) (Net.To16 demo_vm) demo_world [] 0);
    [|apply demo_patient; lia].
  constructor; [by apply demo_sendable | done | done | done | done | done | done | cbn; lia
    | vm_compute; reflexivity | done | by right].
Defined.

Lemma tcp_dialog_completes_witness :
  exists r1 r2 r3,
    runTCP (H := segment_host demo_segment) (length (queue demo_world) + 3 + 0)
      (demo_flags "10.0.0.2" 443 true) true (demo_world, [])
    = Done (tt, (mkWorld (1700000000123456789 + 1000 * (0 + 7))
                   (dialog_end demo_segment (demo_flags "10.0.0.2" 443 true) (Net.To16 demo_vm)
                      demo_start [r1; r2; r3]) [],
                 [SentSYN (seqZ 1 16);
                  GotSynAck (u32 (conn_isn demo_segment (demo_flags "10.0.0.2" 443 true)
                                    (Net.To16 demo_vm) (u16 40000) (u16 443)));
                  HandshakeComplete;
                  SentData (zlen (signed_bytes (run_meta demo_segment demo_world)
                                    (codes "s3cr3t") ++ ping));
                  GotDataReply (zlen (signed_bytes (run_meta demo_segment demo_world)
                                        (codes "s3cr3t") ++ ping));
                  SessionClosed])).
Proof.
  apply (tcp_dialog_completes demo_segment (demo_flags "10.0.0.2" 443 true) (Net.To16 demo_vm)
           demo_world [] 0); [apply demo_ready | done | done | apply demo_patient; lia].
Defined.

Lemma udp_same_port_matches_itself_witness :
  exists w',
    runUDP (H := segment_host demo_segment) (S (length (queue demo_world)) + 0)
      (demo_flags "10.7.7.7" 40000 true) (demo_world, [])
    = Done (tt, (w', [SentProbe (seqZ 1 16); GotReply "UDP reply" "10.0.0.9"])).
Proof.
  apply (udp_same_port_matches_itself demo_segment (demo_flags "10.7.7.7" 40000 true)
           (Net.To16 [10; 7; 7; 7]) demo_world [] 0);
    [by apply demo_sendable | done | done | done | apply demo_patient; lia].
Defined.

Lemma tcp_without_response_no_synack_witness :
  exists w',
    runTCP (H := segment_host demo_segment) (3 + 0) (demo_flags "10.0.0.2" 80 false) false
      (demo_world, [])
    = Done (tt, (w', [SentSYN (seqZ 1 16); NoSynAck])) /\ agent w' = demo_start.
Proof.
  apply (tcp_without_response_no_synack demo_segment (demo_flags "10.0.0.2" 80 false)
           (Net.To16 demo_vm) demo_world [] 0 false); [by apply demo_sendable | done | done |].
  cbn. lia.
Defined.
