(* ===== verification/Attach.v ===== *)
(** agent/attach.go: attaching the observation programs to an interface, with TCX
    where the kernel has it and the classic clsact qdisc otherwise, or with XDP.
    A detach closure is the list of hooks it releases, in order. *)
From stdpp Require Export gmap.
From S2P Require Import Prelude.

Local Open Scope Z_scope.

(** ** The kernel *)

(** Where a program can sit on an interface. *)
Inductive hook :=
| XdpNative | XdpGeneric           (* link.AttachXDP *)
| TcxIngress | TcxEgress           (* link.AttachTCX *)
| ClsIngress | ClsEgress.          (* cls_bpf filter under clsact *)

#[export] Instance hook_eq_dec : EqDecision hook.
Proof. solve_decision. Defined.

Abbreviation slot := (Z * hook)%type.

(** ErrNotSupported, ENOSYS and EINVAL, or any other error. *)
Inductive kerr := Unsupported | OtherError.

Record kernel := mkKernel {
  hooks : list slot;        (* attached programs *)
  qdiscs : list Z           (* interfaces with a clsact qdisc *)
}.

Definition set_hooks (h : list slot) (k : kernel) : kernel := mkKernel h (qdiscs k).

(** Closing a link or deleting a filter releases one program. *)
Fixpoint release (p : slot) (l : list slot) : list slot :=
  match l with
  | [] => []
  | q :: r => if decide (q = p) then r else q :: release p r
  end.

(** Running a detach closure. *)
Definition run_detach (d : list slot) (k : kernel) : kernel :=
  set_hooks (foldl (fun h p => release p h) (hooks k) d) k.

Section attach.
(** The errors of the kernel for each hook of an interface, those of the qdisc,
    and the environment variable TRACEFLOW_FORCE_CLSACT. *)
Context (fails : Z -> hook -> option kerr).
Context (qdiscFails : Z -> option kerr).
Context (forceClsact : bool).

(** link.AttachTCX and link.AttachXDP. *)
Definition attachLink (i : Z) (h : hook) : st kernel (option kerr) :=
  match fails i h with
  | Some e => mret (Some e)
  | None =>
      _ ← modS (fun k => set_hooks (hooks k ++ [(i, h)]) k);
      mret None
  end.

Definition closeLink (i : Z) (h : hook) : st kernel unit :=
  modS (fun k => set_hooks (release (i, h) (hooks k)) k).

Definition tcxUnsupported (e : kerr) : bool :=
  match e with Unsupported => true | OtherError => false end.

Definition ensureClsact (i : Z) : st kernel (option kerr) :=
  match qdiscFails i with
  | Some e => mret (Some e)
  | None =>
      _ ← modS (fun k => if bool_decide (i ∈ qdiscs k) then k
                         else mkKernel (hooks k) (qdiscs k ++ [i]));
      mret None
  end.

(** netlink.FilterReplace: the filter of this parent, handle and priority. *)
Definition addBPFFilter (i : Z) (h : hook) : st kernel (option kerr) :=
  match fails i h with
  | Some e => mret (Some e)
  | None =>
      _ ← modS (fun k => if bool_decide ((i, h) ∈ hooks k) then k
                         else set_hooks (hooks k ++ [(i, h)]) k);
      mret None
  end.

Definition delBPFFilter (i : Z) (h : hook) : st kernel unit :=
  modS (fun k => set_hooks (release (i, h) (hooks k)) k).

Definition attachTCX (i : Z) : st kernel (kerr + list slot) :=
  e ← attachLink i TcxIngress;
  match e with
  | Some e => mret (inl e)
  | None =>
      e ← attachLink i TcxEgress;
      match e with
      | Some e => _ ← closeLink i TcxIngress; mret (inl e)
      | None => mret (inr [(i, TcxEgress); (i, TcxIngress)])
      end
  end.

Definition attachClsact (i : Z) : st kernel (kerr + list slot) :=
  e ← ensureClsact i;
  match e with
  | Some e => mret (inl e)
  | None =>
      e ← addBPFFilter i ClsIngress;
      match e with
      | Some e => mret (inl e)
      | None =>
          e ← addBPFFilter i ClsEgress;
          match e with
          | Some e => _ ← delBPFFilter i ClsIngress; mret (inl e)
          | None => mret (inr [(i, ClsEgress); (i, ClsIngress)])
          end
      end
  end.

Definition attachClsactEgress (i : Z) : st kernel (kerr + list slot) :=
  e ← ensureClsact i;
  match e with
  | Some e => mret (inl e)
  | None =>
      e ← addBPFFilter i ClsEgress;
      match e with
      | Some e => mret (inl e)
      | None => mret (inr [(i, ClsEgress)])
      end
  end.

Definition attachProg (i : Z) : st kernel (kerr + list slot) :=
  if forceClsact then attachClsact i
  else
    r ← attachTCX i;
    match r with
    | inr d => mret (inr d)
    | inl e => if negb (tcxUnsupported e) then mret (inl e) else attachClsact i
    end.

Definition attachEgressProg (i : Z) : st kernel (kerr + list slot) :=
  if forceClsact then attachClsactEgress i
  else
    e ← attachLink i TcxEgress;
    match e with
    | None => mret (inr [(i, TcxEgress)])
    | Some e => if negb (tcxUnsupported e) then mret (inl e) else attachClsactEgress i
    end.

Definition attachXDP (i : Z) (tcEgress : bool) : st kernel (kerr + list slot) :=
  e ← attachLink i XdpNative;
  l ← (match e with
       | None => mret (inr XdpNative)
       | Some _ =>
           e ← attachLink i XdpGeneric;
           mret (match e with Some e => inl e | None => inr XdpGeneric end)
       end);
  match l with
  | inl e => mret (inl e)
  | inr l =>
      if negb tcEgress then mret (inr [(i, l)])
      else
        r ← attachEgressProg i;
        match r with
        | inl e => _ ← closeLink i l; mret (inl e)
        | inr detachEg => mret (inr (detachEg ++ [(i, l)]))
        end
  end.

Definition attachIface (i : Z) (xdp tcEgress : bool) : st kernel (kerr + list slot) :=
  if xdp then attachXDP i tcEgress else attachProg i.

(** ** All or nothing *)

(** No program of the agent sits on the interface. *)
Definition free (i : Z) (k : kernel) : Prop := forall h, (i, h) ∉ hooks k.

Definition ingress (h : hook) : bool :=
  match h with XdpNative | XdpGeneric | TcxIngress | ClsIngress => true | _ => false end.

(** What an attachment leaves: nothing after an error; otherwise the programs of
    the closure, in the reverse order. *)
Definition attaches (i : Z) (k : kernel) (want : list slot -> Prop)
  (m : st kernel (kerr + list slot)) : Prop :=
  exists r k', m k = Ret (r, k')
    /\ match r with
       | inl _ => hooks k' = hooks k
       | inr d => hooks k' = hooks k ++ rev d /\ Forall (fun p => fst p = i) d /\ want d
       end.

Lemma release_last p l : p ∉ l -> release p (l ++ [p]) = l.
Proof.
  induction l as [|q l IH]; cbn [release app]; intros Hp.
  - by rewrite decide_True.
  - rewrite decide_False by set_solver. by rewrite IH by set_solver.
Qed.

Lemma attachTCX_spec i k :
  free i k -> attaches i k (fun d => d = [(i, TcxEgress); (i, TcxIngress)]) (attachTCX i).
Proof.
  intros Hf. unfold attaches, attachTCX, attachLink.
  destruct (fails i TcxIngress); [by eexists _, _ |].
  destruct (fails i TcxEgress); (eexists _, _; split; [reflexivity |]); cbn.
  - apply release_last, Hf.
  - split_and!; [by rewrite <- app_assoc | by repeat constructor | done].
Qed.

Lemma filter_new i h k :
  (i, h) ∉ hooks k ->
  (if bool_decide ((i, h) ∈ hooks k) then k else set_hooks (hooks k ++ [(i, h)]) k)
  = set_hooks (hooks k ++ [(i, h)]) k.
Proof. intros Hn. by rewrite bool_decide_false. Qed.

Lemma ensureClsact_spec i k :
  exists e k', ensureClsact i k = Ret (e, k') /\ hooks k' = hooks k.
Proof.
  unfold ensureClsact. destruct (qdiscFails i); [by eexists _, _ |].
  eexists _, _. split; [reflexivity |]. by destruct (bool_decide _).
Qed.

Lemma attachClsact_spec i k :
  free i k -> attaches i k (fun d => d = [(i, ClsEgress); (i, ClsIngress)]) (attachClsact i).
Proof.
  intros Hf. unfold attaches, attachClsact.
  destruct (ensureClsact_spec i k) as (e & k1 & He & Hk1). rewrite (st_bind_ret _ _ _ _ _ He).
  destruct e; [by eexists _, _ |]. unfold addBPFFilter.
  destruct (fails i ClsIngress); [by eexists _, _ |]. rewrite st_bind_ret with (a := None)
    (s' := set_hooks (hooks k1 ++ [(i, ClsIngress)]) k1)
    by (rewrite modS_bind, filter_new by (rewrite Hk1; apply Hf); done).
  destruct (fails i ClsEgress).
  - eexists _, _. split; [reflexivity |]. cbn. rewrite Hk1. apply release_last, Hf.
  - eexists _, _. split; [rewrite st_bind_ret with (a := None)
      (s' := set_hooks ((hooks k1 ++ [(i, ClsIngress)]) ++ [(i, ClsEgress)]) k1); [reflexivity |] |].
    + rewrite modS_bind, filter_new; [done |]. cbn. rewrite Hk1.
      pose proof (Hf ClsEgress). set_solver.
    + cbn. rewrite Hk1, <- app_assoc. split_and!; [done | by repeat constructor | done].
Qed.

Lemma attachClsactEgress_spec i k :
  (i, ClsEgress) ∉ hooks k ->
  attaches i k (fun d => d = [(i, ClsEgress)]) (attachClsactEgress i).
Proof.
  intros Hf. unfold attaches, attachClsactEgress.
  destruct (ensureClsact_spec i k) as (e & k1 & He & Hk1). rewrite (st_bind_ret _ _ _ _ _ He).
  destruct e; [by eexists _, _ |]. unfold addBPFFilter.
  destruct (fails i ClsEgress); [by eexists _, _ |]. eexists _, _.
  split; [rewrite st_bind_ret with (a := None) (s' := set_hooks (hooks k1 ++ [(i, ClsEgress)]) k1)
    by (rewrite modS_bind, filter_new by (by rewrite Hk1); done); reflexivity |].
  cbn. rewrite Hk1. split_and!; [done | by repeat constructor | done].
Qed.

Lemma attaches_weaken i k (w1 w2 : list slot -> Prop) m :
  (forall d, w1 d -> w2 d) -> attaches i k w1 m -> attaches i k w2 m.
Proof.
  intros Hw (r & k' & Hm & Hr). exists r, k'. split; [done |]. destruct r as [e|d]; [done |].
  destruct Hr as (? & ? & ?). auto.
Qed.

(** The hooks for packets in and packets out. *)
Definition both_ways (i : Z) (d : list slot) : Prop :=
  d = [(i, TcxEgress); (i, TcxIngress)] \/ d = [(i, ClsEgress); (i, ClsIngress)].
Definition way_out (i : Z) (d : list slot) : Prop := d = [(i, TcxEgress)] \/ d = [(i, ClsEgress)].

Lemma attachProg_spec i k : free i k -> attaches i k (both_ways i) (attachProg i).
Proof.
  intros Hf. unfold attachProg. destruct forceClsact.
  { eapply attaches_weaken, attachClsact_spec; [by right | done]. }
  destruct (attachTCX_spec i k Hf) as (r & k1 & Hm & Hr). unfold attaches.
  rewrite (st_bind_ret _ _ _ _ _ Hm). destruct r as [e|d].
  - destruct e; cbn [tcxUnsupported negb]; [|by eexists _, _].
    destruct (attachClsact_spec i k1) as (r2 & k2 & Hm2 & Hr2);
      [unfold free; by rewrite Hr |].
    exists r2, k2. split; [done |]. rewrite Hr in Hr2. destruct r2; [done |].
    destruct Hr2 as (? & ? & ->). split_and!; [done | done | by right].
  - destruct Hr as (? & ? & ->). eexists _, _. split; [reflexivity |].
    split_and!; [done | done | by left].
Qed.

Lemma attachEgressProg_spec i k :
  (i, ClsEgress) ∉ hooks k -> attaches i k (way_out i) (attachEgressProg i).
Proof.
  intros Hf. unfold attachEgressProg. destruct forceClsact.
  { eapply attaches_weaken, attachClsactEgress_spec; [by right | done]. }
  unfold attachLink. destruct (fails i TcxEgress) as [e|].
  - destruct e; cbn [tcxUnsupported]; [|by eexists _, _].
    eapply attaches_weaken; [|apply (attachClsactEgress_spec i k Hf)]. by right.
  - eexists _, _. split; [reflexivity |]. cbn. split_and!; [done | by repeat constructor | by left].
Qed.

(** An XDP hook for packets in, and the egress hook if asked for. *)
Definition xdp_way (i : Z) (tcEgress : bool) (d : list slot) : Prop :=
  exists l eg, (l = XdpNative \/ l = XdpGeneric) /\ d = eg ++ [(i, l)]
    /\ (if tcEgress then way_out i eg else eg = []).

Lemma attachXDP_spec i tcEgress k :
  free i k -> attaches i k (xdp_way i tcEgress) (attachXDP i tcEgress).
Proof.
  intros Hf. unfold attaches, attachXDP.
  (* the XDP program, native or generic *)
  assert (exists o k1,
    (e ← attachLink i XdpNative;
     match e with
     | None => mret (inr XdpNative)
     | Some _ => e ← attachLink i XdpGeneric;
                 mret (match e with Some e => inl e | None => inr XdpGeneric end)
     end) k = Ret (o : kerr + hook, k1)
    /\ match o with
       | inl _ => hooks k1 = hooks k
       | inr l => (l = XdpNative \/ l = XdpGeneric) /\ hooks k1 = hooks k ++ [(i, l)]
       end) as (o & k1 & Ho & Hk1).
  { unfold attachLink. destruct (fails i XdpNative).
    - destruct (fails i XdpGeneric); (eexists _, _; split; [reflexivity |]); [done |].
      by split; [right |].
    - eexists _, _. split; [reflexivity |]. by split; [left |]. }
  unfold mbind, st_bind in Ho |- *. destruct (attachLink i XdpNative k) as [[e k0]|]; [|done].
  rewrite Ho. destruct o as [e1|l]; [by eexists _, _ |]. destruct Hk1 as [Hl Hk1].
  destruct tcEgress; cbn [negb].
  - destruct (attachEgressProg_spec i k1) as (r & k2 & Hm & Hr).
    { rewrite Hk1. pose proof (Hf ClsEgress). destruct Hl; subst; set_solver. }
    rewrite Hm. destruct r as [e2|d].
    + eexists _, _. split; [reflexivity |]. cbn. rewrite Hr, Hk1. apply release_last, Hf.
    + destruct Hr as (Hh & Hall & Hd). eexists _, _. split; [reflexivity |]. split_and!.
      * rewrite Hh, Hk1, rev_app_distr, <- app_assoc. done.
      * apply Forall_app. split; [done | by repeat constructor].
      * by exists l, d.
  - eexists _, _. split; [reflexivity |]. split_and!; [done | by repeat constructor |].
    by exists l, [].
Qed.
End attach.

(** ** Releasing *)

Lemma release_perm p l : p ∈ l -> p :: release p l ≡ₚ l.
Proof.
  induction l as [|q l IH]; intros Hp; [set_solver |]. cbn [release].
  destruct (decide (q = p)) as [->|Hne]; [done |].
  rewrite Permutation_swap, IH by set_solver. done.
Qed.

(** Releasing the hooks of a closure gives back the rest, in whatever order they
    are in the kernel's list. *)
Lemma run_detach_perm d rest k :
  hooks k ≡ₚ d ++ rest -> hooks (run_detach d k) ≡ₚ rest.
Proof.
  unfold run_detach. cbn [hooks set_hooks]. generalize (hooks k). clear k.
  induction d as [|p d IH]; intros h Hp; [done |]. cbn [foldl]. apply IH.
  apply (Permutation_cons_inv (a := p)). rewrite release_perm; [done |].
  rewrite Hp. by left.
Qed.

(** The programs of a map of attachments, [f] giving those of one. *)
Section owned.
Context {K : Type} `{Countable K} {V : Type} (f : V -> list slot).

Definition owned_by (m : gmap K V) : list slot := mjoin (map (fun p => f (snd p)) (map_to_list m)).

Lemma mjoin_perm (l l' : list (K * V)) :
  l ≡ₚ l' -> mjoin (map (fun p => f (snd p)) l) ≡ₚ mjoin (map (fun p => f (snd p)) l').
Proof.
  induction 1; cbn; [done | by f_equiv | | by etrans].
  rewrite !app_assoc. f_equiv. apply Permutation_app_comm.
Qed.

Lemma owned_by_insert n t m : m !! n = None -> owned_by (<[n := t]> m) ≡ₚ f t ++ owned_by m.
Proof. intros Hn. unfold owned_by. by rewrite (mjoin_perm _ _ (map_to_list_insert m n t Hn)). Qed.

Lemma owned_by_delete n t m : m !! n = Some t -> owned_by m ≡ₚ f t ++ owned_by (delete n m).
Proof. intros Hn. unfold owned_by. by rewrite <- (mjoin_perm _ _ (map_to_list_delete m n t Hn)). Qed.

Lemma elem_of_owned_by x m : x ∈ owned_by m <-> exists n t, m !! n = Some t /\ x ∈ f t.
Proof.
  unfold owned_by. rewrite list_elem_of_join. split.
  - intros (l & Hx & Hl). apply list_elem_of_fmap in Hl as ([n t] & -> & Hin).
    apply elem_of_map_to_list in Hin. eauto.
  - intros (n & t & Hn & Hx). exists (f t). split; [done |]. apply list_elem_of_fmap.
    exists (n, t). split; [done |]. by apply elem_of_map_to_list.
Qed.
End owned.

(** The programs of an attachment that see packets coming in, and going out. *)
Definition ins (d : list slot) : nat := length (filter (fun p => is_true (ingress (snd p))) d).
Definition outs (d : list slot) : nat := length (filter (fun p => is_true (negb (ingress (snd p)))) d).

(** Which programs see packets: exactly one those coming in, and one those going
    out, except for XDP without its companion. *)
Definition complete (xdp tcEgress : bool) (d : list slot) : Prop :=
  ins d = 1%nat /\ outs d = (if xdp && negb tcEgress then 0 else 1)%nat.

Lemma attachIface_spec fails qdiscFails force i xdp tcEgress k :
  free i k ->
  attaches i k (complete xdp tcEgress) (attachIface fails qdiscFails force i xdp tcEgress).
Proof.
  intros Hf. unfold attachIface. destruct xdp.
  - eapply attaches_weaken, attachXDP_spec; [|done]. intros d (l & eg & Hl & -> & Heg).
    destruct tcEgress; [destruct Heg as [-> | ->] | subst eg]; by destruct Hl; subst.
  - eapply attaches_weaken, attachProg_spec; [|done]. by intros d [-> | ->].
Qed.


