(* ===== verification/Watch.v ===== *)
(** agent/watch.go and the registration of local addresses in agent/main.go: the
    manager that follows the VM taps of the host.  For each tap it attaches the
    observation programs, starts a responder, and registers the VM's addresses in
    the eBPF map local_ips, so that probes to them are intercepted. *)
From stdpp Require Export gmap strings.
From S2P Require Import Prelude GoStd GoText TfMeta Pkt Responder Attach.

Local Open Scope Z_scope.

(** ** Local addresses (agent/main.go) *)

(** A comma-separated list of addresses; [None] for the error on a bad entry. *)
Fixpoint parse_entries (l : list bytes) : option (list bytes) :=
  match l with
  | [] => Some []
  | s :: r =>
      let s := trim_space s in
      if (length s =? 0)%nat then parse_entries r
      else
        let ip := ParseIP (of_codes s) in
        if (length ip =? 0)%nat then None else cons ip <$> parse_entries r
  end.

Definition parseLocalIPs (csv : string) : option (list bytes) :=
  if bool_decide (csv = ""%string) then Some []
  else parse_entries (split_on 44 (codes csv)).

(** The key layout of the eBPF program: IPv4 in the first 4 bytes. *)
Definition ipKey16 (ip : bytes) : go bytes :=
  let k := make 16 in
  let v4 := Net.To4 ip in
  if negb (length v4 =? 0)%nat then copy_at k 0 4 v4
  else copy_at k 0 16 (Net.To16 ip).

(** ** State *)

(** ovs.Port. *)
Record Port := mkPort { Name : string; MAC : string; IPs : list bytes }.

Record tapAttachment := mkTap {
  detach : list slot;
  resp : option responder;
  ips : list bytes            (* registered in local_ips; removed on detach *)
}.

(** The fields of tapManager that do not change. *)
Record tapConfig := mkTapConfig {
  m_ifType : Z; m_respond : bool; m_tcpRespond : bool; m_hmacKey : bytes;
  m_xdp : bool; m_xdpTCEgress : bool
}.

Record tapState := mkTaps {
  kern : kernel;
  localIps : gmap bytes Z;    (* the eBPF map *)
  attached : gmap string tapAttachment;
  tapsWatched : Z             (* the gauge *)
}.

(** What the host answers during one operation: net.InterfaceByName, the errors of
    the kernel, whether a responder's socket opens, and whether the eBPF map takes
    an entry. *)
Record env := mkEnv {
  ifByName : string -> option Z;
  hookFails : Z -> hook -> option kerr;
  qdiscErr : Z -> option kerr;
  clsactForced : bool;
  respOK : string -> bool;
  putOK : bytes -> bool
}.

Definition on_kernel {A} (m : st kernel A) : st tapState A := fun s =>
  '(a, k) ← m (kern s);
  Ret (a, mkTaps k (localIps s) (attached s) (tapsWatched s)).

Definition set_local (m : gmap bytes Z) (s : tapState) : tapState :=
  mkTaps (kern s) m (attached s) (tapsWatched s).
Definition set_attached (m : gmap string tapAttachment) (s : tapState) : tapState :=
  mkTaps (kern s) (localIps s) m (tapsWatched s).
Definition set_watched (z : Z) (s : tapState) : tapState :=
  mkTaps (kern s) (localIps s) (attached s) z.

Section manager.
Context (c : tapConfig) (e : env).

(** m.Put for each address; stops at the first error. *)
Fixpoint addLocalIPs (l : list bytes) : st tapState bool :=
  match l with
  | [] => mret true
  | ip :: r =>
      k ← lift (ipKey16 ip);
      if putOK e k then
        _ ← modS (fun s => set_local (<[k := 1]> (localIps s)) s);
        addLocalIPs r
      else mret false
  end.

Fixpoint delLocalIPs (l : list bytes) : st tapState unit :=
  match l with
  | [] => mret tt
  | ip :: r =>
      k ← lift (ipKey16 ip);
      _ ← modS (fun s => set_local (delete k (localIps s)) s);
      delLocalIPs r
  end.

(** The responder of a tap and the registration of its addresses:
    (resp, ips) of the attachment. *)
Definition startResponder (p : Port) : st tapState (option responder * list bytes) :=
  if m_respond c && (0 <? length (IPs p))%nat then
    if negb (respOK e (Name p)) then mret (None, [])
    else
      r ← lift (newResponder (m_ifType c) (IPs p) (m_tcpRespond c) (m_hmacKey c));
      ok ← addLocalIPs (IPs p);
      mret (Some (fst r), if ok : bool then IPs p else [])
  else mret (None, []).

(** Whether the tap was attached. *)
Definition attachLocked (p : Port) : st tapState bool :=
  match ifByName e (Name p) with
  | None => mret false
  | Some idx =>
      d ← on_kernel (attachIface (hookFails e) (qdiscErr e) (clsactForced e) idx
                       (m_xdp c) (m_xdpTCEgress c));
      match d with
      | inl _ => mret false
      | inr d =>
          '(r, l) ← startResponder p;
          _ ← modS (fun s => set_attached (<[Name p := mkTap d r l]> (attached s)) s);
          mret true
      end
  end.

Definition detachLocked (name : string) : st tapState unit :=
  s ← getS;
  match attached s !! name with
  | None => mret tt
  | Some att =>
      _ ← on_kernel (modS (run_detach (detach att)));
      _ ← delLocalIPs (ips att);
      modS (fun s => set_attached (delete name (attached s)) s)
  end.

(** The loop over the discovered ports. *)
Fixpoint attachNew (ports : list Port) : st tapState unit :=
  match ports with
  | [] => mret tt
  | p :: r =>
      s ← getS;
      _ ← (match attached s !! Name p with
           | Some _ => mret false
           | None => attachLocked p
           end);
      attachNew r
  end.

Fixpoint detachAll (names : list string) : st tapState unit :=
  match names with
  | [] => mret tt
  | n :: r => _ ← detachLocked n; detachAll r
  end.

(** The taps of the map, in the order of its iteration. *)
Definition taps (s : tapState) : list string := map fst (map_to_list (attached s)).

Definition reconcile (ports : list Port) : st tapState unit :=
  _ ← attachNew ports;
  s ← getS;
  _ ← detachAll (filter (fun n => n ∉ map Name ports) (taps s));
  modS (fun s => set_watched (Z.of_nat (size (attached s))) s).

Definition closeAll : st tapState unit :=
  s ← getS;
  detachAll (taps s).

(** reconcileOnce: nothing happens when the discovery fails. *)
Definition reconcileOnce (ports : option (list Port)) : st tapState unit :=
  match ports with
  | None => mret tt
  | Some ports => reconcile ports
  end.
End manager.

(** The manager as a transition system: each tick sees its own environment, one
    that satisfies [P] in the state at its start. *)
Inductive tap_step (c : tapConfig) (P : env -> tapState -> Prop) : tapState -> tapState -> Prop :=
| tap_tick e ports s s' :
    P e s -> reconcileOnce c e ports s = Ret (tt, s') -> tap_step c P s s'
| tap_close s s' : closeAll s = Ret (tt, s') -> tap_step c P s s'.

Inductive tap_reachable (c : tapConfig) (P : env -> tapState -> Prop) (k : kernel)
  : tapState -> Prop :=
| tap_start : tap_reachable c P k (mkTaps k ∅ ∅ 0)
| tap_more s s' : tap_reachable c P k s -> tap_step c P s s' -> tap_reachable c P k s'.
