(* ===== verification/WatchProps.v ===== *)
(** Properties of the tap manager: it follows the discovered ports, it releases
    every program it attached, and every address it has intercepted is answered by
    a running responder as long as the eBPF map takes its entries. *)
From S2P Require Import Prelude GoStd GoText TfMeta Pkt PktProps Responder ResponderSpec Wire.
From S2P Require Import Attach Watch.

Local Open Scope Z_scope.

(** ** Local addresses *)

(** The key of an address in the eBPF map. *)
Definition ebpf_key (ip : bytes) : bytes :=
  if (length (Net.To4 ip) =? 0)%nat then addr6 ip else addr4 ip ++ make 12.

Lemma ipKey16_spec ip : ipKey16 ip = Ret (ebpf_key ip).
Proof.
  unfold ipKey16, ebpf_key, addr4, addr6. destruct (length (Net.To4 ip) =? 0)%nat; cbn [negb].
  - pose proof (copy_field [] [] 16 (Net.To16 ip)) as H. rewrite !app_nil_r in H. exact H.
  - exact (copy_field [] (make 12) 4 (Net.To4 ip)).
Qed.

(** The map after the entries of [l] are put or deleted. *)
Definition put_all (l : list bytes) (m : gmap bytes Z) : gmap bytes Z :=
  foldl (fun m ip => <[ebpf_key ip := 1]> m) m l.
Definition del_all (l : list bytes) (m : gmap bytes Z) : gmap bytes Z :=
  foldl (fun m ip => delete (ebpf_key ip) m) m l.

Lemma set_local_id s : set_local (localIps s) s = s.
Proof. by destruct s. Qed.

Lemma delLocalIPs_spec l s : delLocalIPs l s = Ret (tt, set_local (del_all l (localIps s)) s).
Proof.
  revert s. induction l as [|ip l IH]; intros s; [by destruct s |].
  cbn [delLocalIPs]. rewrite ipKey16_spec, lift_ret_bind, modS_bind. by rewrite IH.
Qed.

Lemma del_all_lookup l m k :
  del_all l m !! k = (if decide (k ∈ map ebpf_key l) then None else m !! k).
Proof.
  revert m. induction l as [|ip l IH]; intros m; [done |].
  unfold del_all in *. cbn [foldl map]. rewrite IH.
  destruct (decide (k ∈ map ebpf_key l)) as [Hk|Hk].
  - rewrite decide_True by set_solver. done.
  - destruct (decide (k = ebpf_key ip)) as [->|Hne].
    + rewrite lookup_delete_eq, decide_True by set_solver. done.
    + rewrite lookup_delete_ne, decide_False by set_solver. done.
Qed.

(** Registration stops at the first entry the map refuses. *)
Lemma addLocalIPs_spec e l s :
  exists ok m, addLocalIPs e l s = Ret (ok, set_local m s)
    /\ (forall k, is_Some (m !! k) -> is_Some (localIps s !! k) \/ k ∈ map ebpf_key l)
    /\ ((forall k, putOK e k = true) -> ok = true /\ m = put_all l (localIps s)).
Proof.
  revert s. induction l as [|ip l IH]; intros s.
  { exists true, (localIps s). rewrite set_local_id. split_and!; auto. }
  cbn [addLocalIPs]. rewrite ipKey16_spec, lift_ret_bind.
  destruct (putOK e (ebpf_key ip)) eqn:Ep.
  - rewrite modS_bind. destruct (IH (set_local (<[ebpf_key ip := 1]> (localIps s)) s))
      as (ok & m & Hm & Hdom & Hall).
    exists ok, m. split; [exact Hm |]. split; [|exact Hall].
    intros k Hk. apply Hdom in Hk as [Hk|Hk]; [|right; set_solver].
    cbn in Hk. apply lookup_insert_is_Some in Hk as [<-|[_ Hk]]; [right; set_solver | by left].
  - exists false, (localIps s). rewrite set_local_id. split_and!; [done | by left |].
    intros Hall. by rewrite Hall in Ep.
Qed.

(** A new responder answers for all its addresses. *)
Lemma local_set_spec ips set :
  local_set ips set = Ret (foldl (fun m ip => <[addr6 ip := true]> m) set ips).
Proof.
  revert set. induction ips as [|ip ips IH]; intros set; [done |].
  cbn [local_set]. rewrite key16_spec. cbn [mbind go_bind]. apply IH.
Qed.

Lemma foldl_insert_keep (l : list bytes) (m : gmap bytes bool) k :
  m !! k = Some true -> foldl (fun m ip => <[addr6 ip := true]> m) m l !! k = Some true.
Proof.
  revert m. induction l as [|ip l IH]; intros m Hm; [done |]. cbn [foldl]. apply IH.
  destruct (decide (addr6 ip = k)) as [->|]; [by rewrite lookup_insert_eq |].
  by rewrite lookup_insert_ne.
Qed.

Lemma newResponder_spec ty ips tcp key :
  exists r, newResponder ty ips tcp key = Ret (r, mkState ∅ 0 0 [])
    /\ (ifType r, tcpRespond r, hmacKey r) = (ty, tcp, key)
    /\ forall ip, ip ∈ ips -> local r ip = true.
Proof.
  unfold newResponder. rewrite local_set_spec. eexists. split; [reflexivity |]. split; [reflexivity |].
  intros ip Hip. unfold local. cbn [localIPs].
  enough (foldl (fun m ip => <[addr6 ip := true]> m) (∅ : gmap bytes bool) ips !! addr6 ip
          = Some true) as -> by done.
  generalize (∅ : gmap bytes bool). induction ips as [|x ips IH]; intros m; [set_solver |].
  cbn [foldl]. apply elem_of_cons in Hip as [<-|Hip]; [|by apply IH].
  apply foldl_insert_keep, lookup_insert_eq.
Qed.

(** ** The operations *)

(** The responder has the manager's options. *)
Definition configured (c : tapConfig) (r : responder) : Prop :=
  (ifType r, tcpRespond r, hmacKey r) = (m_ifType c, m_tcpRespond c, m_hmacKey c) /\ m_respond c = true.

Lemma startResponder_spec c e p s :
  exists r l m, startResponder c e p s = Ret ((r, l), set_local m s)
    /\ (r = None -> m = localIps s /\ l = [])
    /\ (forall r', r = Some r' -> configured c r' /\ forall ip, ip ∈ IPs p -> local r' ip = true)
    /\ (forall k, is_Some (m !! k) -> is_Some (localIps s !! k) \/ k ∈ map ebpf_key (IPs p))
    /\ ((forall k, putOK e k = true) -> r ≠ None -> l = IPs p).
Proof.
  unfold startResponder. destruct (_ && _) eqn:Er.
  2: { exists None, [], (localIps s). rewrite set_local_id. split_and!; try done. by left. }
  destruct (respOK e (Name p)); cbn [negb].
  2: { exists None, [], (localIps s). rewrite set_local_id. split_and!; try done. by left. }
  destruct (newResponder_spec (m_ifType c) (IPs p) (m_tcpRespond c) (m_hmacKey c)) as (r & -> & Hcf & Hr).
  rewrite lift_ret_bind. destruct (addLocalIPs_spec e (IPs p) s) as (ok & m & Hm & Hdom & Hall).
  rewrite (st_bind_ret _ _ _ _ _ Hm). eexists _, _, _. split; [reflexivity |]. split_and!.
  - done.
  - intros r' [= <-]. apply andb_prop in Er as [Er _]. by split.
  - exact Hdom.
  - intros Hput _. by destruct (Hall Hput) as [-> _].
Qed.

(** A computation that always returns. *)
Definition returns {S A} (m : st S A) : Prop := forall s, exists a s', m s = Ret (a, s').

Lemma returns_ret {S A} (a : A) : returns (mret a : st S A).
Proof. intros s. by exists a, s. Qed.
Lemma returns_modS {S} (f : S -> S) : returns (modS f).
Proof. intros s. by exists tt, (f s). Qed.
Lemma returns_bind {S A B} (m : st S A) (f : A -> st S B) :
  returns m -> (forall a, returns (f a)) -> returns (mbind f m).
Proof.
  intros Hm Hf s. destruct (Hm s) as (a & s1 & H1). rewrite (st_bind_ret _ _ _ _ _ H1). apply Hf.
Qed.

Create HintDb returns discriminated.
#[export] Hint Resolve returns_ret returns_modS : returns.

Ltac solve_returns :=
  repeat first
    [ solve [eauto with returns]
    | apply returns_bind; [|intros ?]
    | match goal with |- returns match ?x with _ => _ end => destruct x end ].

Lemma attachLink_returns fails i h : returns (attachLink fails i h).
Proof. unfold attachLink. solve_returns. Qed.
Lemma closeLink_returns i h : returns (closeLink i h).
Proof. apply returns_modS. Qed.
Lemma addBPFFilter_returns fails i h : returns (addBPFFilter fails i h).
Proof. unfold addBPFFilter. solve_returns. Qed.
Lemma delBPFFilter_returns i h : returns (delBPFFilter i h).
Proof. apply returns_modS. Qed.
Lemma ensureClsact_returns qf i : returns (ensureClsact qf i).
Proof. unfold ensureClsact. solve_returns. Qed.
#[export] Hint Resolve attachLink_returns closeLink_returns addBPFFilter_returns
  delBPFFilter_returns ensureClsact_returns : returns.

Lemma attachClsact_returns fails qf i : returns (attachClsact fails qf i).
Proof. unfold attachClsact. solve_returns. Qed.
Lemma attachClsactEgress_returns fails qf i : returns (attachClsactEgress fails qf i).
Proof. unfold attachClsactEgress. solve_returns. Qed.
Lemma attachTCX_returns fails i : returns (attachTCX fails i).
Proof. unfold attachTCX. solve_returns. Qed.
#[export] Hint Resolve attachClsact_returns attachClsactEgress_returns attachTCX_returns : returns.

Lemma attachEgressProg_returns fails qf force i : returns (attachEgressProg fails qf force i).
Proof. unfold attachEgressProg. solve_returns. Qed.
#[export] Hint Resolve attachEgressProg_returns : returns.

Lemma attachIface_returns fails qf force i xdp eg k :
  exists r k', attachIface fails qf force i xdp eg k = Ret (r, k').
Proof.
  enough (returns (attachIface fails qf force i xdp eg)) as H by apply H.
  unfold attachIface, attachXDP, attachProg. solve_returns.
Qed.

Lemma attachIface_succeeds fails qf force i xdp eg k :
  (forall h, fails i h = None) -> qf i = None ->
  exists d k', attachIface fails qf force i xdp eg k = Ret (inr d, k').
Proof.
  intros Hf Hq.
  unfold attachIface, attachXDP, attachProg, attachEgressProg, attachTCX, attachClsact,
    attachClsactEgress, attachLink, addBPFFilter, ensureClsact, closeLink, delBPFFilter.
  rewrite !Hf, Hq. unfold mbind, st_bind, mret, st_ret, modS. destruct xdp, eg, force; cbn; eauto.
Qed.

(** The closure only ever releases programs of the interface. *)
Lemma attachIface_iface fails qf force i xdp eg k d k' :
  attachIface fails qf force i xdp eg k = Ret (inr d, k') -> Forall (fun p => fst p = i) d.
Proof.
  unfold attachIface, attachXDP, attachProg, attachEgressProg, attachTCX, attachClsact,
    attachClsactEgress, attachLink, addBPFFilter, ensureClsact, closeLink, delBPFFilter.
  unfold mbind, st_bind, mret, st_ret, modS. destruct xdp, eg, force; cbn; intros H;
    repeat (case_match; simplify_eq/=); repeat (apply Forall_cons_2; [done |]); done.
Qed.

(** Nothing keeps the tap from being attached. *)
Definition attachable (e : env) (p : Port) : Prop :=
  exists idx, ifByName e (Name p) = Some idx /\ (forall h, hookFails e idx h = None)
    /\ qdiscErr e idx = None.

Lemma attachLocked_spec c e p s :
  exists b s', attachLocked c e p s = Ret (b, s')
    /\ (attachable e p -> b = true)
    /\ if b : bool then
         exists d r l, attached s' = <[Name p := mkTap d r l]> (attached s)
           /\ (r = None -> localIps s' = localIps s)
           /\ (forall r', r = Some r' -> configured c r' /\ forall ip, ip ∈ IPs p -> local r' ip = true)
           /\ (forall k, is_Some (localIps s' !! k) ->
                 is_Some (localIps s !! k) \/ k ∈ map ebpf_key (IPs p))
           /\ ((forall k, putOK e k = true) -> r ≠ None -> l = IPs p)
       else attached s' = attached s /\ localIps s' = localIps s.
Proof.
  unfold attachLocked. destruct (ifByName e (Name p)) as [idx|] eqn:Ei.
  2: { exists false, s. split; [done |]. split; [|done]. intros (i & Hi & _). congruence. }
  destruct (attachIface_returns (hookFails e) (qdiscErr e) (clsactForced e) idx (m_xdp c)
    (m_xdpTCEgress c) (kern s)) as (d & k & Hk).
  rewrite (st_bind_ret _ _ s d (mkTaps k (localIps s) (attached s) (tapsWatched s)))
    by (unfold on_kernel; by rewrite Hk).
  destruct d as [er|d].
  - exists false. eexists. split; [reflexivity |]. split; [|done]. intros (i & Hi & Hh & Hq).
    rewrite Ei in Hi. injection Hi as <-.
    destruct (attachIface_succeeds (hookFails e) (qdiscErr e) (clsactForced e) idx (m_xdp c)
      (m_xdpTCEgress c) (kern s) Hh Hq) as (d' & k' & Hd). congruence.
  - set (s1 := mkTaps _ _ _ _).
    destruct (startResponder_spec c e p s1) as (r & l & m & Hs & Hn & Hl & Hd & Hput).
    rewrite (st_bind_ret _ _ _ _ _ Hs), modS_bind. exists true. eexists.
    split; [reflexivity |]. split; [done |]. exists d, r, l. cbn in *.
    split_and!; [done | intros Hr; by destruct (Hn Hr) | exact Hl | exact Hd | exact Hput].
Qed.

Lemma detachLocked_spec name s :
  exists s', detachLocked name s = Ret (tt, s') /\ attached s' = delete name (attached s)
    /\ localIps s' = del_all (default [] (ips <$> attached s !! name)) (localIps s)
    /\ kern s' = match attached s !! name with
                 | Some att => run_detach (detach att) (kern s)
                 | None => kern s
                 end.
Proof.
  unfold detachLocked. rewrite getS_bind. destruct (attached s !! name) as [att|] eqn:E.
  - rewrite (st_bind_ret _ _ s tt (mkTaps (run_detach (detach att) (kern s)) (localIps s)
      (attached s) (tapsWatched s))) by done.
    rewrite (st_bind_ret _ _ _ _ _ (delLocalIPs_spec _ _)). by eexists.
  - exists s. split_and!; [done | by rewrite delete_id | done | done].
Qed.

Lemma detachAll_spec names s :
  exists s', detachAll names s = Ret (tt, s')
    /\ forall n, attached s' !! n = (if decide (n ∈ names) then None else attached s !! n).
Proof.
  revert s. induction names as [|x names IH]; intros s.
  { exists s. split; [done |]. intros n. by rewrite decide_False by set_solver. }
  cbn [detachAll]. destruct (detachLocked_spec x s) as (s1 & H1 & Ha & _).
  rewrite (st_bind_ret _ _ _ _ _ H1). destruct (IH s1) as (s' & Hs & Hn). exists s'.
  split; [done |]. intros n. rewrite Hn, Ha. destruct (decide (n ∈ names)).
  - by rewrite decide_True by set_solver.
  - destruct (decide (n = x)) as [->|].
    + by rewrite lookup_delete_eq, decide_True by set_solver.
    + by rewrite lookup_delete_ne, decide_False by set_solver.
Qed.

Lemma attachNew_spec c e ports s :
  exists s', attachNew c e ports s = Ret (tt, s')
    /\ (forall n att, attached s !! n = Some att -> attached s' !! n = Some att)
    /\ (forall n, is_Some (attached s' !! n) -> is_Some (attached s !! n) \/ n ∈ map Name ports)
    /\ (forall p, p ∈ ports -> attachable e p -> is_Some (attached s' !! Name p)).
Proof.
  revert s. induction ports as [|p ports IH]; intros s.
  { exists s. split_and!; [done | done | by left | set_solver]. }
  cbn [attachNew]. rewrite getS_bind.
  assert (exists b s1, (match attached s !! Name p with Some _ => mret false
                        | None => attachLocked c e p end) s = Ret (b, s1)
    /\ (forall n att, attached s !! n = Some att -> attached s1 !! n = Some att)
    /\ (forall n, is_Some (attached s1 !! n) -> is_Some (attached s !! n) \/ n = Name p)
    /\ (attachable e p -> is_Some (attached s1 !! Name p))) as (b & s1 & H1 & Hk & Hn & Ha).
  { destruct (attached s !! Name p) as [att|] eqn:E.
    { exists false, s. split_and!; [done | done | by left | by rewrite E]. }
    destruct (attachLocked_spec c e p s) as (b & s1 & H1 & Hb & Hs). exists b, s1.
    split; [done |]. destruct b.
    - destruct Hs as (d & r & l & -> & _). split_and!.
      + intros n att Hn. rewrite lookup_insert_ne; [done | congruence].
      + intros n. rewrite lookup_insert_is_Some. intros [->|[_ ?]]; [by right | by left].
      + rewrite lookup_insert_eq. by eexists.
    - destruct Hs as [-> _]. split_and!; [done | by left |]. intros Hat. by apply Hb in Hat. }
  rewrite (st_bind_ret _ _ _ _ _ H1). destruct (IH s1) as (s' & Hs & Hk' & Hn' & Ha').
  exists s'. split_and!; [done | auto | |].
  - intros n Hs'. apply Hn' in Hs' as [Hs'|Hs']; [|right; set_solver].
    apply Hn in Hs' as [?| ->]; [by left | right; set_solver].
  - intros q Hq Hat. apply elem_of_cons in Hq as [->|Hq]; [|by apply Ha'].
    destruct (Ha Hat) as [att Hatt]. rewrite (Hk' _ _ Hatt). by eexists.
Qed.

(** ** Properties *)

(** A reconciliation makes the manager follow the discovered ports.  It always
    returns; afterwards no vanished tap is attached, a tap that is still there
    keeps the attachment it had, every discovered tap that the kernel accepts is
    attached, and the gauge shows the number of attached taps. *)
Theorem reconcile_follows_ports c e ports s :
  exists s', reconcile c e ports s = Ret (tt, s')
    /\ (forall n, is_Some (attached s' !! n) -> n ∈ map Name ports)
    /\ (forall n att, n ∈ map Name ports -> attached s !! n = Some att ->
          attached s' !! n = Some att)
    /\ (forall p, p ∈ ports -> attachable e p -> is_Some (attached s' !! Name p))
    /\ tapsWatched s' = Z.of_nat (size (attached s')).
Proof.
  unfold reconcile. destruct (attachNew_spec c e ports s) as (s1 & H1 & Hk & Hn & Ha).
  rewrite (st_bind_ret _ _ _ _ _ H1), getS_bind.
  destruct (detachAll_spec (filter (fun n => n ∉ map Name ports) (taps s1)) s1)
    as (s2 & H2 & Hd).
  rewrite (st_bind_ret _ _ _ _ _ H2). eexists. split; [reflexivity |]. cbn [attached set_watched].
  assert (forall n, n ∈ map Name ports -> attached s2 !! n = attached s1 !! n) as Hkeep.
  { intros n Hin. rewrite Hd, decide_False; [done |]. by rewrite list_elem_of_filter; intros [? _]. }
  split_and!; [| | |done].
  - intros n Hs. rewrite Hd in Hs. destruct (decide (n ∈ map Name ports)) as [|Hout]; [done |].
    rewrite decide_True in Hs by
      (apply list_elem_of_filter; split; [done |]; case_decide as Hf; [|clear Hf];
       [by apply list_elem_of_filter in Hf as [_ Hf] |];
       apply list_elem_of_fmap; destruct Hs as [att Hatt]; exists (n, att);
       split; [done | by apply elem_of_map_to_list]).
    by destruct Hs.
  - intros n att Hin Hatt. rewrite Hkeep by done. auto.
  - intros p Hp Hat. rewrite Hkeep by by apply list_elem_of_fmap_2. auto.
Qed.

(** ** Interception *)

(** Every key of the eBPF map belongs to an address that a running responder of
    an attached tap answers for. *)
Definition answered (s : tapState) : Prop :=
  forall k, is_Some (localIps s !! k) ->
    exists n att r ip, attached s !! n = Some att /\ resp att = Some r
      /\ ip ∈ ips att /\ ebpf_key ip = k /\ local r ip = true.

Definition puts_ok (e : env) (s : tapState) : Prop := forall k, putOK e k = true.

Lemma attachLocked_answered c e p s b s' :
  (forall k, putOK e k = true) -> attached s !! Name p = None -> answered s ->
  attachLocked c e p s = Ret (b, s') -> answered s'.
Proof.
  intros Hput Hnew Hans Hat. destruct (attachLocked_spec c e p s) as (b' & s1 & H1 & _ & Hs).
  rewrite Hat in H1. injection H1 as <- <-. destruct b.
  2: { destruct Hs as [Ha Hl]. unfold answered. by rewrite Ha, Hl. }
  destruct Hs as (d & r & l & Ha & Hnone & Hloc & Hdom & Hl). intros k Hk.
  assert (is_Some (localIps s !! k) -> exists n att r ip, attached s' !! n = Some att
    /\ resp att = Some r /\ ip ∈ ips att /\ ebpf_key ip = k /\ local r ip = true) as Hold.
  { intros Hk'. destruct (Hans k Hk') as (n & att & r' & ip & Hn & ?).
    exists n, att, r', ip. rewrite Ha, lookup_insert_ne; [done | congruence]. }
  destruct r as [r|]; [|apply Hold; by rewrite <- (Hnone eq_refl)].
  apply Hdom in Hk as [Hk|Hk]; [by apply Hold |].
  apply list_elem_of_fmap in Hk as (ip & -> & Hip).
  exists (Name p), (mkTap d (Some r) l), r, ip. rewrite Ha, lookup_insert_eq.
  rewrite (Hl Hput) by done. split_and!; try done. by apply (Hloc r).
Qed.

Lemma detachLocked_answered name s s' :
  answered s -> detachLocked name s = Ret (tt, s') -> answered s'.
Proof.
  intros Hans Hd. destruct (detachLocked_spec name s) as (s1 & H1 & Ha & Hl & _).
  rewrite Hd in H1. injection H1 as <-. intros k Hk. rewrite Hl, del_all_lookup in Hk.
  case_decide as Hin; [by destruct Hk |].
  destruct (Hans k Hk) as (n & att & r & ip & Hn & Hr & Hip & Hkey & Hloc).
  exists n, att, r, ip. rewrite Ha. destruct (decide (n = name)) as [->|Hne].
  - destruct Hin. rewrite Hn. cbn. rewrite <- Hkey. by apply list_elem_of_fmap_2.
  - by rewrite lookup_delete_ne by done.
Qed.

Lemma attachNew_answered c e ports s s' :
  (forall k, putOK e k = true) -> answered s -> attachNew c e ports s = Ret (tt, s') -> answered s'.
Proof.
  intros Hput. revert s. induction ports as [|p ports IH]; intros s Hans.
  { by intros [= <-]. }
  cbn [attachNew]. rewrite getS_bind. destruct (attached s !! Name p) eqn:E.
  - intros H. by apply (IH s).
  - destruct (attachLocked_spec c e p s) as (b & s1 & H1 & _).
    rewrite (st_bind_ret _ _ _ _ _ H1). apply IH. by eapply attachLocked_answered.
Qed.

Lemma detachAll_answered names s s' :
  answered s -> detachAll names s = Ret (tt, s') -> answered s'.
Proof.
  revert s. induction names as [|n names IH]; intros s Hans; [by intros [= <-] |].
  cbn [detachAll]. destruct (detachLocked_spec n s) as (s1 & H1 & _).
  rewrite (st_bind_ret _ _ _ _ _ H1). apply IH. by eapply detachLocked_answered.
Qed.

(** Every responder of a tap runs with the options of the manager. *)
Definition taps_configured (c : tapConfig) (s : tapState) : Prop :=
  forall n att r, attached s !! n = Some att -> resp att = Some r -> configured c r.

Lemma attachNew_configured c e ports s s' :
  taps_configured c s -> attachNew c e ports s = Ret (tt, s') -> taps_configured c s'.
Proof.
  revert s. induction ports as [|p ports IH]; intros s Hc; [by intros [= <-] |].
  cbn [attachNew]. rewrite getS_bind. destruct (attached s !! Name p) eqn:E; [by apply (IH s) |].
  destruct (attachLocked_spec c e p s) as (b & s1 & H1 & _ & Hs). rewrite (st_bind_ret _ _ _ _ _ H1). apply IH.
  destruct b; [|destruct Hs as [Ha _]; unfold taps_configured; by rewrite Ha].
  destruct Hs as (d & r & l & Ha & _ & Hr & _). intros n att r'. rewrite Ha.
  destruct (decide (n = Name p)) as [->|Hne].
  - rewrite lookup_insert_eq. intros [= <-] Hr'. by apply Hr.
  - rewrite lookup_insert_ne by done. apply Hc.
Qed.

Lemma detachAll_configured c names s s' :
  taps_configured c s -> detachAll names s = Ret (tt, s') -> taps_configured c s'.
Proof.
  intros Hc Hd. destruct (detachAll_spec names s) as (s1 & H1 & Ha). rewrite Hd in H1. injection H1 as <-.
  intros n att r. rewrite Ha. case_decide; [done | apply Hc].
Qed.

(** What the manager keeps, whatever happens to taps, attachments and responders. *)
Lemma tap_reachable_ok c k s :
  tap_reachable c puts_ok k s -> answered s /\ taps_configured c s.
Proof.
  induction 1 as [|s s' _ [Hans Hcf] Hstep].
  { split; [intros k'; cbn; rewrite lookup_empty; by intros [? ?] |].
    intros n att r. cbn. by rewrite lookup_empty. }
  destruct Hstep as [e ports s s' Hput Hrec | s s' Hclose].
  - destruct ports as [ports|]; cbn [reconcileOnce] in Hrec; [|by injection Hrec as <-].
    unfold reconcile in Hrec. destruct (attachNew_spec c e ports s) as (s1 & H1 & _).
    rewrite (st_bind_ret _ _ _ _ _ H1), getS_bind in Hrec.
    destruct (detachAll_spec (filter (fun n => n ∉ map Name ports) (taps s1)) s1) as (s2 & H2 & _).
    rewrite (st_bind_ret _ _ _ _ _ H2) in Hrec. injection Hrec as <-. split.
    + eapply (detachAll_answered _ _ s2); [|done]. by eapply attachNew_answered.
    + eapply (detachAll_configured _ _ _ s2); [|done]. by eapply attachNew_configured.
  - unfold closeAll in Hclose. rewrite getS_bind in Hclose.
    split; [by eapply detachAll_answered | by eapply detachAll_configured].
Qed.

(** No probe is swallowed: in every state the manager can reach by any
    sequence of reconciliations (whatever taps appear and vanish, whatever
    attachments and responders fail) and shutdowns, every address the eBPF program
    intercepts is an address of an attached tap whose responder runs and answers
    for it, provided the eBPF map accepts its entries. *)
Theorem intercepted_addresses_are_answered c k s :
  tap_reachable c puts_ok k s -> answered s.
Proof. intros H. by apply (tap_reachable_ok c k). Qed.

(** ** Programs *)

(** The programs the manager has to release. *)
Abbreviation owned := (owned_by detach).

(** New taps have interfaces without programs of the agent, and different taps
    have different interfaces. *)
Definition fresh_ifaces (e : env) (s : tapState) : Prop :=
  (forall n i, ifByName e n = Some i -> attached s !! n = None -> free i (kern s))
  /\ (forall n n' i, ifByName e n = Some i -> ifByName e n' = Some i -> n = n').

(** The kernel has the programs [base] and those of the attached taps. *)
Definition accounted (base : list slot) (s : tapState) : Prop :=
  hooks (kern s) ≡ₚ base ++ owned (attached s).

Lemma attachLocked_hooks c e p s b s' :
  (forall i, ifByName e (Name p) = Some i -> free i (kern s)) ->
  attachLocked c e p s = Ret (b, s') ->
  if b : bool then
    exists i d r l, ifByName e (Name p) = Some i
      /\ attached s' = <[Name p := mkTap d r l]> (attached s)
      /\ hooks (kern s') = hooks (kern s) ++ rev d /\ Forall (fun q => fst q = i) d
  else attached s' = attached s /\ hooks (kern s') = hooks (kern s).
Proof.
  intros Hfree. unfold attachLocked. destruct (ifByName e (Name p)) as [i|]; [|by intros [= <- <-]].
  destruct (attachIface_spec (hookFails e) (qdiscErr e) (clsactForced e) i (m_xdp c)
    (m_xdpTCEgress c) (kern s) (Hfree i eq_refl)) as (d & k & Hk & Hd).
  rewrite (st_bind_ret _ _ s d (mkTaps k (localIps s) (attached s) (tapsWatched s)))
    by (unfold on_kernel; by rewrite Hk).
  destruct d as [er|d]; [by intros [= <- <-] |]. destruct Hd as (Hh & Hall & _).
  destruct (startResponder_spec c e p (mkTaps k (localIps s) (attached s) (tapsWatched s)))
    as (r & l & m & Hs & _).
  rewrite (st_bind_ret _ _ _ _ _ Hs), modS_bind. intros [= <- <-]. by exists i, d, r, l.
Qed.

Lemma attachNew_accounted c e ports base s s' :
  fresh_ifaces e s -> accounted base s -> attachNew c e ports s = Ret (tt, s') ->
  accounted base s'.
Proof.
  revert s. induction ports as [|p ports IH]; intros s [Hfree Hinj] Hacc.
  { by intros [= <-]. }
  cbn [attachNew]. rewrite getS_bind. destruct (attached s !! Name p) eqn:E.
  { intros H. by apply (IH s). }
  destruct (attachLocked_spec c e p s) as (b & s1 & H1 & _). rewrite (st_bind_ret _ _ _ _ _ H1).
  apply attachLocked_hooks in H1; [|intros i Hi; by eapply Hfree]. apply IH.
  - split; [|done]. intros n i Hi Hn. destruct b.
    + destruct H1 as (ip & d & r & l & Hip & Ha & Hh & Hall). rewrite Ha in Hn.
      apply lookup_insert_None in Hn as [Hn Hne]. intros h. rewrite Hh, elem_of_app.
      intros [Hin|Hin]; [by apply (Hfree n i Hi Hn h) |].
      apply list_elem_of_In, in_rev, list_elem_of_In in Hin.
      eapply Forall_forall in Hall; [|done]. cbn in Hall. subst. by destruct (Hinj (Name p) n ip).
    + destruct H1 as [Ha Hh]. rewrite Ha in Hn. unfold free. rewrite Hh. by eapply Hfree.
  - unfold accounted in *. destruct b.
    + destruct H1 as (ip & d & r & l & Hip & -> & Hh & Hall). rewrite Hh, owned_by_insert by done.
      cbn [detach]. rewrite <- Permutation_rev, Hacc, (Permutation_app_comm d), app_assoc. done.
    + destruct H1 as [-> ->]. done.
Qed.

Lemma detachAll_accounted names base s s' :
  accounted base s -> detachAll names s = Ret (tt, s') -> accounted base s'.
Proof.
  revert s. induction names as [|n names IH]; intros s Hacc; [by intros [= <-] |].
  cbn [detachAll]. destruct (detachLocked_spec n s) as (s1 & H1 & Ha & _ & Hk).
  rewrite (st_bind_ret _ _ _ _ _ H1). apply IH. unfold accounted in *. rewrite Ha, Hk.
  destruct (attached s !! n) as [att|] eqn:E; [|by rewrite delete_id].
  apply run_detach_perm. rewrite Hacc, (owned_by_delete _ _ _ _ E), !app_assoc.
  f_equiv. apply Permutation_app_comm.
Qed.

Lemma taps_all s n : is_Some (attached s !! n) <-> n ∈ taps s.
Proof.
  unfold taps. rewrite list_elem_of_fmap. split.
  - intros [att Hatt]. exists (n, att). by rewrite elem_of_map_to_list.
  - intros ([n' att] & -> & Hin). apply elem_of_map_to_list in Hin. by eexists.
Qed.

(** One operation of the manager: it returns, and accounts for its programs. *)
Lemma reconcileOnce_accounted c e ports base s :
  fresh_ifaces e s -> accounted base s ->
  exists s', reconcileOnce c e ports s = Ret (tt, s') /\ accounted base s'.
Proof.
  intros Hfr Hacc. destruct ports as [ports|]; cbn [reconcileOnce]; [|by exists s]. unfold reconcile.
  destruct (attachNew_spec c e ports s) as (s1 & H1 & _). rewrite (st_bind_ret _ _ _ _ _ H1), getS_bind.
  destruct (detachAll_spec (filter (fun n => n ∉ map Name ports) (taps s1)) s1) as (s2 & H2 & _).
  rewrite (st_bind_ret _ _ _ _ _ H2). eexists. split; [reflexivity |].
  eapply (detachAll_accounted _ base) in H2; [exact H2 |]. by eapply attachNew_accounted.
Qed.

Lemma closeAll_taps base s :
  accounted base s ->
  exists s', closeAll s = Ret (tt, s') /\ attached s' = ∅ /\ hooks (kern s') ≡ₚ base.
Proof.
  intros Hacc. unfold closeAll. rewrite getS_bind.
  destruct (detachAll_spec (taps s) s) as (s' & Hs & Hn). exists s'. split; [done |].
  assert (attached s' = ∅) as Hempty.
  { apply map_empty. intros n. rewrite Hn. case_decide as Hin; [done |].
    rewrite <- taps_all in Hin. by destruct (attached s !! n); [destruct Hin; eexists |]. }
  split; [done |]. apply (detachAll_accounted _ base) in Hs; [|done].
  unfold accounted in Hs. rewrite Hempty in Hs. by rewrite Hs, app_nil_r.
Qed.

(** A property of an attachment's name and programs that new ones have holds of all. *)
Section tap_detach.
Context (P : string -> list slot -> Prop) (c : tapConfig) (e : env).
Hypothesis new : forall n i d, ifByName e n = Some i -> Forall (fun p => fst p = i) d -> P n d.

Definition taps_have (s : tapState) : Prop :=
  forall n att, attached s !! n = Some att -> P n (detach att).

Lemma attachLocked_have p s b s' : taps_have s -> attachLocked c e p s = Ret (b, s') -> taps_have s'.
Proof.
  intros Hs. unfold attachLocked. destruct (ifByName e (Name p)) as [i|] eqn:Ei; [|by intros [= _ <-]].
  destruct (attachIface_returns (hookFails e) (qdiscErr e) (clsactForced e) i (m_xdp c) (m_xdpTCEgress c)
    (kern s)) as (d & k & Hk).
  rewrite (st_bind_ret _ _ s d (mkTaps k (localIps s) (attached s) (tapsWatched s)))
    by (unfold on_kernel; by rewrite Hk).
  destruct d as [er|d]; [by intros [= _ <-] |]. apply attachIface_iface in Hk.
  destruct (startResponder_spec c e p (mkTaps k (localIps s) (attached s) (tapsWatched s)))
    as (r & l & m & Hr & _).
  rewrite (st_bind_ret _ _ _ _ _ Hr), modS_bind. intros [= _ <-] n att. cbn.
  rewrite lookup_insert_Some. intros [[<- <-]|[_ ?]]; [by eapply new | by apply Hs].
Qed.

Lemma attachNew_have ports s s' : taps_have s -> attachNew c e ports s = Ret (tt, s') -> taps_have s'.
Proof.
  revert s. induction ports as [|p ports IH]; intros s Hs; [by intros [= <-] |].
  cbn [attachNew]. rewrite getS_bind. destruct (attached s !! Name p); [by apply IH |].
  destruct (attachLocked_spec c e p s) as (b & s1 & H1 & _). rewrite (st_bind_ret _ _ _ _ _ H1).
  apply IH. by eapply attachLocked_have.
Qed.

Lemma reconcileOnce_have ports s s' :
  taps_have s -> reconcileOnce c e ports s = Ret (tt, s') -> taps_have s'.
Proof.
  intros Hs. destruct ports as [ports|]; cbn [reconcileOnce]; [|by intros [= <-]]. unfold reconcile.
  destruct (attachNew_spec c e ports s) as (s1 & H1 & _). rewrite (st_bind_ret _ _ _ _ _ H1), getS_bind.
  destruct (detachAll_spec (filter (fun n => n ∉ map Name ports) (taps s1)) s1) as (s2 & H2 & Hn).
  rewrite (st_bind_ret _ _ _ _ _ H2). intros [= <-] n att. cbn. rewrite Hn. case_decide; [done |].
  by apply (attachNew_have ports s s1).
Qed.
End tap_detach.


(** ** Instances and two gaps *)

Definition demo_config : tapConfig := mkTapConfig IfaceAuto true true [] false false.

(** An environment in which everything works; taps have the given interfaces. *)
Definition demo_env (idx : string -> option Z) (put : bytes -> bool) : env :=
  mkEnv idx (fun _ _ => None) (fun _ => None) false (fun _ => true) put.

Definition demo_index (n : string) : option Z :=
  if bool_decide (n = "tap0"%string) then Some 10
  else if bool_decide (n = "tap1"%string) then Some 11 else None.

Definition demo_taps0 : tapState := mkTaps (mkKernel [(2, XdpNative)] []) ∅ ∅ 0.

(** The state after a computation that returns. *)
Definition run_taps (m : st tapState unit) (s : tapState) : tapState :=
  match m s with Ret (_, s') => s' | Panic => s end.

Definition demo_ports : list Port :=
  [mkPort "tap0" "" [[10; 0; 0; 1]; [10; 0; 0; 2]]; mkPort "tap1" "" [[10; 0; 0; 2]]].

Definition demo_taps1 : tapState :=
  run_taps (reconcile demo_config (demo_env demo_index (fun _ => true)) demo_ports) demo_taps0.

Lemma demo_taps1_step P :
  P (demo_env demo_index (fun _ => true)) demo_taps0 ->
  tap_reachable demo_config P (kern demo_taps0) demo_taps1.
Proof.
  intros HP. eapply tap_more; [apply tap_start |].
  apply (tap_tick _ _ (demo_env demo_index (fun _ => true)) (Some demo_ports)); [exact HP |].
  vm_compute. reflexivity.
Qed.

Lemma demo_fresh : fresh_ifaces (demo_env demo_index (fun _ => true)) demo_taps0.
Proof.
  split.
  - intros n i Hi _ h. cbn in Hi. unfold demo_index in Hi. cbn. rewrite list_elem_of_singleton.
    repeat case_bool_decide; simplify_eq; congruence.
  - intros n n' i. cbn. unfold demo_index. intros. repeat case_bool_decide; simplify_eq; done.
Qed.

Lemma intercepted_addresses_are_answered_witness : answered demo_taps1.
Proof.
  apply (intercepted_addresses_are_answered demo_config (kern demo_taps0) demo_taps1).
  apply demo_taps1_step. done.
Defined.


(** When the eBPF map refuses an entry, the addresses registered before it stay
    registered for good: the attachment does not record them, so after the tap has
    vanished and nothing is attached any more its first address is still
    intercepted, with no responder to answer. *)
Theorem failed_registration_leaks :
  let refuse k := negb (bool_decide (k = [10; 0; 0; 2] ++ make 12)) in
  let s1 := run_taps (reconcile demo_config (demo_env demo_index refuse)
                        [mkPort "tap0" "" [[10; 0; 0; 1]; [10; 0; 0; 2]]]) demo_taps0 in
  let s2 := run_taps (reconcile demo_config (demo_env demo_index refuse) []) s1 in
  attached s2 = ∅ /\ localIps s2 !! ([10; 0; 0; 1] ++ make 12) = Some 1.
Proof. vm_compute. done. Qed.

(** An address two taps share is unregistered when one of them vanishes: the
    other tap is still attached and its responder still answers for the address,
    but the eBPF program no longer intercepts probes to it, and no later
    reconciliation registers it again. *)
Theorem shared_address_unregistered :
  let left := [mkPort "tap1" "" [[10; 0; 0; 2]]] in
  let s2 := run_taps (reconcile demo_config (demo_env demo_index (fun _ => true)) left) demo_taps1 in
  let s3 := run_taps (reconcile demo_config (demo_env demo_index (fun _ => true)) left) s2 in
  is_Some (attached s3 !! "tap1"%string) /\ localIps demo_taps1 !! ([10; 0; 0; 2] ++ make 12) = Some 1
  /\ localIps s2 !! ([10; 0; 0; 2] ++ make 12) = None
  /\ localIps s3 !! ([10; 0; 0; 2] ++ make 12) = None.
Proof. vm_compute. split_and!; [by eexists | done..]. Qed.
