(* ===== verification/GoJson.v ===== *)
(** The part of Go's encoding/json the program uses: reading a JSON text (the
    syntax the scanner of the package accepts, with its nesting limit), the text
    it writes for a value, and the decoding of a value into strings, integers
    and slices.  A value of type json.RawMessage is read as the value it is the
    text of. *)
From stdpp Require Export strings.
From S2P Require Import Prelude GoStd GoText.

Local Open Scope Z_scope.

(** A number is its literal; the members of an object are in order, repeated keys
    included. *)
Inductive json :=
| JNull
| JBool (b : bool)
| JNum (lit : bytes)
| JStr (s : bytes)
| JArr (l : list json)
| JObj (l : list (bytes * json)).

Section json_induction.
Context (P : json -> Prop).
Hypothesis (Hnull : P JNull) (Hbool : forall b, P (JBool b)) (Hnum : forall n, P (JNum n)).
Hypothesis (Hstr : forall s, P (JStr s)).
Hypothesis (Harr : forall l, Forall P l -> P (JArr l)).
Hypothesis (Hobj : forall l, Forall (fun m => P (snd m)) l -> P (JObj l)).

Fixpoint json_nested_ind (j : json) : P j :=
  match j with
  | JNull => Hnull
  | JBool b => Hbool b
  | JNum n => Hnum n
  | JStr s => Hstr s
  | JArr l => Harr l ((fix go l := match l return Forall P l with
                        | [] => Forall_nil_2 _
                        | x :: r => Forall_cons_2 _ _ _ (json_nested_ind x) (go r)
                        end) l)
  | JObj l => Hobj l ((fix go l := match l return Forall (fun m => P (snd m)) l with
                        | [] => Forall_nil_2 _
                        | x :: r => Forall_cons_2 _ _ _ (json_nested_ind (snd x)) (go r)
                        end) l)
  end.
End json_induction.

(** ** UTF-8 *)

Definition between (a b c : Z) : bool := (a <=? c) && (c <=? b).
Definition cont (c : Z) : bool := between 128 191 c.

(** The length of the well-formed sequence at the head, 0 for an invalid byte
    (utf8.DecodeRune). *)
Definition utf8_len (l : bytes) : nat :=
  match l with
  | [] => 0%nat
  | c :: r =>
      if c <? 128 then 1%nat
      else if between 194 223 c then
        match r with x :: _ => if cont x then 2%nat else 0%nat | _ => 0%nat end
      else if between 224 239 c then
        match r with
        | x :: y :: _ =>
            if between (if c =? 224 then 160 else 128) (if c =? 237 then 159 else 191) x
               && cont y then 3%nat else 0%nat
        | _ => 0%nat
        end
      else if between 240 244 c then
        match r with
        | x :: y :: z :: _ =>
            if between (if c =? 240 then 144 else 128) (if c =? 244 then 143 else 191) x
               && cont y && cont z then 4%nat else 0%nat
        | _ => 0%nat
        end
      else 0%nat
  end.

(** U+FFFD. *)
Definition replacement : bytes := [239; 191; 189].

(** utf8.EncodeRune on a code point that is not a surrogate. *)
Definition encode_rune (u : Z) : bytes :=
  if u <? 128 then [u]
  else if u <? 2048 then [192 + u / 64; 128 + u mod 64]
  else if u <? 65536 then [224 + u / 4096; 128 + u / 64 mod 64; 128 + u mod 64]
  else [240 + u / 262144; 128 + u / 4096 mod 64; 128 + u / 64 mod 64; 128 + u mod 64].

(** Every invalid byte replaced by U+FFFD; [k] bytes of a sequence are to come. *)
Fixpoint coerce (k : nat) (l : bytes) : bytes :=
  match l with
  | [] => []
  | c :: r =>
      match k with
      | S k' => c :: coerce k' r
      | O => match utf8_len l with
             | O => replacement ++ coerce 0 r
             | S n => c :: coerce n r
             end
      end
  end.

Definition utf8_ok (l : bytes) : Prop := coerce 0 l = l.

#[export] Instance utf8_ok_dec l : Decision (utf8_ok l).
Proof. unfold utf8_ok. apply _. Defined.

(** ** Reading *)

Inductive res (A : Type) : Type :=
| Ok (a : A)
| Bad              (* a syntax error *)
| NoFuel.          (* the bound on the recursion was too small *)
Arguments Ok {A} a.
Arguments Bad {A}.
Arguments NoFuel {A}.

#[export] Instance res_ret : MRet res := @Ok.
#[export] Instance res_bind : MBind res := fun A B f m =>
  match m with Ok a => f a | Bad => Bad | NoFuel => NoFuel end.

Definition of_option {A} (o : option A) : res A :=
  match o with Some a => Ok a | None => Bad end.

Definition json_space (c : Z) : bool := (c =? 32) || (c =? 9) || (c =? 10) || (c =? 13).

Fixpoint skip (l : bytes) : bytes :=
  match l with
  | c :: r => if json_space c then skip r else l
  | [] => []
  end.

(** The rest behind the byte [c]. *)
Definition expect (c : Z) (l : bytes) : option bytes :=
  match l with
  | x :: r => if x =? c then Some r else None
  | [] => None
  end.

Definition is_hex (c : Z) : bool := match hexval c with Some _ => true | None => false end.

(** The bytes of a string up to its closing quote, and the rest. *)
Fixpoint str_body (l : bytes) : option (bytes * bytes) :=
  match l with
  | [] => None
  | c :: r =>
      if c =? 34 then Some ([], r)
      else if c =? 92 then
        match r with
        | [] => None
        | e :: r1 =>
            if e =? 117 then
              match r1 with
              | x :: y :: z :: t :: r2 =>
                  if is_hex x && is_hex y && is_hex z && is_hex t
                  then prod_map (app [c; e; x; y; z; t]) id <$> str_body r2 else None
              | _ => None
              end
            else if bool_decide (e ∈ [34; 92; 47; 98; 102; 110; 114; 116])
            then prod_map (app [c; e]) id <$> str_body r1 else None
        end
      else if c <? 32 then None
      else prod_map (cons c) id <$> str_body r
  end.

(** getu4: the value of four hexadecimal digits. *)
Definition hex4 (x y z t : Z) : Z :=
  foldl (fun a c => a * 16 + default 0 (hexval c)) 0 [x; y; z; t].

(** The value of an escape of two bytes. *)
Definition escaped (e : Z) : Z :=
  if e =? 98 then 8 else if e =? 102 then 12 else if e =? 110 then 10
  else if e =? 114 then 13 else if e =? 116 then 9 else e.

Definition high (u : Z) : bool := between 0xD800 0xDBFF u.
Definition low (u : Z) : bool := between 0xDC00 0xDFFF u.

(** unquoteBytes: escapes are decoded, a lone surrogate and an invalid byte give
    U+FFFD. *)
Fixpoint unquote (k : nat) (l : bytes) : bytes :=
  match l with
  | [] => []
  | c :: r =>
      match k with
      | S k' => c :: unquote k' r
      | O =>
          if c =? 92 then
            match r with
            | e :: r1 =>
                if e =? 117 then
                  match r1 with
                  | x :: y :: z :: t :: r2 =>
                      let u := hex4 x y z t in
                      if high u || low u then
                        match r2 with
                        | 92 :: 117 :: x' :: y' :: z' :: t' :: r3 =>
                            let v := hex4 x' y' z' t' in
                            if high u && low v
                            then encode_rune (65536 + (u - 0xD800) * 1024 + (v - 0xDC00)) ++ unquote 0 r3
                            else replacement ++ unquote 0 r2
                        | _ => replacement ++ unquote 0 r2
                        end
                      else encode_rune u ++ unquote 0 r2
                  | _ => []
                  end
                else escaped e :: unquote 0 r1
            | [] => []
            end
          else match utf8_len l with
               | O => replacement ++ unquote 0 r
               | S n => c :: unquote n r
               end
      end
  end.

(** ** Numbers *)

Fixpoint digits (l : bytes) : bytes * bytes :=
  match l with
  | c :: r => if is_digit c then prod_map (cons c) id (digits r) else ([], l)
  | [] => ([], [])
  end.

Definition digits1 (l : bytes) : option (bytes * bytes) :=
  match digits l with ([], _) => None | p => Some p end.

Definition num_int (l : bytes) : option (bytes * bytes) :=
  match expect 48 l with Some r => Some ([48], r) | None => digits1 l end.

Definition num_frac (l : bytes) : option (bytes * bytes) :=
  match expect 46 l with
  | Some r => prod_map (cons 46) id <$> digits1 r
  | None => Some ([], l)
  end.

Definition num_exp (l : bytes) : option (bytes * bytes) :=
  match l with
  | e :: r =>
      if (e =? 101) || (e =? 69) then
        match r with
        | s :: r' => if (s =? 43) || (s =? 45) then prod_map (app [e; s]) id <$> digits1 r'
                     else prod_map (cons e) id <$> digits1 r
        | [] => None
        end
      else Some ([], l)
  | [] => Some ([], [])
  end.

Definition number (l : bytes) : option (bytes * bytes) :=
  let '(sign, l) := match expect 45 l with Some r => ([45], r) | None => ([], l) end in
  '(i, l) ← num_int l;
  '(f, l) ← num_frac l;
  '(e, l) ← num_exp l;
  Some (sign ++ i ++ f ++ e, l).

(** ** Values *)

Fixpoint strip (w l : bytes) : option bytes :=
  match w with
  | [] => Some l
  | c :: w' => r ← expect c l; strip w' r
  end.

(** [true], [false] and [null]. *)
Definition literal (l : bytes) : option (json * bytes) :=
  match strip (codes "true") l with
  | Some r => Some (JBool true, r)
  | None =>
      match strip (codes "false") l with
      | Some r => Some (JBool false, r)
      | None => (fun r => (JNull, r)) <$> strip (codes "null") l
      end
  end.

(** The value at the head of the text and the rest; [d] more levels of nesting are
    allowed. *)
Fixpoint value (n d : nat) (l : bytes) {struct n} : res (json * bytes) :=
  match n with
  | O => NoFuel
  | S n =>
      match skip l with
      | [] => Bad
      | c :: r =>
          if c =? 123 then
            match d with
            | O => Bad
            | S d => match expect 125 (skip r) with
                     | Some r' => Ok (JObj [], r')
                     | None => '(m, r') ← members n d r; Ok (JObj m, r')
                     end
            end
          else if c =? 91 then
            match d with
            | O => Bad
            | S d => match expect 93 (skip r) with
                     | Some r' => Ok (JArr [], r')
                     | None => '(m, r') ← elements n d r; Ok (JArr m, r')
                     end
            end
          else if c =? 34 then
            '(s, r') ← of_option (str_body r); Ok (JStr (unquote 0 s), r')
          else if (c =? 45) || is_digit c then
            '(s, r') ← of_option (number (c :: r)); Ok (JNum s, r')
          else of_option (literal (c :: r))
      end
  end
with elements (n d : nat) (l : bytes) {struct n} : res (list json * bytes) :=
  match n with
  | O => NoFuel
  | S n =>
      '(v, r) ← value n d l;
      match expect 44 (skip r) with
      | Some r' => '(m, r') ← elements n d r'; Ok (v :: m, r')
      | None => r' ← of_option (expect 93 (skip r)); Ok ([v], r')
      end
  end
with members (n d : nat) (l : bytes) {struct n} : res (list (bytes * json) * bytes) :=
  match n with
  | O => NoFuel
  | S n =>
      r ← of_option (expect 34 (skip l));
      '(k, r) ← of_option (str_body r);
      r ← of_option (expect 58 (skip r));
      '(v, r) ← value n d r;
      match expect 44 (skip r) with
      | Some r' => '(m, r') ← members n d r'; Ok ((unquote 0 k, v) :: m, r')
      | None => r' ← of_option (expect 125 (skip r)); Ok ([(unquote 0 k, v)], r')
      end
  end.

(** maxNestingDepth. *)
Definition max_depth : nat := 10000.

(** Enough steps for a text of this length. *)
Definition enough (l : bytes) : nat := S (2 * length l).

(** The first value of a stream (json.Decoder). *)
Definition read_value (l : bytes) : option (json * bytes) :=
  match value (enough l) max_depth l with Ok p => Some p | _ => None end.

(** A whole text (json.Unmarshal). *)
Definition read_text (l : bytes) : option json :=
  match read_value l with
  | Some (j, r) => match skip r with [] => Some j | _ => None end
  | None => None
  end.

(** ** Writing *)

Definition hex_digit (d : Z) : Z := if d <? 10 then 48 + d else 87 + d.

(** \u00xx. *)
Definition u00 (c : Z) : bytes := codes "\u00" ++ [hex_digit (c / 16); hex_digit (c mod 16)].

(** appendString with escapeHTML, one ASCII byte. *)
Definition escape_ascii (c : Z) : bytes :=
  if (c =? 34) || (c =? 92) then [92; c]
  else if c =? 8 then [92; 98] else if c =? 12 then [92; 102]
  else if c =? 10 then [92; 110] else if c =? 13 then [92; 114] else if c =? 9 then [92; 116]
  else if (c <? 32) || (c =? 60) || (c =? 62) || (c =? 38) then u00 c
  else [c].

Fixpoint escape (k : nat) (l : bytes) : bytes :=
  match l with
  | [] => []
  | c :: r =>
      match k with
      | S k' => c :: escape k' r
      | O =>
          if c <? 128 then escape_ascii c ++ escape 0 r
          else match utf8_len l with
               | O => codes "\ufffd" ++ escape 0 r
               | S n =>
                   match l with
                   | 226 :: 128 :: 168 :: r' => codes "\u2028" ++ escape 0 r'
                   | 226 :: 128 :: 169 :: r' => codes "\u2029" ++ escape 0 r'
                   | _ => c :: escape n r
                   end
               end
      end
  end.

Definition quote (s : bytes) : bytes := 34 :: escape 0 s ++ [34].

(** [None]: the text of json.Marshal; [Some k]: indented with two spaces, at
    depth [k]. *)
Abbreviation layout := (option nat).

Definition newline (o : layout) : bytes :=
  match o with None => [] | Some k => 10 :: replicate (2 * k) 32 end.
Definition space (o : layout) : bytes := match o with None => [] | Some _ => [32] end.

(** The printed items between separators, each on its line. *)
Fixpoint commas (o : layout) (l : list bytes) : bytes :=
  match l with
  | [] => []
  | [x] => newline o ++ x
  | x :: r => newline o ++ x ++ 44 :: commas o r
  end.

Definition block (o : layout) (a b : Z) (l : list bytes) : bytes :=
  match l with
  | [] => [a; b]
  | _ => a :: commas (S <$> o) l ++ newline o ++ [b]
  end.

Fixpoint print (o : layout) (j : json) : bytes :=
  match j with
  | JNull => codes "null"
  | JBool true => codes "true"
  | JBool false => codes "false"
  | JNum n => n
  | JStr s => quote s
  | JArr l => block o 91 93 (map (print (S <$> o)) l)
  | JObj l => block o 123 125
                (map (fun m => quote (fst m) ++ 58 :: space o ++ print (S <$> o) (snd m)) l)
  end.

(** json.Marshal, and Encode of an encoder with SetIndent. *)
Definition marshal (j : json) : bytes := print None j.
Definition encode_line (j : json) : bytes := print (Some 0%nat) j ++ [10].

(** ** Test vectors (with ' for the double quote) *)

Definition jtext (s : string) : bytes := map (fun c => if c =? 39 then 34 else c) (codes s).

Example read_1 :
  read_text (jtext " {'a' : [1, -0.5e+3 ,true], 'b':{} ,'b':null, 'c':['x\n\u00e9\ud83d\ude00\ud83d'] } ")
  = Some (JObj [(codes "a", JArr [JNum (codes "1"); JNum (codes "-0.5e+3"); JBool true]);
                (codes "b", JObj []); (codes "b", JNull);
                (codes "c", JArr [JStr [120; 10; 195; 169; 240; 159; 152; 128; 239; 191; 189]])]).
Proof. vm_compute. reflexivity. Qed.

Example read_bad :
  map (fun s => read_text (jtext s))
    ["[1,]"; "{'a':1,}"; "01"; "1."; "-"; "[1 2]"; "'a"; "'\x'"; "tru"; "{} x"; ""; "{'a' 1}"]%string
  = replicate 12 None.
Proof. vm_compute. reflexivity. Qed.

Example print_1 :
  marshal (JObj [(codes "a<b", JArr [JNum (codes "12"); JStr [9; 34; 255; 195; 169]]); ([], JArr [])])
  = jtext "{'a\u003cb':[12,'\t\" ++ [34] ++ codes "\ufffd" ++ [195; 169] ++ jtext "'],'':[]}".
Proof. vm_compute. reflexivity. Qed.
