(* ===== verification/GoJsonProps.v ===== *)
(** Properties of the JSON reader and writer: the reader ends on every text, and it
    reads back every value from the text written for it, compact or indented. *)
From stdpp Require Import sets.
From S2P Require Import Prelude GoStd GoText GoJson.

Local Open Scope Z_scope.

(** ** The reader ends *)

Lemma skip_length l : (length (skip l) <= length l)%nat.
Proof. induction l as [|c l IH]; [done |]. cbn. destruct (json_space c); cbn; lia. Qed.

Lemma expect_length c l r : expect c l = Some r -> length l = S (length r).
Proof. destruct l as [|x l]; [done |]. cbn. case_match; [|done]. by intros [= ->]. Qed.

Lemma expect_skip_length c l r : expect c (skip l) = Some r -> (length r < length l)%nat.
Proof. intros H%expect_length. pose proof (skip_length l). lia. Qed.

Lemma prod_map_Some {A B} (f : A -> A) (o : option (A * B)) a b :
  prod_map f id <$> o = Some (a, b) -> exists a', o = Some (a', b) /\ a = f a'.
Proof. destruct o as [[a' b']|]; [|done]. intros [= <- <-]. by exists a'. Qed.

Lemma str_body_length l s r : str_body l = Some (s, r) -> (length r < length l)%nat.
Proof.
  revert s r. induction l as [[|c l] IH] using length_ind; intros s r; [done |]. cbn.
  assert (forall k s' r', (length k <= length l)%nat -> str_body k = Some (s', r') ->
    (length r' < S (length l))%nat) as H.
  { intros k s' r' Hk Hs. apply IH in Hs; cbn; lia. }
  repeat (case_match; try done);
    try (intros [= <- <-]; cbn; lia);
    intros (s' & Hs & _)%prod_map_Some; (eapply H in Hs; [subst; exact Hs | subst; cbn; lia]).
Qed.

Lemma digits_app l a b : digits l = (a, b) -> l = a ++ b.
Proof.
  revert a b. induction l as [|c l IH]; intros a b; cbn; [by intros [= <- <-] |].
  destruct (is_digit c); [|by intros [= <- <-]].
  destruct (digits l) as [a' b']. intros [= <- <-]. cbn. by rewrite (IH a' b').
Qed.

Lemma digits1_app l a b : digits1 l = Some (a, b) -> l = a ++ b /\ a ≠ [].
Proof.
  unfold digits1. destruct (digits l) as [[|x a'] b'] eqn:E; [done |].
  intros [= <- <-]. by apply digits_app in E.
Qed.

Lemma expect_cons c l r : expect c l = Some r -> l = c :: r.
Proof. destruct l as [|x l]; [done |]. cbn. destruct (Z.eqb_spec x c); [|done]. intros [= ->]. congruence. Qed.

Lemma num_int_app l a b : num_int l = Some (a, b) -> l = a ++ b /\ a ≠ [].
Proof.
  unfold num_int. destruct (expect 48 l) eqn:E; [|apply digits1_app].
  intros [= <- <-]. by apply expect_cons in E.
Qed.

Lemma num_frac_app l a b : num_frac l = Some (a, b) -> l = a ++ b.
Proof.
  unfold num_frac. destruct (expect 46 l) eqn:E; [|by intros [= <- <-]].
  intros (a' & [Ha _]%digits1_app & ->)%prod_map_Some. apply expect_cons in E. by subst.
Qed.

Lemma num_exp_app l a b : num_exp l = Some (a, b) -> l = a ++ b.
Proof.
  unfold num_exp. destruct l as [|e l]; [by intros [= <- <-] |].
  destruct (_ || _); [|by intros [= <- <-]]. destruct l as [|s l]; [done |].
  destruct (_ || _); intros (a' & [Ha _]%digits1_app & ->)%prod_map_Some; by rewrite Ha.
Qed.

Lemma number_app l a b : number l = Some (a, b) -> l = a ++ b /\ a ≠ [].
Proof.
  unfold number.
  destruct (match expect 45 l with Some r => ([45], r) | None => ([], l) end) as [s k] eqn:E.
  assert (l = s ++ k) as ->.
  { destruct (expect 45 l) eqn:E2; injection E as <- <-; [by apply expect_cons in E2 | done]. }
  intros ([i l1] & [-> Hi]%num_int_app & H1)%bind_Some.
  apply bind_Some in H1 as ([f l2] & ->%num_frac_app & H2).
  apply bind_Some in H2 as ([e l3] & ->%num_exp_app & H3). injection H3 as <- <-.
  split; [by rewrite <- !app_assoc |]. destruct s, i; done.
Qed.

Lemma strip_length w l r : strip w l = Some r -> length l = (length w + length r)%nat.
Proof.
  revert l. induction w as [|c w IH]; intros l; cbn [strip]; [by intros [= ->] |].
  intros (l' & H%expect_length & Hr)%bind_Some. apply IH in Hr. cbn. lia.
Qed.

Lemma literal_length l j r : literal l = Some (j, r) -> (length r < length l)%nat.
Proof.
  unfold literal. destruct (strip (codes "true") l) eqn:E1.
  { intros [= _ <-]. apply strip_length in E1. cbn in E1. lia. }
  destruct (strip (codes "false") l) eqn:E2.
  { intros [= _ <-]. apply strip_length in E2. cbn in E2. lia. }
  intros (k & H & [= _ <-])%fmap_Some. apply strip_length in H. cbn in H. lia.
Qed.

Lemma res_bind_Ok {A B} (m : res A) (f : A -> res B) b :
  m ≫= f = Ok b <-> exists a, m = Ok a /\ f a = Ok b.
Proof.
  destruct m as [a| |]; split; [by exists a | | done | | done |];
    intros (a' & [= <-] & H); done.
Qed.

Lemma of_option_Ok {A} (o : option A) a : of_option o = Ok a <-> o = Some a.
Proof. destruct o; split; by intros [= ->]. Qed.

(** Take apart a successful read. *)
Ltac ok_inv :=
  repeat match goal with
  | H : mbind _ _ = Ok _ |- _ => apply res_bind_Ok in H as (? & ? & ?)
  | H : of_option _ = Ok _ |- _ => apply of_option_Ok in H
  | H : (let '(_, _) := ?p in _) = Ok _ |- _ => destruct p
  | H : Ok _ = Ok _ |- _ => injection H; clear H; intros; subst
  | H : Bad = Ok _ |- _ => discriminate H
  | H : NoFuel = Ok _ |- _ => discriminate H
  end.

(** What a read leaves is shorter; [IH] are the facts about nested reads. *)
Ltac shrink :=
  repeat match goal with
  | H : expect _ (skip _) = Some _ |- _ => apply expect_skip_length in H
  | H : str_body _ = Some _ |- _ => apply str_body_length in H
  | IH : (forall d l j r, value ?n d l = Ok (j, r) -> _), H : value ?n _ _ = Ok _ |- _ => apply IH in H
  | IH : (forall d l j r, elements ?n d l = Ok (j, r) -> _), H : elements ?n _ _ = Ok _ |- _ => apply IH in H
  | IH : (forall d l j r, members ?n d l = Ok (j, r) -> _), H : members ?n _ _ = Ok _ |- _ => apply IH in H
  end.

(** A value takes at least one byte. *)
Lemma reader_shrinks n :
  (forall d l j r, value n d l = Ok (j, r) -> (length r < length l)%nat)
  /\ (forall d l j r, elements n d l = Ok (j, r) -> (length r < length l)%nat)
  /\ (forall d l j r, members n d l = Ok (j, r) -> (length r < length l)%nat).
Proof.
  induction n as [|n (IHv & IHe & IHm)]; [done |]. split_and!; intros d l j r H; cbn in H.
  - pose proof (skip_length l) as Hs. destruct (skip l) as [|c r0]; [done |]. cbn in Hs.
    destruct (c =? 123); [|destruct (c =? 91); [|destruct (c =? 34); [|destruct (_ || _)]]].
    + destruct d as [|d]; [done |]. destruct (expect 125 (skip r0)) eqn:E; ok_inv.
      * apply expect_skip_length in E. lia.
      * apply IHm in H. lia.
    + destruct d as [|d]; [done |]. destruct (expect 93 (skip r0)) eqn:E; ok_inv.
      * apply expect_skip_length in E. lia.
      * apply IHe in H. lia.
    + ok_inv. apply str_body_length in H. lia.
    + ok_inv. match goal with H : number _ = Some (?s, _) |- _ =>
        apply number_app in H as [H Hne]; apply (f_equal length) in H;
        rewrite length_app in H; destruct s; [done |]; cbn in H; lia end.
    + ok_inv. apply literal_length in H. cbn in H. lia.
  - ok_inv. case_match; ok_inv; shrink; lia.
  - ok_inv. case_match; ok_inv; shrink; lia.
Qed.

(** The bound [enough] is enough. *)
Lemma reader_fuel n :
  (forall d l, (2 * length l < n)%nat -> value n d l ≠ NoFuel)
  /\ (forall d l, (2 * length l + 1 < n)%nat -> elements n d l ≠ NoFuel)
  /\ (forall d l, (2 * length l + 1 < n)%nat -> members n d l ≠ NoFuel).
Proof.
  induction n as [|n (IHv & IHe & IHm)]; [split_and!; lia |].
  pose proof (reader_shrinks n) as (Sv & _ & _).
  split_and!; intros d l Hn; cbn.
  - pose proof (skip_length l) as Hs. destruct (skip l) as [|c r0]; [done |]. cbn in Hs.
    destruct (c =? 123); [|destruct (c =? 91); [|destruct (c =? 34); [|destruct (_ || _)]]].
    + destruct d as [|d]; [done |]. destruct (expect 125 _); [done |].
      specialize (IHm d r0 ltac:(lia)). by destruct (members n d r0) as [[]| |].
    + destruct d as [|d]; [done |]. destruct (expect 93 _); [done |].
      specialize (IHe d r0 ltac:(lia)). by destruct (elements n d r0) as [[]| |].
    + by destruct (str_body r0) as [[]|].
    + by destruct (number (c :: r0)) as [[]|].
    + by destruct (literal (c :: r0)) as [[]|].
  - specialize (IHv d l ltac:(lia)). destruct (value n d l) as [[v r]| |] eqn:E; [|done..].
    apply Sv in E. cbn. destruct (expect 44 (skip r)) as [r'|] eqn:E2.
    + apply expect_skip_length in E2. specialize (IHe d r' ltac:(lia)).
      by destruct (elements n d r') as [[]| |].
    + by destruct (expect 93 (skip r)).
  - destruct (expect 34 (skip l)) as [r1|] eqn:E1; [|done]. cbn.
    destruct (str_body r1) as [[k r2]|] eqn:E2; [|done]. cbn.
    destruct (expect 58 (skip r2)) as [r3|] eqn:E3; [|done]. cbn.
    apply expect_skip_length in E1, E3. apply str_body_length in E2.
    specialize (IHv d r3 ltac:(lia)). destruct (value n d r3) as [[v r]| |] eqn:E; [|done..].
    apply Sv in E. cbn. destruct (expect 44 (skip r)) as [r'|] eqn:E4.
    + apply expect_skip_length in E4. specialize (IHm d r' ltac:(lia)).
      by destruct (members n d r') as [[]| |].
    + by destruct (expect 125 (skip r)).
Qed.

Lemma elements_S n d l :
  elements (S n) d l =
  ('(v, r) ← value n d l;
   match expect 44 (skip r) with
   | Some r' => '(m, r') ← elements n d r'; Ok (v :: m, r')
   | None => r' ← of_option (expect 93 (skip r)); Ok ([v], r')
   end).
Proof. done. Qed.

Lemma members_S n d l :
  members (S n) d l =
  (r ← of_option (expect 34 (skip l));
   '(k, r) ← of_option (str_body r);
   r ← of_option (expect 58 (skip r));
   '(v, r) ← value n d r;
   match expect 44 (skip r) with
   | Some r' => '(m, r') ← members n d r'; Ok ((unquote 0 k, v) :: m, r')
   | None => r' ← of_option (expect 125 (skip r)); Ok ([(unquote 0 k, v)], r')
   end).
Proof. done. Qed.

(** With more fuel the answer is the same. *)
Lemma bind_more {A B} (m m' : res A) (f f' : A -> res B) :
  (m ≠ NoFuel -> m' = m) -> (forall a, f a ≠ NoFuel -> f' a = f a) ->
  m ≫= f ≠ NoFuel -> m' ≫= f' = m ≫= f.
Proof.
  intros Hm Hf. destruct m as [a| |]; cbn; intros H; [|by rewrite Hm | done].
  rewrite Hm by done. by apply Hf.
Qed.

Lemma reader_more n :
  (forall d l, value n d l ≠ NoFuel -> value (S n) d l = value n d l)
  /\ (forall d l, elements n d l ≠ NoFuel -> elements (S n) d l = elements n d l)
  /\ (forall d l, members n d l ≠ NoFuel -> members (S n) d l = members n d l).
Proof.
  induction n as [|n (IHv & IHe & IHm)]; [done |].
  split_and!; intros d l.
  - cbn [value]. destruct (skip l) as [|c r]; [done |].
    repeat case_match; try done; (apply bind_more; [auto | by intros []]).
  - rewrite (elements_S (S n)), (elements_S n).
    apply bind_more; [auto |]. intros [v r]. case_match; [|done].
    apply bind_more; [auto | by intros []].
  - rewrite (members_S (S n)), (members_S n).
    repeat (apply bind_more; [by auto |]; intros ?; repeat case_match; try done).
Qed.

Lemma value_more n m d l : (n <= m)%nat -> value n d l ≠ NoFuel -> value m d l = value n d l.
Proof.
  induction 1 as [|m _ IH]; [done |]. intros H. specialize (IH H).
  rewrite (proj1 (reader_more m)); [done | by rewrite IH].
Qed.

(** A read with any fuel is the read of [read_value]. *)
Lemma read_value_spec n l p : value n max_depth l = Ok p -> read_value l = Some p.
Proof.
  intros H. unfold read_value. generalize max_depth H. clear H. intros d H.
  assert (value (enough l) d l ≠ NoFuel) as Hf by (apply reader_fuel; unfold enough; lia).
  destruct (Nat.le_ge_cases n (enough l)) as [Hn|Hn].
  - rewrite (value_more n) by (done || congruence). by rewrite H.
  - rewrite (value_more _ n) in H by done. by rewrite H.
Qed.

(** ** Strings *)

(** The head of a text is a well-formed sequence of [S n] bytes: they are enough to
    see it, and of a longer sequence every byte has its high bit. *)
Lemma utf8_len_spec l n :
  utf8_len l = S n ->
  exists s r, l = s ++ r /\ length s = S n /\ (forall x, utf8_len (s ++ x) = S n)
    /\ (n = O \/ Forall (fun c => 128 <= c) s).
Proof.
  destruct l as [|a l]; [done |]. cbn. unfold cont, between. intros H.
  destruct (a <? 128) eqn:E1.
  { injection H as <-. exists [a], l. cbn. rewrite E1. split_and!; [done..|by left]. }
  destruct ((194 <=? a) && (a <=? 223)) eqn:E2.
  { destruct l as [|b l]; [done |]. destruct (_ && _) eqn:E3 in H; [|done]. injection H as <-.
    exists [a; b], l. cbn. unfold cont, between. rewrite E1, E2, E3.
    split_and!; [done..|]. right. repeat constructor; lia. }
  destruct ((224 <=? a) && (a <=? 239)) eqn:E3.
  { destruct l as [|b [|c l]]; [done..|]. destruct (_ && _ && _) eqn:E4 in H; [|done]. injection H as <-.
    exists [a; b; c], l. cbn. unfold cont, between. rewrite E1, E2, E3, E4.
    split_and!; [done..|]. right. repeat constructor; [lia | | lia].
    destruct (a =? 224); lia. }
  destruct ((240 <=? a) && (a <=? 244)) eqn:E4; [|done].
  destruct l as [|b [|c [|d l]]]; [done..|]. destruct (_ && _ && _ && _) eqn:E5 in H; [|done].
  injection H as <-.
  exists [a; b; c; d], l. cbn. unfold cont, between. rewrite E1, E2, E3, E4, E5.
  split_and!; [done..|]. right. repeat constructor; [lia | | lia..].
  destruct (a =? 240); lia.
Qed.

Lemma escape_skip s r : escape (length s) (s ++ r) = s ++ escape 0 r.
Proof. induction s; cbn; congruence. Qed.
Lemma coerce_skip s r : coerce (length s) (s ++ r) = s ++ coerce 0 r.
Proof. induction s; cbn; congruence. Qed.
Lemma unquote_skip s r : unquote (length s) (s ++ r) = s ++ unquote 0 r.
Proof. induction s; cbn; congruence. Qed.

(** [p] is the text of the bytes [q] inside a string literal. *)
Definition piece (p q : bytes) : Prop :=
  (forall r, str_body (p ++ r) = prod_map (app p) id <$> str_body r)
  /\ (forall r, unquote 0 (p ++ r) = q ++ unquote 0 r).

Lemma prod_map_app {B} (a b : bytes) (o : option (bytes * B)) :
  prod_map (app (a ++ b)) id <$> o = prod_map (app a) id <$> (prod_map (app b) id <$> o).
Proof. destruct o as [[x y]|]; [|done]. cbn. by rewrite <- app_assoc. Qed.

Lemma piece_nil : piece [] [].
Proof. split; intros r; [|done]. cbn [app]. by destruct (str_body r) as [[]|]. Qed.

Lemma piece_app p q p' q' : piece p q -> piece p' q' -> piece (p ++ p') (q ++ q').
Proof.
  intros [H1 H2] [H1' H2']. split; intros r; rewrite <- !app_assoc.
  - by rewrite H1, H1', prod_map_app.
  - by rewrite H2, H2'.
Qed.

(** Bytes that stand for themselves. *)
Lemma piece_seq s n :
  (forall x, utf8_len (s ++ x) = S n) -> length s = S n ->
  Forall (fun c => 32 <= c /\ c ≠ 34 /\ c ≠ 92) s -> piece s s.
Proof.
  intros Hu Hl Hs. split.
  - clear Hu Hl. induction Hs as [|c s (H1 & H2 & H3) _ IH]; intros r; [by apply piece_nil |].
    cbn. rewrite (proj2 (Z.eqb_neq c 34)), (proj2 (Z.eqb_neq c 92)), (proj2 (Z.ltb_ge c 32)), IH by done.
    by destruct (str_body r) as [[]|].
  - intros r. specialize (Hu r). destruct s as [|c s]; [done |].
    apply Forall_cons in Hs as [(H1 & H2 & H3) _]. cbn [app unquote] in Hu |- *.
    rewrite (proj2 (Z.eqb_neq c 92)), Hu by done. injection Hl as <-. by rewrite unquote_skip.
Qed.

Lemma piece_simple e :
  e ∈ [34; 92; 47; 98; 102; 110; 114; 116] -> piece [92; e] [escaped e].
Proof.
  intros He. assert ((e =? 117) = false) as E by (set_unfold in He; lia).
  split; intros r; cbn; rewrite E; [|done].
  rewrite (bool_decide_true _ He). by destruct (str_body r) as [[]|].
Qed.

Lemma is_hex_digit d : 0 <= d < 16 -> is_hex (hex_digit d) = true /\ default 0 (hexval (hex_digit d)) = d.
Proof.
  intros Hd. assert (forallb (fun d => is_hex (hex_digit d) && (default 0 (hexval (hex_digit d)) =? d))
    (seqZ 0 16) = true) as H by reflexivity.
  rewrite forallb_forall in H. specialize (H d). rewrite <- list_elem_of_In, elem_of_seqZ in H.
  specialize (H ltac:(lia)). lia.
Qed.

Lemma piece_u00 c : 0 <= c < 128 -> piece (u00 c) [c].
Proof.
  intros Hc. destruct (is_hex_digit (c / 16)) as [H1 H1']; [mlia |].
  destruct (is_hex_digit (c mod 16)) as [H2 H2']; [mlia |].
  unfold u00. change (codes "\u00") with [92; 117; 48; 48]. split; intros r.
  - cbn -[is_hex hex_digit]. rewrite H1, H2. change (is_hex 48) with true. cbn [andb].
    by destruct (str_body r) as [[]|].
  - cbn -[hex4 hex_digit encode_rune high low].
    assert (hex4 48 48 (hex_digit (c / 16)) (hex_digit (c mod 16)) = c) as ->.
    { unfold hex4. cbn -[hexval hex_digit]. rewrite H1', H2'. change (default 0 (hexval 48)) with 0. mlia. }
    unfold high, low, between. replace ((55296 <=? c) && (c <=? 56319)) with false by lia.
    replace ((56320 <=? c) && (c <=? 57343)) with false by lia. cbn [orb].
    unfold encode_rune. by replace (c <? 128) with true by lia.
Qed.

Lemma piece_ascii c : 0 <= c < 128 -> piece (escape_ascii c) [c].
Proof.
  intros Hc. unfold escape_ascii.
  destruct ((c =? 34) || (c =? 92)) eqn:E1.
  { assert (c = 34 \/ c = 92) as [-> | ->] by lia.
    - apply (piece_simple 34). set_solver.
    - apply (piece_simple 92). set_solver. }
  do 5 (match goal with |- piece (if c =? ?k then _ else _) _ => destruct (Z.eqb_spec c k) as [->|] end;
    [apply piece_simple; set_solver |]).
  destruct ((c <? 32) || _ || _ || _) eqn:E2; [by apply piece_u00 |].
  apply (piece_seq _ 0); [|done | repeat constructor; lia].
  intros x. cbn. by replace (c <? 128) with true by lia.
Qed.

(** The line separators U+2028 and U+2029, which are escaped. *)
Definition line_sep (l : bytes) : bool :=
  match l with 226 :: 128 :: 168 :: _ | 226 :: 128 :: 169 :: _ => true | _ => false end.

Lemma escape_other c s n :
  line_sep (c :: s) = false -> 128 <= c -> utf8_len (c :: s) = S n ->
  escape 0 (c :: s) = c :: escape n s.
Proof.
  intros Hno Hc E. cbn [escape]. replace (c <? 128) with false by lia. rewrite E.
  unfold line_sep in Hno. repeat (case_match; try done).
Qed.

Lemma piece_sep x : x = 168 \/ x = 169 -> piece (escape 0 [226; 128; x]) [226; 128; x].
Proof.
  intros [-> | ->];
    [change (escape 0 [226; 128; 168]) with [92; 117; 50; 48; 50; 56]
    |change (escape 0 [226; 128; 169]) with [92; 117; 50; 48; 50; 57]];
    (split; intros r; [cbn; by destruct (str_body r) as [[]|] | done]).
Qed.

(** Escaping and unquoting: the text of a string is read back, with its invalid
    bytes replaced. *)
Lemma escape_piece s : bytes_ok s -> piece (escape 0 s) (coerce 0 s).
Proof.
  induction s as [[|c s] IH] using length_ind; intros Hb; [apply piece_nil |].
  pose proof Hb as [Hc Hs]%bytes_ok_cons. unfold is_byte in Hc.
  destruct (Z.ltb_spec c 128) as [Hlt|Hge].
  { cbn [escape coerce utf8_len]. replace (c <? 128) with true by lia.
    change (c :: coerce 0 s) with ([c] ++ coerce 0 s). apply piece_app.
    - apply piece_ascii. lia.
    - apply IH; [cbn; lia | done]. }
  destruct (utf8_len (c :: s)) as [|n] eqn:E.
  { cbn [escape coerce]. rewrite E. replace (c <? 128) with false by lia.
    apply piece_app; [|apply IH; [cbn; lia | done]].
    change (codes "\ufffd") with [92; 117; 102; 102; 102; 100].
    split; intros r; [|done]. cbn. by destruct (str_body r) as [[]|]. }
  destruct (line_sep (c :: s)) eqn:Esep.
  { assert (exists x r, c :: s = [226; 128; x] ++ r /\ (x = 168 \/ x = 169)) as (x & r & Heq & Hx).
    { unfold line_sep in Esep. repeat (case_match; try done); subst; eexists _, _; split; eauto. }
    rewrite Heq in *. injection Heq as -> ->.
    assert (piece (escape 0 [226; 128; x] ++ escape 0 r) ([226; 128; x] ++ coerce 0 r)) as H.
    { apply piece_app; [by apply piece_sep |]. apply IH; [cbn; lia |].
      by apply bytes_ok_app in Hb as [_ Hb]. }
    by destruct Hx; subst. }
  rewrite (escape_other _ _ _ Esep Hge E).
  destruct (utf8_len_spec _ _ E) as (p & r & Heq & Hl & Hp & H128).
  destruct p as [|c' p]; [done |]. injection Heq as <- ->. injection Hl as <-.
  cbn [coerce]. rewrite E, escape_skip, coerce_skip.
  apply (piece_app (c :: p) (c :: p) (escape 0 r) (coerce 0 r)).
  - eapply piece_seq; [exact Hp | done |].
    destruct H128 as [H0|H128]; [destruct p; [|done]; repeat constructor; lia |].
    eapply Forall_impl; [exact H128 |]. cbn. lia.
  - apply IH; [cbn; rewrite length_app; lia |]. by apply bytes_ok_app in Hs as [_ ?].
Qed.

Lemma str_body_quote s rest :
  bytes_ok s -> str_body (escape 0 s ++ 34 :: rest) = Some (escape 0 s, rest).
Proof. intros Hs. rewrite (proj1 (escape_piece s Hs)). cbn. by rewrite app_nil_r. Qed.

Lemma unquote_escape s : bytes_ok s -> unquote 0 (escape 0 s) = coerce 0 s.
Proof.
  intros Hs. rewrite <- (app_nil_r (escape 0 s)), (proj2 (escape_piece s Hs)). apply app_nil_r.
Qed.

(** ASCII text is well-formed. *)
Lemma ascii_utf8_ok l : Forall (fun c => 0 <= c < 128) l -> utf8_ok l.
Proof.
  unfold utf8_ok. induction 1 as [|c l Hc _ IH]; [done |]. cbn.
  replace (c <? 128) with true by lia. by rewrite IH.
Qed.

(** ** Numbers *)

(** A text behind a value that does not continue a number. *)
Definition ends (r : bytes) : Prop :=
  match r with [] => True | c :: _ => is_digit c = false /\ c ∉ [46; 101; 69; 43; 45] end.

Lemma digits_ends l r : ends r -> digits (l ++ r) = prod_map id (fun b => b ++ r) (digits l).
Proof.
  intros Hr. induction l as [|c l IH]; cbn.
  - destruct r as [|c r]; [done |]. destruct Hr as [Hc _]. cbn. by rewrite Hc.
  - destruct (is_digit c); [|done]. rewrite IH. by destruct (digits l).
Qed.

Lemma digits1_ends l r a b : ends r -> digits1 l = Some (a, b) -> digits1 (l ++ r) = Some (a, b ++ r).
Proof.
  intros Hr. unfold digits1. rewrite digits_ends by done.
  destruct (digits l) as [[|x a'] b']; [done |]. cbn. by intros [= <- <-].
Qed.

Lemma expect_app c l r l' : expect c l = Some l' -> expect c (l ++ r) = Some (l' ++ r).
Proof. destruct l as [|x l]; [done |]. cbn. case_match; [|done]. by intros [= ->]. Qed.

Lemma expect_none_app c l r : l ≠ [] -> expect c l = None -> expect c (l ++ r) = None.
Proof. destruct l as [|x l]; [done |]. cbn. by case_match. Qed.

Lemma expect_ends c r : ends r -> c ∈ [46; 101; 69; 43; 45] -> expect c r = None.
Proof.
  intros Hr Hc. destruct r as [|x r]; [done |]. cbn. destruct (Z.eqb_spec x c); [|done].
  subst. by destruct Hr.
Qed.

Lemma num_int_ends l r a b : ends r -> num_int l = Some (a, b) -> num_int (l ++ r) = Some (a, b ++ r).
Proof.
  intros Hr. unfold num_int. destruct (expect 48 l) as [l'|] eqn:E.
  - intros [= <- <-]. by rewrite (expect_app _ _ _ _ E).
  - intros H. rewrite expect_none_app; [by apply digits1_ends | | done]. by intros ->.
Qed.

Lemma num_frac_ends l r a b : ends r -> num_frac l = Some (a, b) -> num_frac (l ++ r) = Some (a, b ++ r).
Proof.
  intros Hr. unfold num_frac. destruct (expect 46 l) as [l'|] eqn:E.
  - intros (a' & H & ->)%prod_map_Some. rewrite (expect_app _ _ _ _ E).
    by rewrite (digits1_ends _ _ _ _ Hr H).
  - intros [= <- <-]. destruct l as [|x l].
    + cbn. by rewrite expect_ends by set_solver.
    + by rewrite expect_none_app.
Qed.

Lemma num_exp_ends l r a b : ends r -> num_exp l = Some (a, b) -> num_exp (l ++ r) = Some (a, b ++ r).
Proof.
  intros Hr. destruct l as [|e l]; cbn.
  - intros [= <- <-]. destruct r as [|c r]; [done |]. destruct Hr as [_ Hc]. cbn.
    replace ((c =? 101) || (c =? 69)) with false; [done |]. set_unfold in Hc. lia.
  - destruct (_ || _); [|by intros [= <- <-]]. destruct l as [|s l]; [done |]. cbn.
    destruct (_ || _); intros (a' & H & ->)%prod_map_Some.
    + by rewrite (digits1_ends _ _ _ _ Hr H).
    + change (s :: l ++ r) with ((s :: l) ++ r). by rewrite (digits1_ends _ _ _ _ Hr H).
Qed.

Lemma number_ends l r a b : ends r -> number l = Some (a, b) -> number (l ++ r) = Some (a, b ++ r).
Proof.
  intros Hr H. assert (l ≠ []) as Hne by (by intros ->). revert H. unfold number.
  set (sign := fun l => match expect 45 l with Some r => ([45], r) | None => ([], l) end).
  assert (sign (l ++ r) = prod_map id (fun k => k ++ r) (sign l)) as Hs.
  { unfold sign. destruct (expect 45 l) as [l'|] eqn:E; [by rewrite (expect_app _ _ _ _ E) |].
    by rewrite expect_none_app. }
  fold (sign l) (sign (l ++ r)). rewrite Hs. destruct (sign l) as [sg k]. cbn [prod_map fst snd id].
  intros ([i l1] & H1 & H)%bind_Some. rewrite (num_int_ends _ _ _ _ Hr H1). cbn.
  apply bind_Some in H as ([f l2] & H2 & H). rewrite (num_frac_ends _ _ _ _ Hr H2). cbn.
  apply bind_Some in H as ([e l3] & H3 & H). rewrite (num_exp_ends _ _ _ _ Hr H3). cbn.
  by injection H as <- <-.
Qed.

(** ** Reading back what was written *)

(** Strings are byte strings, numbers are literals of the syntax. *)
Fixpoint json_ok (j : json) : bool :=
  match j with
  | JNull | JBool _ => true
  | JNum n => bool_decide (number n = Some (n, []))
  | JStr s => bool_decide (bytes_ok s)
  | JArr l => forallb json_ok l
  | JObj l => forallb (fun m => bool_decide (bytes_ok (fst m)) && json_ok (snd m)) l
  end.

Fixpoint depth (j : json) : nat :=
  match j with
  | JArr l => S (max_list (map depth l))
  | JObj l => S (max_list (map (fun m => depth (snd m)) l))
  | _ => 0
  end.

(** The value with the invalid bytes of its strings replaced. *)
Fixpoint norm (j : json) : json :=
  match j with
  | JStr s => JStr (coerce 0 s)
  | JArr l => JArr (map norm l)
  | JObj l => JObj (map (fun m => (coerce 0 (fst m), norm (snd m))) l)
  | _ => j
  end.

Lemma skip_newline o l : skip (newline o ++ l) = skip l.
Proof. destruct o as [k|]; [|done]. cbn. by induction (k + (k + 0))%nat. Qed.

Lemma skip_space o l : skip (space o ++ l) = skip l.
Proof. by destruct o. Qed.

Lemma ends_after c l : c ∈ [44; 93; 125] -> ends (c :: l).
Proof. intros Hc. set_unfold in Hc. cbn. unfold is_digit. split; [lia |]. set_unfold. lia. Qed.

Lemma ends_newline o c l : ends (c :: l) -> ends (newline o ++ c :: l).
Proof. destruct o; [|done]. intros _. cbn. split; [done | set_solver]. Qed.

Lemma num_head n :
  number n = Some (n, []) ->
  exists c r, n = c :: r /\ ((c =? 45) || is_digit c) = true.
Proof.
  destruct n as [|c r]; [done |]. intros H. exists c, r. split; [done |].
  revert H. unfold number. cbn [expect]. destruct (c =? 45); [done |]. cbn [orb].
  intros ([i l1] & H & _)%bind_Some. revert H. unfold num_int, digits1. cbn.
  destruct (Z.eqb_spec c 48) as [->|]; [done |]. by destruct (is_digit c).
Qed.

(** A printed value starts with a byte that is no space and closes no block. *)
Lemma print_head o j :
  json_ok j = true ->
  exists c r, print o j = c :: r /\ json_space c = false /\ c ≠ 93 /\ c ≠ 125.
Proof.
  destruct j as [|[] |n|s|l|l]; cbn [print json_ok]; intros H;
    try (eexists _, _; split; [reflexivity | done]).
  - apply bool_decide_eq_true in H. destruct (num_head n H) as (c & r & -> & Hc).
    exists c, r. split; [done |]. unfold is_digit in Hc. unfold json_space. lia.
  - destruct l; (eexists _, _; split; [reflexivity | done]).
  - destruct l; (eexists _, _; split; [reflexivity | done]).
Qed.

Lemma skip_print o j l : json_ok j = true -> skip (print o j ++ l) = print o j ++ l.
Proof. intros H. destruct (print_head o j H) as (c & r & -> & Hc & _). cbn. by rewrite Hc. Qed.

Lemma value_skip n d l k : skip l = skip k -> value n d l = value n d k.
Proof. intros H. destruct n as [|n]; [done |]. cbn [value]. by rewrite H. Qed.

(** [n] steps and more read [j] at the head of [l], and leave [r]. *)
Definition reads (d : nat) (l : bytes) (j : json) (r : bytes) : Prop :=
  exists n0, forall n, (n0 <= n)%nat -> value n d l = Ok (j, r).

Lemma reads_atom d l j r : value 1 d l = Ok (j, r) -> reads d l j r.
Proof.
  intros H. exists 1%nat. intros n Hn. rewrite <- H. apply value_more; [done | by rewrite H].
Qed.

(** The items of an array, and of an object. *)
Lemma elements_print o o' d l rest :
  l ≠ [] ->
  Forall (fun j => json_ok j = true
    /\ forall r, ends r -> reads d (print o j ++ r) (norm j) r) l ->
  exists n0, forall n, (n0 <= n)%nat ->
    elements n d (commas o (map (print o) l) ++ newline o' ++ 93 :: rest) = Ok (map norm l, rest).
Proof.
  intros Hne Hl. induction Hl as [|j l [Hj Hv] Hl IH]; [done |]. clear Hne.
  assert (forall r, ends r -> reads d (newline o ++ print o j ++ r) (norm j) r) as Hv'.
  { intros r Hr. destruct (Hv r Hr) as [n0 H]. exists n0. intros n Hn. rewrite <- (H n Hn).
    apply value_skip, skip_newline. }
  clear Hv. destruct l as [|j' l].
  - destruct (Hv' (newline o' ++ 93 :: rest)) as [n0 H]; [apply ends_newline, ends_after; set_solver |].
    exists (S n0). intros [|n] Hn; [lia |]. rewrite elements_S. cbn [map commas].
    rewrite <- !app_assoc, H by lia. cbn. by rewrite skip_newline.
  - destruct IH as [n1 IH]; [done |].
    destruct (Hv' (44 :: commas o (map (print o) (j' :: l)) ++ newline o' ++ 93 :: rest))
      as [n0 H]; [apply ends_after; set_solver |].
    exists (S (n0 + n1)). intros [|n] Hn; [lia |]. rewrite elements_S.
    change (commas o (map (print o) (j :: j' :: l)))
      with (newline o ++ print o j ++ 44 :: commas o (map (print o) (j' :: l))).
    rewrite <- !app_assoc. cbn [app]. rewrite H by lia. cbn [mbind res_bind].
    change (skip (44 :: ?l)) with (44 :: l). cbn [expect]. rewrite Z.eqb_refl, IH by lia. done.
Qed.

Definition print_member (o : layout) (m : bytes * json) : bytes :=
  quote (fst m) ++ 58 :: space o ++ print (S <$> o) (snd m).

Lemma members_print o o' o2 d l rest :
  l ≠ [] ->
  Forall (fun m => bytes_ok (fst m)
    /\ forall r, ends r -> reads d (print (S <$> o) (snd m) ++ r) (norm (snd m)) r) l ->
  exists n0, forall n, (n0 <= n)%nat ->
    members n d (commas o2 (map (print_member o) l) ++ newline o' ++ 125 :: rest)
    = Ok (map (fun m => (coerce 0 (fst m), norm (snd m))) l, rest).
Proof.
  intros Hne Hl. induction Hl as [|[k j] l [Hk Hv] Hl IH]; [done |]. clear Hne. cbn in Hk, Hv.
  assert (forall r, ends r -> exists n0, forall n, (n0 <= n)%nat ->
    (r ← of_option (expect 34 (skip (newline o2 ++ print_member o (k, j) ++ r)));
     '(k, r) ← of_option (str_body r);
     r ← of_option (expect 58 (skip r));
     '(v, r) ← value n d r; Ok (k, v, r)) = Ok (escape 0 k, norm j, r)) as Hv'.
  { intros r Hr. destruct (Hv r Hr) as [n0 H]. exists n0. intros n Hn.
    rewrite skip_newline. unfold print_member, quote. cbn -[value]. rewrite <- !app_assoc.
    cbn -[value]. rewrite str_body_quote by done. cbn -[value].
    rewrite <- app_assoc.
    rewrite (value_skip _ _ _ (print (S <$> o) j ++ r)) by apply skip_space. by rewrite H. }
  assert (forall n x y, (r ← of_option (expect 34 (skip x));
     '(k, r) ← of_option (str_body r);
     r ← of_option (expect 58 (skip r));
     '(v, r) ← value n d r; Ok (k, v, r)) = Ok y ->
     members (S n) d x = let '(k, v, r) := y in match expect 44 (skip r) with
     | Some r' => '(m, r') ← members n d r'; Ok ((unquote 0 k, v) :: m, r')
     | None => r' ← of_option (expect 125 (skip r)); Ok ([(unquote 0 k, v)], r')
     end) as Hm.
  { clear. intros n x y H. rewrite members_S. ok_inv. rewrite H. cbn. rewrite H0. cbn. rewrite H1.
    cbn. by rewrite H2. }
  destruct l as [|m' l].
  - destruct (Hv' (newline o' ++ 125 :: rest)) as [n0 H]; [apply ends_newline, ends_after; set_solver |].
    exists (S n0). intros [|n] Hn; [lia |]. cbn [map commas]. rewrite <- app_assoc.
    rewrite (Hm _ _ _ (H n ltac:(lia))), skip_newline. cbn. by rewrite unquote_escape.
  - destruct IH as [n1 IH]; [done |].
    destruct (Hv' (44 :: commas o2 (map (print_member o) (m' :: l)) ++ newline o' ++ 125 :: rest))
      as [n0 H]; [apply ends_after; set_solver |].
    exists (S (n0 + n1)). intros [|n] Hn; [lia |].
    change (commas o2 (map (print_member o) ((k, j) :: m' :: l)))
      with (newline o2 ++ print_member o (k, j) ++ 44 :: commas o2 (map (print_member o) (m' :: l))).
    rewrite <- !app_assoc. cbn [app]. rewrite (Hm _ _ _ (H n ltac:(lia))).
    change (skip (44 :: ?l)) with (44 :: l). cbn [expect]. rewrite Z.eqb_refl, IH by lia.
    cbn. by rewrite unquote_escape.
Qed.

Lemma max_list_le x l n : x ∈ l -> (max_list l <= n)%nat -> (x <= n)%nat.
Proof. intros Hx Hn. pose proof (max_list_elem_of_le x l Hx). lia. Qed.

Lemma skip_block o o' l (f : json -> bytes) c rest :
  l ≠ [] -> (forall j, j ∈ l -> exists b r, f j = b :: r /\ json_space b = false /\ b ≠ c) ->
  expect c (skip (commas o (map f l) ++ newline o' ++ rest)) = None.
Proof.
  intros Hne H. destruct l as [|j l]; [done |]. destruct (H j) as (b & r & E & Hs & Hc); [by left |].
  destruct l; cbn [map commas]; rewrite <- app_assoc, skip_newline, E; cbn; rewrite Hs; cbn;
    by rewrite (proj2 (Z.eqb_neq b c)).
Qed.

Lemma reads_array o d l rest :
  Forall (fun j => json_ok j = true
    /\ forall r, ends r -> reads d (print (S <$> o) j ++ r) (norm j) r) l ->
  reads (S d) (print o (JArr l) ++ rest) (JArr (map norm l)) rest.
Proof.
  intros Hl. destruct l as [|j l]; [by apply reads_atom |].
  set (l0 := j :: l) in *. assert (l0 ≠ []) as Hne by done.
  cbn [print]. unfold block. destruct (map (print (S <$> o)) l0) eqn:El; [done |]. rewrite <- El.
  destruct (elements_print (S <$> o) o d l0 rest Hne Hl) as [n0 H].
  exists (S n0). intros [|n] Hn; [lia |]. cbn [app]. rewrite <- !app_assoc. cbn [app value].
  change (skip (91 :: ?x)) with (91 :: x). cbn [Z.eqb Pos.eqb].
  rewrite skip_block, H; [done | lia | done |].
  intros j' Hj. rewrite Forall_forall in Hl. destruct (Hl j' Hj) as [Hok _].
  destruct (print_head (S <$> o) j' Hok) as (c & r & ? & ? & ? & _). eauto.
Qed.

Lemma reads_object o d l rest :
  Forall (fun m => bytes_ok (fst m)
    /\ forall r, ends r -> reads d (print (S <$> o) (snd m) ++ r) (norm (snd m)) r) l ->
  reads (S d) (print o (JObj l) ++ rest)
    (JObj (map (fun m => (coerce 0 (fst m), norm (snd m))) l)) rest.
Proof.
  intros Hl. destruct l as [|m l]; [by apply reads_atom |].
  set (l0 := m :: l) in *. assert (l0 ≠ []) as Hne by done.
  cbn [print]. change (fun m => quote (fst m) ++ 58 :: space o ++ print (S <$> o) (snd m))
    with (print_member o).
  unfold block. destruct (map (print_member o) l0) eqn:El; [done |]. rewrite <- El.
  destruct (members_print o o (S <$> o) d l0 rest Hne Hl) as [n0 H].
  exists (S n0). intros [|n] Hn; [lia |]. cbn [app]. rewrite <- !app_assoc. cbn [app value].
  change (skip (123 :: ?x)) with (123 :: x). cbn [Z.eqb Pos.eqb].
  assert (expect 125 (skip (commas (S <$> o) (map (print_member o) l0) ++ newline o ++ 125 :: rest))
          = None) as ->.
  { unfold l0. destruct l; cbn [map commas]; rewrite <- app_assoc, skip_newline; done. }
  rewrite H; [done | lia].
Qed.

Lemma reads_print j o d rest :
  json_ok j = true -> (depth j <= d)%nat -> ends rest -> reads d (print o j ++ rest) (norm j) rest.
Proof.
  revert o d rest. induction j as [|b|lit|s|l IH|l IH] using json_nested_ind;
    intros o d rest Hok Hd Hr.
  - by apply reads_atom.
  - destruct b; by apply reads_atom.
  - cbn in Hok. apply bool_decide_eq_true in Hok. apply reads_atom.
    destruct (num_head lit Hok) as (c & r & Hc & Hd').
    pose proof (number_ends _ _ _ _ Hr Hok) as Hn. rewrite Hc in *. cbn -[number is_digit].
    unfold json_space. assert (is_digit c = true -> 48 <= c <= 57) by (unfold is_digit; lia).
    replace ((c =? 32) || (c =? 9) || (c =? 10) || (c =? 13)) with false by lia.
    rewrite (proj2 (Z.eqb_neq c 123)), (proj2 (Z.eqb_neq c 91)), (proj2 (Z.eqb_neq c 34)) by lia.
    cbn [app] in Hn. by rewrite Hd', Hn.
  - cbn in Hok. apply bool_decide_eq_true in Hok. apply reads_atom. cbn [print]. unfold quote.
    cbn. rewrite <- app_assoc. cbn. rewrite str_body_quote by done. cbn. by rewrite unquote_escape.
  - destruct d as [|d]; [cbn in Hd; lia |]. cbn [json_ok depth] in Hok, Hd.
    rewrite forallb_forall in Hok. apply reads_array.
    rewrite Forall_forall in IH |- *. intros j Hj.
    assert (json_ok j = true) by by apply Hok, list_elem_of_In. split; [done |].
    intros r Hr'. apply IH; [done..| | done].
    eapply max_list_le; [|by apply le_S_n]. by apply list_elem_of_fmap_2.
  - destruct d as [|d]; [cbn in Hd; lia |]. cbn [json_ok depth] in Hok, Hd.
    rewrite forallb_forall in Hok. apply reads_object.
    rewrite Forall_forall in IH |- *. intros m Hm.
    pose proof Hm as [Hb%bool_decide_eq_true ?]%list_elem_of_In%Hok%andb_true_iff. split; [done |].
    intros r Hr'. apply IH; [done..| | done].
    eapply max_list_le; [|by apply le_S_n]. by apply (list_elem_of_fmap_2 (fun m => depth (snd m))).
Qed.

Lemma depth_small n : (n <= 100)%nat -> (n <= max_depth)%nat.
Proof.
  intros H. assert ((100 <=? max_depth)%nat = true) as Hd by (vm_compute; reflexivity).
  apply Nat.leb_le in Hd. etrans; [exact H | exact Hd].
Qed.

Lemma read_print j o rest :
  json_ok j = true -> (depth j <= max_depth)%nat -> ends rest ->
  read_value (print o j ++ rest) = Some (norm j, rest).
Proof.
  intros Hj Hd Hr. destruct (reads_print j o max_depth rest Hj Hd Hr) as [n0 H].
  by eapply read_value_spec, H.
Qed.

Lemma read_text_print j o :
  json_ok j = true -> (depth j <= max_depth)%nat -> read_text (print o j) = Some (norm j).
Proof.
  intros Hj Hd. pose proof (read_print j o [] Hj Hd I) as H. rewrite app_nil_r in H.
  unfold read_text. by rewrite H.
Qed.

(** What the encoder writes, the decoder reads: for every JSON value (strings of
    arbitrary bytes, numbers in the syntax, nesting below the limit of 10000) the
    text of json.Marshal and the indented text of an Encoder are read back to the
    value, with every invalid UTF-8 byte of a string replaced by U+FFFD, and a
    stream decoder stops right behind it. *)
Theorem json_roundtrip j o rest :
  json_ok j = true -> (depth j <= max_depth)%nat -> ends rest ->
  read_value (print o j ++ rest) = Some (norm j, rest)
  /\ read_text (print o j) = Some (norm j).
Proof.
  intros Hj Hd Hr. split; [by apply read_print | by apply read_text_print].
Qed.

Lemma json_roundtrip_witness :
  let j := JObj [(codes "id", JStr (codes "a<b" ++ [34; 255; 226; 128; 168]));
                 (codes "n", JArr [JNum (codes "-1.5E+2"); JNull; JArr []])] in
  let rest := codes "{}" in
  read_value (print (Some 1%nat) j ++ rest) = Some (norm j, rest)
  /\ read_text (print (Some 1%nat) j) = Some (norm j).
Proof.
  apply (json_roundtrip
    (JObj [(codes "id", JStr (codes "a<b" ++ [34; 255; 226; 128; 168]));
           (codes "n", JArr [JNum (codes "-1.5E+2"); JNull; JArr []])]) (Some 1%nat) (codes "{}")).
  - vm_compute. reflexivity.
  - apply depth_small. cbn. lia.
  - cbn. split; [done | set_solver].
Defined.

(** The reader of JSON texts ends: the bound [enough] is never used up, and a
    larger one gives the same answer. *)
Theorem json_reader_total l n :
  (enough l <= n)%nat ->
  value n max_depth l ≠ NoFuel
  /\ read_value l = match value n max_depth l with Ok p => Some p | _ => None end.
Proof.
  intros Hn. unfold read_value. generalize max_depth. intros d.
  assert (value (enough l) d l ≠ NoFuel) as H by (apply reader_fuel; unfold enough; lia).
  by rewrite (value_more _ _ _ _ Hn H).
Qed.

Lemma json_reader_total_witness :
  value 1000 max_depth (codes "[1") ≠ NoFuel
  /\ read_value (codes "[1") = match value 1000 max_depth (codes "[1") with Ok p => Some p | _ => None end.
Proof. apply (json_reader_total (codes "[1") 1000). vm_compute. lia. Defined.
