(* ===== verification/JsonCodec.v ===== *)
(** Go values and their JSON: decimal integers (strconv), the codecs of the field
    types the program uses, with the laws of the round trip, and struct fields by
    name as encoding/json finds them. *)
From stdpp Require Import sets.
From S2P Require Import Prelude GoStd GoText GoTime GoJson GoJsonProps.

Local Open Scope Z_scope.

(** ** Decimal integers *)

Fixpoint udigits (n : nat) (z : Z) : bytes :=
  match n with
  | O => []
  | S n => if z <? 10 then [48 + z] else udigits n (z / 10) ++ [48 + z mod 10]
  end.

(** strconv.AppendUint(z, 10) and strconv.AppendInt. *)
Definition utoa (z : Z) : bytes := udigits (S (Z.to_nat (Z.log2 z))) z.
Definition itoa (z : Z) : bytes := if z <? 0 then 45 :: utoa (- z) else utoa z.

Definition dec_value (l : bytes) : Z := foldl (fun a c => a * 10 + (c - 48)) 0 l.

(** strconv.ParseUint(l, 10, bits) and ParseInt(l, 10, 64). *)
Definition parse_uint (bits : Z) (l : bytes) : option Z :=
  if bool_decide (l = []) || negb (forallb is_digit l) then None
  else if dec_value l <? 2 ^ bits then Some (dec_value l) else None.

Definition parse_int64 (l : bytes) : option Z :=
  match expect 45 l with
  | Some r => v ← parse_uint 64 r; if v <=? 2 ^ 63 then Some (- v) else None
  | None => v ← parse_uint 64 l; if v <? 2 ^ 63 then Some v else None
  end.

Lemma udigits_spec n z :
  0 <= z < 2 ^ Z.of_nat n -> (0 < n)%nat ->
  dec_value (udigits n z) = z /\ Forall (fun c => is_digit c = true) (udigits n z)
  /\ exists c r, udigits n z = c :: r /\ (c = 48 -> z = 0 /\ r = []).
Proof.
  revert z. induction n as [|n IH]; intros z Hz Hn; [lia |]. cbn [udigits].
  destruct (Z.ltb_spec z 10) as [Hlt|Hge].
  { split_and!; [cbn; lia | repeat constructor; unfold is_digit; lia |].
    eexists _, _. split; [reflexivity |]. split; [lia | done]. }
  rewrite Nat2Z.inj_succ, Z.pow_succ_r in Hz by lia.
  assert (0 < n)%nat by (destruct n; [cbn in Hz |]; lia).
  destruct (IH (z / 10)) as (Hv & Hd & c & r & E & Hc); [mlia | done |].
  split_and!.
  - unfold dec_value in *. rewrite foldl_app, Hv. cbn. mlia.
  - apply Forall_app. split; [done |]. repeat constructor. unfold is_digit. mlia.
  - exists c, (r ++ [48 + z mod 10]). rewrite E. split; [done |].
    intros H0. destruct (Hc H0) as [Hz0 _]. exfalso. mlia.
Qed.

Lemma utoa_spec z :
  0 <= z ->
  dec_value (utoa z) = z /\ Forall (fun c => is_digit c = true) (utoa z)
  /\ exists c r, utoa z = c :: r /\ (c = 48 -> z = 0 /\ r = []).
Proof.
  intros Hz. apply udigits_spec; [|lia]. split; [done |].
  destruct (Z.eq_dec z 0) as [->|Hnz]; [done |].
  rewrite Nat2Z.inj_succ, Z2Nat.id by apply Z.log2_nonneg. apply Z.log2_spec. lia.
Qed.

Lemma forallb_Forall {A} (f : A -> bool) l : Forall (fun x => f x = true) l -> forallb f l = true.
Proof. induction 1 as [|x l Hx _ IH]; [done |]. cbn. by rewrite Hx. Qed.

Lemma parse_utoa bits z : 0 <= z < 2 ^ bits -> parse_uint bits (utoa z) = Some z.
Proof.
  intros Hz. destruct (utoa_spec z) as (Hv & Hd & c & r & E & _); [lia |]. unfold parse_uint.
  rewrite (forallb_Forall _ _ Hd), Hv, bool_decide_false by (by rewrite E). cbn [orb negb].
  by replace (z <? 2 ^ bits) with true by lia.
Qed.

Lemma is_digit_45 c : is_digit c = true -> c ≠ 45.
Proof. unfold is_digit. lia. Qed.

Lemma expect_45_utoa z : 0 <= z -> expect 45 (utoa z) = None.
Proof.
  intros Hz. destruct (utoa_spec z Hz) as (_ & Hd & c & r & E & _). rewrite E in *.
  apply Forall_cons in Hd as [Hc%is_digit_45 _]. cbn. by rewrite (proj2 (Z.eqb_neq c 45)).
Qed.

Lemma parse_itoa z : - 2 ^ 63 <= z < 2 ^ 63 -> parse_int64 (itoa z) = Some z.
Proof.
  intros Hz. unfold parse_int64, itoa. destruct (Z.ltb_spec z 0) as [Hneg|Hpos].
  - cbn [expect]. rewrite Z.eqb_refl, parse_utoa by lia. cbn.
    replace (- z <=? 2 ^ 63) with true by lia. f_equal. lia.
  - rewrite expect_45_utoa, parse_utoa by lia. cbn. by replace (z <? 2 ^ 63) with true by lia.
Qed.

Lemma digits_all l : Forall (fun c => is_digit c = true) l -> digits l = (l, []).
Proof. induction 1 as [|c l Hc _ IH]; [done |]. cbn. by rewrite Hc, IH. Qed.

Lemma number_utoa z : 0 <= z -> num_int (utoa z) = Some (utoa z, []).
Proof.
  intros Hz. destruct (utoa_spec z Hz) as (_ & Hd & c & r & E & H0). unfold num_int.
  destruct (expect 48 (utoa z)) as [r'|] eqn:E2.
  - apply expect_cons in E2. rewrite E in E2. injection E2 as -> ->.
    destruct (H0 eq_refl) as [-> ->]. by rewrite E.
  - unfold digits1. rewrite digits_all by done. by rewrite E.
Qed.

Lemma number_itoa z : number (itoa z) = Some (itoa z, []).
Proof.
  unfold number, itoa. destruct (Z.ltb_spec z 0).
  - cbn [expect]. rewrite Z.eqb_refl, number_utoa by lia. cbn. by rewrite app_nil_r.
  - rewrite expect_45_utoa, number_utoa by lia. cbn. by rewrite app_nil_r.
Qed.

(** ** Field types *)

Lemma codes_ok s : bytes_ok (codes s).
Proof.
  unfold codes, bytes_ok. apply Forall_map, Forall_true. intros a. cbv beta. unfold is_byte.
  pose proof (Ascii.N_ascii_bounded a). lia.
Qed.

Lemma of_codes_codes s : of_codes (codes s) = s.
Proof.
  unfold of_codes, codes. rewrite map_map.
  rewrite <- (String.string_of_list_ascii_of_string s) at 2. f_equal.
  rewrite <- (map_id (String.list_ascii_of_string s)) at 2. apply map_ext. intros a.
  by rewrite N2Z.id, Ascii.ascii_N_embedding.
Qed.

(** The values of a field type: how json.Marshal writes one and how json.Unmarshal
    stores into a variable that has a value already; null changes nothing. *)
Record codec (A : Type) := Codec {
  zero : A;
  is_zero : A -> bool;
  to_json : A -> json;
  of_json : A -> json -> option A;
  field_ok : A -> Prop;
  is_zero_spec a : is_zero a = true -> a = zero;
  to_json_ok a : json_ok (to_json a) = true /\ depth (to_json a) = 0%nat;
  of_to_json old a : field_ok a -> of_json old (norm (to_json a)) = Some a
}.
Arguments zero {A}.
Arguments is_zero {A}.
Arguments to_json {A}.
Arguments of_json {A}.
Arguments field_ok {A}.
Arguments is_zero_spec {A}.
Arguments to_json_ok {A}.
Arguments of_to_json {A}.

Definition string_of_json (old : string) (j : json) : option string :=
  match j with JNull => Some old | JStr s => Some (of_codes s) | _ => None end.
Definition bool_of_json (old : bool) (j : json) : option bool :=
  match j with JNull => Some old | JBool b => Some b | _ => None end.
Definition uint_of_json (bits : Z) (old : Z) (j : json) : option Z :=
  match j with JNull => Some old | JNum l => parse_uint bits l | _ => None end.
Definition int64_of_json (old : Z) (j : json) : option Z :=
  match j with JNull => Some old | JNum l => parse_int64 l | _ => None end.

Program Definition str : codec string :=
  Codec _ ""%string (fun s => bool_decide (s = ""%string)) (fun s => JStr (codes s)) string_of_json
    (fun s => utf8_ok (codes s)) _ _ _.
Next Obligation. intros s. apply bool_decide_eq_true. Qed.
Next Obligation. intros s. cbn. split; [|done]. apply bool_decide_eq_true, codes_ok. Qed.
Next Obligation. intros old s H. cbn. by rewrite H, of_codes_codes. Qed.

Program Definition boolean : codec bool :=
  Codec _ false negb JBool bool_of_json (fun _ => True) _ _ _.
Next Obligation. by intros []. Qed.
Next Obligation. done. Qed.
Next Obligation. done. Qed.

Lemma itoa_json_ok z : json_ok (JNum (itoa z)) = true /\ depth (JNum (itoa z)) = 0%nat.
Proof. split; [|done]. apply bool_decide_eq_true, number_itoa. Qed.

Program Definition uint (bits : Z) : codec Z :=
  Codec _ 0 (fun z => z =? 0) (fun z => JNum (itoa z)) (uint_of_json bits)
    (fun z => 0 <= z < 2 ^ bits) _ _ _.
Next Obligation. intros _ z. apply Z.eqb_eq. Qed.
Next Obligation. intros _ z. apply itoa_json_ok. Qed.
Next Obligation.
  intros bits old z [Hz1 Hz2]. cbn. unfold itoa. replace (z <? 0) with false by lia.
  by apply parse_utoa.
Qed.

Program Definition int64 : codec Z :=
  Codec _ 0 (fun z => z =? 0) (fun z => JNum (itoa z)) int64_of_json
    (fun z => - 2 ^ 63 <= z < 2 ^ 63) _ _ _.
Next Obligation. intros z. apply Z.eqb_eq. Qed.
Next Obligation. intros z. apply itoa_json_ok. Qed.
Next Obligation. intros old z Hz. by apply parse_itoa. Qed.

(** ** Structs *)

(** foldName: equality of keys up to case; the letters K and S are also matched by
    U+212A and U+017F. *)
Fixpoint fold_name (l : bytes) : bytes :=
  match l with
  | 197 :: 191 :: r => 83 :: fold_name r
  | 226 :: 132 :: 170 :: r => 75 :: fold_name r
  | c :: r => (if between 97 122 c then c - 32 else c) :: fold_name r
  | [] => []
  end.

Definition matches (key : bytes) (name : string) : bool :=
  bool_decide (fold_name key = fold_name (codes name)).

(** The value of the field [name] after the members of an object are stored, in
    order; [None] when one of them has the wrong type. *)
Definition store_fields {A} (c : codec A) (name : string) (ms : list (bytes * json)) (v : option A)
  : option A :=
  foldl (fun v m => if matches (fst m) name then v ≫= (fun old => of_json c old (snd m)) else v) v ms.

Definition get_field {A} (c : codec A) (name : string) (ms : list (bytes * json)) : option A :=
  store_fields c name ms (Some (zero c)).

(** One field of the encoder, with omitempty or not. *)
Definition put_field {A} (c : codec A) (name : string) (omitempty : bool) (a : A)
  : list (bytes * json) :=
  if omitempty && is_zero c a then [] else [(codes name, to_json c a)].

(** No member is for the field [name]. *)
Definition absent (name : string) (ms : list (bytes * json)) : bool :=
  forallb (fun m => negb (matches (fst m) name)) ms.

Lemma store_absent {A} (c : codec A) name ms v :
  absent name ms = true -> store_fields c name ms v = v.
Proof.
  unfold absent, store_fields. revert v. induction ms as [|m ms IH]; intros v; [done |].
  cbn. rewrite andb_true_iff, negb_true_iff. intros [-> H]. by apply IH.
Qed.

Lemma store_app {A} (c : codec A) name ms ks v :
  store_fields c name (ms ++ ks) v = store_fields c name ks (store_fields c name ms v).
Proof. apply foldl_app. Qed.

(** What the decoder sees of the members the encoder wrote. *)
Definition norm_members : list (bytes * json) -> list (bytes * json) :=
  map (fun m => (coerce 0 (fst m), norm (snd m))).

Lemma norm_members_app a b : norm_members (a ++ b) = norm_members a ++ norm_members b.
Proof. apply map_app. Qed.

Definition ascii_name (s : string) : bool := forallb (fun c => c <? 128) (codes s).

Lemma coerce_name s : ascii_name s = true -> coerce 0 (codes s) = codes s.
Proof.
  unfold ascii_name. intros H. apply ascii_utf8_ok. rewrite forallb_forall in H.
  apply Forall_forall. intros c Hc. pose proof (codes_ok s) as Hs. unfold bytes_ok in Hs.
  rewrite Forall_forall in Hs. specialize (Hs c Hc). rewrite list_elem_of_In in Hc.
  apply H in Hc. unfold is_byte in Hs. lia.
Qed.

Lemma put_absent {A} (c : codec A) name name' omit a :
  ascii_name name' = true -> matches (codes name') name = false ->
  absent name (norm_members (put_field c name' omit a)) = true.
Proof.
  intros Ha Hm. unfold put_field, absent. destruct (_ && _); [done |].
  cbn -[matches]. by rewrite coerce_name, Hm.
Qed.

Lemma store_put {A} (c : codec A) name omit a :
  ascii_name name = true -> field_ok c a ->
  store_fields c name (norm_members (put_field c name omit a)) (Some (zero c)) = Some a.
Proof.
  intros Ha Hok. unfold put_field. destruct (omit && is_zero c a) eqn:E.
  - apply andb_true_iff in E as [_ E]. by rewrite (is_zero_spec c a E).
  - cbn -[matches]. rewrite coerce_name by done. unfold matches.
    rewrite bool_decide_true by done. cbn. by apply of_to_json.
Qed.

Lemma absent_app name a b : absent name (a ++ b) = absent name a && absent name b.
Proof. apply forallb_app. Qed.

Lemma absent_put {A} (c : codec A) name name' omit a ks :
  ascii_name name' = true -> matches (codes name') name = false -> absent name ks = true ->
  absent name (norm_members (put_field c name' omit a) ++ ks) = true.
Proof. intros. rewrite absent_app, put_absent; done. Qed.

(** Searching the members of the encoder for a field. *)
Lemma get_skip {A B} (c : codec A) (c' : codec B) name name' omit b ks r :
  ascii_name name' = true -> matches (codes name') name = false ->
  get_field c name ks = r ->
  get_field c name (norm_members (put_field c' name' omit b) ++ ks) = r.
Proof.
  intros Ha Hm. unfold get_field. rewrite store_app, (store_absent _ _ (norm_members _)); [done |].
  by apply put_absent.
Qed.

Lemma get_hit {A} (c : codec A) name omit a ks :
  ascii_name name = true -> field_ok c a -> absent name ks = true ->
  get_field c name (norm_members (put_field c name omit a) ++ ks) = Some a.
Proof.
  intros Ha Hok Hk. unfold get_field. rewrite store_app, store_put, store_absent; done.
Qed.

Ltac computed := vm_compute; reflexivity.

Ltac field_absent := repeat (apply absent_put; [computed | computed |]); reflexivity.

Ltac find_field :=
  first [ apply get_hit; [computed | assumption || exact I | field_absent]
        | apply get_skip; [computed | computed | find_field] ].

Lemma bind_hit {A B} (m : option A) (f : A -> option B) a r :
  m = Some a -> f a = r -> m ≫= f = r.
Proof. by intros ->. Qed.

(** Members whose values are valid and not nested. *)
Definition members_ok (ms : list (bytes * json)) : Prop :=
  forallb (fun m => bool_decide (bytes_ok (fst m)) && json_ok (snd m)) ms = true
  /\ Forall (fun m => depth (snd m) = 0%nat) ms.

Lemma members_ok_app a b : members_ok a -> members_ok b -> members_ok (a ++ b).
Proof.
  intros [H1 H2] [H3 H4]. split; [by rewrite forallb_app, H1, H3 |]. by apply Forall_app.
Qed.

Lemma put_field_ok {A} (c : codec A) name omit a : members_ok (put_field c name omit a).
Proof.
  unfold put_field. destruct (_ && _); [done |]. destruct (to_json_ok c a) as [Hj Hd].
  split; cbn; [rewrite Hj, bool_decide_true by apply codes_ok; done | by repeat constructor].
Qed.

Lemma object_ok ms : members_ok ms -> json_ok (JObj ms) = true /\ (depth (JObj ms) <= 1)%nat.
Proof.
  intros [H1 H2]. split; [done |]. cbn. apply le_n_S. clear H1.
  induction H2 as [|m l Hm _ IH]; [done |]. cbn. rewrite Hm. lia.
Qed.
