(* ===== verification/ObsJson.v ===== *)
(** The JSON form of an observation (the struct tags of internal/observation): what
    the agent prints and posts and what the collector decodes. *)
From stdpp Require Import sets.
From S2P Require Import Prelude GoStd GoText GoTime GoJson GoJsonProps JsonCodec Observation.

Local Open Scope string_scope.
Local Open Scope list_scope.
Local Open Scope Z_scope.

(** json.Marshal of an Observation: the fields in order, each with its tag. *)
Definition obs_members (o : Observation) : list (bytes * json) :=
  put_field str "id" false (ID o) ++ put_field str "node_id" false (NodeID o)
  ++ put_field (uint 8) "hop" false (o_Hop o) ++ put_field str "direction" false (o_Direction o)
  ++ put_field (uint 32) "vni" false (o_VNI o) ++ put_field (uint 16) "vlan" true (o_VLAN o)
  ++ put_field str "action" false (o_Action o) ++ put_field str "protocol" false (o_Protocol o)
  ++ put_field (uint 8) "ip_version" false (o_IPVersion o)
  ++ put_field (uint 32) "ifindex" true (o_IfIndex o) ++ put_field str "iface" true (Iface o)
  ++ put_field str "logical_switch" true (LogicalSwitch o) ++ put_field str "az" true (AZ o)
  ++ put_field str "src_ip" false (SrcIP o) ++ put_field str "dst_ip" false (DstIP o)
  ++ put_field (uint 16) "src_port" true (SrcPort o)
  ++ put_field (uint 16) "dst_port" true (DstPort o)
  ++ put_field str "tcp_flags" true (TCPFlags o) ++ put_field str "iface_type" false (IfaceType o)
  ++ put_field str "timestamp" false (Timestamp o)
  ++ put_field (uint 64) "capture_ns" false (o_CaptureNS o)
  ++ put_field int64 "latency_ns" false (LatencyNS o)
  ++ put_field boolean "clock_skew" true (ClockSkew o).

Definition obs_json (o : Observation) : json := JObj (obs_members o).

(** Decoding into a fresh Observation: null leaves it as it is, a value that is no
    object is an error. *)
Definition obs_of_members (ms : list (bytes * json)) : option Observation :=
  f1 ← get_field str "id" ms; f2 ← get_field str "node_id" ms;
  f3 ← get_field (uint 8) "hop" ms; f4 ← get_field str "direction" ms;
  f5 ← get_field (uint 32) "vni" ms; f6 ← get_field (uint 16) "vlan" ms;
  f7 ← get_field str "action" ms; f8 ← get_field str "protocol" ms;
  f9 ← get_field (uint 8) "ip_version" ms; f10 ← get_field (uint 32) "ifindex" ms;
  f11 ← get_field str "iface" ms; f12 ← get_field str "logical_switch" ms;
  f13 ← get_field str "az" ms; f14 ← get_field str "src_ip" ms;
  f15 ← get_field str "dst_ip" ms; f16 ← get_field (uint 16) "src_port" ms;
  f17 ← get_field (uint 16) "dst_port" ms; f18 ← get_field str "tcp_flags" ms;
  f19 ← get_field str "iface_type" ms; f20 ← get_field str "timestamp" ms;
  f21 ← get_field (uint 64) "capture_ns" ms; f22 ← get_field int64 "latency_ns" ms;
  f23 ← get_field boolean "clock_skew" ms;
  Some (mkObs f1 f2 f3 f4 f5 f6 f7 f8 f9 f10 f11 f12 f13 f14 f15 f16 f17 f18 f19 f20 f21 f22 f23).

Definition obs_of_json (j : json) : option Observation :=
  match j with
  | JNull => obs_of_members []
  | JObj ms => obs_of_members ms
  | _ => None
  end.

(** json.NewDecoder(body).Decode(&o): the first value of the body. *)
Definition decode_obs (body : bytes) : option Observation :=
  '(j, _) ← read_value body; obs_of_json j.

(** What the Go types of the fields guarantee, and text in UTF-8. *)
Definition obs_ok (o : Observation) : Prop :=
  (field_ok str (ID o) /\ field_ok str (NodeID o) /\ field_ok str (o_Direction o)
    /\ field_ok str (o_Action o) /\ field_ok str (o_Protocol o) /\ field_ok str (Iface o)
    /\ field_ok str (LogicalSwitch o) /\ field_ok str (AZ o) /\ field_ok str (SrcIP o)
    /\ field_ok str (DstIP o) /\ field_ok str (TCPFlags o) /\ field_ok str (IfaceType o)
    /\ field_ok str (Timestamp o))
  /\ (field_ok (uint 8) (o_Hop o) /\ field_ok (uint 32) (o_VNI o) /\ field_ok (uint 16) (o_VLAN o)
    /\ field_ok (uint 8) (o_IPVersion o) /\ field_ok (uint 32) (o_IfIndex o)
    /\ field_ok (uint 16) (SrcPort o) /\ field_ok (uint 16) (DstPort o)
    /\ field_ok (uint 64) (o_CaptureNS o) /\ field_ok int64 (LatencyNS o)).

(** ** The round trip *)

(** Every field is written at most once and under its own name. *)
Lemma obs_of_members_norm o : obs_ok o -> obs_of_members (norm_members (obs_members o)) = Some o.
Proof.
  intros Hok. rewrite <- (app_nil_r (obs_members o)). unfold obs_members.
  rewrite <- !app_assoc, !norm_members_app. unfold obs_of_members.
  unfold obs_ok in Hok. destruct_and!.
  repeat (eapply bind_hit; [find_field |]). by destruct o.
Qed.

Lemma obs_json_ok o : json_ok (obs_json o) = true /\ (depth (obs_json o) <= 1)%nat.
Proof. apply object_ok. unfold obs_members. repeat apply members_ok_app; apply put_field_ok. Qed.

Lemma decode_print_obs o l rest :
  obs_ok o -> ends rest -> decode_obs (print l (obs_json o) ++ rest) = Some o.
Proof.
  intros Hok Hr. destruct (obs_json_ok o) as [Hj Hd]. unfold decode_obs.
  rewrite read_print by (done || apply depth_small; lia). by apply obs_of_members_norm.
Qed.

(** C26: The record an agent posts is the record the collector decodes: for every
    observation whose strings are UTF-8, decoding the body json.Marshal wrote,
    whatever follows it in the stream, gives the observation back, fields left out
    by omitempty included; the same holds for the indented text on the agent's
    standard output. *)
Theorem observation_roundtrip o rest :
  obs_ok o -> ends rest ->
  decode_obs (marshal (obs_json o) ++ rest) = Some o
  /\ decode_obs (encode_line (obs_json o) ++ rest) = Some o.
Proof.
  intros Hok Hr. split; [by apply decode_print_obs |].
  unfold encode_line. rewrite <- app_assoc. apply decode_print_obs; [done |].
  split; [done | set_solver].
Qed.

Definition sample_obs : Observation :=
  mkObs "01020304-0506-0708-090a-0b0c0d0e0f10" "node-1" 2 "INGRESS" 5001 0 "FORWARDED" "TCP" 4 7
    "tap<0>" "" "az&1" "10.0.0.1" "10.0.0.2" 40000 80 "SYN|ACK" "REGULAR"
    "2023-11-14T22:13:20.5Z" 18446744073709551615 0 true.

Lemma observation_roundtrip_witness :
  decode_obs (marshal (obs_json sample_obs) ++ codes "{}") = Some sample_obs
  /\ decode_obs (encode_line (obs_json sample_obs) ++ codes "{}") = Some sample_obs.
Proof.
  apply (observation_roundtrip sample_obs (codes "{}")).
  - unfold obs_ok. cbn [field_ok str uint int64]. split; [|cbn; lia].
    repeat split; vm_compute; reflexivity.
  - cbn. split; [done | set_solver].
Defined.

(** The collector accepts keys in any case and ignores unknown ones; a number out of
    range, a string for a number and trailing garbage inside the object are errors. *)
Example decode_cases :
  map (fun s => (fun o => (ID o, o_Hop o)) <$> decode_obs (jtext s))
    ["{'ID':'x','Hop':3,'other':[{}]} trailing"; "{'id':'x','hop':256}"; "{'id':'x','hop':'3'}";
     "{'id':'x','id':null,'hop':255}"; "null"; "[]"; "{'id':'x',}"]%string
  = [Some ("x", 3); None; None; Some ("x", 255); Some ("", 0); None; None]%string.
Proof. vm_compute. reflexivity. Qed.

(** ** What Enrich produces can be shipped *)

(** ASCII text. *)
Definition ascii (s : string) : Prop := Forall (fun c => 0 <= c < 128) (codes s).

Lemma ascii_field s : ascii s -> field_ok str s.
Proof. apply ascii_utf8_ok. Qed.

Lemma ascii_cons a s : ascii (String a "") -> ascii s -> ascii (String a s).
Proof. unfold ascii. cbn. intros H. apply Forall_cons in H as [H _]. by constructor. Qed.

Lemma ascii_app a b : ascii a -> ascii b -> ascii (a +:+ b).
Proof.
  intros Ha Hb. induction a as [|x a IH]; [done |]. unfold ascii in Ha. cbn in Ha.
  apply Forall_cons in Ha as [Hx Ha]. apply ascii_cons; [by repeat constructor; apply Hx |].
  by apply IH.
Qed.

Lemma ascii_closed s : forallb (fun c => (0 <=? c) && (c <? 128)) (codes s) = true -> ascii s.
Proof.
  intros H. rewrite forallb_forall in H. apply Forall_forall. intros c Hc%list_elem_of_In.
  apply H in Hc. lia.
Qed.

Lemma ascii_of_codes l : Forall (fun c => 0 <= c < 128) l -> ascii (of_codes l).
Proof.
  intros H. unfold ascii. rewrite codes_of_codes; [done |].
  eapply Forall_impl; [exact H |]. unfold is_byte. cbn. lia.
Qed.

Create HintDb ascii discriminated.
#[export] Hint Resolve ascii_app ascii_of_codes : ascii.
#[export] Hint Extern 2 (ascii _) => apply ascii_closed; vm_compute; reflexivity : ascii.

Lemma ascii_pretty_N_go x s : ascii s -> ascii (pretty_N_go x s).
Proof.
  revert s. induction (N.lt_wf_0 x) as [x _ IH]; intros s Hs.
  assert (x = 0 \/ 0 < x)%N as [->|Hx] by lia; [by rewrite pretty_N_go_0 |].
  rewrite pretty_N_go_step by done. apply IH; [by apply N.div_lt |].
  apply ascii_cons; [|done]. unfold pretty_N_char. repeat case_match; auto with ascii.
Qed.

Lemma ascii_pretty (z : Z) : ascii (pretty z).
Proof.
  assert (forall n : N, ascii (pretty n)) as H.
  { intros n. unfold pretty, pretty_N. case_decide; [auto with ascii |].
    apply ascii_pretty_N_go. constructor. }
  destruct z as [|p|p]; cbn; [auto with ascii | apply (H (Npos p)) |].
  apply ascii_app; [auto with ascii | apply (H (Npos p))].
Qed.
#[export] Hint Resolve ascii_pretty : ascii.

Lemma ascii_hexdigit d : ascii (Net.hexdigit d).
Proof. unfold Net.hexdigit. repeat case_match; auto with ascii. Qed.
#[export] Hint Resolve ascii_hexdigit : ascii.

Lemma ascii_hex16 v : ascii (Net.hex16 v).
Proof. unfold Net.hex16. repeat apply ascii_app; repeat case_match; auto with ascii. Qed.
#[export] Hint Resolve ascii_hex16 : ascii.

Lemma ascii_render6 zs ze i l : ascii (Net.render6 zs ze i l).
Proof.
  revert i. induction l as [|v l IH]; intros i; cbn; [auto with ascii |].
  repeat case_match; auto with ascii.
Qed.

Lemma ascii_ip ip : ascii (Net.String ip).
Proof.
  unfold Net.String. repeat case_match; [auto with ascii | | | ].
  - apply ascii_app; [auto with ascii |]. clear. induction ip as [|b ip IH]; [auto with ascii |].
    cbn. apply ascii_app; [|done]. unfold Net.hexbyte. auto with ascii.
  - unfold Net.dotted. repeat case_match; auto 20 with ascii.
  - unfold Net.string6. case_match. apply ascii_render6.
Qed.
#[export] Hint Resolve ascii_ip : ascii.

(** Bytes in range, one by one. *)
Ltac ascii_bytes := repeat first [apply Forall_nil_2 | apply Forall_cons_2; [mlia |]].

Lemma ascii_decimals n v : Forall (fun c => 0 <= c < 128) (decimals n v).
Proof.
  revert v. induction n as [|n IH]; intros v; cbn; [constructor |].
  apply Forall_app. split; [apply IH |]. ascii_bytes.
Qed.

Lemma trim_zeros_sub l : trim_zeros l ⊆ l.
Proof.
  induction l as [|c l IH]; [done |]. cbn. repeat case_match; try done. set_solver.
Qed.

Lemma elem_of_rev {A} (x : A) l : x ∈ rev l <-> x ∈ l.
Proof. by rewrite !list_elem_of_In, <- in_rev. Qed.

Lemma ascii_time t : ascii (FormatRFC3339Nano t).
Proof.
  unfold FormatRFC3339Nano. case_match. case_match. apply ascii_of_codes.
  assert (Forall (fun c => 0 <= c < 128) (fraction (UnixNano t mod 1000000000))) as Hf.
  { unfold fraction. case_match; [constructor |]. constructor; [lia |].
    apply Forall_forall. intros c Hc. pose proof (ascii_decimals 9 (UnixNano t mod 1000000000)) as Hd.
    rewrite Forall_forall in Hd. apply Hd. apply elem_of_rev, trim_zeros_sub in Hc.
    by apply elem_of_rev in Hc. }
  assert (Forall (fun c => 0 <= c < 128) (zone_suffix (zone t))) as Hz.
  { unfold zone_suffix. case_match; [ascii_bytes |].
    constructor; [case_match; lia |]. rewrite !Forall_app.
    split_and!; [apply ascii_decimals | ascii_bytes | apply ascii_decimals]. }
  rewrite !Forall_app. split_and!; try apply ascii_decimals; try done; ascii_bytes.
Qed.
#[export] Hint Resolve ascii_time : ascii.

Lemma ascii_uuid id : bytes_ok id -> length id = 16%nat -> ascii (uuid_String id).
Proof.
  intros Hb Hl. apply ascii_of_codes.
  assert (forall b, is_byte b -> Forall (fun c => 0 <= c < 128) (hexpair b)) as Hh.
  { intros b Hb'. unfold is_byte in Hb'. unfold hexpair, hex.
    constructor; [case_match; mlia |]. constructor; [case_match; mlia | constructor]. }
  assert (forall l, bytes_ok l -> Forall (fun c => 0 <= c < 128) (mjoin (map hexpair l))) as Hm.
  { induction 1 as [|b l Hb' _ IH]; [constructor |].
    change (mjoin (map hexpair (b :: l))) with (hexpair b ++ mjoin (map hexpair l)).
    apply Forall_app. auto. }
  unfold uuid_codes. rewrite !Forall_app.
  split_and!; first [by apply Hm; auto using bytes_ok_take, bytes_ok_drop | ascii_bytes].
Qed.

Lemma ascii_join sep l : ascii sep -> Forall ascii l -> ascii (join sep l).
Proof.
  intros Hs. induction 1 as [|x l Hx Hl IH]; [auto with ascii |]. destruct l as [|y l]; [done |].
  change (join sep (x :: y :: l)) with (x +:+ sep +:+ join sep (y :: l)). auto with ascii.
Qed.

Lemma ascii_tcpFlags f : ascii (tcpFlagsString f).
Proof.
  unfold tcpFlagsString. apply ascii_join; [auto with ascii |]. apply Forall_map, Forall_forall.
  assert (Forall (fun n => ascii (snd n)) flag_names) as H by (repeat (apply Forall_cons_2; [by auto with ascii |]); apply Forall_nil_2).
  rewrite Forall_forall in H. intros n [_ Hn]%list_elem_of_filter. by apply H.
Qed.

Lemma ascii_protocol p : ascii (protocolString p).
Proof. unfold protocolString. repeat case_match; auto with ascii. Qed.
#[export] Hint Resolve ascii_tcpFlags ascii_protocol : ascii.

Lemma ascii_if (b : bool) s t : ascii s -> ascii t -> ascii (if b then s else t).
Proof. by destruct b. Qed.
#[export] Hint Resolve ascii_if : ascii.

Lemma i64_range z : - 2 ^ 63 <= i64 z < 2 ^ 63.
Proof. unfold i64. pose proof (u64_range z). case_match; lia. Qed.

Lemma latency_range ts now : 0 <= fst (latency ts now) < 2 ^ 63.
Proof.
  unfold latency. pose proof (i64_range (now - i64 ts)). repeat case_match; cbn; lia.
Qed.

Lemma Enrich_ID ifByIndex r nodeID now cache :
  ID (fst (Enrich ifByIndex r nodeID now cache)) = uuid_String (RawID r).
Proof. unfold Enrich. by destruct (ifName _ _ _), (latency _ _). Qed.

(** The observation of a record, on a host whose names are UTF-8. *)
Lemma Enrich_ok ifByIndex r nodeID now cache :
  Raw_ok r -> bytes_ok (RawID r) -> field_ok str nodeID ->
  (forall i, field_ok str (default "" (ifByIndex i))) ->
  map_Forall (fun _ n => field_ok str n) cache ->
  obs_ok (fst (Enrich ifByIndex r nodeID now cache))
  /\ map_Forall (fun _ n => field_ok str n) (snd (Enrich ifByIndex r nodeID now cache)).
Proof.
  intros Hr Hid Hn Hif Hcache. unfold Enrich.
  destruct (ifName ifByIndex (IfIndex r) cache) as [iface cache'] eqn:Eif.
  assert (field_ok str iface /\ map_Forall (fun _ n => field_ok str n) cache') as [Hi Hc].
  { unfold ifName in Eif. destruct (IfIndex r =? 0); [by injection Eif as <- <- |].
    destruct (cache !! IfIndex r) eqn:Ec; injection Eif as <- <-.
    - split; [by eapply Hcache | done].
    - split; [apply Hif |]. by apply map_Forall_insert_2. }
  pose proof (latency_range (MetaTimestamp r) (UnixNano now)) as Hl.
  destruct (latency _ _) as [lat skew]. cbn [fst snd] in *. split; [|done].
  unfold Raw_ok, fits in Hr. destruct_and!. unfold obs_ok. cbn [ID NodeID o_Direction o_Action o_Protocol
    Iface LogicalSwitch AZ SrcIP DstIP TCPFlags IfaceType Timestamp o_Hop o_VNI o_VLAN o_IPVersion
    o_IfIndex SrcPort DstPort o_CaptureNS LatencyNS].
  split; split_and!; try done; try (apply ascii_field; unfold directionString, actionString, ifaceString, ipString; auto 10 using ascii_uuid with ascii);
    cbn [field_ok uint int64]; repeat case_match; lia.
Qed.
