(* ===== verification/Ovs.v ===== *)
(** internal/ovs: discovering OVN VM ports with ovs-vsctl, ovn-nbctl and ovn-sbctl,
    and the parsers of their OVSDB JSON. *)
From stdpp Require Export gmap strings.
From S2P Require Import Prelude GoStd GoText GoTime GoJson GoJsonProps JsonCodec Watch.

Local Open Scope Z_scope.

(** ** json.Unmarshal into the types of the package *)

(** Into a fresh string and a fresh []string; null leaves them empty. *)
Definition as_string (j : json) : option string := string_of_json ""%string j.

Definition as_strings (j : json) : option (list string) :=
  match j with
  | JNull => Some []
  | JArr l => mapM as_string l
  | _ => None
  end.

(** Into a fresh [][]string. *)
Definition as_pairs (j : json) : option (list (list string)) :=
  match j with
  | JNull => Some []
  | JArr l => mapM as_strings l
  | _ => None
  end.

(** Into a fresh []json.RawMessage. *)
Definition as_raws (j : json) : option (list json) :=
  match j with
  | JNull => Some []
  | JArr l => Some l
  | _ => None
  end.

(** Into the [][]json.RawMessage of the struct; an array replaces what was there. *)
Definition as_rows (j : json) : option (list (list json)) :=
  match j with
  | JNull => Some []
  | JArr l => mapM as_raws l
  | _ => None
  end.

(** The struct of the replies: Data and Headings.  A repeated member is decoded
    over the value of the first one, and a null heading keeps the text it is
    decoded over; [old] is the array behind the slice. *)
Definition as_headings (old : list string) (j : json) : option (list string) :=
  match j with
  | JNull => Some []
  | JArr l => mapM (fun p => string_of_json (default ""%string (old !! fst p)) (snd p)) (imap pair l)
  | _ => None
  end.

Record reply := mkReply { Data : list (list json); Headings : list string; backing : list string }.

Definition store_member (m : bytes * json) (r : reply) : option reply :=
  if matches (fst m) "data" then
    d ← as_rows (snd m); Some (mkReply d (Headings r) (backing r))
  else if matches (fst m) "headings" then
    h ← as_headings (backing r) (snd m);
    Some (mkReply (Data r) h (if bool_decide (h = []) then [] else h ++ drop (length h) (backing r)))
  else Some r.

Definition decode_reply (data : bytes) : option reply :=
  j ← read_text data;
  match j with
  | JNull => Some (mkReply [] [] [])
  | JObj ms => foldl (fun r m => r ≫= store_member m) (Some (mkReply [] [] [])) ms
  | _ => None
  end.

(** ** OVSDB values *)

Definition ovsList (raw : json) : list string :=
  match as_string raw with
  | Some s => [s]
  | None =>
      match as_raws raw with
      | Some [t; items] =>
          match as_string t with
          | Some tag => if bool_decide (tag = "set"%string) then default [] (as_strings items) else []
          | None => []
          end
      | _ => []
      end
  end.

Definition ovsScalar (raw : json) : string :=
  match ovsList raw with s :: _ => s | [] => ""%string end.

Definition ovsMap (raw : json) : gmap string string :=
  match as_raws raw with
  | Some [t; pairs] =>
      match as_string t with
      | Some tag =>
          if negb (bool_decide (tag = "map"%string)) then ∅
          else match as_pairs pairs with
               | None => ∅
               | Some l => foldl (fun out p => match p with [k; v] => <[k := v]> out | _ => out end) ∅ l
               end
      | None => ∅
      end
  | _ => ∅
  end.

(** [m[k]] of a map of strings. *)
Definition get (m : gmap string string) (k : string) : string := default ""%string (m !! k).

(** ** The parsers *)

Record Iface := mkIface { ifc_Name : string; ifc_MAC : string; IfaceID : string }.

(** The last column with this heading; -1 without one. *)
Definition column (h : string) (headings : list string) : Z :=
  foldl (fun c p => if bool_decide (snd p = h) then Z.of_nat (fst p) else c) (-1) (imap pair headings).

(** [row[i]] where the index is in range. *)
Definition cell (row : list json) (i : Z) : option json :=
  if (0 <=? i) && (i <? Z.of_nat (length row)) then row !! Z.to_nat i else None.

(** The body of the loop over the rows; [None] for a row that is skipped. *)
Definition iface_of_row (ni ei mi : Z) (row : list json) : option Iface :=
  name ← cell row ni;
  let eids := match cell row ei with Some e => ovsMap e | None => ∅ end in
  let ifaceID := get eids "iface-id" in
  if bool_decide (ifaceID = ""%string) then None
  else
    let mac := get eids "attached-mac" in
    let mac := if bool_decide (mac = ""%string)
               then match cell row mi with Some m => ovsScalar m | None => mac end
               else mac in
    Some (mkIface (ovsScalar name) mac ifaceID).

Definition ParseInterfaces (data : bytes) : option (list Iface) :=
  r ← decode_reply data;
  let col h := column h (Headings r) in
  Some (omap (iface_of_row (col "name"%string) (col "external_ids"%string) (col "mac_in_use"%string))
          (Data r)).

(** unicode.IsSpace: the number of bytes of the space at the head, 0 for none. *)
Definition space_len (l : bytes) : nat :=
  match l with
  | 194 :: c :: _ => if (c =? 133) || (c =? 160) then 2%nat else 0%nat
  | 225 :: 154 :: 128 :: _ => 3%nat
  | 226 :: 128 :: c :: _ =>
      if GoJson.between 128 138 c || (c =? 168) || (c =? 169) || (c =? 175) then 3%nat else 0%nat
  | 226 :: 129 :: 159 :: _ => 3%nat
  | 227 :: 128 :: 128 :: _ => 3%nat
  | c :: _ => if is_space c then 1%nat else 0%nat
  | [] => 0%nat
  end.

(** strings.Fields: [k] bytes of a space are still to be skipped, [w] is the
    current field. *)
Fixpoint fields_from (k : nat) (w : bytes) (l : bytes) : list bytes :=
  let flush := if bool_decide (w = []) then [] else [w] in
  match l with
  | [] => flush
  | c :: r =>
      match k with
      | S k => fields_from k w r
      | O => match space_len l with
             | O => fields_from 0 (w ++ [c]) r
             | S n => flush ++ fields_from n [] r
             end
      end
  end.

Definition Fields (s : string) : list string := map of_codes (fields_from 0 [] (codes s)).

(** The addresses in the text of one entry. *)
Definition entry_ips (entry : string) : list bytes :=
  filter (fun ip => ip ≠ []) (map ParseIP (Fields entry)).

Definition row_ips (idx : Z) (row : list json) : list bytes :=
  match cell row idx with
  | Some c => mjoin (map entry_ips (ovsList c))
  | None => []
  end.

Definition ParseNBAddresses (data : bytes) : option (list bytes) :=
  r ← decode_reply data;
  let idx := column "addresses" (Headings r) in
  let idx := if idx <? 0 then 0 else idx in
  Some (mjoin (map (row_ips idx) (Data r))).

(** ** Commands *)

Section commands.
(** Standard output of a command, or an error (not found, exit status, timeout). *)
Context (runCmd : string -> list string -> option bytes).

Definition resolveIPs (ifaceID : string) : list bytes :=
  if bool_decide (ifaceID = ""%string) then []
  else
    match runCmd "ovn-nbctl" ["--format=json"; "--columns=addresses"; "list";
                              "Logical_Switch_Port"; ifaceID]%string with
    | None => []
    | Some out => default [] (ParseNBAddresses out)
    end.

Definition port_of (ifc : Iface) : Port :=
  mkPort (ifc_Name ifc) (ifc_MAC ifc) (resolveIPs (IfaceID ifc)).

Definition DiscoverPorts : option (list Port) :=
  out ← runCmd "ovs-vsctl"%string ["--format=json"; "--columns=name,external_ids,mac_in_use";
                                   "list"; "Interface"]%string;
  ifaces ← ParseInterfaces out;
  Some (map port_of ifaces).

Definition LookupPort (name : string) : option Port :=
  out ← runCmd "ovs-vsctl"%string ["--format=json"; "--columns=name,external_ids,mac_in_use";
                                   "find"; "Interface"; "name=" +:+ name]%string;
  ifaces ← ParseInterfaces out;
  port_of <$> head ifaces.

(** The first nonempty value of the keys in the first cell of the rows. *)
Definition row_name (row : list json) : option string :=
  match row with
  | [] => None
  | c :: _ =>
      let eids := ovsMap c in
      head (filter (fun v => v ≠ ""%string) (map (get eids) ["name"; "logical-switch"; "name2"]%string))
  end.

Definition LookupDatapathName (vni : Z) : option string :=
  out ← runCmd "ovn-sbctl"%string ["--format=json"; "--columns=external_ids"; "find";
                                   "Datapath_Binding"; "tunnel_key=" +:+ of_codes (itoa vni)]%string;
  r ← decode_reply out;
  Some (default ""%string (head (omap row_name (Data r)))).
End commands.

(** ** The unit tests of the package (with ' for the double quote) *)

Example test_interfaces :
  ParseInterfaces (jtext "{
	  'data': [
	    ['tap0aaa', ['map', [['attached-mac','52:54:00:aa:bb:01'],['iface-id','lsp-vm1']]], '52:54:00:aa:bb:01'],
	    ['br-int',  ['map', []], ['set', []]],
	    ['tap0bbb', ['map', [['iface-id','lsp-vm2']]], '52:54:00:aa:bb:02']
	  ],
	  'headings': ['name','external_ids','mac_in_use']
	}")
  = Some [mkIface "tap0aaa" "52:54:00:aa:bb:01" "lsp-vm1"; mkIface "tap0bbb" "52:54:00:aa:bb:02" "lsp-vm2"].
Proof. vm_compute. reflexivity. Qed.

Example test_nb_set :
  ParseNBAddresses (jtext "{
	  'data': [[['set', ['52:54:00:aa:bb:01 10.0.0.5 fd00::5', 'dynamic']]]],
	  'headings': ['addresses']
	}") = Some [ParseIP "10.0.0.5"; ParseIP "fd00::5"].
Proof. vm_compute. reflexivity. Qed.

Example test_nb_bare :
  ParseNBAddresses (jtext "{'data': [['52:54:00:aa:bb:02 10.0.0.6']], 'headings': ['addresses']}")
  = Some [ParseIP "10.0.0.6"].
Proof. vm_compute. reflexivity. Qed.

Example test_scalars :
  map (fun s => ovsScalar <$> read_text (jtext s)) ["'tap0'"; "['set',[]]"; "['set',['x']]"; "['set',['x',1]]"; "null"; "3"]%string
  = map Some ["tap0"; ""; "x"; ""; ""; ""]%string
  /\ (fun m => (get m "a", get m "b")) <$> (ovsMap <$> read_text (jtext "['map',[['a','1'],['b','2']]]"))
     = Some ("1", "2")%string.
Proof. vm_compute. done. Qed.
