(* ===== verification/OvsProps.v ===== *)
(** Properties of the OVSDB parsers: they read back the tables OVS and OVN print,
    and a scan makes the tap manager follow the ports in the table. *)
From stdpp Require Import gmap strings sets.
From S2P Require Import Prelude GoStd GoText GoTime GoJson GoJsonProps JsonCodec Observation ObsJson Attach Watch WatchProps Ovs.

Local Open Scope Z_scope.

(** ** The tables as ovs-vsctl and ovn-nbctl print them *)

Definition jstr (s : string) : json := JStr (codes s).
Definition json_set (l : list string) : json := JArr [jstr "set"; JArr (map jstr l)].
Definition json_map (l : list (string * string)) : json :=
  JArr [jstr "map"; JArr (map (fun p => JArr [jstr (fst p); jstr (snd p)]) l)].

(** A row of the table Interface; a column that is unset is an empty set. *)
Record interface := mkInterface {
  i_name : string;
  i_external_ids : list (string * string);
  i_mac_in_use : option string
}.

Definition cell_of (v : interface) (h : string) : json :=
  if bool_decide (h = "name"%string) then jstr (i_name v)
  else if bool_decide (h = "external_ids"%string) then json_map (i_external_ids v)
  else if bool_decide (h = "mac_in_use"%string)
  then match i_mac_in_use v with Some m => jstr m | None => json_set [] end
  else JNull.

Definition table (hs : list string) (rows : list (list json)) : json :=
  JObj [(codes "data", JArr (map JArr rows)); (codes "headings", JArr (map jstr hs))].

(** UTF-8 text. *)
Abbreviation text_ok := (field_ok str).

Definition interface_ok (v : interface) : Prop :=
  text_ok (i_name v) /\ Forall (fun p => text_ok (fst p) /\ text_ok (snd p)) (i_external_ids v)
  /\ match i_mac_in_use v with Some m => text_ok m | None => True end.

(** A value that is read back as it is: valid, not too deep, with UTF-8 strings. *)
Definition plain (d : nat) (j : json) : Prop :=
  json_ok j = true /\ norm j = j /\ (depth j <= d)%nat.

Lemma plain_jstr d s : text_ok s -> plain d (jstr s).
Proof.
  intros Hs. cbn in Hs. unfold plain. cbn. rewrite Hs, bool_decide_true by apply codes_ok.
  split_and!; [done | done | lia].
Qed.

Lemma plain_arr d l : Forall (plain d) l -> plain (S d) (JArr l).
Proof.
  intros Hl. unfold plain. cbn. split_and!.
  - induction Hl as [|j l (Hj & _) _ IH]; [done |]. cbn. by rewrite Hj.
  - f_equal. induction Hl as [|j l (_ & Hj & _) _ IH]; [done |]. cbn. by rewrite Hj, IH.
  - apply le_n_S. induction Hl as [|j l (_ & _ & Hj) _ IH]; [cbn; lia |]. cbn. lia.
Qed.

Lemma plain_obj d l :
  Forall (fun m => ascii_name (fst m) = true /\ plain d (snd m)) l ->
  plain (S d) (JObj (map (fun m => (codes (fst m), snd m)) l)).
Proof.
  intros Hl. unfold plain. cbn. split_and!.
  - induction Hl as [|j l [_ (Hj & _)] _ IH]; [done |]. cbn.
    rewrite Hj, bool_decide_true by apply codes_ok. done.
  - f_equal. induction Hl as [|j l [Hn (_ & Hj & _)] _ IH]; [done |]. cbn.
    by rewrite Hj, IH, coerce_name.
  - apply le_n_S. induction Hl as [|j l [_ (_ & _ & Hj)] _ IH]; [cbn; lia |]. cbn. lia.
Qed.

Lemma plain_null d : plain d JNull.
Proof. split_and!; [done | done | cbn; lia]. Qed.

Lemma text_ok_ascii s : ascii_name s = true -> text_ok s.
Proof. intros H. by apply coerce_name. Qed.

Lemma plain_map d l :
  Forall (fun p => text_ok (fst p) /\ text_ok (snd p)) l -> plain (S (S (S d))) (json_map l).
Proof.
  intros Hl. apply plain_arr. constructor; [by apply plain_jstr, text_ok_ascii |].
  constructor; [|constructor]. apply plain_arr, Forall_map. eapply Forall_impl; [exact Hl |].
  intros p [H1 H2]. apply plain_arr. repeat constructor; by apply plain_jstr.
Qed.

Lemma plain_set d l : Forall text_ok l -> plain (S (S d)) (json_set l).
Proof.
  intros Hl. apply plain_arr. constructor; [by apply plain_jstr, text_ok_ascii |].
  constructor; [|constructor]. apply plain_arr, Forall_map. eapply Forall_impl; [exact Hl |].
  intros s. apply plain_jstr.
Qed.

Lemma plain_cell v h : interface_ok v -> plain 3 (cell_of v h).
Proof.
  intros (H1 & H2 & H3). unfold cell_of.
  repeat case_match;
    first [ by apply plain_jstr | by apply plain_map | apply plain_null
          | apply plain_set; constructor ].
Qed.

Lemma plain_table d hs rows :
  Forall text_ok hs -> Forall (Forall (plain d)) rows -> plain (S (S (S d))) (table hs rows).
Proof.
  intros Hh Hr.
  apply (plain_obj _ [("data"%string, JArr (map JArr rows)); ("headings"%string, JArr (map jstr hs))]).
  repeat (apply Forall_cons_2; [split; [done |]; apply plain_arr, Forall_map |]);
    [..| apply Forall_nil_2].
  - eapply Forall_impl; [exact Hr |]. intros row. apply plain_arr.
  - eapply Forall_impl; [exact Hh |]. intros s. apply plain_jstr.
Qed.

Lemma read_plain o j d : plain d j -> (d <= 100)%nat -> read_text (print o j) = Some j.
Proof.
  intros (H1 & H2 & H3) Hd. rewrite <- H2 at 2.
  apply read_text_print; [done |]. apply depth_small. lia.
Qed.

(** ** Reading the tables *)

Lemma as_string_jstr s : as_string (jstr s) = Some s.
Proof. unfold as_string, jstr. cbn. by rewrite of_codes_codes. Qed.

Lemma mapM_jstr l : mapM as_string (map jstr l) = Some l.
Proof.
  induction l as [|s l IH]; [done |]. cbn [map mapM]. by rewrite as_string_jstr, IH.
Qed.

Lemma mapM_arr (rows : list (list json)) : mapM as_raws (map JArr rows) = Some rows.
Proof. induction rows as [|r rows IH]; [done |]. cbn. by rewrite IH. Qed.

Lemma ovsScalar_jstr s : ovsScalar (jstr s) = s.
Proof. unfold ovsScalar, ovsList. by rewrite as_string_jstr. Qed.

Lemma ovsList_jstr s : ovsList (jstr s) = [s].
Proof. unfold ovsList. by rewrite as_string_jstr. Qed.

Lemma ovsList_set l : ovsList (json_set l) = l.
Proof.
  unfold ovsList, json_set. change (as_string (JArr _)) with (@None string). cbn [as_raws].
  rewrite as_string_jstr. cbn [as_strings]. by rewrite mapM_jstr.
Qed.

(** The map column as a Go map: the last value of a repeated key counts. *)
Definition string_map (l : list (string * string)) : gmap string string :=
  foldl (fun m p => <[fst p := snd p]> m) ∅ l.

Lemma ovsMap_map l : ovsMap (json_map l) = string_map l.
Proof.
  unfold ovsMap, json_map. cbn [as_raws]. rewrite as_string_jstr. cbn [as_pairs].
  rewrite bool_decide_true by done. cbn [negb].
  assert (mapM as_strings (map (fun p => JArr [jstr (fst p); jstr (snd p)]) l)
          = Some (map (fun p => [fst p; snd p]) l)) as ->.
  { induction l as [|p l IH]; [done |]. cbn [map mapM]. rewrite IH. cbn.
    by rewrite !of_codes_codes. }
  unfold string_map. generalize (∅ : gmap string string).
  induction l as [|p l IH]; intros m; [done |]. cbn. apply IH.
Qed.

(** Into an empty struct. *)
Lemma as_headings_jstr hs : as_headings [] (JArr (map jstr hs)) = Some hs.
Proof.
  cbn [as_headings].
  assert (forall k, mapM (fun p => string_of_json (default ""%string (([] : list string) !! fst p)) (snd p))
    (imap (fun i j => ((k + i)%nat, j)) (map jstr hs)) = Some hs) as H.
  { induction hs as [|h hs IH]; intros k; [done |]. cbn [map imap mapM]. cbn.
    rewrite of_codes_codes. cbn.
    specialize (IH (S k)). erewrite imap_ext; [rewrite IH; done |].
    intros i x _. cbn. f_equal. lia. }
  apply (H 0%nat).
Qed.

Lemma decode_table o d hs rows :
  (d <= 90)%nat -> Forall text_ok hs -> Forall (Forall (plain d)) rows ->
  decode_reply (print o (table hs rows)) = Some (mkReply rows hs hs).
Proof.
  intros Hd Hh Hr. unfold decode_reply.
  rewrite (read_plain _ _ (S (S (S d)))) by (apply plain_table || lia; done). cbn [mbind option_bind].
  unfold table. cbn [foldl mbind option_bind]. unfold store_member. cbn [fst snd].
  change (matches (codes "data") "data") with true. cbn [as_rows].
  rewrite mapM_arr. cbn [mbind option_bind].
  change (matches (codes "headings") "data") with false.
  change (matches (codes "headings") "headings") with true. cbn [backing].
  rewrite as_headings_jstr. cbn. rewrite drop_nil, app_nil_r. by case_bool_decide; subst.
Qed.

Lemma column_snoc h hs x :
  column h (hs ++ [x]) = if bool_decide (x = h) then Z.of_nat (length hs) else column h hs.
Proof.
  unfold column. rewrite imap_app, foldl_app. cbn. by rewrite Nat.add_0_r.
Qed.

(** The last column with a heading. *)
Lemma column_spec h hs :
  (h ∉ hs /\ column h hs = -1)
  \/ exists i, hs !! i = Some h /\ column h hs = Z.of_nat i.
Proof.
  induction hs as [|x hs IH] using rev_ind; [left; split; [set_solver | done] |].
  rewrite column_snoc. case_bool_decide as Hx.
  - right. exists (length hs). subst. by rewrite list_lookup_middle.
  - destruct IH as [[Hn ->]|(i & Hi & ->)]; [left; set_solver |].
    right. exists i. split; [|done]. by apply lookup_app_l_Some.
Qed.

Lemma cell_column {A} (f : A -> string -> json) v h hs :
  h ∈ hs -> cell (map (f v) hs) (column h hs) = Some (f v h).
Proof.
  intros Hin. destruct (column_spec h hs) as [[Hn _]|(i & Hi & ->)]; [done |].
  pose proof (lookup_lt_Some _ _ _ Hi). unfold cell. rewrite length_map.
  replace ((0 <=? Z.of_nat i) && (Z.of_nat i <? Z.of_nat (length hs))) with true by lia.
  rewrite Nat2Z.id. change (map (f v) hs) with (f v <$> hs). by rewrite list_lookup_fmap, Hi.
Qed.

(** ** Interfaces *)

(** The VIF of a row: an interface with an iface-id, under the MAC of the VM or
    else the one in use. *)
Definition vif (v : interface) : option Iface :=
  let eids := string_map (i_external_ids v) in
  let id := get eids "iface-id" in
  let mac := get eids "attached-mac" in
  if bool_decide (id = ""%string) then None
  else Some (mkIface (i_name v)
               (if bool_decide (mac = ""%string) then default ""%string (i_mac_in_use v) else mac) id).

Definition interface_columns (hs : list string) : Prop :=
  Forall text_ok hs
  /\ "name"%string ∈ hs /\ "external_ids"%string ∈ hs /\ "mac_in_use"%string ∈ hs.

Lemma iface_of_row_vif hs v :
  interface_columns hs ->
  iface_of_row (column "name" hs) (column "external_ids" hs) (column "mac_in_use" hs)
    (map (cell_of v) hs) = vif v.
Proof.
  intros (_ & H1 & H2 & H3). unfold iface_of_row, vif. rewrite !cell_column by done.
  cbn [mbind option_bind]. change (cell_of v "name") with (jstr (i_name v)).
  change (cell_of v "external_ids") with (json_map (i_external_ids v)).
  change (cell_of v "mac_in_use")
    with (match i_mac_in_use v with Some m => jstr m | None => json_set [] end).
  rewrite ovsMap_map, ovsScalar_jstr.
  case_bool_decide; [done |]. case_bool_decide; [|done].
  destruct (i_mac_in_use v); cbn [default]; [by rewrite ovsScalar_jstr |].
  unfold ovsScalar. by rewrite ovsList_set.
Qed.

Lemma parse_interfaces_table o hs vs :
  interface_columns hs -> Forall interface_ok vs ->
  ParseInterfaces (print o (table hs (map (fun v => map (cell_of v) hs) vs))) = Some (omap vif vs).
Proof.
  intros Hh Hv. unfold ParseInterfaces. rewrite (decode_table o 3); [|lia | apply Hh |].
  - cbn [mbind option_bind Headings Data]. f_equal.
    induction vs as [|v vs IH]; [done |]. apply Forall_cons in Hv as [_ Hv]. cbn [map omap list_omap].
    rewrite iface_of_row_vif by done. by rewrite IH.
  - apply Forall_map. eapply Forall_impl; [exact Hv |]. intros v Hok. apply Forall_map, Forall_true.
    intros h. by apply plain_cell.
Qed.

(** ** Addresses *)

(** A word of an entry: ASCII, not empty, without spaces. *)
Definition word_ok (w : string) : Prop :=
  w ≠ ""%string /\ Forall (fun c => 0 <= c < 128 /\ is_space c = false) (codes w).

(** One entry of the column addresses: words separated by single spaces. *)
Definition entry (ws : list string) : string := Observation.join " " ws.

Lemma space_len_ascii c r : c < 128 -> space_len (c :: r) = if is_space c then 1%nat else 0%nat.
Proof. intros Hc. unfold space_len. repeat (case_match; try done; try lia). Qed.

Lemma codes_app a b : codes (a +:+ b) = codes a ++ codes b.
Proof.
  unfold codes. rewrite <- map_app. f_equal.
  induction a as [|x a IH]; [done | exact (f_equal (cons x) IH)].
Qed.

Lemma fields_word w v r :
  Forall (fun c => 0 <= c < 128 /\ is_space c = false) w ->
  fields_from 0 v (w ++ r) = fields_from 0 (v ++ w) r.
Proof.
  intros Hw. revert v. induction Hw as [|c w [Hc Hs] _ IH]; intros v; [by rewrite app_nil_r |].
  cbn [app fields_from]. rewrite space_len_ascii, Hs, IH by lia. by rewrite <- app_assoc.
Qed.

Lemma codes_nil w : codes w = [] -> w = ""%string.
Proof. by destruct w. Qed.

Lemma fields_entry ws : Forall word_ok ws -> Fields (entry ws) = ws.
Proof.
  intros Hws. unfold Fields, entry.
  enough (fields_from 0 [] (codes (Observation.join " " ws)) = map codes ws) as ->.
  { rewrite map_map. rewrite <- (map_id ws) at 2. apply map_ext, of_codes_codes. }
  induction Hws as [|w ws [Hne Hw] Hws IH]; [done |].
  assert (codes w ≠ []) as Hne' by (intros ?%codes_nil; done).
  destruct ws as [|w' ws].
  - cbn [Observation.join map]. rewrite <- (app_nil_r (codes w)) at 1. rewrite fields_word by done.
    cbn. by rewrite bool_decide_false.
  - change (Observation.join " " (w :: w' :: ws)) with (w +:+ " " +:+ Observation.join " " (w' :: ws)).
    rewrite codes_app, fields_word, codes_app by done. cbn [app].
    change (codes " ") with [32]. cbn [app fields_from].
    rewrite space_len_ascii by lia. cbn [is_space]. change (is_space 32) with true.
    rewrite bool_decide_false by done. cbn [app]. by rewrite IH.
Qed.

Lemma entry_ascii ws : Forall word_ok ws -> ascii (entry ws).
Proof.
  intros Hws. apply ascii_join; [auto with ascii |]. eapply Forall_impl; [exact Hws |].
  intros w [_ Hw]. eapply Forall_impl; [exact Hw |]. cbn. tauto.
Qed.

(** A column of type set of strings: one value is printed bare. *)
Definition set_cell (l : list string) : json :=
  match l with [s] => jstr s | _ => json_set l end.

Lemma ovsList_cell l : ovsList (set_cell l) = l.
Proof. unfold set_cell. repeat case_match; subst; auto using ovsList_jstr, ovsList_set. Qed.

Lemma plain_set_cell l : Forall text_ok l -> plain 2 (set_cell l).
Proof.
  intros Hl. unfold set_cell. destruct l as [|s [|]]; try (by apply plain_set).
  apply plain_jstr. by apply Forall_cons in Hl as [? _].
Qed.

(** net.ParseIP gives 16 bytes or nil. *)
Lemma ipv6_finish_length ip ell rest a :
  (length ip <= 16)%nat -> (match ell with Some n => n <= length ip | None => True end)%nat ->
  ipv6_finish ip ell rest = Some a -> length a = 16%nat.
Proof.
  intros Hl He. unfold ipv6_finish. destruct rest; [|done].
  destruct (Nat.ltb_spec (length ip) 16), ell as [n|]; try done; intros [= <-]; [|lia].
  rewrite !length_app, length_take, length_drop, length_make. lia.
Qed.

Lemma ipv4_fields_length l fs v n a :
  (length fs <= 3)%nat -> ipv4_fields l fs v n = Some a -> length a = 4%nat.
Proof.
  revert fs v n. induction l as [|c l IH]; intros fs v n Hf; cbn.
  - destruct (_ && _) eqn:E; [|done]. intros [= <-]. rewrite length_app. cbn. lia.
  - repeat case_match; try done; [by apply IH |]. apply IH. rewrite length_app. cbn. lia.
Qed.

Lemma ipv6_groups_length n l ip ell a :
  (length ip + 2 * n <= 16)%nat -> (match ell with Some k => k <= length ip | None => True end)%nat ->
  ipv6_groups n l ip ell = Some a -> length a = 16%nat.
Proof.
  revert l ip ell. induction n as [|n IH]; intros l ip ell Hl He; cbn [ipv6_groups].
  { by apply ipv6_finish_length; [lia |]. }
  destruct (hex_group l 0 0) as [[[acc d] rest]|]; [|done].
  assert (length (ip ++ be_encode 2 acc) + 2 * n <= 16)%nat as Hl'
    by (rewrite length_app, length_be_encode; lia).
  assert (match ell with Some k => k <= length (ip ++ be_encode 2 acc) | None => True end)%nat as He'
    by (rewrite length_app; destruct ell; lia).
  repeat (case_match; try done); intros Ha; subst;
    try (eapply ipv6_finish_length in Ha; [done | lia | done]);
    try (eapply ipv6_finish_length in Ha; [done | lia | lia]);
    try (eapply IH in Ha; [done | lia | first [done | lia]]).
  all: eapply ipv6_finish_length in Ha; [done | |].
  all: rewrite ?length_app; try (match goal with H : ipv4_text _ = Some _ |- _ =>
    apply ipv4_fields_length in H; cbn; lia end).
Qed.

Lemma ipv6_text_cases l :
  ipv6_text l = Some (make 16)
  \/ (exists r, ipv6_text l = ipv6_groups 8 r [] (Some 0%nat))
  \/ ipv6_text l = ipv6_groups 8 l [] None.
Proof.
  unfold ipv6_text. generalize (ipv6_groups 8). intros G.
  destruct l as [|a [|b r]]; [by right; right | by right; right; destruct a; repeat case_match |].
  destruct (Z.eq_dec a 58) as [->|Ha]; [|right; right; repeat (case_match; try done)].
  destruct (Z.eq_dec b 58) as [->|Hb]; [|right; right; repeat (case_match; try done)].
  destruct r; [by left | right; left; by eexists].
Qed.

Lemma ParseIP_length s : ParseIP s ≠ [] -> length (ParseIP s) = 16%nat.
Proof.
  unfold ParseIP. destruct (addr_kind (codes s)) as [[]|]; [| |done].
  - case_bool_decide; [done |]. destruct (ipv6_text (codes s)) as [a|] eqn:E; [|done]. intros _. cbn.
    destruct (ipv6_text_cases (codes s)) as [Hc|[[r Hc]|Hc]]; rewrite E in Hc.
    + by injection Hc as ->.
    + symmetry in Hc. apply ipv6_groups_length in Hc; [done | cbn; lia..].
    + symmetry in Hc. apply ipv6_groups_length in Hc; [done | cbn; lia | done].
  - destruct (ipv4_text (codes s)) as [a|] eqn:E; [|done]. intros _.
    apply ipv4_fields_length in E; [|cbn; lia].
    by rewrite Net.To16_4, length_app, E.
Qed.

(** The table a query for the addresses of logical ports prints. *)
Definition address_table (rows : list (list (list string))) : json :=
  table ["addresses"%string] (map (fun es => [set_cell (map entry es)]) rows).

Lemma mjoin_map_words (es : list (list string)) :
  Forall (Forall word_ok) es ->
  mjoin (map entry_ips (map entry es)) = filter (fun ip => ip ≠ []) (map ParseIP (mjoin es)).
Proof.
  induction 1 as [|ws es Hw _ IH]; [done |]. cbn [map mjoin list_join].
  rewrite map_app, filter_app. f_equal; [|exact IH].
  unfold entry_ips. by rewrite fields_entry.
Qed.

Lemma mjoin_app {A} (a b : list (list A)) : mjoin (a ++ b) = mjoin a ++ mjoin b.
Proof.
  induction a as [|x a IH]; [done |]. change (x ++ mjoin (a ++ b) = (x ++ mjoin a) ++ mjoin b).
  by rewrite IH, app_assoc.
Qed.

Lemma row_cell l : row_ips 0 [set_cell l] = mjoin (map entry_ips l).
Proof.
  change (row_ips 0 [set_cell l]) with (mjoin (map entry_ips (ovsList (set_cell l)))).
  by rewrite ovsList_cell.
Qed.

Lemma rows_words rows :
  Forall (Forall (Forall word_ok)) rows ->
  mjoin (map (row_ips 0) (map (fun es => [set_cell (map entry es)]) rows))
  = filter (fun ip => ip ≠ []) (map ParseIP (mjoin (mjoin rows))).
Proof.
  induction 1 as [|es rows Hes _ IH]; [done |].
  change (mjoin (es :: rows)) with (es ++ mjoin rows). rewrite mjoin_app, map_app, filter_app.
  rewrite <- IH, <- mjoin_map_words, <- row_cell by done. done.
Qed.

(** The addresses of a VM are what OVN says.  For every table of entries (a MAC
    address, IP addresses, words like dynamic or router, separated by spaces) that
    ovn-nbctl prints, in whatever layout and with a single entry bare or as a set,
    ParseNBAddresses returns the words that are IP addresses, in order, and nothing
    else; each is in 16-byte form; and text that is no JSON is an error. *)
Theorem nb_addresses_read o rows :
  Forall (Forall (Forall word_ok)) rows ->
  exists ips, ParseNBAddresses (print o (address_table rows)) = Some ips
    /\ ips = filter (fun ip => ip ≠ []) (map ParseIP (mjoin (mjoin rows)))
    /\ Forall (fun ip => length ip = 16%nat) ips
    /\ forall data, read_text data = None -> ParseNBAddresses data = None.
Proof.
  intros Hrows. eexists. split; [|split; [reflexivity |]].
  - unfold ParseNBAddresses, address_table. rewrite (decode_table o 2); [| lia | |].
    + cbn [mbind option_bind Headings Data]. f_equal.
      change (column "addresses" ["addresses"%string]) with 0. cbn [Z.ltb Z.compare].
      by apply rows_words.
    + apply Forall_cons_2; [by apply text_ok_ascii | apply Forall_nil_2].
    + apply Forall_map. eapply Forall_impl; [exact Hrows |]. intros es Hes.
      constructor; [|constructor]. apply plain_set_cell, Forall_map.
      eapply Forall_impl; [exact Hes |]. intros ws Hws. by apply ascii_field, entry_ascii.
  - split; [|intros data Hd; unfold ParseNBAddresses, decode_reply; by rewrite Hd].
    apply Forall_forall. intros ip [Hne Hin]%list_elem_of_filter.
    apply list_elem_of_fmap in Hin as (w & -> & _). by apply ParseIP_length.
Qed.

Lemma nb_addresses_read_witness :
  let rows := [[["52:54:00:aa:bb:01"; "10.0.0.5"; "fd00::5"]; ["dynamic"]]; []; [["router"]]]%string in
  exists ips, ParseNBAddresses (print (Some 0%nat) (address_table rows)) = Some ips
    /\ ips = filter (fun ip => ip ≠ []) (map ParseIP (mjoin (mjoin rows)))
    /\ Forall (fun ip => length ip = 16%nat) ips
    /\ forall data, read_text data = None -> ParseNBAddresses data = None.
Proof.
  apply (nb_addresses_read (Some 0%nat)
    [[["52:54:00:aa:bb:01"; "10.0.0.5"; "fd00::5"]; ["dynamic"]]; []; [["router"]]]%string).
  repeat (apply Forall_nil_2 || apply Forall_cons_2); (split; [done |]); vm_compute;
    repeat (apply Forall_nil_2 || apply Forall_cons_2); done.
Defined.

(** ** A scan of the tap watcher *)

(** The command the watcher runs, and the one that asks for a VM's addresses. *)
Definition list_interfaces (runCmd : string -> list string -> option bytes) : option bytes :=
  runCmd "ovs-vsctl"%string ["--format=json"; "--columns=name,external_ids,mac_in_use";
                             "list"; "Interface"]%string.

Lemma discover_table runCmd o hs vs :
  list_interfaces runCmd = Some (print o (table hs (map (fun v => map (cell_of v) hs) vs))) ->
  interface_columns hs -> Forall interface_ok vs ->
  DiscoverPorts runCmd = Some (map (port_of runCmd) (omap vif vs)).
Proof.
  intros Hcmd Hh Hv. unfold DiscoverPorts. fold (list_interfaces runCmd). rewrite Hcmd.
  cbn [mbind option_bind]. by rewrite parse_interfaces_table.
Qed.

(** C22: A scan follows OVS.  When ovs-vsctl prints a table of interfaces (columns in
    any order, any layout), the scan attaches exactly taps that are VIFs of the
    table: whatever is attached afterwards is an interface with an iface-id, a tap
    that was attached and still is a VIF keeps its attachment, and every VIF the
    kernel accepts is attached; bridges and internal ports are never touched.  When
    the command fails, nothing changes. *)
Theorem scan_follows_ovs c e runCmd o hs vs s :
  list_interfaces runCmd = Some (print o (table hs (map (fun v => map (cell_of v) hs) vs))) ->
  interface_columns hs -> Forall interface_ok vs ->
  (exists s', reconcileOnce c e (DiscoverPorts runCmd) s = Ret (tt, s')
    /\ (forall n, is_Some (attached s' !! n) ->
          exists v, v ∈ vs /\ i_name v = n /\ get (string_map (i_external_ids v)) "iface-id" ≠ ""%string)
    /\ (forall v f att, v ∈ vs -> vif v = Some f -> attached s !! i_name v = Some att ->
          attached s' !! i_name v = Some att)
    /\ (forall v f, v ∈ vs -> vif v = Some f -> attachable e (port_of runCmd f) ->
          is_Some (attached s' !! i_name v))
    /\ tapsWatched s' = Z.of_nat (size (attached s')))
  /\ (forall runCmd', list_interfaces runCmd' = None ->
        reconcileOnce c e (DiscoverPorts runCmd') s = Ret (tt, s)).
Proof.
  intros Hcmd Hh Hv. split.
  2: { intros r Hr. unfold DiscoverPorts. fold (list_interfaces r). by rewrite Hr. }
  rewrite (discover_table _ _ _ _ Hcmd Hh Hv). cbn [reconcileOnce].
  destruct (reconcile_follows_ports c e (map (port_of runCmd) (omap vif vs)) s)
    as (s' & Hs & Honly & Hkeep & Hnew & Hg).
  assert (forall v f, v ∈ vs -> vif v = Some f ->
    port_of runCmd f ∈ map (port_of runCmd) (omap vif vs) /\ Name (port_of runCmd f) = i_name v) as Hport.
  { intros v f Hin Hf. split.
    - apply list_elem_of_fmap_2, list_elem_of_omap. eauto.
    - unfold vif in Hf. case_bool_decide; [done |]. by injection Hf as <-. }
  exists s'. split_and!; [done | | | | done].
  - intros n Hn%Honly. apply list_elem_of_fmap in Hn as (p & -> & Hp).
    apply list_elem_of_fmap in Hp as (f & -> & Hf). apply list_elem_of_omap in Hf as (v & Hin & Hf).
    exists v. destruct (Hport _ _ Hin Hf) as [_ Hname]. split_and!; [done | done |].
    unfold vif in Hf. by case_bool_decide.
  - intros v f att Hin Hf. destruct (Hport _ _ Hin Hf) as [Hp <-]. apply Hkeep.
    by apply list_elem_of_fmap_2.
  - intros v f Hin Hf. destruct (Hport _ _ Hin Hf) as [Hp <-]. by apply Hnew.
Qed.

Definition demo_interfaces : list interface :=
  [mkInterface "tap0" [("attached-mac", "52:54:00:aa:bb:01"); ("iface-id", "lsp-vm1")]
     (Some "52:54:00:aa:bb:01");
   mkInterface "br-int" [] None; mkInterface "tap1" [("iface-id", "lsp-vm2")] None]%string.

Definition demo_columns : list string := ["mac_in_use"; "name"; "external_ids"]%string.

(** ovs-vsctl prints the interfaces; ovn-nbctl is not there. *)
Definition demo_cmd (name : string) (args : list string) : option bytes :=
  if bool_decide (name = "ovs-vsctl"%string)
  then Some (marshal (table demo_columns (map (fun v => map (cell_of v) demo_columns) demo_interfaces)))
  else None.

Lemma scan_follows_ovs_witness :
  let e := demo_env demo_index (fun _ => true) in
  (exists s', reconcileOnce demo_config e (DiscoverPorts demo_cmd) demo_taps0 = Ret (tt, s')
    /\ (forall n, is_Some (attached s' !! n) ->
          exists v, v ∈ demo_interfaces /\ i_name v = n
            /\ get (string_map (i_external_ids v)) "iface-id" ≠ ""%string)
    /\ (forall v f att, v ∈ demo_interfaces -> vif v = Some f ->
          attached demo_taps0 !! i_name v = Some att -> attached s' !! i_name v = Some att)
    /\ (forall v f, v ∈ demo_interfaces -> vif v = Some f -> attachable e (port_of demo_cmd f) ->
          is_Some (attached s' !! i_name v))
    /\ tapsWatched s' = Z.of_nat (size (attached s')))
  /\ (forall runCmd', list_interfaces runCmd' = None ->
        reconcileOnce demo_config e (DiscoverPorts runCmd') demo_taps0 = Ret (tt, demo_taps0)).
Proof.
  apply (scan_follows_ovs demo_config (demo_env demo_index (fun _ => true)) demo_cmd None demo_columns
    demo_interfaces demo_taps0).
  - reflexivity.
  - split; [|set_solver].
    repeat (apply Forall_cons_2; [vm_compute; reflexivity |]). apply Forall_nil_2.
  - repeat (apply Forall_cons_2; [split_and!; [vm_compute; reflexivity | | first [exact I | vm_compute; reflexivity]];
      repeat (apply Forall_cons_2; [split; vm_compute; reflexivity |]); apply Forall_nil_2 |]).
    apply Forall_nil_2.
Defined.
