(* ===== verification/Emit.v ===== *)
(** agent/emit.go and readLoop of agent/main.go: each record of the ring buffer is
    decoded, enriched, tagged with the availability zone and the logical switch,
    printed, queued for the collector and handed to the OTLP sink.  The queue is a
    channel of 1024 observations; a goroutine takes from it and posts. *)
From stdpp Require Export gmap strings.
From S2P Require Import Prelude GoStd GoText GoTime GoJson GoJsonProps JsonCodec Observation ObsJson.

Local Open Scope Z_scope.

(** The fields of emitter that do not change. *)
Record emConfig := mkEmConfig { em_nodeID : string; em_az : string }.

(** A buffered channel and the goroutine that ranges over it: [sending] is the
    observation it has taken and not posted yet. *)
Record shipper := mkShipper {
  queue : list Observation;
  closed : bool;
  sending : option Observation;
  posted : list Observation       (* handed to client.Post, oldest first *)
}.

Record emitter := mkEmitter {
  lsCache : gmap Z string;
  stdout : list Observation;            (* given to the JSON encoder *)
  ship : option shipper;                (* None: --collector-url is empty *)
  otlp : option (list Observation)      (* exported; None: no sink *)
}.

Definition queue_cap : nat := 1024.

(** newEmitter: [sink] tells whether the OTLP sink could be made. *)
Definition newEmitter (collectorURL otlpEndpoint : string) (sink : bool) : emitter :=
  mkEmitter ∅ []
    (if bool_decide (collectorURL = ""%string) then None else Some (mkShipper [] false None []))
    (if bool_decide (otlpEndpoint = ""%string) then None else if sink then Some [] else None).

Definition set_AZ (az : string) (o : Observation) : Observation :=
  mkObs (ID o) (NodeID o) (o_Hop o) (o_Direction o) (o_VNI o) (o_VLAN o) (o_Action o) (o_Protocol o)
    (o_IPVersion o) (o_IfIndex o) (Iface o) (LogicalSwitch o) az (SrcIP o) (DstIP o) (SrcPort o)
    (DstPort o) (TCPFlags o) (IfaceType o) (Timestamp o) (o_CaptureNS o) (LatencyNS o) (ClockSkew o).

Definition set_LogicalSwitch (n : string) (o : Observation) : Observation :=
  mkObs (ID o) (NodeID o) (o_Hop o) (o_Direction o) (o_VNI o) (o_VLAN o) (o_Action o) (o_Protocol o)
    (o_IPVersion o) (o_IfIndex o) (Iface o) n (AZ o) (SrcIP o) (DstIP o) (SrcPort o)
    (DstPort o) (TCPFlags o) (IfaceType o) (Timestamp o) (o_CaptureNS o) (LatencyNS o) (ClockSkew o).

(** The send in the select of emit: a full queue drops, a closed one panics. *)
Definition enqueue (o : Observation) (q : shipper) : go shipper :=
  if closed q then Panic
  else if (length (queue q) <? queue_cap)%nat
  then mret (mkShipper (queue q ++ [o]) false (sending q) (posted q))
  else mret q.

Section emitter.
Context (c : emConfig).

(** logicalSwitch: [lookup] is what ovs.LookupDatapathName returns now. *)
Definition logicalSwitch (lookup : Z -> option string) (vni : Z) : st emitter string :=
  e ← getS;
  match lsCache e !! vni with
  | Some n => mret n
  | None =>
      let name := default ""%string (lookup vni) in
      _ ← modS (fun e => mkEmitter (<[vni := name]> (lsCache e)) (stdout e) (ship e) (otlp e));
      mret name
  end.

Definition emit (lookup : Z -> option string) (obs : Observation) : st emitter unit :=
  let obs := set_AZ (em_az c) obs in
  obs ← (if negb (o_VNI obs =? 0)
         then n ← logicalSwitch lookup (o_VNI obs); mret (set_LogicalSwitch n obs)
         else mret obs);
  _ ← modS (fun e => mkEmitter (lsCache e) (stdout e ++ [obs]) (ship e) (otlp e));
  e ← getS;
  _ ← (match ship e with
       | None => mret tt
       | Some q => q ← lift (enqueue obs q);
                   modS (fun e => mkEmitter (lsCache e) (stdout e) (Some q) (otlp e))
       end);
  modS (fun e => mkEmitter (lsCache e) (stdout e) (ship e) ((fun l => l ++ [obs]) <$> otlp e)).

(** close(e.queue), which panics on a closed channel. *)
Definition close_queue : st emitter unit :=
  e ← getS;
  match ship e with
  | None => mret tt
  | Some q =>
      if closed q then lift Panic
      else modS (fun e => mkEmitter (lsCache e) (stdout e)
                   (Some (mkShipper (queue q) true (sending q) (posted q))) (otlp e))
  end.
End emitter.

(** ** The goroutine shipLoop *)

(** One step: take the next observation, or post the one that was taken.  [None]:
    it is blocked on an empty open queue, or it has ended. *)
Definition shipStep (q : shipper) : option shipper :=
  match sending q with
  | Some o => Some (mkShipper (queue q) (closed q) None (posted q ++ [o]))
  | None =>
      match queue q with
      | o :: r => Some (mkShipper r (closed q) (Some o) (posted q))
      | [] => None
      end
  end.

(** wg.Wait returns: the loop over the closed channel has ended. *)
Definition finished (q : shipper) : bool :=
  closed q && bool_decide (queue q = []) && bool_decide (sending q = None).

(** The text on standard output, and the body of a post. *)
Definition stdout_text (e : emitter) : bytes := mjoin (map (fun o => encode_line (obs_json o)) (stdout e)).
Definition post_body (o : Observation) : bytes := marshal (obs_json o).

(** ** readLoop *)

(** What rd.Read returns: a record, an error, or ErrClosed. *)
Inductive read_result :=
| Record (raw : bytes)
| ReadError
| Closed.

(** What the loop sees of the host when it handles a record. *)
Record moment := mkMoment {
  now : time;
  ifByIndex : Z -> option string;
  dpName : Z -> option string
}.

Record agent := mkAgent {
  em : emitter;
  ifNames : gmap Z string;        (* the cache of observation.ifName *)
  readErrors : Z;
  parseErrors : Z
}.

(** One iteration; [false] when the loop returns. *)
Definition read_one (c : emConfig) (m : moment) (r : read_result) : st agent bool := fun a =>
  match r with
  | Closed => Ret (false, a)
  | ReadError => Ret (true, mkAgent (em a) (ifNames a) (u64 (readErrors a + 1)) (parseErrors a))
  | Record rec =>
      match Observation.Parse rec with
      | None => Ret (true, mkAgent (em a) (ifNames a) (readErrors a) (u64 (parseErrors a + 1)))
      | Some raw =>
          let '(obs, names) := Enrich (ifByIndex m) raw (em_nodeID c) (now m) (ifNames a) in
          '(_, e) ← emit c (dpName m) obs (em a);
          Ret (true, mkAgent e names (readErrors a) (parseErrors a))
      end
  end.

(** The loop over what the ring buffer gives; it returns at ErrClosed. *)
Fixpoint readLoop (c : emConfig) (reads : list (moment * read_result)) : st agent bool :=
  match reads with
  | [] => mret true
  | (m, r) :: reads =>
      more ← read_one c m r;
      if more : bool then readLoop c reads else mret false
  end.

(** ** The agent and its shipper as a transition system *)

(** The reading goroutine handles a record or closes the queue at the end; the
    shipping goroutine takes its steps in between. *)
Inductive agent_step (c : emConfig) : agent -> agent -> Prop :=
| step_read m r b a a' : read_one c m r a = Ret (b, a') -> agent_step c a a'
| step_close a e : close_queue (em a) = Ret (tt, e) ->
    agent_step c a (mkAgent e (ifNames a) (readErrors a) (parseErrors a))
| step_ship a q q' : ship (em a) = Some q -> shipStep q = Some q' ->
    agent_step c a (mkAgent (mkEmitter (lsCache (em a)) (stdout (em a)) (Some q') (otlp (em a)))
                      (ifNames a) (readErrors a) (parseErrors a)).

Inductive agent_reachable (c : emConfig) (e0 : emitter) : agent -> Prop :=
| agent_start : agent_reachable c e0 (mkAgent e0 ∅ 0 0)
| agent_next a a' : agent_reachable c e0 a -> agent_step c a a' -> agent_reachable c e0 a'.
