(* ===== verification/EmitProps.v ===== *)
(** Properties of the emitter and the read loop: what is printed, what is queued,
    shipped and dropped, and that shipping ends when the agent shuts down. *)
From stdpp Require Import gmap strings sets.
From S2P Require Import Prelude GoStd GoText GoTime GoJson GoJsonProps JsonCodec Observation ObsJson Emit.

Local Open Scope Z_scope.

(** What the shipper has accepted, oldest first. *)
Definition accepted (q : shipper) : list Observation :=
  posted q ++ option_list (sending q) ++ queue q.

(** ** One observation *)

(** The queue after a send that does not panic. *)
Definition offered (o : Observation) (q : shipper) : shipper :=
  if (length (queue q) <? queue_cap)%nat
  then mkShipper (queue q ++ [o]) (closed q) (sending q) (posted q) else q.

Definition open (e : emitter) : Prop := match ship e with Some q => closed q = false | None => True end.

#[export] Instance open_dec e : Decision (open e).
Proof. unfold open. destruct (ship e); apply _. Defined.

(** The name of the logical switch, and the cache afterwards. *)
Definition switch_of (lookup : Z -> option string) (vni : Z) (cache : gmap Z string)
  : string * gmap Z string :=
  match cache !! vni with
  | Some n => (n, cache)
  | None => let n := default ""%string (lookup vni) in (n, <[vni := n]> cache)
  end.

Definition tagged (c : emConfig) (lookup : Z -> option string) (o : Observation) (cache : gmap Z string)
  : Observation * gmap Z string :=
  let o := set_AZ (em_az c) o in
  if o_VNI o =? 0 then (o, cache)
  else let '(n, cache) := switch_of lookup (o_VNI o) cache in (set_LogicalSwitch n o, cache).

Definition emitted (c : emConfig) (lookup : Z -> option string) (o : Observation) (e : emitter) : emitter :=
  let '(o, cache) := tagged c lookup o (lsCache e) in
  mkEmitter cache (stdout e ++ [o]) (offered o <$> ship e) ((fun l => l ++ [o]) <$> otlp e).

Lemma emit_eq c lookup o e :
  emit c lookup o e = if decide (open e) then Ret (tt, emitted c lookup o e) else Panic.
Proof.
  destruct e as [cache out [[qu cl se po]|] exp].
  2: { rewrite decide_True by done. unfold emit, emitted, tagged, switch_of, logicalSwitch.
       unfold mbind, st_bind, mret, st_ret, modS, getS. cbn.
       destruct (o_VNI o =? 0); cbn; [done |]. by destruct (cache !! o_VNI o). }
  destruct cl; [rewrite decide_False by (by cbn) | rewrite decide_True by done];
    unfold emit, emitted, tagged, switch_of, logicalSwitch, enqueue, offered;
    unfold mbind, st_bind, mret, st_ret, modS, getS, lift; cbn -[Nat.ltb];
    (destruct (o_VNI o =? 0); cbn -[Nat.ltb]; [|destruct (cache !! o_VNI o); cbn -[Nat.ltb]]);
    try done; by destruct (length qu <? queue_cap)%nat.
Qed.

Lemma accepted_offered o q :
  accepted (offered o q)
  = accepted q ++ (if (length (queue q) <? queue_cap)%nat then [o] else []).
Proof.
  unfold offered, accepted. destruct (_ <? _)%nat; cbn; [|by rewrite app_nil_r].
  by rewrite <- !app_assoc.
Qed.

Lemma accepted_step q q' : shipStep q = Some q' -> accepted q' = accepted q.
Proof.
  unfold shipStep, accepted. destruct q as [qu cl [o|] po]; cbn.
  - intros [= <-]. cbn. by rewrite <- app_assoc.
  - destruct qu; [done |]. by intros [= <-].
Qed.

(** ** Invariant of the agent *)

Record agent_inv (c : emConfig) (e : emitter) : Prop := {
  inv_az : Forall (fun o => AZ o = em_az c) (stdout e);
  inv_otlp l : otlp e = Some l -> l = stdout e;
  inv_cap q : ship e = Some q -> (length (queue q) <= queue_cap)%nat;
  inv_order q : ship e = Some q -> accepted q `sublist_of` stdout e;
  inv_all q : ship e = Some q -> (length (stdout e) <= queue_cap)%nat -> accepted q = stdout e
}.

Lemma new_inv c url ep sink : agent_inv c (newEmitter url ep sink).
Proof.
  unfold newEmitter. split; cbn; [apply Forall_nil_2 | | | |];
    repeat case_match; try done; intros ? [= <-]; done || (cbn; lia).
Qed.

Lemma emitted_inv c lookup o e : agent_inv c e -> agent_inv c (emitted c lookup o e).
Proof.
  intros [Haz Hot Hcap Hord Hall]. unfold emitted.
  destruct (tagged c lookup o (lsCache e)) as [o' cache] eqn:Et. split; cbn.
  - apply Forall_app. split; [done |]. apply Forall_cons_2; [|apply Forall_nil_2].
    unfold tagged, switch_of in Et. repeat case_match; by simplify_eq.
  - intros l. destruct (otlp e) as [l'|]; [|done]. intros [= <-]. by rewrite (Hot l').
  - intros q. destruct (ship e) as [q0|]; [|done]. intros [= <-]. specialize (Hcap q0 eq_refl).
    unfold offered. case_match; [|done]. cbn. rewrite length_app. cbn. lia.
  - intros q. destruct (ship e) as [q0|]; [|done]. intros [= <-]. rewrite accepted_offered.
    apply sublist_app; [by apply Hord |]. case_match; [done | apply sublist_nil_l].
  - intros q. destruct (ship e) as [q0|]; [|done]. intros [= <-]. rewrite length_app. cbn. intros Hl.
    rewrite accepted_offered, (Hall q0) by (done || lia). f_equal.
    assert (length (queue q0) <= length (stdout e))%nat.
    { rewrite <- (Hall q0) by (done || lia). unfold accepted. rewrite !length_app. lia. }
    by replace (length (queue q0) <? queue_cap)%nat with true by lia.
Qed.

Lemma read_one_inv c m r b a a' :
  read_one c m r a = Ret (b, a') -> agent_inv c (em a) -> agent_inv c (em a').
Proof.
  destruct r as [rec| |]; cbn; [|by intros [= <- <-]..].
  destruct (Parse rec) as [raw|]; [|by intros [= <- <-]].
  destruct (Enrich _ _ _ _ _) as [obs names]. rewrite emit_eq. case_decide; [|done].
  intros [= <- <-]. cbn. apply emitted_inv.
Qed.

Lemma reachable_inv c url ep sink a :
  agent_reachable c (newEmitter url ep sink) a -> agent_inv c (em a).
Proof.
  induction 1 as [|a a' _ IH Hstep]; [apply new_inv |]. destruct Hstep as [m r b a a' H | a e H | a q q' Hq Hs].
  - by eapply read_one_inv.
  - unfold close_queue in H. rewrite getS_bind in H. cbn. destruct (ship (em a)) as [q|] eqn:E.
    + destruct (closed q); [done |]. injection H as <-. destruct IH as [? ? Hcap Hord Hall].
      split; cbn; [done | done | | |]; intros ? [= <-];
        [exact (Hcap q E) | exact (Hord q E) | exact (Hall q E)].
    + by injection H as <-.
  - cbn. destruct IH as [? ? Hcap Hord Hall].
    split; cbn; [done | done | | |]; intros ? [= <-]; rewrite ?(accepted_step _ _ Hs);
      [| exact (Hord q Hq) | exact (Hall q Hq)].
    specialize (Hcap q Hq). unfold shipStep in Hs. destruct q as [qu cl [o|] po]; cbn in *.
    + by injection Hs as <-.
    + destruct qu; [done |]. injection Hs as <-. cbn in *. lia.
Qed.

(** C23: The queue to the collector is a bounded FIFO that never reorders, duplicates
    or invents: in every reachable state of the agent (records read, the queue
    closed, the shipping goroutine running in between, in any order) at most 1024
    observations wait, what was posted, is being sent and waits is a subsequence,
    in order, of what was printed, and it is everything printed as long as no more
    than 1024 were; the OTLP sink got everything; and every observation carries
    the availability zone of the agent. *)
Theorem shipping_in_order c url ep sink a :
  agent_reachable c (newEmitter url ep sink) a ->
  Forall (fun o => AZ o = em_az c) (stdout (em a))
  /\ (forall l, otlp (em a) = Some l -> l = stdout (em a))
  /\ forall q, ship (em a) = Some q ->
       (length (queue q) <= queue_cap)%nat
       /\ (posted q ++ option_list (sending q) ++ queue q) `sublist_of` stdout (em a)
       /\ ((length (stdout (em a)) <= queue_cap)%nat ->
            posted q ++ option_list (sending q) ++ queue q = stdout (em a)).
Proof.
  intros [Haz Hot Hcap Hord Hall]%reachable_inv. split_and!; [done | done |].
  intros q Hq. split_and!; [by apply Hcap | by apply Hord | by apply Hall].
Qed.

(** ** Shutting down *)

Fixpoint drain (n : nat) (q : shipper) : shipper :=
  match n with
  | O => q
  | S n => match shipStep q with Some q' => drain n q' | None => q end
  end.

(** C38: Shutting down ends, and ships what was accepted: once the queue is closed the
    shipping goroutine ends after at most two steps for each waiting observation
    and one more; then everything the queue had accepted is posted, in order, and
    the wait in close is over.  While the queue is open it does not end. *)
Theorem shutdown_drains q :
  (closed q = true ->
    let q' := drain (2 * length (queue q) + 1) q in
    finished q' = true /\ shipStep q' = None
    /\ posted q' = posted q ++ option_list (sending q) ++ queue q)
  /\ (closed q = false -> forall n, finished (drain n q) = false).
Proof.
  split.
  - intros Hc. fold (accepted q).
    assert (forall qu po, let q' := drain (2 * length qu) (mkShipper qu true None po) in
      q' = mkShipper [] true None (po ++ qu)) as H.
    { induction qu as [|o qu IH]; intros po; [cbn; by rewrite app_nil_r |].
      cbn [length]. replace (2 * S (length qu))%nat with (S (S (2 * length qu)))%nat by lia.
      cbn. cbn in IH. rewrite IH. by rewrite <- app_assoc. }
    assert (forall n q, shipStep q = None -> drain n q = q) as Hstop.
    { intros n q0 Hq. destruct n; [done |]. cbn. by rewrite Hq. }
    assert (drain (2 * length (queue q) + 1) q = mkShipper [] true None (accepted q)) as ->.
    { destruct q as [qu cl [o|] po]; cbn in Hc; subst cl; unfold accepted; cbn [queue sending posted option_list app].
      - rewrite Nat.add_1_r. cbn [drain shipStep sending queue closed posted].
        cbn in H |- *. rewrite H. by rewrite <- app_assoc.
      - assert (forall a b q, drain (a + b) q = drain b (drain a q)) as Hadd.
        { induction a as [|a IHa]; intros b q0; [done |]. cbn. destruct (shipStep q0) eqn:E; [apply IHa |].
          by rewrite Hstop. }
        rewrite Hadd. cbn in H |- *. by rewrite H. }
    done.
  - intros Hc n. revert q Hc. induction n as [|n IH]; intros q Hc; cbn.
    + unfold finished. by rewrite Hc.
    + destruct (shipStep q) as [q'|] eqn:E; [|unfold finished; by rewrite Hc].
      apply IH. unfold shipStep in E. destruct q as [[|o qu] cl [|] po]; cbn in *; by simplify_eq.
Qed.

(** ** The read loop *)

Lemma emitted_open c lookup o e : open e -> open (emitted c lookup o e).
Proof.
  unfold open, emitted. destruct (tagged _ _ _ _). cbn. destruct (ship e) as [q|]; [|done]. cbn.
  unfold offered. by case_match.
Qed.

(** The observation printed for a record read at a moment. *)
Definition observed (c : emConfig) (mr : moment * Raw) (o : Observation) : Prop :=
  exists names ls,
    let o' := set_AZ (em_az c)
                (fst (Enrich (ifByIndex (fst mr)) (snd mr) (em_nodeID c) (now (fst mr)) names)) in
    o = if VNI (snd mr) =? 0 then o' else set_LogicalSwitch ls o'.

(** What happens before the ring buffer is closed. *)
Fixpoint before_close (reads : list (moment * read_result)) : list (moment * read_result) :=
  match reads with
  | (_, Closed) :: _ | [] => []
  | x :: r => x :: before_close r
  end.

Definition records (reads : list (moment * read_result)) : list (moment * Raw) :=
  omap (fun x => match snd x with
                 | Record rec => pair (fst x) <$> Observation.Parse rec
                 | _ => None
                 end) reads.

Definition count (p : read_result -> bool) (reads : list (moment * read_result)) : Z :=
  Z.of_nat (length (filter (fun x => is_true (p (snd x))) reads)).

Definition is_error (r : read_result) : bool := match r with ReadError => true | _ => false end.
Definition is_junk (r : read_result) : bool :=
  match r with Record rec => (length rec <? RawSize)%nat | _ => false end.
Definition is_closed (r : read_result) : bool := match r with Closed => true | _ => false end.

Lemma Parse_None rec : Observation.Parse rec = None <-> (length rec < RawSize)%nat.
Proof.
  split; [|apply Parse_short]. unfold Parse, rd.
  destruct (Nat.ltb_spec (length rec) RawSize); done.
Qed.

Lemma count_cons p x reads :
  count p (x :: reads) = (if p (snd x) then 1 else 0) + count p reads.
Proof.
  unfold count. destruct (p (snd x)) eqn:E.
  - rewrite filter_cons_True by (by rewrite E). cbn. lia.
  - rewrite filter_cons_False by (by rewrite E). lia.
Qed.

(** One iteration. *)
Lemma read_one_spec c m r a :
  open (em a) ->
  exists a' out,
    read_one c m r a = Ret (negb (is_closed r), a')
    /\ stdout (em a') = stdout (em a) ++ out /\ open (em a')
    /\ Forall2 (observed c) (records [(m, r)]) out
    /\ u64 (readErrors a') = u64 (readErrors a + if is_error r then 1 else 0)
    /\ u64 (parseErrors a') = u64 (parseErrors a + if is_junk r then 1 else 0).
Proof.
  intros Ho. destruct r as [rec| |]; cbn [is_closed is_error is_junk negb].
  2, 3: eexists _, []; rewrite app_nil_r; (split; [reflexivity |]); cbn; rewrite ?Z.add_0_r;
    split_and!; first [done | constructor | by apply Z.mod_mod].
  cbn [read_one records omap list_omap snd fst].
  destruct (Observation.Parse rec) as [raw|] eqn:Ep.
  - assert (length rec <? RawSize = false)%nat as ->.
    { apply Nat.ltb_ge, Nat.nlt_ge. intros H%Parse_None. congruence. }
    pose (p := Enrich (ifByIndex m) raw (em_nodeID c) (now m) (ifNames a)).
    destruct p as [o names] eqn:Ee. subst p. rewrite Ee, emit_eq, decide_True by done.
    pose (t := tagged c (dpName m) o (lsCache (em a))). destruct t as [o' cache] eqn:Et. subst t.
    eexists _, [o']. split; [reflexivity |]. cbn [em readErrors parseErrors]. rewrite !Z.add_0_r.
    split_and!; [unfold emitted; by rewrite Et | by apply emitted_open | | done | done].
    constructor; [|constructor]. exists (ifNames a), (LogicalSwitch o'). cbn. rewrite Ee. cbn.
    assert (o_VNI o = VNI raw) as Hv.
    { unfold Enrich in Ee. destruct (ifName _ _ _), (latency _ _). by injection Ee as <- _. }
    unfold tagged in Et. cbn in Et. rewrite Hv in Et. destruct (VNI raw =? 0); [by simplify_eq |].
    destruct (switch_of _ _ _). by injection Et as <- _.
  - assert (length rec <? RawSize = true)%nat as -> by (by apply Nat.ltb_lt, Parse_None).
    eexists _, []. rewrite app_nil_r. split; [reflexivity |]. cbn. rewrite Z.add_0_r.
    split_and!; first [done | constructor | by apply Z.mod_mod].
Qed.

Lemma records_cons x reads : records (x :: reads) = records [x] ++ records reads.
Proof. unfold records. cbn. by case_match. Qed.

(** The read loop prints every record, once, in order.  Whatever the ring buffer
    returns, the loop does not panic and stops exactly when the buffer is closed;
    records of 88 bytes and more are printed in order, each decoded and enriched
    with the node id, the zone and the moment it was read; short records and read
    errors are counted and skipped; and nothing after the close is looked at. *)
Theorem read_loop_prints c reads a :
  open (em a) ->
  exists a' out,
    readLoop c reads a = Ret (negb (existsb (fun x => is_closed (snd x)) reads), a')
    /\ stdout (em a') = stdout (em a) ++ out
    /\ Forall2 (observed c) (records (before_close reads)) out
    /\ u64 (readErrors a') = u64 (readErrors a + count is_error (before_close reads))
    /\ u64 (parseErrors a') = u64 (parseErrors a + count is_junk (before_close reads))
    /\ open (em a').
Proof.
  revert a. induction reads as [|[m r] reads IH]; intros a Ho.
  { exists a, []. rewrite app_nil_r. unfold count. cbn. rewrite !Z.add_0_r.
    split_and!; [done | done | constructor | done..]. }
  destruct (read_one_spec c m r a Ho) as (a1 & out1 & H1 & Hs & Ho1 & Hout & Hre & Hpe).
  cbn [readLoop existsb snd]. rewrite (st_bind_ret _ _ _ _ _ H1).
  destruct (is_closed r) eqn:Er; cbn [negb orb].
  - destruct r; try done. exists a1, out1. cbn [before_close]. unfold count. cbn [is_error is_junk] in *.
    split_and!; done.
  - destruct (IH a1 Ho1) as (a' & out & H2 & H3 & H4 & H5 & H6 & H7).
    assert (before_close ((m, r) :: reads) = (m, r) :: before_close reads) as -> by (by destruct r).
    exists a', (out1 ++ out). rewrite records_cons, !count_cons. cbn [snd].
    split_and!; [done | rewrite H3, Hs; by rewrite app_assoc | by apply Forall2_app | | | done].
    + by rewrite H5, <- u64_add_idemp, Hre, u64_add_idemp, Z.add_assoc.
    + by rewrite H6, <- u64_add_idemp, Hpe, u64_add_idemp, Z.add_assoc.
Qed.

(** ** The cache of logical switches *)

Lemma emitted_cache c lookup o e vni n :
  lsCache e !! vni = Some n -> lsCache (emitted c lookup o e) !! vni = Some n.
Proof.
  intros H. unfold emitted, tagged, switch_of. cbn. destruct (o_VNI o =? 0); [done |].
  destruct (lsCache e !! o_VNI o) eqn:E; cbn; [done |].
  by rewrite lookup_insert_ne by congruence.
Qed.

Lemma steps_cache c a a' vni n :
  rtc (agent_step c) a a' -> lsCache (em a) !! vni = Some n -> lsCache (em a') !! vni = Some n.
Proof.
  induction 1 as [|a b a' Hstep _ IH]; [done |]. intros H. apply IH. clear IH.
  destruct Hstep as [m r ? a b Hr | a e He | a q q' _ _]; [| |done].
  - destruct r as [rec| |]; cbn in Hr; [|by injection Hr as <- <-..].
    destruct (Parse rec); [|by injection Hr as <- <-]. destruct (Enrich _ _ _ _ _).
    rewrite emit_eq in Hr. case_decide; [|done]. injection Hr as <- <-. by apply emitted_cache.
  - unfold close_queue in He. rewrite getS_bind in He. destruct (ship (em a)) as [q|]; [|by injection He as <-].
    destruct (closed q); [done |]. by injection He as <-.
Qed.

(** A logical switch is looked up once.  The first answer for a VNI, the empty
    one of a lookup that failed included, labels every later observation of that
    VNI for the life of the agent, whatever the database would answer then. *)
Theorem label_is_final c lookup o e e1 a' lookup' o' e' names re pe :
  o_VNI o ≠ 0 -> lsCache e !! o_VNI o = None -> o_VNI o' = o_VNI o ->
  emit c lookup o e = Ret (tt, e1) ->
  rtc (agent_step c) (mkAgent e1 names re pe) a' ->
  emit c lookup' o' (em a') = Ret (tt, e') ->
  exists p, stdout e' = stdout (em a') ++ [p]
    /\ LogicalSwitch p = default ""%string (lookup (o_VNI o)).
Proof.
  intros Hz Hnone Heq H1 Hsteps H2. rewrite emit_eq in H1, H2.
  case_decide; [|done]. case_decide; [|done]. injection H1 as <-. injection H2 as <-.
  assert (lsCache (em a') !! o_VNI o = Some (default ""%string (lookup (o_VNI o)))) as Hc.
  { eapply steps_cache; [exact Hsteps |]. unfold emitted, tagged, switch_of. cbn.
    rewrite (proj2 (Z.eqb_neq _ _) Hz), Hnone. cbn. by rewrite lookup_insert_eq. }
  unfold emitted, tagged, switch_of. cbn. rewrite Heq, (proj2 (Z.eqb_neq _ _) Hz), Hc. cbn.
  by eexists.
Qed.

(** ** Instances *)

Definition demo_raw : Raw :=
  mkRaw 1700000000000000000 42 (seqZ 1 16) (seqZ 10 16) (seqZ 20 16) 5001 7 40000 80 0 4 3 0 1 6 2 0.
Definition demo_moment (dp : Z -> option string) : moment :=
  mkMoment (mkTime 1700000000500000000 0) (fun i => if i =? 7 then Some "tap0"%string else None) dp.
Definition demo_em : emConfig := mkEmConfig "node-1" "az-1".
Definition demo_new : emitter := newEmitter "http://collector:8080" "" false.

(** The state after a step that returns. *)
Definition state_of {S A} (m : go (A * S)) (d : S) : S :=
  match m with Ret (_, s) => s | Panic => d end.

(** A record is read, and taken from the queue by the shipper. *)
Definition demo_agent1 : agent :=
  state_of (read_one demo_em (demo_moment (fun _ => None)) (Record (raw_bytes demo_raw))
              (mkAgent demo_new ∅ 0 0)) (mkAgent demo_new ∅ 0 0).

Lemma demo_agent1_step :
  read_one demo_em (demo_moment (fun _ => None)) (Record (raw_bytes demo_raw)) (mkAgent demo_new ∅ 0 0)
  = Ret (true, demo_agent1).
Proof. vm_compute. reflexivity. Qed.

Lemma shipping_in_order_witness :
  Forall (fun o => AZ o = "az-1"%string) (stdout (em demo_agent1))
  /\ (forall l, otlp (em demo_agent1) = Some l -> l = stdout (em demo_agent1))
  /\ forall q, ship (em demo_agent1) = Some q ->
       (length (queue q) <= queue_cap)%nat
       /\ (posted q ++ option_list (sending q) ++ queue q) `sublist_of` stdout (em demo_agent1)
       /\ ((length (stdout (em demo_agent1)) <= queue_cap)%nat ->
            posted q ++ option_list (sending q) ++ queue q = stdout (em demo_agent1)).
Proof.
  apply (shipping_in_order demo_em "http://collector:8080" "" false).
  eapply agent_next; [apply agent_start |]. eapply step_read. exact demo_agent1_step.
Defined.

Lemma read_loop_prints_witness :
  let m := demo_moment (fun _ => Some "ls-a"%string) in
  let reads := [(m, Record (raw_bytes demo_raw)); (m, ReadError); (m, Record [1; 2; 3]); (m, Closed);
                (m, ReadError)] in
  let a := mkAgent demo_new ∅ 0 0 in
  exists a' out,
    readLoop demo_em reads a = Ret (negb (existsb (fun x => is_closed (snd x)) reads), a')
    /\ stdout (em a') = stdout (em a) ++ out
    /\ Forall2 (observed demo_em) (records (before_close reads)) out
    /\ u64 (readErrors a') = u64 (readErrors a + count is_error (before_close reads))
    /\ u64 (parseErrors a') = u64 (parseErrors a + count is_junk (before_close reads))
    /\ open (em a').
Proof.
  apply (read_loop_prints demo_em
    [(demo_moment (fun _ => Some "ls-a"%string), Record (raw_bytes demo_raw));
     (demo_moment (fun _ => Some "ls-a"%string), ReadError);
     (demo_moment (fun _ => Some "ls-a"%string), Record [1; 2; 3]);
     (demo_moment (fun _ => Some "ls-a"%string), Closed);
     (demo_moment (fun _ => Some "ls-a"%string), ReadError)] (mkAgent demo_new ∅ 0 0)).
  reflexivity.
Defined.

(** The first lookup fails: the VNI has no name any more. *)
Lemma label_is_final_witness :
  let o := fst (Enrich (fun _ => None) demo_raw "node-1" (mkTime 0 0) ∅) in
  let e1 := state_of (emit demo_em (fun _ => None) o demo_new) demo_new in
  let found := fun _ : Z => Some "ls-a"%string in
  let e2 := state_of (emit demo_em found o e1) demo_new in
  exists p, stdout e2 = stdout e1 ++ [p] /\ LogicalSwitch p = ""%string.
Proof.
  pose (o := fst (Enrich (fun _ => None) demo_raw "node-1" (mkTime 0 0) ∅)).
  pose (e1 := state_of (emit demo_em (fun _ => None) o demo_new) demo_new).
  apply (label_is_final demo_em (fun _ => None) o demo_new e1 (mkAgent e1 ∅ 0 0)
    (fun _ => Some "ls-a"%string) o _ ∅ 0 0).
  - vm_compute. discriminate.
  - reflexivity.
  - reflexivity.
  - vm_compute. reflexivity.
  - apply rtc_refl.
  - vm_compute. reflexivity.
Defined.
