(* ===== verification/Pipeline.v ===== *)
(** Agents and the collector together: records of the ring buffers become entries
    of paths.  Each agent reads, enriches and queues; its shipping goroutine posts
    the JSON of an observation to the collector, and a post may fail. *)
From stdpp Require Import gmap strings sets.
From S2P Require Import Prelude GoStd GoText GoTime GoJson GoJsonProps JsonCodec Observation ObsJson Collector CollectorProps Emit EmitProps.

Local Open Scope Z_scope.

(** ** The system *)

(** What the host gives an agent: bytes, and names in UTF-8. *)
Definition text (s : string) : Prop := field_ok str s.

Definition input_ok (m : moment) (r : read_result) : Prop :=
  (forall i, text (default ""%string (ifByIndex m i)))
  /\ (forall v, text (default ""%string (dpName m v)))
  /\ match r with Record rec => bytes_ok rec | _ => True end.

Definition set_ship (q : shipper) (a : agent) : agent :=
  mkAgent (mkEmitter (lsCache (em a)) (stdout (em a)) (Some q) (otlp (em a)))
    (ifNames a) (readErrors a) (parseErrors a).

(** What an agent does by itself: handle a read, close the queue, take the next
    observation from it. *)
Inductive local_step (c : emConfig) : agent -> agent -> Prop :=
| local_read m r b a a' :
    input_ok m r -> read_one c m r a = Ret (b, a') -> local_step c a a'
| local_close a e :
    close_queue (em a) = Ret (tt, e) ->
    local_step c a (mkAgent e (ifNames a) (readErrors a) (parseErrors a))
| local_take a q q' :
    ship (em a) = Some q -> sending q = None -> shipStep q = Some q' ->
    local_step c a (set_ship q' a).

(** A post by an agent, and whether the collector got it. *)
Record post := mkPost { from : nat; what : Observation; arrived : bool }.

Record world := mkWorld {
  agents : list agent;
  collector : store;
  log : list post              (* all posts so far *)
}.

Section system.
Context (cfgs : list emConfig).

Inductive world_step : world -> world -> Prop :=
| world_local i c a a' w :
    cfgs !! i = Some c -> agents w !! i = Some a -> local_step c a a' ->
    world_step w (mkWorld (<[i := a']> (agents w)) (collector w) (log w))
| world_post i a q q' o resp s' w :
    agents w !! i = Some a -> ship (em a) = Some q -> sending q = Some o -> shipStep q = Some q' ->
    serve decode_obs (Root "POST" (post_body o)) (collector w) = Ret (resp, s') ->
    world_step w (mkWorld (<[i := set_ship q' a]> (agents w)) s' (log w ++ [mkPost i o true]))
| world_lost i a q q' o w :
    agents w !! i = Some a -> ship (em a) = Some q -> sending q = Some o -> shipStep q = Some q' ->
    world_step w (mkWorld (<[i := set_ship q' a]> (agents w)) (collector w)
                    (log w ++ [mkPost i o false]))
| world_get q resp s' w :
    (forall body, q ≠ Root "POST" body) -> serve decode_obs q (collector w) = Ret (resp, s') ->
    world_step w (mkWorld (agents w) s' (log w)).

(** All agents start with the same flags. *)
Definition world_start (url ep : string) (sink : bool) (maxRuns : Z) : world :=
  mkWorld (map (fun _ => mkAgent (newEmitter url ep sink) ∅ 0 0) cfgs) (newStore maxRuns) [].

Inductive world_reachable (w0 : world) : world -> Prop :=
| world_init : world_reachable w0 w0
| world_next w w' : world_reachable w0 w -> world_step w w' -> world_reachable w0 w'.
End system.

(** What reached the collector, in order, and what agent [i] posted. *)
Definition received (l : list post) : list Observation :=
  map what (filter (fun p => is_true (arrived p)) l).
Definition sent_by (i : nat) (l : list post) : list Observation :=
  map what (filter (fun p => from p = i) l).

(** ** The collector below its limits *)

Definition with_id (id : string) (l : list Observation) : list Observation :=
  filter (fun o => ID o = id) l.

Definition ids_of (l : list Observation) : gset string := list_to_set (map ID l).

(** No run is cut and none is evicted. *)
Definition within (maxRuns : Z) (l : list Observation) : Prop :=
  Z.of_nat (size (ids_of l)) <= maxRuns
  /\ forall id, Z.of_nat (length (with_id id l)) <= maxObsPerRun.

Definition keeps (l : list Observation) (s : store) : Prop := forall id, run s id = with_id id l.

Lemma ids_of_snoc l o : ids_of (l ++ [o]) = ids_of l ∪ {[ID o]}.
Proof. unfold ids_of. rewrite map_app, list_to_set_app_L. cbn. set_solver. Qed.

Lemma with_id_snoc id l o :
  with_id id (l ++ [o]) = with_id id l ++ (if decide (ID o = id) then [o] else []).
Proof. unfold with_id. rewrite filter_app. cbn. by case_decide. Qed.

Lemma within_init n l o : within n (l ++ [o]) -> within n l.
Proof.
  intros [H1 H2]. rewrite ids_of_snoc in H1. split.
  - assert (size (ids_of l) <= size (ids_of l ∪ {[ID o]}))%nat; [|lia].
    apply subseteq_size. set_solver.
  - intros id. specialize (H2 id). rewrite with_id_snoc, length_app in H2. lia.
Qed.

Lemma elem_of_ids l id : id ∈ ids_of l <-> with_id id l ≠ [].
Proof.
  unfold ids_of. rewrite elem_of_list_to_set, list_elem_of_fmap. split.
  - intros (o & -> & Ho) Hnil. apply (not_elem_of_nil o). rewrite <- Hnil.
    by apply list_elem_of_filter.
  - intros Hne. destruct (with_id id l) as [|o k] eqn:E; [done |].
    assert (o ∈ with_id id l) as [Ho Hin]%list_elem_of_filter by (rewrite E; by left).
    exists o. auto.
Qed.

(** A well-formed store that keeps [l] has an entry of its order for each id. *)
Lemma order_size l s : store_ok s -> keeps l s -> length (Collector.order s) = size (ids_of l).
Proof.
  intros Hok Hk. rewrite <- (size_list_to_set (C := gset string)) by apply (ok_nodup _ Hok).
  f_equal. apply set_eq. intros id. rewrite elem_of_list_to_set, elem_of_ids, <- (Hk id).
  rewrite <- (ok_dom _ Hok id). unfold run. destruct (runs s !! id) as [k|] eqn:E; cbn.
  - split; [|by eexists]. intros _. by apply (ok_runs _ Hok id k) in E as [? _].
  - split; [by intros [? ?] | done].
Qed.

Lemma keeps_added n l o s :
  store_ok s -> cap s = n -> keeps l s -> within n (l ++ [o]) -> keeps (l ++ [o]) (added o s).
Proof.
  intros Hok Hcap Hk [Hsize Hlen] id. rewrite with_id_snoc.
  pose proof (Hk (ID o)) as Ho. pose proof (order_size _ _ Hok Hk) as Hord.
  rewrite ids_of_snoc in Hsize. unfold added. unfold run in Ho |- *.
  destruct (runs s !! ID o) as [k|] eqn:E; cbn in Ho.
  - specialize (Hlen (ID o)). rewrite with_id_snoc, decide_True, length_app in Hlen by done.
    cbn in Hlen. rewrite Ho. replace (maxObsPerRun <=? _) with false by lia. cbn [runs].
    destruct (decide (ID o = id)) as [<-|Hne].
    + by rewrite lookup_insert_eq.
    + rewrite lookup_insert_ne, app_nil_r by done. apply Hk.
  - assert (ID o ∉ ids_of l) as Hnew by (rewrite elem_of_ids; congruence).
    rewrite size_union, size_singleton in Hsize by set_solver.
    assert (make_room s = s) as ->.
    { unfold make_room. by replace (cap s <=? Z.of_nat (length (Collector.order s))) with false by lia. }
    cbn [runs]. destruct (decide (ID o = id)) as [<-|Hne].
    + rewrite lookup_insert_eq. cbn. by rewrite <- Ho.
    + rewrite lookup_insert_ne, app_nil_r by done. apply Hk.
Qed.

(** ** What an agent prints can be decoded *)

Lemma fits_decode n b : bytes_ok b -> (n <= length b)%nat -> fits n (le_decode (take n b)).
Proof.
  intros Hb Hl. pose proof (le_decode_bound (take n b) (bytes_ok_take _ _ Hb)) as H.
  unfold fits. rewrite length_take in H. by replace (n `min` length b)%nat with n in H by lia.
Qed.

Lemma Parse_ok rec raw :
  bytes_ok rec -> Observation.Parse rec = Some raw -> Raw_ok raw /\ bytes_ok (RawID raw).
Proof.
  intros Hb Hp. unfold Parse, rd in Hp. destruct (Nat.ltb_spec (length rec) RawSize) as [|Hl]; [done |].
  unfold RawSize in Hl. cbn -[le_decode take drop] in Hp. injection Hp as <-.
  rewrite !drop_drop. unfold Raw_ok. cbn [RawID RawSrcIP RawDstIP MetaTimestamp CaptureNS VNI IfIndex
    RawSrcPort RawDstPort VLANID IPVersion Hop Direction Action Protocol RawTCPFlags RawIfaceType].
  split; [|by apply bytes_ok_take, bytes_ok_drop].
  split_and!; first [ rewrite length_take, length_drop; lia
                    | apply fits_decode; [by apply bytes_ok_drop || done | rewrite ?length_drop; lia] ].
Qed.

Definition text_map {K} `{Countable K} (m : gmap K string) : Prop := map_Forall (fun _ n => text n) m.

Record agent_ok (c : emConfig) (a : agent) : Prop := {
  ok_inv : agent_inv c (em a);
  ok_printed : Forall (fun o => obs_ok o /\ ID o ≠ ""%string) (stdout (em a));
  ok_names : text_map (ifNames a);
  ok_switches : text_map (lsCache (em a))
}.

Lemma uuid_nonempty id : uuid_String id ≠ ""%string.
Proof.
  unfold uuid_String, uuid_codes. destruct (mjoin (map hexpair (take 4 id))); done.
Qed.

Lemma obs_ok_tags az ls o :
  text az -> text ls -> obs_ok o -> obs_ok (set_AZ az o) /\ obs_ok (set_LogicalSwitch ls (set_AZ az o)).
Proof. unfold obs_ok. cbn. intros. by destruct_and!. Qed.

Lemma emitted_ok c lookup o e :
  text (em_az c) -> (forall v, text (default ""%string (lookup v))) -> obs_ok o -> ID o ≠ ""%string ->
  Forall (fun o => obs_ok o /\ ID o ≠ ""%string) (stdout e) -> text_map (lsCache e) ->
  Forall (fun o => obs_ok o /\ ID o ≠ ""%string) (stdout (emitted c lookup o e))
  /\ text_map (lsCache (emitted c lookup o e)).
Proof.
  intros Haz Hl Ho Hid Hout Hcache. unfold emitted, tagged, switch_of. cbn.
  destruct (o_VNI o =? 0); cbn.
  - split; [|done]. apply Forall_app. split; [done |]. apply Forall_cons_2; [|apply Forall_nil_2].
    split; [|done]. by apply (obs_ok_tags _ "").
  - assert (text (fst (switch_of lookup (o_VNI o) (lsCache e)))
      /\ text_map (snd (switch_of lookup (o_VNI o) (lsCache e)))) as [H1 H2].
    { unfold switch_of. destruct (lsCache e !! o_VNI o) as [n|] eqn:E; cbn.
      - split; [by eapply Hcache | done].
      - split; [apply Hl | by apply map_Forall_insert_2]. }
    unfold switch_of in H1, H2. destruct (match lsCache e !! o_VNI o with Some n => _ | None => _ end)
      as [n cache]. cbn in *. split; [|done]. apply Forall_app. split; [done |].
    apply Forall_cons_2; [|apply Forall_nil_2]. split; [|done]. by apply obs_ok_tags.
Qed.

Lemma new_agent_ok c url ep sink : agent_ok c (mkAgent (newEmitter url ep sink) ∅ 0 0).
Proof. split; [apply new_inv | apply Forall_nil_2 | apply map_Forall_empty..]. Qed.

(** Changing the shipper only. *)
Lemma set_ship_ok c a q q' :
  ship (em a) = Some q -> (length (queue q') <= length (queue q))%nat -> accepted q' = accepted q ->
  agent_ok c a -> agent_ok c (set_ship q' a).
Proof.
  intros Hq Hlen Hacc [[Haz Hot Hcap Hord Hall] Hp Hn Hs]. split; [|done..]. split; cbn; [done | done | | |].
  - intros ? [= <-]. specialize (Hcap q Hq). lia.
  - intros ? [= <-]. rewrite Hacc. auto.
  - intros ? [= <-]. rewrite Hacc. auto.
Qed.

Lemma shipStep_length q q' : shipStep q = Some q' -> (length (queue q') <= length (queue q))%nat.
Proof.
  unfold shipStep. destruct q as [[|o qu] cl [|] po]; cbn; try done; intros [= <-]; cbn; lia.
Qed.

Lemma local_step_ok c a a' :
  text (em_nodeID c) -> text (em_az c) -> local_step c a a' -> agent_ok c a -> agent_ok c a'.
Proof.
  intros Hnode Haz Hstep Hok. destruct Hstep as [m r b a a' Hin Hr | a e He | a q q' Hq _ Hs].
  - destruct Hok as [Hinv Hp Hn Hs]. pose proof (read_one_inv _ _ _ _ _ _ Hr Hinv) as Hinv'.
    destruct Hin as (Hif & Hdp & Hrec).
    destruct r as [rec| |]; cbn in Hr; [|by injection Hr as _ <-..].
    destruct (Observation.Parse rec) as [raw|] eqn:Ep; [|by injection Hr as _ <-].
    destruct (Parse_ok _ _ Hrec Ep) as [Hraw Hid].
    pose proof (Enrich_ok (ifByIndex m) raw (em_nodeID c) (now m) (ifNames a) Hraw Hid Hnode Hif Hn) as He.
    pose proof (Enrich_ID (ifByIndex m) raw (em_nodeID c) (now m) (ifNames a)) as HID.
    destruct (Enrich _ _ _ _ _) as [obs names]. destruct He as [He Hnames]. cbn in He, Hnames, HID.
    rewrite emit_eq in Hr. case_decide; [|done]. injection Hr as _ <-.
    assert (ID obs ≠ ""%string) as Hne by (rewrite HID; apply uuid_nonempty).
    by destruct (emitted_ok c (dpName m) obs (em a) Haz Hdp He Hne Hp Hs).
  - unfold close_queue in He. rewrite getS_bind in He. destruct (ship (em a)) as [q|] eqn:E.
    + destruct (closed q); [done |]. injection He as <-. by eapply set_ship_ok.
    + injection He as <-. by destruct a.
  - eapply set_ship_ok; [done | | | done]; [by apply shipStep_length | by apply accepted_step].
Qed.

Lemma readLoop_ok c reads a more a' :
  text (em_nodeID c) -> text (em_az c) -> Forall (fun p => input_ok (fst p) (snd p)) reads ->
  agent_ok c a -> readLoop c reads a = Ret (more, a') -> agent_ok c a'.
Proof.
  intros Hn Haz Hin. revert a. induction Hin as [|[m r] reads Hr _ IH]; intros a Ha H.
  { by injection H as _ <-. }
  cbn [readLoop] in H. destruct (read_one c m r a) as [[b a1]|] eqn:E.
  - rewrite (st_bind_ret _ _ _ _ _ E) in H.
    assert (agent_ok c a1) as Ha1 by (eapply local_step_ok; [done | done | | done]; by eapply local_read).
    destruct b; [by apply (IH a1) | by injection H as _ <-].
  - unfold mbind, st_bind in H. by rewrite E in H.
Qed.

(** C29: Every observation an agent prints is well typed: whatever records the ring
    buffer returns (of any length, with any bytes) and whatever names the host and
    OVN give, as long as these are UTF-8, each printed observation has every field
    within its Go type, text in UTF-8 and a run id, so the body posted for it is
    accepted by the collector as exactly this observation. *)
Theorem printed_observations_are_well_typed c url ep sink reads more a :
  text (em_nodeID c) -> text (em_az c) -> Forall (fun p => input_ok (fst p) (snd p)) reads ->
  readLoop c reads (mkAgent (newEmitter url ep sink) ∅ 0 0) = Ret (more, a) ->
  Forall (fun o => obs_ok o /\ ID o ≠ ""%string /\ decode_obs (post_body o) = Some o) (stdout (em a)).
Proof.
  intros Hn Haz Hin H. apply (readLoop_ok _ _ _ _ _ Hn Haz Hin) in H; [|apply new_agent_ok].
  apply Forall_forall. intros o Hin'. pose proof (ok_printed _ _ H) as Hp. rewrite Forall_forall in Hp.
  destruct (Hp o Hin') as [Ho Hid]. split; [exact Ho | split; [exact Hid |]].
  unfold post_body, marshal. rewrite <- (app_nil_r (print None (obs_json o))).
  exact (decode_print_obs _ _ [] Ho I).
Qed.

(** ** The invariant of the system *)

Lemma received_snoc l p : received (l ++ [p]) = received l ++ (if arrived p then [what p] else []).
Proof. unfold received. rewrite filter_app, map_app. f_equal. cbn. by destruct (arrived p). Qed.

Lemma sent_by_snoc i l p :
  sent_by i (l ++ [p]) = sent_by i l ++ (if decide (from p = i) then [what p] else []).
Proof. unfold sent_by. rewrite filter_app, map_app. f_equal. cbn. by case_decide. Qed.

(** What agent [i] has handed to the HTTP client. *)
Definition posts_of (a : agent) : list Observation :=
  match ship (em a) with Some q => posted q | None => [] end.

(** It is a part of what was printed, and all of it when the queue never was full
    and nothing is left. *)
Lemma posts_of_part c a : agent_ok c a -> posts_of a `sublist_of` stdout (em a).
Proof.
  intros [[_ _ _ Hord _] _ _ _]. unfold posts_of. destruct (ship (em a)) as [q|] eqn:E; [|apply sublist_nil_l].
  etrans; [|by apply Hord]. unfold accepted. by apply sublist_inserts_r.
Qed.

Lemma posts_of_all c a q :
  agent_ok c a -> ship (em a) = Some q -> queue q = [] -> sending q = None ->
  (length (stdout (em a)) <= queue_cap)%nat -> posts_of a = stdout (em a).
Proof.
  intros [[_ _ _ _ Hall] _ _ _] Hq Hqu Hs Hlen. rewrite <- (Hall q Hq Hlen).
  unfold posts_of, accepted. by rewrite Hq, Hqu, Hs, app_nil_r.
Qed.

Section invariant.
Context (cfgs : list emConfig) (n : Z).

Record world_ok (w : world) : Prop := {
  w_agents i a : agents w !! i = Some a -> exists c, cfgs !! i = Some c /\ agent_ok c a;
  w_posts i a : agents w !! i = Some a -> sent_by i (log w) = posts_of a;
  w_store : store_ok (collector w) /\ cap (collector w) = n;
  w_keeps : within n (received (log w)) -> keeps (received (log w)) (collector w)
}.

Hypothesis (Hcfgs : Forall (fun c => text (em_nodeID c) /\ text (em_az c)) cfgs).
Hypothesis (Hn : 1 <= n).

Lemma posts_local c a a' : local_step c a a' -> posts_of a' = posts_of a.
Proof.
  intros [m r b a1 a1' _ Hr | a1 e He | a1 q q' Hq Hs Hst].
  - destruct r as [rec| |]; cbn in Hr; [|by injection Hr as _ <-..].
    destruct (Parse rec); [|by injection Hr as _ <-]. destruct (Enrich _ _ _ _ _).
    rewrite emit_eq in Hr. case_decide; [|done]. injection Hr as _ <-.
    unfold posts_of, emitted. destruct (tagged _ _ _ _). cbn. destruct (ship (em a1)); [|done]. cbn.
    unfold offered. by case_match.
  - unfold close_queue in He. rewrite getS_bind in He. unfold posts_of. cbn.
    destruct (ship (em a1)) as [q|] eqn:E; [|injection He as <-; by rewrite E].
    destruct (closed q); [done |]. by injection He as <-.
  - unfold posts_of, set_ship. cbn. rewrite Hq. unfold shipStep in Hst. rewrite Hs in Hst.
    destruct (queue q); [done |]. by injection Hst as <-.
Qed.

Lemma sending_ok c a q o :
  agent_ok c a -> ship (em a) = Some q -> sending q = Some o -> obs_ok o /\ ID o ≠ ""%string.
Proof.
  intros [[_ _ _ Hord _] Hp _ _] Hq Hs. rewrite Forall_forall in Hp. apply Hp.
  eapply sublist_subseteq; [by apply Hord |]. unfold accepted. rewrite Hs. set_solver.
Qed.

(** The collector's answer to the post of an observation. *)
Lemma serve_post o s :
  obs_ok o -> ID o ≠ ""%string -> store_ok s -> 1 <= cap s ->
  serve decode_obs (Root "POST" (post_body o)) s = Ret (RespNoContent, added o s).
Proof.
  intros Ho Hid Hs Hc. cbn [serve]. rewrite bool_decide_true by done. cbn [negb].
  unfold post_body, marshal. rewrite <- (app_nil_r (print None (obs_json o))), decode_print_obs by done.
  rewrite bool_decide_false, add_added by done. done.
Qed.

(** Any other request leaves the store alone. *)
Lemma serve_other q resp s s' :
  (forall body, q ≠ Root "POST" body) -> serve decode_obs q s = Ret (resp, s') -> s' = s.
Proof.
  intros Hq Hs. destruct q as [| |id|method body]; cbn in Hs; [by injection Hs as _ <-..| |].
  - case_bool_decide; by injection Hs as _ <-.
  - destruct (bool_decide (method = "POST"%string)) eqn:E; cbn in Hs.
    + apply bool_decide_eq_true in E as ->. by destruct (Hq body).
    + by injection Hs as _ <-.
Qed.

Lemma shipStep_post q q' o :
  sending q = Some o -> shipStep q = Some q' ->
  posted q' = posted q ++ [o] /\ accepted q' = accepted q
  /\ (length (queue q') <= length (queue q))%nat.
Proof.
  intros Hs Hst. split; [|split; [by apply accepted_step | by apply shipStep_length]].
  unfold shipStep in Hst. rewrite Hs in Hst. by injection Hst as <-.
Qed.

(** Agents and posts after a post, whether it arrives or not. *)
Lemma post_agents i a q q' o b w s' :
  world_ok w -> agents w !! i = Some a -> ship (em a) = Some q -> sending q = Some o ->
  shipStep q = Some q' -> store_ok s' /\ cap s' = n ->
  (within n (received (log w ++ [mkPost i o b])) -> keeps (received (log w ++ [mkPost i o b])) s') ->
  world_ok (mkWorld (<[i := set_ship q' a]> (agents w)) s' (log w ++ [mkPost i o b])).
Proof.
  intros [Hag Hpo _ _] Ha Hq Hs Hst Hstore Hkeeps.
  destruct (shipStep_post _ _ _ Hs Hst) as (Hposted & Hacc & Hlen).
  split; cbn [agents collector log]; [| | done | done].
  - intros j a' [(<- & <- & _)|[Hne Hj]]%list_lookup_insert_Some; [|by apply Hag].
    destruct (Hag i a Ha) as (c & Hc & Hok). exists c. split; [done |]. by eapply set_ship_ok.
  - intros j a' Hj. rewrite sent_by_snoc. cbn [from what].
    apply list_lookup_insert_Some in Hj as [(<- & <- & _)|[Hne Hj]].
    + rewrite decide_True, (Hpo i a Ha) by done. unfold posts_of, set_ship. cbn. by rewrite Hq, Hposted.
    + rewrite decide_False, app_nil_r by congruence. by apply Hpo.
Qed.

Lemma world_step_ok w w' : world_step cfgs w w' -> world_ok w -> world_ok w'.
Proof.
  intros Hstep Hw. pose proof Hw as [Hag Hpo [Hst Hcap] Hk].
  destruct Hstep as [i c a a' w Hc Ha Hl | i a q q' o resp s' w Ha Hq Hs Hst' Hserve
                    | i a q q' o w Ha Hq Hs Hst' | r resp s' w Hr Hserve].
  - destruct (Hag i a Ha) as (c' & Hc' & Hok). rewrite Hc in Hc'. injection Hc' as <-.
    rewrite Forall_forall in Hcfgs. destruct (Hcfgs c) as [Hnode Haz]; [by eapply list_elem_of_lookup_2 |].
    split; cbn [agents collector log]; [| | done | done].
    + intros j b [(<- & <- & _)|[_ Hj]]%list_lookup_insert_Some; [|by apply Hag].
      exists c. split; [done |]. by eapply local_step_ok.
    + intros j b [(<- & <- & _)|[_ Hj]]%list_lookup_insert_Some; [|by apply Hpo].
      rewrite (posts_local _ _ _ Hl). by apply Hpo.
  - destruct (Hag i a Ha) as (c & _ & Hok). destruct (sending_ok _ _ _ _ Hok Hq Hs) as [Ho Hid].
    rewrite serve_post in Hserve by (done || lia). injection Hserve as <- <-.
    eapply post_agents; [done..| | ].
    + rewrite <- Hcap. apply added_ok; [done | lia].
    + rewrite received_snoc. cbn [arrived what]. intros Hin.
      eapply keeps_added; [done | done | | done]. apply Hk. by eapply within_init.
  - eapply post_agents; [done..|]. rewrite received_snoc. cbn [arrived]. by rewrite app_nil_r.
  - apply serve_other in Hserve as ->; [|done]. by split.
Qed.

(** What a step does to the store: nothing, or the observation of a post is added. *)
Lemma world_step_store w w' :
  world_step cfgs w w' -> world_ok w ->
  (collector w' = collector w /\ received (log w') = received (log w))
  \/ exists o, collector w' = added o (collector w) /\ received (log w') = received (log w) ++ [o].
Proof.
  intros Hstep [Hag _ [Hst Hcap] _].
  destruct Hstep as [i c a a' w _ _ _ | i a q q' o resp s' w Ha Hq Hs _ Hserve
                    | i a q q' o w _ _ _ _ | r resp s' w Hr Hserve]; cbn [collector log].
  - by left.
  - right. exists o. destruct (Hag i a Ha) as (c & _ & Hok). destruct (sending_ok _ _ _ _ Hok Hq Hs) as [Ho Hid].
    rewrite serve_post in Hserve by (done || lia). injection Hserve as _ <-. by rewrite received_snoc.
  - left. rewrite received_snoc. cbn. by rewrite app_nil_r.
  - left. by apply serve_other in Hserve.
Qed.

Lemma world_start_ok url ep sink : world_ok (world_start cfgs url ep sink n).
Proof.
  split; cbn.
  - intros i a H. change (map ?f cfgs) with (f <$> cfgs) in H. rewrite list_lookup_fmap in H.
    destruct (cfgs !! i) as [c|]; [|done]. injection H as <-. exists c. split; [done |].
    apply new_agent_ok.
  - intros i a H. change (map ?f cfgs) with (f <$> cfgs) in H. rewrite list_lookup_fmap in H.
    destruct (cfgs !! i) as [c|]; [|done]. injection H as <-. unfold posts_of, newEmitter. cbn.
    by case_bool_decide.
  - split; [|done]. apply newStore_ok. lia.
  - intros _ id. done.
Qed.

Lemma world_reachable_ok url ep sink w :
  world_reachable cfgs (world_start cfgs url ep sink n) w -> world_ok w.
Proof.
  induction 1 as [|w w' _ IH Hs]; [apply world_start_ok | by eapply world_step_ok].
Qed.
End invariant.

(** C19: A path is made of what the agents saw.  In every reachable state of any
    number of agents and the collector (records read, queues closed, observations
    posted or lost, other requests served, in any order), as long as the collector
    stays below its limits of runs and of 4096 observations per run, the path of
    every run id is the sorted list of exactly the observations with that id whose
    post arrived; each agent posted, in order, a part of what it printed, and all
    of it once its queue is closed and drained, if that were at most 1024. *)
Theorem path_is_what_agents_saw cfgs maxRuns url ep sink w :
  Forall (fun c => text (em_nodeID c) /\ text (em_az c)) cfgs -> 1 <= maxRuns ->
  world_reachable cfgs (world_start cfgs url ep sink maxRuns) w ->
  (within maxRuns (received (log w)) ->
     forall id, path (collector w) id = sortStable (with_id id (received (log w))))
  /\ forall i a q, agents w !! i = Some a -> ship (em a) = Some q ->
       sent_by i (log w) `sublist_of` stdout (em a)
       /\ (finished q = true -> (length (stdout (em a)) <= queue_cap)%nat ->
           sent_by i (log w) = stdout (em a)).
Proof.
  intros Hcfgs Hn Hr. apply world_reachable_ok in Hr as [Hag Hpo _ Hk]; [|done..]. split.
  - intros Hin id. unfold path. f_equal. by apply Hk.
  - intros i a q Ha Hq. destruct (Hag i a Ha) as (c & _ & Hok). rewrite (Hpo i a Ha).
    split; [by eapply posts_of_part |]. intros Hf Hlen.
    apply andb_true_iff in Hf as [Hf Hs]. apply andb_true_iff in Hf as [_ Hf].
    apply bool_decide_eq_true in Hf, Hs. by eapply posts_of_all.
Qed.

#[export] Instance Observation_eq_dec : EqDecision Observation.
Proof. solve_decision. Defined.

(** ** An instance: a record is read, taken from the queue and posted *)

Definition demo_agent2 : agent :=
  match ship (em demo_agent1) with
  | Some q => match shipStep q with Some q' => set_ship q' demo_agent1 | None => demo_agent1 end
  | None => demo_agent1
  end.

Definition demo_agent3 : agent :=
  match ship (em demo_agent2) with
  | Some q => match shipStep q with Some q' => set_ship q' demo_agent2 | None => demo_agent2 end
  | None => demo_agent2
  end.

Definition demo_seen : Observation := default sample_obs (head (stdout (em demo_agent1))).

Definition demo_world : world :=
  mkWorld [demo_agent3] (added demo_seen (newStore 100)) [mkPost 0 demo_seen true].

Lemma demo_input : input_ok (demo_moment (fun _ => None)) (Record (raw_bytes demo_raw)).
Proof.
  split_and!; [| done | compute_decide].
  intros i. cbn. destruct (i =? 7); vm_compute; reflexivity.
Qed.

Definition demo_q (a : agent) : shipper := default (mkShipper [] false None []) (ship (em a)).
Definition demo_w1 : world := mkWorld [demo_agent1] (newStore 100) [].
Definition demo_w2 : world := mkWorld [demo_agent2] (newStore 100) [].

Lemma demo_world_reachable :
  world_reachable [demo_em] (world_start [demo_em] "http://collector:8080" "" false 100) demo_world.
Proof.
  apply (world_next _ _ demo_w2); [apply (world_next _ _ demo_w1); [eapply world_next; [apply world_init |] |] |].
  - apply (world_local _ 0 demo_em (mkAgent demo_new ∅ 0 0) demo_agent1); [done | done |].
    eapply local_read; [exact demo_input | exact demo_agent1_step].
  - apply (world_local _ 0 demo_em demo_agent1 demo_agent2 demo_w1); [done | done |].
    replace demo_agent2 with (set_ship (demo_q demo_agent2) demo_agent1) by (vm_compute; reflexivity).
    eapply local_take; vm_compute; reflexivity.
  - replace demo_world with
      (mkWorld (<[0%nat := set_ship (demo_q demo_agent3) demo_agent2]> (agents demo_w2))
         (added demo_seen (newStore 100)) (log demo_w2 ++ [mkPost 0 demo_seen true]))
      by (vm_compute; reflexivity).
    apply (world_post _ 0 demo_agent2 (demo_q demo_agent2) _ _ RespNoContent); vm_compute; reflexivity.
Qed.

Lemma path_is_what_agents_saw_witness :
  (within 100 (received (log demo_world)) ->
     forall id, path (collector demo_world) id = sortStable (with_id id (received (log demo_world))))
  /\ forall i a q, agents demo_world !! i = Some a -> ship (em a) = Some q ->
       sent_by i (log demo_world) `sublist_of` stdout (em a)
       /\ (finished q = true -> (length (stdout (em a)) <= queue_cap)%nat ->
           sent_by i (log demo_world) = stdout (em a)).
Proof.
  apply (path_is_what_agents_saw [demo_em] 100 "http://collector:8080" "" false demo_world).
  - apply Forall_cons_2; [split; vm_compute; reflexivity | apply Forall_nil_2].
  - lia.
  - exact demo_world_reachable.
Defined.

Lemma printed_observations_are_well_typed_witness :
  exists more a,
    readLoop demo_em [(demo_moment (fun _ => None), Record (raw_bytes demo_raw)); (demo_moment (fun _ => None), Closed)]
      (mkAgent (newEmitter "http://collector:8080" "" false) ∅ 0 0) = Ret (more, a)
    /\ length (stdout (em a)) = 1%nat
    /\ Forall (fun o => obs_ok o /\ ID o ≠ ""%string /\ decode_obs (post_body o) = Some o) (stdout (em a)).
Proof.
  exists false, demo_agent1. split; [vm_compute; reflexivity |]. split; [vm_compute; reflexivity |].
  apply (printed_observations_are_well_typed demo_em "http://collector:8080" "" false
    [(demo_moment (fun _ => None), Record (raw_bytes demo_raw)); (demo_moment (fun _ => None), Closed)] false).
  - vm_compute. reflexivity.
  - vm_compute. reflexivity.
  - apply Forall_cons_2; [exact demo_input |]. apply Forall_cons_2; [|apply Forall_nil_2].
    destruct demo_input as (H1 & H2 & _). split_and!; [exact H1 | exact H2 | exact I].
  - vm_compute. reflexivity.
Defined.

(** The collector has it under its run id. *)
Example demo_path : path (collector demo_world) (uuid_String (seqZ 1 16)) = [demo_seen].
Proof. vm_compute. reflexivity. Qed.
