(* ===== verification/TimeParse.v ===== *)
(** time.Parse of Go's standard library for RFC 3339: its fast path, and the proof
    that it reads back what time.Format wrote, to the nanosecond. *)
From S2P Require Import Prelude GoStd GoText GoTime GoJson GoJsonProps JsonCodec.

Local Open Scope Z_scope.

(** ** Dates *)

Definition isLeap (y : Z) : bool := (y mod 4 =? 0) && (negb (y mod 100 =? 0) || (y mod 400 =? 0)).

Definition daysIn (m y : Z) : Z :=
  if m =? 2 then (if isLeap y then 29 else 28)
  else if (m =? 4) || (m =? 6) || (m =? 9) || (m =? 11) then 30 else 31.

(** The day, counted from 1970-01-01, of a civil date. *)
Definition days_of (y m d : Z) : Z :=
  let y' := if m <=? 2 then y - 1 else y in
  let era := y' / 400 in
  let yoe := y' mod 400 in
  let doy := (153 * (if m <=? 2 then m + 9 else m - 3) + 2) / 5 + d - 1 in
  era * 146097 + (yoe * 365 + yoe / 4 - yoe / 100 + doy) - 719468.

(** ** The text *)

(** parseUint of the fast path: digits only, within bounds. *)
Definition parse_int (l : bytes) (lo hi : Z) : option Z :=
  if forallb is_digit l && (lo <=? dec_value l) && (dec_value l <=? hi) then Some (dec_value l) else None.

Definition sub (l : bytes) (i j : nat) : bytes := take (j - i) (drop i l).
Definition char_at (l : bytes) (i : nat) (c : Z) : bool := bool_decide (l !! i = Some c).

(** parseNanoseconds: at most nine digits count. *)
Definition nanos (ds : bytes) : Z := let ds := take 9 ds in dec_value ds * 10 ^ (9 - Z.of_nat (length ds)).

Definition parse_fraction (l : bytes) : Z * bytes :=
  match l with
  | p :: c :: r => if (p =? 46) && is_digit c then let '(ds, rest) := digits (c :: r) in (nanos ds, rest)
                   else (0, l)
  | _ => (0, l)
  end.

(** The offset in seconds. *)
Definition parse_zone (l : bytes) : option Z :=
  if bool_decide (l = [90]) then Some 0
  else if negb (length l =? 6)%nat then None
  else
    hr ← parse_int (sub l 1 3) 0 23;
    mm ← parse_int (sub l 4 6) 0 59;
    if (char_at l 0 45 || char_at l 0 43) && char_at l 3 58 then
      let off := (hr * 60 + mm) * 60 in
      Some (if char_at l 0 45 then - off else off)
    else None.

(** parseRFC3339: the instant in nanoseconds since 1970. *)
Definition parseRFC3339 (l : bytes) : option Z :=
  if (length l <? 19)%nat then None
  else
    y ← parse_int (sub l 0 4) 0 9999;
    m ← parse_int (sub l 5 7) 1 12;
    d ← parse_int (sub l 8 10) 1 (daysIn m y);
    hh ← parse_int (sub l 11 13) 0 23;
    mi ← parse_int (sub l 14 16) 0 59;
    ss ← parse_int (sub l 17 19) 0 59;
    if char_at l 4 45 && char_at l 7 45 && char_at l 10 84 && char_at l 13 58 && char_at l 16 58 then
      let '(ns, r) := parse_fraction (drop 19 l) in
      off ← parse_zone r;
      Some ((days_of y m d * 86400 + hh * 3600 + mi * 60 + ss - off) * 1000000000 + ns)
    else None.

(** [time.Parse(time.RFC3339Nano, s)]: [slow] is the general parser, which takes
    over for what the fast path refuses. *)
Definition time_Parse (slow : bytes -> option Z) (s : string) : option Z :=
  match parseRFC3339 (codes s) with Some t => Some t | None => slow (codes s) end.

Example parse_example : parseRFC3339 (codes "2024-02-29T20:29:59.5-03:30") = Some 1709251199500000000.
Proof. reflexivity. Qed.
Example parse_bad_day : parseRFC3339 (codes "2023-02-29T00:00:00Z") = None.
Proof. reflexivity. Qed.

(** ** Reading back the date *)

(** The year of a day of the 400-year cycle, and the day of that year, which
    begins in March; it has a 366th day before a leap day. *)
Lemma year_of_cycle doe :
  0 <= doe < 146097 ->
  let yoe := (doe - doe / 1460 + doe / 36524 - doe / 146096) / 365 in
  let doy := doe - (365 * yoe + yoe / 4 - yoe / 100) in
  0 <= yoe <= 399 /\ 0 <= doy <= 365 /\ (doy = 365 -> isLeap (yoe + 1) = true).
Proof.
  intros H yoe doy. subst doy.
  assert (0 <= yoe <= 399) by (subst yoe; mlia).
  assert (doe / 36524 = 0 \/ doe / 36524 = 1 \/ doe / 36524 = 2 \/ doe / 36524 = 3 \/ doe / 36524 = 4)
    as Hc by mlia.
  split; [done |]. unfold isLeap.
  destruct Hc as [Hc|[Hc|[Hc|[Hc|Hc]]]]; subst yoe; rewrite Hc in *; split; mlia.
Qed.

(** The month and the day from the day of the year. *)
Definition month_ok (doy : Z) : bool :=
  let mp := (5 * doy + 2) / 153 in
  let d := doy - (153 * mp + 2) / 5 + 1 in
  let m := if mp <? 10 then mp + 3 else mp - 9 in
  ((153 * (if m <=? 2 then m + 9 else m - 3) + 2) / 5 + d - 1 =? doy)
  && (1 <=? m) && (m <=? 12) && (1 <=? d)
  && (d <=? (if m =? 2 then if doy =? 365 then 29 else 28 else daysIn m 1)).

Lemma months_ok doy : 0 <= doy <= 365 -> month_ok doy = true.
Proof.
  intros H. assert (forallb month_ok (seqZ 0 366) = true) as Hall by (vm_compute; reflexivity).
  rewrite forallb_forall in Hall. apply Hall. apply list_elem_of_In, elem_of_seqZ. lia.
Qed.

Lemma daysIn_other m y : m ≠ 2 -> daysIn m y = daysIn m 1.
Proof. intros Hm. unfold daysIn. by destruct (Z.eqb_spec m 2). Qed.

Lemma isLeap_shift y k : isLeap (y + k * 400) = isLeap y.
Proof.
  unfold isLeap. rewrite Z.mod_add by lia.
  replace ((y + k * 400) mod 4) with (y mod 4) by mlia.
  by replace ((y + k * 400) mod 100) with (y mod 100) by mlia.
Qed.

Lemma civil_spec z y m d :
  civil z = (y, m, d) ->
  days_of y m d = z /\ 1 <= m <= 12 /\ 1 <= d <= daysIn m y
  /\ 400 * ((z + 719468) / 146097) <= y <= 400 * ((z + 719468) / 146097) + 400.
Proof.
  unfold civil. set (era := (z + 719468) / 146097). set (doe := (z + 719468) mod 146097).
  assert (0 <= doe < 146097) as Hdoe by (apply Z.mod_pos_bound; lia).
  assert (z = era * 146097 + doe - 719468) as Hz by (unfold era, doe; mlia).
  pose proof (year_of_cycle doe Hdoe) as (Hyoe & Hdoy & Hleap). cbv zeta in Hyoe, Hdoy, Hleap.
  set (yoe := (_ / 365)) in *. set (doy := doe - (365 * yoe + _ - _)) in *. intros [= <- <- <-].
  pose proof (months_ok doy Hdoy) as Hm. unfold month_ok in Hm. cbv zeta in Hm.
  set (mp := (5 * doy + 2) / 153) in *. set (mo := if mp <? 10 then _ else _) in *.
  set (da := doy - _ + 1) in *. clearbody da mo mp. unfold days_of.
  replace (if mo <=? 2 then yoe + era * 400 + (if mo <=? 2 then 1 else 0) - 1
           else yoe + era * 400 + (if mo <=? 2 then 1 else 0)) with (yoe + era * 400)
    by (destruct (mo <=? 2); lia).
  rewrite Z.div_add, Z.mod_add, (Z.div_small yoe), (Z.mod_small yoe) by lia.
  split_and!; try lia; [|destruct (mo <=? 2); lia..].
  destruct (Z.eqb_spec mo 2) as [->|Hne]; [|rewrite daysIn_other by done; lia].
  cbn. unfold daysIn. cbn. rewrite <- Z.add_assoc, (Z.add_comm (era * 400)), Z.add_assoc, isLeap_shift.
  destruct (Z.eqb_spec doy 365) as [Hd|]; [rewrite (Hleap Hd); lia | destruct (isLeap _); lia].
Qed.

(** ** Reading back the text *)

Lemma length_decimals n v : length (decimals n v) = n.
Proof. revert v. induction n as [|n IH]; intros v; [done |]. cbn. rewrite length_app, IH. cbn. lia. Qed.

Lemma decimals_digits n v : Forall (fun c => is_digit c = true) (decimals n v).
Proof.
  revert v. induction n as [|n IH]; intros v; [constructor |]. cbn. apply Forall_app.
  split; [apply IH |]. repeat constructor. unfold is_digit. mlia.
Qed.

Lemma digits_forallb l : Forall (fun c => is_digit c = true) l -> forallb is_digit l = true.
Proof. intros H. apply forallb_forall. intros x Hx. apply list_elem_of_In in Hx. by eapply Forall_forall in H. Qed.

Lemma dec_value_app a b : dec_value (a ++ b) = dec_value a * 10 ^ Z.of_nat (length b) + dec_value b.
Proof.
  unfold dec_value. rewrite foldl_app. generalize (foldl (fun a c => a * 10 + (c - 48)) 0 a). intros x.
  induction b as [|c b IH] using rev_ind; [cbn; lia |].
  rewrite !foldl_app, IH, length_app, Nat2Z.inj_add. cbn [foldl length].
  rewrite Z.pow_add_r by lia. change (10 ^ Z.of_nat 1) with 10. lia.
Qed.

Lemma dec_value_decimals n v : 0 <= v -> dec_value (decimals n v) = v mod 10 ^ Z.of_nat n.
Proof.
  revert v. induction n as [|n IH]; intros v Hv; [by rewrite Z.mod_1_r |].
  cbn [decimals]. rewrite dec_value_app, IH by mlia. rewrite Nat2Z.inj_succ, Z.pow_succ_r by lia.
  rewrite Z.rem_mul_r by lia. cbn. lia.
Qed.

Lemma parse_decimals n v lo hi :
  0 <= v < 10 ^ Z.of_nat n -> lo <= v <= hi -> parse_int (decimals n v) lo hi = Some v.
Proof.
  intros Hv Hb. unfold parse_int. rewrite digits_forallb by apply decimals_digits.
  rewrite dec_value_decimals, Z.mod_small by lia. cbn. by rewrite (proj2 (andb_true_iff _ _)) by lia.
Qed.

(** The fraction. *)
Lemma trim_zeros_app l : exists k, l = replicate k 48 ++ trim_zeros l.
Proof.
  induction l as [|c l [k IH]]; [by exists 0%nat |]. destruct (Z.eq_dec c 48) as [->|Hne].
  - exists (S k). cbn. by rewrite <- IH.
  - exists 0%nat. cbn. repeat case_match; done.
Qed.

Lemma dec_value_zeros k : dec_value (replicate k 48) = 0.
Proof. induction k as [|k IH]; [done |]. replace (replicate (S k) 48) with ([48] ++ replicate k 48) by done.
  by rewrite dec_value_app, IH. Qed.

Definition no_digit (l : bytes) : Prop := match l with c :: _ => is_digit c = false /\ c ≠ 46 | [] => True end.

Lemma digits_stop ds r : Forall (fun c => is_digit c = true) ds -> no_digit r -> digits (ds ++ r) = (ds, r).
Proof.
  intros Hd Hr. induction Hd as [|c ds Hc _ IH]; cbn.
  - destruct r as [|c r]; [done |]. destruct Hr as [Hc _]. cbn. by rewrite Hc.
  - by rewrite Hc, IH.
Qed.

Lemma parse_fraction_back ns r :
  0 <= ns < 1000000000 -> no_digit r -> parse_fraction (fraction ns ++ r) = (ns, r).
Proof.
  intros Hns Hr. unfold fraction. destruct (Z.eqb_spec ns 0) as [->|Hnz].
  { cbn [app]. unfold parse_fraction. destruct r as [|p [|c r]]; try done. destruct Hr as [_ Hp].
    by rewrite (proj2 (Z.eqb_neq p 46)). }
  set (D := decimals 9 ns). set (ds := rev (trim_zeros (rev D))).
  destruct (trim_zeros_app (rev D)) as [k Hk].
  assert (D = ds ++ replicate k 48) as HD.
  { transitivity (rev (replicate k 48 ++ trim_zeros (rev D))).
    - rewrite <- Hk. symmetry. apply rev_involutive.
    - rewrite rev_app_distr. unfold ds. f_equal. rewrite rev_alt. apply reverse_replicate. }
  pose proof (decimals_digits 9 ns) as Hall. fold D in Hall. rewrite HD, Forall_app in Hall. destruct Hall as [Hall _].
  assert (dec_value D = ns) as Hv by (unfold D; rewrite dec_value_decimals, Z.mod_small; lia).
  assert (length ds + k = 9)%nat as Hlen.
  { rewrite <- (length_decimals 9 ns). fold D. by rewrite HD, length_app, length_replicate. }
  rewrite HD, dec_value_app, dec_value_zeros, length_replicate, Z.add_0_r in Hv.
  destruct ds as [|c ds]; [cbn in Hv; lia |].
  cbn [app parse_fraction]. apply Forall_cons in Hall as [Hc Hds]. rewrite Hc.
  change ((46 =? 46) && true) with true. cbv iota. change (c :: ds ++ r) with ((c :: ds) ++ r).
  rewrite digits_stop by (done || by apply Forall_cons_2). unfold nanos. rewrite take_ge by (cbn in Hlen |- *; lia).
  f_equal. rewrite <- Hv. do 2 f_equal. cbn in Hlen |- *. lia.
Qed.

(** The zone. *)
Definition zone_ok (off : Z) : Prop := off mod 60 = 0 /\ -86400 < off < 86400.

Lemma zone_no_digit off : no_digit (zone_suffix off).
Proof. unfold zone_suffix. repeat case_match; done. Qed.

Lemma parse_zone_back off : zone_ok off -> parse_zone (zone_suffix off) = Some off.
Proof.
  intros [Hm Hr]. unfold zone_suffix. destruct (Z.eqb_spec off 0) as [->|Hnz]; [done |].
  assert (0 <= Z.abs off < 86400 /\ exists q, Z.abs off = 60 * q) as [Ha [q Hq]].
  { split; [lia |]. exists (Z.abs (off / 60)). mlia. }
  assert (forall s, s = 45 \/ s = 43 -> parse_zone (s :: decimals 2 (Z.abs off / 60 / 60) ++ [58]
    ++ decimals 2 ((Z.abs off / 60) mod 60)) = Some (if s =? 45 then - Z.abs off else Z.abs off)) as H.
  { intros s Hs. pose proof (parse_decimals 2 (Z.abs off / 60 / 60) 0 23) as Hh.
    pose proof (parse_decimals 2 ((Z.abs off / 60) mod 60) 0 59) as Hmm.
    specialize (Hh ltac:(cbn; mlia) ltac:(mlia)). specialize (Hmm ltac:(cbn; mlia) ltac:(mlia)).
    pose proof (length_decimals 2 (Z.abs off / 60 / 60)) as L1.
    pose proof (length_decimals 2 ((Z.abs off / 60) mod 60)) as L2.
    destruct (decimals 2 (Z.abs off / 60 / 60)) as [|a [|b [|]]]; try done.
    destruct (decimals 2 ((Z.abs off / 60) mod 60)) as [|c [|d [|]]]; try done.
    unfold parse_zone. rewrite bool_decide_false by done. cbn [app length Nat.eqb negb].
    unfold sub. cbn [drop take Nat.sub]. rewrite Hh, Hmm. cbn [mbind option_bind].
    assert ((Z.abs off / 60 / 60 * 60 + (Z.abs off / 60) mod 60) * 60 = Z.abs off) as -> by mlia.
    unfold char_at. cbn. by destruct Hs as [-> | ->]. }
  destruct (Z.ltb_spec off 0); rewrite H by auto; cbn; f_equal; lia.
Qed.

(** The date and the time of day stand at fixed places. *)
Lemma parse_front A B C D E F r :
  length A = 4%nat -> length B = 2%nat -> length C = 2%nat -> length D = 2%nat -> length E = 2%nat ->
  length F = 2%nat ->
  parseRFC3339 (A ++ [45] ++ B ++ [45] ++ C ++ [84] ++ D ++ [58] ++ E ++ [58] ++ F ++ r) =
    y ← parse_int A 0 9999; m ← parse_int B 1 12; d ← parse_int C 1 (daysIn m y);
    hh ← parse_int D 0 23; mi ← parse_int E 0 59; ss ← parse_int F 0 59;
    let '(ns, r) := parse_fraction r in
    off ← parse_zone r;
    Some ((days_of y m d * 86400 + hh * 3600 + mi * 60 + ss - off) * 1000000000 + ns).
Proof.
  intros HA HB HC HD HE HF. explode A HA. explode B HB. explode C HC. explode D HD. explode E HE. explode F HF.
  reflexivity.
Qed.

(** The instants of an int64 of nanoseconds, in a zone of whole minutes. *)
Definition time_ok (t : time) : Prop := -9223372036854775808 <= UnixNano t < 9223372036854775808 /\ zone_ok (zone t).

Lemma format_bytes_ok t : codes (FormatRFC3339Nano t) =
  let secs := UnixNano t / 1000000000 + zone t in
  let sod := secs mod 86400 in
  let '(y, m, d) := civil (secs / 86400) in
  decimals 4 y ++ [45] ++ decimals 2 m ++ [45] ++ decimals 2 d ++ [84]
    ++ decimals 2 (sod / 3600) ++ [58] ++ decimals 2 (sod / 60 mod 60) ++ [58]
    ++ decimals 2 (sod mod 60) ++ fraction (UnixNano t mod 1000000000) ++ zone_suffix (zone t).
Proof.
  unfold FormatRFC3339Nano. destruct (civil _) as [[y m] d]. cbv zeta. apply codes_of_codes.
  assert (forall n v, bytes_ok (decimals n v)) as Hd.
  { intros n v. eapply Forall_impl; [apply decimals_digits |]. unfold is_digit, is_byte. intros c. cbn. lia. }
  assert (forall v, bytes_ok (fraction v)) as Hf.
  { intros v. unfold fraction. case_match; [constructor |]. apply bytes_ok_cons. split; [unfold is_byte; lia |].
    destruct (trim_zeros_app (rev (decimals 9 v))) as [k Hk]. pose proof (Hd 9%nat v) as H9.
    apply bytes_ok_rev. apply bytes_ok_rev in H9. rewrite Hk in H9. by apply bytes_ok_app in H9 as [_ ?]. }
  assert (forall v, bytes_ok (zone_suffix v)) as Hz.
  { intros v. unfold zone_suffix. case_match; [repeat constructor; unfold is_byte; lia |].
    apply bytes_ok_cons. split; [case_match; unfold is_byte; lia |].
    rewrite !bytes_ok_app. split_and!; [apply Hd | repeat constructor; unfold is_byte; lia | apply Hd]. }
  rewrite !bytes_ok_app. split_and!; try apply Hd; try apply Hf; try apply Hz;
    repeat constructor; unfold is_byte; lia.
Qed.

(** The text of an instant is read back to the instant. *)
Lemma time_roundtrip t : time_ok t -> parseRFC3339 (codes (FormatRFC3339Nano t)) = Some (UnixNano t).
Proof.
  intros [Ht Hz]. rewrite format_bytes_ok. cbv zeta.
  set (secs := UnixNano t / 1000000000 + zone t). set (sod := secs mod 86400).
  destruct (civil (secs / 86400)) as [[y m] d] eqn:Hc. apply civil_spec in Hc as (Hdays & Hm & Hd & Hy).
  assert (0 <= sod < 86400) by (apply Z.mod_pos_bound; lia).
  assert (0 <= y <= 9999) by (unfold zone_ok in Hz; unfold secs in *; mlia).
  assert (d <= 31) by (unfold daysIn in Hd; repeat case_match; lia).
  rewrite parse_front by apply length_decimals.
  rewrite !parse_decimals by (cbn; mlia). cbn [mbind option_bind].
  rewrite !parse_decimals by (cbn; mlia). cbn [mbind option_bind].
  rewrite parse_fraction_back by (apply zone_no_digit || (apply Z.mod_pos_bound; lia)).
  rewrite parse_zone_back by done. cbn [mbind option_bind]. f_equal. rewrite Hdays.
  unfold sod, secs. mlia.
Qed.
