(* ===== verification/Otlp.v ===== *)
(** agent/otlp.go: each observation becomes a span.  The OpenTelemetry SDK is what
    the span is handed to; uuid.Parse of google/uuid is an argument. *)
From stdpp Require Export strings sets.
From S2P Require Import Prelude GoStd GoText GoTime GoJson GoJsonProps JsonCodec TimeParse Observation.
From S2P Require Import Emit.

Local Open Scope Z_scope.

(** attribute.KeyValue: String, Int and Int64, Bool. *)
Inductive attr_value := VString (s : string) | VInt (z : Z) | VBool (b : bool).
Abbreviation attribute := (string * attr_value)%type.

(** What is given to tracer.Start and span.End. *)
Record span := mkSpan {
  TraceID : bytes;
  ParentID : bytes;
  sp_name : string;
  sp_start : Z;          (* nanoseconds since 1970 *)
  sp_end : Z;
  sp_attrs : list attribute
}.

(** The resource of newOTLPSink. *)
Definition resource_attrs (nodeID az : string) : list attribute :=
  [("service.name", VString "traceflow"); ("host.name", VString nodeID)]%string
  ++ (if bool_decide (az = ""%string) then [] else [("cloud.availability_zone", VString az)])%string.

Definition if_set (s : string) (k : string) : list attribute :=
  if bool_decide (s = ""%string) then [] else [(k, VString s)].
Definition if_nonzero (z : Z) (k : string) : list attribute := if z =? 0 then [] else [(k, VInt z)].

Definition otlpAttrs (o : Observation) : list attribute := ([
    ("traceflow.node_id", VString (NodeID o));
    ("traceflow.hop", VInt (o_Hop o));
    ("traceflow.direction", VString (o_Direction o));
    ("traceflow.protocol", VString (o_Protocol o));
    ("traceflow.iface_type", VString (IfaceType o));
    ("traceflow.action", VString (o_Action o));
    ("source.address", VString (SrcIP o));
    ("destination.address", VString (DstIP o));
    ("traceflow.latency_ns", VInt (LatencyNS o))]
  ++ if_nonzero (o_VNI o) "traceflow.vni"
  ++ if_nonzero (o_VLAN o) "traceflow.vlan"
  ++ if_set (AZ o) "cloud.availability_zone"
  ++ if_set (Iface o) "traceflow.iface"
  ++ if_set (LogicalSwitch o) "traceflow.logical_switch"
  ++ if_nonzero (SrcPort o) "source.port"
  ++ if_nonzero (DstPort o) "destination.port"
  ++ if_set (TCPFlags o) "traceflow.tcp_flags"
  ++ (if ClockSkew o then [("traceflow.clock_skew", VBool true)] else []))%list%string.

(** The arrow between the addresses, U+2192. *)
Definition arrow : string := of_codes [226; 134; 146].

Section export.
(** uuid.Parse, and the general parser of time.Parse. *)
Context (uuid_Parse : string -> option bytes).
Context (slow : bytes -> option Z).

(** export: [now] is time.Now(); [None]: the id is no UUID and nothing is exported. *)
Definition export (now : time) (o : Observation) : option span :=
  u ← uuid_Parse (ID o);
  let start := match time_Parse slow (Timestamp o) with Some t => t | None => UnixNano now end in
  Some (mkSpan u (take 8 u)
          (NodeID o +:+ " " +:+ o_Direction o +:+ " " +:+ SrcIP o +:+ arrow +:+ DstIP o)
          start start (otlpAttrs o)).
End export.

(** ** Properties *)

(** The value of a key. *)
Definition attr (k : string) (l : list attribute) : option attr_value :=
  snd <$> find (fun p => bool_decide (fst p = k)) l.

Lemma attr_app k l1 l2 : attr k (l1 ++ l2) = match attr k l1 with Some v => Some v | None => attr k l2 end.
Proof. unfold attr. induction l1 as [|p l1 IH]; [done |]. cbn. by case_bool_decide. Qed.

Lemma attr_if_set k s : attr k (if_set s k) = if bool_decide (s = ""%string) then None else Some (VString s).
Proof. unfold if_set. case_bool_decide; [done |]. unfold attr. cbn. by rewrite bool_decide_true. Qed.
Lemma attr_if_nonzero k z : attr k (if_nonzero z k) = if z =? 0 then None else Some (VInt z).
Proof. unfold if_nonzero. destruct (z =? 0); [done |]. unfold attr. cbn. by rewrite bool_decide_true. Qed.
Lemma attr_other_set k k' s : k' ≠ k -> attr k (if_set s k') = None.
Proof. intros H. unfold if_set. case_bool_decide; [done |]. unfold attr. cbn. by rewrite bool_decide_false. Qed.
Lemma attr_other_nonzero k k' z : k' ≠ k -> attr k (if_nonzero z k') = None.
Proof. intros H. unfold if_nonzero. destruct (z =? 0); [done |]. unfold attr. cbn. by rewrite bool_decide_false. Qed.

(** The key is in one optional group and in no other. *)
Ltac find_attr :=
  unfold otlpAttrs; rewrite !attr_app;
  repeat first [rewrite attr_if_set | rewrite attr_if_nonzero
               | rewrite attr_other_set by discriminate | rewrite attr_other_nonzero by discriminate].

Lemma attr_vni o : attr "traceflow.vni" (otlpAttrs o) = if o_VNI o =? 0 then None else Some (VInt (o_VNI o)).
Proof. find_attr. cbn. destruct (o_VNI o =? 0), (ClockSkew o); done. Qed.
Lemma attr_az o :
  attr "cloud.availability_zone" (otlpAttrs o) = if bool_decide (AZ o = ""%string) then None else Some (VString (AZ o)).
Proof. find_attr. cbn. by destruct (bool_decide (AZ o = _)), (ClockSkew o). Qed.
Lemma attr_ls o :
  attr "traceflow.logical_switch" (otlpAttrs o)
  = if bool_decide (LogicalSwitch o = ""%string) then None else Some (VString (LogicalSwitch o)).
Proof. find_attr. cbn. by destruct (bool_decide (LogicalSwitch o = _)), (ClockSkew o). Qed.
Lemma attr_skew o :
  attr "traceflow.clock_skew" (otlpAttrs o) = if ClockSkew o then Some (VBool true) else None.
Proof. find_attr. cbn. by destruct (ClockSkew o). Qed.

(** Every key is used once. *)
Definition attr_keys : list string :=
  ["traceflow.node_id"; "traceflow.hop"; "traceflow.direction"; "traceflow.protocol"; "traceflow.iface_type";
   "traceflow.action"; "source.address"; "destination.address"; "traceflow.latency_ns"; "traceflow.vni";
   "traceflow.vlan"; "cloud.availability_zone"; "traceflow.iface"; "traceflow.logical_switch"; "source.port";
   "destination.port"; "traceflow.tcp_flags"; "traceflow.clock_skew"]%string.

Lemma keys_once o : NoDup (map fst (otlpAttrs o)).
Proof.
  apply (sublist_NoDup _ attr_keys); [compute_decide |].
  assert (forall k s, map fst (if_set s k) `sublist_of` [k]) as Hs.
  { intros k s. unfold if_set. case_bool_decide; [apply sublist_nil_l | done]. }
  assert (forall k z, map fst (if_nonzero z k) `sublist_of` [k]) as Hz.
  { intros k z. unfold if_nonzero. destruct (z =? 0); [apply sublist_nil_l | done]. }
  unfold otlpAttrs. rewrite !map_app.
  change attr_keys with (take 9 attr_keys ++ ["traceflow.vni"] ++ ["traceflow.vlan"]
    ++ ["cloud.availability_zone"] ++ ["traceflow.iface"] ++ ["traceflow.logical_switch"] ++ ["source.port"]
    ++ ["destination.port"] ++ ["traceflow.tcp_flags"] ++ ["traceflow.clock_skew"])%list%string.
  repeat (apply sublist_app; [first [done | apply Hs | apply Hz] |]).
  destruct (ClockSkew o); [done | apply sublist_nil_l].
Qed.


(** A reader of UUID texts, for the instance. *)
Fixpoint hex_bytes (l : bytes) : option bytes :=
  match l with
  | a :: b :: r => x ← hexval a; y ← hexval b; cons (16 * x + y) <$> hex_bytes r
  | [] => Some []
  | _ => None
  end.
Definition read_uuid (s : string) : option bytes := hex_bytes (filter (fun c => c ≠ 45) (codes s)).

Lemma hexval_hex d : 0 <= d < 16 -> hexval (hex d) = Some d /\ hex d ≠ 45 /\ is_byte (hex d).
Proof.
  intros Hd. assert (forallb (fun d => bool_decide (hexval (hex d) = Some d) && negb (hex d =? 45)
    && bool_decide (is_byte (hex d))) (seqZ 0 16) = true) as Hall by (vm_compute; reflexivity).
  rewrite forallb_forall in Hall. specialize (Hall d ltac:(apply list_elem_of_In, elem_of_seqZ; lia)).
  apply andb_prop in Hall as [[H1 H2]%andb_prop H3].
  apply bool_decide_eq_true in H1, H3. split_and!; [done | lia | done].
Qed.

Lemma hex_bytes_pairs l : bytes_ok l -> hex_bytes (mjoin (map hexpair l)) = Some l
  /\ filter (fun c => c ≠ 45) (mjoin (map hexpair l)) = mjoin (map hexpair l).
Proof.
  induction 1 as [|b l Hb _ [IH1 IH2]]; [done |]. unfold is_byte in Hb.
  destruct (hexval_hex (b / 16) ltac:(mlia)) as (H1 & N1 & _). destruct (hexval_hex (b mod 16) ltac:(mlia)) as (H2 & N2 & _).
  change (mjoin (map hexpair (b :: l))) with (hex (b / 16) :: hex (b mod 16) :: mjoin (map hexpair l)). split.
  - cbn [hex_bytes]. rewrite H1, H2. cbn [mbind option_bind]. rewrite IH1. cbn. do 2 f_equal. mlia.
  - by rewrite !filter_cons_True, IH2.
Qed.

Lemma hex_no_dash l :
  bytes_ok l -> filter (fun c => c ≠ 45) (mjoin (map hexpair l)) = mjoin (map hexpair l).
Proof. apply hex_bytes_pairs. Qed.

Lemma read_uuid_law id : bytes_ok id -> length id = 16%nat -> read_uuid (uuid_String id) = Some id.
Proof.
  intros Hb Hl. unfold read_uuid, uuid_String. rewrite codes_of_codes by by apply uuid_codes_ok.
  unfold uuid_codes. rewrite !filter_app.
  change (filter (fun c : Z => c ≠ 45) [45]) with (@nil Z). rewrite !app_nil_l.
  rewrite !hex_no_dash by auto using bytes_ok_take, bytes_ok_drop.
  rewrite <- (proj1 (hex_bytes_pairs id Hb)). f_equal. explode id Hl. reflexivity.
Qed.

