(* ===== verification/Metrics.v ===== *)
(** agent/metrics.go: the counters of the agent and their text for Prometheus, and
    the proof that a scraper reads the values back. *)
From stdpp Require Import sets.
From S2P Require Import Prelude GoStd GoText GoTime GoJson GoJsonProps JsonCodec.

Local Open Scope Z_scope.

(** The counters of the process; the gauges are int64. *)
Record metrics := mkMetrics {
  mt_parseErrors : Z; mt_readErrors : Z; mt_repliesSent : Z; mt_authFailures : Z;
  mt_tapsWatched : Z; mt_vxlanWatched : Z
}.

Definition statObserved : Z := 0.
Definition statRingbufFull : Z := 1.

(** [stats]: the lookup of a counter of all CPUs; [None] is an error. *)
Definition sumPerCPU (stats : Z -> option (list Z)) (key : Z) : Z :=
  match stats key with
  | None => 0
  | Some vals => foldl (fun s v => u64 (s + v)) 0 vals
  end.

(** ** fmt's %q *)

Section quote.
(** unicode.IsPrint on a code point from U+0080. *)
Context (isPrint : Z -> bool).

(** The code point of a well-formed sequence. *)
Definition rune (l : bytes) : Z :=
  match l with
  | [a; b] => (a - 192) * 64 + (b - 128)
  | [a; b; c] => (a - 224) * 4096 + (b - 128) * 64 + (c - 128)
  | [a; b; c; d] => (a - 240) * 262144 + (b - 128) * 4096 + (c - 128) * 64 + (d - 128)
  | _ => 0
  end.

Definition hex_digits (n : nat) (v : Z) : bytes :=
  map (fun i => hex (v / 16 ^ Z.of_nat i mod 16)) (rev (seq 0 n)).

Definition quote_ascii (c : Z) : bytes :=
  if (c =? 34) || (c =? 92) then [92; c]
  else if between 32 126 c then [c]
  else if c =? 7 then [92; 97]
  else if c =? 8 then [92; 98]
  else if c =? 12 then [92; 102]
  else if c =? 10 then [92; 110]
  else if c =? 13 then [92; 114]
  else if c =? 9 then [92; 116]
  else if c =? 11 then [92; 118]
  else [92; 120] ++ hex_digits 2 c.

Definition quote_rune (u : Z) : bytes :=
  if u <? 65536 then [92; 117] ++ hex_digits 4 u else [92; 85] ++ hex_digits 8 u.

(** The body of the literal; [k] bytes of a sequence are to come, to be copied or
    dropped. *)
Fixpoint quote_from (copy : bool) (k : nat) (l : bytes) : bytes :=
  match l with
  | [] => []
  | c :: r =>
      match k with
      | S k => if copy then c :: quote_from copy k r else quote_from copy k r
      | O =>
          match utf8_len l with
          | O => [92; 120] ++ hex_digits 2 c ++ quote_from false 0 r
          | S n =>
              if c <? 128 then quote_ascii c ++ quote_from false 0 r
              else
                let u := rune (take (S n) l) in
                if isPrint u then c :: quote_from true n r else quote_rune u ++ quote_from false n r
          end
      end
  end.

Definition quote (l : bytes) : bytes := 34 :: quote_from false 0 l ++ [34].

(** ** The page *)

(** "# HELP %s %s\n# TYPE %s %s\n%s{node=%q} %d\n". *)
Definition metric (name help typ : string) (node : bytes) (v : Z) : bytes :=
  codes "# HELP " ++ codes name ++ [32] ++ codes help ++ [10]
  ++ codes "# TYPE " ++ codes name ++ [32] ++ codes typ ++ [10]
  ++ codes name ++ codes "{node=" ++ quote node ++ codes "} " ++ utoa v ++ [10].

Definition counter (name help : string) := metric name help "counter".
Definition gauge (name help : string) := metric name help "gauge".

(** The handler of /metrics. *)
Definition metrics_page (stats : Z -> option (list Z)) (m : metrics) (node : bytes) : bytes :=
  counter "traceflow_observations_total" "Marked packets observed and pushed to the ring buffer."
    node (sumPerCPU stats statObserved)
  ++ counter "traceflow_ringbuf_drops_total"
    "Observations dropped because the ring buffer was full (reader too slow)."
    node (sumPerCPU stats statRingbufFull)
  ++ counter "traceflow_parse_errors_total" "Ring-buffer records that failed to decode."
    node (mt_parseErrors m)
  ++ counter "traceflow_ringbuf_read_errors_total" "Ring-buffer read errors." node (mt_readErrors m)
  ++ counter "traceflow_replies_sent_total" "Replies emitted by the responder." node (mt_repliesSent m)
  ++ counter "traceflow_auth_failures_total" "Requests rejected by the responder for a bad/missing HMAC."
    node (mt_authFailures m)
  ++ gauge "traceflow_taps_watched" "VM taps currently attached in watch mode." node (u64 (mt_tapsWatched m))
  ++ gauge "traceflow_vxlan_ifaces_watched"
    "Per-tenant VXLAN netdevs currently attached (netlink watcher)." node (u64 (mt_vxlanWatched m))
  ++ gauge "traceflow_up" "1 if the agent is running." node 1.
End quote.

Definition healthz : bytes := codes "ok" ++ [10].

(** ** A scraper: the text format of Prometheus, version 0.0.4 *)

(** A label value knows three escapes. *)
Definition unescape (e : Z) : option Z :=
  if e =? 92 then Some 92 else if e =? 34 then Some 34 else if e =? 110 then Some 10 else None.

Fixpoint label_value (l : bytes) : option (bytes * bytes) :=
  match l with
  | [] => None
  | c :: r =>
      if c =? 34 then Some ([], r)
      else if c =? 92 then
        match r with
        | e :: r => x ← unescape e; '(v, rest) ← label_value r; Some (x :: v, rest)
        | [] => None
        end
      else '(v, rest) ← label_value r; Some (c :: v, rest)
  end.

Fixpoint until (sep : Z) (l : bytes) : option (bytes * bytes) :=
  match l with
  | [] => None
  | c :: r => if c =? sep then Some ([], r) else '(a, b) ← until sep r; Some (c :: a, b)
  end.

(** name{node="value"} number *)
Definition read_sample (line : bytes) : option (bytes * bytes * Z) :=
  '(name, r) ← until 123 line;
  r ← strip (codes "node=" ++ [34]) r;
  '(node, r) ← label_value r;
  r ← strip (codes "} ") r;
  v ← parse_uint 64 r;
  Some (name, node, v).

Definition is_comment (line : bytes) : bool := match line with c :: _ => c =? 35 | [] => true end.

Definition scrape (page : bytes) : option (list (bytes * bytes * Z)) :=
  mapM read_sample (filter (fun l => is_comment l = false) (split_on 10 page)).

(** ** The scraper reads the page *)

(** Names whose runes are printable, or newlines. *)
Section node.
Context (isPrint : Z -> bool).

Fixpoint printable_from (k : nat) (l : bytes) : bool :=
  match l with
  | [] => true
  | c :: r =>
      match k with
      | S k => (128 <=? c) && printable_from k r
      | O =>
          match utf8_len l with
          | O => false
          | S n =>
              if c <? 128 then ((c =? 10) || between 32 126 c) && printable_from 0 r
              else isPrint (rune (take (S n) l)) && printable_from n r
          end
      end
  end.

Definition node_ok (l : bytes) : Prop := printable_from 0 l = true.

Lemma between_spec a b c : between a b c = true <-> a <= c <= b.
Proof. unfold between. lia. Qed.

Lemma label_copy c l v r : c ≠ 34 -> c ≠ 92 -> label_value l = Some (v, r) -> label_value (c :: l) = Some (c :: v, r).
Proof. intros H1 H2 H. cbn. rewrite (proj2 (Z.eqb_neq c 34)), (proj2 (Z.eqb_neq c 92)), H by done. done. Qed.

(** What a scraper makes of the literal, and that the literal has no line break. *)
Lemma quote_read copy k l rest :
  printable_from k l = true -> copy = true \/ k = 0%nat ->
  label_value (quote_from isPrint copy k l ++ 34 :: rest) = Some (l, rest)
  /\ 10 ∉ quote_from isPrint copy k l.
Proof.
  revert copy k. induction l as [|c l IH]; intros copy k Hp Hk; [split; [done | apply not_elem_of_nil] |].
  cbn [printable_from quote_from] in *. destruct k as [|k].
  - destruct (utf8_len (c :: l)) as [|n]; [done |]. destruct (Z.ltb_spec c 128).
    + apply andb_prop in Hp as [Hc Hp]. destruct (IH false 0%nat Hp (or_intror eq_refl)) as [IH1 IH2].
      unfold quote_ascii. destruct (Z.eqb_spec c 34) as [->|H34]; cbn [orb].
      { cbn. rewrite IH1. split; [done | set_solver]. }
      destruct (Z.eqb_spec c 92) as [->|H92].
      { cbn. rewrite IH1. split; [done | set_solver]. }
      destruct (between 32 126 c) eqn:Eb.
      { split; [by apply label_copy |]. apply between_spec in Eb. cbn. rewrite elem_of_cons.
        intros [?|?]; [lia | done]. }
      rewrite orb_false_r in Hc. apply Z.eqb_eq in Hc as ->. cbn. rewrite IH1. split; [done | set_solver].
    + apply andb_prop in Hp as [Hc Hp]. rewrite Hc.
      destruct (IH true n Hp (or_introl eq_refl)) as [IH1 IH2]. cbn [app].
      split; [apply label_copy; [lia | lia | done] |]. rewrite elem_of_cons. intros [?|?]; [lia | done].
  - destruct Hk as [->|]; [|done]. apply andb_prop in Hp as [Hc Hp].
    destruct (IH true k Hp (or_introl eq_refl)) as [IH1 IH2]. cbn [app].
    split; [apply label_copy; [lia | lia | done] |]. rewrite elem_of_cons. intros [?|?]; [lia | done].
Qed.

(** *** Lines *)

Lemma split_line sep a b : sep ∉ a -> split_on sep (a ++ sep :: b) = a :: split_on sep b.
Proof.
  induction a as [|c a IH]; intros Ha; cbn; [by rewrite Z.eqb_refl |].
  rewrite (proj2 (Z.eqb_neq c sep)) by set_solver. by rewrite IH by set_solver.
Qed.

Lemma until_spec sep a b : sep ∉ a -> until sep (a ++ sep :: b) = Some (a, b).
Proof.
  induction a as [|c a IH]; intros Ha; cbn; [by rewrite Z.eqb_refl |].
  rewrite (proj2 (Z.eqb_neq c sep)) by set_solver. by rewrite IH by set_solver.
Qed.

Lemma strip_app w l : strip w (w ++ l) = Some l.
Proof. induction w as [|c w IH]; [done |]. cbn. by rewrite Z.eqb_refl. Qed.

(** A name of a metric, and text that stays in its line. *)
Definition name_ok (s : string) : bool :=
  negb (bool_decide (s = ""%string))
  && forallb (fun c => negb (c =? 10) && negb (c =? 123) && negb (c =? 35)) (codes s).
Definition line_ok (s : string) : bool := forallb (fun c => negb (c =? 10)) (codes s).

Lemma line_ok_spec s : line_ok s = true -> 10 ∉ codes s.
Proof. unfold line_ok. rewrite forallb_forall. intros H Hin. apply list_elem_of_In, H in Hin. done. Qed.

Lemma name_ok_spec s : name_ok s = true -> 10 ∉ codes s /\ 123 ∉ codes s /\ is_comment (codes s ++ [123]) = false.
Proof.
  intros [H0 H]%andb_prop. rewrite forallb_forall in H.
  assert (forall c, c ∈ codes s -> c ≠ 10 /\ c ≠ 123 /\ c ≠ 35) as Hall.
  { intros c Hc%list_elem_of_In%H. lia. }
  split_and!; [intros ?%Hall; tauto.. |].
  destruct (codes s) as [|c l]; [done |]. cbn. apply Z.eqb_neq. by apply (Hall c), list_elem_of_here.
Qed.

Lemma utoa_no_newline v : 0 <= v -> 10 ∉ utoa v.
Proof.
  intros Hv Hin. destruct (utoa_spec v Hv) as (_ & Hd & _).
  eapply Forall_forall in Hd; [|done]. done.
Qed.

(** One metric: two comments and a sample. *)
Definition sample (name : string) (node : bytes) (v : Z) : bytes :=
  codes name ++ 123 :: (codes "node=" ++ [34]) ++ quote_from isPrint false 0 node ++ 34 :: codes "} " ++ utoa v.

Lemma scrape_lines name help typ node v rest :
  name_ok name = true -> line_ok help = true -> line_ok typ = true -> 0 <= v ->
  10 ∉ quote_from isPrint false 0 node ->
  scrape (metric isPrint name help typ node v ++ rest)
  = s ← read_sample (sample name node v); cons s <$> scrape rest.
Proof.
  intros Hn Hh Ht Hv Hq. apply name_ok_spec in Hn as (Hn10 & _ & Hnc). apply line_ok_spec in Hh, Ht.
  assert (metric isPrint name help typ node v ++ rest
    = (codes "# HELP " ++ codes name ++ [32] ++ codes help) ++ 10
      :: (codes "# TYPE " ++ codes name ++ [32] ++ codes typ) ++ 10 :: sample name node v ++ 10 :: rest) as ->.
  { unfold metric, quote, sample. change (codes "{node=") with (123 :: codes "node=").
    by repeat (progress (rewrite <- ?app_assoc; cbn [app])). }
  unfold scrape. rewrite !split_line.
  - rewrite filter_cons_False by done. rewrite filter_cons_False by done.
    rewrite filter_cons_True; [done |]. unfold sample. destruct (codes name); [done |]. exact Hnc.
  - unfold sample. rewrite !not_elem_of_app, !not_elem_of_cons, !not_elem_of_app, !not_elem_of_cons, !not_elem_of_app.
    split_and!; try done; try (apply utoa_no_newline; lia); set_solver.
  - rewrite !not_elem_of_app. split_and!; try done; set_solver.
  - rewrite !not_elem_of_app. split_and!; try done; set_solver.
Qed.

Lemma read_sample_label name node v :
  name_ok name = true ->
  read_sample (sample name node v)
  = '(node', r) ← label_value (quote_from isPrint false 0 node ++ 34 :: codes "} " ++ utoa v);
    r ← strip (codes "} ") r; v ← parse_uint 64 r; Some (codes name, node', v).
Proof.
  intros (_ & Hn & _)%name_ok_spec. unfold read_sample, sample. rewrite until_spec by done.
  cbn [mbind option_bind]. by rewrite strip_app.
Qed.

Lemma scrape_metric name help typ node v rest ss :
  name_ok name = true -> line_ok help = true -> line_ok typ = true -> node_ok node -> 0 <= v < 2 ^ 64 ->
  scrape rest = Some ss ->
  scrape (metric isPrint name help typ node v ++ rest) = Some ((codes name, node, v) :: ss).
Proof.
  intros Hn Hh Ht Hnode Hv Hr.
  destruct (quote_read false 0 node (codes "} " ++ utoa v) Hnode (or_intror eq_refl)) as [Hq Hq10].
  rewrite scrape_lines, read_sample_label, Hq, Hr by (done || lia). cbn [mbind option_bind].
  rewrite strip_app. cbn [mbind option_bind]. by rewrite parse_utoa.
Qed.
End node.

Definition metrics_ok (m : metrics) : Prop :=
  (0 <= mt_parseErrors m < 2 ^ 64 /\ 0 <= mt_readErrors m < 2 ^ 64)
  /\ (0 <= mt_repliesSent m < 2 ^ 64 /\ 0 <= mt_authFailures m < 2 ^ 64)
  /\ (0 <= mt_tapsWatched m < 2 ^ 63 /\ 0 <= mt_vxlanWatched m < 2 ^ 63).

Lemma sum_range stats key : 0 <= sumPerCPU stats key < 2 ^ 64.
Proof.
  unfold sumPerCPU. destruct (stats key) as [vals|]; [|lia].
  destruct vals as [|v vals _] using rev_ind; [cbn; lia |]. rewrite foldl_app. apply u64_range.
Qed.

Lemma sum_exact stats key vals :
  stats key = Some vals -> sumPerCPU stats key = foldr Z.add 0 vals mod 2 ^ 64.
Proof.
  intros H. unfold sumPerCPU. rewrite H. clear H.
  assert (forall s, foldl (fun s v => u64 (s + v)) (u64 s) vals = u64 (s + foldr Z.add 0 vals)) as Hg.
  { induction vals as [|v vals IH]; intros s; cbn; [by rewrite Z.add_0_r |].
    rewrite u64_add_idemp, IH. f_equal. lia. }
  exact (Hg 0).
Qed.

(** C40: The metrics say what is counted.  For every node name of printable
    characters and newlines, quotes, backslashes and non-ASCII text included, a
    scraper of the Prometheus format reads from /metrics the nine samples in order,
    each with the node name as it is and the exact value: the two sums over the CPUs
    modulo 2^64 (0 when the map cannot be read), the counters and the gauges.  A
    name with another control character makes the page unreadable, since %q writes
    escapes that the format does not know. *)
Theorem metrics_are_scraped isPrint stats m node :
  metrics_ok m ->
  (node_ok isPrint node ->
     scrape (metrics_page isPrint stats m node) = Some [
       (codes "traceflow_observations_total", node, sumPerCPU stats statObserved);
       (codes "traceflow_ringbuf_drops_total", node, sumPerCPU stats statRingbufFull);
       (codes "traceflow_parse_errors_total", node, mt_parseErrors m);
       (codes "traceflow_ringbuf_read_errors_total", node, mt_readErrors m);
       (codes "traceflow_replies_sent_total", node, mt_repliesSent m);
       (codes "traceflow_auth_failures_total", node, mt_authFailures m);
       (codes "traceflow_taps_watched", node, mt_tapsWatched m);
       (codes "traceflow_vxlan_ifaces_watched", node, mt_vxlanWatched m);
       (codes "traceflow_up", node, 1)]
     /\ scrape (metrics_page isPrint stats m (9 :: node)) = None)
  /\ (forall key vals, stats key = Some vals -> sumPerCPU stats key = foldr Z.add 0 vals mod 2 ^ 64)
  /\ (forall key, stats key = None -> sumPerCPU stats key = 0).
Proof.
  intros ((H1 & H2) & (H3 & H4) & H5 & H6).
  split_and!; [| exact (sum_exact stats) | unfold sumPerCPU; by intros key ->].
  intros Hn. unfold metrics_page, counter, gauge. split.
  - rewrite <- (app_nil_r (metric _ "traceflow_up" _ _ _ _)).
    rewrite (u64_small (mt_tapsWatched m)), (u64_small (mt_vxlanWatched m)) by lia.
    repeat (apply scrape_metric; [reflexivity | reflexivity | reflexivity | done
      | first [apply sum_range | lia] |]).
    reflexivity.
  - destruct (quote_read isPrint false 0 node [] Hn (or_intror eq_refl)) as [_ Hq].
    rewrite scrape_lines, read_sample_label;
      [reflexivity | reflexivity | reflexivity | reflexivity | reflexivity | apply sum_range |].
    change (quote_from isPrint false 0 (9 :: node)) with (92 :: 116 :: quote_from isPrint false 0 node).
    set_solver.
Qed.

(** A node name with quotes, a backslash, a newline and a letter outside ASCII. *)
Definition demo_node : bytes := codes "rack " ++ [34; 55; 34; 92; 10; 195; 169].
Definition demo_metrics : metrics := mkMetrics 1 2 3 18446744073709551615 4 5.
Definition demo_stats (key : Z) : option (list Z) :=
  if key =? statObserved then Some [18446744073709551615; 3; 4] else None.

Lemma metrics_are_scraped_witness :
  scrape (metrics_page (fun _ => true) demo_stats demo_metrics demo_node) = Some [
    (codes "traceflow_observations_total", demo_node, 6);
    (codes "traceflow_ringbuf_drops_total", demo_node, 0);
    (codes "traceflow_parse_errors_total", demo_node, 1);
    (codes "traceflow_ringbuf_read_errors_total", demo_node, 2);
    (codes "traceflow_replies_sent_total", demo_node, 3);
    (codes "traceflow_auth_failures_total", demo_node, 18446744073709551615);
    (codes "traceflow_taps_watched", demo_node, 4);
    (codes "traceflow_vxlan_ifaces_watched", demo_node, 5);
    (codes "traceflow_up", demo_node, 1)]
  /\ scrape (metrics_page (fun _ => true) demo_stats demo_metrics (9 :: demo_node)) = None.
Proof.
  apply (metrics_are_scraped (fun _ => true) demo_stats demo_metrics demo_node).
  - unfold metrics_ok. cbn. lia.
  - vm_compute. reflexivity.
Defined.
