(* ===== verification/VxlanWatch.v ===== *)
(** agent/vxlanwatch.go: the manager that follows the VXLAN devices of the host
    through netlink link events, attaches the observation programs to each, and
    registers its VNI in the eBPF map iface_vni. *)
From stdpp Require Export gmap strings.
From S2P Require Import Prelude GoStd Attach Watch.

Local Open Scope Z_scope.

(** netlink.Link: [VxlanId] is the field of a *netlink.Vxlan, [None] for another
    dynamic type. *)
Record link := mkLink {
  l_Type : string;
  l_Index : Z;
  l_Name : string;
  VxlanId : option Z
}.

Definition isVXLAN (l : link) : bool := bool_decide (l_Type l = "vxlan"%string).

Definition vxlanVNI (l : link) : Z := match VxlanId l with Some v => u32 v | None => 0 end.

Record vxlanAttach := mkVxlanAttach { va_name : string; va_detach : list slot }.

(** The state behind the mutex of vxlanManager, with the kernel and the map. *)
Record vxState := mkVx {
  vx_kern : kernel;
  ifaceVni : gmap Z Z;
  vx_attached : gmap Z vxlanAttach;
  vxlanWatched : Z
}.

(** The flags of the manager, and what the host answers during one operation. *)
Record vxConfig := mkVxConfig { vx_xdp : bool; vx_xdpTCEgress : bool }.
Record vxEnv := mkVxEnv {
  vx_hookFails : Z -> hook -> option kerr;
  vx_qdiscErr : Z -> option kerr;
  vx_clsactForced : bool;
  vx_putOK : Z -> bool
}.

Definition on_vx_kernel {A} (m : st kernel A) : st vxState A := fun s =>
  '(a, k) ← m (vx_kern s);
  Ret (a, mkVx k (ifaceVni s) (vx_attached s) (vxlanWatched s)).

Definition set_vni (m : gmap Z Z) (s : vxState) : vxState :=
  mkVx (vx_kern s) m (vx_attached s) (vxlanWatched s).
Definition set_vx_attached (m : gmap Z vxlanAttach) (s : vxState) : vxState :=
  mkVx (vx_kern s) (ifaceVni s) m (vxlanWatched s).
Definition set_vx_watched (z : Z) (s : vxState) : vxState :=
  mkVx (vx_kern s) (ifaceVni s) (vx_attached s) z.

(** The gauge shows the number of attached devices. *)
Definition count_vx : st vxState unit :=
  modS (fun s => set_vx_watched (Z.of_nat (size (vx_attached s))) s).

Definition attach (c : vxConfig) (e : vxEnv) (ifindex : Z) (name : string) (vni : Z) : st vxState unit :=
  s ← getS;
  match vx_attached s !! ifindex with
  | Some _ => mret tt
  | None =>
      d ← on_vx_kernel (attachIface (vx_hookFails e) (vx_qdiscErr e) (vx_clsactForced e) ifindex
                          (vx_xdp c) (vx_xdpTCEgress c));
      match d with
      | inl _ => mret tt
      | inr detach =>
          _ ← (if vx_putOK e (u32 ifindex)
               then modS (fun s => set_vni (<[u32 ifindex := vni]> (ifaceVni s)) s)
               else mret tt);
          _ ← modS (fun s =>
                 set_vx_attached (<[ifindex := mkVxlanAttach name detach]> (vx_attached s)) s);
          count_vx
      end
  end.

Definition detachIdx (ifindex : Z) : st vxState unit :=
  s ← getS;
  match vx_attached s !! ifindex with
  | None => mret tt
  | Some att =>
      _ ← on_vx_kernel (modS (run_detach (va_detach att)));
      _ ← modS (fun s => set_vni (delete (u32 ifindex) (ifaceVni s)) s);
      _ ← modS (fun s => set_vx_attached (delete ifindex (vx_attached s)) s);
      count_vx
  end.

(** The loop of closeAll, over the entries in the order of the iteration. *)
Fixpoint releaseAll (l : list (Z * vxlanAttach)) : st vxState unit :=
  match l with
  | [] => mret tt
  | (idx, att) :: r =>
      _ ← on_vx_kernel (modS (run_detach (va_detach att)));
      _ ← modS (fun s => set_vni (delete (u32 idx) (ifaceVni s)) s);
      releaseAll r
  end.

Definition vx_closeAll : st vxState unit :=
  s ← getS;
  _ ← releaseAll (map_to_list (vx_attached s));
  modS (fun s => set_vx_watched 0 (set_vx_attached ∅ s)).

(** ** runVXLANWatcher *)

Definition RTM_NEWLINK : Z := 16.
Definition RTM_DELLINK : Z := 17.

(** What the select of the loop receives. *)
Inductive signal :=
| Stop
| ChanClosed
| Update (type : Z) (link : option link).

Definition on_update (c : vxConfig) (e : vxEnv) (type : Z) (l : option link) : st vxState unit :=
  match l with
  | None => mret tt
  | Some l =>
      if negb (isVXLAN l) then mret tt
      else if type =? RTM_DELLINK then detachIdx (l_Index l)
      else attach c e (l_Index l) (l_Name l) (vxlanVNI l)
  end.

(** The loop; [false] when it has returned. *)
Fixpoint vx_loop (c : vxConfig) (signals : list (vxEnv * signal)) : st vxState bool :=
  match signals with
  | [] => mret true
  | (_, Stop) :: _ | (_, ChanClosed) :: _ => _ ← vx_closeAll; mret false
  | (e, Update type l) :: r => _ ← on_update c e type l; vx_loop c r
  end.

(** The devices that exist when the watcher starts. *)
Fixpoint attach_existing (c : vxConfig) (links : list (vxEnv * link)) : st vxState unit :=
  match links with
  | [] => mret tt
  | (e, l) :: r =>
      _ ← (if isVXLAN l then attach c e (l_Index l) (l_Name l) (vxlanVNI l) else mret tt);
      attach_existing c r
  end.

(** [subscribed]: netlink.LinkSubscribe succeeds; [links]: netlink.LinkList. *)
Definition runVXLANWatcher (c : vxConfig) (subscribed : bool) (links : option (list (vxEnv * link)))
  (signals : list (vxEnv * signal)) : st vxState bool :=
  if negb subscribed then mret false
  else
    _ ← (match links with Some links => attach_existing c links | None => mret tt end);
    vx_loop c signals.
