(* ===== verification/VxlanProps.v ===== *)
(** Properties of the VXLAN watcher: it converges to the devices of the host whatever
    happens while it starts, and gives everything back when it stops. *)
From stdpp Require Import gmap strings sets.
From S2P Require Import Prelude GoStd Attach Watch WatchProps VxlanWatch.

Local Open Scope Z_scope.

Section watcher.
Context (c : vxConfig) (base : list slot).

(** A device index: an interface without programs of the agent. *)
Definition clean (idx : Z) : Prop := 0 <= idx < 2 ^ 32 /\ forall h, (idx, h) ∉ base.

(** What every operation keeps. *)
Record vx_inv (s : vxState) : Prop := {
  vx_programs : hooks (vx_kern s) ≡ₚ base ++ owned_by va_detach (vx_attached s);
  vx_own idx att : vx_attached s !! idx = Some att ->
    clean idx /\ Forall (fun p => fst p = idx) (va_detach att)
    /\ complete (vx_xdp c) (vx_xdpTCEgress c) (va_detach att);
  vx_vnis k : is_Some (ifaceVni s !! k) -> is_Some (vx_attached s !! k);
  vx_gauge : vxlanWatched s = Z.of_nat (size (vx_attached s))
}.

(** A VXLAN device; the others are not touched. *)
Definition link_clean (l : link) : Prop := isVXLAN l = true -> clean (l_Index l).

Lemma u32_clean idx : clean idx -> u32 idx = idx.
Proof. intros [Hi _]. apply u32_small. lia. Qed.

Lemma free_new s idx : vx_inv s -> clean idx -> vx_attached s !! idx = None -> free idx (vx_kern s).
Proof.
  intros [Hp Hown _ _] [_ Hb] Hn h. rewrite Hp, elem_of_app. intros [Hin|Hin]; [by apply (Hb h) |].
  apply elem_of_owned_by in Hin as (j & att & Hj & Hx). destruct (Hown j att Hj) as (_ & Hall & _).
  eapply Forall_forall in Hall; [|done]. cbn in Hall. congruence.
Qed.

(** Nothing fails. *)
Definition works (e : vxEnv) : Prop :=
  (forall i h, vx_hookFails e i h = None) /\ (forall i, vx_qdiscErr e i = None)
  /\ (forall k, vx_putOK e k = true).

Lemma attach_spec e idx name vni s :
  vx_inv s -> clean idx ->
  exists s', attach c e idx name vni s = Ret (tt, s') /\ vx_inv s'
    /\ (vx_attached s' = vx_attached s \/ exists att, vx_attached s' = <[idx := att]> (vx_attached s))
    /\ (works e -> is_Some (vx_attached s' !! idx)
         /\ ifaceVni s' = (if decide (is_Some (vx_attached s !! idx)) then ifaceVni s
                           else <[idx := vni]> (ifaceVni s))).
Proof.
  intros Hinv Hc. unfold attach. rewrite getS_bind.
  destruct (vx_attached s !! idx) as [att|] eqn:E.
  { exists s. split_and!; [done | done | by left |]. intros _. rewrite ?E.
    split; [by eexists |]. rewrite decide_True; [done | by eexists]. }
  destruct (attachIface_spec (vx_hookFails e) (vx_qdiscErr e) (vx_clsactForced e) idx (vx_xdp c)
    (vx_xdpTCEgress c) (vx_kern s) (free_new s idx Hinv Hc E)) as (r & k & Hr & Hk).
  rewrite (st_bind_ret _ _ s r (mkVx k (ifaceVni s) (vx_attached s) (vxlanWatched s)))
    by (unfold on_vx_kernel; by rewrite Hr).
  destruct Hinv as [Hp Hown Hv Hg]. destruct r as [er|d].
  - eexists. split; [reflexivity |]. split; [|split; [by left |]].
    + split; cbn; [by rewrite Hk | done..].
    + intros (H1 & H2 & _). destruct (attachIface_succeeds (vx_hookFails e) (vx_qdiscErr e)
        (vx_clsactForced e) idx (vx_xdp c) (vx_xdpTCEgress c) (vx_kern s) (H1 idx) (H2 idx))
        as (d & k' & Hd). congruence.
  - destruct Hk as (Hh & Hall & Hcomp).
    set (m := if vx_putOK e (u32 idx) then <[idx := vni]> (ifaceVni s) else ifaceVni s).
    set (A := <[idx := mkVxlanAttach name d]> (vx_attached s)).
    exists (mkVx k m A (Z.of_nat (size A))). split_and!.
    + unfold count_vx, m, A. rewrite u32_clean by done. by destruct (vx_putOK e idx).
    + split; cbn.
      * unfold A. rewrite Hh, owned_by_insert by done. cbn [va_detach].
        rewrite <- Permutation_rev, Hp, <- app_assoc. f_equiv. apply Permutation_app_comm.
      * intros j att. unfold A. rewrite lookup_insert_Some. intros [[<- <-]|[_ Hj]]; [done | by apply Hown].
      * intros j. unfold m, A. rewrite lookup_insert_is_Some. destruct (vx_putOK e (u32 idx)).
        -- rewrite lookup_insert_is_Some. intros [->|[Hne Hj]]; [by left | right; auto].
        -- intros Hj%Hv. destruct (decide (idx = j)); [by left | by right].
      * done.
    + right. by eexists.
    + intros (_ & _ & Hput). cbn. unfold A. rewrite lookup_insert_eq. split; [by eexists |].
      unfold m. rewrite Hput, decide_False; [done |]. by intros [? ?].
Qed.

Lemma detachIdx_spec idx s :
  vx_inv s -> clean idx ->
  exists s', detachIdx idx s = Ret (tt, s') /\ vx_inv s'
    /\ vx_attached s' = delete idx (vx_attached s)
    /\ ifaceVni s' = delete idx (ifaceVni s).
Proof.
  intros Hinv Hc. unfold detachIdx. rewrite getS_bind. pose proof Hinv as [Hp Hown Hv Hg].
  destruct (vx_attached s !! idx) as [att|] eqn:E.
  - set (A := delete idx (vx_attached s)).
    exists (mkVx (run_detach (va_detach att) (vx_kern s)) (delete idx (ifaceVni s)) A (Z.of_nat (size A))).
    split_and!; [unfold count_vx, A; by rewrite u32_clean | | done | done].
    split; cbn; [| | | done].
    + apply run_detach_perm. rewrite Hp, (owned_by_delete _ _ _ _ E).
      apply Permutation_app_swap_app.
    + intros j a [_ Hj]%lookup_delete_Some. by apply Hown.
    + intros j. unfold A. rewrite !lookup_delete_is_Some. intros [Hne Hj]. auto.
  - exists s. assert (ifaceVni s !! idx = None).
    { apply eq_None_not_Some. intros Hs%Hv. rewrite E in Hs. by destruct Hs. }
    split_and!; [done | done | by rewrite delete_id | by rewrite delete_id].
Qed.

(** ** Stopping *)

Lemma releaseAll_spec l s B :
  hooks (vx_kern s) ≡ₚ B ++ mjoin (map (fun p => va_detach (snd p)) l) ->
  exists s', releaseAll l s = Ret (tt, s') /\ hooks (vx_kern s') ≡ₚ B
    /\ ifaceVni s' = foldl (fun m p => delete (u32 (fst p)) m) (ifaceVni s) l.
Proof.
  revert s. induction l as [|[idx att] l IH]; intros s Hh; cbn [releaseAll].
  { exists s. cbn in Hh. rewrite app_nil_r in Hh. done. }
  rewrite (st_bind_ret _ _ s tt (mkVx (run_detach (va_detach att) (vx_kern s)) (ifaceVni s)
    (vx_attached s) (vxlanWatched s))) by done.
  rewrite modS_bind. apply IH. cbn. apply run_detach_perm. rewrite Hh. apply Permutation_app_swap_app.
Qed.

Lemma foldl_delete_lookup (l : list (Z * vxlanAttach)) (m : gmap Z Z) k :
  foldl (fun m p => delete (u32 (fst p)) m) m l !! k
  = if decide (k ∈ map (fun p => u32 (fst p)) l) then None else m !! k.
Proof.
  revert m. induction l as [|p l IH]; intros m; [by rewrite decide_False by set_solver |].
  cbn. rewrite IH. destruct (decide (k ∈ map (fun p => u32 (fst p)) l)).
  - by rewrite decide_True by set_solver.
  - destruct (decide (k = u32 (fst p))) as [->|].
    + by rewrite lookup_delete_eq, decide_True by set_solver.
    + rewrite lookup_delete_ne by done. by rewrite decide_False by set_solver.
Qed.

Lemma closeAll_spec s :
  vx_inv s ->
  exists s', vx_closeAll s = Ret (tt, s') /\ hooks (vx_kern s') ≡ₚ base
    /\ ifaceVni s' = ∅ /\ vx_attached s' = ∅ /\ vxlanWatched s' = 0.
Proof.
  intros [Hp Hown Hv _]. unfold vx_closeAll. rewrite getS_bind.
  destruct (releaseAll_spec (map_to_list (vx_attached s)) s base Hp) as (s1 & H1 & Hh & Hm).
  rewrite (st_bind_ret _ _ _ _ _ H1). eexists. split; [reflexivity |]. cbn.
  split_and!; [done | | done | done]. rewrite Hm. apply map_empty. intros k.
  rewrite foldl_delete_lookup. case_decide as Hin; [done |].
  apply eq_None_not_Some. intros Hs%Hv. destruct Hin, Hs as [att Hatt].
  apply list_elem_of_fmap. exists (k, att). cbn. split; [|by apply elem_of_map_to_list].
  symmetry. apply u32_clean. by apply (Hown k att).
Qed.

(** The loop keeps the invariant until it stops, and then nothing is left. *)
Definition at_rest (s : vxState) : Prop :=
  hooks (vx_kern s) ≡ₚ base /\ ifaceVni s = ∅ /\ vx_attached s = ∅ /\ vxlanWatched s = 0.

Definition sig_clean (p : vxEnv * signal) : Prop :=
  match snd p with Update _ (Some l) => link_clean l | _ => True end.
Definition stops (p : vxEnv * signal) : bool :=
  match snd p with Update _ _ => false | _ => true end.

Lemma on_update_spec e type l s :
  vx_inv s -> (forall l', l = Some l' -> link_clean l') ->
  exists s', on_update c e type l s = Ret (tt, s') /\ vx_inv s'
    /\ forall k, is_Some (vx_attached s' !! k) -> is_Some (vx_attached s !! k)
         \/ exists l', l = Some l' /\ isVXLAN l' = true /\ k = l_Index l'.
Proof.
  intros Hinv Hc. unfold on_update. destruct l as [l|]; [|exists s; auto].
  destruct (isVXLAN l) eqn:Hx; cbn [negb]; [|exists s; auto]. specialize (Hc l eq_refl Hx).
  destruct (_ =? _).
  - destruct (detachIdx_spec (l_Index l) s Hinv Hc) as (s' & ? & ? & Ha & _).
    exists s'. split_and!; [done..|]. intros k. rewrite Ha, lookup_delete_is_Some. intros [_ ?]. by left.
  - destruct (attach_spec e (l_Index l) (l_Name l) (vxlanVNI l) s Hinv Hc) as (s' & ? & ? & Ha & _).
    exists s'. split_and!; [done..|]. intros k. destruct Ha as [->|[att ->]]; [by left |].
    rewrite lookup_insert_is_Some. intros [<-|[_ ?]]; [right; eauto | by left].
Qed.

Lemma vx_loop_spec sigs s :
  vx_inv s -> Forall sig_clean sigs ->
  exists b s', vx_loop c sigs s = Ret (b, s')
    /\ b = negb (existsb stops sigs)
    /\ (if b then vx_inv s' else at_rest s').
Proof.
  revert s. induction sigs as [|[e sg] sigs IH]; intros s Hinv Hall; [by exists true, s |].
  apply Forall_cons in Hall as [Hsg Hall].
  assert (exists s', (_ ← vx_closeAll; mret false) s = Ret (false, s') /\ at_rest s') as Hclose.
  { destruct (closeAll_spec s Hinv) as (s' & Hs & Hcl). exists s'. split; [|done].
    by rewrite (st_bind_ret _ _ _ _ _ Hs). }
  destruct sg as [| |type l]; cbn [vx_loop existsb stops snd orb].
  1,2: destruct Hclose as (s' & ? & ?); by exists false, s'.
  destruct (on_update_spec e type l s Hinv) as (s' & Hs & Hinv' & _).
  { intros l' ->. exact Hsg. }
  rewrite (st_bind_ret _ _ _ _ _ Hs). by apply IH.
Qed.

Lemma attach_existing_spec links s :
  vx_inv s -> Forall (fun p => link_clean (snd p)) links ->
  exists s', attach_existing c links s = Ret (tt, s') /\ vx_inv s'
    /\ forall k, is_Some (vx_attached s' !! k) -> is_Some (vx_attached s !! k)
         \/ exists p, p ∈ links /\ isVXLAN (snd p) = true /\ k = l_Index (snd p).
Proof.
  revert s. induction links as [|[e l] links IH]; intros s Hinv Hall; [exists s; auto |].
  apply Forall_cons in Hall as [Hl Hall]. cbn [attach_existing].
  destruct (on_update_spec e RTM_NEWLINK (Some l) s Hinv) as (s' & Hs & Hinv' & Hk); [by intros ? [= <-] |].
  unfold on_update in Hs. destruct (IH s' Hinv' Hall) as (s2 & H2 & Hinv2 & Hk2). exists s2.
  split; [destruct (isVXLAN l); cbn [negb] in Hs; by rewrite (st_bind_ret _ _ _ _ _ Hs) |].
  split; [done |]. intros k [Hin|(q & Hq & ?)]%Hk2; [|right; exists q; split; [by right | done]].
  apply Hk in Hin as [?|(l' & [= <-] & ?)]; [by left |]. right. exists (e, l). split; [by left | done].
Qed.

(** ** Following the devices of the host *)

(** What happens to the links of the host, and the links there are. *)
Inductive dev_event := New (l : link) | Del (l : link).

Definition host_step (D : gmap Z link) (ev : dev_event) : gmap Z link :=
  match ev with New l => <[l_Index l := l]> D | Del l => delete (l_Index l) D end.

(** A device keeps its type and its VNI for its life; a removed one existed. *)
Definition event_ok (D : gmap Z link) (ev : dev_event) : Prop :=
  match ev with
  | New l => forall l0, D !! l_Index l = Some l0 -> l_Type l0 = l_Type l /\ VxlanId l0 = VxlanId l
  | Del l => exists l0, D !! l_Index l = Some l0 /\ l_Type l0 = l_Type l
  end.

Fixpoint history_ok (D : gmap Z link) (evs : list dev_event) : Prop :=
  match evs with [] => True | ev :: r => event_ok D ev /\ history_ok (host_step D ev) r end.

Definition host (D : gmap Z link) (evs : list dev_event) : gmap Z link := foldl host_step D evs.

(** The VXLAN devices and their VNIs. *)
Definition vni_of (l : link) : option Z := if isVXLAN l then Some (vxlanVNI l) else None.
Definition vxlans (D : gmap Z link) : gmap Z Z := omap vni_of D.

Definition notice (ev : dev_event) : signal :=
  match ev with New l => Update RTM_NEWLINK (Some l) | Del l => Update RTM_DELLINK (Some l) end.
Definition event_link (ev : dev_event) : link := match ev with New l | Del l => l end.

(** What one message does to the registered devices. *)
Definition noticed (A : gmap Z Z) (ev : dev_event) : gmap Z Z :=
  match ev with
  | New l => if isVXLAN l then match A !! l_Index l with
                               | Some _ => A
                               | None => <[l_Index l := vxlanVNI l]> A
                               end
             else A
  | Del l => if isVXLAN l then delete (l_Index l) A else A
  end.

(** The manager holds exactly [A]. *)
Definition holds (A : gmap Z Z) (s : vxState) : Prop :=
  vx_inv s /\ ifaceVni s = A /\ forall k, is_Some (vx_attached s !! k) <-> is_Some (A !! k).

Lemma attach_holds A e l s :
  holds A s -> clean (l_Index l) -> works e -> isVXLAN l = true ->
  exists s', attach c e (l_Index l) (l_Name l) (vxlanVNI l) s = Ret (tt, s') /\ holds (noticed A (New l)) s'.
Proof.
  intros (Hinv & <- & Hdom) Hc Hw Hx.
  destruct (attach_spec e (l_Index l) (l_Name l) (vxlanVNI l) s Hinv Hc) as (s' & Hs & Hinv' & Hatt & Hok).
  exists s'. split; [done |]. destruct (Hok Hw) as [Hin Hvni]. split; [done |].
  assert (ifaceVni s' = noticed (ifaceVni s) (New l)) as Heq.
  { cbn. rewrite Hx, Hvni. destruct (ifaceVni s !! l_Index l) eqn:E.
    - rewrite decide_True; [done | apply Hdom; by eexists].
    - rewrite decide_False; [done |]. rewrite Hdom, E. by intros [? ?]. }
  split; [done |]. rewrite <- Heq, Hvni. intros k.
  destruct Hatt as [Hatt|[att Hatt]]; rewrite Hatt in Hin |- *; [by rewrite decide_True |].
  case_decide; rewrite ?lookup_insert_is_Some', ?Hdom; [|done].
  split; [|by right]. intros [<-|?]; [by apply Hdom | done].
Qed.

Lemma detach_holds A l s :
  holds A s -> clean (l_Index l) -> isVXLAN l = true ->
  exists s', detachIdx (l_Index l) s = Ret (tt, s') /\ holds (noticed A (Del l)) s'.
Proof.
  intros (Hinv & <- & Hdom) Hc Hx.
  destruct (detachIdx_spec (l_Index l) s Hinv Hc) as (s' & Hs & Hinv' & Hatt & Hvni).
  exists s'. split; [done |]. split; [done |]. cbn. rewrite Hx, Hvni. split; [done |].
  intros k. by rewrite Hatt, !lookup_delete_is_Some, Hdom.
Qed.

Lemma update_holds A e ev s :
  holds A s -> link_clean (event_link ev) -> works e ->
  exists s', (match notice ev with Update t l => on_update c e t l | _ => mret tt end) s = Ret (tt, s')
    /\ holds (noticed A ev) s'.
Proof.
  intros Hh Hc Hw. destruct ev as [l|l]; cbn [notice event_link] in *; unfold on_update;
    destruct (isVXLAN l) eqn:Hx; cbn [negb];
    try (exists s; cbn [noticed]; rewrite Hx; done).
  - apply attach_holds; auto.
  - apply detach_holds; auto.
Qed.

Lemma loop_holds A (evs : list (vxEnv * dev_event)) s :
  holds A s -> Forall (fun p => works (fst p) /\ link_clean (event_link (snd p))) evs ->
  exists s', vx_loop c (map (fun p => (fst p, notice (snd p))) evs) s = Ret (true, s')
    /\ holds (foldl noticed A (map snd evs)) s'.
Proof.
  revert A s. induction evs as [|[e ev] evs IH]; intros A s Hh Hall; [by exists s |].
  apply Forall_cons in Hall as [[Hw Hc] Hall]. destruct (update_holds A e ev s Hh Hc Hw) as (s' & Hs & Hh').
  destruct (IH _ _ Hh' Hall) as (s2 & H2 & Hh2). exists s2. split; [|exact Hh2]. cbn [map fst snd vx_loop].
  destruct ev; cbn [notice] in *; by rewrite (st_bind_ret _ _ _ _ _ Hs).
Qed.

Lemma existing_holds A (links : list (vxEnv * link)) s :
  holds A s -> Forall (fun p => works (fst p) /\ link_clean (snd p)) links ->
  exists s', attach_existing c links s = Ret (tt, s')
    /\ holds (foldl noticed A (map (fun p => New (snd p)) links)) s'.
Proof.
  revert A s. induction links as [|[e l] links IH]; intros A s Hh Hall; [by exists s |].
  apply Forall_cons in Hall as [[Hw Hc] Hall]. cbn [attach_existing map foldl snd].
  destruct (update_holds A e (New l) s Hh Hc Hw) as (s' & Hs & Hh').
  destruct (IH _ _ Hh' Hall) as (s2 & H2 & Hh2). exists s2. split; [|exact Hh2].
  unfold notice, on_update in Hs. destruct (isVXLAN l); cbn [negb] in Hs;
    by rewrite (st_bind_ret _ _ _ _ _ Hs).
Qed.
End watcher.

(** ** Why it converges *)

Lemma noticed_ne A ev k : k ≠ l_Index (event_link ev) -> noticed A ev !! k = A !! k.
Proof.
  destruct ev as [l|l]; cbn; intros Hne; destruct (isVXLAN l); try done.
  - destruct (A !! l_Index l); [done |]. by rewrite lookup_insert_ne.
  - by rewrite lookup_delete_ne.
Qed.

Lemma host_ne D ev k : k ≠ l_Index (event_link ev) -> host_step D ev !! k = D !! k.
Proof.
  destruct ev as [l|l]; cbn; intros Hne; [by rewrite lookup_insert_ne | by rewrite lookup_delete_ne].
Qed.

Lemma vni_same l l0 : l_Type l0 = l_Type l -> VxlanId l0 = VxlanId l -> vni_of l0 = vni_of l.
Proof. unfold vni_of, isVXLAN, vxlanVNI. by intros -> ->. Qed.

Lemma vni_type l l0 : l_Type l0 = l_Type l -> isVXLAN l0 = isVXLAN l.
Proof. unfold isVXLAN. by intros ->. Qed.

(** One message, at one index: a value that is right stays right, and a value
    that is not yet what the host has ([t]: from a later snapshot) stays. *)
Lemma noticed_right D A ev k :
  event_ok D ev -> A !! k = vxlans D !! k -> noticed A ev !! k = vxlans (host_step D ev) !! k.
Proof.
  unfold vxlans. rewrite !lookup_omap. intros Hok Ha.
  destruct (decide (k = l_Index (event_link ev))) as [->|Hne]; [|by rewrite noticed_ne, host_ne].
  destruct ev as [l|l]; cbn in *.
  - rewrite lookup_insert_eq. cbn. unfold vni_of. destruct (isVXLAN l) eqn:Hx.
    + destruct (A !! l_Index l) eqn:E; [rewrite E, Ha | by rewrite lookup_insert_eq].
      destruct (D !! l_Index l) as [l0|] eqn:ED; [|done]. destruct (Hok l0 eq_refl).
      cbn. rewrite (vni_same l l0) by done. unfold vni_of. by rewrite Hx.
    + rewrite Ha. destruct (D !! l_Index l) as [l0|] eqn:ED; [|done]. destruct (Hok l0 eq_refl).
      cbn. unfold vni_of. by rewrite (vni_type l l0), Hx.
  - rewrite lookup_delete_eq. cbn. destruct Hok as (l0 & Hl0 & Ht).
    destruct (isVXLAN l) eqn:Hx; [by rewrite lookup_delete_eq |].
    rewrite Ha, Hl0. cbn. unfold vni_of. by rewrite (vni_type l l0), Hx.
Qed.

Lemma noticed_ahead D A ev k t :
  event_ok D ev -> A !! k = t \/ A !! k = vxlans D !! k ->
  noticed A ev !! k = t \/ noticed A ev !! k = vxlans (host_step D ev) !! k.
Proof.
  intros Hok [Ha|Ha]; [|right; by apply noticed_right].
  destruct (decide (k = l_Index (event_link ev))) as [->|Hne]; [|left; by rewrite noticed_ne].
  unfold vxlans. rewrite lookup_omap. destruct ev as [l|l]; cbn in *.
  - rewrite lookup_insert_eq. cbn. unfold vni_of. destruct (isVXLAN l); [|by left].
    destruct (A !! l_Index l) eqn:E; [left; by rewrite E | right; by rewrite lookup_insert_eq].
  - rewrite lookup_delete_eq. cbn. destruct (isVXLAN l); [|by left]. right. apply lookup_delete_eq.
Qed.

Lemma replay_right evs D A :
  history_ok D evs -> A = vxlans D -> foldl noticed A evs = vxlans (host D evs).
Proof.
  revert D A. induction evs as [|ev evs IH]; intros D A Hok ->; [done |].
  destruct Hok as [Hev Hok]. cbn. apply IH; [done |]. apply map_eq. intros k. by apply noticed_right.
Qed.

Lemma replay_ahead evs D A k t :
  history_ok D evs -> A !! k = t \/ A !! k = vxlans D !! k ->
  foldl noticed A evs !! k = t \/ foldl noticed A evs !! k = vxlans (host D evs) !! k.
Proof.
  revert D A. induction evs as [|ev evs IH]; intros D A Hok Ha; [done |].
  destruct Hok as [Hev Hok]. cbn. apply IH; [done |]. by apply noticed_ahead.
Qed.

Lemma history_app D e1 e2 : history_ok D (e1 ++ e2) <-> history_ok D e1 /\ history_ok (host D e1) e2.
Proof. revert D. induction e1 as [|ev e1 IH]; intros D; cbn; [tauto | rewrite IH; tauto]. Qed.

(** The messages that the snapshot already accounts for are harmless. *)
Lemma catches_up D before after :
  history_ok D (before ++ after) ->
  foldl noticed (vxlans (host D before)) (before ++ after) = vxlans (host D (before ++ after)).
Proof.
  intros [H1 H2]%history_app. rewrite foldl_app. unfold host at 2. rewrite foldl_app.
  apply replay_right; [done |]. apply map_eq. intros k.
  destruct (replay_ahead before D (vxlans (host D before)) k (vxlans (host D before) !! k) H1
    (or_introl eq_refl)); done.
Qed.

Lemma index_step D ev : (forall k l, D !! k = Some l -> l_Index l = k) ->
  forall k l, host_step D ev !! k = Some l -> l_Index l = k.
Proof.
  intros HD k l. destruct ev as [l'|l']; cbn.
  - intros [[? ->]|[_ ?]]%lookup_insert_Some; auto.
  - intros [_ ?]%lookup_delete_Some; auto.
Qed.

(** The devices found at start-up, in the order of the kernel's answer. *)
Lemma snapshot_noticed (D : gmap Z link) (links : list link) :
  (forall k l, D !! k = Some l -> l_Index l = k) ->
  (forall l, l ∈ links <-> D !! l_Index l = Some l) -> NoDup (map l_Index links) ->
  foldl noticed ∅ (map New links) = vxlans D.
Proof.
  intros HD Hl Hnd. apply map_eq. intros k.
  assert (forall ls (A : gmap Z Z), NoDup (map l_Index ls) ->
    (forall l, l ∈ ls -> A !! l_Index l = None) ->
    foldl noticed A (map New ls) !! k
    = match list_find (fun l => l_Index l = k) ls with
      | Some (_, l) => vni_of l | None => A !! k end) as Hgen.
  { clear. induction ls as [|l ls IH]; intros A Hnd HA; [done |]. cbn [map foldl].
    cbn in Hnd. apply NoDup_cons in Hnd as [Hni Hnd]. rewrite IH; [|done|].
    - cbn [list_find]. case_decide as Hk.
      + destruct (list_find _ ls) as [[i l2]|] eqn:Ef.
        { apply list_find_Some in Ef as (Hi & He & _). destruct Hni. rewrite Hk, <- He.
          apply list_elem_of_fmap. exists l2. split; [done |]. by eapply list_elem_of_lookup_2. }
        cbn. unfold vni_of. rewrite HA by by left. destruct (isVXLAN l).
        * by rewrite <- Hk, lookup_insert_eq.
        * rewrite <- Hk. apply HA. by left.
      + destruct (list_find _ ls) as [[i l2]|] eqn:Ef; [done |]. cbn.
        by rewrite (noticed_ne A (New l)) by (cbn; congruence).
    - intros l' Hl'. rewrite (noticed_ne A (New l)); [apply HA; by right |]. cbn. intros He.
      destruct Hni. rewrite <- He. apply list_elem_of_fmap. eauto. }
  rewrite Hgen by (try done; intros; apply lookup_empty).
  unfold vxlans. rewrite lookup_omap. destruct (list_find _ links) as [[i l]|] eqn:Ef.
  - apply list_find_Some in Ef as (Hi & <- & _). apply list_elem_of_lookup_2, Hl in Hi. by rewrite Hi.
  - rewrite lookup_empty. destruct (D !! k) as [l|] eqn:E; [|done].
    pose proof (HD _ _ E) as <-. apply Hl in E.
    apply list_find_None in Ef. eapply Forall_forall in Ef; [|exact E]. done.
Qed.

(** ** The theorems *)

(** The programs of the agent on an interface. *)
Definition programs (idx : Z) (s : vxState) : list slot := filter (fun p => fst p = idx) (hooks (vx_kern s)).

Lemma clean_base base idx : clean base idx -> filter (fun p => fst p = idx) base = [].
Proof. intros [_ Hc]. apply filter_none. intros [i h] Hin Hi. cbn in Hi. subst i. by apply (Hc h). Qed.

Lemma programs_owned c base s idx att :
  vx_inv c base s -> vx_attached s !! idx = Some att -> programs idx s ≡ₚ va_detach att.
Proof.
  intros [Hp Hown _ _] Hatt. destruct (Hown _ _ Hatt) as (Hc & Hall & _).
  unfold programs. rewrite Hp, (owned_by_delete _ _ _ _ Hatt), !filter_app, clean_base by done.
  rewrite (filter_every _ (va_detach att)) by done. rewrite filter_none; [by rewrite app_nil_r |].
  intros x (j & a & Hj & Hx)%elem_of_owned_by. apply lookup_delete_Some in Hj as [Hne Hj].
  destruct (Hown j a Hj) as (_ & Hj' & _). eapply Forall_forall in Hj'; [|done]. cbn in Hj'. congruence.
Qed.

Lemma programs_none c base s idx :
  vx_inv c base s -> clean base idx -> vx_attached s !! idx = None -> programs idx s = [].
Proof.
  intros Hinv Hc Hn. apply filter_none. intros [i h] Hin Hi. cbn in Hi. subst i.
  by apply (free_new c base s idx Hinv Hc Hn h).
Qed.

Lemma complete_perm xdp eg d d' : d ≡ₚ d' -> complete xdp eg d -> complete xdp eg d'.
Proof. unfold complete, ins, outs. by intros ->. Qed.

Lemma fresh_inv c base k : hooks k ≡ₚ base -> vx_inv c base (mkVx k ∅ ∅ 0).
Proof.
  intros Hk. split; cbn; [|done| |done].
  - by rewrite Hk, app_nil_r.
  - intros j. rewrite !lookup_empty. by intros [? ?].
Qed.

(** C20: The VXLAN watcher converges to the devices of the host.  It subscribes to
    the link messages first and lists the links afterwards, so the messages
    [before] are both in the list and in the channel; devices may come, change,
    go and come back under the same index while it starts.  As long as nothing
    fails, once the messages are consumed, whatever they were, iface_vni maps
    exactly the VXLAN devices of the host to their VNIs, the gauge counts them,
    each has one program for incoming packets and one for outgoing ones (none in
    XDP mode without the companion), and no other device has any. *)
Theorem vxlan_watcher_follows c base k D0 before after links evs :
  hooks k ≡ₚ base ->
  (forall i l, D0 !! i = Some l -> l_Index l = i) ->
  history_ok D0 (before ++ after) ->
  (forall l, l ∈ map snd links <-> host D0 before !! l_Index l = Some l) ->
  NoDup (map l_Index (map snd links)) ->
  map snd evs = before ++ after ->
  Forall (fun p => works (fst p) /\ link_clean base (snd p)) links ->
  Forall (fun p => works (fst p) /\ link_clean base (event_link (snd p))) evs ->
  exists s, runVXLANWatcher c true (Some links) (map (fun p => (fst p, notice (snd p))) evs)
              (mkVx k ∅ ∅ 0) = Ret (true, s)
    /\ ifaceVni s = vxlans (host D0 (before ++ after))
    /\ vxlanWatched s = Z.of_nat (size (ifaceVni s))
    /\ forall i, clean base i ->
         match ifaceVni s !! i with
         | Some _ => complete (vx_xdp c) (vx_xdpTCEgress c) (programs i s)
         | None => programs i s = []
         end.
Proof.
  intros Hk HD Hok Hlinks Hnd Hevs Hwl Hwe.
  assert (holds c base ∅ (mkVx k ∅ ∅ 0)) as H0.
  { split; [by apply fresh_inv |]. split; [done |].
    intros j. cbn. rewrite !lookup_empty. by split; intros [? ?]. }
  destruct (existing_holds c base ∅ links _ H0 Hwl) as (s1 & H1 & Hh1).
  assert (foldl noticed ∅ (map (fun p => New (snd p)) links) = vxlans (host D0 before)) as Hsnap.
  { rewrite <- (map_map snd New). apply snapshot_noticed; [|done..].
    clear -HD. unfold host. revert D0 HD. induction before as [|ev b IH]; intros D0 HD; [done |].
    cbn. apply IH. by apply index_step. }
  rewrite Hsnap in Hh1. destruct (loop_holds c base _ evs s1 Hh1 Hwe) as (s2 & H2 & Hh2).
  rewrite Hevs, catches_up in Hh2 by done. destruct Hh2 as (Hinv & Hvni & Hdom).
  exists s2. split; [|split; [done |]].
  { unfold runVXLANWatcher. cbn [negb]. by rewrite (st_bind_ret _ _ _ _ _ H1). }
  rewrite Hvni. split.
  - rewrite (vx_gauge _ _ _ Hinv), <- !size_dom. f_equal. f_equal. apply set_eq. intros j.
    by rewrite !elem_of_dom.
  - intros i Hi. destruct (vxlans _ !! i) eqn:Ei.
    + destruct (proj2 (Hdom i)) as [att Hatt]; [by rewrite Ei |].
      eapply complete_perm; [symmetry; by eapply programs_owned |]. by apply (vx_own _ _ _ Hinv i att Hatt).
    + eapply programs_none; [done | done |]. apply eq_None_not_Some. rewrite Hdom, Ei. by intros [? ?].
Qed.

(** Whatever happened, the watcher gives everything back when it is told to stop
    or when its channel closes: with attachments that fail, VNIs the map refuses
    and messages for unknown devices among its inputs, the loop ends and leaves
    the programs that were there at the start, empty maps and a gauge at 0. *)
Theorem vxlan_cleanup c base k links sigs :
  hooks k ≡ₚ base ->
  Forall (fun p => link_clean base (snd p)) links ->
  Forall (sig_clean base) sigs -> existsb stops sigs = true ->
  exists s, runVXLANWatcher c true (Some links) sigs (mkVx k ∅ ∅ 0) = Ret (false, s)
    /\ hooks (vx_kern s) ≡ₚ hooks k
    /\ ifaceVni s = ∅ /\ vx_attached s = ∅ /\ vxlanWatched s = 0.
Proof.
  intros Hk Hl Hs Hstop. unfold runVXLANWatcher. cbn [negb].
  destruct (attach_existing_spec c base links _ (fresh_inv c base k Hk) Hl) as (s1 & H1 & Hinv & _).
  rewrite (st_bind_ret _ _ _ _ _ H1).
  destruct (vx_loop_spec c base sigs s1 Hinv Hs) as (b & s2 & H2 & -> & Hcl).
  rewrite Hstop in *. exists s2. split; [done |]. cbn in Hcl. destruct Hcl as (Hh & ?). by rewrite Hk.
Qed.

(** *** A host for the witnesses *)

Definition good_env : vxEnv := mkVxEnv (fun _ _ => None) (fun _ => None) false (fun _ => true).
Definition bad_env : vxEnv :=
  mkVxEnv (fun _ h => if bool_decide (h = TcxEgress) then Some OtherError else None) (fun _ => None) false
    (fun _ => false).
Definition vx7 : link := mkLink "vxlan" 7 "vx7" (Some 70).
Definition vx9 : link := mkLink "vxlan" 9 "vx9" (Some 90).
Definition eth8 : link := mkLink "device" 8 "eth8" None.

Lemma clean_empty i : 0 <= i < 2 ^ 32 -> clean [] i.
Proof. intros Hi. split; [done |]. intros h. apply not_elem_of_nil. Qed.

(** vx7 exists; it is removed and vx9 created while the watcher starts; then vx7
    comes back with another VNI. *)
Lemma vxlan_watcher_follows_witness :
  exists s, runVXLANWatcher (mkVxConfig false false) true (Some [(good_env, vx9); (good_env, eth8)])
      (map (fun p => (fst p, notice (snd p)))
         [(good_env, Del vx7); (good_env, New vx9); (good_env, New (mkLink "vxlan" 7 "vx7b" (Some 71)))])
      (mkVx (mkKernel [] []) ∅ ∅ 0) = Ret (true, s)
    /\ ifaceVni s = {[ 7 := 71; 9 := 90 ]}.
Proof.
  destruct (vxlan_watcher_follows (mkVxConfig false false) [] (mkKernel [] [])
    {[ 7 := vx7; 8 := eth8 ]} [Del vx7; New vx9] [New (mkLink "vxlan" 7 "vx7b" (Some 71))]
    [(good_env, vx9); (good_env, eth8)]
    [(good_env, Del vx7); (good_env, New vx9); (good_env, New (mkLink "vxlan" 7 "vx7b" (Some 71)))])
    as (s & Hs & Hv & _).
  - done.
  - intros i l. rewrite lookup_insert_Some. intros [[<- <-]|[_ [<- <-]%lookup_singleton_Some]]; done.
  - cbn [history_ok app]. split; [by exists vx7 |].
    split_and!; [intros l0 Hl0; vm_compute in Hl0; discriminate.. | done].
  - intros l. replace (host _ _) with ({[ 8 := eth8; 9 := vx9 ]} : gmap Z link)
      by (symmetry; vm_compute; reflexivity). split.
    + intros [->|[->|[]%elem_of_nil]%elem_of_cons]%elem_of_cons; reflexivity.
    + rewrite lookup_insert_Some. intros [[_ <-]|[_ [_ <-]%lookup_singleton_Some]]; cbn; set_solver.
  - cbn. apply NoDup_cons. split; [|by apply NoDup_singleton].
    intros Hin%list_elem_of_singleton. discriminate.
  - done.
  - repeat (apply Forall_cons_2; [split; [done | intros _; by apply clean_empty] |]). done.
  - repeat (apply Forall_cons_2; [split; [done | intros _; by apply clean_empty] |]). done.
  - exists s. split; [exact Hs |]. rewrite Hv. vm_compute. reflexivity.
Defined.

Lemma vxlan_cleanup_witness :
  exists s, runVXLANWatcher (mkVxConfig false false) true (Some [(good_env, vx9); (bad_env, vx7)])
      [(good_env, notice (Del eth8)); (good_env, Update RTM_NEWLINK None);
       (good_env, notice (New vx7)); (good_env, ChanClosed)]
      (mkVx (mkKernel [] []) ∅ ∅ 0) = Ret (false, s)
    /\ hooks (vx_kern s) ≡ₚ []
    /\ ifaceVni s = ∅ /\ vx_attached s = ∅ /\ vxlanWatched s = 0.
Proof.
  apply (vxlan_cleanup (mkVxConfig false false) [] (mkKernel [] [])); [done | | | reflexivity];
    repeat (apply Forall_cons_2; [first [intros _; by apply clean_empty | done] |]); done.
Defined.
