(* ===== verification/AgentMain.v ===== *)
(** agent/main.go: the command line, and run: what the agent sets up and in which
    order, the deferred calls that give it back, and the goroutines that work in
    between (the read loop, the shipper, the tap watcher, the VXLAN watcher). *)
From stdpp Require Export gmap strings.
From S2P Require Import Prelude GoStd GoText GoTime TfMeta Responder Attach Watch.
From S2P Require Import Observation ObsJson Emit VxlanWatch.

Local Open Scope Z_scope.

(** ** The command line *)

(** The flags of main; --watch-interval only sets the ticker of the tap watcher. *)
Record flags := mkFlags {
  f_iface : string; f_ifaceType : string; f_nodeID : string; f_respond : bool; f_tcpRespond : bool;
  f_localIP : string; f_watch : bool; f_watchVXLAN : bool; f_metricsAddr : string; f_hmacKey : string;
  f_az : string; f_collectorURL : string; f_otlpEndpoint : string; f_xdp : bool; f_xdpTCEgress : bool
}.

Record opts := mkOpts {
  ifaceName : string; ifType : Z; nodeID : string; respond : bool; tcpRespond : bool;
  o_localIPs : list bytes; watch : bool; watchVXLAN : bool; metricsAddr : string; hmacKey : bytes;
  az : string; collectorURL : string; otlpEndpoint : string; xdp : bool; xdpTCEgress : bool
}.

Definition is_set (s : string) : bool := negb (bool_decide (s = ""%string)).

(** The switch over --iface-type; [None] is its default branch. *)
Definition iface_type (s : string) : option Z :=
  if bool_decide (s = "auto"%string) then Some IfaceAuto
  else if bool_decide (s = "regular"%string) then Some IfaceRegular
  else if bool_decide (s = "vxlan"%string) then Some IfaceVXLAN
  else None.

Definition ifaceTypeString (t : Z) : string :=
  if t =? IfaceAuto then "auto" else if t =? IfaceVXLAN then "vxlan" else "regular".

(** The options main calls run with; [None] for a log.Fatal before. *)
Definition main_opts (hostname : string) (f : flags) : option opts :=
  if negb (is_set (f_iface f)) && negb (f_watch f) && negb (f_watchVXLAN f) then None
  else if f_xdpTCEgress f && negb (f_xdp f) then None
  else
    let node := if is_set (f_nodeID f) then f_nodeID f else hostname in
    ty ← iface_type (f_ifaceType f);
    let ty := if (f_watch f || f_watchVXLAN f) && (ty =? IfaceVXLAN) then IfaceAuto else ty in
    ips ← parseLocalIPs (f_localIP f);
    Some (mkOpts (f_iface f) ty node (f_respond f) (f_tcpRespond f) ips (f_watch f) (f_watchVXLAN f)
            (f_metricsAddr f) (codes (f_hmacKey f)) (f_az f) (f_collectorURL f) (f_otlpEndpoint f)
            (f_xdp f) (f_xdpTCEgress f)).

(** ** The state of the process *)

(** tfConfig, as it is put in the eBPF map. *)
Record tfConfig := mkTfConfig { c_IfaceType : Z; c_Respond : Z; c_TCPRespond : Z }.

Definition tf_config (o : opts) : tfConfig :=
  mkTfConfig (ifType o) (if respond o then 1 else 0) (if tcpRespond o then 1 else 0).

(** The deferred calls of run.  [CloseStatic d r] is the closure of attachStatic:
    the programs it detaches, and whether it closes a responder.  [WaitShip] is
    the end of em.close, which waits for the shipper. *)
Inductive deferred :=
| CloseObjs | CloseMetrics | CloseReader
| CloseStatic (d : list slot) (resp : bool)
| CloseEmitter | WaitShip
| CloseTaps | StopTaps          (* mgr.closeAll, close(stop) *)
| CloseVx | StopVx.             (* vm.closeAll, close(stop) *)

(** The main goroutine, and the two watchers. *)
Inductive main_state := Reading | Unwinding | Exited.
Inductive tap_thread := TapOff | TapScan | TapIdle | TapDone.
Inductive vx_thread := VxOff | VxStart | VxList (rest : list (vxEnv * link)) | VxLoop | VxDone.

Record proc := mkProc {
  p_taps : tapState;                  (* with the kernel and the map local_ips *)
  p_vni : gmap Z Z;                   (* the map iface_vni *)
  p_vx : gmap Z vxlanAttach;
  p_vxWatched : Z;
  p_config : option tfConfig;         (* the map config_map *)
  p_agent : agent;                    (* the read loop and the emitter *)
  p_stack : list deferred;            (* the next deferred call first *)
  p_main : main_state;
  p_tapT : tap_thread;
  p_tapStop : bool;                   (* its stop channel is closed *)
  p_vxT : vx_thread;
  p_vxStop : bool
}.

Definition set_main (m : main_state) (p : proc) : proc :=
  mkProc (p_taps p) (p_vni p) (p_vx p) (p_vxWatched p) (p_config p) (p_agent p) (p_stack p) m
    (p_tapT p) (p_tapStop p) (p_vxT p) (p_vxStop p).
Definition set_stack (l : list deferred) (p : proc) : proc :=
  mkProc (p_taps p) (p_vni p) (p_vx p) (p_vxWatched p) (p_config p) (p_agent p) l (p_main p)
    (p_tapT p) (p_tapStop p) (p_vxT p) (p_vxStop p).
Definition set_config (c : tfConfig) (p : proc) : proc :=
  mkProc (p_taps p) (p_vni p) (p_vx p) (p_vxWatched p) (Some c) (p_agent p) (p_stack p) (p_main p)
    (p_tapT p) (p_tapStop p) (p_vxT p) (p_vxStop p).
Definition set_agent (a : agent) (p : proc) : proc :=
  mkProc (p_taps p) (p_vni p) (p_vx p) (p_vxWatched p) (p_config p) a (p_stack p) (p_main p)
    (p_tapT p) (p_tapStop p) (p_vxT p) (p_vxStop p).
Definition set_taps (t : tapState) (p : proc) : proc :=
  mkProc t (p_vni p) (p_vx p) (p_vxWatched p) (p_config p) (p_agent p) (p_stack p) (p_main p)
    (p_tapT p) (p_tapStop p) (p_vxT p) (p_vxStop p).
Definition set_tapT (t : tap_thread) (stop : bool) (p : proc) : proc :=
  mkProc (p_taps p) (p_vni p) (p_vx p) (p_vxWatched p) (p_config p) (p_agent p) (p_stack p) (p_main p)
    t stop (p_vxT p) (p_vxStop p).
Definition set_vxT (t : vx_thread) (stop : bool) (p : proc) : proc :=
  mkProc (p_taps p) (p_vni p) (p_vx p) (p_vxWatched p) (p_config p) (p_agent p) (p_stack p) (p_main p)
    (p_tapT p) (p_tapStop p) t stop.

(** What the VXLAN manager sees of the process; the kernel is shared. *)
Definition vx_view (p : proc) : vxState := mkVx (kern (p_taps p)) (p_vni p) (p_vx p) (p_vxWatched p).
Definition set_vx (v : vxState) (p : proc) : proc :=
  mkProc (mkTaps (vx_kern v) (localIps (p_taps p)) (attached (p_taps p)) (tapsWatched (p_taps p)))
    (ifaceVni v) (vx_attached v) (vxlanWatched v) (p_config p) (p_agent p) (p_stack p) (p_main p)
    (p_tapT p) (p_tapStop p) (p_vxT p) (p_vxStop p).

Definition on_taps {A} (m : st tapState A) : st proc A := fun p =>
  '(a, t) ← m (p_taps p); Ret (a, set_taps t p).
Definition on_vx {A} (m : st vxState A) : st proc A := fun p =>
  '(a, v) ← m (vx_view p); Ret (a, set_vx v p).
Definition on_agent {A} (m : st agent A) : st proc A := fun p =>
  '(b, a) ← m (p_agent p); Ret (b, set_agent a p).

Definition defer (d : deferred) : st proc unit := modS (fun p => set_stack (d :: p_stack p) p).

(** ** run, up to the read loop *)

Inductive runErr := ErrMemlock | ErrLoad | ErrConfig | ErrLocalIPs | ErrReader
                  | ErrIface | ErrAttach | ErrResponder.

(** What succeeds while run starts; [r_host]: what the host answers to the rest. *)
Record runEnv := mkRunEnv {
  r_memlock : bool; r_load : bool; r_putConfig : bool; r_reader : bool; r_sink : bool; r_host : env
}.

(** The closure of attachStatic, or its error. *)
Definition attachStatic (e : env) (o : opts) : st tapState (runErr + deferred) :=
  match ifByName e (ifaceName o) with
  | None => mret (inl ErrIface)
  | Some idx =>
      d ← on_kernel (attachIface (hookFails e) (qdiscErr e) (clsactForced e) idx (xdp o) (xdpTCEgress o));
      match d with
      | inl _ => mret (inl ErrAttach)
      | inr detach =>
          if respond o && (0 <? length (o_localIPs o))%nat then
            if negb (respOK e (ifaceName o)) then
              _ ← on_kernel (modS (run_detach detach));
              mret (inl ErrResponder)
            else
              _ ← lift (newResponder (ifType o) (o_localIPs o) (tcpRespond o) (hmacKey o));
              mret (inr (CloseStatic detach true))
          else mret (inr (CloseStatic detach false))
      end
  end.

Definition em_config (o : opts) : emConfig := mkEmConfig (nodeID o) (az o).
Definition tap_config (o : opts) : tapConfig :=
  mkTapConfig (ifType o) (respond o) (tcpRespond o) (hmacKey o) (xdp o) (xdpTCEgress o).
Definition vx_config (o : opts) : vxConfig := mkVxConfig (xdp o) (xdpTCEgress o).

(** From newEmitter to the last go statement. *)
Definition start_threads (e : runEnv) (o : opts) : st proc unit :=
  _ ← modS (fun p => set_agent (mkAgent (newEmitter (collectorURL o) (otlpEndpoint o) (r_sink e))
                                  (ifNames (p_agent p)) (readErrors (p_agent p))
                                  (parseErrors (p_agent p))) p);
  _ ← defer CloseEmitter;
  _ ← (if watch o
       then _ ← defer CloseTaps; _ ← defer StopTaps; modS (set_tapT TapScan false)
       else mret tt);
  if watchVXLAN o
  then _ ← defer CloseVx; _ ← defer StopVx; modS (set_vxT VxStart false)
  else mret tt.

(** run until readLoop; [None]: readLoop is reached. *)
Definition run_start (e : runEnv) (o : opts) : st proc (option runErr) :=
  if negb (r_memlock e) then mret (Some ErrMemlock)
  else if negb (r_load e) then mret (Some ErrLoad)
  else
    _ ← defer CloseObjs;
    if negb (r_putConfig e) then mret (Some ErrConfig)
    else
      _ ← modS (set_config (tf_config o));
      ok ← on_taps (addLocalIPs (r_host e) (o_localIPs o));
      if negb ok then mret (Some ErrLocalIPs)
      else
        _ ← (if is_set (metricsAddr o) then defer CloseMetrics else mret tt);
        if negb (r_reader e) then mret (Some ErrReader)
        else
          _ ← defer CloseReader;
          err ← (if is_set (ifaceName o)
                 then r ← on_taps (attachStatic (r_host e) o);
                      match r with
                      | inl err => mret (Some err)
                      | inr close => _ ← defer close; mret None
                      end
                 else mret None);
          match err with
          | Some err => mret (Some err)
          | None => _ ← start_threads e o; mret None
          end.

(** After an error the deferred calls run at once. *)
Definition run_begin (e : runEnv) (o : opts) : st proc (option runErr) :=
  err ← run_start e o;
  _ ← modS (set_main (match err with Some _ => Unwinding | None => Reading end));
  mret err.

(** ** The deferred calls *)

Definition run_deferred (d : deferred) : st proc unit :=
  match d with
  | CloseObjs | CloseMetrics | CloseReader | WaitShip => mret tt
  | CloseStatic d _ => on_taps (on_kernel (modS (run_detach d)))
  | CloseEmitter =>
      _ ← on_agent (fun a => '(_, e) ← close_queue (em a);
                             Ret (tt, mkAgent e (ifNames a) (readErrors a) (parseErrors a)));
      defer WaitShip
  | CloseTaps => on_taps closeAll
  | StopTaps => modS (fun p => set_tapT (p_tapT p) true p)
  | CloseVx => on_vx vx_closeAll
  | StopVx => modS (fun p => set_vxT (p_vxT p) true p)
  end.

(** Whether the next deferred call can go on: the emitter waits for its shipper. *)
Definition unblocked (d : deferred) (p : proc) : bool :=
  match d with
  | WaitShip => match ship (em (p_agent p)) with Some q => finished q | None => true end
  | _ => true
  end.

(** ** The goroutines as a transition system *)

(** Filters under clsact outlive the process; links are closed with it. *)
Definition persistent (h : hook) : bool := match h with ClsIngress | ClsEgress => true | _ => false end.

Section system.
(** The options, the programs other processes have on the host, and what the
    answers of the host satisfy.  [quiet]: a watcher whose stop channel is closed
    does nothing more to the host than its closeAll; otherwise it may be in the
    middle of a scan, or take one more event, since select chooses freely. *)
Context (o : opts) (base : list slot) (quiet : bool).
Context (tap_ok : env -> Prop) (link_ok : link -> Prop).

Definition exit_kernel (k : kernel) : kernel :=
  set_hooks (filter (fun p => is_true (bool_decide (p ∈ base) || persistent (snd p))) (hooks k)) k.

Definition kill (p : proc) : proc :=
  set_main Exited
    (set_taps (mkTaps (exit_kernel (kern (p_taps p))) (localIps (p_taps p)) (attached (p_taps p))
                 (tapsWatched (p_taps p))) p).

Definition may_work (stop : bool) : Prop := quiet = true -> stop = false.

Inductive proc_step : proc -> proc -> Prop :=
(* the main goroutine *)
| main_read m r p p' : p_main p = Reading ->
    on_agent (read_one (em_config o) m r) p = Ret (true, p') -> proc_step p p'
| main_closed m p a : p_main p = Reading ->
    read_one (em_config o) m Closed (p_agent p) = Ret (false, a) ->
    proc_step p (set_main Unwinding (set_agent a p))
| main_deferred d l p p' : p_main p = Unwinding -> p_stack p = d :: l -> unblocked d p = true ->
    run_deferred d (set_stack l p) = Ret (tt, p') -> proc_step p p'
| main_exit p : p_main p = Unwinding -> p_stack p = [] -> proc_step p (kill p)
(* the shipper *)
| ship_step p q q' : p_main p ≠ Exited -> ship (em (p_agent p)) = Some q -> shipStep q = Some q' ->
    proc_step p (set_agent (mkAgent (mkEmitter (lsCache (em (p_agent p))) (stdout (em (p_agent p)))
                                       (Some q') (otlp (em (p_agent p))))
                              (ifNames (p_agent p)) (readErrors (p_agent p))
                              (parseErrors (p_agent p))) p)
(* runWatcher *)
| tap_ticks p : p_main p ≠ Exited -> p_tapT p = TapIdle -> may_work (p_tapStop p) ->
    proc_step p (set_tapT TapScan (p_tapStop p) p)
| tap_scans e ports p p' : p_main p ≠ Exited -> p_tapT p = TapScan -> may_work (p_tapStop p) ->
    tap_ok e -> on_taps (reconcileOnce (tap_config o) e ports) p = Ret (tt, p') ->
    proc_step p (set_tapT TapIdle (p_tapStop p') p')
| tap_stops p : p_main p ≠ Exited -> p_tapT p = TapIdle -> p_tapStop p = true ->
    proc_step p (set_tapT TapDone true p)
(* runVXLANWatcher *)
| vx_unsubscribed p : p_main p ≠ Exited -> p_vxT p = VxStart ->
    proc_step p (set_vxT VxDone (p_vxStop p) p)
| vx_subscribed links p : p_main p ≠ Exited -> p_vxT p = VxStart ->
    Forall (fun x => link_ok (snd x)) links ->
    proc_step p (set_vxT (VxList links) (p_vxStop p) p)
| vx_lists e l r p p' : p_main p ≠ Exited -> p_vxT p = VxList ((e, l) :: r) -> may_work (p_vxStop p) ->
    on_vx (attach_existing (vx_config o) [(e, l)]) p = Ret (tt, p') ->
    proc_step p (set_vxT (VxList r) (p_vxStop p') p')
| vx_listed p : p_main p ≠ Exited -> p_vxT p = VxList [] -> proc_step p (set_vxT VxLoop (p_vxStop p) p)
| vx_updates e type l p p' : p_main p ≠ Exited -> p_vxT p = VxLoop -> may_work (p_vxStop p) ->
    (forall l', l = Some l' -> link_ok l') ->
    on_vx (on_update (vx_config o) e type l) p = Ret (tt, p') -> proc_step p p'
| vx_stops sg e p p' : p_main p ≠ Exited -> p_vxT p = VxLoop ->
    (sg = Stop /\ p_vxStop p = true \/ sg = ChanClosed) ->
    on_vx (vx_loop (vx_config o) [(e, sg)]) p = Ret (false, p') ->
    proc_step p (set_vxT VxDone (p_vxStop p') p').

Inductive proc_reachable (p0 : proc) : proc -> Prop :=
| proc_here : proc_reachable p0 p0
| proc_next p p' : proc_reachable p0 p -> proc_step p p' -> proc_reachable p0 p'.
End system.

(** The process before run. *)
Definition proc0 (k : kernel) : proc :=
  mkProc (mkTaps k ∅ ∅ 0) ∅ ∅ 0 None (mkAgent (mkEmitter ∅ [] None None) ∅ 0 0) [] Reading
    TapOff false VxOff false.
