(* ===== verification/AgentMainProps.v ===== *)
(** Properties of the agent's life: what the command line lets through, what run
    holds and gives back, that it can always stop, and what an unlucky shutdown
    leaves behind. *)
From stdpp Require Import gmap strings sets.
From S2P Require Import Prelude GoStd GoText GoTime TfMeta Responder Attach Watch WatchProps.
From S2P Require Import Observation ObsJson Emit EmitProps VxlanWatch VxlanProps AgentMain.

Local Open Scope Z_scope.

(** An operation on one part of the process changes that part only. *)
Lemma on_taps_Ret {A} (m : st tapState A) p a p' :
  on_taps m p = Ret (a, p') -> exists t, m (p_taps p) = Ret (a, t) /\ p' = set_taps t p.
Proof. unfold on_taps. destruct (m (p_taps p)) as [[x t]|]; [|done]. intros [= -> <-]. eauto. Qed.

Lemma on_vx_Ret {A} (m : st vxState A) p a p' :
  on_vx m p = Ret (a, p') -> exists v, m (vx_view p) = Ret (a, v) /\ p' = set_vx v p.
Proof. unfold on_vx. destruct (m (vx_view p)) as [[x v]|]; [|done]. intros [= -> <-]. eauto. Qed.

Lemma on_agent_Ret {A} (m : st agent A) p a p' :
  on_agent m p = Ret (a, p') -> exists g, m (p_agent p) = Ret (a, g) /\ p' = set_agent g p.
Proof. unfold on_agent. destruct (m (p_agent p)) as [[x g]|]; [|done]. intros [= -> <-]. eauto. Qed.

(** ** Who has which interface *)

(** The interfaces of the host: those with programs of other processes, the one of
    --iface, the tap of a VM, the VXLAN devices. *)
Inductive role := RHost | RStatic | RTap (n : string) | RVxlan.

(** The programs of the deferred closures of attachStatic. *)
Definition statics (l : list deferred) : list slot :=
  mjoin (map (fun d => match d with CloseStatic d _ => d | _ => [] end) l).

Arguments statics : simpl never.

(** A manager is closed after its watcher was told to stop, and the emitter once. *)
Fixpoint ordered (l : list deferred) : Prop :=
  match l with
  | [] => True
  | d :: r =>
      match d with
      | CloseTaps => StopTaps ∉ r
      | CloseVx => StopVx ∉ r
      | CloseEmitter | WaitShip => CloseEmitter ∉ r
      | _ => True
      end /\ ordered r
  end.

(** The shipper of a closed emitter; and one that has posted what it accepted. *)
Definition shut (e : emitter) : Prop := match ship e with Some q => closed q = true | None => True end.
Definition drained (e : emitter) : Prop := match ship e with Some q => finished q = true | None => True end.

(** One of the alternatives about the stack, from the same one before. *)
Ltac flag :=
  match goal with
  | H : ?A \/ _, N : _ ≠ _ |- ?A \/ _ => clear -H N; tauto
  | H : ?A \/ _ |- ?A \/ _ => clear -H; tauto
  end.

Section run.
Context (o : opts) (base : list slot) (ro : Z -> role).
Hypothesis host_role : forall i h, (i, h) ∈ base -> ro i = RHost.

Definition tap_roles (e : env) : Prop := forall n i, ifByName e n = Some i -> ro i = RTap n.
Definition link_roles (l : link) : Prop :=
  isVXLAN l = true -> ro (l_Index l) = RVxlan /\ 0 <= l_Index l < 2 ^ 32.

Definition others (p : proc) : list slot :=
  base ++ statics (p_stack p) ++ owned (attached (p_taps p)).

Record proc_inv (p : proc) : Prop := {
  pi_static : Forall (fun x => ro (fst x) = RStatic) (statics (p_stack p));
  pi_taps n att : attached (p_taps p) !! n = Some att -> Forall (fun x => ro (fst x) = RTap n) (detach att);
  pi_vx : vx_inv (vx_config o) (others p) (vx_view p);
  pi_role i : is_Some (p_vx p !! i) -> ro i = RVxlan;
  pi_order : ordered (p_stack p);
  pi_tapoff : CloseTaps ∈ p_stack p
    \/ attached (p_taps p) = ∅ /\ (p_tapT p = TapOff \/ p_tapStop p = true);
  pi_tapstop : StopTaps ∈ p_stack p \/ p_tapT p = TapOff \/ p_tapStop p = true;
  pi_vxoff : CloseVx ∈ p_stack p \/ p_vx p = ∅ /\ (p_vxT p = VxOff \/ p_vxStop p = true);
  pi_vxstop : StopVx ∈ p_stack p \/ p_vxT p = VxOff \/ p_vxStop p = true;
  pi_open : CloseEmitter ∈ p_stack p -> open (em (p_agent p));
  pi_ship : CloseEmitter ∈ p_stack p
    \/ shut (em (p_agent p)) /\ (WaitShip ∈ p_stack p \/ drained (em (p_agent p)));
  pi_reading : p_main p = Reading -> CloseEmitter ∈ p_stack p
}.

(** *** Interfaces of one role have no programs of another *)

Lemma others_role p i h : proc_inv p -> (i, h) ∈ others p ->
  ro i = RHost \/ ro i = RStatic \/ exists n, ro i = RTap n /\ is_Some (attached (p_taps p) !! n).
Proof.
  intros Hinv. unfold others. rewrite !elem_of_app. intros [Hb|[Hs|Ht]].
  - left. by eapply host_role.
  - right. left. pose proof (pi_static p Hinv) as Hall. eapply Forall_forall in Hall; [|done]. done.
  - right. right. apply elem_of_owned_by in Ht as (n & att & Hn & Hx).
    pose proof (pi_taps p Hinv n att Hn) as Hall. eapply Forall_forall in Hall; [|done]. eauto.
Qed.

Lemma vx_clean p i : proc_inv p -> ro i = RVxlan -> 0 <= i < 2 ^ 32 -> clean (others p) i.
Proof.
  intros Hinv Hr Hi. split; [done |]. intros h Hin.
  apply (others_role p i h Hinv) in Hin as [H|[H|(n & H & _)]]; congruence.
Qed.

(** The kernel's programs as the tap manager sees them. *)
Definition beside_taps (p : proc) : list slot :=
  base ++ statics (p_stack p) ++ owned_by va_detach (p_vx p).

Lemma taps_accounted p : proc_inv p -> accounted (beside_taps p) (p_taps p).
Proof.
  intros Hinv. unfold accounted. pose proof (vx_programs _ _ _ (pi_vx p Hinv)) as Hp. cbn in Hp.
  rewrite Hp. unfold others, beside_taps. rewrite <- !app_assoc. do 2 apply Permutation_app_head. apply Permutation_app_comm.
Qed.

Lemma vx_slot_role p i h : proc_inv p -> (i, h) ∈ owned_by va_detach (p_vx p) -> ro i = RVxlan.
Proof.
  intros Hinv (j & att & Hj & Hx)%elem_of_owned_by. pose proof (vx_own _ _ _ (pi_vx p Hinv) j att Hj) as (_ & Hall & _).
  eapply Forall_forall in Hall; [|done]. cbn in Hall. subst. apply (pi_role p Hinv). by eexists.
Qed.

Lemma taps_fresh p e : proc_inv p -> tap_roles e -> fresh_ifaces e (p_taps p).
Proof.
  intros Hinv He. split.
  - intros n i Hi Hn h Hin. apply He in Hi.
    pose proof (vx_programs _ _ _ (pi_vx p Hinv)) as Hp. cbn in Hp. rewrite Hp, elem_of_app in Hin.
    destruct Hin as [Hin|Hin].
    + apply (others_role p i h Hinv) in Hin as [H|[H|(n' & H & Hs)]]; try congruence.
      assert (n = n') by congruence. subst n'. rewrite Hn in Hs. by destruct Hs.
    + apply (vx_slot_role p i h Hinv) in Hin. congruence.
  - intros n n' i H1%He H2%He. congruence.
Qed.

(** *** Moving between the two views *)

(** What the VXLAN manager owns stays clean when the other programs change. *)
Lemma vx_rebase c B B' s k :
  vx_inv c B s -> hooks k ≡ₚ B' ++ owned_by va_detach (vx_attached s) ->
  (forall i, is_Some (vx_attached s !! i) -> 0 <= i < 2 ^ 32 -> clean B' i) ->
  vx_inv c B' (mkVx k (ifaceVni s) (vx_attached s) (vxlanWatched s)).
Proof.
  intros [Hp Hown Hv Hg] Hk Hc. split; cbn; [done | | done | done].
  intros i att Hi. destruct (Hown i att Hi) as ([Hr _] & ? & ?). split_and!; [|done..].
  apply Hc; [by eexists | done].
Qed.

(** *** The deferred calls *)

Lemma inv_main p m : proc_inv p -> m ≠ Reading -> proc_inv (set_main m p).
Proof. intros [] Hm. by split. Qed.

Lemma inv_agent p a :
  proc_inv p ->
  (open (em (p_agent p)) -> open (em a)) ->
  CloseEmitter ∈ p_stack p \/ (shut (em (p_agent p)) -> shut (em a))
    /\ (drained (em (p_agent p)) -> drained (em a)) ->
  proc_inv (set_agent a p).
Proof.
  intros [Hst Ht Hv Hr Ho Hto Hts Hvo Hvs Hop Hsh Hrd] Ho' Hs. split; try assumption; cbn.
  - auto.
  - destruct Hs as [?|[Hs Hd]]; [by left |].
    destruct Hsh as [?|[? Hsh]]; [by left | right; split; [auto |]]. destruct Hsh; [by left | right; auto].
Qed.

(** The next entry of the stack is not one that is awaited. *)
Lemma next_is x d (l : list deferred) (P : Prop) : x ∈ d :: l \/ P -> x ≠ d -> x ∈ l \/ P.
Proof. intros [[?|?]%elem_of_cons|?] Hne; [done | by left | by right]. Qed.

Lemma ship_next d (l : list deferred) (P Q : Prop) :
  CloseEmitter ∈ d :: l \/ P /\ (WaitShip ∈ d :: l \/ Q) -> d ≠ CloseEmitter ->
  d ≠ WaitShip \/ Q -> CloseEmitter ∈ l \/ P /\ (WaitShip ∈ l \/ Q).
Proof.
  intros [H|[HP H]] Hne Hd; [left | right; split; [done |]].
  - by apply elem_of_cons in H as [?|?].
  - destruct H as [[<-|?]%elem_of_cons|?]; [|by left | by right]. right. by destruct Hd.
Qed.

Definition plain (d : deferred) : bool :=
  match d with CloseObjs | CloseMetrics | CloseReader => true | _ => false end.

(** The common part of popping [d]. *)
Lemma inv_pop p d l :
  proc_inv p -> p_stack p = d :: l -> p_main p ≠ Reading ->
  plain d = true \/ d = WaitShip /\ drained (em (p_agent p)) ->
  proc_inv (set_stack l p).
Proof.
  intros [Hst Ht Hv Hr Ho Hto Hts Hvo Hvs Hop Hsh Hrd] E Hm Hd. rewrite E in *.
  assert (statics (d :: l) = statics l) as Heq by (destruct Hd as [Hd|[-> _]]; [by destruct d | done]).
  destruct Ho as [_ Ho]. rewrite Heq in Hst.
  assert (d ≠ CloseTaps /\ d ≠ StopTaps /\ d ≠ CloseVx /\ d ≠ StopVx /\ d ≠ CloseEmitter)
    as (? & ? & ? & ? & ?) by (destruct Hd as [Hd|[-> _]]; [by destruct d | done]).
  split; cbn; try done; try (eapply next_is; [eassumption | done]).
  - unfold others in *. cbn. by rewrite E, Heq in Hv.
  - intros Hin. apply Hop. by right.
  - eapply ship_next; [eassumption | done |]. destruct Hd as [Hd|[_ Hd]]; [left; by intros -> | by right].
Qed.

Lemma inv_CloseStatic p ds r l :
  proc_inv p -> p_stack p = CloseStatic ds r :: l -> p_main p ≠ Reading ->
  exists p', run_deferred (CloseStatic ds r) (set_stack l p) = Ret (tt, p') /\ proc_inv p'
    /\ p_main p' = p_main p /\ p_stack p' = l.
Proof.
  intros [Hst Ht Hv Hr Ho Hto Hts Hvo Hvs Hop Hsh Hrd] E Hm. rewrite E in *.
  eexists. split; [reflexivity |]. split; [|done]. destruct Ho as [_ Ho].
  change (statics (CloseStatic ds r :: l)) with (ds ++ statics l) in *.
  apply Forall_app in Hst as [_ Hst].
  split; cbn; try done; try (eapply next_is; [eassumption | done]).
  - unfold vx_view. cbn. eapply (vx_rebase _ _ _ (vx_view p)); [exact Hv | |].
    + apply run_detach_perm. pose proof (vx_programs _ _ _ Hv) as Hp. cbn in Hp. rewrite Hp.
      unfold others. cbn. rewrite E. change (statics (CloseStatic ds r :: l)) with (ds ++ statics l).
      rewrite <- !app_assoc. apply Permutation_app_swap_app.
    + intros i [att Hatt] _. pose proof (vx_own _ _ _ Hv i att Hatt) as ([? Hc] & _). split; [done |].
      intros h Hin. apply (Hc h). revert Hin. unfold others. cbn. rewrite E.
      change (statics (CloseStatic ds r :: l)) with (ds ++ statics l).
      clear. rewrite !elem_of_app. tauto.
  - intros Hin. apply Hop. by right.
  - eapply ship_next; [eassumption | done | by left].
Qed.

(** What is not touched when the emitter or one of the flags changes. *)
Lemma inv_CloseEmitter p l :
  proc_inv p -> p_stack p = CloseEmitter :: l -> p_main p ≠ Reading ->
  exists p', run_deferred CloseEmitter (set_stack l p) = Ret (tt, p') /\ proc_inv p'
    /\ p_main p' = p_main p /\ p_stack p' = WaitShip :: l.
Proof.
  intros [Hst Ht Hv Hr Ho Hto Hts Hvo Hvs Hop Hsh Hrd] E Hm. unfold others in Hv. rewrite E in *.
  specialize (Hop ltac:(by left)). destruct Ho as [Hce Ho].
  assert (exists e, close_queue (em (p_agent p)) = Ret (tt, e) /\ shut e) as (e & He & Hshut).
  { unfold close_queue, shut, open in *. rewrite getS_bind. destruct (ship (em (p_agent p))) as [q|] eqn:Eq.
    - rewrite Hop. by eexists.
    - eexists. by rewrite Eq. }
  cbn [run_deferred]. eexists. split.
  { unfold on_agent, mbind, st_bind, set_stack. cbn. rewrite He. reflexivity. }
  split; [|done]. split; cbn; try done;
    try (eapply next_is in Hto as [?|?]; [left; by right | by right | done]);
    try (eapply next_is in Hts as [?|?]; [left; by right | by right | done]);
    try (eapply next_is in Hvo as [?|?]; [left; by right | by right | done]);
    try (eapply next_is in Hvs as [?|?]; [left; by right | by right | done]).
  - by intros [?|?]%elem_of_cons.
  - right. split; [done |]. left. by left.
Qed.

Lemma inv_StopTaps p l :
  proc_inv p -> p_stack p = StopTaps :: l -> p_main p ≠ Reading ->
  proc_inv (set_tapT (p_tapT p) true (set_stack l p)).
Proof.
  intros [Hst Ht Hv Hr Ho Hto Hts Hvo Hvs Hop Hsh Hrd] E Hm. unfold others in Hv. rewrite E in *.
  destruct Ho as [_ Ho].
  split; cbn; try done; try (eapply next_is; [eassumption | done]); try flag.
  - eapply next_is in Hto as [?|[? ?]]; [by left | right; split; [done | by right] | done].
  - by right; right.
  - intros Hin. apply Hop. by right.
  - eapply ship_next; [eassumption | done | by left].
Qed.

Lemma inv_StopVx p l :
  proc_inv p -> p_stack p = StopVx :: l -> p_main p ≠ Reading ->
  proc_inv (set_vxT (p_vxT p) true (set_stack l p)).
Proof.
  intros [Hst Ht Hv Hr Ho Hto Hts Hvo Hvs Hop Hsh Hrd] E Hm. unfold others in Hv. rewrite E in *.
  destruct Ho as [_ Ho].
  split; cbn; try done; try (eapply next_is; [eassumption | done]); try flag.
  - eapply next_is in Hvo as [?|[? ?]]; [by left | right; split; [done | by right] | done].
  - by right; right.
  - intros Hin. apply Hop. by right.
  - eapply ship_next; [eassumption | done | by left].
Qed.

(** Nothing of the taps is left once their manager is closed. *)
Lemma owned_empty : owned (∅ : gmap string tapAttachment) = [].
Proof. done. Qed.

Lemma inv_CloseTaps p l :
  proc_inv p -> p_stack p = CloseTaps :: l -> p_main p ≠ Reading ->
  exists p', run_deferred CloseTaps (set_stack l p) = Ret (tt, p') /\ proc_inv p'
    /\ p_main p' = p_main p /\ p_stack p' = l.
Proof.
  intros Hinv E Hm. destruct (closeAll_taps _ _ (taps_accounted p Hinv)) as (t & Hcl & Hempty & Hh).
  unfold beside_taps in Hh. destruct Hinv as [Hst Ht Hv Hr Ho Hto Hts Hvo Hvs Hop Hsh Hrd].
  rewrite E in *. destruct Ho as [Hni Ho].
  change (statics (CloseTaps :: l)) with (statics l) in *.
  eexists. split; [cbn [run_deferred]; unfold on_taps; cbn; rewrite Hcl; reflexivity |]. split; [|done].
  split; cbn; try done; try (eapply next_is; [eassumption | done]).
  - intros n att. by rewrite Hempty, lookup_empty.
  - unfold vx_view, others. cbn. rewrite Hempty, owned_empty.
    eapply (vx_rebase _ _ _ (vx_view p)); [exact Hv | by rewrite app_nil_r, <- app_assoc |].
    intros i [att Hatt] _. pose proof (vx_own _ _ _ Hv i att Hatt) as ([? Hc] & _). split; [done |].
    intros h Hin. apply (Hc h). unfold others. rewrite E.
    change (statics (CloseTaps :: l)) with (statics l).
    revert Hin. clear. rewrite !elem_of_app, elem_of_nil. tauto.
  - right. split; [done |]. eapply next_is in Hts as [?|?]; done.
  - intros Hin. apply Hop. by right.
  - eapply ship_next; [eassumption | done | by left].
Qed.

Lemma inv_CloseVx p l :
  proc_inv p -> p_stack p = CloseVx :: l -> p_main p ≠ Reading ->
  exists p', run_deferred CloseVx (set_stack l p) = Ret (tt, p') /\ proc_inv p'
    /\ p_main p' = p_main p /\ p_stack p' = l.
Proof.
  intros [Hst Ht Hv Hr Ho Hto Hts Hvo Hvs Hop Hsh Hrd] E Hm.
  destruct (closeAll_spec _ _ _ Hv) as (v & Hcl & Hh & Hvni & Hatt & Hg).
  unfold others in Hh. rewrite E in *. destruct Ho as [Hni Ho].
  change (statics (CloseVx :: l)) with (statics l) in *.
  eexists. split; [cbn [run_deferred]; unfold on_vx; cbn; unfold vx_view in *; cbn in *; rewrite Hcl; reflexivity |].
  split; [|done].
  split; cbn; rewrite ?Hatt; try done; try (eapply next_is; [eassumption | done]).
  - unfold vx_view, others. cbn. rewrite Hvni, Hatt, Hg. by apply fresh_inv.
  - intros i. rewrite lookup_empty. by intros [? ?].
  - right. split; [done |]. eapply next_is in Hvs as [?|?]; done.
  - intros Hin. apply Hop. by right.
  - eapply ship_next; [eassumption | done | by left].
Qed.

(** Each deferred call returns, keeps the invariant and leaves the rest of the stack. *)
Lemma run_deferred_inv p d l :
  proc_inv p -> p_stack p = d :: l -> p_main p ≠ Reading -> unblocked d p = true ->
  exists p', run_deferred d (set_stack l p) = Ret (tt, p') /\ proc_inv p' /\ p_main p' = p_main p
    /\ p_stack p' = match d with CloseEmitter => WaitShip :: l | _ => l end.
Proof.
  intros Hinv E Hm Hu.
  destruct d; try (eexists; split; [reflexivity |]; split; [|done]; eapply inv_pop; eauto; by left).
  - by eapply inv_CloseStatic.
  - by eapply inv_CloseEmitter.
  - eexists; split; [reflexivity |]; split; [|done]; eapply inv_pop; eauto. right. split; [done |].
    unfold drained. cbn in Hu. by destruct (ship _).
  - by eapply inv_CloseTaps.
  - eexists; split; [reflexivity |]; split; [|done]. exact (inv_StopTaps p l Hinv E Hm).
  - by eapply inv_CloseVx.
  - eexists; split; [reflexivity |]; split; [|done]. exact (inv_StopVx p l Hinv E Hm).
Qed.

(** *** The watchers *)

Lemma inv_scan e ports p p' :
  proc_inv p -> tap_roles e -> p_tapT p = TapScan -> p_tapStop p = false ->
  on_taps (reconcileOnce (tap_config o) e ports) p = Ret (tt, p') ->
  proc_inv (set_tapT TapIdle (p_tapStop p') p').
Proof.
  intros Hinv He HT Hstop Hrun.
  destruct (reconcileOnce_accounted (tap_config o) e ports _ _ (taps_fresh p e Hinv He) (taps_accounted p Hinv))
    as (t & Ht1 & Hacc).
  unfold on_taps in Hrun. cbn in Hrun. rewrite Ht1 in Hrun. injection Hrun as <-.
  assert (taps_have (fun n d => Forall (fun x => ro (fst x) = RTap n) d) t) as Hroles.
  { eapply (reconcileOnce_have _ (tap_config o) e); [|exact (pi_taps p Hinv) | exact Ht1].
    intros n i d Hi Hd. eapply Forall_impl; [exact Hd |]. cbn. intros x ->. by apply He. }
  destruct Hinv as [Hst Ht Hv Hr Ho Hto Hts Hvo Hvs Hop Hsh Hrd].
  assert (CloseTaps ∈ p_stack p) as Hct.
  { destruct Hto as [?|[_ [?|?]]]; [done | congruence..]. }
  split; cbn; try done; try flag.
  - eapply (vx_rebase _ _ _ (vx_view p)); [exact Hv | |].
    + unfold accounted, beside_taps in Hacc. cbn. rewrite Hacc. unfold others. cbn.
      rewrite <- !app_assoc. do 2 apply Permutation_app_head. apply Permutation_app_comm.
    + intros i Hi Hrange. split; [done |]. intros h Hin. apply Hr in Hi. unfold others in Hin. cbn in Hin.
      rewrite !elem_of_app in Hin. destruct Hin as [Hb|[Hs|Hown]].
      * apply host_role in Hb. congruence.
      * eapply Forall_forall in Hst; [|done]. cbn in Hst. congruence.
      * apply elem_of_owned_by in Hown as (n & att & Hn & Hx). apply Hroles in Hn.
        eapply Forall_forall in Hn; [|done]. cbn in Hn. congruence.
  - by left.
  - destruct Hts as [?|[?|?]]; [by left | congruence | congruence].
Qed.

(** Any operation of the VXLAN manager while its watcher is not told to stop. *)
Lemma inv_vx p v T :
  proc_inv p -> p_vxStop p = false -> p_vxT p ≠ VxOff -> vx_inv (vx_config o) (others p) v ->
  (forall k, is_Some (vx_attached v !! k) -> is_Some (p_vx p !! k) \/ ro k = RVxlan) ->
  proc_inv (set_vxT T (p_vxStop p) (set_vx v p)).
Proof.
  intros [Hst Ht Hv Hr Ho Hto Hts Hvo Hvs Hop Hsh Hrd] Hstop HT Hv' Hk.
  split; cbn; try done; try flag.
  - by destruct v.
  - intros i [?|?]%Hk; [by apply Hr | done].
  - destruct Hvo as [?|[_ [?|?]]]; [by left | congruence..].
Qed.

Lemma inv_vxT p T : proc_inv p -> p_vxT p ≠ VxOff -> proc_inv (set_vxT T (p_vxStop p) p).
Proof.
  intros [] HT. split; try done; cbn; flag.
Qed.

Lemma inv_tapT p T : proc_inv p -> p_tapT p ≠ TapOff -> proc_inv (set_tapT T (p_tapStop p) p).
Proof. intros [] HT. split; try done; cbn; flag. Qed.

(** The watcher closes its manager itself when it ends. *)
Lemma inv_vx_stops p v T :
  proc_inv p -> p_vxT p ≠ VxOff -> at_rest (others p) v -> proc_inv (set_vxT T (p_vxStop p) (set_vx v p)).
Proof.
  intros [Hst Ht Hv Hr Ho Hto Hts Hvo Hvs Hop Hsh Hrd] HT (Hh & Hvni & Hatt & Hg).
  split; cbn; rewrite ?Hatt; try done; try flag.
  - unfold vx_view, others. cbn. rewrite Hvni, Hatt, Hg. by apply fresh_inv.
  - intros i. rewrite lookup_empty. by intros [? ?].
Qed.

(** The devices that were listed have the interfaces of VXLAN devices. *)
Definition listed (p : proc) : Prop :=
  match p_vxT p with VxList l => Forall (fun x => link_roles (snd x)) l | _ => True end.

(** *** Setting up *)

(** Before the goroutines start. *)
Definition early (d : deferred) : Prop :=
  match d with CloseObjs | CloseMetrics | CloseReader | CloseStatic _ _ => True | _ => False end.

Record setup_inv (p : proc) : Prop := {
  si_hooks : hooks (kern (p_taps p)) ≡ₚ base ++ statics (p_stack p);
  si_static : Forall (fun x => ro (fst x) = RStatic) (statics (p_stack p));
  si_early : Forall early (p_stack p);
  si_taps : attached (p_taps p) = ∅;
  si_vx : p_vx p = ∅ /\ p_vni p = ∅ /\ p_vxWatched p = 0;
  si_off : p_tapT p = TapOff /\ p_vxT p = VxOff;
  si_ship : ship (em (p_agent p)) = None
}.

Lemma early_not d l : Forall early l -> ~ early d -> d ∉ l.
Proof. intros Hl Hd Hin. eapply Forall_forall in Hl; done. Qed.

Lemma early_ordered l : Forall early l -> ordered l.
Proof.
  induction l as [|d l IH]; [done |]. intros [Hd Hl]%Forall_cons. split; [by destruct d | by apply IH].
Qed.

(** The invariant once the threads [tap] and [vx] may run, with [l] deferred since. *)
Lemma setup_started p l a m tapT vxT stop1 stop2 :
  setup_inv p -> ordered (l ++ p_stack p) -> statics l = [] ->
  (tapT = TapOff \/ CloseTaps ∈ l /\ StopTaps ∈ l) -> (vxT = VxOff \/ CloseVx ∈ l /\ StopVx ∈ l) ->
  (CloseEmitter ∈ l /\ open (em a) \/ CloseEmitter ∉ l /\ ship (em a) = None /\ m ≠ Reading) ->
  proc_inv (mkProc (p_taps p) (p_vni p) (p_vx p) (p_vxWatched p) (p_config p) a (l ++ p_stack p) m
              tapT stop1 vxT stop2).
Proof.
  intros [Hh Hst He Ht Hv _ _] Hord Hl HtapT HvxT Hem.
  assert (statics (l ++ p_stack p) = statics (p_stack p)) as Hs.
  { unfold statics in *. by rewrite map_app, join_app, Hl. }
  destruct Hv as (Hvx & Hvni & Hw).
  split; cbn; rewrite ?Hs, ?Ht, ?Hvx; try done.
  - unfold vx_view, others. cbn. rewrite Hs, Ht, Hvni, Hw. apply fresh_inv.
    by rewrite Hh, owned_empty, app_nil_r.
  - intros i. rewrite lookup_empty. by intros [? ?].
  - destruct HtapT as [->|[? _]]; [right; split; [done | by left] | left; set_solver].
  - destruct HtapT as [->|[_ ?]]; [by right; left | left; set_solver].
  - destruct HvxT as [->|[? _]]; [right; split; [done | by left] | left; set_solver].
  - destruct HvxT as [->|[_ ?]]; [by right; left | left; set_solver].
  - destruct Hem as [[_ ?]|(Hn & Hs' & _)]; [done |]. intros _. unfold open. by rewrite Hs'.
  - destruct Hem as [[? _]|(Hn & Hs' & _)]; [left; set_solver | right]. unfold shut, drained.
    rewrite Hs'. split; [done | by right].
  - destruct Hem as [[? _]|(Hn & _ & ?)]; [set_solver | done].
Qed.

Lemma setup_failed p : setup_inv p -> proc_inv (set_main Unwinding p) /\ listed p.
Proof.
  intros Hs. split; [|unfold listed; by destruct (si_off p Hs) as [_ ->]]. pose proof Hs as [? ? He ? ? [HT HV] ?].
  destruct p as [t vni vx w cf a st m tT tS vT vS]. cbn in *. subst.
  apply (setup_started (mkProc t vni vx w cf a st m TapOff tS VxOff vS) [] a Unwinding TapOff VxOff tS vS);
    [done | by apply early_ordered | done | by left | by left |].
  right. split_and!; [apply not_elem_of_nil | done | done].
Qed.

Lemma newEmitter_open url ep sink : open (newEmitter url ep sink).
Proof. unfold newEmitter, open. cbn. by case_bool_decide. Qed.

Lemma start_threads_inv e p :
  setup_inv p ->
  exists p', start_threads e o p = Ret (tt, p') /\ proc_inv (set_main Reading p') /\ listed p'.
Proof.
  intros Hs. pose proof Hs as [? ? He ? ? [HT HV] ?].
  destruct p as [t vni vx w cf a st m tT tS vT vS]. cbn in HT, HV, He. subst tT vT.
  assert (forall d, ~ early d -> d ∉ st) as Hn by (intros d; by apply early_not).
  pose proof (early_ordered st He) as Hord.
  pose proof (Hn CloseEmitter id) as H1. pose proof (Hn StopTaps id) as H2. pose proof (Hn StopVx id) as H3.
  set (p := mkProc t vni vx w cf a st m TapOff tS VxOff vS).
  set (a' := mkAgent (newEmitter (collectorURL o) (otlpEndpoint o) (r_sink e)) (ifNames a) (readErrors a) (parseErrors a)).
  assert (open (em a')) as Hopen by apply newEmitter_open.
  unfold start_threads.
  destruct (watch o), (watchVXLAN o); (eexists; split; [reflexivity |]; split; [|exact I]).
  - apply (setup_started p [StopVx; CloseVx; StopTaps; CloseTaps; CloseEmitter] a' Reading TapScan VxStart false false Hs);
      [cbn; rewrite ?elem_of_cons; intuition discriminate | done | right; set_solver | right; set_solver |].
    left. split; [set_solver | done].
  - apply (setup_started p [StopTaps; CloseTaps; CloseEmitter] a' Reading TapScan VxOff false vS Hs);
      [cbn; rewrite ?elem_of_cons; intuition discriminate | done | right; set_solver | by left |].
    left. split; [set_solver | done].
  - apply (setup_started p [StopVx; CloseVx; CloseEmitter] a' Reading TapOff VxStart tS false Hs);
      [cbn; rewrite ?elem_of_cons; intuition discriminate | done | by left | right; set_solver |].
    left. split; [set_solver | done].
  - apply (setup_started p [CloseEmitter] a' Reading TapOff VxOff tS vS Hs);
      [cbn; rewrite ?elem_of_cons; intuition discriminate | done | by left | by left |].
    left. split; [set_solver | done].
Qed.

Lemma setup_defer p d : setup_inv p -> early d -> statics [d] = [] -> setup_inv (set_stack (d :: p_stack p) p).
Proof.
  intros [Hh Hst He Ht Hv Ho Hs] Hd Hn.
  assert (statics (d :: p_stack p) = statics (p_stack p)) as Heq.
  { unfold statics in *. cbn in *. rewrite app_nil_r in Hn. by rewrite Hn. }
  split; cbn; rewrite ?Heq; try done. by constructor.
Qed.

Lemma attachStatic_spec e s :
  (forall i, ifByName e (ifaceName o) = Some i -> free i (kern s)) ->
  exists r s', attachStatic e o s = Ret (r, s') /\ attached s' = attached s
    /\ match r with
       | inl _ => hooks (kern s') ≡ₚ hooks (kern s)
       | inr d => exists ds b i, d = CloseStatic ds b /\ ifByName e (ifaceName o) = Some i
                   /\ Forall (fun x => fst x = i) ds /\ hooks (kern s') ≡ₚ hooks (kern s) ++ ds
       end.
Proof.
  intros Hf. unfold attachStatic. destruct (ifByName e (ifaceName o)) as [i|]; [|by eexists _, _].
  destruct (attachIface_spec (hookFails e) (qdiscErr e) (clsactForced e) i (xdp o) (xdpTCEgress o)
    (kern s) (Hf i eq_refl)) as (r & k & Hr & Hk).
  rewrite (st_bind_ret _ _ s r (mkTaps k (localIps s) (attached s) (tapsWatched s)))
    by (unfold on_kernel; by rewrite Hr).
  destruct r as [er|ds]; [eexists _, _; split; [reflexivity |]; cbn; by rewrite Hk |].
  destruct Hk as (Hh & Hall & _).
  assert (hooks k ≡ₚ hooks (kern s) ++ ds) as Hp by (rewrite Hh; f_equiv; symmetry; apply Permutation_rev).
  destruct (respond o && _).
  2: { eexists _, _. split; [reflexivity |]. split; [done |]. by exists ds, false, i. }
  destruct (respOK e (ifaceName o)); cbn [negb].
  - destruct (newResponder_spec (ifType o) (o_localIPs o) (tcpRespond o) (hmacKey o)) as (r & -> & _).
    rewrite lift_ret_bind. eexists _, _. split; [reflexivity |]. split; [done |]. by exists ds, true, i.
  - eexists _, _. split; [reflexivity |]. split; [done |]. cbn. apply run_detach_perm. rewrite Hp.
    apply Permutation_app_comm.
Qed.

Lemma setup_taps p t :
  setup_inv p -> attached t = attached (p_taps p) -> hooks (kern t) ≡ₚ hooks (kern (p_taps p)) ->
  setup_inv (set_taps t p).
Proof.
  intros [Hh Hst He Ht Hv Ho Hs] Ha Hk. split; cbn; try done; [by rewrite Hk, Hh | by rewrite Ha].
Qed.

Lemma defer_bind {B} d (f : unit -> st proc B) p :
  (defer d ≫= f) p = f tt (set_stack (d :: p_stack p) p).
Proof. done. Qed.

(** The attachment of --iface. *)
Definition static_step (e : runEnv) : st proc (option runErr) :=
  if is_set (ifaceName o)
  then r ← on_taps (attachStatic (r_host e) o);
       match r with
       | inl err => mret (Some err)
       | inr close => _ ← defer close; mret None
       end
  else mret None.

Lemma static_step_inv e p :
  setup_inv p -> statics (p_stack p) = [] ->
  (forall i, ifByName (r_host e) (ifaceName o) = Some i -> ro i = RStatic) ->
  exists err p', static_step e p = Ret (err, p') /\ setup_inv p'.
Proof.
  intros Hs Hn Hro. unfold static_step. destruct (is_set _); [|by eexists _, _].
  destruct (attachStatic_spec (r_host e) (p_taps p)) as (r & t & Hr & Ha & Hk).
  { intros i Hi h Hin. rewrite (si_hooks p Hs), Hn, app_nil_r in Hin. apply host_role in Hin.
    apply Hro in Hi. congruence. }
  rewrite (st_bind_ret _ _ p r (set_taps t p)) by (unfold on_taps; cbn; by rewrite Hr).
  destruct r as [er|d]; [eexists _, _; split; [reflexivity |]; by apply setup_taps |].
  destruct Hk as (ds & b & i & -> & Hi & Hall & Hk).
  eexists _, _. split; [reflexivity |]. destruct Hs as [Hh Hst He Ht Hv Ho Hsh].
  change (set_stack _ _) with (set_stack (CloseStatic ds b :: p_stack p) (set_taps t p)).
  assert (statics (CloseStatic ds b :: p_stack p) = ds) as Heq
    by (change (ds ++ statics (p_stack p) = ds); by rewrite Hn, app_nil_r).
  split; cbn; rewrite ?Heq; try done.
  - by rewrite Hk, Hh, Hn, app_nil_r.
  - eapply Forall_impl; [exact Hall |]. cbn. intros x ->. by apply Hro.
  - by constructor.
  - by rewrite Ha.
Qed.

Lemma run_begin_spec e k :
  hooks k ≡ₚ base ->
  (forall i, ifByName (r_host e) (ifaceName o) = Some i -> ro i = RStatic) ->
  exists err p0, run_begin e o (proc0 k) = Ret (err, p0) /\
  proc_inv p0 /\ listed p0 /\ p_main p0 = match err with Some _ => Unwinding | None => Reading end.
Proof.
  intros Hk Hro. unfold run_begin.
  enough (exists err p', run_start e o (proc0 k) = Ret (err, p')
    /\ proc_inv (set_main (match err with Some _ => Unwinding | None => Reading end) p') /\ listed p')
    as (err' & p' & Hrun & Hinv & Hl).
  { rewrite (st_bind_ret _ _ _ _ _ Hrun), modS_bind. by eexists _, _. }
  assert (setup_inv (proc0 k)) as H0.
  { split; cbn; try done; [by rewrite app_nil_r, Hk | constructor..]. }
  unfold run_start. destruct (r_memlock e); cbn [negb]; [|eexists _, _; split; [reflexivity |]; by apply setup_failed].
  destruct (r_load e); cbn [negb]; [|eexists _, _; split; [reflexivity |]; by apply setup_failed].
  rewrite defer_bind. pose proof (setup_defer _ CloseObjs H0 I eq_refl) as H1.
  set (p1 := set_stack _ _) in *.
  destruct (r_putConfig e); cbn [negb]; [|eexists _, _; split; [reflexivity |]; by apply setup_failed].
  rewrite modS_bind. assert (setup_inv (set_config (tf_config o) p1)) as H2 by (by destruct H1).
  set (p2 := set_config _ _) in *.
  destruct (addLocalIPs_spec (r_host e) (o_localIPs o) (p_taps p2)) as (ok & m & Hm & _).
  rewrite (st_bind_ret _ _ p2 ok (set_taps (set_local m (p_taps p2)) p2))
    by (unfold on_taps; by rewrite Hm).
  pose proof (setup_taps p2 (set_local m (p_taps p2)) H2 eq_refl (reflexivity _)) as H3.
  set (p3 := set_taps _ _) in *.
  destruct ok; cbn [negb]; [|eexists _, _; split; [reflexivity |]; by apply setup_failed].
  assert (exists p4, (if is_set (metricsAddr o) then defer CloseMetrics else mret tt) p3 = Ret (tt, p4)
    /\ setup_inv p4 /\ statics (p_stack p4) = []) as (p4 & H4 & Hs4 & Hst4).
  { destruct (is_set _); (eexists; split; [reflexivity |]; split; [|done]); [by apply setup_defer | done]. }
  rewrite (st_bind_ret _ _ _ _ _ H4).
  destruct (r_reader e); cbn [negb]; [|eexists _, _; split; [reflexivity |]; by apply setup_failed].
  rewrite defer_bind. pose proof (setup_defer _ CloseReader Hs4 I eq_refl) as H5.
  destruct (static_step_inv e _ H5 Hst4 Hro) as (er & p6 & H6 & Hs6).
  rewrite (st_bind_ret _ _ _ er p6) by exact H6.
  destruct er; [eexists _, _; split; [reflexivity |]; by apply setup_failed |].
  destruct (start_threads_inv e p6 Hs6) as (p7 & H7 & Hinv).
  rewrite (st_bind_ret _ _ _ _ _ H7). by eexists _, _.
Qed.

(** *** Every step *)

(** What an agent that has exited leaves: the programs of others, and a queue
    whose observations are all posted. *)
Definition gone (p : proc) : Prop :=
  hooks (kern (p_taps p)) ≡ₚ base /\ attached (p_taps p) = ∅ /\ p_vx p = ∅ /\ p_vni p = ∅
  /\ drained (em (p_agent p)).

Lemma exit_gone p : proc_inv p -> p_stack p = [] -> gone (kill base p).
Proof.
  intros [Hst Ht Hv Hr Ho Hto Hts Hvo Hvs Hop Hsh Hrd] E. rewrite E in *.
  destruct Hto as [[]%elem_of_nil|[Ha _]]. destruct Hvo as [[]%elem_of_nil|[Hx _]].
  destruct Hsh as [[]%elem_of_nil|[_ [[]%elem_of_nil|Hd]]].
  unfold gone. cbn. split_and!; try done.
  - pose proof (vx_programs _ _ _ Hv) as Hp. unfold others in Hp. cbn in Hp. rewrite E, Ha, Hx in Hp.
    cbn in Hp. rewrite app_nil_r in Hp. rewrite Hp. change (statics []) with (@nil slot).
    rewrite app_nil_r. rewrite filter_every; [done |]. apply Forall_forall. intros x Hx'.
    by rewrite bool_decide_true.
  - apply map_empty. intros k. apply eq_None_not_Some. intros Hk. apply (vx_vnis _ _ _ Hv) in Hk.
    cbn in Hk. rewrite Hx, lookup_empty in Hk. by destruct Hk.
Qed.

Lemma inv_ship p q q' :
  proc_inv p -> ship (em (p_agent p)) = Some q -> shipStep q = Some q' ->
  proc_inv (set_agent (mkAgent (mkEmitter (lsCache (em (p_agent p))) (stdout (em (p_agent p)))
    (Some q') (otlp (em (p_agent p)))) (ifNames (p_agent p)) (readErrors (p_agent p))
    (parseErrors (p_agent p))) p).
Proof.
  intros Hinv Hq Hs.
  assert (closed q' = closed q) as Hc.
  { unfold shipStep in Hs. destruct q as [[|x qu] cl [y|] po]; cbn in Hs; by simplify_eq. }
  apply inv_agent; [done | unfold open; cbn; rewrite Hq, Hc; done | right].
  unfold shut, drained. cbn. rewrite Hq, Hc. split; [done |]. unfold finished, shipStep in *.
  intros Hf. destruct q as [[|x qu] cl [y|] po]; cbn in *; destruct cl; done.
Qed.

Lemma inv_read p m r p' :
  proc_inv p -> p_main p = Reading -> on_agent (read_one (em_config o) m r) p = Ret (true, p') ->
  proc_inv p'.
Proof.
  intros Hinv Hm Hr. pose proof (pi_reading p Hinv Hm) as Hce. pose proof (pi_open p Hinv Hce) as Hop.
  destruct (read_one_spec (em_config o) m r (p_agent p) Hop) as (a & out & Ha & _ & Ho & _).
  unfold on_agent in Hr. rewrite Ha in Hr. cbn in Hr. injection Hr as _ <-. apply inv_agent; auto.
Qed.

Definition good (p : proc) : Prop := match p_main p with Exited => gone p | _ => proc_inv p end.

Lemma good_live p : proc_inv p -> p_main p ≠ Exited -> good p.
Proof. unfold good. by destruct (p_main p). Qed.

Lemma inv_vx_attaches e l r p p' :
  proc_inv p -> p_vxT p = VxList ((e, l) :: r) -> p_vxStop p = false -> link_roles l ->
  on_vx (attach_existing (vx_config o) [(e, l)]) p = Ret (tt, p') ->
  proc_inv (set_vxT (VxList r) (p_vxStop p') p').
Proof.
  intros Hinv HT Hw Hl Hrun.
  destruct (attach_existing_spec (vx_config o) (others p) [(e, l)] (vx_view p) (pi_vx p Hinv)) as (v & Hv & Hvi & Hk).
  { apply Forall_singleton. intros Hx. destruct (Hl Hx). by apply vx_clean. }
  unfold on_vx in Hrun. rewrite Hv in Hrun. injection Hrun as <-.
  apply (inv_vx p v (VxList r)); [done | done | congruence | done |].
  intros k [?|(q & ->%list_elem_of_singleton & Hx & ->)]%Hk; [by left | right]. by apply Hl.
Qed.

Lemma inv_vx_updates e ty l p p' :
  proc_inv p -> p_vxT p = VxLoop -> p_vxStop p = false -> (forall l', l = Some l' -> link_roles l') ->
  on_vx (on_update (vx_config o) e ty l) p = Ret (tt, p') -> proc_inv p' /\ p_main p' = p_main p.
Proof.
  intros Hinv HT Hw Hl Hrun.
  destruct (on_update_spec (vx_config o) (others p) e ty l (vx_view p) (pi_vx p Hinv)) as (v & Hv & Hvi & Hk).
  { intros l' -> Hx. destruct (Hl l' eq_refl Hx). by apply vx_clean. }
  unfold on_vx in Hrun. rewrite Hv in Hrun. injection Hrun as <-. split; [|done].
  assert (set_vx v p = set_vxT VxLoop (p_vxStop p) (set_vx v p)) as -> by (unfold set_vxT, set_vx; cbn; by rewrite HT).
  apply inv_vx; [done | done | congruence | done |].
  intros k [?|(l' & -> & Hx & ->)]%Hk; [by left | right]. by apply (Hl l').
Qed.

Lemma inv_vx_end sg e p p' :
  proc_inv p -> p_vxT p = VxLoop -> sg = Stop \/ sg = ChanClosed ->
  on_vx (vx_loop (vx_config o) [(e, sg)]) p = Ret (false, p') ->
  proc_inv (set_vxT VxDone (p_vxStop p') p').
Proof.
  intros Hinv HT Hsg Hrun.
  destruct (closeAll_spec _ _ (vx_view p) (pi_vx p Hinv)) as (v & Hv & Hrest).
  assert (vx_loop (vx_config o) [(e, sg)] (vx_view p) = Ret (false, v)) as Hl.
  { destruct Hsg as [-> | ->]; cbn [vx_loop]; by rewrite (st_bind_ret _ _ _ _ _ Hv). }
  unfold on_vx in Hrun. rewrite Hl in Hrun. injection Hrun as <-.
  apply (inv_vx_stops p v VxDone); [done | congruence | done].
Qed.

Lemma step_inv p p' :
  proc_step o base true tap_roles link_roles p p' -> p_main p ≠ Exited -> proc_inv p -> listed p -> good p'.
Proof.
  intros Hstep Hm Hinv Hls.
  destruct Hstep as [m r p p' Hr Hrun|m p a Hr Hrun|d l p p' Hu E Hun Hrun|p Hu E|p q q' Hne Hq Hs
    |p Hne HT Hw|e ports p p' Hne HT Hw He Hrun|p Hne HT Hs|p Hne HT|links p Hne HT Hl
    |e l r p p' Hne HT Hw Hrun|p Hne HT|e ty l p p' Hne HT Hw Hl Hrun|sg e p p' Hne HT Hsg Hrun].
  - apply good_live; [by eapply inv_read |]. apply on_agent_Ret in Hrun as (a & _ & ->).
    cbn. by rewrite Hr.
  - injection Hrun as <-. apply good_live; [|done]. by apply (inv_main (set_agent (p_agent p) p)); destruct Hinv.
  - destruct (run_deferred_inv p d l Hinv E) as (p1 & H1 & Hi & Hmain & _); [congruence | done |].
    rewrite Hrun in H1. injection H1 as <-. apply good_live; [done | by rewrite Hmain, Hu].
  - by apply exit_gone.
  - apply good_live; [by eapply inv_ship | done].
  - apply good_live; [|done]. apply (inv_tapT p TapScan Hinv). congruence.
  - apply good_live; [eapply inv_scan; eauto |]. by apply on_taps_Ret in Hrun as (t & _ & ->).
  - apply good_live; [|done]. rewrite <- Hs. apply (inv_tapT p TapDone Hinv). congruence.
  - apply good_live; [|done]. apply (inv_vxT p VxDone Hinv). congruence.
  - apply good_live; [|done]. apply (inv_vxT p (VxList links) Hinv). congruence.
  - unfold listed in Hls. rewrite HT in Hls. apply Forall_cons in Hls as [Hl Hls].
    apply good_live; [by eapply inv_vx_attaches; eauto |]. by apply on_vx_Ret in Hrun as (v & _ & ->).
  - apply good_live; [|done]. apply (inv_vxT p VxLoop Hinv). congruence.
  - destruct (inv_vx_updates e ty l p p' Hinv HT (Hw eq_refl) Hl Hrun) as [? Hmain].
    apply good_live; [done | by rewrite Hmain].
  - assert (sg = Stop \/ sg = ChanClosed) as Hsg' by (destruct Hsg as [[? _]|?]; [by left | by right]).
    apply good_live; [exact (inv_vx_end sg e p p' Hinv HT Hsg' Hrun) |]. by apply on_vx_Ret in Hrun as (v & _ & ->).
Qed.

Lemma run_deferred_vxT d p p' : run_deferred d p = Ret (tt, p') -> p_vxT p' = p_vxT p.
Proof.
  destruct d; cbn [run_deferred]; try (by intros [= <-]).
  - unfold mbind, st_bind. intros H. destruct (on_agent (A := unit) _ p) as [[b p1]|] eqn:E; [|done].
    apply on_agent_Ret in E as (a & _ & ->). by injection H as <-.
  - intros (t & _ & ->)%on_taps_Ret. done.
  - intros (v & _ & ->)%on_vx_Ret. done.
Qed.

Lemma step_listed p p' :
  proc_step o base true tap_roles link_roles p p' -> listed p -> listed p'.
Proof.
  intros Hstep Hls.
  destruct Hstep as [m r p p' Hr Hrun|m p a Hr Hrun|d l p p' Hu E Hun Hrun|p Hu E|p q q' Hne Hq Hs
    |p Hne HT Hw|e ports p p' Hne HT Hw He Hrun|p Hne HT Hs|p Hne HT|links p Hne HT Hl
    |e l r p p' Hne HT Hw Hrun|p Hne HT|e ty l p p' Hne HT Hw Hl Hrun|sg e p p' Hne HT Hsg Hrun];
    unfold listed in *; cbn; try done.
  - by apply on_agent_Ret in Hrun as (a & _ & ->).
  - apply run_deferred_vxT in Hrun. rewrite Hrun. done.
  - by apply on_taps_Ret in Hrun as (t & _ & ->).
  - rewrite HT in Hls. by apply Forall_cons in Hls as [_ ?].
  - apply on_vx_Ret in Hrun as (v & _ & ->). cbn. by rewrite HT.
Qed.

(** Every reachable state is live with its invariant, or gone. *)
Lemma reachable_good p0 p :
  proc_inv p0 -> p_main p0 ≠ Exited -> listed p0 ->
  proc_reachable o base true tap_roles link_roles p0 p -> good p /\ listed p.
Proof.
  intros Hi Hm Hl. induction 1 as [|p p' _ [Hg Hls] Hstep]; [by split; [apply good_live |] |].
  assert (p_main p ≠ Exited) as Hne by (by destruct Hstep; congruence).
  split; [|by eapply step_listed]. eapply step_inv; [done | done | | done].
  unfold good in Hg. by destruct (p_main p).
Qed.

(** *** The way out *)

Abbreviation reach := (proc_reachable o base true tap_roles link_roles).

Lemma reach_trans p1 p2 p3 : reach p1 p2 -> reach p2 p3 -> reach p1 p3.
Proof. intros H1 H2. induction H2; [done |]. by eapply proc_next. Qed.

Lemma reach_step p1 p2 p3 :
  proc_step o base true tap_roles link_roles p1 p2 -> reach p2 p3 -> reach p1 p3.
Proof. intros H1. apply reach_trans. eapply proc_next; [apply proc_here | done]. Qed.

(** The shipper of a closed queue gets to its end. *)
Lemma ship_out n p q :
  p_main p = Unwinding -> ship (em (p_agent p)) = Some q -> closed q = true ->
  (2 * length (queue q) + length (option_list (sending q)) <= n)%nat ->
  exists a, reach p (set_agent a p) /\ exists q', ship (em a) = Some q' /\ finished q' = true.
Proof.
  revert p q. induction n as [|n IH]; intros p q Hm Hq Hc Hn.
  - exists (p_agent p). split; [destruct p; apply proc_here |]. exists q. split; [done |]. unfold finished.
    destruct q as [[|x qu] cl [y|] po]; cbn in *; lia.
  - destruct (shipStep q) as [q1|] eqn:E.
    + set (a1 := mkAgent (mkEmitter (lsCache (em (p_agent p))) (stdout (em (p_agent p))) (Some q1)
        (otlp (em (p_agent p)))) (ifNames (p_agent p)) (readErrors (p_agent p)) (parseErrors (p_agent p))).
      destruct (IH (set_agent a1 p) q1) as (a & Ha & Hf).
      * done.
      * done.
      * unfold shipStep in E. destruct q as [[|x qu] cl [y|] po]; cbn in *; by simplify_eq/=.
      * unfold shipStep in E. destruct q as [[|x qu] cl [y|] po]; cbn in *; simplify_eq/=; lia.
      * exists a. split; [|done]. eapply reach_step; [|exact Ha]. eapply ship_step; [congruence | done..].
    + exists (p_agent p). split; [destruct p; apply proc_here |]. exists q. split; [done |].
      unfold shipStep in E. unfold finished. destruct q as [[|x qu] cl [y|] po]; cbn in *; by rewrite ?Hc.
Qed.

Fixpoint weight (l : list deferred) : nat :=
  match l with [] => 0 | d :: r => (match d with CloseEmitter => 2 | _ => 1 end + weight r)%nat end.

(** The next deferred call gets its turn. *)
Lemma unblocks p d l :
  proc_inv p -> p_main p = Unwinding -> p_stack p = d :: l ->
  exists a, reach p (set_agent a p) /\ unblocked d (set_agent a p) = true.
Proof.
  intros Hinv Hm E.
  assert (d ≠ WaitShip \/ d = WaitShip) as [Hd| ->] by (destruct d; auto).
  { exists (p_agent p). split; [destruct p; apply proc_here | by destruct d]. }
  cbn. destruct (ship (em (p_agent p))) as [q|] eqn:Eq.
  - assert (closed q = true) as Hc.
    { destruct (pi_ship p Hinv) as [Hin|[Hs _]]; [|unfold shut in Hs; by rewrite Eq in Hs].
      pose proof (pi_order p Hinv) as Ho. rewrite E in *. destruct Ho as [Ho _].
      by apply elem_of_cons in Hin as [?|?]. }
    destruct (ship_out _ p q Hm Eq Hc (reflexivity _)) as (a & Ha & q' & Hq' & Hf).
    exists a. split; [done |]. by rewrite Hq'.
  - exists (p_agent p). split; [destruct p; apply proc_here | by rewrite Eq].
Qed.

Lemma way_out_exists n p :
  (weight (p_stack p) <= n)%nat -> proc_inv p -> listed p -> p_main p = Unwinding ->
  exists p', reach p p' /\ p_main p' = Exited.
Proof.
  revert p. induction n as [|n IH]; intros p Hn Hinv Hls Hm.
  all: destruct (p_stack p) as [|d l] eqn:E.
  1,3: exists (kill base p); split; [eapply proc_next; [apply proc_here | by apply main_exit] | done].
  { cbn in Hn. destruct d; lia. }
  destruct (unblocks p d l Hinv Hm E) as (a & Ha & Hu).
  assert (good (set_agent a p) /\ listed (set_agent a p)) as [Hinv2 Hls2].
  { apply (reachable_good p _ Hinv); [congruence | done | exact Ha]. }
  unfold good in Hinv2. cbn in Hinv2. rewrite Hm in Hinv2.
  destruct (run_deferred_inv (set_agent a p) d l Hinv2 E) as (p3 & H3 & Hinv3 & Hm3 & Hs3);
    [cbn; congruence | done |].
  assert (proc_step o base true tap_roles link_roles (set_agent a p) p3) as Hstep
    by (by eapply main_deferred).
  destruct (IH p3) as (p' & Hp' & Hex).
  - rewrite Hs3. cbn in Hn. destruct d; cbn in *; lia.
  - done.
  - by eapply step_listed.
  - by rewrite Hm3.
  - exists p'. split; [|done]. eapply reach_trans; [exact Ha |]. by eapply reach_step.
Qed.


Lemma run_reaches e k err p0 p :
  hooks k ≡ₚ base ->
  (forall i, ifByName (r_host e) (ifaceName o) = Some i -> ro i = RStatic) ->
  run_begin e o (proc0 k) = Ret (err, p0) -> reach p0 p -> good p /\ listed p.
Proof.
  intros Hk Hro H0 Hp. destruct (run_begin_spec e k Hk Hro) as (err' & p0' & H0' & Hinv & Hl & Hm). rewrite H0 in H0'.
  injection H0' as <- <-.
  apply (reachable_good p0); [done | by rewrite Hm; destruct err | done | done].
Qed.
End run.

(** ** The theorems *)



(** The command line is checked before anything is touched.  The agent runs only
    with something to attach to, never asks for the TC companion without XDP,
    with one of the three interface types and addresses that parse; watch modes
    never parse frames as VXLAN carriers, whatever was asked; the type is printed
    back as it was given except for that override; and the configuration it puts
    in the eBPF map is that of the flags.  Every other command line is refused. *)
Theorem options_checked hostname f :
  match main_opts hostname f with
  | Some o =>
      (f_iface f ≠ ""%string \/ f_watch f = true \/ f_watchVXLAN f = true)
      /\ (f_xdpTCEgress f = true -> f_xdp f = true)
      /\ parseLocalIPs (f_localIP f) = Some (o_localIPs o)
      /\ (watch o = true \/ watchVXLAN o = true -> ifType o ≠ IfaceVXLAN)
      /\ (ifaceTypeString (ifType o) = f_ifaceType f
          \/ f_ifaceType f = "vxlan"%string /\ ifType o = IfaceAuto
             /\ (f_watch f = true \/ f_watchVXLAN f = true))
      /\ nodeID o = (if bool_decide (f_nodeID f = ""%string) then hostname else f_nodeID f)
      /\ tf_config o = mkTfConfig (ifType o) (Z.b2z (f_respond f)) (Z.b2z (f_tcpRespond f))
  | None =>
      (f_iface f = ""%string /\ f_watch f = false /\ f_watchVXLAN f = false)
      \/ (f_xdpTCEgress f = true /\ f_xdp f = false)
      \/ f_ifaceType f ∉ ["auto"; "regular"; "vxlan"]%string
      \/ parseLocalIPs (f_localIP f) = None
  end.
Proof.
  assert (forall t, iface_type (f_ifaceType f) = Some t -> ifaceTypeString t = f_ifaceType f) as Hty.
  { intros t. generalize (f_ifaceType f). intros s. unfold iface_type.
    do 3 (case_bool_decide; [subst; by intros [= <-] |]). done. }
  assert (forall t, iface_type (f_ifaceType f) = Some t -> t = IfaceVXLAN -> f_ifaceType f = "vxlan"%string) as Hvx.
  { intros t Ht ->. by rewrite <- (Hty _ Ht). }
  assert (iface_type (f_ifaceType f) = None -> f_ifaceType f ∉ ["auto"; "regular"; "vxlan"]%string) as Hno.
  { unfold iface_type. do 3 (case_bool_decide; [done |]). intros _. rewrite !not_elem_of_cons.
    split_and!; [done..| apply not_elem_of_nil]. }
  assert (forall s, is_set s = false <-> s = ""%string) as Hset.
  { intros s. unfold is_set. by rewrite negb_false_iff, bool_decide_eq_true. }
  unfold main_opts. destruct (_ && _) eqn:E1.
  { left. apply andb_prop in E1 as [[H1 H2]%andb_prop H3]. rewrite negb_true_iff in H1, H2, H3.
    by apply Hset in H1. }
  assert (f_iface f ≠ ""%string \/ f_watch f = true \/ f_watchVXLAN f = true) as H1.
  { destruct (f_watch f), (f_watchVXLAN f); auto. left. intros H%Hset. by rewrite H in E1. }
  clear E1. destruct (_ && _) eqn:E2.
  { right; left. by apply andb_prop in E2 as [? ?%negb_true_iff]. }
  destruct (iface_type (f_ifaceType f)) as [t|]; cbn [mbind option_bind]; [|right; right; left; auto].
  destruct (parseLocalIPs (f_localIP f)) as [ips|]; cbn [mbind option_bind]; [|by right; right; right].
  cbn. split_and!; [done | | done | | | | by destruct (f_respond f), (f_tcpRespond f)].
  - intros H. rewrite H in E2. by destruct (f_xdp f).
  - intros Hw. assert (f_watch f || f_watchVXLAN f = true) as -> by (destruct Hw as [-> | ->]; [done | apply orb_true_r]).
    cbn. destruct (Z.eqb_spec t IfaceVXLAN); done.
  - destruct (f_watch f || f_watchVXLAN f) eqn:Ew; cbn; [|left; auto].
    destruct (Z.eqb_spec t IfaceVXLAN); [right | left; auto]. apply orb_prop in Ew. split_and!; eauto.
  - unfold is_set. by case_bool_decide.
Qed.

(** ** A run, and an unlucky one *)

Definition demo_flags : flags :=
  mkFlags "eth0" "auto" "" true true "10.0.0.9" true false "" "" "az1" "http://c" "" false false.
Definition demo_opts : opts :=
  default (mkOpts "" 0 "" false false [] false false "" [] "" "" "" false false) (main_opts "node1" demo_flags).

Definition demo_ifs (n : string) : option Z :=
  if bool_decide (n = "eth0"%string) then Some 3 else if bool_decide (n = "tap0"%string) then Some 10 else None.
Definition tap_ifs (n : string) : option Z := if bool_decide (n = "tap0"%string) then Some 10 else None.
Definition demo_role (i : Z) : role := if i =? 3 then RStatic else if i =? 10 then RTap "tap0" else RHost.

(** A host whose kernel has TCX or, with [cls], not. *)
Definition demo_host (ifs : string -> option Z) (cls : bool) : env :=
  mkEnv ifs (fun _ _ => None) (fun _ => None) cls (fun _ => true) (fun _ => true).
Definition demo_runEnv (cls : bool) : runEnv := mkRunEnv true true true true true (demo_host demo_ifs cls).
Definition demo_kernel : kernel := mkKernel [(2, XdpNative)] [].
Definition one_tap : option (list Port) := Some [mkPort "tap0" "" [[10; 0; 0; 1]]].

Definition started (cls : bool) : proc :=
  match run_begin (demo_runEnv cls) demo_opts (proc0 demo_kernel) with Ret (_, p) => p | Panic => proc0 demo_kernel end.

(** The states along a schedule, computed. *)
Definition after_scan (cls : bool) (p : proc) : proc :=
  match on_taps (reconcileOnce (tap_config demo_opts) (demo_host tap_ifs cls) one_tap) p with
  | Ret (_, p') => set_tapT TapIdle (p_tapStop p') p'
  | Panic => p
  end.
Definition after_close (p : proc) : proc := set_main Unwinding (set_agent (p_agent p) p).
Definition after_defer (p : proc) : proc :=
  match p_stack p with
  | d :: l => match run_deferred d (set_stack l p) with Ret (_, p') => p' | Panic => p end
  | [] => p
  end.
Fixpoint after_defers (n : nat) (p : proc) : proc :=
  match n with O => p | S n => after_defers n (after_defer p) end.

Lemma demo_tap_roles cls : tap_roles demo_role (demo_host tap_ifs cls).
Proof. intros n i. cbn. unfold tap_ifs. case_bool_decide; [subst; by intros [= <-] | done]. Qed.

Section demo_steps.
Context (quiet : bool).
Abbreviation demo_reach :=
  (proc_reachable demo_opts (hooks demo_kernel) quiet (tap_roles demo_role) (link_roles demo_role)).

Lemma demo_close p0 p : demo_reach p0 p -> p_main p = Reading -> demo_reach p0 (after_close p).
Proof.
  intros H Hm. eapply proc_next; [exact H |].
  by apply (main_closed _ _ _ _ _ (mkMoment (mkTime 0 0) (fun _ => None) (fun _ => None))).
Qed.

Definition next_runs (p : proc) : bool :=
  match p_main p, p_stack p with
  | Unwinding, d :: l =>
      unblocked d p && match run_deferred d (set_stack l p) with Ret _ => true | Panic => false end
  | _, _ => false
  end.

Lemma demo_defer p0 p : demo_reach p0 p -> next_runs p = true -> demo_reach p0 (after_defer p).
Proof.
  intros H Hn. eapply proc_next; [exact H |]. unfold next_runs in Hn. destruct (p_main p) eqn:Hm; try done.
  unfold after_defer. destruct (p_stack p) as [|d l] eqn:E; [done |].
  apply andb_prop in Hn as [Hu Hr]. destruct (run_deferred d _) as [[[] p']|] eqn:Er; [|done].
  by eapply main_deferred.
Qed.

Lemma demo_scan cls p0 p :
  demo_reach p0 p -> p_main p ≠ Exited -> p_tapT p = TapScan -> may_work quiet (p_tapStop p) ->
  (exists p', on_taps (reconcileOnce (tap_config demo_opts) (demo_host tap_ifs cls) one_tap) p = Ret (tt, p')) ->
  demo_reach p0 (after_scan cls p).
Proof.
  intros H Hm HT Hw [p' Hp']. eapply proc_next; [exact H |]. unfold after_scan. rewrite Hp'.
  eapply tap_scans; eauto. apply demo_tap_roles.
Qed.

Lemma demo_exit p0 p :
  demo_reach p0 p -> p_main p = Unwinding -> p_stack p = [] -> demo_reach p0 (kill (hooks demo_kernel) p).
Proof. intros H Hm Hs. eapply proc_next; [exact H | by apply main_exit]. Qed.
End demo_steps.

(** A scan, then the end: stop, closeAll, the emitter, the wait, --iface, the reader,
    the objects. *)
Definition demo_end : proc := kill (hooks demo_kernel) (after_defers 7 (after_close (after_scan false (started false)))).

Lemma demo_run :
  proc_reachable demo_opts (hooks demo_kernel) true (tap_roles demo_role) (link_roles demo_role)
    (started false) demo_end.
Proof.
  unfold demo_end. cbn [after_defers]. apply demo_exit; [|vm_compute; reflexivity..].
  do 7 (apply demo_defer; [|vm_compute; reflexivity]).
  apply demo_close; [|vm_compute; reflexivity].
  apply demo_scan; [apply proc_here | vm_compute; discriminate | vm_compute; reflexivity | done |].
  eexists. vm_compute. reflexivity.
Qed.

Lemma demo_host_role i h : (i, h) ∈ hooks demo_kernel -> demo_role i = RHost.
Proof. cbn. intros [= -> _]%list_elem_of_singleton. reflexivity. Qed.

Lemma demo_static cls i : ifByName (r_host (demo_runEnv cls)) (ifaceName demo_opts) = Some i -> demo_role i = RStatic.
Proof. vm_compute. by intros [= <-]. Qed.



(** Without the second assumption programs are left behind.  On a kernel without
    TCX, a scan that is under way when the agent is told to stop attaches the taps
    it found after closeAll has released the others: the manager is never closed
    again, and the two filters of tap0 stay on its qdisc after the process has
    exited (a link would have been closed with it). *)
Theorem shutdown_leaves_filters :
  exists p,
    proc_reachable demo_opts (hooks demo_kernel) false (tap_roles demo_role) (link_roles demo_role)
      (started true) p
    /\ p_main p = Exited /\ p_tapT p = TapIdle /\ p_tapStop p = true
    /\ hooks (kern (p_taps p)) = [(2, XdpNative); (10, ClsIngress); (10, ClsEgress)].
Proof.
  exists (kill (hooks demo_kernel) (after_defers 5 (after_scan true (after_defers 2 (after_close (started true)))))).
  split; [|vm_compute; by split_and!].
  cbn [after_defers]. apply demo_exit; [|vm_compute; reflexivity..].
  do 5 (apply demo_defer; [|vm_compute; reflexivity]).
  apply demo_scan; [|vm_compute; discriminate | vm_compute; reflexivity | done | eexists; vm_compute; reflexivity].
  do 2 (apply demo_defer; [|vm_compute; reflexivity]).
  apply demo_close; [apply proc_here | vm_compute; reflexivity].
Qed.
