(* ===== verification/Bpf.v ===== *)
(** bpf/traceflow.c and bpf/traceflow.h: the eBPF program that spots marked probes
    at the TC and XDP hooks of an interface, submits a record per probe to the ring
    buffer, and drops the probes the agent answers itself.

    A pointer into the packet is its offset from [data]; [data_end] is the length.
    A load from the packet outside of [data, data_end) is [Panic]. *)
From stdpp Require Export gmap.
From S2P Require Import Prelude Observation AgentMain.

Local Open Scope Z_scope.

(** ** traceflow.h *)

Definition TF_TOS : Z := 0xF8.
Definition TF_MAGIC : Z := 0x54464C4F.
Definition TF_TTL_MAX : Z := 255.
Definition TF_VXLAN_PORT : Z := 4789.
Definition TF_IFACE_REGULAR : Z := 0.
Definition TF_IFACE_VXLAN : Z := 1.
Definition TF_IFACE_AUTO : Z := 2.
Definition TF_DIR_INGRESS : Z := 0.
Definition TF_DIR_EGRESS : Z := 1.
Definition TF_ACT_FORWARDED : Z := 0.
Definition TF_ACT_INTERCEPTED : Z := 1.
Definition TF_PROTO_ICMP : Z := 1.
Definition TF_PROTO_TCP : Z := 6.
Definition TF_PROTO_UDP : Z := 17.
Definition TF_PROTO_ICMPV6 : Z := 58.

(** sizeof(struct traceflow_meta). *)
Definition meta_size : nat := 30.

Definition TC_ACT_OK : Z := 0.
Definition TC_ACT_SHOT : Z := 2.
Definition XDP_DROP : Z := 1.
Definition XDP_PASS : Z := 2.
Definition TF_MF_DELIVER : Z := 0x01.
Definition TF_MF_NEED_RESPONSE : Z := 0x02.
Definition ETH_P_IP : Z := 0x0800.
Definition ETH_P_IPV6 : Z := 0x86DD.
Definition ETH_P_8021Q : Z := 0x8100.
Definition ETH_P_8021AD : Z := 0x88A8.

(** ** State *)

(** The observation on the stack and the flags, both passed by pointer. *)
Record attempt := mkAttempt { obs : Raw; mflags : Z }.

(** [struct observation obs = {}], with the two fields handle sets first. *)
Definition new_obs (direction ifindex : Z) : Raw :=
  mkRaw 0 0 (make 16) (make 16) (make 16) 0 ifindex 0 0 0 0 0 direction 0 0 0 0.

(** Assignments to several fields. *)
Definition put_l2 (ity vni vid : Z) (a : attempt) : attempt :=
  let o := obs a in
  mkAttempt (mkRaw (MetaTimestamp o) (CaptureNS o) (RawID o) (RawSrcIP o) (RawDstIP o) vni (IfIndex o)
    (RawSrcPort o) (RawDstPort o) vid (IPVersion o) (Hop o) (Direction o) (Action o) (Protocol o)
    (RawTCPFlags o) ity) (mflags a).
Definition put_l3 (ver : Z) (src dst : bytes) (hop : Z) (a : attempt) : attempt :=
  let o := obs a in
  mkAttempt (mkRaw (MetaTimestamp o) (CaptureNS o) (RawID o) src dst (VNI o) (IfIndex o)
    (RawSrcPort o) (RawDstPort o) (VLANID o) ver hop (Direction o) (Action o) (Protocol o)
    (RawTCPFlags o) (RawIfaceType o)) (mflags a).
Definition put_l4 (ts : Z) (id : bytes) (sport dport fl proto mf : Z) (a : attempt) : attempt :=
  let o := obs a in
  mkAttempt (mkRaw ts (CaptureNS o) id (RawSrcIP o) (RawDstIP o) (VNI o) (IfIndex o)
    sport dport (VLANID o) (IPVersion o) (Hop o) (Direction o) (Action o) proto
    fl (RawIfaceType o)) mf.
Definition put_vni (vni : Z) (o : Raw) : Raw :=
  mkRaw (MetaTimestamp o) (CaptureNS o) (RawID o) (RawSrcIP o) (RawDstIP o) vni (IfIndex o)
    (RawSrcPort o) (RawDstPort o) (VLANID o) (IPVersion o) (Hop o) (Direction o) (Action o) (Protocol o)
    (RawTCPFlags o) TF_IFACE_VXLAN.
Definition put_action (act ns : Z) (o : Raw) : Raw :=
  mkRaw (MetaTimestamp o) ns (RawID o) (RawSrcIP o) (RawDstIP o) (VNI o) (IfIndex o)
    (RawSrcPort o) (RawDstPort o) (VLANID o) (IPVersion o) (Hop o) (Direction o) act (Protocol o)
    (RawTCPFlags o) (RawIfaceType o).

(** ** The parsers *)

Section packet.
(** The bytes from [data] to [data_end]. *)
Context (data : bytes).

(** [(void * )(p + n) > data_end]. *)
Definition past (p n : nat) : bool := (length data <? p + n)%nat.

(** A load of [n] bytes in network order, in host order (x86-64), and a copy. *)
Definition ld_be (n p : nat) : go Z := w ← slice data p (p + n); get_be n w.
Definition ld_le (n p : nat) : go Z := w ← slice data p (p + n); get_le n w.
Definition ld_bytes (n p : nat) : go bytes := slice data p (p + n).

(** The transport header of parse_l4_and_meta: payload, ports, flags. *)
Definition l4_header (l4 : nat) (proto : Z) : go (option (nat * Z * Z * Z)) :=
  if (proto =? TF_PROTO_ICMP) || (proto =? TF_PROTO_ICMPV6) then
    if past l4 8 then mret None else mret (Some ((l4 + 8)%nat, 0, 0, 0))
  else if proto =? TF_PROTO_UDP then
    if past l4 8 then mret None
    else
      sport ← ld_be 2 (l4 + 0);
      dport ← ld_be 2 (l4 + 2);
      mret (Some ((l4 + 8)%nat, sport, dport, 0))
  else if proto =? TF_PROTO_TCP then
    if past l4 20 then mret None
    else
      sport ← ld_be 2 (l4 + 0);
      dport ← ld_be 2 (l4 + 2);
      tcp_flags ← index data (l4 + 13);
      doff_res ← index data (l4 + 12);
      let doff := (Z.to_nat (Z.shiftr doff_res 4) * 4)%nat in
      if (doff <? 20)%nat then mret None
      else mret (Some ((l4 + doff)%nat, sport, dport, tcp_flags))
  else mret None.

Definition parse_l4_and_meta (l4 : nat) (proto : Z) : st attempt bool :=
  h ← lift (l4_header l4 proto);
  match h with
  | None => mret false
  | Some (payload, sport, dport, tcp_flags) =>
      if past payload meta_size then mret false
      else
        magic ← lift (ld_be 4 (payload + 0));
        if negb (magic =? TF_MAGIC) then mret false
        else
          ts ← lift (ld_le 8 (payload + 22));
          id ← lift (ld_bytes 16 (payload + 4));
          deliver ← lift (index data (payload + 20));
          need ← lift (index data (payload + 21));
          let mf := Z.lor (if deliver =? 0 then 0 else TF_MF_DELIVER)
                          (if need =? 0 then 0 else TF_MF_NEED_RESPONSE) in
          _ ← modS (put_l4 ts id sport dport tcp_flags proto mf);
          mret true
  end.

Definition parse_ipv4 (l3 : nat) : st attempt bool :=
  if past l3 20 then mret false
  else
    tos ← lift (index data (l3 + 1));
    if negb (Z.land tos 0xFC =? TF_TOS) then mret false
    else
      b0 ← lift (index data (l3 + 0));
      if negb (Z.shiftr b0 4 =? 4) then mret false
      else
        let ihl := (Z.to_nat (Z.land b0 0x0F) * 4)%nat in
        if (ihl <? 20)%nat then mret false
        else
          let l4 := (l3 + ihl)%nat in
          if past l4 0 then mret false
          else
            src ← lift (ld_bytes 4 (l3 + 12));
            dst ← lift (ld_bytes 4 (l3 + 16));
            ttl ← lift (index data (l3 + 8));
            _ ← modS (put_l3 4 (src ++ make 12) (dst ++ make 12) (u8 (TF_TTL_MAX - ttl)));
            proto ← lift (index data (l3 + 9));
            parse_l4_and_meta l4 proto.

(** The loop of parse_ipv6 over at most [n] extension headers. *)
Fixpoint ext_loop (n : nat) (nexthdr : Z) (cur : nat) : go (option (Z * nat)) :=
  match n with
  | O => mret (Some (nexthdr, cur))
  | S n =>
      if (nexthdr =? TF_PROTO_ICMPV6) || (nexthdr =? TF_PROTO_TCP) || (nexthdr =? TF_PROTO_UDP)
      then mret (Some (nexthdr, cur))
      else if (nexthdr =? 0) || (nexthdr =? 43) || (nexthdr =? 60) then
        if past cur 2 then mret None
        else
          nh ← index data (cur + 0);
          len ← index data (cur + 1);
          let cur := (cur + (Z.to_nat len + 1) * 8)%nat in
          if past cur 0 then mret None else ext_loop n nh cur
      else if nexthdr =? 44 then
        if past cur 8 then mret None
        else
          off ← ld_be 2 (cur + 2);
          if negb (Z.land off 0xFFF8 =? 0) then mret None
          else
            nh ← index data (cur + 0);
            ext_loop n nh (cur + 8)
      else mret (Some (nexthdr, cur))
  end.

Definition parse_ipv6 (l3 : nat) : st attempt bool :=
  if past l3 40 then mret false
  else
    b0 ← lift (index data (l3 + 0));
    if negb (Z.shiftr b0 4 =? 6) then mret false
    else
      b1 ← lift (index data (l3 + 1));
      let tc := Z.lor (u8 (Z.shiftl (Z.land b0 0x0F) 4)) (Z.shiftr b1 4) in
      if negb (Z.land tc 0xFC =? TF_TOS) then mret false
      else
        src ← lift (ld_bytes 16 (l3 + 8));
        dst ← lift (ld_bytes 16 (l3 + 24));
        hl ← lift (index data (l3 + 7));
        _ ← modS (put_l3 6 src dst (u8 (TF_TTL_MAX - hl)));
        nexthdr ← lift (index data (l3 + 6));
        e ← lift (ext_loop 4 nexthdr (l3 + 40));
        match e with
        | None => mret false
        | Some (proto, l4) => parse_l4_and_meta l4 proto
        end.

(** The loop of parse_l2 over the VLAN tags: EtherType, VID, cursor. *)
Fixpoint tag_loop (n : nat) (proto vid : Z) (cur : nat) : go (option (Z * Z * nat)) :=
  match n with
  | O => mret (Some (proto, vid, cur))
  | S n =>
      if (proto =? ETH_P_8021Q) || (proto =? ETH_P_8021AD) then
        if past cur 4 then mret None
        else
          vid ← (if vid =? 0 then tci ← ld_be 2 (cur + 0); mret (Z.land tci 0x0FFF) else mret vid);
          proto ← ld_be 2 (cur + 2);
          tag_loop n proto vid (cur + 4)
      else tag_loop n proto vid cur
  end.

Definition parse_l2 (p : nat) : go (option (Z * Z * nat)) :=
  if past p 14 then mret None
  else
    proto ← ld_be 2 (p + 12);
    tag_loop 2 proto 0 (p + 14).

Definition parse_l3 (l3 : nat) (ethertype : Z) : st attempt bool :=
  if ethertype =? ETH_P_IP then parse_ipv4 l3
  else if ethertype =? ETH_P_IPV6 then parse_ipv6 l3
  else mret false.

(** The outer IP header of parse_vxlan: where the UDP header is. *)
Definition outer_udp (ol3 : nat) (oetype : Z) : go (option nat) :=
  if oetype =? ETH_P_IP then
    if past ol3 20 then mret None
    else
      proto ← index data (ol3 + 9);
      if negb (proto =? TF_PROTO_UDP) then mret None
      else
        b0 ← index data (ol3 + 0);
        let oihl := (Z.to_nat (Z.land b0 0x0F) * 4)%nat in
        if (oihl <? 20)%nat then mret None else mret (Some (ol3 + oihl)%nat)
  else if oetype =? ETH_P_IPV6 then
    if past ol3 40 then mret None
    else
      nh ← index data (ol3 + 6);
      if negb (nh =? TF_PROTO_UDP) then mret None else mret (Some (ol3 + 40)%nat)
  else mret None.

Definition parse_vxlan : st attempt bool :=
  o ← lift (parse_l2 0);
  match o with
  | None => mret false
  | Some (oetype, _, ol3) =>
      u ← lift (outer_udp ol3 oetype);
      match u with
      | None => mret false
      | Some oudp =>
          if past oudp 8 then mret false
          else
            dport ← lift (ld_be 2 (oudp + 2));
            if negb (dport =? TF_VXLAN_PORT) then mret false
            else
              let vx := (oudp + 8)%nat in
              if past vx 8 then mret false
              else
                flags ← lift (ld_be 4 (vx + 0));
                if Z.land flags 0x08000000 =? 0 then mret false
                else
                  w ← lift (ld_be 4 (vx + 4));
                  let vni := Z.shiftr w 8 in
                  i ← lift (parse_l2 (vx + 8));
                  match i with
                  | None => mret false
                  | Some (ietype, ivid, il3) =>
                      _ ← modS (put_l2 TF_IFACE_VXLAN vni ivid);
                      parse_l3 il3 ietype
                  end
      end
  end.

Definition parse_regular (skb_vlan : Z) : st attempt bool :=
  o ← lift (parse_l2 0);
  match o with
  | None => mret false
  | Some (etype, vid, l3) =>
      let vid := if vid =? 0 then skb_vlan else vid in
      _ ← modS (put_l2 TF_IFACE_REGULAR 0 vid);
      parse_l3 l3 etype
  end.

(** The mode selection, the same text in handle and in traceflow_xdp. *)
Definition parse_modes (mode skb_vlan : Z) : st attempt bool :=
  matched ← (if (mode =? TF_IFACE_VXLAN) || (mode =? TF_IFACE_AUTO) then parse_vxlan else mret false);
  if negb matched && ((mode =? TF_IFACE_REGULAR) || (mode =? TF_IFACE_AUTO))
  then parse_regular skb_vlan else mret matched.
End packet.

(** ** The program *)

(** The maps: the values of a lookup in config_map, the two hash maps, the records
    submitted to the ring buffer, and the counters of this CPU. *)
Record maps := mkMaps {
  config_map : option tfConfig;
  iface_vni : gmap Z Z;
  local_ips : gmap bytes Z;
  events : list Raw;
  stat_observed : Z;
  stat_ringbuf_full : Z
}.

Definition submit (o : Raw) (m : maps) : maps :=
  mkMaps (config_map m) (iface_vni m) (local_ips m) (events m ++ [o]) (u64 (stat_observed m + 1))
    (stat_ringbuf_full m).
Definition ring_full (m : maps) : maps :=
  mkMaps (config_map m) (iface_vni m) (local_ips m) (events m) (stat_observed m)
    (u64 (stat_ringbuf_full m + 1)).

(** What the program reads of the socket buffer; [sk_tunnel] is the tunnel id
    bpf_skb_get_tunnel_key gives, [None] when it fails. *)
Record skb := mkSkb {
  sk_data : bytes; sk_ifindex : Z; sk_vlan_present : bool; sk_vlan_tci : Z; sk_tunnel : option Z
}.
Record xdp_md := mkXdp { xd_data : bytes; xd_ifindex : Z }.

Definition dst_is_local (m : maps) (o : Raw) : bool := bool_decide (is_Some (local_ips m !! RawDstIP o)).

(** The VNI of the device. *)
Definition device_vni (m : maps) (ifidx : Z) (o : Raw) : Raw :=
  if VNI o =? 0 then match iface_vni m !! ifidx with Some v => put_vni v o | None => o end else o.

(** The VNI of the tunnel key. *)
Definition tunnel_vni (tk : option Z) (o : Raw) : Raw :=
  if VNI o =? 0 then
    match tk with Some id => if id =? 0 then o else put_vni id o | None => o end
  else o.

Definition do_drop (m : maps) (cfg : tfConfig) (mf : Z) (o : Raw) : bool :=
  has_bit mf TF_MF_NEED_RESPONSE && negb (has_bit mf TF_MF_DELIVER) && dst_is_local m o
  && negb (RawIfaceType o =? TF_IFACE_VXLAN) && negb (c_Respond cfg =? 0)
  && (negb (Protocol o =? TF_PROTO_TCP) || negb (c_TCPRespond cfg =? 0)).

Section hook.
(** bpf_ktime_get_ns(), and whether bpf_ringbuf_reserve has room. *)
Context (now : Z) (reserve : bool).

(** The end of handle and of traceflow_xdp: the verdict and the record. *)
Definition finish (cfg : tfConfig) (mf : Z) (o : Raw) : st maps bool :=
  m ← getS;
  let drop := do_drop m cfg mf o in
  let o := put_action (if drop then TF_ACT_INTERCEPTED else TF_ACT_FORWARDED) now o in
  _ ← modS (if reserve then submit o else ring_full);
  mret drop.

Definition handle (k : skb) (direction : Z) : st maps Z :=
  m ← getS;
  match config_map m with
  | None => mret TC_ACT_OK
  | Some cfg =>
      let skb_vlan := if sk_vlan_present k then u16 (Z.land (sk_vlan_tci k) 0x0FFF) else 0 in
      '(matched, a) ← lift (parse_modes (sk_data k) (c_IfaceType cfg) skb_vlan
                              (mkAttempt (new_obs direction (sk_ifindex k)) 0));
      if negb matched then mret TC_ACT_OK
      else
        let o := tunnel_vni (sk_tunnel k) (device_vni m (sk_ifindex k) (obs a)) in
        drop ← finish cfg (mflags a) o;
        mret (if drop : bool then TC_ACT_SHOT else TC_ACT_OK)
  end.

Definition traceflow_ingress (k : skb) : st maps Z := handle k TF_DIR_INGRESS.
Definition traceflow_egress (k : skb) : st maps Z := handle k TF_DIR_EGRESS.

Definition traceflow_xdp (x : xdp_md) : st maps Z :=
  m ← getS;
  match config_map m with
  | None => mret XDP_PASS
  | Some cfg =>
      '(matched, a) ← lift (parse_modes (xd_data x) (c_IfaceType cfg) 0
                              (mkAttempt (new_obs TF_DIR_INGRESS (xd_ifindex x)) 0));
      if negb matched then mret XDP_PASS
      else
        let o := device_vni m (xd_ifindex x) (obs a) in
        drop ← finish cfg (mflags a) o;
        mret (if drop : bool then XDP_DROP else XDP_PASS)
  end.
End hook.
