(* ===== verification/BpfSpec.v ===== *)
(** The eBPF program as pure functions over the packet, in terms of the parsers of
    the responder (ResponderSpec), and the equations that the program computes them
    without a load outside the packet. *)
From S2P Require Import Prelude TfMeta Pkt Responder ResponderSpec Wire Observation AgentMain Bpf.

Local Open Scope Z_scope.

(** The constants of traceflow.h are those of internal/tfmeta and internal/pkt. *)
Lemma header_constants :
  (TF_TOS, TF_MAGIC, TF_TTL_MAX, TF_VXLAN_PORT, meta_size) = (ToS, Magic, TTLMax, VXLANPort, MetaSize)
  /\ (TF_IFACE_REGULAR, TF_IFACE_VXLAN, TF_IFACE_AUTO) = (IfaceRegular, IfaceVXLAN, IfaceAuto)
  /\ (TF_PROTO_ICMP, TF_PROTO_TCP, TF_PROTO_UDP, TF_PROTO_ICMPV6)
     = (ProtoICMP, ProtoTCP, ProtoUDP, ProtoICMPv6).
Proof. done. Qed.

(** ** Loads relative to a pointer *)

Section loads.
Context (data : bytes) (p : nat).

Lemma past_at k n : (0 < k + n)%nat -> past data (p + k) n = (length (drop p data) <? k + n)%nat.
Proof. intros H. unfold past. rewrite length_drop. lia. Qed.

Lemma past_here n : (0 < n)%nat -> past data p n = (length (drop p data) <? n)%nat.
Proof. intros H. rewrite <- (Nat.add_0_r p) at 1. by rewrite past_at. Qed.

Lemma index_at i : (i < length (drop p data))%nat -> index data (p + i) = Ret (nth i (drop p data) 0).
Proof.
  rewrite length_drop. intros H. rewrite index_ok by lia. f_equal.
  assert (is_Some (data !! (p + i)%nat)) as [x Hx] by (apply lookup_lt_is_Some_2; lia).
  rewrite (nth_lookup_Some _ _ _ _ Hx). symmetry. apply nth_lookup_Some. by rewrite lookup_drop.
Qed.

Lemma ld_bytes_at n i :
  (i + n <= length (drop p data))%nat -> (0 < n)%nat ->
  ld_bytes data n (p + i) = Ret (take n (drop i (drop p data))).
Proof.
  rewrite length_drop. intros H Hn. unfold ld_bytes. rewrite slice_ok by lia.
  rewrite drop_drop. by replace (p + i + n - (p + i))%nat with n by lia.
Qed.

Lemma ld_be_at n i :
  (i + n <= length (drop p data))%nat -> (0 < n)%nat ->
  ld_be data n (p + i) = Ret (be_field (drop p data) i n).
Proof.
  intros H Hn. pose proof (ld_bytes_at n i H Hn) as E. unfold ld_be. unfold ld_bytes in E.
  rewrite E. cbn [mbind go_bind]. apply get_be_ok. rewrite length_take, length_drop. lia.
Qed.

Lemma ld_le_at n i :
  (i + n <= length (drop p data))%nat -> (0 < n)%nat ->
  ld_le data n (p + i) = Ret (le_decode (take n (drop i (drop p data)))).
Proof.
  intros H Hn. pose proof (ld_bytes_at n i H Hn) as E. unfold ld_le. unfold ld_bytes in E.
  rewrite E. cbn [mbind go_bind]. apply get_le_ok. rewrite length_take, length_drop. lia.
Qed.
End loads.

(** ** The transport header and the control block *)

(** The payload starts with a control block. *)
Definition marked_payload (p : bytes) : bool :=
  (MetaSize <=? length p)%nat && (be_decode (take 4 p) =? Magic).

Definition meta_flags (p : bytes) : Z :=
  Z.lor (if nth 20 p 0 =? 0 then 0 else TF_MF_DELIVER)
        (if nth 21 p 0 =? 0 then 0 else TF_MF_NEED_RESPONSE).

Definition port_at (pr : Z) (l4 : bytes) (i : nat) : Z :=
  if (pr =? ProtoUDP) || (pr =? ProtoTCP) then be_field l4 i 2 else 0.
Definition tcp_flags_of (pr : Z) (l4 : bytes) : Z := if pr =? ProtoTCP then nth 13 l4 0 else 0.

Definition l4_obs (pr : Z) (l4 : bytes) (a : attempt) : option attempt :=
  p ← payload_of pr l4;
  if marked_payload p then
    Some (put_l4 (le_decode (take 8 (drop 22 p))) (take 16 (drop 4 p))
            (port_at pr l4 0) (port_at pr l4 2) (tcp_flags_of pr l4) pr (meta_flags p) a)
  else None.

(** The header parser: the payload is found where the responder finds it; a TCP
    header that is longer than the packet has no room for a control block. *)
Lemma l4_header_spec data l4 pr :
  l4_header data l4 pr =
    Ret (if (pr =? ProtoTCP) && (20 <=? length (drop l4 data))%nat && (20 <=? doff_of (drop l4 data))%nat
         then Some ((l4 + doff_of (drop l4 data))%nat, be_field (drop l4 data) 0 2,
                    be_field (drop l4 data) 2 2, nth 13 (drop l4 data) 0)
         else if ((pr =? ProtoICMP) || (pr =? ProtoICMPv6) || (pr =? ProtoUDP))
                 && (8 <=? length (drop l4 data))%nat
         then Some ((l4 + 8)%nat, port_at pr (drop l4 data) 0, port_at pr (drop l4 data) 2, 0)
         else None).
Proof.
  unfold l4_header, port_at, TF_PROTO_ICMP, TF_PROTO_ICMPV6, TF_PROTO_UDP, TF_PROTO_TCP.
  unfold ProtoICMP, ProtoICMPv6, ProtoUDP, ProtoTCP. rewrite !past_here by lia.
  destruct ((pr =? 1) || (pr =? 58)) eqn:Ei.
  { replace (pr =? 6) with false by lia. replace (pr =? 17) with false by lia. cbn [andb orb].
    by destruct (Nat.ltb_spec (length (drop l4 data)) 8), (Nat.leb_spec 8 (length (drop l4 data))); try lia. }
  cbn [orb]. destruct (Z.eqb_spec pr 17) as [->|Hu].
  { change (17 =? 6) with false. cbn [andb orb].
    destruct (Nat.ltb_spec (length (drop l4 data)) 8), (Nat.leb_spec 8 (length (drop l4 data)));
      try done; try lia.
    by rewrite !ld_be_at by lia. }
  destruct (pr =? 6); cbn [andb orb]; [|done].
  destruct (Nat.ltb_spec (length (drop l4 data)) 20), (Nat.leb_spec 20 (length (drop l4 data)));
    try done; try lia.
  rewrite !ld_be_at, !index_at by lia. cbn [mbind go_bind andb]. fold (doff_of (drop l4 data)).
  by destruct (Nat.ltb_spec (doff_of (drop l4 data)) 20), (Nat.leb_spec 20 (doff_of (drop l4 data))); try lia.
Qed.

(** Reading the control block at [payload]. *)
Lemma meta_read {B} data payload (f : Z -> bytes -> Z -> Z -> st attempt B) a :
  (MetaSize <= length (drop payload data))%nat ->
  (ts ← lift (ld_le data 8 (payload + 22)); id ← lift (ld_bytes data 16 (payload + 4));
   d ← lift (index data (payload + 20)); n ← lift (index data (payload + 21)); f ts id d n) a
  = let p := drop payload data in
    f (le_decode (take 8 (drop 22 p))) (take 16 (drop 4 p)) (nth 20 p 0) (nth 21 p 0) a.
Proof.
  unfold MetaSize. intros H. rewrite ld_le_at, lift_ret_bind by lia.
  rewrite ld_bytes_at, lift_ret_bind by lia. by rewrite !index_at, !lift_ret_bind by lia.
Qed.

(** The result of an attempt whose state is kept on failure. *)
Definition result (o : option attempt) (a : attempt) : go (bool * attempt) :=
  Ret (match o with Some a' => (true, a') | None => (false, a) end).

Lemma parse_l4_spec data l4 pr a :
  parse_l4_and_meta data l4 pr a = result (l4_obs pr (drop l4 data) a) a.
Proof.
  unfold parse_l4_and_meta. rewrite l4_header_spec, lift_ret_bind.
  unfold l4_obs, payload_of, tcp_parts, tcp_flags_of. set (l := drop l4 data).
  assert (Hmeta : forall k sp dp fl,
    (0 < k)%nat ->
    (if past data (l4 + k) meta_size then mret false
     else magic ← lift (ld_be data 4 (l4 + k + 0));
       if negb (magic =? TF_MAGIC) then mret false
       else ts ← lift (ld_le data 8 (l4 + k + 22)); id ← lift (ld_bytes data 16 (l4 + k + 4));
         deliver ← lift (index data (l4 + k + 20)); need ← lift (index data (l4 + k + 21));
         _ ← modS (put_l4 ts id sp dp fl pr
                     (Z.lor (if deliver =? 0 then 0 else TF_MF_DELIVER)
                            (if need =? 0 then 0 else TF_MF_NEED_RESPONSE)));
         mret true) a
    = result (if marked_payload (drop k l)
              then Some (put_l4 (le_decode (take 8 (drop 22 (drop k l)))) (take 16 (drop 4 (drop k l)))
                           sp dp fl pr (meta_flags (drop k l)) a)
              else None) a).
  { intros k sp dp fl Hk. unfold marked_payload. subst l. rewrite drop_drop, past_here by (cbv; lia).
    unfold meta_size. fold MetaSize. set (m := drop (l4 + k) data).
    destruct (Nat.ltb_spec (length m) MetaSize), (Nat.leb_spec MetaSize (length m)); try lia; [done |].
    unfold MetaSize in *. rewrite ld_be_at, lift_ret_bind by (fold m; lia). fold m.
    change (be_field m 0 4) with (be_decode (take 4 m)). cbn [andb].
    change TF_MAGIC with Magic. destruct (be_decode (take 4 m) =? Magic); cbn [negb]; [|done].
    rewrite (meta_read data (l4 + k)) by (fold m; unfold MetaSize; lia). done. }
  unfold ProtoICMP, ProtoICMPv6, ProtoUDP, ProtoTCP in *.
  destruct (Z.eqb_spec pr 6) as [->|Ht].
  - change (6 =? 1) with false. change (6 =? 58) with false. change (6 =? 17) with false. cbn [andb orb].
    destruct (Nat.leb_spec 20 (length l)), (Nat.ltb_spec (length l) 20); try lia; cbn [andb orb]; [|done].
    destruct (Nat.leb_spec 20 (doff_of l)), (Nat.ltb_spec (doff_of l) 20); try lia; cbn [andb orb]; [|done].
    rewrite Hmeta by lia. destruct (Nat.ltb_spec (length l) (doff_of l)); [|done].
    cbn. unfold marked_payload. rewrite drop_ge by lia. done.
  - cbn [andb]. destruct ((pr =? 1) || (pr =? 58) || (pr =? 17)); cbn [andb]; [|done].
    destruct (Nat.leb_spec 8 (length l)), (Nat.ltb_spec (length l) 8); try lia; [|done].
    rewrite Hmeta by lia. done.
Qed.

(** ** The IP header *)

(** The walk over extension headers. *)
Fixpoint ext_walk (n : nat) (nh : Z) (l : bytes) : option (Z * bytes) :=
  match n with
  | O => Some (nh, l)
  | S n =>
      if (nh =? ProtoICMPv6) || (nh =? ProtoTCP) || (nh =? ProtoUDP) then Some (nh, l)
      else if (nh =? 0) || (nh =? 43) || (nh =? 60) then
        let k := ((Z.to_nat (nth 1 l 0%Z) + 1) * 8)%nat in
        if (length l <? k)%nat then None else ext_walk n (nth 0 l 0) (drop k l)
      else if nh =? 44 then
        if (length l <? 8)%nat || negb (Z.land (be_field l 2 2) 0xFFF8 =? 0) then None
        else ext_walk n (nth 0 l 0) (drop 8 l)
      else Some (nh, l)
  end.

Lemma ext_loop_spec data n nh cur :
  match ext_walk n nh (drop cur data) with
  | None => ext_loop data n nh cur = Ret None
  | Some (pr, l) => exists q, ext_loop data n nh cur = Ret (Some (pr, q)) /\ drop q data = l
  end.
Proof.
  revert nh cur. induction n as [|n IH]; intros nh cur; [by exists cur |].
  cbn [ext_loop ext_walk]. unfold TF_PROTO_ICMPV6, TF_PROTO_TCP, TF_PROTO_UDP, ProtoICMPv6, ProtoTCP, ProtoUDP.
  destruct (_ || (nh =? 17)); [by exists cur |].
  destruct (_ || (nh =? 60)).
  - set (k := ((Z.to_nat (nth 1 (drop cur data) 0%Z) + 1) * 8)%nat).
    rewrite past_here by lia. destruct (Nat.ltb_spec (length (drop cur data)) 2).
    { destruct (Nat.ltb_spec (length (drop cur data)) k); [done | lia]. }
    rewrite !index_at by lia. cbn [mbind go_bind]. fold k.
    rewrite past_at, Nat.add_0_r by lia. destruct (_ <? k)%nat; [done |].
    specialize (IH (nth 0 (drop cur data) 0) (cur + k)%nat). by rewrite <- drop_drop in IH.
  - destruct (nh =? 44); [|by exists cur].
    rewrite past_here by lia. destruct (Nat.ltb_spec (length (drop cur data)) 8); cbn [orb]; [done |].
    rewrite ld_be_at by lia. cbn [mbind go_bind]. destruct (negb _); [done |].
    rewrite index_at by lia. cbn [mbind go_bind].
    specialize (IH (nth 0 (drop cur data) 0) (cur + 8)%nat). by rewrite <- drop_drop in IH.
Qed.

(** Attempts that agree on what handle has set before the parsers. *)
Definition same_start (a a' : attempt) : Prop :=
  Direction (obs a) = Direction (obs a') /\ IfIndex (obs a) = IfIndex (obs a')
  /\ CaptureNS (obs a) = CaptureNS (obs a') /\ Action (obs a) = Action (obs a').

Lemma same_start_refl a : same_start a a.
Proof. done. Qed.

(** A parser that matches with [o], or fails with some other fields changed. *)
Definition parses (r : go (bool * attempt)) (o : option attempt) (a : attempt) : Prop :=
  match o with
  | Some a' => r = Ret (true, a')
  | None => exists a', r = Ret (false, a') /\ same_start a a'
  end.

Lemma parses_result o a a0 : same_start a0 a -> parses (result o a) o a0.
Proof. intros H. destruct o; [done | by exists a]. Qed.

Definition pad16 (v6 : bool) (ip : bytes) : bytes := if v6 then ip else ip ++ make 12.

Definition hop_of (v6 : bool) (l3 : bytes) : Z := u8 (TTLMax - nth (if v6 then 7 else 8)%nat l3 0).
Definition version (v6 : bool) : Z := if v6 then 6 else 4.

(** A marked IP packet with a control block. *)
Definition ip_obs (et : Z) (l3 : bytes) (a : attempt) : option attempt :=
  match marked_of et l3 with
  | Some (src, dst, pr, l4, v6) =>
      if Z.shiftr (nth 0 l3 0) 4 =? version v6 then
        '(pr, l4) ← (if v6 then ext_walk 4 pr l4 else Some (pr, l4));
        l4_obs pr l4 (put_l3 (version v6) (pad16 v6 src) (pad16 v6 dst) (hop_of v6 l3) a)
      else None
  | None => None
  end.

Lemma parse_ipv4_spec data l3 a : parses (parse_ipv4 data l3 a) (ip_obs ETH_P_IP (drop l3 data) a) a.
Proof.
  unfold parse_ipv4, ip_obs, marked_of, ip4_of. change (ETH_P_IP =? EtherTypeIPv4) with true.
  set (l := drop l3 data). rewrite past_here by lia. fold l.
  destruct (Nat.ltb_spec (length l) 20); [by exists a |].
  rewrite !index_at, lift_ret_bind by (fold l; lia). fold l. change TF_TOS with ToS.
  destruct (Z.land (nth 1 l 0) 0xFC =? ToS) eqn:Et; cbn [negb].
  2: { destruct (_ || _); [by exists a |]. cbn [tos]. rewrite Et. by exists a. }
  rewrite lift_ret_bind. destruct (Z.shiftr (nth 0 l 0) 4 =? 4) eqn:Ev; cbn [negb].
  2: { destruct (_ || _); [by exists a |]. cbn [tos]. rewrite Et. cbn [version]. rewrite Ev. by exists a. }
  fold (ihl_of l). destruct (Nat.ltb_spec (ihl_of l) 20); cbn [orb]; [by exists a |].
  rewrite past_at, Nat.add_0_r by lia. fold l.
  destruct (Nat.ltb_spec (length l) (ihl_of l)); [by exists a |].
  rewrite !ld_bytes_at, !lift_ret_bind, modS_bind, lift_ret_bind by (fold l; lia). fold l.
  cbn [tos ip_src ip_dst proto]. rewrite Et. cbn [version]. rewrite Ev. cbn [mbind option_bind].
  rewrite parse_l4_spec, <- drop_drop. by apply parses_result.
Qed.

Lemma parse_ipv6_spec data l3 a : parses (parse_ipv6 data l3 a) (ip_obs ETH_P_IPV6 (drop l3 data) a) a.
Proof.
  unfold parse_ipv6, ip_obs, marked_of, ip6_of. change (ETH_P_IPV6 =? EtherTypeIPv4) with false.
  change (ETH_P_IPV6 =? EtherTypeIPv6) with true.
  set (l := drop l3 data). rewrite past_here by lia. fold l.
  destruct (Nat.ltb_spec (length l) 40); [by exists a |].
  rewrite !index_at, !lift_ret_bind by (fold l; lia). fold l. cbn [tos6]. fold (tc_of l). change TF_TOS with ToS.
  destruct (Z.shiftr (nth 0 l 0) 4 =? 6) eqn:Ev; cbn [negb].
  2: { destruct (_ =? ToS); [cbn [version]; rewrite Ev |]; by exists a. }
  rewrite lift_ret_bind. fold (tc_of l).
  destruct (Z.land (tc_of l) 0xFC =? ToS); cbn [negb]; [|by exists a].
  rewrite !ld_bytes_at, !lift_ret_bind, modS_bind, lift_ret_bind by (fold l; lia). fold l.
  cbn [version ip6_src ip6_dst nextHdr]. rewrite Ev.
  pose proof (ext_loop_spec data 4 (nth 6 l 0) (l3 + 40)) as He. rewrite <- drop_drop in He. fold l in He.
  destruct (ext_walk 4 (nth 6 l 0) (drop 40 l)) as [[pr l4]|].
  - destruct He as (q & -> & <-). rewrite lift_ret_bind. cbn [mbind option_bind].
    rewrite parse_l4_spec. by apply parses_result.
  - rewrite He, lift_ret_bind. by eexists.
Qed.

Lemma parse_l3_spec data l3 et a : parses (parse_l3 data l3 et a) (ip_obs et (drop l3 data) a) a.
Proof.
  unfold parse_l3. destruct (Z.eqb_spec et ETH_P_IP) as [->|H4]; [apply parse_ipv4_spec |].
  destruct (Z.eqb_spec et ETH_P_IPV6) as [->|H6]; [apply parse_ipv6_spec |].
  unfold ip_obs, marked_of. rewrite (proj2 (Z.eqb_neq et EtherTypeIPv4)), (proj2 (Z.eqb_neq et EtherTypeIPv6)) by done.
  by exists a.
Qed.

(** ** Ethernet *)

Lemma tag_loop_other data n et vid cur :
  (et =? EtherTypeVLAN) || (et =? 0x88A8) = false -> tag_loop data n et vid cur = Ret (Some (et, vid, cur)).
Proof.
  intros H. induction n as [|n IH]; [done |]. cbn [tag_loop]. unfold ETH_P_8021Q, ETH_P_8021AD.
  unfold EtherTypeVLAN in H. by rewrite H.
Qed.

Lemma tag_loop_spec data p n et off vid :
  tag_loop data n et vid (p + off) =
    Ret ((fun '(et, off, vl) => (et, vl, (p + off)%nat)) <$> vlan_tags n (drop p data) et off vid).
Proof.
  revert et off vid. induction n as [|n IH]; intros et off vid; [done |].
  cbn [vlan_tags]. destruct (_ || _) eqn:Ev; [|by rewrite tag_loop_other].
  cbn [tag_loop]. unfold ETH_P_8021Q, ETH_P_8021AD. unfold EtherTypeVLAN in Ev. rewrite Ev.
  rewrite past_at by lia. destruct (Nat.ltb_spec (length (drop p data)) (off + 4)); [done |].
  rewrite <- !Nat.add_assoc, Nat.add_0_r, !ld_be_at by lia.
  destruct (vid =? 0); cbn [mbind go_bind mret go_ret]; apply IH.
Qed.

Lemma parse_l2_spec data p :
  match l2_of (drop p data) with
  | None => parse_l2 data p = Ret None
  | Some l2 => exists q, parse_l2 data p = Ret (Some (etherType l2, vlan l2, q)) /\ drop q data = l3 l2
  end.
Proof.
  unfold l2_of, parse_l2. rewrite past_here by lia.
  destruct (Nat.ltb_spec (length (drop p data)) 14); [done |].
  rewrite ld_be_at by lia. cbn [mbind go_bind]. rewrite tag_loop_spec.
  destruct (vlan_tags _ _ _ _ _) as [[[et off] vl]|]; [|done].
  exists (p + off)%nat. split; [done |]. cbn [l3]. by rewrite drop_drop.
Qed.

(** ** The two kinds of frames *)

Definition regular_obs (frame : bytes) (skb_vlan : Z) (a : attempt) : option attempt :=
  l2 ← l2_of frame;
  ip_obs (etherType l2) (l3 l2)
    (put_l2 IfaceRegular 0 (if vlan l2 =? 0 then skb_vlan else vlan l2) a).

Lemma parse_regular_spec data sv a : parses (parse_regular data sv a) (regular_obs data sv a) a.
Proof.
  unfold parse_regular, regular_obs. pose proof (parse_l2_spec data 0) as H. rewrite drop_0 in H.
  destruct (l2_of data) as [l2|].
  - cbn [mbind option_bind]. destruct H as (q & -> & <-). rewrite lift_ret_bind, modS_bind.
    pose proof (parse_l3_spec data q (etherType l2)
      (put_l2 IfaceRegular 0 (if vlan l2 =? 0 then sv else vlan l2) a)) as H.
    destruct (ip_obs _ _ _); [exact H |]. destruct H as (a' & H & Hs). by exists a'.
  - rewrite H, lift_ret_bind. by exists a.
Qed.

(** The datagram of the outer IP packet, without the check of its length. *)
Lemma outer_udp_spec data ol3 et :
  match udp_of et (drop ol3 data) with
  | Some (_, _, l4) => exists q, outer_udp data ol3 et = Ret (Some q) /\ drop q data = l4
  | None => outer_udp data ol3 et = Ret None
            \/ exists q, outer_udp data ol3 et = Ret (Some q) /\ drop q data = []
  end.
Proof.
  unfold outer_udp, udp_of, ip4_of, ip6_of. set (l := drop ol3 data).
  destruct (Z.eqb_spec et ETH_P_IP) as [->|H4].
  - change (ETH_P_IP =? EtherTypeIPv4) with true. rewrite past_here by lia. fold l.
    destruct (Nat.ltb_spec (length l) 20); [by left |].
    rewrite !index_at by (fold l; lia). fold l. cbn [mbind go_bind]. change TF_PROTO_UDP with ProtoUDP.
    fold (ihl_of l). destruct (nth 9 l 0 =? ProtoUDP) eqn:Ep; cbn [negb].
    2: { destruct (_ || _); [by left |]. cbn [proto]. rewrite Ep. by left. }
    destruct (Nat.ltb_spec (ihl_of l) 20); cbn [orb]; [by left |].
    destruct (Nat.ltb_spec (length l) (ihl_of l)).
    { right. eexists. split; [done |]. apply drop_ge. unfold l in *. rewrite length_drop in *. lia. }
    cbn [proto]. rewrite Ep. eexists. split; [done |]. unfold l. by rewrite drop_drop.
  - rewrite (proj2 (Z.eqb_neq et EtherTypeIPv4)) by done.
    destruct (Z.eqb_spec et ETH_P_IPV6) as [->|H6].
    + change (ETH_P_IPV6 =? EtherTypeIPv6) with true. rewrite past_here by lia. fold l.
      destruct (Nat.ltb_spec (length l) 40); [by left |].
      rewrite !index_at by (fold l; lia). fold l. cbn [mbind go_bind nextHdr]. change TF_PROTO_UDP with ProtoUDP.
      destruct (_ =? ProtoUDP); cbn [negb]; [|by left]. eexists. split; [done |]. unfold l. by rewrite drop_drop.
    + rewrite (proj2 (Z.eqb_neq et EtherTypeIPv6)) by done. by left.
Qed.

(** A mask of one bit tests the bit. *)
Lemma land_bit x n : 0 <= n -> (Z.land x (2 ^ n) =? 0) = negb (Z.testbit x n).
Proof.
  intros Hn. destruct (Z.testbit x n) eqn:E; cbn [negb].
  - apply Z.eqb_neq. intros H. apply (f_equal (fun y => Z.testbit y n)) in H.
    by rewrite Z.land_spec, Z.pow2_bits_true, E, Z.bits_0 in H.
  - apply Z.eqb_eq, Z.bits_inj'. intros i Hi. rewrite Z.land_spec, Z.bits_0.
    rewrite Z.pow2_bits_eqb by done. destruct (Z.eqb_spec n i) as [<-|]; [by rewrite E | apply andb_false_r].
Qed.

(** The flags word of VXLAN has the I flag in its first byte. *)
Lemma i_flag l :
  bytes_ok l -> (4 <= length l)%nat ->
  (Z.land (be_field l 0 4) 0x08000000 =? 0) = negb (has_bit (nth 0 l 0) 0x08).
Proof.
  intros Hl Hn. do 4 (destruct l as [|? l]; [cbn in Hn; lia |]). cbn [nth].
  unfold be_field, has_bit. rewrite negb_involutive.
  change (take 4 _) with ((([z] ++ [z0]) ++ [z1]) ++ [z2]).
  unfold bytes_ok in Hl. rewrite !Forall_cons in Hl. destruct Hl as (H0 & H1 & H2 & H3 & _).
  rewrite !be_decode_snoc_add by (rewrite ?bytes_ok_app; repeat (done || split || constructor)).
  change (be_decode [z]) with z. unfold is_byte in *.
  change 0x08000000 with (2 ^ 27). change 8 with (2 ^ 3). rewrite !land_bit by lia. f_equal.
  change 27 with (3 + 24). rewrite <- Z.shiftr_spec, Z.shiftr_div_pow2 by lia. f_equal.
  change (2 ^ 24) with 16777216. mlia.
Qed.

Definition vxlan_obs (frame : bytes) (a : attempt) : option attempt :=
  '(_, _, _, vni, inner) ← vxlan_of frame;
  l2 ← l2_of inner;
  ip_obs (etherType l2) (l3 l2) (put_l2 IfaceVXLAN vni (vlan l2) a).

Lemma parse_vxlan_spec data a : bytes_ok data -> parses (parse_vxlan data a) (vxlan_obs data a) a.
Proof.
  intros Hb. unfold parse_vxlan, vxlan_obs, vxlan_of. pose proof (parse_l2_spec data 0) as H.
  rewrite drop_0 in H. destruct (l2_of data) as [oL2|].
  2: { rewrite H, lift_ret_bind. by exists a. }
  destruct H as (ol3 & -> & Hol3). rewrite lift_ret_bind. pose proof (outer_udp_spec data ol3 (etherType oL2)) as H.
  rewrite Hol3 in H. destruct (udp_of _ _) as [[[osrc odst] ol4]|].
  2: { destruct H as [H | (q & H & Hq)]; rewrite H, lift_ret_bind; [by exists a |].
       rewrite past_here, Hq by lia. by exists a. }
  destruct H as (q & -> & Hq). rewrite lift_ret_bind, past_here, Hq by lia.
  destruct (Nat.ltb_spec (length ol4) 8); cbn [orb]; [by exists a |].
  rewrite (ld_be_at data q 2 2), Hq, lift_ret_bind by (rewrite ?Hq; lia). change TF_VXLAN_PORT with VXLANPort.
  destruct (be_field ol4 2 2 =? VXLANPort); cbn [negb orb]; [|by exists a].
  assert (Hv : drop (q + 8) data = drop 8 ol4) by by rewrite <- drop_drop, Hq.
  rewrite past_here, Hv by lia. destruct (Nat.ltb_spec (length (drop 8 ol4)) 8); cbn [orb]; [by exists a |].
  rewrite !(ld_be_at data (q + 8)), Hv, lift_ret_bind by (rewrite ?Hv; lia).
  rewrite i_flag by (try lia; rewrite <- Hv; by apply bytes_ok_drop).
  destruct (has_bit (nth 0 (drop 8 ol4) 0) 8); cbn [negb]; [|by exists a]. rewrite lift_ret_bind.
  cbn [mbind option_bind]. pose proof (parse_l2_spec data (q + 8 + 8)) as H'.
  rewrite <- drop_drop, Hv in H'. destruct (l2_of (drop 8 (drop 8 ol4))) as [iL2|].
  2: { rewrite H', lift_ret_bind. by exists a. }
  destruct H' as (il3 & -> & Hil3). rewrite lift_ret_bind, modS_bind. cbn [mbind option_bind].
  pose proof (parse_l3_spec data il3 (etherType iL2) (put_l2 IfaceVXLAN (Z.shiftr (be_field (drop 8 ol4) 4 4) 8)
    (vlan iL2) a)) as H'. rewrite Hil3 in H'.
  destruct (ip_obs _ _ _); [exact H' |]. destruct H' as (a' & H' & Hs). by exists a'.
Qed.

(** ** The modes *)

(** What is seen in a frame: VXLAN first in AUTO mode. *)
Definition frame_obs (mode : Z) (frame : bytes) (skb_vlan : Z) (a : attempt) : option attempt :=
  match (if (mode =? IfaceVXLAN) || (mode =? IfaceAuto) then vxlan_obs frame a else None) with
  | Some a' => Some a'
  | None =>
      if (mode =? IfaceRegular) || (mode =? IfaceAuto) then regular_obs frame skb_vlan a else None
  end.

(** A match overwrites every field a failed attempt may have left. *)
Lemma put_all_same a a' ver src dst hop ts id sp dp fl pr mf ity vni vid :
  same_start a a' ->
  put_l4 ts id sp dp fl pr mf (put_l3 ver src dst hop (put_l2 ity vni vid a))
  = put_l4 ts id sp dp fl pr mf (put_l3 ver src dst hop (put_l2 ity vni vid a')).
Proof. intros (H1 & H2 & H3 & H4). unfold put_l4, put_l3, put_l2. cbn. by rewrite H1, H2, H3, H4. Qed.

Lemma ip_obs_same et l3 ity vni vid a a' :
  same_start a a' -> ip_obs et l3 (put_l2 ity vni vid a) = ip_obs et l3 (put_l2 ity vni vid a').
Proof.
  intros H. unfold ip_obs. destruct (marked_of et l3) as [[[[[src dst] pr] l4] v6]|]; [|done].
  destruct (_ =? version v6); [|done].
  destruct (if v6 then ext_walk 4 pr l4 else _) as [[pr' l4']|]; [|done]. cbn [mbind option_bind].
  unfold l4_obs. destruct (payload_of pr' l4') as [p|]; [|done]. cbn [mbind option_bind].
  destruct (marked_payload p); [|done]. f_equal. by apply put_all_same.
Qed.

Lemma regular_obs_same frame sv a a' : same_start a a' -> regular_obs frame sv a = regular_obs frame sv a'.
Proof.
  intros H. unfold regular_obs. destruct (l2_of frame) as [l2|]; [|done]. cbn [mbind option_bind].
  by apply ip_obs_same.
Qed.

Lemma parse_modes_spec data mode sv a :
  bytes_ok data -> parses (parse_modes data mode sv a) (frame_obs mode data sv a) a.
Proof.
  intros Hb. unfold parse_modes, frame_obs. change TF_IFACE_VXLAN with IfaceVXLAN.
  change TF_IFACE_AUTO with IfaceAuto. change TF_IFACE_REGULAR with IfaceRegular.
  destruct ((mode =? IfaceVXLAN) || (mode =? IfaceAuto)).
  - pose proof (parse_vxlan_spec data a Hb) as H. destruct (vxlan_obs data a) as [a'|].
    + rewrite (st_bind_ret _ _ _ _ _ H). done.
    + destruct H as (a' & H & Hs). rewrite (st_bind_ret _ _ _ _ _ H). cbn [negb andb].
      destruct (_ || _); [|by exists a'].
      pose proof (parse_regular_spec data sv a') as Hr. rewrite (regular_obs_same _ _ _ _ Hs).
      destruct (regular_obs data sv a'); [exact Hr |]. destruct Hr as (a2 & Hr & Hs2). exists a2.
      split; [exact Hr |]. destruct Hs as (? & ? & ? & ?), Hs2 as (? & ? & ? & ?).
      repeat split; congruence.
  - rewrite st_ret_bind. cbn [negb andb]. destruct (_ || _); [apply parse_regular_spec | by exists a].
Qed.

(** ** The program *)

Definition start (direction ifindex : Z) : attempt := mkAttempt (new_obs direction ifindex) 0.

(** The record of a match, and whether the packet is dropped. *)
Definition decided (m : maps) (cfg : tfConfig) (now : Z) (mf : Z) (o : Raw) : bool * Raw :=
  let d := do_drop m cfg mf o in
  (d, put_action (if d then TF_ACT_INTERCEPTED else TF_ACT_FORWARDED) now o).

Definition skb_vid (k : skb) : Z := if sk_vlan_present k then u16 (Z.land (sk_vlan_tci k) 0x0FFF) else 0.

(** What the program makes of a packet: [None] when it is not a marked probe. *)
Definition tc_sees (m : maps) (now : Z) (k : skb) (direction : Z) : option (bool * Raw) :=
  cfg ← config_map m;
  a ← frame_obs (c_IfaceType cfg) (sk_data k) (skb_vid k) (start direction (sk_ifindex k));
  Some (decided m cfg now (mflags a) (tunnel_vni (sk_tunnel k) (device_vni m (sk_ifindex k) (obs a)))).

Definition xdp_sees (m : maps) (now : Z) (x : xdp_md) : option (bool * Raw) :=
  cfg ← config_map m;
  a ← frame_obs (c_IfaceType cfg) (xd_data x) 0 (start TF_DIR_INGRESS (xd_ifindex x));
  Some (decided m cfg now (mflags a) (device_vni m (xd_ifindex x) (obs a))).

(** The maps after a record. *)
Definition recorded (reserve : bool) (o : Raw) (m : maps) : maps :=
  if reserve then submit o m else ring_full m.

Lemma finish_spec now reserve cfg mf o m :
  finish now reserve cfg mf o m =
    let '(d, o) := decided m cfg now mf o in Ret (d, recorded reserve o m).
Proof. unfold finish, decided, recorded. rewrite getS_bind, modS_bind. by destruct reserve. Qed.

Lemma handle_bpf_spec now reserve k direction m :
  bytes_ok (sk_data k) ->
  Bpf.handle now reserve k direction m =
    Ret (match tc_sees m now k direction with
         | None => (TC_ACT_OK, m)
         | Some (d, o) => (if d then TC_ACT_SHOT else TC_ACT_OK, recorded reserve o m)
         end).
Proof.
  intros Hb. unfold Bpf.handle, tc_sees. rewrite getS_bind. destruct (config_map m) as [cfg|]; [|done].
  cbn [mbind option_bind]. fold (skb_vid k). fold (start direction (sk_ifindex k)).
  pose proof (parse_modes_spec (sk_data k) (c_IfaceType cfg) (skb_vid k) (start direction (sk_ifindex k)) Hb) as H.
  destruct (frame_obs _ _ _ _) as [a|]; cbn [mbind option_bind].
  - rewrite H, lift_ret_bind. cbn [negb fst snd].
    destruct (decided m cfg now _ _) as [d o] eqn:Ed. erewrite st_bind_ret; [|rewrite finish_spec, Ed; done]. done.
  - destruct H as (a' & -> & _). by rewrite lift_ret_bind.
Qed.

Lemma xdp_spec now reserve x m :
  bytes_ok (xd_data x) ->
  traceflow_xdp now reserve x m =
    Ret (match xdp_sees m now x with
         | None => (XDP_PASS, m)
         | Some (d, o) => (if d then XDP_DROP else XDP_PASS, recorded reserve o m)
         end).
Proof.
  intros Hb. unfold traceflow_xdp, xdp_sees. rewrite getS_bind. destruct (config_map m) as [cfg|]; [|done].
  cbn [mbind option_bind]. fold (start TF_DIR_INGRESS (xd_ifindex x)).
  pose proof (parse_modes_spec (xd_data x) (c_IfaceType cfg) 0 (start TF_DIR_INGRESS (xd_ifindex x)) Hb) as H.
  destruct (frame_obs _ _ _ _) as [a|]; cbn [mbind option_bind].
  - rewrite H, lift_ret_bind. cbn [negb fst snd].
    destruct (decided m cfg now _ _) as [d o] eqn:Ed. erewrite st_bind_ret; [|rewrite finish_spec, Ed; done]. done.
  - destruct H as (a' & -> & _). by rewrite lift_ret_bind.
Qed.
