(* ===== verification/BpfProps.v ===== *)
(** Properties of the eBPF program: it never loads outside the packet and changes
    nothing but the ring buffer and its counters; what it records is well typed and
    is what the probe carries; XDP and TC see the same. *)
From S2P Require Import Prelude Observation AgentMain Bpf.
From S2P Require Import GoStd TfMeta Pkt PktProps Responder ResponderSpec Wire Demo ResponderProps BpfSpec.

Local Open Scope Z_scope.

(** ** What a match says *)

(** The fields a match has, in terms of the packet it was found in. *)
Record found (frame : bytes) (a : attempt) : Prop := {
  fd_block : exists n, let p := drop n frame in
    marked_payload p = true /\ RawID (obs a) = take 16 (drop 4 p)
    /\ MetaTimestamp (obs a) = le_decode (take 8 (drop 22 p)) /\ mflags a = meta_flags p;
  fd_version : IPVersion (obs a) = 4 \/ IPVersion (obs a) = 6;
  fd_proto : Protocol (obs a) ∈ [ProtoICMP; ProtoTCP; ProtoUDP; ProtoICMPv6];
  fd_addrs : length (RawSrcIP (obs a)) = 16%nat /\ length (RawDstIP (obs a)) = 16%nat;
  fd_bytes : bytes_ok (RawSrcIP (obs a)) /\ bytes_ok (RawDstIP (obs a));
  fd_hop : 0 <= Hop (obs a) < 256;
  fd_ports : fits 2 (RawSrcPort (obs a)) /\ fits 2 (RawDstPort (obs a)) /\ fits 1 (RawTCPFlags (obs a))
}.

Lemma nth_byte l i : bytes_ok l -> is_byte (nth i l 0).
Proof.
  intros Hl. destruct (lt_dec i (length l)).
  - unfold bytes_ok in Hl. rewrite Forall_nth in Hl. by apply Hl.
  - rewrite nth_overflow by lia. unfold is_byte. lia.
Qed.

Lemma port_fits pr l4 i : bytes_ok l4 -> fits 2 (port_at pr l4 i).
Proof.
  intros Hb. unfold port_at, fits. destruct (_ || _); [|cbn; lia]. unfold be_field.
  pose proof (be_decode_bound _ (bytes_ok_take 2 _ (bytes_ok_drop i _ Hb))) as H.
  assert (length (take 2 (drop i l4)) <= 2)%nat as Hl by (rewrite length_take; lia).
  pose proof (Z.pow_le_mono_r 256 (Z.of_nat (length (take 2 (drop i l4)))) (Z.of_nat 2)). lia.
Qed.

Lemma payload_of_suffix pr l4 p : payload_of pr l4 = Some p ->
  (exists n, p = drop n l4) /\ pr ∈ [ProtoICMP; ProtoTCP; ProtoUDP; ProtoICMPv6].
Proof.
  unfold payload_of. destruct (_ || _) eqn:E.
  - destruct (_ <? _)%nat; [done |]. intros [= <-]. split; [by eexists |].
    rewrite !orb_true_iff, !Z.eqb_eq in E. set_solver.
  - destruct (Z.eqb_spec pr ProtoTCP) as [->|]; [|done]. clear E. unfold tcp_parts. destruct (_ || _); [done |].
    intros ?. simplify_eq/=. split; [eexists; reflexivity | unfold ProtoTCP; set_solver].
Qed.

Lemma ext_walk_suffix n nh l nh' l' : ext_walk n nh l = Some (nh', l') -> exists k, l' = drop k l.
Proof.
  revert nh l. induction n as [|n IH]; intros nh l; cbn [ext_walk].
  - intros [= _ <-]. by exists 0%nat.
  - destruct (_ || (nh =? ProtoUDP)); [intros [= _ <-]; by exists 0%nat |].
    destruct (_ || (nh =? 60)).
    + destruct (_ <? _)%nat; [done |]. intros [k ->]%IH. rewrite drop_drop. by eexists.
    + destruct (nh =? 44); [|intros [= _ <-]; by exists 0%nat].
      destruct (_ || _); [done |]. intros [k ->]%IH. rewrite drop_drop. by eexists.
Qed.

Lemma marked_of_suffix et l3 src dst pr l4 v6 :
  marked_of et l3 = Some (src, dst, pr, l4, v6) ->
  (exists n, l4 = drop n l3) /\ length src = (if v6 then 16 else 4)%nat
  /\ length dst = (if v6 then 16 else 4)%nat.
Proof.
  unfold marked_of, ip4_of, ip6_of. destruct (et =? EtherTypeIPv4).
  - destruct (Nat.ltb_spec (length l3) 20); [done |]. destruct (_ || _); [done |].
    destruct (_ =? ToS); [|done]. intros [= <- <- _ <- <-]. rewrite !length_take, !length_drop.
    split_and!; [by eexists | lia | lia].
  - destruct (et =? EtherTypeIPv6); [|done]. destruct (Nat.ltb_spec (length l3) 40); [done |].
    destruct (_ =? ToS); [|done]. intros [= <- <- _ <- <-]. rewrite !length_take, !length_drop.
    split_and!; [by eexists | lia | lia].
Qed.

Lemma marked_of_fields et l3 src dst pr l4 v6 :
  bytes_ok l3 -> marked_of et l3 = Some (src, dst, pr, l4, v6) -> bytes_ok src /\ bytes_ok dst.
Proof.
  intros Hb. unfold marked_of, ip4_of, ip6_of.
  repeat case_match; intros; simplify_eq; split; by apply bytes_ok_take, bytes_ok_drop.
Qed.

Lemma ip_obs_found frame n et a a' :
  bytes_ok frame -> ip_obs et (drop n frame) a = Some a' -> found frame a'.
Proof.
  intros Hb. unfold ip_obs. destruct (marked_of et (drop n frame)) as [[[[[src dst] pr] l4] v6]|] eqn:Em; [|done].
  destruct (_ =? version v6); [|done].
  destruct (if v6 then ext_walk 4 pr l4 else _) as [[pr' l4']|] eqn:Ex; [|done]. cbn [mbind option_bind].
  destruct (marked_of_fields _ _ _ _ _ _ _ (bytes_ok_drop n _ Hb) Em) as [Hsb Hdb].
  apply marked_of_suffix in Em as ((k & Hl4) & Hs & Hd).
  assert (exists k', l4' = drop k' frame) as [k' Hk'].
  { rewrite drop_drop in Hl4. destruct v6; [|injection Ex as _ <-; by eexists].
    apply ext_walk_suffix in Ex as [j ->]. rewrite Hl4, drop_drop. by eexists. }
  unfold l4_obs. destruct (payload_of pr' l4') as [p|] eqn:Ep; [|done]. cbn [mbind option_bind].
  apply payload_of_suffix in Ep as ((j & Hp) & Hpr). destruct (marked_payload p) eqn:Hmp; [|done].
  assert (bytes_ok l4') as Hb4 by (rewrite Hk'; by apply bytes_ok_drop).
  intros [= <-]. split; cbn [obs mflags put_l4 put_l3 RawID MetaTimestamp IPVersion Protocol RawSrcIP RawDstIP Hop
    RawSrcPort RawDstPort RawTCPFlags].
  - exists (k' + j)%nat. rewrite <- drop_drop, <- Hk', <- Hp. done.
  - unfold version. destruct v6; auto.
  - done.
  - unfold pad16. destruct v6; rewrite ?length_app, ?length_make; lia.
  - unfold pad16. destruct v6; [done |]. rewrite !bytes_ok_app. split_and!; by try apply bytes_ok_zeros.
  - apply u8_range.
  - split_and!; [by apply port_fits.. |]. unfold tcp_flags_of, fits.
    destruct (_ =? _); [|cbn; lia]. pose proof (nth_byte l4' 13 Hb4) as H. unfold is_byte in H. cbn. lia.
Qed.

Lemma drop_suffix_of {A} (l : list A) n k : exists j, drop n (drop k l) = drop j l.
Proof. rewrite drop_drop. by eexists. Qed.

(** What was seen, the fields that were set before, and the kind of the frame. *)
Definition seen_in (frame : bytes) (a a' : attempt) : Prop :=
  found frame a' /\ same_start a a' /\ 0 <= VLANID (obs a') < 4096
  /\ (RawIfaceType (obs a') = IfaceVXLAN /\ 0 <= VNI (obs a') < 16777216
      \/ RawIfaceType (obs a') = IfaceRegular /\ VNI (obs a') = 0).

(** Whatever is seen is found in the frame; the kind and the tag of the frame. *)
Lemma frame_obs_found mode frame sv a a' :
  bytes_ok frame -> 0 <= sv < 4096 -> frame_obs mode frame sv a = Some a' ->
  seen_in frame a a'.
Proof.
  intros Hb Hsv.
  assert (Hip : forall n et ity vni vid a',
    0 <= vid < 4096 -> (ity = IfaceVXLAN /\ 0 <= vni < 16777216 \/ ity = IfaceRegular /\ vni = 0) ->
    ip_obs et (drop n frame) (put_l2 ity vni vid a) = Some a' ->
    seen_in frame a a').
  { intros n et ity vni vid a2 Hv Ht H. split; [by eapply ip_obs_found |]. revert H. unfold ip_obs.
    destruct (marked_of _ _) as [[[[[src dst] pr] l4] v6]|]; [|done]. destruct (_ =? version v6); [|done].
    destruct (if v6 then ext_walk 4 pr l4 else _) as [[pr' l4']|]; [|done]. cbn [mbind option_bind].
    unfold l4_obs. destruct (payload_of pr' l4') as [p|]; [|done]. cbn [mbind option_bind].
    destruct (marked_payload p); [|done]. by intros [= <-]. }
  assert (Hreg : regular_obs frame sv a = Some a' ->
    seen_in frame a a').
  { unfold regular_obs. destruct (l2_of frame) as [l2|] eqn:El; [|done]. cbn [mbind option_bind].
    destruct (l2_of_l3 _ _ El) as [n ->]. apply Hip; [|by right].
    pose proof (l2_of_vid _ _ El). by destruct (vlan l2 =? 0). }
  unfold frame_obs. destruct (if (mode =? IfaceVXLAN) || (mode =? IfaceAuto) then _ else None) as [av|] eqn:Ev.
  2: { clear Ev. destruct (_ || _); [exact Hreg | done]. }
  intros [= ->]. destruct ((mode =? IfaceVXLAN) || _); [|done]. revert Ev. unfold vxlan_obs.
  destruct (vxlan_of frame) as [[[[[oL2 osrc] odst] vni] inner]|] eqn:Ex; [|done]. cbn [mbind option_bind].
  destruct (l2_of inner) as [l2|] eqn:El; [|done]. cbn [mbind option_bind].
  pose proof (vxlan_of_inv _ _ _ _ _ _ Hb Ex) as (_ & Hvni & _).
  assert (exists j, inner = drop j frame) as [j Hj].
  { revert Ex. unfold vxlan_of. destruct (l2_of frame) as [o2|] eqn:Eo; [|done].
    destruct (udp_of _ _) as [[[? ?] l4]|] eqn:Eu; [|done]. destruct (_ || _); [done |].
    intros [= <- <- <- <- <-]. apply udp_of_inv in Eu as (? & off & _ & _ & _ & ->).
    apply l2_of_l3 in Eo as [off' ->]. rewrite !drop_drop. by eexists. }
  destruct (l2_of_l3 _ _ El) as [n ->]. rewrite Hj, drop_drop. apply Hip; [by eapply l2_of_vid | by left].
Qed.

(** ** The contract of the program *)

Definition skb_ok (k : skb) : Prop :=
  bytes_ok (sk_data k) /\ fits 4 (sk_ifindex k) /\ (forall t, sk_tunnel k = Some t -> fits 4 t).

Lemma skb_vid_range k : 0 <= skb_vid k < 4096.
Proof.
  unfold skb_vid. destruct (sk_vlan_present k); [|lia].
  pose proof (land_fff (sk_vlan_tci k)) as H. rewrite u16_small; lia.
Qed.

(** The fields the VNI lookups leave alone. *)
Definition same_probe (o o' : Raw) : Prop :=
  MetaTimestamp o' = MetaTimestamp o /\ RawID o' = RawID o /\ RawSrcIP o' = RawSrcIP o
  /\ RawDstIP o' = RawDstIP o /\ IfIndex o' = IfIndex o /\ RawSrcPort o' = RawSrcPort o
  /\ RawDstPort o' = RawDstPort o /\ VLANID o' = VLANID o /\ IPVersion o' = IPVersion o
  /\ Hop o' = Hop o /\ Direction o' = Direction o /\ Protocol o' = Protocol o
  /\ RawTCPFlags o' = RawTCPFlags o.

Lemma device_vni_same m i o : same_probe o (device_vni m i o).
Proof. unfold device_vni, same_probe. by repeat case_match. Qed.
Lemma tunnel_vni_same tk o : same_probe o (tunnel_vni tk o).
Proof. unfold tunnel_vni, same_probe. by repeat case_match. Qed.
Lemma same_probe_trans o1 o2 o3 : same_probe o1 o2 -> same_probe o2 o3 -> same_probe o1 o3.
Proof. unfold same_probe. intros H1 H2. destruct_and!. repeat split; congruence. Qed.

(** What the record [o] of a packet says of it. *)
Record record_of (frame : bytes) (direction ifindex now : Z) (dropped : bool) (o : Raw) : Prop := {
  ro_block : exists n, let p := drop n frame in
    marked_payload p = true /\ RawID o = take 16 (drop 4 p)
    /\ MetaTimestamp o = le_decode (take 8 (drop 22 p))
    /\ (dropped = true -> nth 20 p 0 = 0 /\ nth 21 p 0 ≠ 0);
  ro_where : Direction o = direction /\ IfIndex o = ifindex /\ CaptureNS o = now;
  ro_action : Action o = (if dropped then TF_ACT_INTERCEPTED else TF_ACT_FORWARDED);
  ro_dropped : dropped = true -> RawIfaceType o = IfaceRegular
}.

(** The flags of the control block behind the bits. *)
Lemma meta_flags_drop p :
  has_bit (meta_flags p) TF_MF_NEED_RESPONSE = true -> has_bit (meta_flags p) TF_MF_DELIVER = false ->
  nth 20 p 0 = 0 /\ nth 21 p 0 ≠ 0.
Proof.
  unfold meta_flags. destruct (Z.eqb_spec (nth 20 p 0) 0), (Z.eqb_spec (nth 21 p 0) 0); done.
Qed.

Lemma tc_sees_record m now k direction d o :
  skb_ok k -> tc_sees m now k direction = Some (d, o) ->
  record_of (sk_data k) direction (sk_ifindex k) now d o.
Proof.
  intros (Hb & _ & _). unfold tc_sees. destruct (config_map m) as [cfg|]; [|done]. cbn [mbind option_bind].
  destruct (frame_obs _ _ _ _) as [a|] eqn:E; [|done]. cbn [mbind option_bind].
  destruct (frame_obs_found _ _ _ _ _ Hb (skb_vid_range k) E) as (Hf & Hs & _ & Hk).
  set (o1 := tunnel_vni _ _). assert (Ho1 : same_probe (obs a) o1)
    by (eapply same_probe_trans; [apply device_vni_same | apply tunnel_vni_same]).
  unfold decided. intros [= <- <-]. destruct Ho1 as (Hts & Hid & _ & _ & Hif & _ & _ & _ & _ & _ & Hdir & _).
  destruct Hs as (Hs1 & Hs2 & _). split; cbn [put_action RawID MetaTimestamp Direction IfIndex CaptureNS Action RawIfaceType].
  - destruct (fd_block _ _ Hf) as (n & Hm & Hi & Ht & Hmf). exists n. rewrite Hid, Hts. split_and!; try done.
    all: unfold do_drop; rewrite Hmf, !andb_true_iff, !negb_true_iff; intros Hd; destruct_and!;
      by destruct (meta_flags_drop (drop n (sk_data k))).
  - rewrite Hdir, Hif, <- Hs1, <- Hs2. done.
  - done.
  - unfold do_drop. rewrite !andb_true_iff, !negb_true_iff. intros Hd. destruct_and!.
    assert (Hne : RawIfaceType o1 ≠ IfaceVXLAN) by (intros Hv; by rewrite Hv in *).
    revert Hne. unfold o1, tunnel_vni, device_vni. clear -Hk.
    destruct Hk as [[Hk _]|[Hk _]]; repeat case_match; cbn; rewrite ?Hk; try done.
Qed.


(** ** Records are well typed *)

(** The ranges the Go side relies on, beyond those of its types. *)
Definition record_ok (o : Raw) : Prop :=
  Raw_ok o /\ (IPVersion o = 4 \/ IPVersion o = 6) /\ VLANID o < 4096
  /\ Protocol o ∈ [ProtoICMP; ProtoTCP; ProtoUDP; ProtoICMPv6]
  /\ Direction o ∈ [TF_DIR_INGRESS; TF_DIR_EGRESS] /\ Action o ∈ [TF_ACT_FORWARDED; TF_ACT_INTERCEPTED]
  /\ RawIfaceType o ∈ [IfaceRegular; IfaceVXLAN]
  /\ bytes_ok (RawID o) /\ bytes_ok (RawSrcIP o) /\ bytes_ok (RawDstIP o).

(** The 88 bytes of a record. *)
Lemma record_bytes o : record_ok o -> bytes_ok (raw_bytes o).
Proof.
  intros (_ & _ & _ & _ & _ & _ & _ & ? & ? & ?). unfold raw_bytes. rewrite !bytes_ok_app.
  repeat split; try apply le_encode_ok; try done. compute_decide.
Qed.

Record maps_ok (m : maps) : Prop := {
  mo_events : Forall record_ok (events m);
  mo_vni : forall i v, iface_vni m !! i = Some v -> fits 4 v;
  mo_counters : fits 8 (stat_observed m) /\ fits 8 (stat_ringbuf_full m)
}.

Lemma take_fits n l k : bytes_ok l -> fits n (le_decode (take n (drop k l))).
Proof.
  intros Hb. unfold fits. pose proof (le_decode_bound _ (bytes_ok_take n _ (bytes_ok_drop k _ Hb))) as H.
  assert (length (take n (drop k l)) <= n)%nat as Hl by (rewrite length_take; lia).
  pose proof (Z.pow_le_mono_r 256 (Z.of_nat (length (take n (drop k l)))) (Z.of_nat n)). lia.
Qed.

Lemma device_vni_kind m i o :
  (forall i v, iface_vni m !! i = Some v -> fits 4 v) ->
  fits 4 (VNI o) /\ RawIfaceType o ∈ [IfaceRegular; IfaceVXLAN] ->
  fits 4 (VNI (device_vni m i o)) /\ RawIfaceType (device_vni m i o) ∈ [IfaceRegular; IfaceVXLAN].
Proof.
  intros Hm Ho. unfold device_vni. destruct (_ =? 0); [|done]. destruct (iface_vni m !! i) eqn:E; [|done].
  split; [by eapply Hm | cbn; set_solver].
Qed.

Lemma tunnel_vni_kind tk o :
  (forall t, tk = Some t -> fits 4 t) ->
  fits 4 (VNI o) /\ RawIfaceType o ∈ [IfaceRegular; IfaceVXLAN] ->
  fits 4 (VNI (tunnel_vni tk o)) /\ RawIfaceType (tunnel_vni tk o) ∈ [IfaceRegular; IfaceVXLAN].
Proof.
  intros Ht Ho. unfold tunnel_vni. destruct (_ =? 0); [|done]. destruct tk as [t|]; [|done].
  destruct (t =? 0); [done |]. split; [by apply Ht | cbn; set_solver].
Qed.

(** A match, with the VNI it gets, is a good record. *)
Lemma decided_ok m cfg now mf frame a0 a o :
  bytes_ok frame -> seen_in frame a0 a -> same_probe (obs a) o ->
  fits 4 (VNI o) /\ RawIfaceType o ∈ [IfaceRegular; IfaceVXLAN] ->
  fits 8 now -> fits 4 (IfIndex (obs a0)) -> Direction (obs a0) ∈ [TF_DIR_INGRESS; TF_DIR_EGRESS] ->
  record_ok (snd (decided m cfg now mf o)).
Proof.
  intros Hb (Hf & (Hs1 & Hs2 & _) & Hv & _) Hsame (Hvni & Hty) Hnow Hifi Hdir.
  destruct Hf as [(n & Hblock & Hid & Hts & _) Hver Hpr [Hsrc Hdst] [Hsb Hdb] Hhop (Hsp & Hdp & Hfl)].
  destruct Hsame as (E1 & E2 & E3 & E4 & E5 & E6 & E7 & E8 & E9 & E10 & E11 & E12 & E13).
  unfold marked_payload in Hblock. apply andb_prop in Hblock as [Hlen _].
  assert (length (RawID (obs a)) = 16%nat) as Hidl
    by (rewrite Hid, length_take, length_drop; unfold MetaSize in Hlen; lia).
  assert (bytes_ok (RawID (obs a))) as Hidb by (rewrite Hid; by apply bytes_ok_take, bytes_ok_drop, bytes_ok_drop).
  assert (fits 8 (MetaTimestamp (obs a))) as Htsf by (rewrite Hts; by apply take_fits, bytes_ok_drop).
  assert (forall z l, z ∈ l -> Forall (fun z => 0 <= z < 256) l -> fits 1 z) as Hin.
  { intros z l Hz Hl. rewrite Forall_forall in Hl. unfold fits. cbn. by apply Hl. }
  unfold record_ok, Raw_ok, decided. cbn -[do_drop fits]. rewrite E1, E2, E3, E4, E5, E6, E7, E8, E9, E10, E11, E12, E13.
  rewrite <- Hs1, <- Hs2. split_and!; try done; try lia.
  all: try (unfold fits; cbn; lia).
  all: try (eapply Hin; [eassumption |]; compute_decide).
  all: destruct (do_drop m cfg mf o); unfold fits, TF_ACT_INTERCEPTED, TF_ACT_FORWARDED; cbn; try lia; set_solver.
Qed.

Lemma recorded_ok reserve o m : record_ok o -> maps_ok m -> maps_ok (recorded reserve o m).
Proof.
  intros Ho [He Hv [H1 H2]].
  destruct reserve; split; cbn; try done.
  - by apply Forall_app_2, Forall_singleton.
  - split; [apply u64_range | done].
  - split; [done | apply u64_range].
Qed.

Lemma tc_record_ok m now k direction d o :
  maps_ok m -> skb_ok k -> fits 8 now -> direction ∈ [TF_DIR_INGRESS; TF_DIR_EGRESS] ->
  tc_sees m now k direction = Some (d, o) -> record_ok o.
Proof.
  intros Hm (Hb & Hifi & Htk) Hnow Hdir. unfold tc_sees.
  destruct (config_map m) as [cfg|]; [|done]. cbn [mbind option_bind].
  destruct (frame_obs _ _ _ _) as [a|] eqn:E; [|done]. cbn [mbind option_bind].
  pose proof (frame_obs_found _ _ _ _ _ Hb (skb_vid_range k) E) as Hf. intros H%(inj Some).
  change o with (snd (d, o)). rewrite <- H. eapply decided_ok; [done | exact Hf | | | done | done | done].
  - eapply same_probe_trans; [apply device_vni_same | apply tunnel_vni_same].
  - apply tunnel_vni_kind; [done |]. apply device_vni_kind; [apply Hm |].
    destruct Hf as (_ & _ & _ & [[-> ?]|[-> ->]]); (split; [unfold fits; cbn; lia | set_solver]).
Qed.

(** ** XDP and TC *)

(** The packet of an XDP hook as the TC hook would see it. *)
Definition skb_of (x : xdp_md) : skb := mkSkb (xd_data x) (xd_ifindex x) false 0 None.

Lemma xdp_sees_tc m now x : xdp_sees m now x = tc_sees m now (skb_of x) TF_DIR_INGRESS.
Proof.
  unfold xdp_sees, tc_sees, skb_of, skb_vid. cbn [sk_data sk_ifindex sk_vlan_present sk_tunnel].
  destruct (config_map m) as [cfg|]; [|done]. cbn [mbind option_bind].
  destruct (frame_obs _ _ _ _) as [a|]; [|done]. cbn [mbind option_bind]. unfold tunnel_vni. by destruct (_ =? 0).
Qed.

(** C27: Kernel and agent agree on the record.  The program keeps its maps well
    typed: whatever packets it sees at the TC or the XDP hook, every record in the
    ring buffer has each field within its C type and within the values the agent
    knows (version 4 or 6, the four protocols, a 12-bit VLAN id, the two directions,
    actions and interface types), and the agent decodes the 88 bytes of each record
    to exactly these fields. *)
Theorem kernel_records_decode now reserve k direction m v m' :
  maps_ok m -> skb_ok k -> fits 8 now -> direction ∈ [TF_DIR_INGRESS; TF_DIR_EGRESS] ->
  Bpf.handle now reserve k direction m = Ret (v, m')
  \/ traceflow_xdp now reserve (mkXdp (sk_data k) (sk_ifindex k)) m = Ret (v, m') ->
  maps_ok m' /\ forall o rest, o ∈ events m' -> Parse (raw_bytes o ++ rest) = Some o.
Proof.
  intros Hm Hk Hnow Hdir H. pose proof Hk as (Hb & Hifi & _).
  assert (Hok : maps_ok m').
  { destruct H as [H | H].
    - rewrite handle_bpf_spec in H by done.
      destruct (tc_sees m now k direction) as [[d o]|] eqn:E; injection H as _ <-; [|done].
      apply recorded_ok; [|done]. by eapply tc_record_ok.
    - rewrite xdp_spec in H by done.
      destruct (xdp_sees m now _) as [[d o]|] eqn:E; injection H as _ <-; [|done].
      apply recorded_ok; [|done]. rewrite xdp_sees_tc in E. eapply tc_record_ok; [done | | done | | exact E].
      + by split_and!.
      + set_solver. }
  split; [done |]. intros o rest Ho. destruct Hok as [He _ _]. rewrite Forall_forall in He.
  destruct (He o Ho) as (Hraw & _). by apply Parse_record.
Qed.

(** A frame with its outermost tag in the packet bytes. *)
Definition tagged (tci : Z) (frame : bytes) : bytes :=
  take 12 frame ++ be_encode 2 ETH_P_8021Q ++ be_encode 2 tci ++ drop 12 frame.

Definition untagged (frame : bytes) : Prop :=
  (14 <= length frame)%nat /\ (be_field frame 12 2 =? EtherTypeVLAN) || (be_field frame 12 2 =? 0x88A8) = false.

Lemma l2_of_untagged frame : untagged frame ->
  l2_of frame = Some (mkL2 (take 6 frame) (take 6 (drop 6 frame)) (be_field frame 12 2) 0 (drop 14 frame)).
Proof.
  intros [Hl He]. unfold l2_of. destruct (Nat.ltb_spec (length frame) 14); [lia |].
  cbn [vlan_tags]. by rewrite He.
Qed.

Lemma l2_of_tagged tci frame : 0 <= tci < 65536 -> untagged frame ->
  l2_of (tagged tci frame)
  = Some (mkL2 (take 6 frame) (take 6 (drop 6 frame)) (be_field frame 12 2) (Z.land tci 0x0FFF) (drop 14 frame)).
Proof.
  intros Ht [Hl He]. do 14 (destruct frame as [|? frame]; [cbn in Hl; lia |]). clear Hl.
  assert (Hv : be_decode (be_encode 2 tci) = tci) by (rewrite be_decode_2; by apply u16_small).
  set (et := be_field _ 12 2) in *. unfold tagged.
  change (be_encode 2 tci) with [u8 (Z.shiftr tci 8); u8 (Z.shiftr tci 0)] in *.
  set (b1 := u8 _) in *. set (b2 := u8 (Z.shiftr tci 0)) in *. clearbody b1 b2.
  unfold l2_of. cbn [take app drop length Nat.ltb Nat.leb be_encode]. cbn [vlan_tags].
  match goal with |- context [be_field ?f 14 2] => change (be_field f 14 2) with (be_decode [b1; b2]) end.
  match goal with |- context [be_field ?f (14 + 2) 2] => change (be_field f (14 + 2) 2) with et end.
  rewrite Hv, He. reflexivity.
Qed.

Lemma vxlan_obs_tagged tci frame a :
  0 <= tci < 65536 -> untagged frame -> vxlan_obs (tagged tci frame) a = vxlan_obs frame a.
Proof.
  intros Ht Hu. unfold vxlan_obs, vxlan_of. rewrite l2_of_tagged, l2_of_untagged by done. cbn [etherType l3].
  destruct (udp_of _ _) as [[[osrc odst] l4]|]; [|done]. by destruct (_ || _).
Qed.

Lemma frame_obs_tagged mode tci frame a :
  0 <= tci < 65536 -> untagged frame ->
  frame_obs mode (tagged tci frame) 0 a = frame_obs mode frame (Z.land tci 0x0FFF) a.
Proof.
  intros Ht Hu. unfold frame_obs, regular_obs. rewrite vxlan_obs_tagged, l2_of_tagged, l2_of_untagged by done.
  cbn [mbind option_bind etherType l3 vlan]. change (0 =? 0) with true. cbv iota.
  replace (if Z.land tci 0x0FFF =? 0 then 0 else Z.land tci 0x0FFF) with (Z.land tci 0x0FFF); [done |].
  by destruct (Z.eqb_spec (Z.land tci 0x0FFF) 0).
Qed.

(** C28: XDP sees what TC sees.  For every packet without tunnel metadata the XDP
    program records and decides the same as the TC program on ingress: on the same
    bytes, and also when the network card has taken the VLAN tag out of the packet
    before TC, while XDP still finds it in the bytes. *)
Theorem xdp_sees_what_tc_sees now reserve k m :
  let x := mkXdp (if sk_vlan_present k then tagged (sk_vlan_tci k) (sk_data k) else sk_data k) (sk_ifindex k) in
  bytes_ok (sk_data k) -> sk_tunnel k = None ->
  (sk_vlan_present k = true -> untagged (sk_data k) /\ 0 <= sk_vlan_tci k < 65536) ->
  exists (d : bool) m',
    traceflow_ingress now reserve k m = Ret (if d then TC_ACT_SHOT else TC_ACT_OK, m')
    /\ traceflow_xdp now reserve x m = Ret (if d then XDP_DROP else XDP_PASS, m').
Proof.
  intros x Hb Htun Htag.
  assert (Hx : bytes_ok (xd_data x)).
  { subst x. cbn. destruct (sk_vlan_present k); [|done]. unfold tagged. rewrite !bytes_ok_app.
    split_and!; [by apply bytes_ok_take | apply be_encode_ok.. | by apply bytes_ok_drop]. }
  assert (Hs : xdp_sees m now x = tc_sees m now k TF_DIR_INGRESS).
  { rewrite xdp_sees_tc. unfold tc_sees, skb_of, skb_vid. subst x.
    cbn [sk_data sk_ifindex sk_vlan_present sk_tunnel xd_data xd_ifindex]. rewrite Htun.
    destruct (config_map m) as [cfg|]; [|done]. cbn [mbind option_bind].
    destruct (sk_vlan_present k); [|done]. destruct (Htag eq_refl) as [Hu Ht].
    rewrite frame_obs_tagged by done. pose proof (land_fff (sk_vlan_tci k)). by rewrite u16_small by lia. }
  unfold traceflow_ingress. rewrite handle_bpf_spec, xdp_spec, Hs by done.
  destruct (tc_sees m now k TF_DIR_INGRESS) as [[d o]|]; [by exists d, (recorded reserve o m) | by exists false, m].
Qed.

(** ** A probe in clear *)

(** The probe a frame carries: addresses, protocol, segment, family, payload. *)
Record probe := mkProbe {
  pb_l2 : l2info; pb_src : bytes; pb_dst : bytes; pb_proto : Z; pb_seg : bytes; pb_v6 : bool; pb_pay : bytes
}.

Definition carries (frame : bytes) (b : probe) : Prop :=
  l2_of frame = Some (pb_l2 b)
  /\ marked_of (etherType (pb_l2 b)) (l3 (pb_l2 b)) = Some (pb_src b, pb_dst b, pb_proto b, pb_seg b, pb_v6 b)
  /\ Z.shiftr (nth 0 (l3 (pb_l2 b)) 0) 4 = version (pb_v6 b)
  /\ payload_of (pb_proto b) (pb_seg b) = Some (pb_pay b)
  /\ marked_payload (pb_pay b) = true.

(** The observation of the probe before the VNI and the verdict. *)
Definition probe_raw (b : probe) (ity vni vid direction ifindex : Z) : Raw :=
  mkRaw (le_decode (take 8 (drop 22 (pb_pay b)))) 0 (take 16 (drop 4 (pb_pay b)))
    (pad16 (pb_v6 b) (pb_src b)) (pad16 (pb_v6 b) (pb_dst b)) vni ifindex
    (port_at (pb_proto b) (pb_seg b) 0) (port_at (pb_proto b) (pb_seg b) 2) vid
    (version (pb_v6 b)) (hop_of (pb_v6 b) (l3 (pb_l2 b))) direction 0 (pb_proto b)
    (tcp_flags_of (pb_proto b) (pb_seg b)) ity.

Lemma ext_walk_transport n pr l p : payload_of pr l = Some p -> ext_walk n pr l = Some (pr, l).
Proof.
  intros H%payload_of_suffix. destruct H as [_ H]. destruct n as [|n]; [done |]. cbn [ext_walk].
  rewrite !elem_of_cons, elem_of_nil in H. by destruct H as [->|[->|[->|[->|[]]]]].
Qed.

Lemma carries_obs frame b ity vni vid direction ifindex :
  carries frame b ->
  ip_obs (etherType (pb_l2 b)) (l3 (pb_l2 b)) (put_l2 ity vni vid (start direction ifindex))
  = Some (mkAttempt (probe_raw b ity vni vid direction ifindex) (meta_flags (pb_pay b))).
Proof.
  intros (_ & Hm & Hv & Hp & Hmp). unfold ip_obs. rewrite Hm, Hv, Z.eqb_refl.
  assert ((if pb_v6 b then ext_walk 4 (pb_proto b) (pb_seg b) else Some (pb_proto b, pb_seg b))
          = Some (pb_proto b, pb_seg b)) as ->
    by (destruct (pb_v6 b); [by eapply ext_walk_transport | done]).
  cbn [mbind option_bind]. unfold l4_obs. rewrite Hp. cbn [mbind option_bind]. by rewrite Hmp.
Qed.

Lemma carries_regular frame b sv direction ifindex :
  carries frame b ->
  regular_obs frame sv (start direction ifindex)
  = Some (mkAttempt (probe_raw b IfaceRegular 0 (if vlan (pb_l2 b) =? 0 then sv else vlan (pb_l2 b)) direction ifindex)
            (meta_flags (pb_pay b))).
Proof. intros Hb. unfold regular_obs. rewrite (proj1 Hb). exact (carries_obs _ _ _ _ _ _ _ Hb). Qed.

(** The interface sees plain frames: its device has no VNI, the packet no tunnel. *)
Definition plain_device (m : maps) (k : skb) : Prop :=
  iface_vni m !! sk_ifindex k = None /\ sk_tunnel k = None.

Lemma not_vxlan_obs frame a : looks_vxlan frame = false -> vxlan_obs frame a = None.
Proof.
  unfold looks_vxlan, vxlan_obs, vxlan_of. destruct (l2_of frame) as [l2|]; [|done].
  destruct (udp_of _ _) as [[[osrc odst] l4]|]; [|done].
  destruct (Nat.leb_spec 8 (length l4)), (Nat.ltb_spec (length l4) 8); try lia; cbn [andb orb]; [|done].
  by destruct (be_field l4 2 2 =? VXLANPort).
Qed.

(** The mode parses plain frames, and the frame does not look like a tunnel. *)
Definition seen_plain (mode : Z) (frame : bytes) : Prop :=
  mode = IfaceRegular \/ mode = IfaceAuto /\ looks_vxlan frame = false.

Definition frame_vid (k : skb) (b : probe) : Z := if vlan (pb_l2 b) =? 0 then skb_vid k else vlan (pb_l2 b).

Lemma clear_seen m cfg now k direction b :
  config_map m = Some cfg -> plain_device m k -> carries (sk_data k) b -> seen_plain (c_IfaceType cfg) (sk_data k) ->
  tc_sees m now k direction
  = Some (decided m cfg now (meta_flags (pb_pay b))
            (probe_raw b IfaceRegular 0 (frame_vid k b) direction (sk_ifindex k))).
Proof.
  intros Hc [Hdev Htun] Hb Hmode. unfold tc_sees. rewrite Hc. cbn [mbind option_bind].
  assert (frame_obs (c_IfaceType cfg) (sk_data k) (skb_vid k) (start direction (sk_ifindex k))
          = Some (mkAttempt (probe_raw b IfaceRegular 0 (frame_vid k b) direction (sk_ifindex k))
                    (meta_flags (pb_pay b)))) as ->.
  { pose proof (carries_regular _ b (skb_vid k) direction (sk_ifindex k) Hb) as Hr.
    unfold frame_obs. destruct Hmode as [->|[-> Hl]]; [exact Hr |].
    rewrite (not_vxlan_obs _ _ Hl). exact Hr. }
  cbn [mbind option_bind obs mflags]. unfold device_vni, tunnel_vni. cbn [VNI probe_raw]. by rewrite Hdev, Htun.
Qed.

Lemma do_drop_plain m cfg b vid direction ifindex :
  do_drop m cfg (meta_flags (pb_pay b)) (probe_raw b IfaceRegular 0 vid direction ifindex)
  = negb (nth 21 (pb_pay b) 0 =? 0) && (nth 20 (pb_pay b) 0 =? 0)
    && bool_decide (is_Some (local_ips m !! pad16 (pb_v6 b) (pb_dst b)))
    && negb (c_Respond cfg =? 0) && (negb (pb_proto b =? ProtoTCP) || negb (c_TCPRespond cfg =? 0)).
Proof.
  unfold do_drop, dst_is_local, meta_flags. cbn [RawDstIP RawIfaceType Protocol probe_raw].
  change (negb (IfaceRegular =? TF_IFACE_VXLAN)) with true. rewrite andb_true_r.
  change TF_PROTO_TCP with ProtoTCP.
  by destruct (nth 20 (pb_pay b) 0 =? 0), (nth 21 (pb_pay b) 0 =? 0).
Qed.

(** ** What is recorded of a probe on its way *)

(** A marked packet after [h] hops: each router takes one from the hop limit. *)
Definition hop_packet (v6 : bool) (h pr : Z) (src dst seg : bytes) : bytes :=
  if v6 then ipv6_bytes ToS (TTLMax - h) pr src dst seg else ipv4_bytes ToS (TTLMax - h) pr src dst seg.

Lemma hop_packet_zero v6 pr src dst seg : hop_packet v6 0 pr src dst seg = ip_bytes v6 pr src dst seg.
Proof. by destruct v6. Qed.

Lemma hop_packet_marked v6 h pr src dst seg :
  0 <= h < 256 ->
  let l3 := hop_packet v6 h pr src dst seg in
  marked_of (et_of v6) l3 = Some (addr v6 src, addr v6 dst, pr, seg, v6)
  /\ Z.shiftr (nth 0 l3 0) 4 = version v6 /\ hop_of v6 l3 = h.
Proof.
  intros Hh. cbv zeta. unfold marked_of, hop_packet, et_of, addr. destruct v6.
  - change (EtherTypeIPv6 =? EtherTypeIPv4) with false. cbn [Z.eqb].
    rewrite ip6_of_bytes by by split. split_and!; [reflexivity | reflexivity |].
    unfold hop_of. change (nth 7 (ipv6_bytes _ _ _ _ _ _) 0) with (TTLMax - h).
    unfold TTLMax. rewrite u8_small; lia.
  - rewrite ip4_of_bytes. split_and!; [reflexivity | reflexivity |].
    unfold hop_of. change (nth 8 (ipv4_bytes _ _ _ _ _ _) 0) with (TTLMax - h).
    unfold TTLMax. rewrite u8_small; lia.
Qed.

(** The payload of a run: the control block, signed, and anything after it. *)
Lemma signed_payload (meta : Meta) (key rest : bytes) :
  Meta_ok meta ->
  let p := signed_bytes meta key ++ rest in
  marked_payload p = true /\ take 16 (drop 4 p) = ID meta /\ le_decode (take 8 (drop 22 p)) = Timestamp meta
  /\ nth 20 p 0 = b2z (Deliver meta) /\ nth 21 p 0 = b2z (NeedResponse meta).
Proof.
  intros Hm. unfold signed_bytes. rewrite <- app_assoc. cbv zeta.
  match goal with |- context [core_bytes meta ++ ?x] => generalize x end. intros r.
  destruct (Unmarshal_inr _ _ (Unmarshal_core meta r Hm)) as (Hl & Hmagic & Hdec).
  pose proof (f_equal ID Hdec) as Hid. pose proof (f_equal Timestamp Hdec) as Hts. cbn [decoded ID Timestamp] in Hid, Hts.
  split_and!; [| done | done | |].
  - unfold marked_payload. rewrite Hmagic. unfold MetaSize in *. lia.
  - destruct meta as [id d n ts], Hm as (Hlen & _ & _). cbn [ID] in Hlen. explode id Hlen. reflexivity.
  - destruct meta as [id d n ts], Hm as (Hlen & _ & _). cbn [ID] in Hlen. explode id Hlen. reflexivity.
Qed.

(** The record of a probe: what the client put in, where it is seen, what is done. *)
Definition probe_record (meta : Meta) (v6 : bool) (h pr : Z) (src dst seg : bytes)
  (ity vni vid now direction ifindex : Z) (dropped : bool) : Raw :=
  mkRaw (Timestamp meta) now (ID meta) (pad16 v6 (addr v6 src)) (pad16 v6 (addr v6 dst)) vni ifindex
    (port_at pr seg 0) (port_at pr seg 2) vid (version v6) h direction
    (if dropped then TF_ACT_INTERCEPTED else TF_ACT_FORWARDED) pr (tcp_flags_of pr seg) ity.

Section on_the_way.
Context (meta : Meta) (key rest : bytes) (v6 : bool) (h pr : Z) (src dst seg : bytes).
Context (mac1 mac2 : bytes) (vl : Z).
Hypothesis (Hmeta : Meta_ok meta).
Hypothesis (Hseg : payload_of pr seg = Some (signed_bytes meta key ++ rest)).
Hypothesis (Hh : 0 <= h < 256).
Hypothesis (Hvl : 0 <= vl < 4096).

(** The frame of the probe. *)
Definition probe_frame : bytes := frame_bytes mac1 mac2 vl (et_of v6) (hop_packet v6 h pr src dst seg).

Definition the_probe : probe :=
  mkProbe (mkL2 (field 6 mac1) (field 6 mac2) (et_of v6) vl (hop_packet v6 h pr src dst seg))
    (addr v6 src) (addr v6 dst) pr seg v6 (signed_bytes meta key ++ rest).

Lemma the_probe_carried : carries probe_frame the_probe.
Proof.
  destruct (hop_packet_marked v6 h pr src dst seg Hh) as (Hm & Hv & _).
  unfold carries, the_probe, probe_frame. cbn. split_and!; [by apply l2_of_frame | done | done | done |].
  by apply signed_payload.
Qed.

Lemma the_probe_raw ity vni vid now direction ifindex d :
  put_action (if d : bool then TF_ACT_INTERCEPTED else TF_ACT_FORWARDED) now
    (probe_raw the_probe ity vni vid direction ifindex)
  = probe_record meta v6 h pr src dst seg ity vni vid now direction ifindex d.
Proof.
  destruct (signed_payload meta key rest Hmeta) as (_ & Hid & Hts & _).
  destruct (hop_packet_marked v6 h pr src dst seg Hh) as (_ & _ & Hhop).
  unfold put_action, probe_raw, probe_record, the_probe. cbn -[signed_bytes le_decode take drop hop_of hop_packet].
  by rewrite Hid, Hts, Hhop.
Qed.

(** Whether the probe is dropped by an agent with these maps. *)
Definition intercepted (m : maps) (cfg : tfConfig) : bool :=
  NeedResponse meta && negb (Deliver meta)
  && bool_decide (is_Some (local_ips m !! pad16 v6 (addr v6 dst)))
  && negb (c_Respond cfg =? 0) && (negb (pr =? ProtoTCP) || negb (c_TCPRespond cfg =? 0)).

Lemma the_probe_drop m cfg vid direction ifindex :
  do_drop m cfg (meta_flags (pb_pay the_probe)) (probe_raw the_probe IfaceRegular 0 vid direction ifindex)
  = intercepted m cfg.
Proof.
  rewrite do_drop_plain. destruct (signed_payload meta key rest Hmeta) as (_ & _ & _ & Hd & Hn).
  cbn [pb_pay pb_v6 pb_dst pb_proto the_probe]. rewrite Hd, Hn. unfold intercepted.
  by destruct (Deliver meta), (NeedResponse meta).
Qed.

(** C16: A probe is observed as it was sent.  For every probe of a run (any protocol
    the client speaks, IPv4 or IPv6, with or without a signature and with anything
    after the control block) after any number of hops below 256, each interface
    whose program is configured records it once, with the run id and the send time
    of the control block, the addresses, ports and TCP flags of its headers, the
    VLAN tag, and as hop the number of routers passed.  It is dropped exactly when
    it asks for an answer and not for delivery, its destination is registered, and
    the agent answers the protocol.  Seen through a VXLAN tunnel the same is
    recorded with the VNI and the tag of the tenant, and it is never dropped. *)
Theorem probe_is_observed m cfg now reserve k direction :
  config_map m = Some cfg -> plain_device m k -> bytes_ok (sk_data k) ->
  (sk_data k = probe_frame -> seen_plain (c_IfaceType cfg) probe_frame ->
     Bpf.handle now reserve k direction m
     = Ret (if intercepted m cfg then TC_ACT_SHOT else TC_ACT_OK,
            recorded reserve
              (probe_record meta v6 h pr src dst seg IfaceRegular 0 (if vl =? 0 then skb_vid k else vl)
                 now direction (sk_ifindex k) (intercepted m cfg)) m))
  /\ (forall omac1 omac2 ovl o6 sport osrc odst vni,
     0 <= ovl < 4096 -> 0 < vni < 16777216 -> c_IfaceType cfg = IfaceVXLAN \/ c_IfaceType cfg = IfaceAuto ->
     sk_data k = frame_bytes omac1 omac2 ovl (et_of o6)
                   (underlay_bytes o6 sport osrc odst (vxlan_bytes vni probe_frame)) ->
     Bpf.handle now reserve k direction m
     = Ret (TC_ACT_OK,
            recorded reserve
              (probe_record meta v6 h pr src dst seg IfaceVXLAN vni vl now direction (sk_ifindex k) false) m)).
Proof.
  intros Hc Hdev Hb. split.
  - intros Hk Hpl. rewrite handle_bpf_spec by done. rewrite <- Hk in Hpl.
    rewrite (clear_seen m cfg now k direction the_probe) by (done || (rewrite Hk; apply the_probe_carried)).
    unfold decided. rewrite the_probe_drop, the_probe_raw. done.
  - intros omac1 omac2 ovl o6 sport osrc odst vni Hovl Hvni Hmode Hk.
    rewrite handle_bpf_spec by done. unfold tc_sees. rewrite Hc. cbn [mbind option_bind].
    assert (vxlan_obs (sk_data k) (start direction (sk_ifindex k))
            = Some (mkAttempt (probe_raw the_probe IfaceVXLAN vni vl direction (sk_ifindex k))
                      (meta_flags (pb_pay the_probe)))) as Hv.
    { unfold vxlan_obs. rewrite Hk, vxlan_of_bytes by lia. cbn [mbind option_bind].
      pose proof the_probe_carried as Hcar. rewrite (proj1 Hcar).
      exact (carries_obs _ _ _ _ _ _ _ Hcar). }
    assert (frame_obs (c_IfaceType cfg) (sk_data k) (skb_vid k) (start direction (sk_ifindex k))
            = Some (mkAttempt (probe_raw the_probe IfaceVXLAN vni vl direction (sk_ifindex k))
                      (meta_flags (pb_pay the_probe)))) as ->
      by (unfold frame_obs; by destruct Hmode as [->| ->]; rewrite Hv).
    cbn [mbind option_bind obs mflags]. unfold device_vni, tunnel_vni. cbn [VNI probe_raw].
    rewrite !(proj2 (Z.eqb_neq vni 0)) by lia. cbn [VNI probe_raw]. rewrite !(proj2 (Z.eqb_neq vni 0)) by lia.
    unfold decided. rewrite the_probe_raw.
    assert (do_drop m cfg (meta_flags (pb_pay the_probe))
      (probe_raw the_probe IfaceVXLAN vni vl direction (sk_ifindex k)) = false) as ->; [|done].
    unfold do_drop. cbn [RawIfaceType probe_raw]. change (negb (IfaceVXLAN =? TF_IFACE_VXLAN)) with false.
    by rewrite andb_false_r.
Qed.
End on_the_way.

(** ** Instances *)

(** An agent in AUTO mode whose VM 10.0.0.2 is registered, and an echo request for
    it after three hops, on VLAN 7. *)
Definition bpf_maps : maps :=
  mkMaps (Some (mkTfConfig IfaceAuto 1 1)) ∅ {[ demo_vm ++ make 12 := 1 ]} [] 0 0.
Definition bpf_seg : bytes := icmp_bytes ICMPEchoRequest 0x1234 1 demo_pay.
Definition bpf_frame : bytes := Eval vm_compute in
  probe_frame false 3 ProtoICMP demo_client demo_vm bpf_seg demo_mac2 demo_mac1 7.
Definition bpf_skb (frame : bytes) : skb := mkSkb frame 3 false 0 None.
Definition bpf_record : Raw := Eval vm_compute in
  probe_record demo_meta false 3 ProtoICMP demo_client demo_vm bpf_seg IfaceRegular 0 7 42 TF_DIR_INGRESS 3 true.

Lemma bpf_skb_ok : skb_ok (bpf_skb bpf_frame).
Proof. split; [compute_decide |]. split; [unfold fits; cbn; lia | done]. Qed.


Lemma kernel_records_decode_witness :
  Bpf.handle 42 true (bpf_skb bpf_frame) TF_DIR_INGRESS bpf_maps
    = Ret (TC_ACT_SHOT, recorded true bpf_record bpf_maps)
  /\ maps_ok (recorded true bpf_record bpf_maps)
  /\ forall o rest, o ∈ events (recorded true bpf_record bpf_maps) -> Parse (raw_bytes o ++ rest) = Some o.
Proof.
  split; [vm_compute; reflexivity |].
  apply (kernel_records_decode 42 true (bpf_skb bpf_frame) TF_DIR_INGRESS bpf_maps TC_ACT_SHOT).
  - split; [by apply Forall_nil_2 | intros i v; cbn; by rewrite lookup_empty | unfold fits; cbn; lia].
  - exact bpf_skb_ok.
  - unfold fits. cbn. lia.
  - apply list_elem_of_here.
  - left. vm_compute. reflexivity.
Defined.

(** The tag 7 taken out by the card, and left in the bytes. *)
Lemma xdp_sees_what_tc_sees_witness :
  exists (d : bool) m',
    traceflow_ingress 42 true (mkSkb demo_icmp 3 true 7 None) bpf_maps = Ret (if d then TC_ACT_SHOT else TC_ACT_OK, m')
    /\ traceflow_xdp 42 true (mkXdp (tagged 7 demo_icmp) 3) bpf_maps = Ret (if d then XDP_DROP else XDP_PASS, m').
Proof.
  apply (xdp_sees_what_tc_sees 42 true (mkSkb demo_icmp 3 true 7 None) bpf_maps).
  - compute_decide.
  - reflexivity.
  - intros _. split; [split; [cbn; lia | vm_compute; reflexivity] | cbn; lia].
Defined.

Lemma demo_meta_ok : Meta_ok demo_meta.
Proof. split; [reflexivity |]. split; [compute_decide | cbn; lia]. Qed.

Lemma probe_is_observed_witness :
  Bpf.handle 42 true (bpf_skb bpf_frame) TF_DIR_INGRESS bpf_maps
  = Ret (TC_ACT_SHOT, recorded true bpf_record bpf_maps).
Proof.
  apply (probe_is_observed demo_meta demo_key [] false 3 ProtoICMP demo_client demo_vm bpf_seg demo_mac2 demo_mac1 7
    demo_meta_ok) with (cfg := mkTfConfig IfaceAuto 1 1).
  - vm_compute. reflexivity.
  - lia.
  - lia.
  - reflexivity.
  - split; reflexivity.
  - exact (proj1 bpf_skb_ok).
  - vm_compute. reflexivity.
  - right. split; [reflexivity | vm_compute; reflexivity].
Defined.

(** When the card takes the outer tag out of a frame with two, TC reports the inner
    tag and XDP the outer. *)
Definition bpf_vids (r : go (Z * maps)) : list Z :=
  match r with Ret (_, m) => map VLANID (events m) | Panic => [] end.
Example double_tag_offload :
  bpf_vids (traceflow_ingress 42 true (mkSkb (tagged 5 demo_icmp) 3 true 7 None) bpf_maps) = [5]
  /\ bpf_vids (traceflow_xdp 42 true (mkXdp (tagged 7 (tagged 5 demo_icmp)) 3) bpf_maps) = [7].
Proof. vm_compute. done. Qed.
