(* ===== verification/BpfAgree.v ===== *)
(** The eBPF program and the agent's responder: the kernel drops exactly the probes
    that the agent answers, for an interface with the agent's own addresses and for
    every state of the tap watcher; and the packets for which the two disagree. *)
From S2P Require Import Prelude Observation AgentMain Bpf.
From S2P Require Import GoStd TfMeta Pkt PktProps Responder ResponderSpec Wire Demo ResponderProps BpfSpec BpfProps.
From S2P Require Import Attach Watch WatchProps.
From S2P Require Import Responder.

Local Open Scope Z_scope.

(** ** Keys of addresses *)

(** An address of a VM: IPv4, or IPv6 that is not the IPv4 key of another address. *)
Definition valid_addr (ip : bytes) : Prop :=
  length ip = 4%nat \/ length ip = 16%nat /\ (Net.To4 ip = [] -> drop 4 ip ≠ make 12).

(** The destination of a packet of its family, not an IPv4 address in disguise. *)
Definition plain_addr (v6 : bool) (ip : bytes) : Prop :=
  length ip = (if v6 then 16 else 4)%nat /\ (v6 = true -> Net.To4 ip = [] /\ drop 4 ip ≠ make 12).

Lemma plain_valid v6 ip : plain_addr v6 ip -> valid_addr ip /\ ebpf_key ip = pad16 v6 ip.
Proof.
  intros [Hl Hp]. unfold valid_addr, ebpf_key, pad16, addr4, addr6. destruct v6; cbn [andb] in Hl.
  - destruct (Hp eq_refl) as [H4 Hz]. rewrite H4, Net.To16_16, field_id by done.
    split; [right; split; [done | intros _; exact Hz] | done].
  - rewrite Net.To4_4, (field_id 4) by done. rewrite Hl. split; [by left | done].
Qed.

Lemma To16_of_To4 ip : length ip = 4%nat \/ length ip = 16%nat -> Net.To4 ip ≠ [] ->
  Net.To16 ip = Net.v4InV6Prefix ++ Net.To4 ip.
Proof.
  intros Hl Hn. unfold Net.To16, Net.To4 in *. destruct Hl as [Hl|Hl]; rewrite Hl in *; cbn [Nat.eqb andb] in Hn |- *; [done |].
  case_bool_decide as Hp; [|done]. by rewrite <- Hp, take_drop.
Qed.

(** The key tells addresses apart as the responder does. *)
Lemma key_addr6 x y : valid_addr x -> valid_addr y -> (ebpf_key x = ebpf_key y <-> addr6 x = addr6 y).
Proof.
  assert (H16 : forall z, valid_addr z -> addr6 z = Net.To16 z /\ length (Net.To16 z) = 16%nat).
  { intros z [Hz|[Hz _]]; unfold addr6.
    - rewrite Net.To16_4 by done. rewrite field_id; rewrite length_app, Hz; done.
    - by rewrite Net.To16_16, field_id by done. }
  assert (Hlen : forall z, valid_addr z -> length z = 4%nat \/ length z = 16%nat) by (intros z [?|[? _]]; auto).
  assert (Hkey : forall z, valid_addr z -> ebpf_key z = if decide (Net.To4 z = []) then Net.To16 z else Net.To4 z ++ make 12).
  { intros z Hz. unfold ebpf_key. destruct (H16 z Hz) as [-> _]. destruct (decide _) as [-> | Hn]; [done |].
    destruct (Net.length_To4 z) as [H0|H4]; [by destruct (Net.To4 z) |]. unfold addr4. by rewrite H4, field_id. }
  assert (Hmix : forall a b, valid_addr a -> valid_addr b -> Net.To4 a = [] -> Net.To4 b ≠ [] ->
    Net.To16 a ≠ Net.To4 b ++ make 12).
  { intros a b Ha Hb Ha4 Hb4 He. destruct (Net.length_To4 b) as [H0|H4]; [by destruct (Net.To4 b) |].
    destruct Ha as [Ha|[Ha Hz]]; [rewrite Net.To4_4 in Ha4 by done; by rewrite Ha4 in Ha |].
    rewrite Net.To16_16 in He by done. apply (Hz Ha4). rewrite He. by rewrite drop_app_length'. }
  intros Hx Hy. rewrite (Hkey x Hx), (Hkey y Hy), (proj1 (H16 x Hx)), (proj1 (H16 y Hy)).
  pose proof (Net.To4_To16 x) as Ex. pose proof (Net.To4_To16 y) as Ey.
  destruct (decide (Net.To4 x = [])) as [Zx|Zx], (decide (Net.To4 y = [])) as [Zy|Zy].
  - done.
  - split; [intros H; by destruct (Hmix x y) | intros H; congruence].
  - split; [intros H; by destruct (Hmix y x) | intros H; congruence].
  - rewrite !To16_of_To4 by auto. split; [intros H%(inj (.++ make 12)); by rewrite H |].
    intros H%(inj (Net.v4InV6Prefix ++.)). by rewrite H.
Qed.

(** A responder and the map of the program that were given the same addresses. *)
Lemma same_addresses ips v6 ip :
  Forall valid_addr ips -> plain_addr v6 ip ->
  is_Some (put_all ips ∅ !! pad16 v6 ip)
  <-> foldl (fun m ip => <[addr6 ip := true]> m) (∅ : gmap bytes bool) ips !! addr6 ip = Some true.
Proof.
  intros Hv Hp. destruct (plain_valid _ _ Hp) as [Hip Hk]. rewrite <- Hk. unfold put_all.
  enough (forall (m1 : gmap bytes Z) (m2 : gmap bytes bool),
    (is_Some (m1 !! ebpf_key ip) <-> m2 !! addr6 ip = Some true) ->
    is_Some (foldl (fun m ip => <[ebpf_key ip := 1]> m) m1 ips !! ebpf_key ip)
    <-> foldl (fun m ip => <[addr6 ip := true]> m) m2 ips !! addr6 ip = Some true) as H.
  { apply H. rewrite !lookup_empty. split; [by intros [? [=]] | done]. }
  induction Hv as [|x ips Hx _ IH]; intros m1 m2 Hm; [done |]. cbn [foldl]. apply IH.
  pose proof (key_addr6 x ip Hx Hip) as Hxi.
  destruct (decide (addr6 x = addr6 ip)) as [E|E].
  - rewrite (proj2 Hxi E), E, !lookup_insert_eq. split; [done | by eexists].
  - rewrite !lookup_insert_ne by (try done; intros H; by apply E, Hxi). done.
Qed.

(** ** The kernel drops what the agent answers *)

(** The agent that answers for an interface, and what it put in the maps. *)
Record agrees (r : responder) (cfg : tfConfig) (m : maps) : Prop := {
  ag_mode : c_IfaceType cfg = ifType r;
  ag_respond : c_Respond cfg ≠ 0;
  ag_tcp : tcpRespond r = negb (c_TCPRespond cfg =? 0);
  ag_local : forall v6 ip, plain_addr v6 ip ->
    is_Some (local_ips m !! pad16 v6 ip) <-> local r ip = true
}.

(** What a client with the agent's key sends: flags that are 0 or 1, an
    authenticator, in TCP a segment the connection machine answers, and in IPv6 an
    address that is no IPv4 address in disguise. *)
Record from_client (key : bytes) (b : probe) : Prop := {
  fc_addr : plain_addr (pb_v6 b) (pb_dst b);
  fc_deliver : nth 20 (pb_pay b) 0 = 0 \/ nth 20 (pb_pay b) 0 = 1;
  fc_need : nth 21 (pb_pay b) 0 = 0 \/ nth 21 (pb_pay b) 0 = 1;
  fc_auth : authentic key (pb_pay b) = true;
  fc_tcp : pb_proto b = ProtoTCP ->
    has_bit (nth 13 (pb_seg b) 0) FlagRST = false
    /\ tcp_class (nth 13 (pb_seg b) 0) (length (pb_pay b)) ≠ KOther
}.

Lemma seen_plain_mode r frame : seen_plain (ifType r) frame -> uses_vxlan r frame = false.
Proof.
  unfold uses_vxlan. intros [->|[-> ->]]; [done |].
  by change ((IfaceAuto =? IfaceVXLAN) || (negb (IfaceAuto =? IfaceRegular) && false)) with false.
Qed.

Lemma l4_answered r b src dst s :
  from_client (hmacKey r) b -> payload_of (pb_proto b) (pb_seg b) = Some (pb_pay b) ->
  is_Some (fst (l4_reply r src dst (pb_proto b) (pb_seg b) (pb_v6 b) s))
  <-> accepts r (pb_pay b) = true /\ (pb_proto b = ProtoTCP -> tcpRespond r = true).
Proof.
  intros [_ _ _ _ Htcp] Hp. unfold l4_reply, payload_of in *.
  destruct ((pb_proto b =? ProtoICMP) || (pb_proto b =? ProtoICMPv6) || (pb_proto b =? ProtoUDP)) eqn:E.
  - destruct (_ <? _)%nat; [done |]. injection Hp as Hp. rewrite Hp.
    assert (pb_proto b ≠ ProtoTCP) as Hne by (intros Hx; by rewrite Hx in E).
    destruct (accepts r (pb_pay b)); cbn [negb]; [|split; [intros [? [=]] | by intros [[=] _]]].
    destruct (_ =? ProtoUDP); (split; [done | by eexists]).
  - destruct (Z.eqb_spec (pb_proto b) ProtoTCP) as [Et|]; [|done]. destruct (Htcp Et) as [Hrst Hk].
    unfold tcp_reply. destruct (tcp_parts (pb_seg b)) as [[[[[sp dp] cs] fl] data]|] eqn:Eparts; [|done].
    assert (fl = nth 13 (pb_seg b) 0) as ->
      by (clear E; revert Eparts; unfold tcp_parts; destruct (_ || _); [done | congruence]).
    cbn in Hp. injection Hp as ->. destruct (tcpRespond r); cbn [negb].
    2: { split; [intros [? [=]] |]. intros [_ H]. by specialize (H Et). }
    rewrite Hrst. destruct (accepts r (pb_pay b)); cbn [negb]; [|split; [intros [? [=]] | by intros [[=] _]]].
    destruct (tcp_class _ _); try done; cbn; split; eauto.
Qed.

Lemma plain_probe_answered r frame b aux s :
  carries frame b -> seen_plain (ifType r) frame -> from_client (hmacKey r) b ->
  is_Some (fst (frame_reply r frame aux s))
  <-> local r (pb_dst b) = true /\ accepts r (pb_pay b) = true /\ (pb_proto b = ProtoTCP -> tcpRespond r = true).
Proof.
  intros (Hl2 & Hm & _ & Hp & _) Hmode Hf. unfold frame_reply. rewrite seen_plain_mode by done.
  unfold regular_reply. rewrite Hl2. unfold ip_reply. rewrite Hm.
  destruct (local r (pb_dst b)); cbn [fst].
  2: { cbn. split; [by intros [? [=]] | by intros [[=] _]]. }
  pose proof (l4_answered r b (pb_src b) (pb_dst b) s Hf Hp) as H.
  destruct (l4_reply _ _ _ _ _ _ _) as [o s']. cbn [fst] in *. rewrite fmap_is_Some. tauto.
Qed.

Lemma accepts_client r b :
  from_client (hmacKey r) b -> marked_payload (pb_pay b) = true ->
  accepts r (pb_pay b) = negb (nth 21 (pb_pay b) 0 =? 0) && (nth 20 (pb_pay b) 0 =? 0).
Proof.
  intros [_ Hd Hn Ha _] Hm. unfold accepts, probe_wants. rewrite Ha. unfold marked_payload in Hm. rewrite Hm.
  destruct Hd as [Hd|Hd], Hn as [Hn|Hn]; by rewrite Hd, Hn.
Qed.

(** An answer is a frame on the wire. *)
Lemma answered_on_wire r frame aux s :
  is_Some (fst (frame_reply r frame aux s))
  <-> exists s', Responder.handle sock_ok r frame aux s = Ret (tt, s') /\ wire s' ≠ wire s.
Proof.
  rewrite handle_spec. destruct (frame_reply r frame aux s) as [o s'] eqn:E.
  destruct (frame_reply_wire _ _ _ _ _ _ E) as [Hw _]. cbn [fst]. destruct o as [f|]; cbn [transmit_opt].
  - split; [|done]. intros _. eexists. split; [reflexivity |]. unfold transmit. cbn. rewrite Hw.
    intros H. apply (f_equal length) in H. rewrite length_app in H. cbn in H. lia.
  - split; [by intros [? [=]] |]. intros (s2 & [= <-] & Hne). by destruct Hne.
Qed.



(** An agent on one interface, with the addresses of --local-ip: what newResponder
    and addLocalIPs were given. *)
Lemma static_agent_agrees ty ips tcp key r cfg m :
  Forall valid_addr ips -> newResponder ty ips tcp key = Ret (r, mkState ∅ 0 0 []) ->
  local_ips m = put_all ips ∅ -> c_IfaceType cfg = ty -> c_Respond cfg ≠ 0 ->
  tcp = negb (c_TCPRespond cfg =? 0) -> agrees r cfg m.
Proof.
  intros Hv Hr Hm Hty Hresp Htcp. unfold newResponder in Hr. rewrite local_set_spec in Hr. injection Hr as <-.
  split; [done | done | done |]. intros v6 ip Hp. rewrite Hm, (same_addresses _ _ _ Hv Hp). unfold local. cbn [localIPs].
  destruct (_ !! addr6 ip) as [[]|]; naive_solver.
Qed.

(** ** The tap watcher *)

(** What run and the watcher put in the maps. *)
Record installed (c : tapConfig) (s : tapState) (cfg : tfConfig) (m : maps) : Prop := {
  in_config : config_map m = Some cfg;
  in_mode : c_IfaceType cfg = m_ifType c;
  in_tcp : c_TCPRespond cfg ≠ 0 -> m_tcpRespond c = true;
  in_local : local_ips m = localIps s
}.

Definition valid_ports (s : tapState) : Prop :=
  forall n att ip, attached s !! n = Some att -> ip ∈ ips att -> valid_addr ip.


(** ** Where the two disagree *)

(** The agent of Demo with an IPv6 VM as well, and its maps. *)
Definition demo_vm6 : bytes := [32; 1; 13; 184; 0; 0; 0; 0; 0; 0; 0; 0; 0; 0; 0; 2].
Definition demo_client6 : bytes := [32; 1; 13; 184; 0; 0; 0; 0; 0; 0; 0; 0; 0; 0; 0; 9].
Definition demo_ips : list bytes := [demo_vm; demo_vm6].
Definition demo_both : responder :=
  mkResponder IfaceAuto (foldl (fun m ip => <[addr6 ip := true]> m) ∅ demo_ips) true demo_key.
Definition demo_tf : tfConfig := mkTfConfig IfaceAuto 1 1.
Definition demo_maps : maps := mkMaps (Some demo_tf) ∅ (put_all demo_ips ∅) [] 0 0.
Definition demo_skb (frame : bytes) : skb := mkSkb frame 3 false 0 None.

Definition dropped (frame : bytes) : bool :=
  match Bpf.handle 0 true (demo_skb frame) TF_DIR_INGRESS demo_maps with
  | Ret (v, _) => v =? TC_ACT_SHOT
  | Panic => false
  end.
Definition replied (frame : bytes) : bool :=
  match Responder.handle sock_ok demo_both frame 0 demo_start with
  | Ret (_, s) => negb (length (wire s) =? 0)%nat
  | Panic => false
  end.

Definition to_vm (seg_proto : Z) (seg : bytes) : bytes :=
  frame_bytes demo_mac2 demo_mac1 0 EtherTypeIPv4 (ip_bytes false seg_proto demo_client demo_vm seg).
Definition to_ip6 (dst : bytes) (nh : Z) (p : bytes) : bytes :=
  frame_bytes demo_mac2 demo_mac1 0 EtherTypeIPv6 (ip_bytes true nh demo_client6 dst p).
Definition echo_of (pay : bytes) : bytes := icmp_bytes ICMPEchoRequest 1 1 pay.
Definition udp_seg (v6 : bool) (src dst : bytes) (dport : Z) : bytes :=
  udp_bytes (ckv v6 ProtoUDP src dst) 40000 dport demo_pay.

(** A probe signed with another key. *)
Definition forged : bytes := to_vm ProtoICMP (echo_of (signed_bytes demo_meta [1; 2; 3])).
(** A UDP probe to the VXLAN port of the VM. *)
Definition to_4789 : bytes := to_vm ProtoUDP (udp_seg false demo_client demo_vm VXLANPort).
(** An IPv6 probe behind a hop-by-hop header. *)
Definition hop_by_hop : bytes :=
  to_ip6 demo_vm6 0 ([ProtoUDP; 0; 1; 4; 0; 0; 0; 0] ++ udp_seg true demo_client6 demo_vm6 53).
(** A TCP segment with the control block and only ACK set. *)
Definition bare_ack : bytes := to_vm ProtoTCP (demo_seg FlagACK 0x2001).
(** Flag bytes that are neither 0 nor 1: need_response, and deliver. *)
Definition need_two : bytes := to_vm ProtoICMP (echo_of (<[21%nat := 2]> (core_bytes demo_meta)
  ++ Sign (<[21%nat := 2]> (core_bytes demo_meta)) demo_key)).
Definition deliver_two : bytes := to_vm ProtoICMP (echo_of (<[20%nat := 2]> (core_bytes demo_meta)
  ++ Sign (<[20%nat := 2]> (core_bytes demo_meta)) demo_key)).
(** IPv6 addresses with the bytes of the VM's IPv4 address: a00:2::, and
    ::ffff:10.0.0.2. *)
Definition to_shadow : bytes := to_ip6 (demo_vm ++ make 12) ProtoUDP (udp_seg true demo_client6 (demo_vm ++ make 12) 53).
Definition to_mapped : bytes :=
  to_ip6 (Net.To16 demo_vm) ProtoUDP (udp_seg true demo_client6 (Net.To16 demo_vm) 53).

(** The packets for which kernel and agent disagree, although the program is
    to drop a probe only when its agent answers it.  Lost without an answer, and
    without reaching the VM: a marked packet that is not signed with the agent's key
    (the program does not look at the signature, so anyone who can send to the VM
    can have such packets swallowed), a UDP probe to port 4789, which the responder
    takes for a tunnel, an IPv6 probe behind an extension header, which the
    responder does not walk, a TCP segment without SYN, FIN or PSH, a control block
    with a need_response above 1, and a probe to the IPv6 address that starts with
    the VM's IPv4 address.  Delivered and answered by the agent: a control block
    with a deliver above 1, and a probe to the IPv4-mapped address of the VM. *)
Theorem lost_and_doubled_probes :
  Forall (fun f => dropped f = true /\ replied f = false)
    [forged; to_4789; hop_by_hop; bare_ack; need_two; to_shadow]
  /\ Forall (fun f => dropped f = false /\ replied f = true) [deliver_two; to_mapped]
  /\ dropped demo_icmp = true /\ replied demo_icmp = true.
Proof. compute_decide. Qed.

(** ** Instances *)

Definition demo_probe : probe :=
  the_probe demo_meta demo_key [] false 0 ProtoICMP demo_client demo_vm bpf_seg demo_mac2 demo_mac1 0.

Lemma demo_carries : carries demo_icmp demo_probe.
Proof.
  pose proof (the_probe_carried demo_meta demo_key [] false 0 ProtoICMP demo_client demo_vm bpf_seg demo_mac2 demo_mac1 0
    demo_meta_ok ltac:(vm_compute; reflexivity) ltac:(lia) ltac:(lia)) as H.
  assert (probe_frame false 0 ProtoICMP demo_client demo_vm bpf_seg demo_mac2 demo_mac1 0 = demo_icmp) as E
    by (vm_compute; reflexivity).
  by rewrite E in H.
Qed.

Lemma demo_skb_ok : skb_ok (demo_skb demo_icmp).
Proof. split; [compute_decide |]. split; [unfold fits; cbn; lia | done]. Qed.

Lemma demo_from_client key : authentic key (pb_pay demo_probe) = true -> from_client key demo_probe.
Proof.
  intros Ha. split; [| | | exact Ha |].
  - split; [reflexivity | by intros [=]].
  - left. vm_compute. reflexivity.
  - right. vm_compute. reflexivity.
  - by intros [=].
Qed.

Lemma demo_agrees : agrees demo_both demo_tf demo_maps.
Proof.
  apply (static_agent_agrees IfaceAuto demo_ips true demo_key); try done.
  apply Forall_cons_2; [by left |]. apply Forall_cons_2; [|apply Forall_nil_2].
  right. split; [reflexivity |]. intros _. compute_decide.
Qed.


(** The taps of WatchProps, and what is in the maps then. *)
Definition watched_maps : maps := mkMaps (Some demo_tf) ∅ (localIps demo_taps1) [] 0 0.
Definition watched_after : maps := Eval vm_compute in
  match Bpf.handle 42 true (demo_skb demo_icmp) TF_DIR_EGRESS watched_maps with
  | Ret (_, m) => m
  | Panic => watched_maps
  end.

Lemma demo_valid_ports : valid_ports demo_taps1.
Proof.
  intros n att ip Hn Hip. assert (map_Forall (fun _ att => Forall (fun ip => length ip = 4%nat) (ips att))
    (attached demo_taps1)) as H by compute_decide.
  specialize (H n att Hn). rewrite Forall_forall in H. left. by apply H.
Qed.

