(* ===== verification/Journey.v ===== *)
(** One probe through all parts of the system.  The probe passes hosts; on each the
    eBPF program records it, the agent's read loop turns the record into an
    observation and posts it, and the collector answers with the path of the run. *)
From stdpp Require Import gmap strings sorting.
From S2P Require Import Prelude GoStd TfMeta TfMetaProps Pkt PktProps Responder ResponderSpec Wire Demo ResponderProps.
From S2P Require Import AgentMain Bpf BpfSpec BpfProps.
From S2P Require Import GoText GoTime GoJson GoJsonProps JsonCodec Observation ObsJson Collector CollectorProps.
From S2P Require Import Emit EmitProps Pipeline.

Local Open Scope Z_scope.

(** ** Hosts *)

(** A host that sees the probe: after how many hops, the frame around the packet on
    its interface, the agent's options, maps and state, and the moment. *)
Record stop := mkStop {
  st_hop : Z; st_mac1 : bytes; st_mac2 : bytes; st_vlan : Z; st_ifindex : Z; st_direction : Z; st_ns : Z;
  st_config : emConfig; st_tf : tfConfig; st_maps : maps; st_moment : moment; st_agent : Emit.agent
}.

Section journey.
(** The probe: the control block, the key it is signed with, what follows it, and
    the packet it is in. *)
Context (meta : Meta) (key rest : bytes) (v6 : bool) (pr : Z) (src dst seg : bytes).
Hypothesis (Hmeta : Meta_ok meta).
Hypothesis (Hseg : payload_of pr seg = Some (signed_bytes meta key ++ rest)).

Definition frame_at (s : stop) : bytes :=
  probe_frame v6 (st_hop s) pr src dst seg (st_mac1 s) (st_mac2 s) (st_vlan s).

Definition skb_at (s : stop) : skb := mkSkb (frame_at s) (st_ifindex s) false 0 None.

(** What happens on a host: the program sees the frame, and the read loop gets the
    records that are new in the ring buffer.  The result is the verdict, and what
    the agent prints. *)
Definition visit (s : stop) : go (Z * list Observation) :=
  '(v, m) ← Bpf.handle (st_ns s) true (skb_at s) (st_direction s) (st_maps s);
  let records := drop (length (events (st_maps s))) (events m) in
  '(_, a) ← readLoop (st_config s) (map (fun o => (st_moment s, Record (raw_bytes o))) records) (st_agent s);
  mret (v, drop (length (stdout (em (st_agent s)))) (stdout (em a))).

(** The posts of some observations, in this order. *)
Fixpoint post_all (l : list Observation) (s : store) : go (list response * store) :=
  match l with
  | [] => mret ([], s)
  | o :: l =>
      '(r, s) ← serve decode_obs (Root "POST" (post_body o)) s;
      '(rs, s) ← post_all l s;
      mret (r :: rs, s)
  end.

(** ** What a host shows *)

Definition drops (s : stop) : bool := intercepted meta v6 pr dst (st_maps s) (st_tf s).

Definition record_at (s : stop) : Raw :=
  probe_record meta v6 (st_hop s) pr src dst seg IfaceRegular 0 (st_vlan s)
    (st_ns s) (st_direction s) (st_ifindex s) (drops s).

(** The observation of a host. *)
Definition shown (s : stop) : Observation :=
  set_AZ (em_az (st_config s))
    (fst (Enrich (Emit.ifByIndex (st_moment s)) (record_at s) (em_nodeID (st_config s))
            (Emit.now (st_moment s)) (Emit.ifNames (st_agent s)))).

(** The host is set up: its program is configured for plain frames on this device,
    its maps and its agent are in a state they can be in, and its names are text. *)
Record stop_ok (s : stop) : Prop := {
  so_hop : 0 <= st_hop s < 256;
  so_frame : 0 <= st_vlan s < 4096 /\ bytes_ok (frame_at s);
  so_plain : seen_plain (c_IfaceType (st_tf s)) (frame_at s);
  so_config : config_map (st_maps s) = Some (st_tf s);
  so_device : iface_vni (st_maps s) !! st_ifindex s = None;
  so_maps : maps_ok (st_maps s);
  so_range : fits 4 (st_ifindex s) /\ fits 8 (st_ns s) /\ st_direction s ∈ [TF_DIR_INGRESS; TF_DIR_EGRESS];
  so_agent : agent_ok (st_config s) (st_agent s) /\ EmitProps.open (em (st_agent s));
  so_names : text (em_nodeID (st_config s)) /\ text (em_az (st_config s))
             /\ input_ok (st_moment s) Closed
}.

Lemma seen_at s :
  stop_ok s ->
  Bpf.handle (st_ns s) true (skb_at s) (st_direction s) (st_maps s)
  = Ret (if drops s then TC_ACT_SHOT else TC_ACT_OK, submit (record_at s) (st_maps s)).
Proof.
  intros [Hh [Hv Hb] Hpl Hc Hd _ _ _ _].
  rewrite handle_bpf_spec by exact Hb.
  rewrite (clear_seen (st_maps s) (st_tf s) (st_ns s) (skb_at s) (st_direction s)
    (the_probe meta key rest v6 (st_hop s) pr src dst seg (st_mac1 s) (st_mac2 s) (st_vlan s)));
    [| exact Hc | by split | by apply the_probe_carried | exact Hpl].
  unfold decided. rewrite the_probe_drop, the_probe_raw by done.
  unfold record_at, drops, frame_vid, skb_vid, skb_at. cbn -[intercepted probe_record submit].
  by destruct (Z.eqb_spec (st_vlan s) 0) as [->|].
Qed.

Lemma record_at_ok s : stop_ok s -> record_ok (record_at s).
Proof.
  intros Hs. pose proof (seen_at s Hs) as H. destruct Hs as [Hh [Hv Hb] Hpl Hc Hd Hm (Hi & Hn & Hdir) _ _].
  assert (skb_ok (skb_at s)) as Hk by (split; [exact Hb | by split]).
  rewrite handle_bpf_spec in H by exact Hb.
  apply (f_equal (fun r => match r with Ret (_, m) => events m | Panic => [] end)) in H.
  destruct (tc_sees _ _ _ _) as [[d o]|] eqn:E; cbn in H.
  - apply (inj (events (st_maps s) ++.)) in H. injection H as <-. by eapply tc_record_ok.
  - exfalso. apply (f_equal length) in H. rewrite length_app in H. cbn in H. lia.
Qed.

Lemma shown_fields s :
  Observation.ID (shown s) = uuid_String (TfMeta.ID meta) /\ NodeID (shown s) = em_nodeID (st_config s)
  /\ o_Hop (shown s) = st_hop s /\ AZ (shown s) = em_az (st_config s)
  /\ o_Action (shown s) = (if drops s then "INTERCEPTED" else "FORWARDED")%string
  /\ SrcIP (shown s) = Net.String (addr v6 src) /\ DstIP (shown s) = Net.String (addr v6 dst)
  /\ o_VLAN (shown s) = st_vlan s.
Proof.
  assert (Hip : forall ip, ipString (version v6) (pad16 v6 (addr v6 ip)) = Net.String (addr v6 ip)).
  { intros ip. unfold ipString, version, pad16, addr. destruct v6; [done |]. change (4 =? 6) with false. cbv iota.
    unfold addr4. by rewrite take_app_length' by by rewrite length_field. }
  unfold shown, Enrich, record_at, probe_record. destruct (ifName _ _ _), (latency _ _).
  cbn -[uuid_String ipString pad16 addr version drops]. rewrite !Hip. split_and!; try done. by destruct (drops s).
Qed.

(** The record is printed: decoded, enriched, tagged with the zone; it has no VNI,
    so no logical switch is looked up. *)
Lemma read_at s :
  stop_ok s ->
  exists a', read_one (st_config s) (st_moment s) (Record (raw_bytes (record_at s))) (st_agent s) = Ret (true, a')
    /\ stdout (em a') = stdout (em (st_agent s)) ++ [shown s] /\ agent_ok (st_config s) a'.
Proof.
  intros Hs. pose proof (record_at_ok s Hs) as Hrec. pose proof Hrec as [Hraw _]. destruct Hs as [_ _ _ _ _ _ _ [Hag Hop] (Hn & Haz & Hif & Hdp & _)].
  assert (Observation.Parse (raw_bytes (record_at s)) = Some (record_at s)) as Hp.
  { rewrite <- (app_nil_r (raw_bytes _)). by apply Parse_record. }
  destruct (read_one (st_config s) (st_moment s) (Record (raw_bytes (record_at s))) (st_agent s)) as [[b a']|] eqn:E.
  - assert (agent_ok (st_config s) a') as Ha'.
    { eapply local_step_ok; [done | done | | exact Hag]. eapply local_read; [|exact E].
      split; [done |]. split; [done |]. by apply record_bytes. }
    exists a'. cbn [read_one] in E. rewrite Hp in E. unfold shown.
    assert (o_VNI (fst (Enrich (Emit.ifByIndex (st_moment s)) (record_at s) (em_nodeID (st_config s))
      (Emit.now (st_moment s)) (Emit.ifNames (st_agent s)))) = 0) as Hv
      by (unfold Enrich; by destruct (ifName _ _ _), (latency _ _)).
    destruct (Enrich _ _ _ _ _) as [obs names]. cbn [fst] in *. rewrite emit_eq, decide_True in E by done.
    cbn [mbind go_bind] in E. injection E as <- <-. split; [done |]. split; [|exact Ha'].
    unfold emitted, tagged. cbn [o_VNI set_AZ em stdout]. rewrite Hv. done.
  - exfalso. cbn [read_one] in E. rewrite Hp in E. destruct (Enrich _ _ _ _ _).
    by rewrite emit_eq, decide_True in E.
Qed.

Lemma visit_shows s :
  stop_ok s ->
  visit s = Ret (if drops s then TC_ACT_SHOT else TC_ACT_OK, [shown s])
  /\ obs_ok (shown s) /\ Observation.ID (shown s) ≠ ""%string.
Proof.
  intros Hs. unfold visit. rewrite (seen_at s Hs). cbn [mbind go_bind].
  assert (drop (length (events (st_maps s))) (events (submit (record_at s) (st_maps s))) = [record_at s]) as ->
    by (cbn; by rewrite drop_app_length).
  destruct (read_at s Hs) as (a' & Hr & Hout & Ha'). cbn [map readLoop].
  rewrite (st_bind_ret _ _ _ _ _ Hr). cbn [mbind go_bind mret st_ret go_ret].
  rewrite Hout, drop_app_length. split; [done |].
  destruct Ha' as [_ Hp _ _]. rewrite Hout, Forall_app, Forall_singleton in Hp. apply Hp.
Qed.

(** ** The collector *)

Lemma run_added o s :
  (Z.of_nat (length (run s (Observation.ID o))) < maxObsPerRun) ->
  run (added o s) (Observation.ID o) = run s (Observation.ID o) ++ [o].
Proof.
  unfold run, added. destruct (runs s !! Observation.ID o) as [l|] eqn:E; cbn [default from_option]; intros Hl.
  - cbn in Hl. replace (maxObsPerRun <=? Z.of_nat (length l)) with false by lia. cbn [runs].
    by rewrite lookup_insert_eq.
  - cbn [runs]. by rewrite lookup_insert_eq.
Qed.

Lemma post_all_spec id l s :
  store_ok s -> 1 <= cap s -> id ≠ ""%string ->
  Forall (fun o => obs_ok o /\ Observation.ID o = id) l ->
  Z.of_nat (length (run s id) + length l) <= maxObsPerRun ->
  exists rs s', post_all l s = Ret (rs, s') /\ Forall (eq RespNoContent) rs /\ run s' id = run s id ++ l.
Proof.
  intros Hok Hcap Hid Hl. revert s Hok Hcap. induction Hl as [|o l [Ho Hoid] _ IH]; intros s Hok Hcap Hlen.
  { exists [], s. rewrite app_nil_r. split_and!; [done | apply Forall_nil_2 | done]. }
  cbn [post_all]. rewrite serve_post by (done || by rewrite Hoid). cbn [mbind go_bind].
  destruct (added_ok o s Hok Hcap) as [Hok' Hcap'].
  assert (run (added o s) id = run s id ++ [o]) as Hrun
    by (rewrite <- Hoid; apply run_added; rewrite Hoid; cbn [length] in Hlen; lia).
  destruct (IH (added o s)) as (rs & s' & Hp & Hrs & Hr); [done | by rewrite Hcap' | |].
  { rewrite Hrun, length_app. cbn [length] in *. lia. }
  exists (RespNoContent :: rs), s'. rewrite Hp. cbn [mbind go_bind].
  split_and!; [done | by apply Forall_cons_2 | by rewrite Hr, Hrun, <- app_assoc].
Qed.

(** With different hops there is only one sorted list. *)
Lemma sorted_by_hop l1 l2 :
  StronglySorted (fun a b => o_Hop a < o_Hop b) l1 -> StronglySorted (fun a b => less b a = false) l2 ->
  l1 ≡ₚ l2 -> l1 = l2.
Proof.
  intros H1. revert l2. induction H1 as [|x l1 Hs IH Hx]; intros l2 H2 Hp; [by apply Permutation_nil_l in Hp |].
  destruct H2 as [|y l2 Hs2 Hy]; [by apply Permutation_nil_r in Hp |].
  rewrite Forall_forall in Hx, Hy. assert (x = y) as <-; [|f_equal; apply IH; [done | by apply Permutation_cons_inv in Hp]].
  assert (y ∈ x :: l1) as Hyin by (rewrite Hp; by left). assert (x ∈ y :: l2) as Hxin by (rewrite <- Hp; by left).
  apply elem_of_cons in Hyin as [->|Hyin]; [done |]. apply elem_of_cons in Hxin as [->|Hxin]; [done |].
  specialize (Hx y Hyin). specialize (Hy x Hxin). unfold less in Hy.
  rewrite (proj2 (Z.eqb_neq _ _)) in Hy by lia. cbn in Hy. lia.
Qed.

Definition in_order (stops : list stop) : Prop := StronglySorted (fun a b => st_hop a < st_hop b) stops.

Lemma few_stops stops : Forall stop_ok stops -> in_order stops -> (length stops <= 256)%nat.
Proof.
  intros Hok Hs. rewrite <- (length_map st_hop), <- (length_seqZ 0 256) at 1.
  apply submseteq_length, NoDup_submseteq.
  - clear Hok. induction Hs as [|x l _ IH Hx]; [constructor |]. cbn. apply NoDup_cons. split; [|done].
    rewrite list_elem_of_fmap. intros (y & He & Hy). rewrite Forall_forall in Hx. specialize (Hx y Hy). cbn in Hx. lia.
  - intros h. rewrite list_elem_of_fmap, elem_of_seqZ. intros (y & -> & Hy). rewrite Forall_forall in Hok.
    by destruct (Hok y Hy).
Qed.

Lemma shown_sorted stops : in_order stops -> StronglySorted (fun a b => o_Hop a < o_Hop b) (map shown stops).
Proof.
  induction 1 as [|x l Hs IH Hx]; [constructor |]. cbn. constructor; [done |].
  rewrite Forall_map. eapply Forall_impl; [exact Hx |]. intros y Hy.
  destruct (shown_fields x) as (_ & _ & -> & _), (shown_fields y) as (_ & _ & -> & _). exact Hy.
Qed.

(** C13: The path of a probe.  A probe of a run passes hosts with a growing number of
    hops.  On each host the eBPF program records it once and the agent prints one
    observation of it, with the host's name and zone, the run id, the number of
    hops, the addresses of the probe and the action taken.  In whatever order these
    are posted to a collector that has nothing of the run yet, each is accepted,
    and the path of the run is then the list of the hosts in the order the probe
    passed them. *)
Theorem probe_journey stops posts s :
  Forall stop_ok stops -> in_order stops ->
  store_ok s -> 1 <= cap s -> run s (uuid_String (TfMeta.ID meta)) = [] ->
  posts ≡ₚ map shown stops ->
  Forall (fun h => visit h = Ret (if drops h then TC_ACT_SHOT else TC_ACT_OK, [shown h])) stops
  /\ (exists rs s', post_all posts s = Ret (rs, s') /\ Forall (eq RespNoContent) rs
        /\ serve decode_obs (GetPath (uuid_String (TfMeta.ID meta))) s' = Ret (RespPath (map shown stops), s'))
  /\ Forall2 (fun h o =>
       Observation.ID o = uuid_String (TfMeta.ID meta) /\ NodeID o = em_nodeID (st_config h)
       /\ o_Hop o = st_hop h /\ AZ o = em_az (st_config h)
       /\ o_Action o = (if drops h then "INTERCEPTED" else "FORWARDED")%string
       /\ SrcIP o = Net.String (addr v6 src) /\ DstIP o = Net.String (addr v6 dst)
       /\ o_VLAN o = st_vlan h) stops (map shown stops).
Proof.
  intros Hok Hord Hs Hcap Hrun Hperm. split_and!.
  - eapply Forall_impl; [exact Hok |]. intros h Hh. by apply visit_shows.
  - destruct (post_all_spec (uuid_String (TfMeta.ID meta)) posts s) as (rs & s' & Hp & Hrs & Hr);
      [done | done | apply uuid_nonempty | | |].
    + rewrite Hperm, Forall_map. eapply Forall_impl; [exact Hok |]. intros h Hh.
      split; [by apply visit_shows | by apply shown_fields].
    + rewrite Hrun, Hperm, length_map. pose proof (few_stops stops Hok Hord). unfold maxObsPerRun. cbn [length]. lia.
    + exists rs, s'. split_and!; [done | done |]. cbn [serve].
      rewrite bool_decide_false by apply uuid_nonempty. do 3 f_equal.
      unfold path. destruct (sort_from [] (run s' (uuid_String (TfMeta.ID meta))) ltac:(constructor)) as (Hq & Hss & _).
      symmetry. apply sorted_by_hop; [by apply shown_sorted | exact Hss |].
      fold (sortStable (run s' (uuid_String (TfMeta.ID meta)))) in *. rewrite Hq, Hr, Hrun. cbn. by rewrite Hperm.
  - apply Forall2_fmap_r, Forall_Forall2_diag, Forall_true. intros h. apply shown_fields.
Qed.
End journey.

(** ** An instance: a probe from a host over a transit host to the VM's host *)

Definition demo_stop (h vl : Z) (name : string) (m : maps) (dir : Z) : stop :=
  mkStop h demo_mac2 demo_mac1 vl 3 dir 42 (mkEmConfig name "az-1") (mkTfConfig IfaceAuto 1 1) m
    (demo_moment (fun _ => None)) (mkAgent (newEmitter "http://collector:8080" "" false) ∅ 0 0).

Definition transit_maps : maps := mkMaps (Some (mkTfConfig IfaceAuto 1 1)) ∅ ∅ [] 0 0.

Definition demo_stops : list stop :=
  [demo_stop 0 0 "node-a" transit_maps TF_DIR_EGRESS; demo_stop 1 7 "node-b" transit_maps TF_DIR_INGRESS;
   demo_stop 2 0 "node-c" bpf_maps TF_DIR_INGRESS].

Abbreviation demo_shown := (shown demo_meta false ProtoICMP demo_client demo_vm bpf_seg).

Lemma demo_stop_ok h vl name m dir :
  stop_ok false ProtoICMP demo_client demo_vm bpf_seg (demo_stop h vl name m dir)
  <-> 0 <= h < 256 /\ (0 <= vl < 4096
      /\ bytes_ok (probe_frame false h ProtoICMP demo_client demo_vm bpf_seg demo_mac2 demo_mac1 vl))
    /\ seen_plain IfaceAuto (probe_frame false h ProtoICMP demo_client demo_vm bpf_seg demo_mac2 demo_mac1 vl)
    /\ config_map m = Some (mkTfConfig IfaceAuto 1 1) /\ iface_vni m !! 3 = None /\ maps_ok m
    /\ dir ∈ [TF_DIR_INGRESS; TF_DIR_EGRESS] /\ text name.
Proof.
  split; [by intros [? ? ? ? ? ? (_ & _ & ?) _ (? & _)] |].
  intros (? & ? & ? & ? & ? & ? & ? & ?). split; try done.
  - split; [apply new_agent_ok | reflexivity].
  - split; [done |]. split; [vm_compute; reflexivity |].
    destruct demo_input as (Hif & Hdp & _). split; [exact Hif |]. split; [exact Hdp | exact I].
Qed.

Lemma demo_maps_ok m : events m = [] -> iface_vni m = ∅ -> stat_observed m = 0 -> stat_ringbuf_full m = 0 -> maps_ok m.
Proof.
  intros He Hv H1 H2. split; [rewrite He; by apply Forall_nil_2 | intros i v; rewrite Hv; by rewrite lookup_empty |].
  rewrite H1, H2. unfold fits. cbn. lia.
Qed.

Lemma demo_stops_ok : Forall (stop_ok false ProtoICMP demo_client demo_vm bpf_seg) demo_stops.
Proof.
  repeat (apply Forall_cons_2; [apply demo_stop_ok; split_and!;
    try lia; try reflexivity; try (by apply demo_maps_ok); try compute_decide;
    right; (split; [reflexivity | vm_compute; reflexivity]) |]).
  apply Forall_nil_2.
Qed.

Lemma probe_journey_witness :
  exists rs s',
    post_all (rev (map demo_shown demo_stops)) (newStore 10) = Ret (rs, s') /\ Forall (eq RespNoContent) rs
    /\ serve decode_obs (GetPath (uuid_String (TfMeta.ID demo_meta))) s' = Ret (RespPath (map demo_shown demo_stops), s').
Proof.
  apply (probe_journey demo_meta demo_key [] false ProtoICMP demo_client demo_vm bpf_seg demo_meta_ok)
    with (stops := demo_stops).
  - vm_compute. reflexivity.
  - exact demo_stops_ok.
  - repeat constructor; cbn; lia.
  - apply newStore_ok. lia.
  - cbn. lia.
  - reflexivity.
  - symmetry. apply Permutation_rev.
Defined.
