(* ===== verification/Network.v ===== *)
(** The whole system: on every host an eBPF program that sees packets and an agent
    that reads what the program recorded, and one collector.  Packets arrive, maps
    are written, records are read and observations are posted or lost in any order.
    The system refines the one of Pipeline, in which agents read any records. *)
From stdpp Require Import gmap strings.
From S2P Require Import Prelude GoStd GoText GoTime AgentMain Bpf BpfSpec BpfProps.
From S2P Require Import GoJson GoJsonProps JsonCodec Observation ObsJson Collector CollectorProps Emit EmitProps Pipeline.

Local Open Scope Z_scope.

(** ** Hooks *)

Inductive hook := TcIngress | TcEgress | Xdp.

#[export] Instance hook_eq_dec : EqDecision hook.
Proof. solve_decision. Defined.

Definition packet_of (k : skb) : xdp_md := mkXdp (sk_data k) (sk_ifindex k).

Definition run_hook (h : hook) (now : Z) (room : bool) (k : skb) : st maps Z :=
  match h with
  | TcIngress => traceflow_ingress now room k
  | TcEgress => traceflow_egress now room k
  | Xdp => traceflow_xdp now room (packet_of k)
  end.

Definition direction_of (h : hook) : Z :=
  match h with TcEgress => TF_DIR_EGRESS | _ => TF_DIR_INGRESS end.

(** Whether the verdict of a hook is that the packet is dropped. *)
Definition dropped (h : hook) (v : Z) : bool :=
  v =? match h with Xdp => XDP_DROP | _ => TC_ACT_SHOT end.

(** ** The state *)

(** A packet at a hook of a host: the maps it was seen with and the verdict. *)
Record sight := mkSight {
  s_host : nat; s_hook : hook; s_now : Z; s_room : bool; s_skb : skb; s_maps : maps; s_verdict : Z
}.

(** The kernel of a host, and how many records its agent has read. *)
Record kernel := mkKernel { k_maps : maps; k_read : nat }.

Record net := mkNet {
  world_of : world;
  kernels : list kernel;
  sights : list sight          (* all packets so far *)
}.

(** The maps after the agent has written to them. *)
Definition rewritten (m m' : maps) : Prop :=
  events m' = events m /\ stat_observed m' = stat_observed m /\ stat_ringbuf_full m' = stat_ringbuf_full m
  /\ forall i v, iface_vni m' !! i = Some v -> fits 4 v.

Definition printed (w : world) : list (list Observation) := map (fun a => stdout (em a)) (agents w).

Section network.
Context (cfgs : list emConfig).

Inductive net_step : net -> net -> Prop :=
| net_packet i h hk now room k v m' n :
    kernels n !! i = Some h -> skb_ok k -> fits 8 now ->
    run_hook hk now room k (k_maps h) = Ret (v, m') ->
    net_step n (mkNet (world_of n) (<[i := mkKernel m' (k_read h)]> (kernels n))
                  (sights n ++ [mkSight i hk now room k (k_maps h) v]))
| net_write i h m' n :
    kernels n !! i = Some h -> rewritten (k_maps h) m' ->
    net_step n (mkNet (world_of n) (<[i := mkKernel m' (k_read h)]> (kernels n)) (sights n))
| net_read i h r m c a b a' n :
    kernels n !! i = Some h -> events (k_maps h) !! k_read h = Some r -> cfgs !! i = Some c ->
    agents (world_of n) !! i = Some a -> input_ok m Closed ->
    read_one c m (Record (raw_bytes r)) a = Ret (b, a') ->
    net_step n (mkNet (mkWorld (<[i := a']> (agents (world_of n))) (collector (world_of n)) (log (world_of n)))
                  (<[i := mkKernel (k_maps h) (S (k_read h))]> (kernels n)) (sights n))
| net_other w' n :
    world_step cfgs (world_of n) w' -> printed w' = printed (world_of n) ->
    net_step n (mkNet w' (kernels n) (sights n)).

(** Every host starts with empty buffers. *)
Definition net_start (ms : list maps) (url ep : string) (sink : bool) (maxRuns : Z) : net :=
  mkNet (world_start cfgs url ep sink maxRuns) (map (fun m => mkKernel m 0) ms) [].

Inductive net_reachable (n0 : net) : net -> Prop :=
| net_init : net_reachable n0 n0
| net_next n n' : net_reachable n0 n -> net_step n n' -> net_reachable n0 n'.
End network.

(** ** What the programs saw *)

(** Decision and record of a sight, [None] when the packet is no marked probe. *)
Definition seen (s : sight) : option (bool * Raw) :=
  match s_hook s with
  | Xdp => xdp_sees (s_maps s) (s_now s) (packet_of (s_skb s))
  | _ => tc_sees (s_maps s) (s_now s) (s_skb s) (direction_of (s_hook s))
  end.

(** The record that got into the ring buffer. *)
Definition kept (s : sight) : option Raw := if s_room s then snd <$> seen s else None.

Definition at_host (i : nat) (l : list sight) : list sight := filter (fun s => s_host s = i) l.

(** The sights of which there is a record. *)
Definition kept_sights (l : list sight) : list sight := filter (fun s => is_Some (kept s)) l.

(** The observation [o] is one of the sight [s], made by the agent of the host. *)
Definition shown_by (c : emConfig) (s : sight) (o : Observation) : Prop :=
  exists r m, kept s = Some r /\ observed c (m, r) o.

(** ** Counting: one list covers another *)

(** Every element of [P] has an element of [S] of its own that is related to it. *)
Definition covers {A B} (R : A -> B -> Prop) (S : list A) (P : list B) : Prop :=
  exists l, l ⊆+ S /\ Forall2 R l P.

Lemma filter_submseteq {A} (p : A -> Prop) `{forall x, Decision (p x)} (l k : list A) :
  l ⊆+ k -> filter p l ⊆+ filter p k.
Proof.
  intros [r ->]%submseteq_Permutation. rewrite filter_app. by apply submseteq_inserts_r.
Qed.

Section covers.
Context {A B : Type}.
Implicit Types (R : A -> B -> Prop) (S l : list A) (P : list B).

Lemma covers_Forall2 R S P : Forall2 R S P -> covers R S P.
Proof. by exists S. Qed.

Lemma covers_impl R R' S P : (forall x y, R x y -> R' x y) -> covers R S P -> covers R' S P.
Proof. intros Hr (l & Hl & H). exists l. split; [done | by eapply Forall2_impl]. Qed.

Lemma covers_length R S P : covers R S P -> (length P <= length S)%nat.
Proof. intros (l & Hl & H). apply Forall2_length in H. apply submseteq_length in Hl. lia. Qed.

Lemma covers_left R S S' P : S ⊆+ S' -> covers R S P -> covers R S' P.
Proof. intros Hs (l & Hl & H). exists l. split; [by etrans | done]. Qed.

Lemma covers_right R S P P' : P' ⊆+ P -> covers R S P -> covers R S P'.
Proof.
  intros [k Hk]%submseteq_Permutation (l & Hl & H). apply Forall2_flip in H.
  destruct (Permutation_Forall2 Hk H) as (l' & Hp & H'). apply Forall2_flip in H'.
  apply Forall2_app_inv_r in H' as (l1 & l2 & H1 & _ & ->). exists l1. split; [|done].
  etrans; [|exact Hl]. rewrite Hp. by apply submseteq_inserts_r.
Qed.

Lemma covers_filter R S P (p : A -> Prop) (q : B -> Prop)
    `{forall x, Decision (p x)} `{forall y, Decision (q y)} :
  (forall x y, R x y -> p x <-> q y) -> covers R S P -> covers R (filter p S) (filter q P).
Proof.
  intros Hr (l & Hl & HF). exists (filter p l). split; [by apply filter_submseteq |]. clear Hl.
  induction HF as [|x y l P Hx _ IH]; [constructor |]. pose proof (Hr x y Hx) as [H1 H2].
  rewrite !filter_cons. repeat case_decide; [by constructor | by exfalso; auto..| done].
Qed.

(** Covering host by host. *)
Lemma covers_by R (f : A -> nat) (g : B -> nat) S P :
  (forall x y, R x y -> f x = g y) ->
  (forall i, covers R (filter (fun x => f x = i) S) (filter (fun y => g y = i) P)) -> covers R S P.
Proof.
  intros Hfg. revert S. induction P as [|y P IH]; intros S HS.
  { exists []. split; [apply submseteq_nil_l | constructor]. }
  destruct (HS (g y)) as (l & Hl & HF). rewrite filter_cons_True in HF by done.
  inversion HF as [|x ? l' ? Hx HF' Heq]; subst.
  assert (x ∈ S) as Hin.
  { assert (x ∈ filter (fun x => f x = g y) S) as [_ ?]%list_elem_of_filter; [|done].
    eapply elem_of_submseteq; [|exact Hl]. by left. }
  apply elem_of_Permutation in Hin as [S' HS'].
  destruct (IH S') as (l2 & Hl2 & H2).
  - intros i. destruct (HS i) as (l3 & Hl3 & HF3). rewrite HS' in Hl3, Hl. rewrite filter_cons in Hl3. rewrite filter_cons in HF3.
    rewrite filter_cons_True in Hl by by apply Hfg. pose proof (Hfg x y Hx) as Hxy. rewrite Hxy in Hl3.
    destruct (decide (g y = i)) as [<-|Hne].
    + exists l'. split; [|done]. by apply submseteq_cons_l in Hl as (k & Hk & ?); rewrite (Permutation_cons_inv Hk).
    + by exists l3.
  - exists (x :: l2). split; [rewrite HS'; by apply submseteq_skip | by constructor].
Qed.
End covers.

(** What a covered list needs when it is the longer one. *)
Lemma covers_all {A B} (R : A -> B -> Prop) S P :
  covers R S P -> (length S <= length P)%nat -> exists l, l ≡ₚ S /\ Forall2 R l P.
Proof.
  intros (l & Hl & H) Hlen. exists l. split; [|done]. apply submseteq_length_Permutation; [done |].
  by rewrite (Forall2_length _ _ _ H).
Qed.

Lemma covers_in {A B} (R : A -> B -> Prop) S P :
  covers R S P -> covers (fun x y => x ∈ S /\ y ∈ P /\ R x y) S P.
Proof.
  intros (l & Hl & H). exists l. split; [done |].
  assert (forall x, x ∈ l -> x ∈ S) as Hin by (intros x Hx; by eapply elem_of_submseteq).
  clear Hl. induction H as [|x y l P Hx _ IH]; [constructor |]. constructor.
  - split; [apply Hin; by left |]. split; [by left | done].
  - eapply Forall2_impl; [apply IH; intros z Hz; apply Hin; by right |].
    intros x' y' (? & ? & ?). split; [done |]. split; [by right | done].
Qed.

Lemma covers_map {A B C} (R : A -> B -> Prop) (g : C -> B) S P :
  covers R S (map g P) <-> covers (fun x y => R x (g y)) S P.
Proof. unfold covers. setoid_rewrite (Forall2_fmap_r g). done. Qed.

(** The elements that give something, and what they give. *)
Lemma omap_filter {A B} (f : A -> option B) l :
  Forall2 (fun x r => f x = Some r) (filter (fun x => is_Some (f x)) l) (omap f l).
Proof.
  induction l as [|x l IH]; [constructor |]. rewrite filter_cons. cbn [omap list_omap].
  destruct (f x) as [r|] eqn:E.
  - rewrite decide_True by by eexists. by constructor.
  - by rewrite decide_False by by intros [? ?].
Qed.

(** ** The invariant *)

(** The verdict of a hook is what the program decided. *)
Definition sight_ok (s : sight) : Prop :=
  skb_ok (s_skb s) /\ dropped (s_hook s) (s_verdict s) = default false (fst <$> seen s).

Lemma direction_ok h : direction_of h ∈ [TF_DIR_INGRESS; TF_DIR_EGRESS].
Proof. destruct h; cbn; set_solver. Qed.

(** XDP sees what TC sees of the bytes alone. *)
Definition skb_seen (s : sight) : skb :=
  match s_hook s with Xdp => skb_of (packet_of (s_skb s)) | _ => s_skb s end.

Lemma seen_tc s : seen s = tc_sees (s_maps s) (s_now s) (skb_seen s) (direction_of (s_hook s)).
Proof. unfold seen, skb_seen. destruct (s_hook s); [done..|]. apply xdp_sees_tc. Qed.

Lemma skb_seen_ok s : skb_ok (s_skb s) ->
  skb_ok (skb_seen s) /\ sk_data (skb_seen s) = sk_data (s_skb s) /\ sk_ifindex (skb_seen s) = sk_ifindex (s_skb s).
Proof.
  intros (Hb & Hi & Ht). unfold skb_seen. destruct (s_hook s); (split; [|done]); [by split_and!..|].
  by split_and!.
Qed.

Lemma run_hook_spec i h now room k m v m' :
  skb_ok k -> run_hook h now room k m = Ret (v, m') ->
  let s := mkSight i h now room k m v in
  sight_ok s /\ events m' = events m ++ option_list (kept s)
  /\ match seen s with Some (_, r) => m' = recorded room r m | None => m' = m end.
Proof.
  intros Hk H. set (s := mkSight i h now room k m v).
  assert (exists c, (match seen s with
    | Some (d, r) => c = d /\ m' = recorded room r m | None => c = false /\ m' = m end)
    /\ dropped h v = c) as (c & Hc & Hd).
  { pose proof (proj1 Hk) as Hb. subst s. unfold seen. destruct h; cbn [s_hook s_maps s_now s_skb direction_of].
    1, 2: unfold run_hook, traceflow_ingress, traceflow_egress in H; rewrite handle_bpf_spec in H by done;
      destruct (tc_sees _ _ _ _) as [[d r]|]; injection H as <- <-; [exists d | exists false];
      (split; [done |]); try destruct d; done.
    unfold run_hook in H. rewrite xdp_spec in H by done.
    destruct (xdp_sees _ _ _) as [[d r]|]; injection H as <- <-; [exists d | exists false];
      (split; [done |]); try destruct d; done. }
  unfold sight_ok, kept. change (s_skb s) with k. change (dropped (s_hook s) (s_verdict s)) with (dropped h v).
  change (s_room s) with room. destruct (seen s) as [[d r]|]; destruct Hc as [-> ->]; cbn [fmap option_fmap option_map default].
  - split; [by split |]. split; [|done]. destruct room; cbn; by rewrite ?app_nil_r.
  - split; [by split |]. split; [|done]. destruct room; cbn; by rewrite app_nil_r.
Qed.

Lemma rewritten_ok m m' : rewritten m m' -> maps_ok m -> maps_ok m'.
Proof. intros (H1 & H2 & H3 & Hv) [He _ Hc]. split; [by rewrite H1 | done | by rewrite H2, H3]. Qed.

Lemma at_host_snoc i l s : at_host i (l ++ [s]) = at_host i l ++ (if decide (s_host s = i) then [s] else []).
Proof. unfold at_host. rewrite filter_app. cbn. by case_decide. Qed.

(** A record that is read is printed once. *)
Lemma read_prints c m r a b a' :
  Raw_ok r -> read_one c m (Record (raw_bytes r)) a = Ret (b, a') ->
  exists o, stdout (em a') = stdout (em a) ++ [o] /\ observed c (m, r) o.
Proof.
  intros Hr H. assert (Observation.Parse (raw_bytes r) = Some r) as Hp
    by (rewrite <- (app_nil_r (raw_bytes r)); by apply Parse_record).
  assert (EmitProps.open (em a)) as Ho.
  { cbn [read_one] in H. rewrite Hp in H. destruct (Enrich _ _ _ _ _). rewrite emit_eq in H. by case_decide. }
  destruct (read_one_spec c m (Record (raw_bytes r)) a Ho) as (a2 & out & H2 & Hout & _ & HF & _).
  rewrite H in H2. injection H2 as _ <-. unfold records in HF.
  cbn [omap list_omap fst snd] in HF. rewrite Hp in HF. cbn [fmap option_fmap option_map] in HF.
  inversion HF as [|? o ? ? Hobs HF']; subst. inversion HF'; subst. by exists o.
Qed.

(** The store holds a part of what was received, whatever is cut or evicted. *)
Lemma run_added_sublist id o s l :
  run s id `sublist_of` with_id id l -> run (added o s) id `sublist_of` with_id id (l ++ [o]).
Proof.
  intros H. rewrite with_id_snoc. unfold added. unfold run in H |- *.
  destruct (runs s !! Observation.ID o) as [k|] eqn:E.
  - destruct (maxObsPerRun <=? _); [by apply sublist_inserts_r |]. cbn [runs].
    destruct (decide (Observation.ID o = id)) as [<-|Hne].
    + rewrite lookup_insert_eq. rewrite E in H. cbn in *. by apply sublist_app.
    + rewrite lookup_insert_ne, app_nil_r by done. done.
  - cbn [runs]. destruct (decide (Observation.ID o = id)) as [<-|Hne].
    + rewrite lookup_insert_eq. cbn. by apply sublist_inserts_l.
    + rewrite lookup_insert_ne, app_nil_r by done. unfold make_room.
      destruct (cap s <=? _); [|done]. cbn [runs]. destruct (Collector.order s) as [|old ?]; [done |].
      destruct (decide (old = id)) as [->|]; [rewrite lookup_delete_eq; apply sublist_nil_l |].
      by rewrite lookup_delete_ne.
Qed.

Section invariant.
Context (cfgs : list emConfig) (cap : Z).
Hypothesis (Hcfgs : Forall (fun c => text (em_nodeID c) /\ text (em_az c)) cfgs).
Hypothesis (Hcap : 1 <= cap).

(** The kernel of host [i] has the records of its sights. *)
Definition kernel_ok (l : list sight) (i : nat) (h : kernel) : Prop :=
  maps_ok (k_maps h) /\ events (k_maps h) = omap kept (at_host i l)
  /\ (k_read h <= length (events (k_maps h)))%nat.

(** The agent has printed the records it has read. *)
Definition printed_ok (c : emConfig) (h : kernel) (out : list Observation) : Prop :=
  Forall2 (fun r o => exists m, observed c (m, r) o) (take (k_read h) (events (k_maps h))) out.

Record net_ok (n : net) : Prop := {
  no_world : world_ok cfgs cap (world_of n);
  no_shape : length (kernels n) = length cfgs /\ length (agents (world_of n)) = length cfgs;
  no_sights : Forall (fun s => sight_ok s /\ (s_host s < length cfgs)%nat) (sights n);
  no_posts : Forall (fun p => (from p < length cfgs)%nat) (log (world_of n));
  no_kernels i h : kernels n !! i = Some h -> kernel_ok (sights n) i h;
  no_printed i h c out : kernels n !! i = Some h -> cfgs !! i = Some c -> printed (world_of n) !! i = Some out ->
    printed_ok c h out;
  no_store id : run (collector (world_of n)) id `sublist_of` with_id id (received (log (world_of n)))
}.

Lemma printed_ok_same c h h' out :
  k_read h' = k_read h -> (k_read h <= length (events (k_maps h)))%nat ->
  (exists l, events (k_maps h') = events (k_maps h) ++ l) -> printed_ok c h out -> printed_ok c h' out.
Proof. intros Hr Hlen [l Hl]. unfold printed_ok. by rewrite Hr, Hl, take_app_le. Qed.

(** A step of the world keeps its shape. *)
Lemma world_step_shape w w' :
  world_step cfgs w w' ->
  length (agents w') = length (agents w)
  /\ (log w' = log w \/ exists p, log w' = log w ++ [p] /\ (from p < length (agents w))%nat).
Proof.
  assert (forall i (a : agent), agents w !! i = Some a -> (i < length (agents w))%nat) as Hlt
    by (intros i a; apply lookup_lt_Some).
  destruct 1; cbn [agents log]; rewrite ?length_insert; (split; [done |]); [by left | right.. | by left].
  all: eexists; split; [reflexivity |]; by eapply Hlt.
Qed.

Lemma world_step_net_ok n w' ks :
  net_ok n -> world_step cfgs (world_of n) w' ->
  length ks = length cfgs ->
  (forall i h, ks !! i = Some h -> kernel_ok (sights n) i h) ->
  (forall i h c out, ks !! i = Some h -> cfgs !! i = Some c -> printed w' !! i = Some out -> printed_ok c h out) ->
  net_ok (mkNet w' ks (sights n)).
Proof.
  intros [Hw [Hs1 Hs2] Hs Hp Hk Ho Hst] Hstep Hl Hk' Ho'.
  destruct (world_step_shape _ _ Hstep) as [Hlen Hlog].
  split; cbn [world_of kernels sights]; [by eapply world_step_ok | by rewrite Hlen | done | | done | done |].
  - destruct Hlog as [->|(p & -> & Hf)]; [done |]. apply Forall_app_2; [done |]. apply Forall_singleton. lia.
  - intros id. destruct (world_step_store cfgs cap Hcfgs Hcap _ _ Hstep Hw) as [[-> ->]|(o & -> & ->)]; [done |].
    by apply run_added_sublist.
Qed.

(** A step of a kernel. *)
Lemma kernel_step_ok n i h h' l :
  net_ok n -> kernels n !! i = Some h ->
  Forall (fun s => sight_ok s /\ s_host s = i) l ->
  maps_ok (k_maps h') -> events (k_maps h') = events (k_maps h) ++ omap kept l -> k_read h' = k_read h ->
  net_ok (mkNet (world_of n) (<[i := h']> (kernels n)) (sights n ++ l)).
Proof.
  intros [Hw [Hs1 Hs2] Hs Hp Hk Ho Hst] Hi Hl Hm He Hr.
  destruct (Hk i h Hi) as (_ & Hev & Hrd). pose proof (lookup_lt_Some _ _ _ Hi) as Hlt.
  split; cbn [world_of kernels sights]; [done | by rewrite length_insert | | done | | | done].
  - apply Forall_app_2; [done |]. eapply Forall_impl; [exact Hl |]. intros s [? ->]. split; [done | lia].
  - intros j h2 Hj. unfold kernel_ok, at_host. rewrite filter_app.
    apply list_lookup_insert_Some in Hj as [(<- & <- & _)|[Hne Hj]].
    + split; [done |]. rewrite He, Hr, length_app. split; [|lia]. rewrite Hev, omap_app. f_equal.
      f_equal. symmetry. apply filter_every. eapply Forall_impl; [exact Hl |]. by intros s [_ ?].
    + destruct (Hk j h2 Hj) as (? & ? & ?). split; [done |]. split; [|done].
      rewrite (filter_none _ l), app_nil_r; [done |]. rewrite Forall_forall in Hl.
      intros s Hin. by destruct (Hl s Hin) as [_ <-].
  - intros j h2 c out Hj Hc Hout. apply list_lookup_insert_Some in Hj as [(<- & <- & _)|[Hne Hj]].
    + eapply printed_ok_same; [exact Hr | exact Hrd | by eexists | by eapply Ho].
    + by eapply Ho.
Qed.

Lemma net_step_ok n n' : net_step cfgs n n' -> net_ok n -> net_ok n'.
Proof.
  intros Hstep Hn. destruct Hstep as [i h hk now room k v m' n Hi Hk Hnow Hrun | i h m' n Hi Hm
    | i h r m c a b a' n Hi Hr Hc Ha Hin Hread | w' n Hstep Hout].
  - pose proof (no_kernels _ Hn i h Hi) as (Hm & _ & _).
    destruct (run_hook_spec i _ _ _ _ _ _ _ Hk Hrun) as (Hsok & He & Hmaps).
    eapply kernel_step_ok; [done | exact Hi | by apply Forall_singleton | | | done]; cbn [k_maps k_read].
    + destruct (seen _) as [[d r]|] eqn:E; subst m'; [|done]. apply recorded_ok; [|done].
      rewrite seen_tc in E. eapply tc_record_ok in E; [done | exact Hm | by apply skb_seen_ok | done | apply direction_ok].
    + rewrite He. cbn. by destruct (kept _).
  - pose proof (no_kernels _ Hn i h Hi) as (Hm' & _ & _). rewrite <- (app_nil_r (sights n)).
    eapply kernel_step_ok; [done | exact Hi | by apply Forall_nil_2 | | | done]; cbn [k_maps].
    + by eapply rewritten_ok.
    + cbn. rewrite app_nil_r. apply Hm.
  - pose proof (no_kernels _ Hn i h Hi) as (Hm & He & Hrd). pose proof (lookup_lt_Some _ _ _ Hr) as Hlt.
    assert (record_ok r) as Hrec.
    { destruct Hm as [Hall _ _]. rewrite Forall_forall in Hall. apply Hall. by eapply list_elem_of_lookup_2. }
    pose proof Hrec as [Hraw _].
    apply world_step_net_ok; [done | | by rewrite length_insert; apply (no_shape _ Hn) | |].
    + eapply world_local; [exact Hc | exact Ha |]. eapply local_read; [|exact Hread].
      destruct Hin as (Hif & Hdp & _). split; [exact Hif |]. split; [exact Hdp | by apply record_bytes].
    + intros j h2 [(<- & <- & _)|[Hne Hj]]%list_lookup_insert_Some; [|by apply (no_kernels _ Hn)].
      split; [done |]. split; [done | cbn; lia].
    + intros j h2 c2 out Hj Hc2 Hout. unfold printed in Hout. cbn [agents] in Hout.
      destruct (read_prints _ _ _ _ _ _ Hraw Hread) as (o & Ho & Hobs).
      assert (forall j, printed (world_of n) !! j = (fun a => stdout (em a)) <$> agents (world_of n) !! j) as Hpr
        by (intros; apply list_lookup_fmap).
      change (map ?f ?l) with (f <$> l) in Hout. rewrite list_lookup_fmap in Hout.
      apply list_lookup_insert_Some in Hj as [(<- & <- & _)|[Hne Hj]].
      * rewrite list_lookup_insert_eq in Hout by by eapply lookup_lt_Some. injection Hout as <-.
        rewrite Hc in Hc2. injection Hc2 as <-. unfold printed_ok. cbn [k_read k_maps].
        rewrite (take_S_r _ _ _ Hr), Ho. apply Forall2_app; [|apply Forall2_cons_2; [by exists m | constructor]].
        apply (no_printed _ Hn i); [done | done |]. by rewrite Hpr, Ha.
      * rewrite list_lookup_insert_ne in Hout by done. apply (no_printed _ Hn j); [done | done |]. by rewrite Hpr.
  - apply world_step_net_ok; [done | done | apply (no_shape _ Hn) | apply (no_kernels _ Hn) |].
    rewrite Hout. apply (no_printed _ Hn).
Qed.

(** The state after the start. *)
Definition fresh (m : maps) : Prop := maps_ok m /\ events m = [].

Lemma net_start_ok ms url ep sink :
  length ms = length cfgs -> Forall fresh ms -> net_ok (net_start cfgs ms url ep sink cap).
Proof.
  intros Hl Hms. assert (forall i h, kernels (net_start cfgs ms url ep sink cap) !! i = Some h ->
    exists m, h = mkKernel m 0 /\ fresh m) as Hk.
  { cbn. intros i h. change (map ?f ms) with (f <$> ms). rewrite list_lookup_fmap.
    destruct (ms !! i) as [m|] eqn:E; [|done]. intros [= <-]. exists m. split; [done |].
    rewrite Forall_forall in Hms. apply Hms. by eapply list_elem_of_lookup_2. }
  split; cbn [world_of kernels sights net_start world_start log collector].
  - by apply world_start_ok.
  - cbn. by rewrite !length_map.
  - constructor.
  - constructor.
  - intros i h Hi. destruct (Hk i h Hi) as (m & -> & Hm & He). split; [done |]. cbn. by rewrite He.
  - intros i h c out Hi _ Hout. destruct (Hk i h Hi) as (m & -> & _).
    unfold printed in Hout. cbn in Hout. rewrite map_map in Hout. change (map ?f ?l) with (f <$> l) in Hout.
    rewrite list_lookup_fmap in Hout. destruct (cfgs !! i); [|done]. injection Hout as <-. constructor.
  - intros id. apply sublist_nil_l.
Qed.

Lemma net_reachable_ok ms url ep sink n :
  length ms = length cfgs -> Forall fresh ms ->
  net_reachable cfgs (net_start cfgs ms url ep sink cap) n -> net_ok n.
Proof. intros Hl Hms. induction 1; [by apply net_start_ok | by eapply net_step_ok]. Qed.

(** ** From paths back to packets *)

(** The run id in the record of a sight. *)
Definition kept_id (s : sight) : option string := (fun r => uuid_String (RawID r)) <$> kept s.

(** The packets of a run of which there is a record. *)
Definition hops (id : string) (l : list sight) : list sight := filter (fun s => kept_id s = Some id) l.

(** What the observation [o] says of the sight [s]: the run id stands in the packet
    behind the magic word; the agent of the host, the hook, the interface, the time
    and what became of the packet. *)
Record hop_of (s : sight) (o : Observation) : Prop := {
  ho_block : exists k, let p := drop k (sk_data (s_skb s)) in
    marked_payload p = true /\ Observation.ID o = uuid_String (take 16 (drop 4 p));
  ho_agent : exists c, cfgs !! s_host s = Some c /\ NodeID o = em_nodeID c /\ AZ o = em_az c;
  ho_where : o_Direction o = directionString (direction_of (s_hook s))
    /\ o_IfIndex o = sk_ifindex (s_skb s) /\ o_CaptureNS o = s_now s;
  ho_action : o_Action o = (if dropped (s_hook s) (s_verdict s) then "INTERCEPTED" else "FORWARDED")%string
}.

Lemma observed_fields c m r o :
  observed c (m, r) o ->
  Observation.ID o = uuid_String (RawID r) /\ NodeID o = em_nodeID c /\ AZ o = em_az c
  /\ o_Direction o = directionString (Direction r) /\ o_IfIndex o = IfIndex r /\ o_CaptureNS o = CaptureNS r
  /\ o_Action o = actionString (Action r).
Proof.
  intros (names & ls & ->). cbn [fst snd]. unfold Enrich. destruct (ifName _ _ _), (latency _ _).
  by destruct (_ =? 0).
Qed.

Lemma shown_hop c s o :
  sight_ok s -> cfgs !! s_host s = Some c -> shown_by c s o ->
  hop_of s o /\ kept_id s = Some (Observation.ID o).
Proof.
  intros [Hk Hd] Hc (r & m & Hr & Hobs).
  destruct (observed_fields _ _ _ _ Hobs) as (Hid & Hn & Haz & Hdir & Hif & Hns & Hact).
  split; [|unfold kept_id; by rewrite Hr, Hid].
  unfold kept in Hr. destruct (s_room s); [|done]. rewrite seen_tc in Hr, Hd.
  destruct (tc_sees _ _ _ _) as [[d r']|] eqn:E; [|done]. injection Hr as ->. cbn in Hd.
  destruct (skb_seen_ok s Hk) as (Hk' & Hdata & Hidx).
  destruct (tc_sees_record _ _ _ _ _ _ Hk' E) as [(k & Hm & Hrid & _) (H1 & H2 & H3) Ha _].
  rewrite Hdata in *. split.
  - exists k. split; [exact Hm |]. by rewrite Hid, Hrid.
  - by exists c.
  - by rewrite Hdir, H1, Hif, H2, Hidx, Hns, H3.
  - rewrite Hact, Ha, Hd. by destruct d.
Qed.

Lemma kept_at_host i l : kept_sights (at_host i l) = at_host i (kept_sights l).
Proof. unfold kept_sights, at_host. rewrite !list_filter_filter. apply list_filter_iff. tauto. Qed.

Definition made (s : sight) (p : post) : Prop :=
  s_host s = from p /\ exists c, cfgs !! s_host s = Some c /\ shown_by c s (what p).

(** The first records of a host are those of its first sights. *)
Lemma host_shows n i h c a :
  net_ok n -> kernels n !! i = Some h -> cfgs !! i = Some c -> agents (world_of n) !! i = Some a ->
  exists ss, ss ⊆+ at_host i (kept_sights (sights n))
    /\ (k_read h = length (events (k_maps h)) -> ss = at_host i (kept_sights (sights n)))
    /\ Forall2 (shown_by c) ss (stdout (em a)).
Proof.
  intros Hn Hi Hc Ha. destruct (no_kernels _ Hn i h Hi) as (_ & He & Hrd).
  assert (printed (world_of n) !! i = Some (stdout (em a))) as Hout.
  { unfold printed. change (map ?f ?l) with (f <$> l). by rewrite list_lookup_fmap, Ha. }
  pose proof (no_printed _ Hn i h c _ Hi Hc Hout) as Hp. unfold printed_ok in Hp.
  pose proof (omap_filter kept (at_host i (sights n))) as Hk. rewrite <- He in Hk.
  fold (kept_sights (at_host i (sights n))) in Hk. rewrite kept_at_host in Hk.
  exists (take (k_read h) (at_host i (kept_sights (sights n)))). split_and!.
  - apply sublist_submseteq, sublist_take.
  - intros Hr. apply take_ge. rewrite (Forall2_length _ _ _ Hk). lia.
  - eapply Forall2_trans; [| by apply Forall2_take, Hk | exact Hp].
    intros s r o Hs (m & Ho). by exists r, m.
Qed.

Definition posts_arrived (l : list post) : list post := filter (fun p => is_true (arrived p)) l.

(** Every post that arrived is of a sight of its own. *)
Lemma posts_covered n :
  net_ok n -> covers made (kept_sights (sights n)) (posts_arrived (log (world_of n))).
Proof.
  intros Hn. apply (covers_by _ s_host from); [by intros s p [? _] |]. intros i.
  destruct (decide (i < length cfgs)%nat) as [Hlt|Hge].
  - destruct (no_shape _ Hn) as [Hl1 Hl2].
    destruct (lookup_lt_is_Some_2 cfgs i Hlt) as [c Hc], (lookup_lt_is_Some_2 (kernels n) i) as [h Hh];
      [lia|]. destruct (lookup_lt_is_Some_2 (agents (world_of n)) i) as [a Ha]; [lia |].
    destruct (host_shows _ _ _ _ _ Hn Hh Hc Ha) as (ss & Hss & _ & HF).
    assert (covers (shown_by c) (at_host i (kept_sights (sights n)))
      (map what (filter (fun p => from p = i) (posts_arrived (log (world_of n)))))) as Hcov.
    { apply (covers_right _ _ (stdout (em a))); [|by exists ss].
      pose proof (no_world _ Hn) as [Hag Hpo _ _]. destruct (Hag i a Ha) as (c' & _ & Hok).
      apply sublist_submseteq. etrans; [|by eapply posts_of_part]. rewrite <- (Hpo i a Ha).
      unfold sent_by, posts_arrived. apply (fmap_sublist what). rewrite list_filter_filter.
      rewrite (list_filter_iff _ (fun p => is_true (arrived p) /\ from p = i)) by tauto.
      rewrite <- list_filter_filter. apply sublist_filter. }
    apply (covers_map _ what), covers_in in Hcov. eapply covers_impl; [|exact Hcov].
    intros s p (Hs & Hp & Hsh). apply list_elem_of_filter in Hs as [Hs _], Hp as [Hp _].
    split; [congruence |]. exists c. by rewrite Hs.
  - rewrite (filter_none _ (posts_arrived _)); [exists []; split; [apply submseteq_nil_l | constructor] |].
    intros p [_ Hp]%list_elem_of_filter Hf. pose proof (no_posts _ Hn) as H. rewrite Forall_forall in H.
    specialize (H p Hp). lia.
Qed.

(** Everything has come through: the records are read, the queues never were full
    and are empty, no post was lost, and the collector is within its limits. *)
Definition delivered (n : net) : Prop :=
  within cap (received (log (world_of n))) /\ Forall (fun p => arrived p = true) (log (world_of n))
  /\ (forall i h, kernels n !! i = Some h -> k_read h = length (events (k_maps h)))
  /\ forall i a, agents (world_of n) !! i = Some a ->
       exists q, ship (em a) = Some q /\ queue q = [] /\ sending q = None
                 /\ (length (stdout (em a)) <= queue_cap)%nat.

(** Then every sight with a record has a post that arrived. *)
Lemma sights_covered n :
  net_ok n -> delivered n -> covers (fun p s => made s p) (posts_arrived (log (world_of n))) (kept_sights (sights n)).
Proof.
  intros Hn (_ & Harr & Hread & Hdone). apply (covers_by _ from s_host); [by intros p s [? _] |]. intros i.
  destruct (decide (i < length cfgs)%nat) as [Hlt|Hge].
  - destruct (no_shape _ Hn) as [Hl1 Hl2].
    destruct (lookup_lt_is_Some_2 cfgs i Hlt) as [c Hc], (lookup_lt_is_Some_2 (kernels n) i) as [h Hh];
      [lia|]. destruct (lookup_lt_is_Some_2 (agents (world_of n)) i) as [a Ha]; [lia |].
    destruct (host_shows _ _ _ _ _ Hn Hh Hc Ha) as (ss & _ & Hss & HF). rewrite Hss in HF by by apply (Hread i).
    destruct (Hdone i a Ha) as (q & Hq & Hqu & Hs & Hlen).
    pose proof (no_world _ Hn) as [Hag Hpo _ _]. destruct (Hag i a Ha) as (c' & _ & Hok).
    rewrite <- (posts_of_all _ _ _ Hok Hq Hqu Hs Hlen), <- (Hpo i a Ha) in HF.
    apply Forall2_flip in HF. unfold sent_by in HF. apply (Forall2_fmap_l what), covers_Forall2 in HF.
    unfold posts_arrived. rewrite (filter_every _ (log _)) by exact Harr.
    apply covers_in in HF. eapply covers_impl; [|exact HF].
    intros p s (Hp & Hs' & Hsh). apply list_elem_of_filter in Hs' as [Hs' _], Hp as [Hp _].
    split; [congruence |]. exists c. by rewrite Hs'.
  - rewrite (filter_none _ (kept_sights _)); [exists []; split; [apply submseteq_nil_l | constructor] |].
    intros s [_ Hs]%list_elem_of_filter Hf. pose proof (no_sights _ Hn) as H. rewrite Forall_forall in H.
    destruct (H s Hs). lia.
Qed.

Lemma made_hop n s p :
  net_ok n -> s ∈ kept_sights (sights n) -> made s p ->
  hop_of s (what p) /\ (kept_id s = Some (Observation.ID (what p))).
Proof.
  intros Hn Hin (_ & c & Hc & Hsh). apply list_elem_of_filter in Hin as [_ Hin].
  pose proof (no_sights _ Hn) as H. rewrite Forall_forall in H. destruct (H s Hin) as [Hok _].
  by eapply shown_hop.
Qed.

Lemma kept_hops id l : filter (fun s => kept_id s = Some id) (kept_sights l) = hops id l.
Proof.
  unfold hops, kept_sights. rewrite list_filter_filter. apply list_filter_iff. intros s.
  split; [tauto |]. intros H. split; [done |]. unfold kept_id in H. destruct (kept s); [by eexists | done].
Qed.

Lemma with_id_posts id l :
  with_id id (received l) = map what (filter (fun p => Observation.ID (what p) = id) (posts_arrived l)).
Proof.
  unfold received, with_id. fold (posts_arrived l). induction (posts_arrived l) as [|p k IH]; [done |].
  cbn [map]. rewrite !filter_cons. case_decide; [cbn [map]; by rewrite IH | done].
Qed.

(** The hops of a run and what was received of it. *)
Lemma hops_received n id :
  net_ok n ->
  covers hop_of (hops id (sights n)) (with_id id (received (log (world_of n))))
  /\ (delivered n -> (length (hops id (sights n)) <= length (with_id id (received (log (world_of n)))))%nat).
Proof.
  intros Hn. rewrite with_id_posts, <- kept_hops. split.
  - apply covers_map. pose proof (covers_in _ _ _ (posts_covered n Hn)) as H.
    eapply covers_impl; [|eapply covers_filter; [|exact H]].
    + intros s p (Hs & _ & Hm). by apply (made_hop n).
    + intros s p (Hs & _ & Hm). destruct (made_hop n s p Hn Hs Hm) as [_ ->]. split; [by intros [= ->] | by intros <-].
  - intros Hd. rewrite length_map. pose proof (covers_in _ _ _ (sights_covered n Hn Hd)) as H.
    eapply covers_length, covers_filter; [|exact H].
    intros p s (_ & Hs & Hm). destruct (made_hop n s p Hn Hs Hm) as [_ ->]. split; [by intros <- | by intros [= ->]].
Qed.

Lemma path_run s id : path s id ≡ₚ run s id.
Proof. unfold path. by destruct (sort_from [] (run s id) ltac:(constructor)) as (Hp & _). Qed.
End invariant.

(** Every run of the network is a run of the agents and the collector of Pipeline. *)
Lemma net_refines cfgs cap ms url ep sink n :
  Forall (fun c => text (em_nodeID c) /\ text (em_az c)) cfgs -> 1 <= cap ->
  length ms = length cfgs -> Forall fresh ms ->
  net_reachable cfgs (net_start cfgs ms url ep sink cap) n ->
  world_reachable cfgs (world_start cfgs url ep sink cap) (world_of n).
Proof.
  intros Hc Hcap Hl Hms. induction 1 as [|n n' Hr IH Hstep]; [constructor |].
  pose proof (net_reachable_ok _ _ Hc Hcap _ _ _ _ _ Hl Hms Hr) as Hn.
  destruct Hstep as [i h hk now room k v m' n _ _ _ _ | i h m' n _ _
    | i h r m c a b a' n Hi Hev Hci Ha (Hif & Hdp & _) Hread | w' n Hw _]; cbn [world_of]; [exact IH..| |].
  - eapply world_next; [exact IH |]. eapply world_local; [exact Hci | exact Ha |].
    eapply local_read; [|exact Hread]. split; [exact Hif |]. split; [exact Hdp |]. apply record_bytes.
    destruct (no_kernels _ _ _ Hn i h Hi) as ([Hall _ _] & _). rewrite Forall_forall in Hall.
    apply Hall. by eapply list_elem_of_lookup_2.
  - by eapply world_next.
Qed.

(** C11: Paths are made of packets.  In every reachable state of the whole system (any
    number of hosts whose eBPF programs see any packets at any hook, agents that
    read the records and write the maps, posts that arrive or are lost, and a
    collector that answers any requests, in any order), every entry of the path of a
    run stands for a packet of its own: one that a program saw and recorded, with
    the run id behind the magic word of its control block; the entry names the agent
    of that host, the direction, the interface and the time, and says INTERCEPTED
    exactly when the program dropped the packet.  Nothing is invented and nothing is
    listed twice.  And once the records are read and every post has arrived, with
    queues and collector within their limits, nothing is missing: the path has one
    entry for each packet of the run that was recorded. *)
Theorem paths_are_made_of_packets cfgs cap ms url ep sink n id :
  Forall (fun c => text (em_nodeID c) /\ text (em_az c)) cfgs -> 1 <= cap ->
  length ms = length cfgs -> Forall fresh ms ->
  net_reachable cfgs (net_start cfgs ms url ep sink cap) n ->
  (exists ss, ss ⊆+ hops id (sights n) /\ Forall2 (hop_of cfgs) ss (path (collector (world_of n)) id))
  /\ (delivered cap n ->
       exists ss, ss ≡ₚ hops id (sights n) /\ Forall2 (hop_of cfgs) ss (path (collector (world_of n)) id)).
Proof.
  intros Hc Hcap Hl Hms Hr. pose proof (net_reachable_ok _ _ Hc Hcap _ _ _ _ _ Hl Hms Hr) as Hn.
  destruct (hops_received _ _ n id Hn) as [Hcov Hlen].
  pose proof (path_run (collector (world_of n)) id) as Hp.
  assert (covers (hop_of cfgs) (hops id (sights n)) (path (collector (world_of n)) id)) as Hpath.
  { eapply covers_right; [|exact Hcov]. rewrite Hp. apply sublist_submseteq, (no_store _ _ _ Hn). }
  split; [exact Hpath |]. intros Hd. apply covers_all; [exact Hpath |].
  rewrite (Permutation_length Hp), (w_keeps _ _ _ (no_world _ _ _ Hn) (proj1 Hd)). by apply Hlen.
Qed.

(** ** An instance: a probe is dropped on its VM's host and its record gets through *)

Definition net_agent0 : Emit.agent := mkAgent (newEmitter "http://collector:8080" "" false) ∅ 0 0.
Definition net_agent1 : Emit.agent :=
  state_of (read_one demo_em (demo_moment (fun _ => None)) (Record (raw_bytes bpf_record)) net_agent0) net_agent0.
Definition ship_once (a : Emit.agent) : Emit.agent :=
  set_ship (default (demo_q a) (shipStep (demo_q a))) a.
Definition net_obs : Observation := default sample_obs (head (stdout (em net_agent1))).

Definition net_sight : sight := mkSight 0 TcIngress 42 true (bpf_skb bpf_frame) bpf_maps TC_ACT_SHOT.
Definition net_kernel (read : nat) : kernel := mkKernel (submit bpf_record bpf_maps) read.

Definition demo_net0 : net := net_start [demo_em] [bpf_maps] "http://collector:8080" "" false 100.
Definition demo_net1 : net := mkNet (world_of demo_net0) [net_kernel 0] [net_sight].
Definition demo_net2 : net := mkNet (mkWorld [net_agent1] (newStore 100) []) [net_kernel 1] [net_sight].
Definition demo_net3 : net := mkNet (mkWorld [ship_once net_agent1] (newStore 100) []) [net_kernel 1] [net_sight].
Definition demo_net4 : net :=
  mkNet (mkWorld [ship_once (ship_once net_agent1)] (added net_obs (newStore 100)) [mkPost 0 net_obs true])
    [net_kernel 1] [net_sight].

Lemma demo_net_steps : net_reachable [demo_em] demo_net0 demo_net4.
Proof.
  apply (net_next _ _ demo_net3); [apply (net_next _ _ demo_net2); [apply (net_next _ _ demo_net1);
    [eapply net_next; [constructor |] |] |] |].
  - apply (net_packet _ 0 (mkKernel bpf_maps 0) TcIngress 42 true (bpf_skb bpf_frame) TC_ACT_SHOT
      (submit bpf_record bpf_maps) demo_net0); [done | exact bpf_skb_ok | unfold fits; cbn; lia |].
    vm_compute. reflexivity.
  - apply (net_read _ 0 (net_kernel 0) bpf_record (demo_moment (fun _ => None)) demo_em net_agent0 true net_agent1
      demo_net1); [done | done | done | done | | vm_compute; reflexivity].
    destruct demo_input as (H1 & H2 & _). split; [exact H1 |]. split; [exact H2 | exact I].
  - apply (net_other _ (world_of demo_net3) demo_net2); [|vm_compute; reflexivity].
    apply (world_local _ 0 demo_em net_agent1 (ship_once net_agent1) (world_of demo_net2)); [done | done |].
    apply (local_take _ net_agent1 (demo_q net_agent1) (demo_q (ship_once net_agent1))); vm_compute; reflexivity.
  - apply (net_other _ (world_of demo_net4) demo_net3); [|vm_compute; reflexivity].
    apply (world_post _ 0 (ship_once net_agent1) (demo_q (ship_once net_agent1))
      (demo_q (ship_once (ship_once net_agent1))) net_obs RespNoContent (added net_obs (newStore 100))
      (world_of demo_net3)); vm_compute; reflexivity.
Qed.

Lemma demo_net_delivered : delivered 100 demo_net4.
Proof.
  split; [|split; [by repeat constructor | split]].
  - split; [vm_compute; discriminate |]. intros id. change (received _) with [net_obs]. unfold with_id.
    pose proof (length_filter (fun o => Observation.ID o = id) [net_obs]) as H. change (length [net_obs]) with 1%nat in H.
    unfold maxObsPerRun. lia.
  - intros [|i] h; cbn; [by intros [= <-] | done].
  - intros [|i] a; [|done]. intros [= <-]. eexists. split; [reflexivity |].
    split; [reflexivity |]. split; [reflexivity |]. vm_compute. lia.
Qed.

Lemma paths_are_made_of_packets_witness :
  exists n id, net_reachable [demo_em] demo_net0 n /\ length (path (collector (world_of n)) id) = 1%nat
    /\ exists ss, ss ≡ₚ hops id (sights n) /\ Forall2 (hop_of [demo_em]) ss (path (collector (world_of n)) id).
Proof.
  exists demo_net4, (uuid_String (RawID bpf_record)). split; [exact demo_net_steps |].
  split; [vm_compute; reflexivity |].
  eapply (paths_are_made_of_packets [demo_em] 100 [bpf_maps] "http://collector:8080" "" false demo_net4).
  - apply Forall_cons_2; [split; vm_compute; reflexivity | apply Forall_nil_2].
  - lia.
  - reflexivity.
  - apply Forall_cons_2; [|apply Forall_nil_2]. split; [|reflexivity]. split; [apply Forall_nil_2 | |].
    + intros i v H. change ((∅ : gmap Z Z) !! i = Some v) in H. by rewrite lookup_empty in H.
    + unfold fits. cbn. lia.
  - exact demo_net_steps.
  - exact demo_net_delivered.
Defined.
