(* ===== verification/GoFlag.v ===== *)
(** What the programs use of Go's package flag: the values of flags (strconv.ParseInt
    with base 0, strconv.ParseBool, time.ParseDuration) and the parser of the command
    line, with the law that a command line that sets flags is read as these settings. *)
From stdpp Require Import strings.
From Stdlib Require Import Ascii Floats.SpecFloat.
From S2P Require Import Prelude GoStd GoText GoTime GoJson GoJsonProps JsonCodec.

Local Open Scope Z_scope.

(** ** strconv.ParseUint and ParseInt with base 0 and 64 bits *)

Definition lower (c : Z) : Z := Z.lor c 32.

(** The base by its prefix, and the digits. *)
Definition base_prefix (l : bytes) : Z * bytes :=
  match l with
  | 48 :: c :: d :: r =>
      if lower c =? 98 then (2, d :: r)
      else if lower c =? 111 then (8, d :: r)
      else if lower c =? 120 then (16, d :: r)
      else (8, c :: d :: r)
  | 48 :: r => (8, r)
  | _ => (10, l)
  end.

Definition digit_of (c : Z) : option Z :=
  if is_digit c then Some (c - 48)
  else if (97 <=? lower c) && (lower c <=? 122) then Some (lower c - 97 + 10)
  else None.

(** The loop over the digits, with the number so far and whether an underscore was
    seen. *)
Fixpoint uint_digits (base : Z) (l : bytes) (n : Z) (under : bool) : option (Z * bool) :=
  match l with
  | [] => Some (n, under)
  | c :: r =>
      if c =? 95 then uint_digits base r n true
      else
        d ← digit_of c;
        if base <=? d then None
        else if (2 ^ 64 - 1) / base + 1 <=? n then None       (* cutoff *)
        else
          let n := n * base in
          let n1 := u64 (n + d) in
          if n1 <? n then None else uint_digits base r n1 under
  end.

(** underscoreOK: [saw] is the kind of the last character. *)
Inductive saw := SawStart | SawDigit | SawUnder | SawOther.
#[export] Instance saw_eq_dec : EqDecision saw.
Proof. solve_decision. Defined.

Fixpoint under_loop (hex : bool) (s : saw) (l : bytes) : bool :=
  match l with
  | [] => negb (bool_decide (s = SawUnder))
  | c :: r =>
      if is_digit c || (hex && (97 <=? lower c) && (lower c <=? 102)) then under_loop hex SawDigit r
      else if c =? 95 then
        if bool_decide (s = SawDigit) then under_loop hex SawUnder r else false
      else if bool_decide (s = SawUnder) then false
      else under_loop hex SawOther r
  end.

Definition strip_sign (l : bytes) : bytes :=
  match l with c :: r => if (c =? 45) || (c =? 43) then r else l | [] => [] end.

Definition underscoreOK (l : bytes) : bool :=
  let l := strip_sign l in
  match l with
  | 48 :: c :: r =>
      if (lower c =? 98) || (lower c =? 111) || (lower c =? 120)
      then under_loop (lower c =? 120) SawDigit r
      else under_loop false SawStart l
  | _ => under_loop false SawStart l
  end.

Definition ParseUint0 (l : bytes) : option Z :=
  if bool_decide (l = []) then None
  else
    let '(base, digits) := base_prefix l in
    '(n, under) ← uint_digits base digits 0 false;
    if under && negb (underscoreOK l) then None else Some n.

Definition ParseInt0 (l : bytes) : option Z :=
  if bool_decide (l = []) then None
  else
    let neg := match l with c :: _ => c =? 45 | [] => false end in
    un ← ParseUint0 (strip_sign l);
    if negb neg && (2 ^ 63 <=? un) then None
    else if neg && (2 ^ 63 <? un) then None
    else Some (if neg then - un else un).

(** ** strconv.ParseBool *)

Definition ParseBool (s : string) : option bool :=
  if bool_decide (s ∈ ["1"; "t"; "T"; "true"; "TRUE"; "True"]%string) then Some true
  else if bool_decide (s ∈ ["0"; "f"; "F"; "false"; "FALSE"; "False"]%string) then Some false
  else None.

(** ** time.ParseDuration *)

(** leadingInt: the number at the head and the rest; [None] when it is too large. *)
Fixpoint leadingInt (l : bytes) (x : Z) : option (Z * bytes) :=
  match l with
  | c :: r =>
      if is_digit c then
        if 2 ^ 63 / 10 <? x then None
        else let x := x * 10 + (c - 48) in
             if 2 ^ 63 <? x then None else leadingInt r x
      else Some (x, l)
  | [] => Some (x, [])
  end.

(** float64, and the operations the fraction of a duration needs. *)
Definition float_of (z : Z) : spec_float := binary_normalize 53 1024 z 0 false.
Definition float_mul : spec_float -> spec_float -> spec_float := SFmul 53 1024.
Definition float_div : spec_float -> spec_float -> spec_float := SFdiv 53 1024.

(** uint64 of a float that is not negative and below 2^64: towards zero. *)
Definition uint_of (f : spec_float) : Z :=
  match f with
  | S754_finite false m e => Z.shiftl (Zpos m) e
  | _ => 0
  end.

(** leadingFraction: the digits, the scale, and the rest; digits that no longer fit
    are skipped. *)
Fixpoint leadingFraction (l : bytes) (x : Z) (scale : spec_float) (overflow : bool)
  : Z * spec_float * bytes :=
  match l with
  | c :: r =>
      if is_digit c then
        if overflow then leadingFraction r x scale true
        else if (2 ^ 63 - 1) / 10 <? x then leadingFraction r x scale true
        else
          let y := x * 10 + (c - 48) in
          if 2 ^ 63 <? y then leadingFraction r x scale true
          else leadingFraction r y (float_mul scale (float_of 10)) false
      else (x, scale, l)
  | [] => (x, scale, [])
  end.

(** The unit at the head: everything up to a digit or a dot. *)
Fixpoint unit_text (l : bytes) : bytes * bytes :=
  match l with
  | c :: r => if (c =? 46) || is_digit c then ([], l) else prod_map (cons c) id (unit_text r)
  | [] => ([], [])
  end.

Definition unitMap (u : bytes) : option Z :=
  if bool_decide (u = codes "ns") then Some 1
  else if bool_decide (u ∈ [codes "us"; 194 :: 181 :: codes "s"; 206 :: 188 :: codes "s"]) then Some 1000
  else if bool_decide (u = codes "ms") then Some 1000000
  else if bool_decide (u = codes "s") then Some 1000000000
  else if bool_decide (u = codes "m") then Some 60000000000
  else if bool_decide (u = codes "h") then Some 3600000000000
  else None.

(** One number with its unit: the nanoseconds and the rest. *)
Definition duration_part (l : bytes) : option (Z * bytes) :=
  match l with
  | c :: _ =>
      if (c =? 46) || is_digit c then
        '(v, l1) ← leadingInt l 0;
        let pre := negb (length l1 =? length l)%nat in
        let '(f, scale, l2, post) :=
          match l1 with
          | 46 :: r => let '(f, scale, l2) := leadingFraction r 0 (float_of 1) false in
                       (f, scale, l2, negb (length l2 =? length r)%nat)
          | _ => (0, float_of 1, l1, false)
          end in
        if negb pre && negb post then None
        else
          let '(u, rest) := unit_text l2 in
          if bool_decide (u = []) then None
          else
            unit ← unitMap u;
            if 2 ^ 63 / unit <? v then None
            else
              let v := v * unit in
              let v := if 0 <? f
                       then u64 (v + uint_of (float_mul (float_of f) (float_div (float_of unit) scale)))
                       else v in
              if (0 <? f) && (2 ^ 63 <? v) then None else Some (v, rest)
      else None
  | [] => None
  end.

(** The loop; every part takes at least one byte, so [n] is the length of the text. *)
Fixpoint duration_loop (n : nat) (l : bytes) (d : Z) : option Z :=
  match l, n with
  | [], _ => Some d
  | _, O => None
  | _, S n =>
      '(v, rest) ← duration_part l;
      let d := u64 (d + v) in
      if 2 ^ 63 <? d then None else duration_loop n rest d
  end.

Definition ParseDuration (s : string) : option Z :=
  let l := codes s in
  let neg := match l with c :: _ => c =? 45 | [] => false end in
  let l := strip_sign l in
  if bool_decide (l = [48]) then Some 0
  else if bool_decide (l = []) then None
  else
    d ← duration_loop (length l) l 0;
    if neg then Some (- d) else if 2 ^ 63 - 1 <? d then None else Some d.

Example duration_tests :
  map ParseDuration ["2s"; "-1.5h"; "1h15m30.918273645s"; "0"; "+5us"; ".5s"; "1"; "."; ""; "1y";
                     "9223372036854775807ns"; "-9223372036854775808ns"; "9223372036854775808ns";
                     "0.3333333333333333333h"; "1.s"; "100ms100"]%string
  = [Some 2000000000; Some (-5400000000000); Some 4530918273645; Some 0; Some 5000; Some 500000000;
     None; None; None; None; Some 9223372036854775807; Some (-9223372036854775808); None;
     Some 1200000000000; Some 1000000000; None].
Proof. vm_compute. reflexivity. Qed.

Example int_tests :
  map (fun s => ParseInt0 (codes s))
    ["0"; "-0"; "+7"; "080"; "017"; "0x1F"; "0b101"; "0o17"; "1_000"; "_1"; "1__0"; "0_7"; "0x_1"; "0x"; "";
     "-"; "9223372036854775807"; "9223372036854775808"; "-9223372036854775808"; "18446744073709551616"; "12a"]%string
  = [Some 0; Some 0; Some 7; None; Some 15; Some 31; Some 5; Some 15; Some 1000; None; None; Some 7; Some 1;
     None; None; None; Some 9223372036854775807; None; Some (-9223372036854775808); None; None].
Proof. vm_compute. reflexivity. Qed.

(** ** Flags *)

(** A flag of a set: how it changes the variables [F] of the program, and its
    default, which the declaration assigns. *)
Inductive flagValue (F : Type) :=
| StringVar (set : string -> F -> F) (def : string)
| IntVar (set : Z -> F -> F) (def : Z)
| BoolVar (set : bool -> F -> F) (def : bool)
| DurationVar (set : Z -> F -> F) (def : Z).
Arguments StringVar {F} set def.
Arguments IntVar {F} set def.
Arguments BoolVar {F} set def.
Arguments DurationVar {F} set def.

Definition FlagSet (F : Type) : Type := list (string * flagValue F).

Definition set_default {F} (v : flagValue F) (f : F) : F :=
  match v with
  | StringVar set d => set d f
  | IntVar set d | DurationVar set d => set d f
  | BoolVar set d => set d f
  end.

(** The variables after the declarations. *)
Definition declare {F} (fs : FlagSet F) (f : F) : F := foldl (fun f p => set_default (snd p) f) f fs.

(** The method Set of a value. *)
Definition set_value {F} (v : flagValue F) (s : string) (f : F) : option F :=
  match v with
  | StringVar set _ => Some (set s f)
  | IntVar set _ => z ← ParseInt0 (codes s); Some (set z f)
  | BoolVar set _ => b ← ParseBool s; Some (set b f)
  | DurationVar set _ => d ← ParseDuration s; Some (set d f)
  end.

Fixpoint formal {F} (fs : FlagSet F) (name : string) : option (flagValue F) :=
  match fs with
  | [] => None
  | (n, v) :: fs => if bool_decide (n = name) then Some v else formal fs name
  end.

(** What an argument is for the parser. *)
Inductive argument := NotFlag | Terminator | BadSyntax | IsFlag (name : string) (value : option string).

(** The name up to the first equals sign, and the value behind it. *)
Fixpoint split_eq (s : string) : string * option string :=
  match s with
  | EmptyString => (EmptyString, None)
  | String c r => if bool_decide (c = "="%char) then (EmptyString, Some r)
                  else let '(n, v) := split_eq r in (String c n, v)
  end.

Definition flag_name (s : string) : argument :=
  match s with
  | EmptyString => BadSyntax
  | String c _ => if bool_decide (c = "-"%char) || bool_decide (c = "="%char) then BadSyntax
                  else let '(n, v) := split_eq s in IsFlag n v
  end.

Definition read_arg (s : string) : argument :=
  match s with
  | String c r =>
      if bool_decide (c = "-"%char) then
        match r with
        | EmptyString => NotFlag
        | String c2 r2 =>
            if bool_decide (c2 = "-"%char)
            then if bool_decide (r2 = EmptyString) then Terminator else flag_name r2
            else flag_name r
        end
      else NotFlag
  | EmptyString => NotFlag
  end.

(** FlagSet.Parse with ExitOnError: the variables and the arguments that are left,
    or one of the two exits (status 0 after the usage text, status 2). *)
Inductive parsed (F : Type) := Parsed (f : F) (rest : list string) | HelpExit | ErrorExit.
Arguments Parsed {F} f rest.
Arguments HelpExit {F}.
Arguments ErrorExit {F}.

Fixpoint parse {F} (fs : FlagSet F) (args : list string) (f : F) : parsed F :=
  match args with
  | [] => Parsed f []
  | s :: args1 =>
      match read_arg s with
      | NotFlag => Parsed f args
      | Terminator => Parsed f args1
      | BadSyntax => ErrorExit
      | IsFlag name value =>
          match formal fs name with
          | None => if bool_decide (name = "help"%string) || bool_decide (name = "h"%string)
                    then HelpExit else ErrorExit
          | Some (BoolVar _ _ as v) =>
              match set_value v (default "true"%string value) f with
              | Some f => parse fs args1 f
              | None => ErrorExit
              end
          | Some v =>
              match value, args1 with
              | Some x, _ => match set_value v x f with Some f => parse fs args1 f | None => ErrorExit end
              | None, x :: args2 => match set_value v x f with Some f => parse fs args2 f | None => ErrorExit end
              | None, [] => ErrorExit
              end
          end
      end
  end.

(** ** Numbers that were printed are read back *)

Definition dec_from (n : Z) (l : bytes) : Z := foldl (fun a c => a * 10 + (c - 48)) n l.

Lemma dec_from_ge l n : Forall (fun c => is_digit c = true) l -> 0 <= n -> n <= dec_from n l.
Proof.
  intros Hl. revert n. induction Hl as [|c l Hc _ IH]; intros n Hn; [cbn; lia |]. unfold is_digit in Hc.
  cbn [dec_from foldl]. specialize (IH (n * 10 + (c - 48))). unfold dec_from in IH. lia.
Qed.

Lemma uint_digits_dec l n :
  Forall (fun c => is_digit c = true) l -> 0 <= n -> dec_from n l < 2 ^ 64 ->
  uint_digits 10 l n false = Some (dec_from n l, false).
Proof.
  intros Hl. revert n. induction Hl as [|c l Hc Hl IH]; intros n Hn Hb; [done |].
  pose proof (dec_from_ge l (n * 10 + (c - 48)) Hl) as Hge. cbn [dec_from foldl] in Hb. fold (dec_from (n * 10 + (c - 48)) l) in Hb.
  cbn [uint_digits]. unfold digit_of. rewrite Hc. unfold is_digit in Hc.
  replace (c =? 95) with false by lia. cbn [mbind option_bind].
  replace (10 <=? c - 48) with false by lia.
  change ((2 ^ 64 - 1) / 10 + 1) with 1844674407370955162.
  replace (1844674407370955162 <=? n) with false by lia.
  rewrite u64_small by lia. replace (n * 10 + (c - 48) <? n * 10) with false by lia.
  apply IH; [lia | exact Hb].
Qed.

Lemma strip_digit c r : is_digit c = true -> strip_sign (c :: r) = c :: r.
Proof. intros Hc. unfold is_digit in Hc. cbn. by replace ((c =? 45) || (c =? 43)) with false by lia. Qed.

Lemma ParseUint0_utoa z : 0 <= z < 2 ^ 64 -> ParseUint0 (utoa z) = Some z.
Proof.
  intros Hz. destruct (utoa_spec z) as (Hv & Hd & c & r & E & H0); [lia |].
  unfold ParseUint0. rewrite bool_decide_false by by rewrite E.
  assert (exists b l, base_prefix (utoa z) = (b, l) /\ uint_digits b l 0 false = Some (z, false)) as (b & l & -> & ->).
  { rewrite E in *. destruct (Z.eqb_spec c 48) as [->|Hne].
    - destruct (H0 eq_refl) as [-> ->]. by exists 8, [].
    - exists 10, (c :: r). split.
      + unfold base_prefix. clear -Hne. by repeat case_match; try lia.
      + rewrite (uint_digits_dec (c :: r) 0) by (done || lia || (change (dec_value (c :: r) < 2 ^ 64); lia)).
        by rewrite <- Hv. }
  done.
Qed.

Lemma ParseInt0_itoa z : - 2 ^ 63 <= z < 2 ^ 63 -> ParseInt0 (itoa z) = Some z.
Proof.
  intros Hz. unfold ParseInt0, itoa. destruct (Z.ltb_spec z 0) as [Hneg|Hpos].
  - rewrite bool_decide_false by done. change (strip_sign (45 :: utoa (- z))) with (utoa (- z)).
    rewrite ParseUint0_utoa by lia. cbn [mbind option_bind]. change (45 =? 45) with true. cbn [negb andb].
    replace (2 ^ 63 <? - z) with false by lia. f_equal. lia.
  - destruct (utoa_spec z Hpos) as (_ & Hd & c & r & E & _).
    pose proof (ParseUint0_utoa z ltac:(lia)) as Hu. rewrite E in *.
    apply Forall_cons in Hd as [Hc _]. rewrite bool_decide_false by done. rewrite strip_digit, Hu by done.
    cbn [mbind option_bind]. unfold is_digit in Hc. replace (c =? 45) with false by lia. cbn [negb andb].
    by replace (2 ^ 63 <=? z) with false by lia.
Qed.

Lemma leadingInt_dec l r n :
  Forall (fun c => is_digit c = true) l -> (forall c t, r = c :: t -> is_digit c = false) ->
  0 <= n -> dec_from n l <= 2 ^ 63 -> leadingInt (l ++ r) n = Some (dec_from n l, r).
Proof.
  intros Hl Hr. revert n. induction Hl as [|c l Hc Hl IH]; intros n Hn Hb.
  - cbn. destruct r as [|c t]; [done |]. cbn. by rewrite (Hr c t eq_refl).
  - pose proof (dec_from_ge l (n * 10 + (c - 48)) Hl) as Hge.
    cbn [dec_from foldl] in Hb. fold (dec_from (n * 10 + (c - 48)) l) in Hb.
    cbn [app leadingInt]. rewrite Hc. unfold is_digit in Hc. change (2 ^ 63 / 10) with 922337203685477580.
    replace (922337203685477580 <? n) with false by lia.
    replace (2 ^ 63 <? n * 10 + (c - 48)) with false by lia. apply IH; [lia | exact Hb].
Qed.

(** A duration in nanoseconds. *)
Definition nanos (d : Z) : string := of_codes (itoa d ++ codes "ns").

Lemma duration_nanos d : 0 <= d <= 2 ^ 63 -> duration_loop (length (utoa d ++ codes "ns")) (utoa d ++ codes "ns") 0 = Some d.
Proof.
  intros Hd. destruct (utoa_spec d) as (Hv & Hdig & c & r & E & _); [lia |].
  assert (duration_part (utoa d ++ codes "ns") = Some (d, [])) as Hp.
  { unfold duration_part. assert (exists t, utoa d ++ codes "ns" = c :: t) as [t Et] by (rewrite E; by eexists).
    assert (is_digit c = true) as Hc by (rewrite E in Hdig; by apply Forall_cons in Hdig as [? _]).
    rewrite Et. rewrite Hc, orb_true_r. rewrite <- Et.
    rewrite (leadingInt_dec (utoa d) (codes "ns") 0) by (done || (by intros ? ? [= <- _]) || lia || (change (dec_value (utoa d) <= 2 ^ 63); lia)).
    change (dec_from 0 (utoa d)) with (dec_value (utoa d)). rewrite Hv. cbn [mbind option_bind].
    rewrite length_app, E. cbn [length].
    replace (_ =? _)%nat with false by (symmetry; apply Nat.eqb_neq; cbn; lia).
    change ((if 2 ^ 63 / 1 <? d then None else Some (d * 1, [])) = Some (d, @nil Z)).
    rewrite Z.div_1_r. replace (2 ^ 63 <? d) with false by lia. by rewrite Z.mul_1_r. }
  assert (exists t, utoa d ++ codes "ns" = c :: t) as [t Et] by (rewrite E; by eexists).
  rewrite Et in Hp |- *. cbn [length duration_loop]. rewrite Hp. cbn [mbind option_bind].
  rewrite Z.add_0_l, u64_small by lia. replace (2 ^ 63 <? d) with false by lia. by destruct (length t).
Qed.

Lemma itoa_bytes z : bytes_ok (itoa z).
Proof.
  apply Forall_impl with (P := fun c => is_digit c = true \/ c = 45).
  - unfold itoa. destruct (Z.ltb_spec z 0); [apply Forall_cons; split; [by right |]|];
      (eapply Forall_impl; [apply utoa_spec; lia | by left]).
  - unfold is_digit, is_byte. lia.
Qed.

Lemma ParseDuration_nanos d : - 2 ^ 63 <= d < 2 ^ 63 -> ParseDuration (nanos d) = Some d.
Proof.
  intros Hd. unfold ParseDuration, nanos.
  rewrite codes_of_codes by (rewrite bytes_ok_app; split; [apply itoa_bytes | compute_decide]). unfold itoa. destruct (Z.ltb_spec d 0) as [Hneg|Hpos].
  - change (strip_sign ((45 :: utoa (- d)) ++ codes "ns")) with (utoa (- d) ++ codes "ns").
    rewrite bool_decide_false by (destruct (utoa (- d)) as [|? [|? ?]]; done).
    rewrite bool_decide_false by by destruct (utoa (- d)).
    cbn [app]. rewrite duration_nanos by lia. cbn. f_equal. lia.
  - destruct (utoa_spec d Hpos) as (_ & Hdig & c & r & E & _). pose proof (duration_nanos d ltac:(lia)) as Hl.
    rewrite E in *. apply Forall_cons in Hdig as [Hc _]. cbn [app] in *. rewrite strip_digit by done.
    rewrite bool_decide_false by by destruct r. rewrite bool_decide_false by done. rewrite Hl. cbn [mbind option_bind].
    unfold is_digit in Hc. replace (c =? 45) with false by lia. by replace (2 ^ 63 - 1 <? d) with false by lia.
Qed.

(** ** Command lines that set flags *)

(** How a flag is given: [--name=value] or [-name value] (not for a Boolean flag), or
    a Boolean flag alone; with one dash or two. *)
Inductive style := Joined | Spaced | Bare.
Record setting := mkSetting { st_name : string; st_double : bool; st_style : style; st_value : string }.

Definition dashes (s : setting) : string := if st_double s then "--" else "-".

Definition arg_texts (s : setting) : list string :=
  match st_style s with
  | Joined => [(dashes s +:+ st_name s +:+ String "=" (st_value s))%string]
  | Spaced => [(dashes s +:+ st_name s)%string; st_value s]
  | Bare => [(dashes s +:+ st_name s)%string]
  end.

(** What the setting means: [None] when there is no such flag, the value is refused,
    or the style is not one of the flag. *)
Definition apply_setting {F} (fs : FlagSet F) (s : setting) (f : F) : option F :=
  v ← formal fs (st_name s);
  match st_style s, v with
  | Joined, _ => set_value v (st_value s) f
  | Spaced, BoolVar _ _ => None
  | Spaced, _ => set_value v (st_value s) f
  | Bare, BoolVar set _ => Some (set true f)
  | Bare, _ => None
  end.

Definition apply_settings {F} (fs : FlagSet F) (l : list setting) (f : F) : option F :=
  foldl (fun o s => o ≫= apply_setting fs s) (Some f) l.

(** A name that an argument can carry. *)
Fixpoint no_equals (s : string) : bool :=
  match s with EmptyString => true | String c r => negb (bool_decide (c = "="%char)) && no_equals r end.
Definition flag_name_ok (s : string) : bool :=
  match s with EmptyString => false | String c _ => negb (bool_decide (c = "-"%char)) && no_equals s end.

Lemma split_eq_none n : no_equals n = true -> split_eq n = (n, None).
Proof.
  induction n as [|c n IH]; [done |]. cbn. case_bool_decide; [done |]. cbn. intros Hn. by rewrite IH.
Qed.

Lemma append_cons c n x : String c n +:+ x = String c (n +:+ x).
Proof. done. Qed.

Lemma split_eq_some n v : no_equals n = true -> split_eq (n +:+ String "=" v) = (n, Some v).
Proof.
  induction n as [|c n IH]; [done |]. rewrite append_cons. cbn.
  case_bool_decide; [done |]. cbn. intros Hn. by rewrite IH.
Qed.

Lemma read_arg_dashes s t :
  (forall c r, t = String c r -> c ≠ "-"%char) -> t ≠ EmptyString -> read_arg (dashes s +:+ t)%string = flag_name t.
Proof.
  intros Hd Ht. destruct t as [|c t]; [done |]. specialize (Hd c t eq_refl).
  unfold dashes. destruct (st_double s).
  - by rewrite !append_cons.
  - rewrite append_cons. change ("" +:+ String c t) with (String c t). cbn. by rewrite bool_decide_true, bool_decide_false by done.
Qed.

Lemma parse_setting {F} (fs : FlagSet F) s f f' rest :
  flag_name_ok (st_name s) = true -> apply_setting fs s f = Some f' ->
  parse fs (arg_texts s ++ rest) f = parse fs rest f'.
Proof.
  intros Hn Ha. unfold apply_setting in Ha. destruct (formal fs (st_name s)) as [v|] eqn:E; [|done].
  cbn [mbind option_bind] in Ha.
  assert (Hread : read_arg (dashes s +:+ st_name s)%string = IsFlag (st_name s) None
    /\ forall x, read_arg (dashes s +:+ st_name s +:+ String "=" x)%string = IsFlag (st_name s) (Some x)).
  { unfold flag_name_ok in Hn. destruct (st_name s) as [|c n]; [done |].
    apply andb_true_iff in Hn as [Hc He]. case_bool_decide as Hc2; [done |].
    assert (c ≠ "="%char) as Hc3 by (intros ->; done).
    split; [|intros x]; rewrite read_arg_dashes by (by intros ? ? [= <- _] || done); unfold flag_name;
      rewrite ?append_cons, !bool_decide_false by done; cbn [orb].
    - by rewrite split_eq_none.
    - by rewrite <- append_cons, split_eq_some. }
  destruct Hread as [H1 H2]. unfold arg_texts. destruct (st_style s); cbn [app parse].
  - rewrite H2, E. destruct v; try change (default "true" (Some (st_value s))) with (st_value s); by rewrite Ha.
  - rewrite H1, E. by destruct v; try done; rewrite Ha.
  - rewrite H1, E. destruct v; try done. injection Ha as <-. done.
Qed.

(** A command line of settings is read as these settings in order, later ones over
    earlier ones, and what follows it is read next. *)
Lemma parse_settings {F} (fs : FlagSet F) l f f' rest :
  forallb (fun s => flag_name_ok (st_name s)) l = true -> apply_settings fs l f = Some f' ->
  parse fs (mjoin (map arg_texts l) ++ rest) f = parse fs rest f'.
Proof.
  revert f. induction l as [|s l IH]; intros f Hn Ha; [by injection Ha as -> |].
  cbn in Hn. apply andb_true_iff in Hn as [Hs Hn]. unfold apply_settings in Ha. cbn [foldl mbind option_bind] in Ha.
  destruct (apply_setting fs s f) as [f1|] eqn:E.
  - change (mjoin (map arg_texts (s :: l))) with (arg_texts s ++ mjoin (map arg_texts l)).
    rewrite <- app_assoc, (parse_setting _ _ _ _ _ Hs E). by apply IH.
  - exfalso. clear -Ha. induction l; [done | by apply IHl].
Qed.

(** ** The grammar of command lines *)

(** [args] gives settings that turn [f] into [f'], and then ends: with no argument,
    one that is no flag, or the terminator. *)
Definition ends (tl rest : list string) : Prop :=
  (tl = rest /\ match rest with [] => True | s :: _ => read_arg s = NotFlag end)
  \/ (exists s, tl = s :: rest /\ read_arg s = Terminator).

Definition reads {F} (fs : FlagSet F) (args : list string) (f f' : F) (rest : list string) : Prop :=
  exists l tl, args = mjoin (map arg_texts l) ++ tl
    /\ forallb (fun s => flag_name_ok (st_name s)) l = true
    /\ apply_settings fs l f = Some f' /\ ends tl rest.

Lemma split_eq_inv s n v :
  split_eq s = (n, v) ->
  no_equals n = true /\ s = n +:+ match v with None => EmptyString | Some x => String "=" x end.
Proof.
  revert n v. induction s as [|c s IH]; intros n v; cbn [split_eq].
  - by intros [= <- <-].
  - case_bool_decide as Hc; [intros [= <- <-]; by rewrite Hc |].
    destruct (split_eq s) as [n' v']. intros [= <- <-]. destruct (IH n' v' eq_refl) as [Hn Hs].
    rewrite append_cons, <- Hs. cbn. by rewrite bool_decide_false.
Qed.

Lemma read_arg_inv s n v :
  read_arg s = IsFlag n v ->
  flag_name_ok n = true
  /\ exists d : bool, s = (if d then "--" else "-") +:+ n +:+ match v with None => EmptyString | Some x => String "=" x end.
Proof.
  assert (forall t, flag_name t = IsFlag n v -> flag_name_ok n = true
    /\ t = n +:+ match v with None => EmptyString | Some x => String "=" x end) as Hname.
  { intros [|c t]; [done |]. unfold flag_name. destruct (bool_decide (c = "-"%char)) eqn:E1, (bool_decide (c = "="%char)) eqn:E2;
      cbn [orb]; try done. destruct (split_eq (String c t)) as [n' v'] eqn:E. intros [= -> ->].
    pose proof (split_eq_inv _ _ _ E) as [Hn Ht]. split; [|exact Ht].
    cbn [split_eq] in E. rewrite E2 in E. destruct (split_eq t) as [n2 v2]. injection E as <- _.
    cbn [flag_name_ok]. by rewrite E1. }
  destruct s as [|c r]; [done |]. cbn [read_arg]. case_bool_decide as Hc; [|done]. subst c.
  destruct r as [|c2 r2]; [done |]. case_bool_decide as Hc2.
  - subst c2. case_bool_decide; [done |]. intros [Hn ->]%Hname. split; [done |]. exists true.
    by rewrite !append_cons.
  - intros [Hn ->]%Hname. split; [done |]. exists false. by rewrite append_cons.
Qed.

Lemma reads_cons {F} (fs : FlagSet F) s args f f1 f' rest :
  flag_name_ok (st_name s) = true -> apply_setting fs s f = Some f1 -> reads fs args f1 f' rest ->
  reads fs (arg_texts s ++ args) f f' rest.
Proof.
  intros Hn Hs (l & tl & -> & Hl & Ha & He). exists (s :: l), tl. split_and!; [| | | done].
  - change (mjoin (map arg_texts (s :: l))) with (arg_texts s ++ mjoin (map arg_texts l)). by rewrite app_assoc.
  - cbn. by rewrite Hn.
  - unfold apply_settings. cbn [foldl mbind option_bind]. by rewrite Hs.
Qed.

Lemma append_nil_r s : s +:+ EmptyString = s.
Proof. induction s as [|c s IH]; [done |]. by rewrite append_cons, IH. Qed.

(** The parser accepts the grammar. *)
Lemma parse_ends {F} (fs : FlagSet F) tl rest f : ends tl rest -> parse fs tl f = Parsed f rest.
Proof.
  intros [[-> H]|(s & -> & H)]; [|by cbn; rewrite H].
  destruct rest as [|s r]; [done |]. cbn. by rewrite H.
Qed.

(** One flag with its value, as it was read. *)
Lemma parse_step {F} (fs : FlagSet F) s args f f' rest n v :
  read_arg s = IsFlag n v -> parse fs (s :: args) f = Parsed f' rest ->
  exists st f1 args', s :: args = arg_texts st ++ args' /\ flag_name_ok (st_name st) = true
    /\ apply_setting fs st f = Some f1 /\ parse fs args' f1 = Parsed f' rest.
Proof.
  intros Hr Hp. pose proof (read_arg_inv _ _ _ Hr) as [Hn [d Hs]]. cbn [parse] in Hp. rewrite Hr in Hp.
  destruct (formal fs n) as [w|] eqn:E; [|by destruct (_ || _)].
  assert (Hset : forall sty x, exists st : setting, st = mkSetting n d sty x /\ dashes st = if d then "--" else "-")
    by (intros; eexists; split; [reflexivity | done]).
  assert (Hjoin : forall x, v = Some x -> forall f1, set_value w x f = Some f1 -> parse fs args f1 = Parsed f' rest ->
    exists st f1 args', s :: args = arg_texts st ++ args' /\ flag_name_ok (st_name st) = true
      /\ apply_setting fs st f = Some f1 /\ parse fs args' f1 = Parsed f' rest).
  { intros x -> f1 Hf Hp'. exists (mkSetting n d Joined x), f1, args. split_and!; [| done | | done].
    - by rewrite Hs.
    - unfold apply_setting. cbn. by rewrite E. }
  assert (Hspace : forall x args2 f1, v = None -> args = x :: args2 -> (forall set b, w ≠ BoolVar set b) ->
    set_value w x f = Some f1 -> parse fs args2 f1 = Parsed f' rest ->
    exists st f1 args', s :: args = arg_texts st ++ args' /\ flag_name_ok (st_name st) = true
      /\ apply_setting fs st f = Some f1 /\ parse fs args' f1 = Parsed f' rest).
  { intros x args2 f1 -> -> Hb Hf Hp'. exists (mkSetting n d Spaced x), f1, args2. split_and!; [| done | | done].
    - rewrite Hs, append_nil_r. done.
    - unfold apply_setting. cbn. rewrite E. destruct w; try done. by destruct (Hb set def). }
  destruct w as [set def|set def|set def|set def].
  3: { destruct v as [x|].
    - change (default "true" (Some x)) with x in Hp. destruct (set_value _ x f) as [f1|] eqn:Ef; [|done]. by eapply Hjoin.
    - exists (mkSetting n d Bare EmptyString), (set true f), args. split_and!; [| done | | done].
      + rewrite Hs, append_nil_r. done.
      + unfold apply_setting. cbn. by rewrite E. }
  all: destruct v as [x|]; [destruct (set_value _ x f) as [f1|] eqn:Ef; [|done]; by eapply Hjoin |];
    destruct args as [|x args2]; [done |]; destruct (set_value _ x f) as [f1|] eqn:Ef; [|done]; by eapply Hspace.
Qed.

Lemma arg_texts_length s args : (length args < length (arg_texts s ++ args))%nat.
Proof. rewrite length_app. unfold arg_texts. destruct (st_style s); cbn; lia. Qed.

(** The parser is the grammar. *)
Lemma parse_reads {F} (fs : FlagSet F) args f f' rest :
  parse fs args f = Parsed f' rest <-> reads fs args f f' rest.
Proof.
  split.
  - revert f. induction args as [args IH] using length_ind. intros f Hp.
    assert (Hend : ends args rest -> f = f' -> reads fs args f f' rest).
    { intros He <-. exists [], args. by split_and!. }
    destruct args as [|s args]; [injection Hp as <- <-; by apply Hend; [left |] |].
    destruct (read_arg s) as [| | |n v] eqn:E.
    4: { destruct (parse_step fs s args f f' rest n v E Hp) as (st & f1 & args' & Hs & Hn & Ha & Hp').
         rewrite Hs in *. eapply reads_cons; [done | exact Ha |]. apply IH; [apply arg_texts_length | done]. }
    all: cbn [parse] in Hp; rewrite E in Hp; try done.
    + injection Hp as <- <-. apply Hend; [left | done]. by rewrite E.
    + injection Hp as <- <-. apply Hend; [right; by exists s | done].
  - intros (l & tl & -> & Hl & Ha & He). rewrite (parse_settings fs l f f' tl Hl Ha). by apply parse_ends.
Qed.
