(* ===== verification/CommandLine.v ===== *)
(** The command lines of the three programs (client/main.go, agent/main.go,
    collector/main.go): their flag sets over package flag, and main from os.Args on. *)
From stdpp Require Import gmap strings.
From S2P Require Import Prelude GoStd GoText GoTime GoJson GoJsonProps JsonCodec GoFlag.
From S2P Require Collector Client System Runs.
From S2P Require Import Watch AgentMain.

Local Open Scope string_scope.
Local Open Scope Z_scope.

(** ** The client *)

Module ClientLine.
Import Client.
Local Open Scope Z_scope.

Definition client_flags : FlagSet flags := [
  ("src", StringVar (fun v '(mkFlags _ b c d e f g h i j k l m n o p) => mkFlags v b c d e f g h i j k l m n o p) "");
  ("dst", StringVar (fun v '(mkFlags a _ c d e f g h i j k l m n o p) => mkFlags a v c d e f g h i j k l m n o p) "");
  ("inner-src", StringVar (fun v '(mkFlags a b _ d e f g h i j k l m n o p) => mkFlags a b v d e f g h i j k l m n o p) "");
  ("inner-dst", StringVar (fun v '(mkFlags a b c _ e f g h i j k l m n o p) => mkFlags a b c v e f g h i j k l m n o p) "");
  ("sport", IntVar (fun v '(mkFlags a b c d _ f g h i j k l m n o p) => mkFlags a b c d v f g h i j k l m n o p) 40000);
  ("dport", IntVar (fun v '(mkFlags a b c d e _ g h i j k l m n o p) => mkFlags a b c d e v g h i j k l m n o p) 0);
  ("vni", IntVar (fun v '(mkFlags a b c d e f _ h i j k l m n o p) => mkFlags a b c d e f v h i j k l m n o p) 0);
  ("vlan", IntVar (fun v '(mkFlags a b c d e f g _ i j k l m n o p) => mkFlags a b c d e f g v i j k l m n o p) 0);
  ("iface", StringVar (fun v '(mkFlags a b c d e f g h _ j k l m n o p) => mkFlags a b c d e f g h v j k l m n o p) "");
  ("dst-mac", StringVar (fun v '(mkFlags a b c d e f g h i _ k l m n o p) => mkFlags a b c d e f g h i v k l m n o p) "");
  ("src-mac", StringVar (fun v '(mkFlags a b c d e f g h i j _ l m n o p) => mkFlags a b c d e f g h i j v l m n o p) "");
  ("as-vm", BoolVar (fun v '(mkFlags a b c d e f g h i j k _ m n o p) => mkFlags a b c d e f g h i j k v m n o p) false);
  ("hmac-key", StringVar (fun v '(mkFlags a b c d e f g h i j k l _ n o p) => mkFlags a b c d e f g h i j k l v n o p) "");
  ("response", BoolVar (fun v '(mkFlags a b c d e f g h i j k l m _ o p) => mkFlags a b c d e f g h i j k l m v o p) false);
  ("deliver", BoolVar (fun v '(mkFlags a b c d e f g h i j k l m n _ p) => mkFlags a b c d e f g h i j k l m n v p) false);
  ("timeout", DurationVar (fun v '(mkFlags a b c d e f g h i j k l m n o _) => mkFlags a b c d e f g h i j k l m n o v) 2000000000)
].

(** flags.parse, but for the check of --dst, which [Client.main] makes. *)
Definition parse_flags (args : list string) (f : flags) : parsed flags :=
  parse client_flags args (declare client_flags f).

(** main with os.Args. *)
Definition main_args {W} `{Host W} (fuel : nat) (args : list string) : cli W unit :=
  match args with
  | _ :: cmd :: args =>
      match parse_flags args newFlags with
      | Parsed f _ => main fuel cmd f
      | _ => fatal
      end
  | _ => fatal
  end.

(** A command line that gives these flags. *)
Definition text (n v : string) : setting := mkSetting n true Joined v.
Definition number (n : string) (z : Z) : setting := text n (of_codes (itoa z)).
Definition truth (n : string) (b : bool) : setting := text n (if b then "true" else "false").

Definition client_settings (f : flags) : list setting := [
  text "src" (f_src f); text "dst" (f_dst f); text "inner-src" (f_innerSrc f); text "inner-dst" (f_innerDst f);
  number "sport" (f_sport f); number "dport" (f_dport f); number "vni" (f_vni f); number "vlan" (f_vlan f); text
  "iface" (f_iface f); text "dst-mac" (f_dstMAC f); text "src-mac" (f_srcMAC f); truth "as-vm" (f_asVM f); text
  "hmac-key" (f_hmacKey f); truth "response" (f_response f); truth "deliver" (f_deliver f); text "timeout"
  (nanos (f_timeout f))
].

(** The numbers fit their Go types. *)
Definition int64_range (z : Z) : Prop := - 2 ^ 63 <= z < 2 ^ 63.
Definition flags_fit (f : flags) : Prop :=
  int64_range (f_sport f) /\ int64_range (f_dport f) /\ int64_range (f_vni f) /\ int64_range (f_vlan f)
  /\ int64_range (f_timeout f).
End ClientLine.

(** ** The agent *)

Module AgentLine.

(** The variables of main: those of [AgentMain.flags] and --watch-interval. *)
Definition vars : Type := AgentMain.flags * Z.
Definition on_flags {V} (set : V -> AgentMain.flags -> AgentMain.flags) : V -> vars -> vars :=
  fun v p => (set v (fst p), snd p).

Definition agent_flags : FlagSet vars := [
  ("iface", StringVar (on_flags (fun v '(mkFlags _ b c d e f g h i j k l m n o) => mkFlags v b c d e f g h i j k l m n o)) "");
  ("iface-type", StringVar (on_flags (fun v '(mkFlags a _ c d e f g h i j k l m n o) => mkFlags a v c d e f g h i j k l m n o)) "auto");
  ("node-id", StringVar (on_flags (fun v '(mkFlags a b _ d e f g h i j k l m n o) => mkFlags a b v d e f g h i j k l m n o)) "");
  ("respond", BoolVar (on_flags (fun v '(mkFlags a b c _ e f g h i j k l m n o) => mkFlags a b c v e f g h i j k l m n o)) true);
  ("tcp-respond", BoolVar (on_flags (fun v '(mkFlags a b c d _ f g h i j k l m n o) => mkFlags a b c d v f g h i j k l m n o)) true);
  ("local-ip", StringVar (on_flags (fun v '(mkFlags a b c d e _ g h i j k l m n o) => mkFlags a b c d e v g h i j k l m n o)) "");
  ("watch", BoolVar (on_flags (fun v '(mkFlags a b c d e f _ h i j k l m n o) => mkFlags a b c d e f v h i j k l m n o)) false);
  ("watch-interval", DurationVar (fun v p => (fst p, v)) 5000000000);
  ("watch-vxlan", BoolVar (on_flags (fun v '(mkFlags a b c d e f g _ i j k l m n o) => mkFlags a b c d e f g v i j k l m n o)) false);
  ("metrics-addr", StringVar (on_flags (fun v '(mkFlags a b c d e f g h _ j k l m n o) => mkFlags a b c d e f g h v j k l m n o)) "");
  ("hmac-key", StringVar (on_flags (fun v '(mkFlags a b c d e f g h i _ k l m n o) => mkFlags a b c d e f g h i v k l m n o)) "");
  ("az", StringVar (on_flags (fun v '(mkFlags a b c d e f g h i j _ l m n o) => mkFlags a b c d e f g h i j v l m n o)) "");
  ("collector-url", StringVar (on_flags (fun v '(mkFlags a b c d e f g h i j k _ m n o) => mkFlags a b c d e f g h i j k v m n o)) "");
  ("otlp-endpoint", StringVar (on_flags (fun v '(mkFlags a b c d e f g h i j k l _ n o) => mkFlags a b c d e f g h i j k l v n o)) "");
  ("xdp", BoolVar (on_flags (fun v '(mkFlags a b c d e f g h i j k l m _ o) => mkFlags a b c d e f g h i j k l m v o)) false);
  ("xdp-tc-egress", BoolVar (on_flags (fun v '(mkFlags a b c d e f g h i j k l m n _) => mkFlags a b c d e f g h i j k l m n v)) false)
].

(** The variables before the declarations, which set all of them. *)
Definition no_vars : vars :=
  (AgentMain.mkFlags "" "" "" false false "" false false "" "" "" "" "" false false, 0).

(** main from os.Args to the call of run: the options and the interval, or [None] for
    an exit before. *)
Definition agent_args (hostname : string) (args : list string) : option (opts * Z) :=
  match args with
  | _ :: args =>
      match parse agent_flags args (declare agent_flags no_vars) with
      | Parsed (f, interval) _ => o ← main_opts hostname f; Some (o, interval)
      | _ => None
      end
  | [] => None
  end.

Definition agent_settings (p : vars) : list setting :=
  let f := fst p in [
  ClientLine.text "iface" (f_iface f); ClientLine.text "iface-type" (f_ifaceType f); ClientLine.text "node-id"
  (f_nodeID f); ClientLine.truth "respond" (f_respond f); ClientLine.truth "tcp-respond" (f_tcpRespond f);
  ClientLine.text "local-ip" (f_localIP f); ClientLine.truth "watch" (f_watch f); ClientLine.text
  "watch-interval" (nanos (snd p)); ClientLine.truth "watch-vxlan" (f_watchVXLAN f); ClientLine.text
  "metrics-addr" (f_metricsAddr f); ClientLine.text "hmac-key" (f_hmacKey f); ClientLine.text "az" (f_az f);
  ClientLine.text "collector-url" (f_collectorURL f); ClientLine.text "otlp-endpoint" (f_otlpEndpoint f);
  ClientLine.truth "xdp" (f_xdp f); ClientLine.truth "xdp-tc-egress" (f_xdpTCEgress f)
].

(** time.NewTicker: it panics unless the interval is positive. *)
Definition NewTicker (d : Z) : go unit := if d <=? 0 then Panic else mret tt.

(** What a scan meets: the machine and the kernel, and what the discovery returns. *)
Definition scan : Type := env * option (list Port).

(** The loop of runWatcher: the select takes [ticks] in this order, then the stop. *)
Fixpoint watch_loop (c : tapConfig) (ticks : list scan) : st tapState unit :=
  match ticks with
  | [] => mret tt
  | (e, ports) :: ticks => _ ← reconcileOnce c e ports; watch_loop c ticks
  end.

Definition runWatcher (interval : Z) (c : tapConfig) (first : scan) (ticks : list scan) : st tapState unit :=
  _ ← lift (NewTicker interval);
  _ ← reconcileOnce c (fst first) (snd first);
  watch_loop c ticks.
End AgentLine.

(** ** The collector *)

Module CollectorLine.

(** --addr and --max-runs. *)
Definition vars : Type := string * Z.

Definition collector_flags : FlagSet vars := [
  ("addr", StringVar (fun v p => (v, snd p)) ":8080");
  ("max-runs", IntVar (fun v p => (fst p, v)) 10000)
].

(** main up to the handlers: the address and the store. *)
Definition collector_args (args : list string) : option (string * Collector.store) :=
  match args with
  | _ :: args =>
      match parse collector_flags args (declare collector_flags ("", 0)) with
      | Parsed (addr, maxRuns) _ => Some (addr, Collector.newStore maxRuns)
      | _ => None
      end
  | [] => None
  end.

Definition collector_settings (p : vars) : list setting :=
  [ClientLine.text "addr" (fst p); ClientLine.number "max-runs" (snd p)].
End CollectorLine.

(** ** Command lines that give the variables *)

Section settings.
Context {F : Type} (fs : FlagSet F).

Lemma apply_settings_cons s l f f1 :
  apply_setting fs s f = Some f1 -> apply_settings fs (s :: l) f = apply_settings fs l f1.
Proof. intros H. unfold apply_settings. cbn [foldl mbind option_bind]. by rewrite H. Qed.

Lemma apply_text n v set d f :
  formal fs n = Some (StringVar set d) -> apply_setting fs (ClientLine.text n v) f = Some (set v f).
Proof. intros H. unfold apply_setting. cbn. by rewrite H. Qed.

Lemma apply_number n z set d f :
  formal fs n = Some (IntVar set d) -> ClientLine.int64_range z ->
  apply_setting fs (ClientLine.number n z) f = Some (set z f).
Proof.
  intros H Hz. unfold apply_setting. cbn [ClientLine.number ClientLine.text st_name st_style st_value]. rewrite H.
  cbn [mbind option_bind set_value]. rewrite codes_of_codes by apply itoa_bytes. by rewrite ParseInt0_itoa.
Qed.

Lemma apply_nanos n z set d f :
  formal fs n = Some (DurationVar set d) -> ClientLine.int64_range z ->
  apply_setting fs (ClientLine.text n (nanos z)) f = Some (set z f).
Proof.
  intros H Hz. unfold apply_setting. cbn [ClientLine.text st_name st_style st_value]. rewrite H.
  cbn [mbind option_bind set_value]. by rewrite ParseDuration_nanos.
Qed.

Lemma apply_truth n b set d f :
  formal fs n = Some (BoolVar set d) -> apply_setting fs (ClientLine.truth n b) f = Some (set b f).
Proof. intros H. unfold apply_setting. cbn. rewrite H. by destruct b. Qed.
End settings.

(** Settings are applied one by one. *)
Ltac apply_all :=
  repeat (erewrite apply_settings_cons;
    [|first [eapply apply_nanos; [reflexivity | assumption] | eapply apply_text; reflexivity
            | eapply apply_number; [reflexivity | assumption] | eapply apply_truth; reflexivity]]).

Lemma client_settings_apply f f0 :
  ClientLine.flags_fit f -> apply_settings ClientLine.client_flags (ClientLine.client_settings f) f0 = Some f.
Proof.
  intros (? & ? & ? & ? & ?). unfold ClientLine.client_settings. apply_all. by destruct f, f0.
Qed.

Lemma agent_settings_apply f f0 :
  ClientLine.int64_range (snd f) -> apply_settings AgentLine.agent_flags (AgentLine.agent_settings f) f0 = Some f.
Proof.
  intros ?. unfold AgentLine.agent_settings. apply_all. by destruct f as [[] ?], f0 as [[] ?].
Qed.

Lemma collector_settings_apply f f0 :
  ClientLine.int64_range (snd f) ->
  apply_settings CollectorLine.collector_flags (CollectorLine.collector_settings f) f0 = Some f.
Proof. intros ?. unfold CollectorLine.collector_settings. apply_all. by destruct f, f0. Qed.

Lemma settings_read {F} (fs : FlagSet F) l f f' :
  forallb (fun s => flag_name_ok (st_name s)) l = true -> apply_settings fs l f = Some f' ->
  reads fs (mjoin (map arg_texts l)) f f' [].
Proof. intros Hn Ha. exists l, []. rewrite app_nil_r. split_and!; [done | done | done | by left]. Qed.


(** The usage line of the client, with a source port in hexadecimal and a duration with
    a fraction. *)
Definition demo_line : list string :=
  ["--dst"; "10.0.0.2"; "-response"; "--timeout=1.5s"; "--sport"; "0x50"; "-response=false"; "--"; "--dst"].


(** ** Command lines with surprises *)

(** A Boolean flag does not take the next argument: it ends the flags, and what
    follows is ignored, here the destination. *)
Example bool_flag_takes_no_value :
  parse ClientLine.client_flags ["--response"; "true"; "--dst"; "10.0.0.2"] Client.newFlags
  = Parsed (Client.mkFlags "" "" "" "" 40000 0 0 0 "" "" "" false "" true false 2000000000)
      ["true"; "--dst"; "10.0.0.2"].
Proof. vm_compute. reflexivity. Qed.

(** The interval of --watch is not checked: the agent starts, and its watcher panics
    before the first scan. *)
Lemma watch_interval_zero_panics first ticks s :
  exists o, AgentLine.agent_args "host" ["agent"; "--watch"; "--watch-interval=0"] = Some (o, 0)
    /\ watch o = true /\ AgentLine.runWatcher 0 (tap_config o) first ticks s = Panic.
Proof. eexists. split; [vm_compute; reflexivity |]. split; reflexivity. Qed.

(** With a positive interval the goroutine is a scan and then one for every tick: it
    returns as long as scans do, and its states are those of the transition system. *)
Lemma watch_loop_reachable c (P : env -> tapState -> Prop) k ticks s :
  (forall e ports s, exists s', reconcileOnce c e ports s = Ret (tt, s')) ->
  Forall (fun t => forall s, tap_reachable c P k s -> P (fst t) s) ticks ->
  tap_reachable c P k s ->
  exists s', AgentLine.watch_loop c ticks s = Ret (tt, s') /\ tap_reachable c P k s'.
Proof.
  intros Hret Ht. revert s. induction Ht as [|[e ports] ticks Hp _ IH]; intros s Hs; [by exists s |].
  cbn [AgentLine.watch_loop]. destruct (Hret e ports s) as [s1 H1]. rewrite (st_bind_ret _ _ _ _ _ H1).
  apply IH. eapply tap_more; [exact Hs | eapply tap_tick; [by apply Hp | exact H1]].
Qed.

Lemma watcher_runs d c first ticks s :
  0 < d -> AgentLine.runWatcher d c first ticks s = AgentLine.watch_loop c (first :: ticks) s.
Proof.
  intros Hd. unfold AgentLine.runWatcher, AgentLine.NewTicker.
  replace (d <=? 0) with false by lia. by destruct first.
Qed.
