(* ===== verification/WireBytes.v ===== *)
(** Everything the client puts on the wire is a list of bytes: the results of the
    text parsers, the builders' packets and the signed payload. *)
From S2P Require Import Prelude GoStd GoText TfMeta TfMetaProps Pkt PktProps.
From S2P Require Import Responder ResponderSpec Wire Sniffer Client System EndToEnd.

Local Open Scope Z_scope.

(** ** The text parsers *)

Lemma ipv4_fields_ok l fs v d a :
  bytes_ok fs -> 0 <= v < 256 -> ipv4_fields l fs v d = Some a -> bytes_ok a.
Proof.
  revert fs v d. induction l as [|c r IH]; intros fs v d Hf Hv; cbn [ipv4_fields].
  - intros H. repeat case_match; simplify_eq. apply bytes_ok_app. auto with bytes.
  - unfold is_digit. intros H. repeat case_match; try done; eapply IH in H; auto with bytes; lia.
Qed.

Lemma ipv6_finish_ok ip ell rest a : bytes_ok ip -> ipv6_finish ip ell rest = Some a -> bytes_ok a.
Proof.
  unfold ipv6_finish. intros Hi H. repeat case_match; simplify_eq; [|done].
  rewrite !bytes_ok_app. split_and!; auto with bytes. apply bytes_ok_zeros.
Qed.

Lemma ipv6_groups_ok n l ip ell a : bytes_ok ip -> ipv6_groups n l ip ell = Some a -> bytes_ok a.
Proof.
  revert l ip ell. induction n as [|n IH]; intros l ip ell Hi; cbn [ipv6_groups].
  - by apply ipv6_finish_ok.
  - assert (forall v, bytes_ok (ip ++ be_encode 2 v)) as Hv by auto with bytes.
    intros H. repeat case_match; try done; try (by eapply IH in H); try (by eapply ipv6_finish_ok in H).
    all: eapply ipv6_finish_ok; [|exact H]; apply bytes_ok_app; split; [done |];
      eapply (ipv4_fields_ok _ [] 0); try eassumption; [auto with bytes | lia].
Qed.

Lemma ParseIP_ok s : bytes_ok (ParseIP s).
Proof.
  unfold ParseIP. destruct (addr_kind (codes s)) as [[]|]; [| |auto with bytes].
  - case_bool_decide; [auto with bytes |]. unfold ipv6_text.
    destruct (match codes s with 58 :: 58 :: [] => _ | _ => _ end) as [a|] eqn:E; cbn; [|auto with bytes].
    assert (bytes_ok []) by auto with bytes.
    repeat case_match; simplify_eq; first [by eapply ipv6_groups_ok in E | apply (bytes_ok_zeros 16)].
  - destruct (ipv4_text _) as [a|] eqn:E; [|auto with bytes]. apply Net.To16_ok.
    eapply (ipv4_fields_ok _ [] 0); [auto with bytes | lia | exact E].
Qed.

Lemma mac_pairs_ok n sep l a : (length l <= n)%nat -> mac_pairs sep l = Some a -> bytes_ok a.
Proof.
  revert l a. induction n as [|n IH]; intros [|x [|y r]] a Hn; cbn in Hn; try lia; try done.
  cbn [mac_pairs]. destruct (hexval x) as [u|] eqn:Ex; [|done]. destruct (hexval y) as [v|] eqn:Ey; [|done].
  apply hexval_bound in Ex, Ey. destruct r as [|c r]; [intros [= <-]; auto with bytes |].
  destruct (c =? sep); [|done]. cbn in Hn. destruct (mac_pairs sep r) as [b|] eqn:E; [|done].
  intros [= <-]. apply bytes_ok_cons. split; [unfold is_byte; lia |]. eapply IH; [|exact E]. lia.
Qed.

Lemma mac_quads_ok n l a : (length l <= n)%nat -> mac_quads l = Some a -> bytes_ok a.
Proof.
  revert l a. induction n as [|n IH]; intros [|x [|y [|z [|t r]]]] a Hn; cbn in Hn; try lia; try done.
  cbn [mac_quads]. destruct (hexval x) as [x'|] eqn:Ex; [|done]. destruct (hexval y) as [y'|] eqn:Ey; [|done].
  destruct (hexval z) as [z'|] eqn:Ez; [|done]. destruct (hexval t) as [t'|] eqn:Et; [|done].
  apply hexval_bound in Ex, Ey, Ez, Et.
  assert (bytes_ok [x' * 16 + y'; z' * 16 + t']) as Hg by auto with bytes.
  intros H. repeat case_match; simplify_eq; [done |].
  match type of H with _ <$> mac_quads ?l = _ => destruct (mac_quads l) as [b|] eqn:E; [|done]; injection H as <-;
    eapply IH in E; [apply (bytes_ok_app [_; _]); done | cbn in Hn; lia] end.
Qed.

Lemma ParseMAC_ok s a : ParseMAC s = Some a -> bytes_ok a.
Proof.
  unfold ParseMAC. intros H. repeat case_match; simplify_eq; eauto using mac_pairs_ok, mac_quads_ok.
Qed.

(** ** The packets *)

Lemma frame_bytes_ok dm sm vl et p : bytes_ok dm -> bytes_ok sm -> bytes_ok p -> bytes_ok (frame_bytes dm sm vl et p).
Proof.
  intros. unfold frame_bytes, ethernet_bytes, vlan_bytes, eth_hdr. destruct (vl =? 0); auto 12 with bytes.
Qed.

Lemma ip_bytes_ok v6 pr src dst pseg : is_byte pr -> bytes_ok src -> bytes_ok dst -> bytes_ok pseg -> bytes_ok (ip_bytes v6 pr src dst pseg).
Proof.
  intros. unfold ip_bytes, ipv6_bytes, ipv4_bytes. destruct v6; apply bytes_ok_app; (split; [|done]).
  - unfold ipv6_hdr. rewrite !bytes_ok_app. split_and!; auto with bytes. compute_decide.
  - unfold ipv4_hdr. rewrite !bytes_ok_app. split_and!; auto with bytes; compute_decide.
Qed.

Lemma signed_bytes_ok m key : Meta_ok m -> bytes_ok (signed_bytes m key).
Proof.
  intros H. unfold signed_bytes. apply bytes_ok_app. split; [by apply core_bytes_ok |].
  destruct (_ =? _)%nat; [auto with bytes | apply Sha256.hmac_ok].
Qed.

Lemma icmp_req_ok v6 src dst pay : bytes_ok pay -> bytes_ok (icmp_req v6 src dst pay).
Proof.
  intros. unfold icmp_req, icmp6_bytes, icmp_bytes, icmp_hdr.
  destruct v6; rewrite !bytes_ok_app; split_and!; auto with bytes; compute_decide.
Qed.

Lemma udp_bytes_ok ck sp dp pay : bytes_ok pay -> bytes_ok (udp_bytes ck sp dp pay).
Proof. intros. unfold udp_bytes, udp_hdr. rewrite !bytes_ok_app. split_and!; auto with bytes. Qed.

(** The addresses of the segment are bytes. *)
Definition segment_ok (sg : segment) : Prop :=
  bytes_ok (sg_local sg) /\ bytes_ok (sg_hw sg) /\ bytes_ok (sg_gw sg).

Lemma client_src_ok sg f : segment_ok sg -> bytes_ok (client_src sg f).
Proof. intros (H & _). unfold client_src. case_bool_decide; [done | apply ParseIP_ok]. Qed.

Lemma out_frame_ok sg f v6 l3 fr :
  segment_ok sg -> bytes_ok l3 -> out_frame sg f v6 l3 = Some fr -> bytes_ok fr.
Proof.
  intros (_ & Hh & Hg) Hl. unfold out_frame. destruct (via_l2 f v6); [|intros [= <-]; by apply frame_bytes_ok].
  destruct (l2_missing f); [done |]. destruct (ParseMAC (f_dstMAC f)) as [dm|] eqn:Ed; [|done].
  destruct (if bool_decide (f_srcMAC f = _) then _ else _) as [sm|] eqn:Es; [|done].
  assert (bytes_ok sm) by (case_bool_decide; [by injection Es as <- | by apply ParseMAC_ok in Es]).
  apply ParseMAC_ok in Ed. intros [= <-].
  pose proof (frame_bytes_ok dm sm (u16 (f_vlan f)) (et_of v6) l3 ltac:(done) ltac:(done) Hl) as Hv.
  pose proof (frame_bytes_ok dm sm 0 (et_of v6) l3 ltac:(done) ltac:(done) Hl) as H0.
  unfold frame_bytes in Hv, H0. destruct (0 <? f_vlan f); [|exact H0].
  unfold vlan_bytes, eth_hdr in *. rewrite !bytes_ok_app. split_and!; auto with bytes.
Qed.
