(* ===== verification/Tap.v ===== *)
(** A client's probe at the host of a VM, with the eBPF program of the host in its
    place: every frame of the client is seen by the sniffer of the client and by the
    agent's responder, then by the program at the ingress hook, which lets it pass to
    the VM or drops it.  The system is an instance of the client's [Host]. *)
From S2P Require Import Prelude GoStd GoText TfMeta TfMetaProps Pkt PktProps.
From S2P Require Import Observation AgentMain Bpf.
From S2P Require Import Responder ResponderSpec Wire Demo ResponderProps BpfSpec BpfProps.
From S2P Require Import Attach Watch WatchProps BpfAgree.
From S2P Require Import Responder Sniffer SnifferProps Client System EndToEnd WireBytes Runs.

Local Open Scope Z_scope.

(** ** The system *)

Record tapped := mkTapped {
  seg : System.world;
  t_maps : maps;
  vm : list bytes            (* the frames the VM has got *)
}.

Section tapped.
Context (sg : segment) (ifindex : Z).
(** The clock of the kernel, and whether the ring buffer has room. *)
Context (ktime : tapped -> Z) (room : tapped -> bool).

Definition skb_of_frame (frame : bytes) : skb := mkSkb frame ifindex false 0 None.

(** A frame reaches the host: the responder's socket first, then the TC hook. *)
Definition arrive (frame : bytes) (t : tapped) : tapped :=
  match traceflow_ingress (ktime t) (room t) (skb_of_frame frame) (t_maps t) with
  | Ret (v, m) =>
      mkTapped (inject sg frame (seg t)) m (if v =? TC_ACT_SHOT then vm t else vm t ++ [frame])
  | Panic => t
  end.

Definition with_seg (t : tapped) (w : System.world) : tapped := mkTapped w (t_maps t) (vm t).

(** An operation that sends nothing. *)
Definition on_seg {A} (op : System.world -> A * System.world) (t : tapped) : A * tapped :=
  let '(a, w) := op (seg t) in (a, with_seg t w).

#[export] Instance tapped_host : Host tapped := {|
  host_now := on_seg (host_now (Host := segment_host sg));
  host_uuid := on_seg (host_uuid (Host := segment_host sg));
  host_dial dst := on_seg (host_dial (Host := segment_host sg) dst);
  host_iface n := on_seg (host_iface (Host := segment_host sg) n);
  host_port n := on_seg (host_port (Host := segment_host sg) n);
  host_sniff := on_seg (host_sniff (Host := segment_host sg));
  host_sendL2 _ frame t := (true, arrive frame t);
  host_sendIP _ pkt t := (true, arrive (frame_bytes (sg_gw sg) (sg_hw sg) 0 EtherTypeIPv4 pkt) t);
  host_recv timeout := on_seg (host_recv (Host := segment_host sg) timeout)
|}.

(** ** Programs that send nothing run as on the segment *)

Definition extend {A} (t : tapped) (r : Client.result (A * (System.world * list report)))
  : Client.result (A * (tapped * list report)) :=
  match r with
  | Done (a, (w, l)) => Done (a, (with_seg t w, l))
  | Fatal => Fatal
  | Crash => Crash
  | OutOfFuel => OutOfFuel
  end.

Definition silent_as {A} (m : cli tapped A) (m' : cli System.world A) : Prop :=
  forall t l, m (t, l) = extend t (m' (seg t, l)).

Lemma with_seg_again t w w' : with_seg (with_seg t w) w' = with_seg t w'.
Proof. done. Qed.

Lemma silent_bind {A B} (m : cli tapped A) m' (k : A -> cli tapped B) k' :
  silent_as m m' -> (forall a, silent_as (k a) (k' a)) -> silent_as (m ≫= k) (m' ≫= k').
Proof.
  intros Hm Hk t l. unfold mbind, cli_bind. rewrite Hm.
  destruct (m' (seg t, l)) as [[a [w l']]| | |]; [|done..]. cbn [extend]. rewrite (Hk a (with_seg t w) l').
  cbn [seg with_seg]. by destruct (k' a (w, l')) as [[? [? ?]]| | |].
Qed.

Lemma silent_ret {A} (a : A) : silent_as (mret a) (mret a).
Proof. by intros [w m v] l. Qed.

Lemma silent_ask {A} (op : System.world -> A * System.world) : silent_as (ask (on_seg op)) (ask op).
Proof. intros t l. unfold ask, on_seg. by destruct (op (seg t)). Qed.

Lemma silent_say r : silent_as (say r) (say r).
Proof. by intros [w m v] l. Qed.

Lemma silent_call {A} (m : go A) : silent_as (call m) (call m).
Proof. intros [w ms v] l. unfold call. by destruct m. Qed.

Lemma silent_fatal {A} : silent_as (@fatal tapped A) (@fatal System.world A).
Proof. by intros t l. Qed.

Ltac silent :=
  repeat first [apply silent_ret | apply silent_say | apply silent_call | apply silent_fatal
    | apply silent_ask | progress intros
    | apply silent_bind | match goal with |- silent_as (match ?x with _ => _ end) _ => destruct x end].

Lemma next_silent deadline : silent_as (next (H := tapped_host) deadline) (next (H := segment_host sg) deadline).
Proof. unfold next. silent. Qed.

Lemma recv_loop_silent n deadline id mtch :
  silent_as (recv_loop (H := tapped_host) n deadline id mtch) (recv_loop (H := segment_host sg) n deadline id mtch).
Proof.
  induction n as [|n IH]; [by intros t l |]. cbn [recv_loop]. apply silent_bind; [apply silent_ask |]. intros t0.
  destruct (t0 <? deadline); [|apply silent_ret]. apply silent_bind; [apply next_silent |]. intros [c ok].
  destruct (negb ok); [exact IH |]. destruct (negb _); [exact IH |]. destruct (mtch c); [apply silent_ret | exact IH].
Qed.

Lemma waitReply_silent n f id mtch what :
  silent_as (waitReply (H := tapped_host) n f id mtch what) (waitReply (H := segment_host sg) n f id mtch what).
Proof.
  unfold waitReply, recvMatch.
  apply silent_bind; [apply silent_bind; [apply silent_ask | intros; apply recv_loop_silent] | intros [c ok]]. silent.
Qed.

Lemma srcIP_silent f dst : silent_as (srcIP (H := tapped_host) f dst) (srcIP (H := segment_host sg) f dst).
Proof. unfold srcIP. silent. Qed.

Lemma newMeta_silent f : silent_as (newMeta (H := tapped_host) f) (newMeta (H := segment_host sg) f).
Proof. unfold newMeta. silent. Qed.

Lemma startSniffer_silent : silent_as (startSniffer (H := tapped_host)) (startSniffer (H := segment_host sg)).
Proof. unfold startSniffer. silent. Qed.

Lemma mustIP_silent s : silent_as (mustIP s) (mustIP s).
Proof. unfold mustIP. silent. Qed.

(** ** Sending *)

Lemma tapped_done {A} (m : cli tapped A) m' t l a l' :
  silent_as m m' -> m' (seg t, l) = Done (a, (seg t, l')) -> m (t, l) = Done (a, (t, l')).
Proof. intros Hm H. rewrite Hm, H. by destruct t. Qed.

Lemma tapped_ask {A B} (op : tapped -> A * tapped) (f : A -> cli tapped B) t l :
  (ask op ≫= f) (t, l) = f (fst (op t)) (snd (op t), l).
Proof. unfold mbind, cli_bind, ask. by destruct (op t). Qed.

Lemma tapped_bind {A B} (m : cli tapped A) (f : A -> cli tapped B) s a s' :
  m s = Done (a, s') -> (m ≫= f) s = f a s'.
Proof. intros E. unfold mbind, cli_bind. by rewrite E. Qed.

Lemma tapped_call {A B} (m : go A) (a : A) (f : A -> cli tapped B) s :
  m = Ret a -> (call m ≫= f) s = f a s.
Proof. by intros ->. Qed.

Lemma emit_tapped f dst l3 v6 t l :
  emit (H := tapped_host) f dst l3 v6 (t, l)
  = match out_frame sg f v6 l3 with
    | Some frame => Done (tt, (arrive frame t, l))
    | None => Fatal
    end.
Proof.
  unfold emit, out_frame. fold (via_l2 f v6). destruct (via_l2 f v6); [|done].
  unfold sendL2. fold (l2_missing f). destruct (l2_missing f); [done |]. rewrite tapped_ask. cbn [host_iface tapped_host on_seg segment_host fst snd].
  destruct (ParseMAC (f_dstMAC f)) as [dmac|]; [|done].
  destruct t as [w m v]. cbn [seg with_seg t_maps vm].
  destruct (bool_decide (f_srcMAC f = ""%string)); cbn [negb];
    [|destruct (ParseMAC (f_srcMAC f)) as [smac|]; [|done]];
    destruct (0 <? f_vlan f);
    rewrite (tapped_bind _ _ (mkTapped w m v, l) _ (mkTapped w m v, l) eq_refl);
    rewrite ?EthernetVLAN_layout, ?Ethernet_layout; destruct v6; done.
Qed.

(** ** A frame of the client at the hook *)

Section arriving.
Context (cfg : tfConfig) (f : flags) (dst : bytes) (meta : Meta) (key : bytes) (pr : Z) (src pseg : bytes).
Context (mac1 mac2 : bytes) (vl : Z).
Hypothesis (Hmeta : Meta_ok meta).
Hypothesis (Hpay : payload_of pr pseg = Some (signed_bytes meta key)).
Hypothesis (Hvl : 0 <= vl < 4096).

Definition client_frame : bytes := marked_frame mac1 mac2 vl (isV6 dst) pr src dst pseg.

(** What the probe asks for. *)
Definition wants : bool := NeedResponse meta && negb (Deliver meta).

Definition client_record (t : tapped) : Raw :=
  probe_record meta (isV6 dst) 0 pr src dst pseg IfaceRegular 0 vl (ktime t) TF_DIR_INGRESS ifindex wants.

Lemma arrive_client t :
  bytes_ok client_frame -> seen_plain (ifType (sg_agent sg)) client_frame -> pr ≠ ProtoTCP ->
  config_map (t_maps t) = Some cfg -> agrees (sg_agent sg) cfg (t_maps t) ->
  iface_vni (t_maps t) !! ifindex = None ->
  plain_addr (isV6 dst) (addr (isV6 dst) dst) -> local (sg_agent sg) (addr (isV6 dst) dst) = true ->
  arrive client_frame t
  = mkTapped (inject sg client_frame (seg t)) (recorded (room t) (client_record t) (t_maps t))
      (vm t ++ if wants then [] else [client_frame]).
Proof.
  intros Hb Hpl Hpr Hc [Hty Hresp _ Hloc] Hdev Hplain Hl.
  assert (payload_of pr pseg = Some (signed_bytes meta key ++ [])) as Hp by by rewrite app_nil_r.
  assert (client_frame = probe_frame (isV6 dst) 0 pr src dst pseg mac1 mac2 vl) as Hf
    by (unfold client_frame, marked_frame, probe_frame; by rewrite hop_packet_zero).
  set (b := the_probe meta key [] (isV6 dst) 0 pr src dst pseg mac1 mac2 vl).
  assert (carries client_frame b) as Hcar by (rewrite Hf; apply the_probe_carried; done || lia).
  assert (intercepted meta (isV6 dst) pr dst (t_maps t) cfg = wants) as Hint.
  { unfold intercepted, wants. rewrite bool_decide_true by (by apply Hloc).
    rewrite (proj2 (Z.eqb_neq _ _) Hresp), (proj2 (Z.eqb_neq _ _) Hpr). cbn. by rewrite !andb_true_r. }
  unfold arrive, traceflow_ingress. rewrite handle_bpf_spec by exact Hb.
  rewrite (clear_seen (t_maps t) cfg (ktime t) (skb_of_frame client_frame) TF_DIR_INGRESS b);
    [| exact Hc | by split | exact Hcar | rewrite Hty; exact Hpl].
  assert (frame_vid (skb_of_frame client_frame) b = vl) as Hvid
    by (unfold frame_vid, skb_vid, skb_of_frame; cbn; by destruct (Z.eqb_spec vl 0)).
  unfold decided. rewrite Hvid. unfold b.
  rewrite (the_probe_drop meta key []), (the_probe_raw meta key []), Hint by (done || lia).
  unfold client_record. destruct wants; cbn [fst snd]; [|done].
  by rewrite app_nil_r.
Qed.
End arriving.
End tapped.

(** ** A datagram of the client, and the wait for its answer *)

(** The agent does not answer a packet that does not ask for it. *)
Lemma l4_inert r src dst pr pseg v6 p s :
  (pr =? ProtoICMP) || (pr =? ProtoICMPv6) || (pr =? ProtoUDP) = true ->
  p = drop 8 pseg -> probe_wants p = false -> l4_reply r src dst pr pseg v6 s = (None, s).
Proof.
  intros Hpr -> Hp. unfold l4_reply. rewrite Hpr. destruct (_ <? _)%nat; [done |].
  unfold accepts, gated. by rewrite Hp.
Qed.

Lemma wants_signed (m : Meta) key :
  length (TfMeta.ID m) = 16%nat -> wants m = false -> probe_wants (signed_bytes m key) = false.
Proof.
  intros Hid Hw. unfold probe_wants, signed_bytes.
  destruct (nth_core_flags m (if (length key =? 0)%nat then [] else Sign (core_bytes m) key) Hid)
    as (-> & -> & _).
  unfold wants in Hw. destruct (NeedResponse m), (Deliver m); cbn in Hw |- *; by rewrite ?andb_false_r.
Qed.

Section waiting.
Context (sg : segment) (f : flags) (mtch : capture -> bool) (what : string) (own : bytes) (w : System.world).
Hypothesis (Hq : queue w = []) (Hown : hit (sg_uuid sg) mtch own = false) (Hlat : 0 <= sg_lat sg).

Abbreviation wait n := (waitReply (H := segment_host sg) (3 + n) f (sg_uuid sg) mtch what).

Lemma wait_answered n rep c l s :
  frame_reply (sg_agent sg) own 0 (agent w) = (Some rep, s) -> hit (sg_uuid sg) mtch rep = true ->
  sniff_of rep = Some c -> sg_lat sg < f_timeout f ->
  exists w', wait n (inject sg own w, l) = Done (tt, (w', l ++ [GotReply what (c_srcIP c)])) /\ agent w' = sent rep s.
Proof.
  intros Hr Hrep Hs Ht. rewrite inject_spec, Hr, Hq. cbn [app]. set (w1 := mkWorld _ _ _).
  unfold waitReply. change (3 + n)%nat with (S (length [own]) + S n)%nat.
  rewrite (cli_bind_done _ _ _ _ _ (recvMatch_hit sg (S n) f (sg_uuid sg) mtch [own] rep [] c w1 l
    ltac:(by constructor) Hrep Hs eq_refl Hlat ltac:(cbn; lia))).
  rewrite ask_bind. by eexists.
Qed.

Lemma wait_unanswered n l :
  frame_reply (sg_agent sg) own 0 (agent w) = (None, agent w) -> 0 < f_timeout f ->
  exists w', wait n (inject sg own w, l) = Done (tt, (w', l ++ [NoReply what])) /\ agent w' = agent w.
Proof.
  intros Hr Ht. rewrite inject_spec, Hr, Hq. cbn [app]. set (w1 := mkWorld _ _ _).
  destruct (recvMatch_timeout sg f (sg_uuid sg) mtch own w1 l n eq_refl Hown Hlat Ht) as (w' & Hrecv & Ha).
  exists w'. split; [|done]. unfold waitReply. by rewrite (cli_bind_done _ _ _ _ _ Hrecv).
Qed.
End waiting.

(** ** Runs *)

(** The destination is a VM behind the tap [ifindex] of the agent's host, whose
    program has the agent's settings; nothing is in flight, and the client waits
    longer than an answer takes. *)
Record tapped_ready (sg : segment) (ifindex : Z) (cfg : tfConfig) (f : flags) (dst : bytes) (t : tapped) : Prop := {
  td_sendable : sendable sg f dst;
  td_local : local (sg_agent sg) (addr (isV6 dst) dst) = true;
  td_type : ifType (sg_agent sg) = IfaceRegular \/ ifType (sg_agent sg) = IfaceAuto;
  td_key : same_key (sg_agent sg) (codes (f_hmacKey f));
  td_bytes : segment_ok sg;
  td_config : config_map (t_maps t) = Some cfg;
  td_agrees : agrees (sg_agent sg) cfg (t_maps t);
  td_device : iface_vni (t_maps t) !! ifindex = None;
  td_plain : plain_addr (isV6 dst) (addr (isV6 dst) dst);
  td_idle : queue (seg t) = [];
  td_time : sg_lat sg < f_timeout f
}.

(** The control block of the run, for any flags. *)
Definition flag_meta (sg : segment) (f : flags) (w : System.world) : Meta :=
  mkMeta (sg_uuid sg) (f_deliver f) (f_response f) (u64 (clock w)).

(** What the run of a datagram leaves: the reports, the agent, the VM's frames, and
    the record of the program. *)
Record passed (sg : segment) (ifindex : Z) (ktime : tapped -> Z) (room : tapped -> bool) (f : flags) (dst : bytes)
    (what : string) (pr : Z) (pseg : bytes) (t t' : tapped) (l l' : list report) : Prop := {
  ps_reports : l' = l ++ SentProbe (sg_uuid sg)
    :: (if f_response f
        then [if f_deliver f then NoReply what else GotReply what (Net.String (addr (isV6 dst) dst))] else []);
  ps_agent : if f_response f && negb (f_deliver f)
    then exists reply, agent (seg t') = sent reply (agent (seg t)) else agent (seg t') = agent (seg t);
  ps_vm : exists dm sm, vm t' = vm t ++ (if f_response f && negb (f_deliver f) then []
    else [marked_frame dm sm (f_vlan f) (isV6 dst) pr (client_src sg f) dst pseg]);
  ps_record : t_maps t' = recorded (room t)
    (probe_record (flag_meta sg f (seg t)) (isV6 dst) 0 pr (client_src sg f) dst pseg IfaceRegular 0 (f_vlan f)
       (ktime t) TF_DIR_INGRESS ifindex (f_response f && negb (f_deliver f))) (t_maps t)
}.

Section datagram.
Context (sg : segment) (ifindex : Z) (ktime : tapped -> Z) (room : tapped -> bool).
Context (cfg : tfConfig) (f : flags) (dst : bytes) (t : tapped).
Hypothesis (Ht : tapped_ready sg ifindex cfg f dst t).

Abbreviation host := (tapped_host sg ifindex ktime room).
Abbreviation v6 := (isV6 dst).
Abbreviation m := (flag_meta sg f (seg t)).
Abbreviation Hsd := (td_sendable _ _ _ _ _ _ Ht).

Lemma flag_meta_ok : Meta_ok m.
Proof. apply (meta_any_ok sg f dst Hsd). Qed.

Lemma not_vxlan : ifType (sg_agent sg) ≠ IfaceVXLAN.
Proof. by destruct (td_type _ _ _ _ _ _ Ht) as [-> | ->]. Qed.

(** The host after a datagram of the client. *)
Definition after (own : bytes) (pr : Z) (pseg : bytes) : tapped :=
  mkTapped (inject sg own (seg t))
    (recorded (room t) (client_record ifindex ktime dst m pr (client_src sg f) pseg (f_vlan f) t) (t_maps t))
    (vm t ++ if wants m then [] else [own]).

Lemma emit_arrives pr pseg l :
  pr ≠ ProtoTCP -> is_byte pr -> bytes_ok pseg -> tunnel_port pr pseg = false ->
  payload_of pr pseg = Some (signed_bytes m (codes (f_hmacKey f))) ->
  exists dm sm, let own := marked_frame dm sm (f_vlan f) v6 pr (client_src sg f) dst pseg in
    emit (H := host) f dst (ip_bytes v6 pr (client_src sg f) dst pseg) v6 (t, l)
    = Done (tt, (after own pr pseg, l)).
Proof.
  intros Hpr Hprb Hbytes Htun Hpay. destruct (run_frames sg f dst Hsd) as (dm & sm & Hf). exists dm, sm. intros own.
  pose proof (Hf (ip_bytes v6 pr (client_src sg f) dst pseg)) as Ho.
  fold (marked_frame dm sm (f_vlan f) v6 pr (client_src sg f) dst pseg) own in Ho.
  rewrite emit_tapped, Ho. do 3 f_equal.
  apply (arrive_client sg ifindex ktime room cfg dst m (codes (f_hmacKey f))).
  - apply flag_meta_ok.
  - exact Hpay.
  - apply (sd_vlan _ _ _ Hsd).
  - eapply out_frame_ok; [exact (td_bytes _ _ _ _ _ _ Ht) | | exact Ho].
    apply ip_bytes_ok; [done | by apply client_src_ok, (td_bytes _ _ _ _ _ _ Ht) | | done].
    rewrite <- (sd_dst _ _ _ Hsd). apply ParseIP_ok.
  - destruct (td_type _ _ _ _ _ _ Ht); [by left | right]. split; [done |].
    apply looks_vxlan_marked; [apply (sd_vlan _ _ _ Hsd) | done].
  - exact Hpr.
  - apply (td_config _ _ _ _ _ _ Ht).
  - apply (td_agrees _ _ _ _ _ _ Ht).
  - apply (td_device _ _ _ _ _ _ Ht).
  - apply (td_plain _ _ _ _ _ _ Ht).
  - apply (td_local _ _ _ _ _ _ Ht).
Qed.

Lemma wait_tapped k mtch what t1 l w' l' :
  waitReply (H := segment_host sg) k f (sg_uuid sg) mtch what (seg t1, l) = Done (tt, (w', l')) ->
  waitReply (H := host) k f (sg_uuid sg) mtch what (t1, l) = Done (tt, (with_seg t1 w', l')).
Proof. intros H. rewrite (waitReply_silent sg ifindex ktime room k f (sg_uuid sg) mtch what t1 l). by rewrite H. Qed.

Lemma not_answered dm sm pr pseg :
  (pr =? ProtoICMP) || (pr =? ProtoICMPv6) || (pr =? ProtoUDP) = true -> tunnel_port pr pseg = false ->
  drop 8 pseg = signed_bytes m (codes (f_hmacKey f)) -> wants m = false ->
  frame_reply (sg_agent sg) (marked_frame dm sm (f_vlan f) v6 pr (client_src sg f) dst pseg) 0 (agent (seg t))
  = (None, agent (seg t)).
Proof.
  intros Hpr Htun Hdrop Hw.
  pose proof (wants_signed m (codes (f_hmacKey f)) (proj1 flag_meta_ok) Hw) as Hp.
  by erewrite frame_reply_marked; [| apply (sd_vlan _ _ _ Hsd) | exact Htun | exact not_vxlan
    | apply (td_local _ _ _ _ _ _ Ht) | by eapply l4_inert].
Qed.

(** The answer, in the swapped frame, is the one the client waits for. *)
Lemma answered dm sm pr pseg pr' pseg' p' mtch :
  let rep := marked_frame (field 6 sm) (field 6 dm) (f_vlan f) v6 pr' (addr v6 dst) (addr v6 (client_src sg f)) pseg' in
  let m' := mkMeta (sg_uuid sg) false false (u64 (clock (seg t))) in
  tunnel_port pr pseg = false -> tunnel_port pr' pseg' = false ->
  l4_reply (sg_agent sg) (addr v6 (client_src sg f)) (addr v6 dst) pr pseg v6 (agent (seg t))
  = (Some (ip_bytes v6 pr' (addr v6 dst) (addr v6 (client_src sg f)) pseg'), agent (seg t)) ->
  payload_of pr' pseg' = Some p' -> Unmarshal p' = Ret (inr m') ->
  mtch (seen dst pr' (addr v6 dst) pseg' p' m') = true ->
  frame_reply (sg_agent sg) (marked_frame dm sm (f_vlan f) v6 pr (client_src sg f) dst pseg) 0 (agent (seg t))
  = (Some rep, agent (seg t))
  /\ hit (sg_uuid sg) mtch rep = true /\ sniff_of rep = Some (seen dst pr' (addr v6 dst) pseg' p' m').
Proof.
  intros rep m' Htun Htun' Hl4 Hp' Hm' Hrep.
  pose proof (sniff_marked (field 6 sm) (field 6 dm) _ v6 pr' (addr v6 dst) (addr v6 (client_src sg f)) pseg'
    (sd_vlan _ _ _ Hsd) Htun' p' m' Hp' Hm') as Hs.
  fold rep (seen dst pr' (addr v6 dst) pseg' p' m') in Hs. split_and!; [| |exact Hs].
  - by erewrite frame_reply_marked; [| apply (sd_vlan _ _ _ Hsd) | exact Htun | exact not_vxlan
      | apply (td_local _ _ _ _ _ _ Ht) | exact Hl4].
  - unfold hit. rewrite Hs, Hrep. by rewrite bool_decide_true.
Qed.

Lemma after_passes dm sm pr pseg what w' l l' :
  l' = l ++ SentProbe (sg_uuid sg)
    :: (if f_response f
        then [if f_deliver f then NoReply what else GotReply what (Net.String (addr v6 dst))] else []) ->
  (if wants m then exists reply, agent w' = sent reply (agent (seg t)) else agent w' = agent (seg t)) ->
  passed sg ifindex ktime room f dst what pr pseg t
    (with_seg (after (marked_frame dm sm (f_vlan f) v6 pr (client_src sg f) dst pseg) pr pseg) w') l l'.
Proof. intros Hl Ha. split; [exact Hl | exact Ha | by exists dm, sm | done]. Qed.

(** Sending a datagram that the agent would answer with [pr'] and [pseg']. *)
Lemma datagram_passes n pr pseg pr' pseg' p' mtch what l :
  let pay := signed_bytes m (codes (f_hmacKey f)) in
  (pr =? ProtoICMP) || (pr =? ProtoICMPv6) || (pr =? ProtoUDP) = true ->
  tunnel_port pr pseg = false -> tunnel_port pr' pseg' = false ->
  drop 8 pseg = pay -> payload_of pr pseg = Some pay -> bytes_ok pseg ->
  (accepts (sg_agent sg) pay = true ->
   l4_reply (sg_agent sg) (addr v6 (client_src sg f)) (addr v6 dst) pr pseg v6 (agent (seg t))
   = (Some (ip_bytes v6 pr' (addr v6 dst) (addr v6 (client_src sg f)) pseg'), agent (seg t))) ->
  payload_of pr' pseg' = Some p' -> Unmarshal p' = Ret (inr (mkMeta (sg_uuid sg) false false (u64 (clock (seg t))))) ->
  (forall m', mtch (seen dst pr (client_src sg f) pseg pay m') = false) ->
  (forall m', mtch (seen dst pr' (addr v6 dst) pseg' p' m') = true) ->
  exists t' l',
    (_ ← emit (H := host) f dst (ip_bytes v6 pr (client_src sg f) dst pseg) v6;
     _ ← say (SentProbe (sg_uuid sg));
     if f_response f then waitReply (H := host) (3 + n) f (sg_uuid sg) mtch what else mret tt) (t, l)
    = Done (tt, (t', l')) /\ passed sg ifindex ktime room f dst what pr pseg t t' l l'.
Proof.
  intros pay Hpr Htun Htun' Hdrop Hpay Hbytes Hl4 Hp' Hm' Hown Hrep.
  assert (is_byte pr /\ pr ≠ ProtoTCP) as [Hprb Hprt]
    by (unfold is_byte, ProtoICMP, ProtoICMPv6, ProtoUDP, ProtoTCP in *; lia).
  destruct (emit_arrives pr pseg l Hprt Hprb Hbytes Htun Hpay) as (dm & sm & He). cbv zeta in He.
  rewrite (tapped_bind _ _ _ _ _ He). clear He. cbv beta.
  set (l1 := l ++ [SentProbe (sg_uuid sg)]). set (own := marked_frame dm sm _ _ _ _ _ _).
  rewrite (tapped_bind (say _) _ (after own pr pseg, l) tt (after own pr pseg, l1) eq_refl).
  pose proof (Unmarshal_signed m (codes (f_hmacKey f)) [] flag_meta_ok) as Hm. rewrite app_nil_r in Hm. fold pay in Hm.
  pose proof (sd_vlan _ _ _ Hsd) as Hvl. pose proof (sd_lat _ _ _ Hsd) as Hlat.
  assert (hit (sg_uuid sg) mtch own = false) as Hh.
  { unfold hit, own. rewrite (sniff_marked dm sm _ v6 pr _ dst pseg Hvl Htun pay m Hpay Hm).
    fold (seen dst pr (client_src sg f) pseg pay m). rewrite (Hown m). apply andb_false_r. }
  pose proof (td_idle _ _ _ _ _ _ Ht) as Hq. pose proof (td_time _ _ _ _ _ _ Ht) as Htime.
  pose proof (not_answered dm sm pr pseg Hpr Htun Hdrop) as Hsilent. fold own in Hsilent.
  destruct (f_response f) eqn:Er; [destruct (f_deliver f) eqn:Ed |].
  - assert (wants m = false) as Hw by (unfold wants; cbn; by rewrite Er, Ed).
    destruct (wait_unanswered sg f mtch what own (seg t) Hq Hh Hlat n l1 (Hsilent Hw) ltac:(lia)) as (w' & Hrun & Hag).
    do 2 eexists. split; [exact (wait_tapped _ _ _ (after own pr pseg) _ _ _ Hrun) |].
    apply after_passes; rewrite ?Er, ?Ed, ?Hw; [unfold l1; by rewrite <- app_assoc | done].
  - assert (wants m = true) as Hw by (unfold wants; cbn; by rewrite Er, Ed).
    assert (accepts (sg_agent sg) pay = true) as Hacc.
    { rewrite <- (app_nil_r pay). by apply accepts_signed;
        [apply flag_meta_ok | cbn; rewrite Er | cbn; rewrite Ed | apply (td_key _ _ _ _ _ _ Ht)]. }
    destruct (answered dm sm pr pseg pr' pseg' p' mtch Htun Htun' (Hl4 Hacc) Hp' Hm' (Hrep _)) as (Hr & Hhit & Hs).
    destruct (wait_answered sg f mtch what own (seg t) Hq Hh Hlat n _ _ l1 _ Hr Hhit Hs Htime) as (w' & Hrun & Hag).
    do 2 eexists. split; [exact (wait_tapped _ _ _ (after own pr pseg) _ _ _ Hrun) |].
    apply after_passes; rewrite ?Er, ?Ed, ?Hw; [|by eexists].
    unfold l1. by rewrite <- app_assoc, seen_src, addr_idem.
  - assert (wants m = false) as Hw by (unfold wants; cbn; by rewrite Er).
    exists (after own pr pseg), l1. split; [done |].
    apply (after_passes dm sm pr pseg what (inject sg own (seg t))); rewrite ?Er, ?Hw; [done |].
    by rewrite inject_spec, (Hsilent Hw).
Qed.
End datagram.

(** ** ICMP and UDP *)

(** What the client signs. *)
Definition signed_flags (sg : segment) (f : flags) (t : tapped) : bytes :=
  signed_bytes (flag_meta sg f (seg t)) (codes (f_hmacKey f)).

Section commands.
Context (sg : segment) (ifindex : Z) (ktime : tapped -> Z) (room : tapped -> bool).
Context (cfg : tfConfig) (dst : bytes) (t : tapped).

Abbreviation host := (tapped_host sg ifindex ktime room).
Abbreviation v6 := (isV6 dst).

(** What the commands do first. *)
Ltac tapped_start f l Ht :=
  rewrite (tapped_bind _ _ _ _ _ (tapped_done _ _ _ _ _ _ (mustIP_silent (f_dst f))
    (mustIP_ret _ _ (seg t, l) (sd_dst _ _ _ (td_sendable _ _ _ _ _ _ Ht)) (sd_dst_ok _ _ _ (td_sendable _ _ _ _ _ _ Ht)))));
  cbv beta;
  rewrite (tapped_bind _ _ _ _ _ (tapped_done _ _ _ _ _ _ (srcIP_silent sg ifindex ktime room f dst)
    (srcIP_ret sg f dst (seg t, l)))); cbv beta;
  rewrite (tapped_bind _ _ _ _ _ (tapped_done _ _ _ _ _ _ (newMeta_silent sg ifindex ktime room f)
    (newMeta_any sg f (seg t) l))); cbv beta iota;
  rewrite (tapped_bind _ _ _ _ _ (tapped_done _ _ _ _ _ _ (startSniffer_silent sg ifindex ktime room)
    (startSniffer_ret sg (seg t, l)))); cbv beta;
  fold (flag_meta sg f (seg t));
  rewrite (tapped_call _ _ _ _ (payload_any sg f dst (td_sendable _ _ _ _ _ _ Ht) (flag_meta sg f (seg t)) eq_refl)).

Lemma icmp_passes f l n :
  tapped_ready sg ifindex cfg f dst t ->
  exists t' l', runICMP (H := host) (3 + n) f (t, l) = Done (tt, (t', l'))
    /\ passed sg ifindex ktime room f dst "ICMP echo reply" (icmp_proto v6)
         (icmp_req v6 (client_src sg f) dst (signed_flags sg f t)) t t' l l'.
Proof.
  intros Ht. unfold runICMP. tapped_start f l Ht. rewrite (tapped_call _ _ _ _ (icmpL3_ret _ _ _)).
  fold (signed_flags sg f t).
  pose proof (signed_bytes_ok _ (codes (f_hmacKey f)) (flag_meta_ok _ _ _ _ _ _ Ht)) as Hb.
  pose proof (Unmarshal_signed _ (codes (f_hmacKey f)) [] (flag_meta_ok _ _ _ _ _ _ Ht)) as Hm. rewrite app_nil_r in Hm.
  fold (signed_flags sg f t) in Hb, Hm.
  eapply (datagram_passes sg ifindex ktime room cfg f dst t Ht n _ _ _ _ (sanitized (hmacKey (sg_agent sg)) (signed_flags sg f t))).
  - by destruct v6.
  - apply icmp_not_tunnel.
  - apply icmp_not_tunnel.
  - by destruct v6.
  - apply payload_of_icmp_req.
  - by apply icmp_req_ok.
  - apply icmp_req_reply.
  - apply payload_of_icmp.
  - by apply (Unmarshal_echo (sg_agent sg)) in Hm.
  - intros. by unfold isEchoReply, seen, icmp_req, icmp_proto; destruct v6.
  - intros. by unfold isEchoReply, seen, icmpv_bytes, icmp_proto; destruct v6.
Qed.

Lemma udp_passes f l n :
  tapped_ready sg ifindex cfg f dst t ->
  f_dport f ≠ 0 -> u16 (f_sport f) ≠ u16 (f_dport f) -> u16 (f_sport f) ≠ VXLANPort -> u16 (f_dport f) ≠ VXLANPort ->
  exists t' l', runUDP (H := host) (3 + n) f (t, l) = Done (tt, (t', l'))
    /\ passed sg ifindex ktime room f dst "UDP reply" ProtoUDP
         (udp_bytes (ckv v6 ProtoUDP (client_src sg f) dst) (u16 (f_sport f)) (u16 (f_dport f)) (signed_flags sg f t))
         t t' l l'.
Proof.
  intros Ht H0 Hne Hs Hd. unfold runUDP. rewrite (proj2 (Z.eqb_neq _ _) H0). cbv zeta.
  tapped_start f l Ht. rewrite (tapped_call _ _ _ _ (udpL3_ret _ _ _ _ _)).
  fold (signed_flags sg f t).
  pose proof (signed_bytes_ok _ (codes (f_hmacKey f)) (flag_meta_ok _ _ _ _ _ _ Ht)) as Hb.
  pose proof (Unmarshal_signed _ (codes (f_hmacKey f)) [] (flag_meta_ok _ _ _ _ _ _ Ht)) as Hm. rewrite app_nil_r in Hm.
  fold (signed_flags sg f t) in Hb, Hm.
  eapply (datagram_passes sg ifindex ktime room cfg f dst t Ht n _ _ _ _ (sanitized (hmacKey (sg_agent sg)) (signed_flags sg f t))).
  7: by apply udp_req_reply.
  - done.
  - apply udp_not_tunnel. by rewrite u16_idem.
  - apply udp_not_tunnel. by rewrite !u16_idem.
  - done.
  - apply payload_of_udp.
  - by apply udp_bytes_ok.
  - apply payload_of_udp.
  - by apply (Unmarshal_echo (sg_agent sg)) in Hm.
  - intros. apply andb_false_iff. right. apply Z.eqb_neq. cbn -[be_field udp_bytes u16].
    rewrite (proj2 (udp_ports _ _ _ _)), u16_idem. congruence.
  - intros. apply andb_true_iff. split; [done |]. apply Z.eqb_eq. cbn -[be_field udp_bytes u16].
    by rewrite (proj2 (udp_ports _ _ _ _)), !u16_idem.
Qed.
End commands.


(** ** A concrete host *)

Definition tap_segment : segment := mkSegment demo_both demo_client demo_mac1 demo_mac2 (seqZ 1 16) 1000.
Definition tap_flags (response deliver : bool) : flags :=
  mkFlags "" "10.0.0.2" "10.0.0.9" "10.0.0.2" 40000 53 5001 0 "" "" "" false (of_codes demo_key) response deliver
    2000000000.
Definition tap_start : tapped := mkTapped demo_world demo_maps [].

Lemma tap_ready response deliver :
  tapped_ready tap_segment 3 demo_tf (tap_flags response deliver) (Net.To16 demo_vm) tap_start.
Proof.
  constructor.
  - constructor; [done | done | cbn; lia | done | | cbn; lia]. split; [done | compute_decide].
  - vm_compute. reflexivity.
  - by right.
  - right. vm_compute. reflexivity.
  - split_and!; compute_decide.
  - done.
  - exact demo_agrees.
  - done.
  - split; [done | by intros [=]].
  - done.
  - cbn. lia.
Qed.

