(* ===== verification/JsonTyped.v ===== *)
(** What json.Unmarshal stores is well typed: strings are UTF-8 whatever bytes the text
    holds, numbers are in the range of their field, so an observation that was decoded
    can be encoded again without loss. *)
From stdpp Require Import sets.
From S2P Require Import Prelude GoStd GoText GoTime GoJson GoJsonProps JsonCodec Observation ObsJson.

Local Open Scope Z_scope.

(** ** UTF-8 *)

(** Bytes that form valid text. *)
Definition text_ok (s : bytes) : Prop := bytes_ok s /\ utf8_ok s.

(** A well-formed sequence of [S n] bytes. *)
Definition rune (s : bytes) (n : nat) : Prop := length s = S n /\ forall x, utf8_len (s ++ x) = S n.

Lemma utf8_ok_rune s n r : rune s n -> utf8_ok r -> utf8_ok (s ++ r).
Proof.
  intros [Hl Hu] Hr. specialize (Hu r). destruct s as [|c s]; [done |]. injection Hl as Hl.
  unfold utf8_ok. cbn [app] in Hu |- *. cbn [coerce]. rewrite Hu. subst n.
  by rewrite coerce_skip, Hr.
Qed.

Lemma text_ok_rune s n r : bytes_ok s -> rune s n -> text_ok r -> text_ok (s ++ r).
Proof. intros Hs Hu [Hr Hr']. split; [by apply bytes_ok_app | by eapply utf8_ok_rune]. Qed.

Lemma text_ok_replacement r : text_ok r -> text_ok (replacement ++ r).
Proof. apply (text_ok_rune _ 2); [compute_decide | by split]. Qed.

Lemma text_ok_cons c r : 0 <= c < 128 -> text_ok r -> text_ok (c :: r).
Proof.
  intros Hc. apply (text_ok_rune [c] 0); [constructor; [unfold is_byte; lia | constructor] |].
  split; [done |]. intros x. cbn. by replace (c <? 128) with true by lia.
Qed.

(** The encoding of a code point is a well-formed sequence. *)
Lemma encode_rune_ok u r :
  0 <= u < 1114112 -> high u = false -> low u = false -> text_ok r -> text_ok (encode_rune u ++ r).
Proof.
  unfold high, low, GoJson.between, encode_rune. intros Hu Hh Hl.
  destruct (Z.ltb_spec u 128); [apply (text_ok_cons u); lia |].
  destruct (Z.ltb_spec u 2048); [|destruct (Z.ltb_spec u 65536)].
  - apply (text_ok_rune _ 1); [repeat constructor; unfold is_byte; mlia |]. split; [done |]. intros x. cbn.
    unfold cont, GoJson.between.
    replace (192 + u / 64 <? 128) with false by mlia.
    replace ((194 <=? 192 + u / 64) && (192 + u / 64 <=? 223)) with true by mlia.
    by replace ((128 <=? 128 + u mod 64) && (128 + u mod 64 <=? 191)) with true by mlia.
  - apply (text_ok_rune _ 2); [repeat constructor; unfold is_byte; mlia |]. split; [done |]. intros x. cbn.
    unfold cont, GoJson.between. set (a := u / 4096). set (b := u / 64 mod 64). set (c := u mod 64).
    assert (u = a * 4096 + b * 64 + c /\ 0 <= a < 16 /\ 0 <= b < 64 /\ 0 <= c < 64) as (E & ? & ? & ?) by mlia.
    replace (224 + a <? 128) with false by lia.
    replace ((194 <=? 224 + a) && (224 + a <=? 223)) with false by lia.
    replace ((224 <=? 224 + a) && (224 + a <=? 239)) with true by lia.
    replace ((128 <=? 128 + c) && (128 + c <=? 191)) with true by lia.
    destruct (Z.eqb_spec (224 + a) 224), (Z.eqb_spec (224 + a) 237); rewrite andb_true_r;
      match goal with |- (if ?x then _ else _) = _ => replace x with true by lia end; done.
  - apply (text_ok_rune _ 3); [repeat constructor; unfold is_byte; mlia |]. split; [done |]. intros x. cbn.
    unfold cont, GoJson.between. set (a := u / 262144). set (b := u / 4096 mod 64). set (c := u / 64 mod 64). set (d := u mod 64).
    assert (u = a * 262144 + b * 4096 + c * 64 + d /\ 0 <= a < 5 /\ 0 <= b < 64 /\ 0 <= c < 64 /\ 0 <= d < 64)
      as (E & ? & ? & ? & ?) by mlia.
    replace (240 + a <? 128) with false by lia.
    replace ((194 <=? 240 + a) && (240 + a <=? 223)) with false by lia.
    replace ((224 <=? 240 + a) && (240 + a <=? 239)) with false by lia.
    replace ((240 <=? 240 + a) && (240 + a <=? 244)) with true by lia.
    replace ((128 <=? 128 + c) && (128 + c <=? 191)) with true by lia.
    replace ((128 <=? 128 + d) && (128 + d <=? 191)) with true by lia.
    destruct (Z.eqb_spec (240 + a) 240), (Z.eqb_spec (240 + a) 244); rewrite ?andb_true_r;
      match goal with |- (if ?x then _ else _) = _ => replace x with true by lia end; done.
Qed.

(** ** Strings *)

(** The inside of a string literal: every backslash starts an escape. *)
Inductive literal_body : bytes -> Prop :=
| lb_nil : literal_body []
| lb_byte c s : c ≠ 92 -> literal_body s -> literal_body (c :: s)
| lb_simple e s : e ∈ [34; 92; 47; 98; 102; 110; 114; 116] -> literal_body s -> literal_body (92 :: e :: s)
| lb_unicode x y z t s : literal_body s -> literal_body (92 :: 117 :: x :: y :: z :: t :: s).

Lemma str_body_literal l s r : str_body l = Some (s, r) -> literal_body s /\ exists q, l = s ++ q ++ r.
Proof.
  revert s r. induction l as [[|c l] IH] using length_ind; intros s r; [done |]. cbn [str_body].
  destruct (c =? 34) eqn:Ec; [intros [= <- <-]; split; [constructor | by exists [c]] |].
  destruct (c =? 92) eqn:Eb.
  - apply Z.eqb_eq in Eb as ->. destruct l as [|e l]; [done |]. destruct (e =? 117) eqn:Eu.
    + apply Z.eqb_eq in Eu as ->. destruct l as [|x [|y [|z [|t l]]]]; [done..|].
      destruct (_ && _); [|done]. intros (s' & Hs & ->)%prod_map_Some.
      apply IH in Hs as [Hs [q ->]]; [|cbn; lia]. split; [by constructor | by exists q].
    + case_bool_decide as He; [|done]. intros (s' & Hs & ->)%prod_map_Some.
      apply IH in Hs as [Hs [q ->]]; [|cbn; lia]. split; [by constructor | by exists q].
  - destruct (c <? 32); [done |]. intros (s' & Hs & ->)%prod_map_Some.
    apply IH in Hs as [Hs [q ->]]; [|cbn; lia]. split; [|by exists q]. constructor; [lia | done].
Qed.

Lemma literal_drop a s : Forall (fun c => 128 <= c) a -> literal_body (a ++ s) -> literal_body s.
Proof.
  induction 1 as [|c a Hc _ IH]; [done |]. cbn. intros H. inversion H; subst; try lia. auto.
Qed.

Lemma escaped_ascii e : e ∈ [34; 92; 47; 98; 102; 110; 114; 116] -> 0 <= escaped e < 128.
Proof. intros He. set_unfold in He. destruct_or?; subst; cbn; lia. Qed.

Lemma hex4_range x y z t : 0 <= hex4 x y z t < 65536.
Proof.
  assert (forall c, 0 <= default 0 (hexval c) < 16) as H.
  { intros c. destruct (hexval c) as [v|] eqn:E; cbn; [by apply hexval_bound in E | lia]. }
  unfold hex4. cbn [foldl]. pose proof (H x). pose proof (H y). pose proof (H z). pose proof (H t). lia.
Qed.

(** Whatever a string literal holds, the string is valid text. *)
Lemma unquote_ok s : literal_body s -> bytes_ok s -> text_ok (unquote 0 s).
Proof.
  induction s as [s IH] using length_ind. intros Hs Hb. inversion Hs as [|c s' Hc Hs'|e s' He Hs'|x y z t s' Hs']; subst.
  - split; [constructor | done].
  - cbn [unquote]. replace (c =? 92) with false by lia.
    destruct (utf8_len (c :: s')) as [|n] eqn:Eu.
    { apply text_ok_replacement, IH; [cbn; lia | done | by apply bytes_ok_cons in Hb as [_ Hb]]. }
    apply utf8_len_spec in Eu as (a & r & Ea & Hl & Hu & Ha). rewrite Ea in Hb. apply bytes_ok_app in Hb as [Hba Hbr].
    destruct a as [|c' a]; [done |]. injection Ea as <- ->. injection Hl as Hl. rewrite <- Hl, unquote_skip.
    apply (text_ok_rune (c :: a) n); [done | split; [by cbn; f_equal | done] |].
    apply IH; [cbn; rewrite length_app; lia | | done]. destruct Ha as [->|Ha].
    + by destruct a.
    + apply Forall_cons in Ha as [_ Ha]. by eapply literal_drop.
  - cbn [unquote]. rewrite Z.eqb_refl. replace (e =? 117) with false by (set_unfold in He; lia).
    apply text_ok_cons; [by apply escaped_ascii |].
    apply IH; [cbn; lia | done |]. by apply (bytes_ok_app [92; e]) in Hb as [_ Hb].
  - apply (bytes_ok_app [92; 117; x; y; z; t]) in Hb as [_ Hb].
    assert (text_ok (unquote 0 s')) as Hrest by (apply IH; [cbn; lia | done..]).
    cbn [unquote]. rewrite !Z.eqb_refl. set (u := hex4 x y z t). pose proof (hex4_range x y z t) as Hr. fold u in Hr.
    destruct (high u || low u) eqn:Esur; [|apply orb_false_iff in Esur as []; by apply encode_rune_ok; [lia |..]].
    repeat match goal with |- context [match ?l with _ => _ end] => is_var l; destruct l; try by apply text_ok_replacement end.
    match goal with |- context [hex4 ?a ?b ?c ?d] => set (v := hex4 a b c d); pose proof (hex4_range a b c d) as Hv; fold v in Hv end.
    destruct (high u && low v) eqn:Ep; [|by apply text_ok_replacement].
    unfold high, low, GoJson.between in Ep. apply encode_rune_ok.
    + lia.
    + unfold high, GoJson.between. lia.
    + unfold low, GoJson.between. lia.
    + inversion Hs' as [| |? ? He|]; subst; [done | by set_unfold in He; lia |].
      apply (bytes_ok_app [92; 117; _; _; _; _]) in Hb as [_ Hb]. apply IH; [cbn; lia | done..].
Qed.

(** ** The reader *)

(** A value that is no string, or valid text. *)
Definition leaf_ok (j : json) : Prop := match j with JStr s => text_ok s | _ => True end.
Definition members_leaf (ms : list (bytes * json)) : Prop := Forall (fun m => leaf_ok (snd m)) ms.
Definition read_ok (j : json) : Prop :=
  leaf_ok j /\ match j with JObj ms => members_leaf ms | _ => True end.

Lemma skip_bytes l : bytes_ok l -> bytes_ok (skip l).
Proof. induction l as [|c l IH]; [done |]. cbn. intros Hb. destruct (json_space c); [|done]. apply IH. by apply bytes_ok_cons in Hb as [_ Hb]. Qed.

Lemma expect_bytes c l r : bytes_ok l -> expect c l = Some r -> bytes_ok r.
Proof. intros Hb ->%expect_cons. by apply bytes_ok_cons in Hb as [_ Hb]. Qed.

Lemma expect_skip_bytes c l r : bytes_ok l -> expect c (skip l) = Some r -> bytes_ok r.
Proof. intros Hb. by apply expect_bytes, skip_bytes. Qed.

Lemma str_body_bytes l s r : bytes_ok l -> str_body l = Some (s, r) -> text_ok (unquote 0 s) /\ bytes_ok r.
Proof.
  intros Hb [Hs [q ->]]%str_body_literal. rewrite !bytes_ok_app in Hb. destruct Hb as (Hbs & _ & Hbr).
  split; [by apply unquote_ok | done].
Qed.

Lemma strip_bytes w l r : bytes_ok l -> strip w l = Some r -> bytes_ok r.
Proof.
  revert l. induction w as [|c w IH]; intros l Hb; cbn [strip]; [by intros [= ->] |].
  intros (l' & H & Hr)%bind_Some. eapply IH; [|exact Hr]. by eapply expect_bytes.
Qed.

Lemma literal_bytes l j r : bytes_ok l -> literal l = Some (j, r) -> read_ok j /\ bytes_ok r.
Proof.
  intros Hb. unfold literal. destruct (strip (codes "true") l) as [r1|] eqn:E1.
  { intros [= <- <-]. split; [done | by eapply strip_bytes]. }
  destruct (strip (codes "false") l) as [r2|] eqn:E2.
  { intros [= <- <-]. split; [done | by eapply strip_bytes]. }
  destruct (strip (codes "null") l) as [r3|] eqn:E3; [|done].
  intros [= <- <-]. split; [done | by eapply strip_bytes].
Qed.

Ltac take_bytes :=
  repeat match goal with
  | Hb : bytes_ok ?l, H : expect _ (skip ?l) = Some ?r |- _ => apply (expect_skip_bytes _ _ _ Hb) in H
  | Hb : bytes_ok ?l, H : str_body ?l = Some _ |- _ => apply (str_body_bytes _ _ _ Hb) in H as [? ?]
  end.

Lemma reader_ok n :
  (forall d l j r, bytes_ok l -> value n d l = Ok (j, r) -> read_ok j /\ bytes_ok r)
  /\ (forall d l j r, bytes_ok l -> GoJson.elements n d l = Ok (j, r) -> bytes_ok r)
  /\ (forall d l m r, bytes_ok l -> members n d l = Ok (m, r) -> members_leaf m /\ bytes_ok r).
Proof.
  induction n as [|n (IHv & IHe & IHm)]; [done |]. split_and!; intros d l j r Hb H; cbn in H.
  - apply skip_bytes in Hb. destruct (skip l) as [|c r0]; [done |].
    pose proof Hb as [_ Hr0]%bytes_ok_cons.
    destruct (c =? 123); [|destruct (c =? 91); [|destruct (c =? 34); [|destruct (_ || _)]]].
    + destruct d as [|d]; [done |]. destruct (expect 125 (skip r0)) eqn:E; ok_inv; take_bytes.
      * by repeat split; try constructor.
      * by apply IHm in H as [? ?].
    + destruct d as [|d]; [done |]. destruct (expect 93 (skip r0)) eqn:E; ok_inv; take_bytes; [done |].
      apply IHe in H; done.
    + ok_inv. by take_bytes.
    + ok_inv. match goal with H : number _ = Some _ |- _ => apply number_app in H as [H _]; rewrite H in Hb end.
      split; [done |]. by apply bytes_ok_app in Hb as [_ Hb].
    + ok_inv. match goal with H : literal _ = Some _ |- _ => by apply literal_bytes in H end.
  - ok_inv. match goal with H : value _ _ _ = _ |- _ => apply IHv in H as [_ ?]; [|done] end.
    case_match; ok_inv; take_bytes; [by eapply IHe | done].
  - ok_inv. take_bytes. match goal with H : value _ _ _ = _ |- _ => apply IHv in H as [[? _] ?]; [|done] end.
    case_match; ok_inv; take_bytes; [|by repeat constructor].
    match goal with H : members _ _ _ = _ |- _ => apply IHm in H as [? ?]; [|done] end. by repeat constructor.
Qed.

Lemma read_value_ok l j r : bytes_ok l -> read_value l = Some (j, r) -> read_ok j.
Proof.
  intros Hb. unfold read_value. destruct (value _ _ _) as [[j' r']| |] eqn:E; [|done..].
  intros [= <- <-]. by apply (proj1 (reader_ok _)) in E as [? _].
Qed.

(** ** Fields *)

(** Storing a value into a field that is well typed keeps it so. *)
Definition keeps {A} (c : codec A) : Prop :=
  field_ok c (zero c)
  /\ forall old j a, leaf_ok j -> field_ok c old -> of_json c old j = Some a -> field_ok c a.

Lemma get_field_ok {A} (c : codec A) name ms a :
  keeps c -> members_leaf ms -> get_field c name ms = Some a -> field_ok c a.
Proof.
  intros [Hz Hk] Hms. unfold get_field, store_fields.
  assert (forall v, (forall x, v = Some x -> field_ok c x) -> forall x,
    foldl (fun v m => if matches (fst m) name then v ≫= (fun old => of_json c old (snd m)) else v) v ms = Some x ->
    field_ok c x) as H.
  { induction Hms as [|m ms Hm _ IH]; intros v Hv x; [apply Hv |]. cbn [foldl]. apply IH.
    intros y. destruct (matches _ _); [|apply Hv]. intros (old & Ho & Hy)%bind_Some. exact (Hk old _ y Hm (Hv old Ho) Hy). }
  apply H. by intros x [= <-].
Qed.

Lemma dec_value_nonneg l : Forall (fun c => is_digit c = true) l -> 0 <= dec_value l.
Proof.
  unfold dec_value. enough (forall a, 0 <= a -> Forall (fun c => is_digit c = true) l ->
    0 <= foldl (fun a c => a * 10 + (c - 48)) a l) as H by (apply H; lia).
  induction l as [|c l IH]; intros a Ha Hl; [done |]. apply Forall_cons in Hl as [Hc Hl]. cbn. apply IH; [|done].
  unfold is_digit in Hc. lia.
Qed.

Lemma parse_uint_range bits l v : parse_uint bits l = Some v -> 0 <= v < 2 ^ bits.
Proof.
  unfold parse_uint. destruct (_ || negb _) eqn:E; [done |]. apply orb_false_iff in E as [_ E].
  apply negb_false_iff in E. destruct (Z.ltb_spec (dec_value l) (2 ^ bits)); [|done]. intros [= <-].
  split; [|done]. apply dec_value_nonneg. rewrite forallb_forall in E. apply Forall_forall.
  intros c Hc. by apply E, list_elem_of_In.
Qed.

Lemma parse_int64_range l v : parse_int64 l = Some v -> - 2 ^ 63 <= v < 2 ^ 63.
Proof.
  unfold parse_int64. destruct (expect 45 l) as [r|].
  - intros (x & Hx%parse_uint_range & H)%bind_Some. destruct (Z.leb_spec x (2 ^ 63)); [|done]. injection H as <-. lia.
  - intros (x & Hx%parse_uint_range & H)%bind_Some. destruct (Z.ltb_spec x (2 ^ 63)); [|done]. injection H as <-. lia.
Qed.

Lemma str_keeps : keeps str.
Proof.
  split; [done |]. intros old [| | |s| |] a Hl Ho; cbn; intros H; try done; injection H as <-; [done |].
  destruct Hl as [Hb Hu]. by rewrite codes_of_codes.
Qed.

Lemma uint_keeps bits : 0 <= bits -> keeps (uint bits).
Proof.
  intros Hbits. split; [cbn; split; [done | by apply Z.pow_pos_nonneg] |].
  intros old [| |l| | |] a _ Ho; cbn; intros H; try done; [by injection H as <- | by eapply parse_uint_range].
Qed.

Lemma int64_keeps : keeps int64.
Proof.
  split; [cbn; lia |].
  intros old [| |l| | |] a _ Ho; cbn; intros H; try done; [by injection H as <- | by eapply parse_int64_range].
Qed.

(** ** Observations *)

Lemma obs_of_members_ok ms o : members_leaf ms -> obs_of_members ms = Some o -> obs_ok o.
Proof.
  intros Hms. unfold obs_of_members. intros H.
  repeat match goal with H : _ ≫= _ = Some _ |- _ => apply bind_Some in H as (? & ? & ?) end.
  match goal with H : Some _ = Some o |- _ => apply (inj Some) in H; subst o end.
  repeat match goal with
  | H : get_field str _ _ = Some _ |- _ => apply (get_field_ok str _ _ _ str_keeps Hms) in H
  | H : get_field (uint ?b) _ _ = Some _ |- _ => apply (get_field_ok (uint b) _ _ _ (uint_keeps b ltac:(lia)) Hms) in H
  | H : get_field int64 _ _ = Some _ |- _ => apply (get_field_ok int64 _ _ _ int64_keeps Hms) in H
  end.
  unfold obs_ok. split_and!; assumption.
Qed.

(** What the collector decodes is well typed, whatever was posted. *)
Lemma decode_obs_ok body o : bytes_ok body -> decode_obs body = Some o -> obs_ok o.
Proof.
  intros Hb. unfold decode_obs. intros ([j r] & Hr & Ho)%bind_Some. apply read_value_ok in Hr as [_ Hj]; [|done].
  destruct j as [| | | | |ms]; try done;
    [apply (obs_of_members_ok [] o (Forall_nil_2 _) Ho) | apply (obs_of_members_ok ms o Hj Ho)].
Qed.
