(* ===== verification/CollectorHttp.v ===== *)
(** The collector as its users see it: requests by their paths, and the JSON texts of
    /path and /paths (writeJSON of collector/main.go), which read back as exactly what
    the store holds. *)
From S2P Require Import Prelude GoStd GoText GoTime GoJson GoJsonProps JsonCodec Observation ObsJson JsonTyped.
From S2P Require Import Collector CollectorProps.

Local Open Scope string_scope.
Local Open Scope list_scope.
Local Open Scope Z_scope.

(** ** Requests and answers *)

(** [http_id] is r.URL.Query().Get("id"). *)
Record http_request := mkHttp {
  http_method : string;
  http_path : string;
  http_id : string;
  http_body : bytes
}.

(** The patterns of the mux; "/" takes every other path. *)
Definition route (q : http_request) : request :=
  if bool_decide (http_path q = "/healthz") then Healthz
  else if bool_decide (http_path q = "/paths") then GetPaths
  else if bool_decide (http_path q = "/path") then GetPath (http_id q)
  else Root (http_method q) (http_body q).

(** A slice of [f x]: null for a nil slice. *)
Definition slice_json {A} (f : A -> json) (l : list A) : json :=
  match l with [] => JNull | _ => JArr (map f l) end.

Definition summary_members (x : runSummary) : list (bytes * json) :=
  put_field str "id" false (sum_id x) ++ put_field int64 "count" false (sum_count x).
Definition summary_json (x : runSummary) : json := JObj (summary_members x).

(** writeJSON: an encoder with two spaces of indentation. *)
Definition writeJSON (j : json) : bytes := encode_line j.

(** The status and the body; the texts of errors of the JSON decoder are left out. *)
Definition answer (r : response) : Z * option bytes :=
  match r with
  | RespOK => (200, Some (codes "ok" ++ [10]))
  | RespIds l => (200, Some (writeJSON (JArr (map summary_json l))))
  | RespPath l => (200, Some (writeJSON (slice_json obs_json l)))
  | RespError st => (st, None)
  | RespNoContent => (204, Some [])
  end.

Definition handle_http (q : http_request) (s : store) : go ((Z * option bytes) * store) :=
  '(r, s') ← serve decode_obs (route q) s;
  mret (answer r, s').

(** The store after requests in this order. *)
Fixpoint serve_all (qs : list http_request) (s : store) : go store :=
  match qs with
  | [] => mret s
  | q :: qs => '(_, s') ← handle_http q s; serve_all qs s'
  end.

(** ** A reader of the answers *)

(** json.Unmarshal into a slice. *)
Definition slice_of_json {A} (f : json -> option A) (j : json) : option (list A) :=
  match j with
  | JNull => Some []
  | JArr l => mapM f l
  | _ => None
  end.

Definition read_slice {A} (f : json -> option A) (text : bytes) : option (list A) :=
  j ← read_text text; slice_of_json f j.

Definition summary_of_json (j : json) : option runSummary :=
  match j with
  | JObj ms => i ← get_field str "id" ms; n ← get_field int64 "count" ms; Some (mkSummary i n)
  | _ => None
  end.

Definition read_path : bytes -> option (list Observation) := read_slice obs_of_json.
Definition read_paths : bytes -> option (list runSummary) := read_slice summary_of_json.

(** ** The texts read back *)

Lemma read_text_line j : json_ok j = true -> (depth j <= max_depth)%nat -> read_text (encode_line j) = Some (norm j).
Proof.
  intros Hj Hd. unfold read_text, encode_line. by rewrite read_print by (done || (split; [done | set_solver])).
Qed.

Lemma mapM_norm {A} (f : A -> json) (g : json -> option A) l :
  Forall (fun x => g (norm (f x)) = Some x) l -> mapM g (map norm (map f l)) = Some l.
Proof. induction 1 as [|x l Hx _ IH]; [done |]. cbn. by rewrite Hx, IH. Qed.

(** An array of objects without nesting. *)
Lemma array_ok {A} (f : A -> json) l :
  (forall x, json_ok (f x) = true /\ (depth (f x) <= 1)%nat) ->
  json_ok (JArr (map f l)) = true /\ (depth (JArr (map f l)) <= max_depth)%nat.
Proof.
  intros H. split.
  - cbn. apply forallb_Forall, Forall_map, Forall_true. intros x. apply H.
  - apply depth_small. cbn. apply le_n_S. transitivity 1%nat; [|lia].
    induction l as [|x l IH]; [cbn; lia |]. cbn. destruct (H x) as [_ Hx]. lia.
Qed.

Lemma read_array {A} (f : A -> json) (g : json -> option A) l :
  (forall x, json_ok (f x) = true /\ (depth (f x) <= 1)%nat) -> Forall (fun x => g (norm (f x)) = Some x) l ->
  read_slice g (writeJSON (JArr (map f l))) = Some l.
Proof.
  intros Hf Hg. destruct (array_ok f l Hf) as [Hj Hd]. unfold read_slice, writeJSON.
  rewrite read_text_line by done. cbn [mbind option_bind norm slice_of_json]. by apply mapM_norm.
Qed.

Lemma read_slice_json {A} (f : A -> json) (g : json -> option A) l :
  (forall x, json_ok (f x) = true /\ (depth (f x) <= 1)%nat) -> Forall (fun x => g (norm (f x)) = Some x) l ->
  read_slice g (writeJSON (slice_json f l)) = Some l.
Proof. intros Hf Hg. destruct l as [|x l]; [vm_compute; reflexivity |]. by apply read_array. Qed.

Lemma path_text l : Forall obs_ok l -> read_path (writeJSON (slice_json obs_json l)) = Some l.
Proof.
  intros Hl. apply read_slice_json; [apply obs_json_ok |].
  eapply Forall_impl; [exact Hl |]. intros o Ho. by apply obs_of_members_norm.
Qed.

Definition summary_ok (x : runSummary) : Prop := field_ok str (sum_id x) /\ field_ok int64 (sum_count x).

Lemma paths_text l : Forall summary_ok l -> read_paths (writeJSON (JArr (map summary_json l))) = Some l.
Proof.
  intros Hl. apply read_array.
  - intros x. apply object_ok, members_ok_app; apply put_field_ok.
  - eapply Forall_impl; [exact Hl |]. intros x [Hi Hn]. change (summary_of_json _) with
      (i ← get_field str "id" (norm_members (summary_members x ++ [])); n ← get_field int64 "count" (norm_members (summary_members x ++ []));
       Some (mkSummary i n)).
    unfold summary_members. rewrite <- !app_assoc, !norm_members_app.
    repeat (eapply bind_hit; [find_field |]). by destruct x.
Qed.

(** ** What the store holds is well typed *)

Definition typed (s : store) : Prop := forall id, Forall obs_ok (run s id).

Lemma run_after_add o s id :
  store_ok s -> 1 <= cap s ->
  run (added o s) id = run s id \/ run (added o s) id = []
  \/ id = ID o /\ run (added o s) id = run s id ++ [o].
Proof.
  intros Hok Hc. unfold added, run. destruct (runs s !! ID o) as [l|] eqn:E.
  - destruct (_ <=? _); [by left |]. cbn [runs]. destruct (decide (ID o = id)) as [<-|Hne].
    + right; right. by rewrite lookup_insert_eq, E.
    + left. by rewrite lookup_insert_ne.
  - cbn [runs]. destruct (decide (ID o = id)) as [<-|Hne].
    + right; right. by rewrite lookup_insert_eq, E.
    + rewrite lookup_insert_ne by done. unfold make_room. destruct (_ <=? _); [|by left]. cbn [runs].
      destruct (order s) as [|old rest]; [by left |]. destruct (decide (old = id)) as [->|Ho].
      * right; left. by rewrite lookup_delete_eq.
      * left. by rewrite lookup_delete_ne.
Qed.

Lemma run_added_own o s :
  Z.of_nat (length (run s (ID o))) < maxObsPerRun -> run (added o s) (ID o) = run s (ID o) ++ [o].
Proof.
  unfold run, added. destruct (runs s !! ID o) as [l|] eqn:E; intros Hlen.
  - cbn in Hlen. rewrite (proj2 (Z.leb_gt _ _) Hlen). cbn [runs]. by rewrite lookup_insert_eq.
  - cbn [runs]. by rewrite lookup_insert_eq.
Qed.

Lemma added_typed o s : store_ok s -> 1 <= cap s -> obs_ok o -> typed s -> typed (added o s).
Proof.
  intros Hok Hc Ho Hs id. destruct (run_after_add o s id Hok Hc) as [-> | [-> | [_ ->]]]; [apply Hs | constructor |].
  apply Forall_app. split; [apply Hs | by constructor].
Qed.

Definition http_ok (q : http_request) : Prop := bytes_ok (http_body q).

Lemma route_body q method body : route q = Root method body -> body = http_body q.
Proof. unfold route. repeat case_bool_decide; try done. by intros [= _ <-]. Qed.

Lemma handle_http_ok q s :
  http_ok q -> store_ok s -> 1 <= cap s -> typed s ->
  exists a s', handle_http q s = Ret (a, s') /\ store_ok s' /\ cap s' = cap s /\ typed s'.
Proof.
  intros Hq Hok Hc Hs. unfold handle_http. destruct (route q) as [| |id|method body] eqn:E; cbn [serve].
  - by eexists _, s.
  - by eexists _, s.
  - destruct (bool_decide _); by eexists _, s.
  - apply route_body in E as ->. destruct (bool_decide _); cbn [negb]; [|by eexists _, s].
    destruct (decode_obs (http_body q)) as [o|] eqn:Ed; [|by eexists _, s].
    destruct (bool_decide _); [by eexists _, s |]. rewrite add_added by done. cbn [mbind go_bind mret go_ret].
    destruct (added_ok o s Hok Hc) as [Hok' Hc'].
    eexists _, _. split_and!; [reflexivity | done | done |]. apply added_typed; [done.. | | done].
    by eapply decode_obs_ok.
Qed.

Lemma serve_all_ok qs s :
  Forall http_ok qs -> store_ok s -> 1 <= cap s -> typed s ->
  exists s', serve_all qs s = Ret s' /\ store_ok s' /\ cap s' = cap s /\ typed s'.
Proof.
  intros Hqs. revert s. induction Hqs as [|q qs Hq _ IH]; intros s Hok Hc Hs; [by eexists |].
  destruct (handle_http_ok q s Hq Hok Hc Hs) as (a & s1 & E & Hok1 & Hc1 & Hs1). cbn [serve_all].
  rewrite E. cbn [mbind go_bind]. destruct (IH s1 Hok1 ltac:(lia) Hs1) as (s' & E' & Hok' & Hc' & Hs').
  exists s'. split_and!; [done.. | congruence | done].
Qed.

Lemma path_typed s id : typed s -> Forall obs_ok (path s id).
Proof.
  intros Hs. unfold path, sortStable. specialize (Hs id). revert Hs. generalize (run s id). intros l Hl.
  enough (forall acc, Forall obs_ok acc -> Forall obs_ok (foldl (fun acc x => insert_obs x acc) acc l)) as H
    by (apply H; constructor).
  induction Hl as [|o l Ho _ IH]; intros acc Hacc; [done |]. cbn [foldl]. apply IH.
  rewrite insert_perm. by constructor.
Qed.

Lemma ids_typed s : store_ok s -> typed s -> Forall summary_ok (ids s).
Proof.
  intros Hok Hs. unfold ids. apply Forall_map, Forall_forall. intros id Hid.
  apply (ok_dom _ Hok) in Hid as [l Hl]. destruct (ok_runs _ Hok _ _ Hl) as (Hne & Hlen & Hall).
  specialize (Hs id). unfold run in Hs |- *. rewrite Hl in *. cbn [default] in *.
  destruct l as [|o l]; [done |]. apply Forall_cons in Hall as [<- _]. apply Forall_cons in Hs as [[(Hid & _) _] _].
  split; [exact Hid |]. unfold maxObsPerRun in Hlen. cbn -[length] in *. lia.
Qed.

(** C25: What users read is what the collector holds.  With --max-runs at least 1,
    after any HTTP requests in any order, with any bytes as bodies: no handler has
    panicked, every stored observation is well typed (text in UTF-8, numbers in
    range), GET /path?id= answers 200 with a JSON text that reads back as exactly the
    path of the run, and /paths with one that reads back as exactly the ids with their
    counts; and an observation that is posted as JSON is acknowledged and, unless its
    run is full, the next answer for its run is the path with this observation
    added. *)
Theorem collector_serves_what_it_holds c qs :
  1 <= c -> Forall http_ok qs ->
  exists s, serve_all qs (newStore c) = Ret s /\ typed s
    /\ (forall method id body, id ≠ ""%string ->
          exists text, handle_http (mkHttp method "/path" id body) s = Ret ((200, Some text), s)
            /\ read_path text = Some (path s id))
    /\ (forall method id body,
          exists text, handle_http (mkHttp method "/paths" id body) s = Ret ((200, Some text), s)
            /\ read_paths text = Some (ids s))
    /\ (forall o, obs_ok o -> ID o ≠ ""%string -> Z.of_nat (length (run s (ID o))) < maxObsPerRun ->
          exists s' text, handle_http (mkHttp "POST" "/" "" (marshal (obs_json o))) s = Ret ((204, Some []), s')
            /\ handle_http (mkHttp "GET" "/path" (ID o) []) s' = Ret ((200, Some text), s')
            /\ read_path text = Some (sortStable (run s (ID o) ++ [o]))).
Proof.
  intros Hc Hqs.
  destruct (serve_all_ok qs (newStore c) Hqs (newStore_ok c ltac:(lia)) Hc) as (s & E & Hok & Hcap & Hs);
    [intros id; unfold run; cbn; by rewrite lookup_empty |].
  assert (1 <= cap s) as Hc' by (rewrite Hcap; exact Hc).
  assert (forall s id method body, typed s -> id ≠ ""%string ->
    exists text, handle_http (mkHttp method "/path" id body) s = Ret ((200, Some text), s)
      /\ read_path text = Some (path s id)) as Hpath.
  { intros s1 id method body Hs1 Hid. unfold handle_http. change (route _) with (GetPath id). cbn [serve].
    rewrite bool_decide_false by done. eexists. split; [reflexivity |]. by apply path_text, path_typed. }
  exists s. split_and!; [done | done | | |].
  - intros method id body Hid. by apply Hpath.
  - intros method id body. eexists. split; [reflexivity |]. by apply paths_text, ids_typed.
  - intros o Ho Hid Hlen. destruct (added_ok o s Hok Hc') as [Hok' _].
    destruct (Hpath (added o s) (ID o) "GET" [] (added_typed o s Hok Hc' Ho Hs) Hid) as (text & Hh & Hr).
    exists (added o s), text. split_and!; [| exact Hh |].
    + unfold handle_http. change (route _) with (Root "POST" (marshal (obs_json o))). cbn [serve].
      rewrite bool_decide_true by done. cbn [negb].
      assert (decode_obs (marshal (obs_json o)) = Some o) as ->.
      { rewrite <- (app_nil_r (marshal _)). by apply decode_print_obs. }
      rewrite bool_decide_false by done. by rewrite add_added.
    + rewrite Hr. unfold path. by rewrite run_added_own.
Qed.

Definition demo_posts : list http_request :=
  [mkHttp "POST" "/" "" (marshal (obs_json sample_obs)); mkHttp "POST" "/ingest" "" [123; 255; 0];
   mkHttp "GET" "/paths" "" []].

Lemma collector_serves_what_it_holds_witness :
  exists s, serve_all demo_posts (newStore 2) = Ret s
    /\ exists text, handle_http (mkHttp "GET" "/path" (ID sample_obs) []) s = Ret ((200, Some text), s)
      /\ read_path text = Some [sample_obs].
Proof.
  destruct (collector_serves_what_it_holds 2 demo_posts) as (s & E & _ & Hpath & _); [lia | |].
  - apply (bool_decide_unpack (Forall (fun q => bytes_ok (http_body q)) demo_posts)). vm_compute. exact I.
  - exists s. split; [exact E |]. destruct (Hpath "GET"%string (ID sample_obs) []) as (text & H & Hr); [done |].
    exists text. split; [exact H |]. rewrite Hr.
    assert (serve_all demo_posts (newStore 2) ≫= (fun s => mret (path s (ID sample_obs))) = Ret [sample_obs]) as Hp
      by (vm_compute; reflexivity).
    rewrite E in Hp. apply (f_equal (fun r => match r with Ret l => Some l | Panic => None end)) in Hp. exact Hp.
Defined.
